(* ===== verification/_CoqProject ===== *)
-Q . S2P
Prelude.v
CLib.v
Iface.v
Util.v
Request.v
Fifo.v
MsgLog.v
Control.v
Db.v
Storage.v
Replica.v
Console.v
Server.v
Worker.v
Failover.v
Agreement.v
Client.v
Menu.v
Reply.v
RepMgr.v
Daemon.v
Manager.v
Policy.v
Factory.v
Lfd.v
Tables.v
Wire.v
Transfer.v
Protocol.v
Orders.v
Session.v
Cluster.v
Service.v
Takeover.v
Recovery.v
Rejoin.v
System.v
Handover.v
Passive.v
Launch.v
Startup.v
Loss.v
Threads.v
Interleave.v
Grain.v
Races.v
Modes.v
