(* ===== verification/Prelude.v ===== *)
(** * A replicated to-do list

    This library models the C programs of a fault-tolerant to-do list and proves
    what they do. Five programs run: replicated _servers_ that hold the table of
    tasks, interactive _clients_, one _factory_ and one _local fault detector_
    for each replica, and one _replication manager_. A client writes a request
    to every server; a connection thread of a server parses it and puts it in a
    log; a worker takes it from the log, executes it on a hash table and
    replies. The fault detector sends heartbeats to its server and reports to
    the manager; the manager elects the primary, starts and recovers replicas by
    commands to the factories; a factory turns these into messages for its
    server. The primary of the passive mode sends its table to the backups as a
    checkpoint file.

    ** Files and what they model

    - [Prelude]: outcomes of a C function, machine integers, bytes, tactics and
      lemmas that all files share. [CLib]: the string and number functions of
      the C library that the sources use. [Iface]: [include/c_s_iface.h],
      [include/state.h], [include/server.h], [include/replication_util.h].
    - [Util]: [src/util.c] (buffered reading, full transfers, numbers, replies).
      [Request]: the request format and the loop over its fields, which
      [src/server.c], [src/replication_manager.c] and [src/factory.c] repeat.
    - [Fifo]: the interface of the message log, a class with its laws.
      [MsgLog]: [src/log.c], linked queues on a heap under a mutex, and the
      instance of that class. The threads are proved against the class.
    - [Control]: [src/state.c], the flags of [src/chkpt.c] and [src/worker.c],
      [handle_rep_msg] and [handle_quiesce_command] of [src/server.c].
    - [Db]: [src/db.c]. [Storage]: [src/storage.c].
    - [Replica]: the state the threads of a server share (record [replica]),
      the reply writer and the checkpoint sender ([src/chkpt.c]).
      [Console]: [print_user_req]. [Server]: [parse_kv], [handle_connection],
      [execute_msg] (and [execute_msg_printed], with its rows),
      [execute_msg_ctrl]. [Worker]: [run] of [src/worker.c].
    - [Client] and [Menu]: [src/client.c]. [RepMgr] and [Manager]:
      [src/replication_manager.c]. [Factory]: [src/factory.c]. [Lfd]:
      [src/local_f_detector.c]. [Tables]: what the client and the fault detector
      print. [Daemon]: the socket and the loop around
      [accept] that the mains share. [Launch]: the mains of the server, the
      factory and the fault detector, and [start_worker_threads].
    - Compositions without code of their own: [Reply] (replies, written and
      read), [Wire] (requests, written and read), [Transfer] (a checkpoint from
      one table to another), [Protocol] and [Orders] (from the manager through a
      factory to the state of a server; from a fault detector to the manager),
      [Failover] (a backup that becomes the primary), [Agreement] (two replicas),
      [System] (all steps of the threads of a server), [Session] (a client and a
      replica), [Cluster] (a client and all replicas, one request),
      [Service] (the same for any sequence of requests of any number of clients),
      [Takeover] (the loss of the primary in passive mode, across all programs),
      [Handover] (checkpoint, requests and loss of the primary, in passive mode),
      [Passive] (clients, a primary and its backups, for any sequence of requests,
      checkpoints, losses of the primary and arrivals of backups),
      [Recovery] (the servers when a replica comes back in active mode), [Rejoin]
      (the same, across all programs), [Startup] (from the command lines to the
      first replica that serves clients), [Loss] (two faults that destroy all
      tasks).
    - [Policy]: the abstract machine of leader, replicas and orders that the
      manager of [RepMgr] and [Manager] refines; no code of its own.
    - The threads of a server at the grain of memory accesses: [Threads] (a
      machine with [storage_lock] and [pthread_create], and the workers, the
      connection threads, the checkpoint thread and [src/state.c] as programs of
      it), [Interleave] (what holds under every schedule), [Grain] (a step of
      the other files is a thread that moves alone), [Races] (what other
      schedules do), [Modes] (mode, state, table and log in every state of every
      schedule, by rely and guarantee).

    A definition has the name of the C function it translates. State is passed
    explicitly; a function that can fail returns an [outcome]: [Ret], [Exit] (the
    process ends), [Undef] (undefined behaviour: an access out of bounds, a null
    or freed pointer, a string without an end) or [NoFuel] (the loop is still
    running, or a mutex is taken that is never released). An [int] is a [Z] with
    the wrap-around written out ([i32], [u32], [i64], [u64]); an array of [char]
    is the list of its bytes.

    ** What the theorems show

    - The whole way of a request: [Service.service_refines_todo] (any number of
      clients and active replicas against a list of tasks),
      [Passive.passive_refines_todo] (the same for a primary and its backups, with
      checkpoints, losses of the primary and arrivals among the requests),
      [Cluster.replicated_add] (all active replicas execute an addition, stay in
      agreement, and the client succeeds),
      [Session.add_remove_session], [Wire.client_request_logged],
      [Reply.reply_roundtrip], [Server.handle_connection_logs].
    - The start: [Startup.cold_start] (from the command lines of the manager, a
      factory and a fault detector to the first replica that serves clients).
    - The whole way of a failure: [Takeover.takeover] (from the report of the
      fault detector to the new primary, its backlog executed),
      [Handover.failover_keeps_tasks] (the new primary holds the tasks of the lost
      one),
      [Rejoin.return_of_a_replica] (from the report of the fault detector to a
      replica with the tasks of the primary), [Recovery.recovered_replica_agrees]
      (quiescence, checkpoint and way back, for any requests) and
      [Recovery.recovery_loses_request] (what the quiescence does not protect),
      [Loss.double_fault_loses_tasks] (what a second fault destroys).
    - The manager: [Policy.manager_refines_policy] (its messages and membership
      against the policy, for every sequence of reports), [Policy.roles_told]
      (every running replica was told its role), [Policy.no_primary_without_fault],
      [Manager.manager_invariant].
    - Threads: [Interleave.every_schedule_serializes] (under every schedule each
      logged request is executed or freed at most once, in the order of the log,
      and the table is the one of that sequence),
      [Grain.coarse_steps_are_schedules], [Races.quiesce_lets_one_through],
      [Races.quiesce_holds_requests], [Races.quiesce_race],
      [Races.demotion_race], [Races.running_order_lost].
    - Refinement: [Db.db_refines_table] (the chained table against one list of
      tasks in the order of their insertion, for insertions, deletions,
      modifications and lookups), [MsgLog.log_refines_queues] (the linked queues against two
      bounded lists), [Transfer.checkpoint_transfer] (a checkpoint against
      copying the table), [Db.import_export].
    - Invariants of every reachable state, under every schedule of the accesses:
      [Modes.process_invariant] (a server from its command line on),
      [Modes.mode_invariant], [Storage.handle_storage_invariant], and again
      [Manager.manager_invariant] (which also says which reports are handled to
      their end, and which one may leave the lock taken).
      [Control.control_invariant] and [Launch.server_invariant] are stronger
      about the checkpoint thread of a passive server, and hold only when
      handlers do not overlap; [Races.demotion_race] gives two that do.
    - Replication: [Agreement.replicas_agree] (same order, same tables and
      replies) and [Agreement.orders_diverge] (the order is not given),
      [Failover.failover_drains_backlog], [Orders.order_takes_effect],
      [RepMgr.active_recovery_order],
      [RepMgr.primary_failover], [Worker.prune_drops_later].
    - Functions on all branches: [Control.handle_rep_msg_behaviour],
      [Server.execute_msg_behaviour], [Server.handle_connection_payload],
      [Worker.run_normal_step], [Lfd.heartbeat_round],
      [Protocol.report_reaches_manager], [Util.sock_readline_chunking] (the line
      reader sees only the stream), [Util.full_transfers].
    - Processes: [Launch.spawned_processes], [Menu.session_ends],
      [Menu.config_roundtrip], [Console.request_row_fits].
    - What goes wrong: [Db.modify_behaviour] (a search that never advances),
      [Db.get_all_overflows], [Server.truncated_payload_hangs],
      [Client.exchange_hangs], [Control.quiesce_twice_sticks],
      [RepMgr.early_return_keeps_lock], [RepMgr.startup_request_forgotten].

    ** Bounds and fuel

    Loops over input carry fuel. The loop over fields takes [MAX_REQ_FIELDS + 2]
    turns, which its own limit makes enough; the line reader and the transfers
    take what their input needs; [get_response_from_server] reads six lines of a
    reply, and the theorems about replies are stated for any larger bound. The loops that may
    run for ever ([search_list], the payload loop, [poll], the menu) keep their
    fuel as an argument: their theorems either give the amount that is enough or
    show that none is.

    ** Where the model ends

    - Outside [Threads], [Interleave], [Grain], [Races] and [Modes] a step is a
      connection handled to its end, an iteration of a worker or of the heartbeat
      thread, or a step of the checkpoint thread; steps interleave freely, but
      within a step nothing else moves. Those five files take a single read or
      write of a shared variable, a call on the log or a call on the storage as
      one step; a connection thread appears in them when it has read and parsed
      its request, which uses nothing that another thread writes but the state
      in the reply to a malformed request. Memory is sequentially
      consistent; the shared variables are plain or volatile C variables, for
      which C promises less. The writers of a log queue hold its mutex, which
      [MsgLog] models, so that a call on the log is atomic. A call on the storage
      and [print_state] are one step each; that two of them can overlap is
      stated by [Races.print_races_with_storage].
    - A request is a value, not a heap object: that the connection thread reads
      the request again after logging it, when a worker may have freed it, is not
      represented.
    - Of the system calls, what [read], [write], [connect], [accept], [fork],
      [malloc], [fopen], [pthread_create], [time] and [rand] return is a
      parameter. A reply is recorded as written; what a client that is gone does
      to [write] is not represented.
    - In [Control] the thread that is stopped ends at once; the round it may send
      before it sees the signal is in [Threads] only. [write] takes all of the
      bytes it is given or none ([copy_loop]); the [malloc] of the table itself
      does not fail; [SHA1_Final] writes behind its union and the first eight
      bytes are what is read ([generate_key]); what lies behind the factory's
      configured address is a parameter.
    - SHA-1 (OpenSSL), [getopt] and libconfuse are parameters: their code is not
      part of the repository.
    - Of the functions that call [print_user_req], [execute_msg] is also given
      with its rows ([execute_msg_printed], which is undefined for a date without
      an end); in [execute_msg_ctrl] and elsewhere the call is left out, as are
      the calls of the tables of the client and the fault detector, which are
      modelled on their own;
      the other console output, [sleep], [signal] and the debug macros are left
      out.
    - The header of libconfuse, the build files and the configuration files have
      no code to model.
    - [Service] and [Passive] take the requests of the clients one after the
      other; what overlapping requests do to the replicas is stated by
      [Agreement.orders_diverge] and, within a server, by the threads. They leave
      out modifications, which depend on the place of the task in its bucket
      ([Db.modify_behaviour]). [Startup] follows the first replica; the others
      are the policy's ([Policy]) and, in active mode, [Rejoin]. *)
From Stdlib Require Export ZArith Lia Ascii String.
From stdpp Require Export base tactics list gmap.

#[export] Set Default Proof Using "Type".
Global Open Scope Z_scope.

(** * Outcomes of a C function

    [Ret a]: the function returned [a].  [Exit]: the process ended (a failed
    [assert], [exit()] or [abort()]).  [Undef]: the execution leaves what the C
    standard defines (an access outside an object, a read of a pointer that is
    null or freed).  [NoFuel]: the loop was still running after the steps it
    was given. *)
Inductive outcome (A : Type) : Type :=
  | Ret (a : A)
  | Exit
  | Undef
  | NoFuel.
Arguments Ret {A} a.
Arguments Exit {A}.
Arguments Undef {A}.
Arguments NoFuel {A}.

#[global] Instance outcome_ret : MRet outcome := fun A a => Ret a.
#[global] Instance outcome_bind : MBind outcome := fun A B f m =>
  match m with
  | Ret a => f a
  | Exit => Exit
  | Undef => Undef
  | NoFuel => NoFuel
  end.
#[global] Instance outcome_fmap : FMap outcome := fun A B f m =>
  match m with
  | Ret a => Ret (f a)
  | Exit => Exit
  | Undef => Undef
  | NoFuel => NoFuel
  end.

(** [assert(b)] in a build without [NDEBUG] (the Makefiles never define it). *)
Definition c_assert (b : bool) : outcome unit := if b then Ret tt else Exit.

(** Dereferencing a pointer that may be null or dangling. *)
Definition deref {A} (o : option A) : outcome A :=
  match o with Some a => Ret a | None => Undef end.

Lemma bind_ret_l {A B} (a : A) (f : A -> outcome B) : (Ret a ≫= f) = f a.
Proof. reflexivity. Qed.

Lemma bind_Ret_inv {A B} (m : outcome A) (f : A -> outcome B) b :
  (m ≫= f) = Ret b -> exists a, m = Ret a /\ f a = Ret b.
Proof. destruct m; simpl; intros H; try discriminate; eauto. Qed.

Lemma deref_Ret_inv {A} (o : option A) a : deref o = Ret a -> o = Some a.
Proof. destruct o; simpl; congruence. Qed.

(** A computation built from terminating parts terminates. *)
Lemma bind_total {A B} (m : outcome A) (f : A -> outcome B) :
  m <> NoFuel -> (forall a, m = Ret a -> f a <> NoFuel) -> (m ≫= f) <> NoFuel.
Proof. intros Hm Hf. destruct m; simpl; try done. by apply Hf. Qed.

(** Two computations that end alike, with related results. *)
Definition outcome_rel {A B} (R : A -> B -> Prop) (o : outcome A) (o' : outcome B) : Prop :=
  match o, o' with
  | Ret a, Ret b => R a b
  | Exit, Exit | Undef, Undef | NoFuel, NoFuel => True
  | _, _ => False
  end.

Lemma outcome_rel_bind {A B C D} (R : A -> B -> Prop) (S : C -> D -> Prop)
    (o : outcome A) (o' : outcome B) f g :
  outcome_rel R o o' -> (forall a b, R a b -> outcome_rel S (f a) (g b)) ->
  outcome_rel S (o ≫= f) (o' ≫= g).
Proof. intros H Hf. destruct o, o'; simpl in *; try done. by apply Hf. Qed.

Lemma outcome_rel_impl {A B} (R S : A -> B -> Prop) (o : outcome A) (o' : outcome B) :
  outcome_rel R o o' -> (forall a b, R a b -> S a b) -> outcome_rel S o o'.
Proof. intros H Hf. destruct o, o'; simpl in *; auto. Qed.

(** The result, where there is one. *)
Definition answer {A} (d : A) (o : outcome A) : A := match o with Ret x => x | _ => d end.

(** Takes apart hypotheses of the form [(x ← m; k) = Ret b]. *)
Ltac inv_bind :=
  repeat match goal with
  | H : (_ ≫= _) = Ret _ |- _ =>
      let a := fresh "r" in let Ha := fresh "Hr" in
      apply bind_Ret_inv in H; destruct H as (a & Ha & H)
  | H : deref _ = Ret _ |- _ => apply deref_Ret_inv in H
  | H : mbind _ _ = Ret _ |- _ => progress simpl in H
  end.

(** Splits on the boolean tests of [if]s and turns them into propositions. *)
Ltac case_if :=
  match goal with
  | |- context [if ?b then _ else _] => let E := fresh "Hif" in destruct b eqn:E
  | H : context [if ?b then _ else _] |- _ => let E := fresh "Hif" in destruct b eqn:E
  end.

Ltac zbool :=
  repeat match goal with
  | H : (_ && _)%bool = true |- _ => apply andb_prop in H; destruct H
  | H : (_ || _)%bool = false |- _ => apply orb_false_elim in H; destruct H
  | H : negb _ = true |- _ => apply negb_true_iff in H
  | H : negb _ = false |- _ => apply negb_false_iff in H
  | H : (_ =? _) = true |- _ => apply Z.eqb_eq in H
  | H : (_ =? _) = false |- _ => apply Z.eqb_neq in H
  | H : (_ <? _) = true |- _ => apply Z.ltb_lt in H
  | H : (_ <? _) = false |- _ => apply Z.ltb_ge in H
  | H : (_ <=? _) = true |- _ => apply Z.leb_le in H
  | H : (_ <=? _) = false |- _ => apply Z.leb_gt in H
  end.

(** * Machine integers

    A C integer is a [Z]; the conversions below are the ones gcc documents on
    x86-64 (two's complement, reduction modulo the width). *)
Definition u32 (z : Z) : Z := z mod 2 ^ 32.
Definition u64 (z : Z) : Z := z mod 2 ^ 64.
Definition i32 (z : Z) : Z := (z + 2 ^ 31) mod 2 ^ 32 - 2 ^ 31.
Definition i64 (z : Z) : Z := (z + 2 ^ 63) mod 2 ^ 64 - 2 ^ 63.

Definition INT_MIN : Z := - 2 ^ 31.
Definition INT_MAX : Z := 2 ^ 31 - 1.
Definition LONG_MIN : Z := - 2 ^ 63.
Definition LONG_MAX : Z := 2 ^ 63 - 1.
Definition ULONG_MAX : Z := 2 ^ 64 - 1.

Definition is_i32 (z : Z) : Prop := INT_MIN <= z <= INT_MAX.
Definition is_u64 (z : Z) : Prop := 0 <= z <= ULONG_MAX.

Ltac unfold_ints := unfold u32, u64, i32, i64, is_i32, is_u64, INT_MIN, INT_MAX,
  LONG_MIN, LONG_MAX, ULONG_MAX in *.

(** Normalises the powers of two so that [lia] can use them. *)
Ltac int_lia := unfold_ints; change (2 ^ 31) with 2147483648 in *;
  change (2 ^ 32) with 4294967296 in *;
  change (2 ^ 63) with 9223372036854775808 in *;
  change (2 ^ 64) with 18446744073709551616 in *;
  Z.div_mod_to_equations; lia.

Lemma i32_small z : is_i32 z -> i32 z = z.
Proof. intros; int_lia. Qed.

Lemma i32_range z : is_i32 (i32 z).
Proof. int_lia. Qed.

Lemma u64_small z : is_u64 z -> u64 z = z.
Proof. intros; int_lia. Qed.

Lemma u64_range z : is_u64 (u64 z).
Proof. int_lia. Qed.

(** Writing an [int] through a cast pointer into an object of eight bytes, as
    the server does for [req_no] and [payload.size]: on a little-endian machine
    the low half is replaced and the high half stays. *)
Definition store_low32 (old v : Z) : Z :=
  let hi := Z.shiftr (u64 old) 32 in Z.shiftl hi 32 + u32 v.

Lemma store_low32_small v : 0 <= v <= INT_MAX -> store_low32 0 v = v.
Proof.
  intros H. unfold store_low32, u64. rewrite Z.mod_0_l by lia.
  rewrite Z.shiftr_0_l, Z.shiftl_0_l. int_lia.
Qed.

(** * Bytes *)
Abbreviation bytes := (list ascii).

Definition NUL : ascii := "000"%char.
Definition CR : ascii := "013"%char.
Definition LF : ascii := "010"%char.
Definition TAB : ascii := "009"%char.

Declare Scope c_scope.
Delimit Scope c_scope with c.
Notation "⟦ s ⟧" := (list_ascii_of_string s%string) (at level 0, s at level 200) : c_scope.
Global Open Scope c_scope.

Definition CRLF : bytes := [CR; LF].

Definition zlen {A} (l : list A) : Z := Z.of_nat (length l).
Definition ztake {A} (n : Z) (l : list A) : list A := take (Z.to_nat n) l.
Definition zdrop {A} (n : Z) (l : list A) : list A := drop (Z.to_nat n) l.

(** [memcpy(dst, src, |src|)]: the first bytes of [dst] replaced by [src]. *)
Definition overwrite {A} (src dst : list A) : list A := src ++ drop (length src) dst.

(** [n] zero bytes ([memset(p, 0, n)]). *)
Definition zeros (n : Z) : bytes := replicate (Z.to_nat n) NUL.

(** Equality of byte strings, computing. *)
Fixpoint bytes_eqb (a b : bytes) : bool :=
  match a, b with
  | [], [] => true
  | x :: a', y :: b' => if Ascii.eqb x y then bytes_eqb a' b' else false
  | _, _ => false
  end.

Lemma bytes_eqb_spec a b : reflect (a = b) (bytes_eqb a b).
Proof.
  revert b. induction a as [|x a IH]; intros [|y b]; simpl; try (constructor; congruence).
  destruct (Ascii.eqb_spec x y) as [->|Hne]; [|constructor; congruence].
  destruct (IH b) as [->|Hne]; constructor; congruence.
Qed.

Lemma bytes_eqb_refl a : bytes_eqb a a = true.
Proof. destruct (bytes_eqb_spec a a); congruence. Qed.

Lemma bytes_eqb_neq a b : a <> b -> bytes_eqb a b = false.
Proof. by destruct (bytes_eqb_spec a b). Qed.

(** * Lists *)
Lemma zlen_nonneg {A} (l : list A) : 0 <= zlen l.
Proof. unfold zlen; lia. Qed.

Lemma zlen_app {A} (l k : list A) : zlen (l ++ k) = zlen l + zlen k.
Proof. unfold zlen. rewrite length_app. lia. Qed.

Lemma zlen_cons {A} (x : A) l : zlen (x :: l) = zlen l + 1.
Proof. unfold zlen. simpl. lia. Qed.

Lemma zlen_snoc {A} (x : A) l : zlen (l ++ [x]) = zlen l + 1.
Proof. by rewrite zlen_app. Qed.

Lemma length_overwrite {A} (s d : list A) :
  (length s <= length d)%nat -> length (overwrite s d) = length d.
Proof. intros. unfold overwrite. rewrite length_app, length_drop. lia. Qed.

Lemma take_overwrite {A} (s d : list A) : take (length s) (overwrite s d) = s.
Proof. unfold overwrite. apply take_app_length. Qed.

Lemma last_overwrite {A} (a b : list A) x : (length a < length b)%nat -> last b = Some x ->
  last (overwrite a b) = Some x.
Proof.
  intros Hl Hb. unfold overwrite. rewrite <- (take_drop (length a) b), last_app in Hb.
  rewrite last_app. destruct (last (drop (length a) b)) eqn:E; [done|].
  apply last_None in E. apply (f_equal length) in E. rewrite length_drop in E. simpl in E. lia.
Qed.

(** The elements before the first one that satisfies [f], and the rest. *)
Fixpoint span {A} (f : A -> bool) (l : list A) : list A * list A :=
  match l with
  | [] => ([], [])
  | x :: t => if f x then let '(a, b) := span f t in (x :: a, b) else ([], l)
  end.

Lemma span_app {A} (f : A -> bool) l : fst (span f l) ++ snd (span f l) = l.
Proof.
  induction l as [|x l IH]; simpl; [done|]. destruct (f x); [|done].
  destruct (span f l); simpl in *. by rewrite IH.
Qed.

Lemma span_all {A} (f : A -> bool) l k :
  Forall (fun x => f x = true) l ->
  (match k with [] => True | x :: _ => f x = false end) ->
  span f (l ++ k) = (l, k).
Proof.
  intros Hl Hk. induction Hl as [|x l Hx Hl IH]; simpl.
  - destruct k as [|x k]; simpl; [done|]. by rewrite Hk.
  - by rewrite Hx, IH.
Qed.

Lemma filter_ext_Forall {A} (P1 P2 : A -> Prop)
    `{!forall x, Decision (P1 x), !forall x, Decision (P2 x)} (l : list A) :
  Forall (fun x => P1 x <-> P2 x) l -> filter P1 l = filter P2 l.
Proof.
  induction 1 as [|x l Hx Hl IH]; [done|]. rewrite !filter_cons.
  destruct (decide (P1 x)) as [H1|H1], (decide (P2 x)) as [H2|H2]; try tauto; by rewrite IH.
Qed.

Create Rewrite HintDb clib.
#[export] Hint Rewrite @zlen_app @length_app @length_drop @length_take @app_nil_r : clib.
