(* ===== verification/CLib.v ===== *)
(** The part of the C standard library the program uses on strings and
    numbers: [strcmp]/[strncmp]/[strlen], [strtol]/[strtoul]/[atoi], the
    conversions of [sscanf] and of [sprintf] that appear in the sources, as
    computing functions on byte lists, with the lemma that a printed number
    reads back. *)
From S2P Require Import Prelude.

(** * C strings *)

Definition not_nul (c : ascii) : bool := negb (Ascii.eqb c NUL).

(** The C string stored at the start of a buffer: the bytes before the first
    NUL. *)
Definition cstr (b : bytes) : bytes := fst (span not_nul b).

Definition has_nul (b : bytes) : bool := existsb (Ascii.eqb NUL) b.

(** The C string in an array object; reading it runs out of the object when
    there is no NUL. *)
Definition c_string (b : bytes) : outcome bytes :=
  if has_nul b then Ret (cstr b) else Undef.

(** [strncpy(dst, src, n)] with [n] the size of [dst]: at most [n] bytes, and
    zero padding up to [n]; no NUL is added when [src] is too long. *)
Definition strncpy (n : Z) (src : bytes) : bytes :=
  ztake n src ++ zeros (n - zlen src).

(** [!strncmp(s, lit, strlen(lit))]. *)
Fixpoint starts_with (lit s : bytes) : bool :=
  match lit, s with
  | [], _ => true
  | x :: lit', y :: s' => if Ascii.eqb x y then starts_with lit' s' else false
  | _ :: _, [] => false
  end.

(** * Character classes *)

Definition code (c : ascii) : Z := Z.of_N (N_of_ascii c).

Definition is_space (c : ascii) : bool :=
  ((9 <=? code c) && (code c <=? 13)) || (code c =? 32).

(** Value of a digit or letter as [strtol] reads it. *)
Definition digit_val (c : ascii) : option Z :=
  let z := code c in
  if (48 <=? z) && (z <=? 57) then Some (z - 48)
  else if (97 <=? z) && (z <=? 122) then Some (z - 87)
  else if (65 <=? z) && (z <=? 90) then Some (z - 55)
  else None.

Definition digit_in (base : Z) (c : ascii) : bool :=
  match digit_val c with Some d => d <? base | None => false end.

Fixpoint skip_spaces (s : bytes) : bytes :=
  match s with
  | c :: t => if is_space c then skip_spaces t else s
  | [] => []
  end.

(** * Reading numbers *)

Fixpoint scan_digits (base acc : Z) (s : bytes) : Z * bytes :=
  match s with
  | c :: t =>
      match digit_val c with
      | Some d => if d <? base then scan_digits base (acc * base + d) t else (acc, s)
      | None => (acc, s)
      end
  | [] => (acc, [])
  end.

Definition scan_sign (s : bytes) : bool * bytes :=
  match s with
  | c :: t => if Ascii.eqb c "-" then (true, t)
              else if Ascii.eqb c "+" then (false, t) else (false, s)
  | [] => (false, [])
  end.

(** The base of the number and the string after the prefix: base 0 means
    hexadecimal after 0x, octal after 0, decimal otherwise. *)
Definition scan_base (base : Z) (s : bytes) : Z * bytes :=
  if base =? 0 then
    match s with
    | "0"%char :: x :: h :: t =>
        if (Ascii.eqb x "x" || Ascii.eqb x "X") && digit_in 16 h then (16, h :: t)
        else (8, s)
    | "0"%char :: _ => (8, s)
    | _ => (10, s)
    end
  else (base, s).

(** Sign, magnitude and the unread rest ([endptr]), without the range check;
    [None] when no number is there ([endptr] is then the whole string). *)
Definition scan_number (base : Z) (s : bytes) : option (bool * Z * bytes) :=
  let '(neg, s1) := scan_sign (skip_spaces s) in
  let '(b, s2) := scan_base base s1 in
  match s2 with
  | c :: _ => if digit_in b c
              then let '(v, rest) := scan_digits b 0 s2 in Some (neg, v, rest)
              else None
  | [] => None
  end.

Definition clamp_long (v : Z) : Z :=
  if v <? LONG_MIN then LONG_MIN else if LONG_MAX <? v then LONG_MAX else v.

(** [strtol(s, &end, base)]: the value and the string at [end]. *)
Definition strtol (base : Z) (s : bytes) : Z * bytes :=
  match scan_number base s with
  | Some (neg, v, rest) => (clamp_long (if (neg : bool) then - v else v), rest)
  | None => (0, s)
  end.

(** [strtoul]/[strtoull]: out of range gives [ULONG_MAX]; a minus sign negates
    modulo 2^64. *)
Definition strtoul (base : Z) (s : bytes) : Z * bytes :=
  match scan_number base s with
  | Some (neg, v, rest) =>
      ((if ULONG_MAX <? v then ULONG_MAX else if (neg : bool) then u64 (- v) else v), rest)
  | None => (0, s)
  end.

(** [atoi(s)] is [(int) strtol(s, NULL, 10)]. *)
Definition atoi (s : bytes) : Z := i32 (fst (strtol 10 s)).

(** * Printing numbers *)

Definition digit_char (d : Z) : ascii := ascii_of_N (Z.to_N (48 + d)).

Fixpoint dec_digits (fuel : nat) (n : Z) (acc : bytes) : bytes :=
  match fuel with
  | O => acc
  | S f => let acc' := digit_char (n mod 10) :: acc in
           if n <? 10 then acc' else dec_digits f (n / 10) acc'
  end.

(** [%lu]: twenty digits are enough for 64 bits. *)
Definition fmt_u (n : Z) : bytes := dec_digits 20 n [].

(** [%d] and [%ld]. *)
Definition fmt_d (n : Z) : bytes :=
  if n <? 0 then "-"%char :: fmt_u (- n) else fmt_u n.

(** * sscanf *)

(** A conversion specification: a literal character, white space, [%[^...]]
    with an optional width, [%s], [%lu] and [%*c]. *)
Inductive dir :=
  | DLit (c : ascii)
  | DWs
  | DNot (w : option Z) (stop : bytes)
  | DStr
  | DULong
  | DSkip.

Inductive sval :=
  | VStr (s : bytes)
  | VNum (z : Z).

(** Literal text of a format string; white space matches any white space. *)
Definition lit (s : bytes) : list dir :=
  map (fun c => if is_space c then DWs else DLit c) s.

Definition not_in (stop : bytes) (c : ascii) : bool :=
  negb (existsb (Ascii.eqb c) stop).

(** The longest prefix of [%w[^stop]] and the rest. *)
Definition scan_not (w : option Z) (stop s : bytes) : bytes * bytes :=
  let '(a, b) := span (not_in stop) s in
  match w with
  | Some n => (ztake n a, zdrop n a ++ b)
  | None => (a, b)
  end.

(** The values assigned, in order; the length of the list is what [sscanf]
    returns (an input failure before the first assignment returns -1 and gives
    the empty list as well). *)
Fixpoint sscanf (f : list dir) (s : bytes) : list sval :=
  match f with
  | [] => []
  | DLit c :: f' =>
      match s with
      | x :: t => if Ascii.eqb x c then sscanf f' t else []
      | [] => []
      end
  | DWs :: f' => sscanf f' (skip_spaces s)
  | DNot w stop :: f' =>
      match scan_not w stop s with
      | ([], _) => []
      | (a, rest) => VStr a :: sscanf f' rest
      end
  | DStr :: f' =>
      match span (fun c => negb (is_space c)) (skip_spaces s) with
      | ([], _) => []
      | (a, rest) => VStr a :: sscanf f' rest
      end
  | DULong :: f' =>
      match scan_number 10 s with
      | Some _ => let '(v, rest) := strtoul 10 s in VNum v :: sscanf f' rest
      | None => []
      end
  | DSkip :: f' =>
      match s with
      | _ :: t => sscanf f' t
      | [] => []
      end
  end.

(** * Lemmas: C strings *)

Lemma cstr_nul_free s : Forall (fun c => not_nul c = true) s -> cstr s = s.
Proof.
  intros H. unfold cstr. pose proof (span_all not_nul s [] H I) as E.
  rewrite app_nil_r in E. by rewrite E.
Qed.

Lemma cstr_app_nul s t : Forall (fun c => not_nul c = true) s -> cstr (s ++ NUL :: t) = s.
Proof. intros H. unfold cstr. by rewrite span_all. Qed.

Lemma cstr_app s t : Forall (fun c => not_nul c = true) s -> cstr (s ++ t) = s ++ cstr t.
Proof.
  intros H. induction H as [|c s Hc Hs IH]; [done|]. unfold cstr in *. simpl. rewrite Hc.
  destruct (span not_nul (s ++ t)). simpl in *. by rewrite IH.
Qed.

Lemma c_string_total b : c_string b <> NoFuel.
Proof. unfold c_string. by case_if. Qed.

Lemma has_nul_last b : last b = Some NUL -> has_nul b = true.
Proof.
  intros H. apply last_Some in H as [l ->]. unfold has_nul. rewrite existsb_app. simpl.
  by rewrite orb_true_r.
Qed.

Lemma has_nul_app_nul s t : has_nul (s ++ NUL :: t) = true.
Proof. unfold has_nul. rewrite existsb_app. simpl. by rewrite orb_true_r. Qed.

Lemma c_string_app_nul s t :
  Forall (fun c => not_nul c = true) s -> c_string (s ++ NUL :: t) = Ret s.
Proof. intros H. unfold c_string. by rewrite has_nul_app_nul, cstr_app_nul. Qed.

Lemma starts_with_app lit s t : starts_with lit s = true -> starts_with lit (s ++ t) = true.
Proof.
  revert s. induction lit as [|x lit IH]; intros [|y s]; simpl; try done.
  destruct (Ascii.eqb x y); auto.
Qed.

Lemma skip_spaces_head c t : is_space c = false -> skip_spaces (c :: t) = c :: t.
Proof. simpl. by intros ->. Qed.

(** * Lemmas: printed numbers *)

Definition is_digit (c : ascii) : Prop := 48 <= code c <= 57.

(** Case analysis over the ten decimal digits. *)
Ltac ten d :=
  assert (d = 0 \/ d = 1 \/ d = 2 \/ d = 3 \/ d = 4 \/ d = 5 \/ d = 6 \/ d = 7
          \/ d = 8 \/ d = 9) as Hten by lia;
  destruct Hten as [->|[->|[->|[->|[->|[->|[->|[->|[->| ->]]]]]]]]].

Lemma code_digit_char d : 0 <= d < 10 -> code (digit_char d) = 48 + d.
Proof. intros H. ten d; reflexivity. Qed.

Lemma digit_val_char d : 0 <= d < 10 -> digit_val (digit_char d) = Some d.
Proof. intros H. ten d; reflexivity. Qed.

Lemma mod10_range n : 0 <= n mod 10 < 10.
Proof. apply Z.mod_pos_bound. lia. Qed.

#[local] Hint Resolve mod10_range : core.

Lemma pow10_succ f : 10 ^ Z.of_nat (S f) = 10 * 10 ^ Z.of_nat f.
Proof. rewrite Nat2Z.inj_succ, Z.pow_succ_r by lia. done. Qed.

Lemma dec_digits_scan f n rest :
  0 <= n < 10 ^ Z.of_nat f -> (0 < f)%nat ->
  exists p, forall a, scan_digits 10 a (dec_digits f n rest) = scan_digits 10 (a * p + n) rest.
Proof.
  revert n rest. induction f as [|f IH]; intros n rest Hn Hf; [lia|].
  rewrite pow10_succ in Hn.
  assert (forall a t, scan_digits 10 a (digit_char (n mod 10) :: t)
                      = scan_digits 10 (a * 10 + n mod 10) t) as Hstep.
  { intros a t. simpl. rewrite digit_val_char by done.
    replace (n mod 10 <? 10) with true; [done|]. pose proof (mod10_range n). lia. }
  simpl dec_digits. destruct (n <? 10) eqn:E; zbool.
  - exists 10. intros a. rewrite Hstep. by rewrite Z.mod_small by lia.
  - destruct f as [|f']; [simpl in *; lia|].
    destruct (IH (n / 10) (digit_char (n mod 10) :: rest)) as [p Hp];
      [split; [apply Z.div_pos; lia|apply Z.div_lt_upper_bound; lia]|lia|].
    exists (10 * p). intros a. rewrite Hp, Hstep. f_equal.
    pose proof (Z.div_mod n 10). lia.
Qed.

Lemma dec_digits_app f n acc : dec_digits f n acc = dec_digits f n [] ++ acc.
Proof.
  revert n acc. induction f as [|f IH]; intros n acc; simpl; [done|].
  destruct (n <? 10); [done|]. rewrite IH, (IH _ [_]), <- app_assoc. done.
Qed.

Lemma dec_digits_digits f n : 0 <= n -> Forall is_digit (dec_digits f n []).
Proof.
  revert n. induction f as [|f IH]; intros n Hn; simpl; [done|].
  assert (is_digit (digit_char (n mod 10))).
  { unfold is_digit. rewrite code_digit_char by done. pose proof (mod10_range n). lia. }
  destruct (n <? 10); [by apply Forall_singleton|].
  rewrite dec_digits_app. apply Forall_app. split; [|by apply Forall_singleton].
  apply IH, Z.div_pos; lia.
Qed.

Lemma dec_digits_head f n :
  0 < n < 10 ^ Z.of_nat f -> exists c t, dec_digits f n [] = c :: t /\ code c <> 48.
Proof.
  revert n. induction f as [|f IH]; intros n Hn; [simpl in Hn; lia|].
  rewrite pow10_succ in Hn. simpl. destruct (n <? 10) eqn:E; zbool.
  - eexists _, _. split; [done|]. rewrite Z.mod_small, code_digit_char by lia. lia.
  - destruct (IH (n / 10)) as (c & t & Hc & Hne).
    { split; [apply Z.div_str_pos; lia|apply Z.div_lt_upper_bound; lia]. }
    rewrite dec_digits_app, Hc. simpl. eauto.
Qed.

Lemma pow10_20 z : z <= ULONG_MAX -> z < 10 ^ Z.of_nat 20.
Proof. int_lia. Qed.

Lemma fmt_u_scan n rest :
  is_u64 n -> scan_digits 10 0 (fmt_u n ++ rest) = scan_digits 10 n rest.
Proof.
  intros [H1 H2]. unfold fmt_u. rewrite <- dec_digits_app.
  destruct (dec_digits_scan 20 n rest) as [p Hp]; [split; [done|by apply pow10_20]|lia|].
  by rewrite Hp.
Qed.

Lemma fmt_u_digits n : is_u64 n -> Forall is_digit (fmt_u n).
Proof. intros [H _]. by apply dec_digits_digits. Qed.

(** The first character: a zero only for the number zero. *)
Lemma fmt_u_head n : is_u64 n ->
  exists c t, fmt_u n = c :: t /\ is_digit c /\ (c = "0"%char -> n = 0 /\ t = []).
Proof.
  intros Hn. pose proof (fmt_u_digits n Hn) as Hd. destruct Hn as [H1 H2].
  destruct (decide (n = 0)) as [->|Hne].
  { exists "0"%char, []. split; [done|]. split; [|done].
    unfold is_digit. change (code "0") with 48. lia. }
  destruct (dec_digits_head 20 n) as (c & t & Hc & H48); [split; [lia|by apply pow10_20]|].
  exists c, t. unfold fmt_u in *. rewrite Hc in *. inversion_clear Hd.
  split; [done|]. split; [done|]. intros ->. exfalso. by apply H48.
Qed.

Lemma digit_val_digit c : is_digit c -> digit_in 10 c = true.
Proof.
  unfold is_digit, digit_in, digit_val. intros [H1 H2].
  replace (48 <=? code c) with true by lia. replace (code c <=? 57) with true by lia. simpl. lia.
Qed.

(** Refutes [is_digit c] for a concrete other character. *)
Ltac digit_absurd Hc := exfalso; vm_compute in Hc; intuition congruence.

Lemma digit_not_sign c t : is_digit c -> scan_sign (c :: t) = (false, c :: t).
Proof.
  unfold is_digit. intros Hc. simpl.
  destruct (Ascii.eqb_spec c "-") as [->|_]; [digit_absurd Hc|].
  destruct (Ascii.eqb_spec c "+") as [->|_]; [digit_absurd Hc|]. done.
Qed.

Lemma digit_not_space c : is_digit c -> is_space c = false.
Proof.
  unfold is_digit, is_space. intros Hc.
  replace (code c <=? 13) with false by lia. replace (code c =? 32) with false by lia.
  by rewrite andb_false_r.
Qed.

Lemma scan_base_10 c t :
  (c = "0"%char -> t = []) -> exists b, scan_base 0 (c :: t) = (b, c :: t) /\ (b = 10 \/ (b = 8 /\ t = [] /\ c = "0"%char)).
Proof.
  intros H. destruct (Ascii.eqb_spec c "0") as [->|Hne].
  - rewrite (H eq_refl). exists 8. eauto.
  - exists 10. split; [|by left]. unfold scan_base. simpl.
    destruct c as [[] [] [] [] [] [] [] []]; try done.
Qed.

(** Reading back a printed natural number, after an optional sign, in base 0 or
    base 10. *)
Lemma scan_number_fmt base neg sg n :
  is_u64 n -> base = 0 \/ base = 10 ->
  scan_sign (skip_spaces (sg ++ fmt_u n)) = (neg, fmt_u n) ->
  scan_number base (sg ++ fmt_u n) = Some (neg, n, []).
Proof.
  intros Hn Hb Hs. unfold scan_number. rewrite Hs.
  destruct (fmt_u_head n Hn) as (c & t & Hc & Hd & H0).
  pose proof (fmt_u_scan n [] Hn) as Hscan. rewrite app_nil_r in Hscan. simpl in Hscan.
  destruct Hb as [->| ->].
  - destruct (scan_base_10 c t) as (b & Hb & Hcase); [intros; by apply H0|].
    rewrite Hc in *. rewrite Hb. destruct Hcase as [->|(-> & -> & ->)].
    + by rewrite digit_val_digit, Hscan.
    + destruct (H0 eq_refl) as [-> _]. done.
  - unfold scan_base. simpl. rewrite Hc in *. by rewrite digit_val_digit, Hscan.
Qed.

Lemma scan_number_fmt_u base n :
  is_u64 n -> base = 0 \/ base = 10 -> scan_number base (fmt_u n) = Some (false, n, []).
Proof.
  intros Hn Hb. apply (scan_number_fmt base false []); [done|done|].
  destruct (fmt_u_head n Hn) as (c & t & Hc & Hd & _). simpl. rewrite Hc.
  rewrite skip_spaces_head by (by apply digit_not_space). by apply digit_not_sign.
Qed.

Lemma scan_number_fmt_d base n :
  LONG_MIN <= n <= LONG_MAX -> base = 0 \/ base = 10 ->
  scan_number base (fmt_d n) = Some (n <? 0, Z.abs n, []).
Proof.
  intros Hn Hb. unfold fmt_d. destruct (n <? 0) eqn:E; zbool.
  - change ("-"%char :: fmt_u (- n)) with (["-"%char] ++ fmt_u (- n)).
    rewrite (scan_number_fmt base true) by (done || int_lia).
    do 2 f_equal. f_equal. lia.
  - rewrite scan_number_fmt_u by (done || int_lia). do 2 f_equal. f_equal. lia.
Qed.

Lemma strtol_fmt_d base n :
  LONG_MIN <= n <= LONG_MAX -> base = 0 \/ base = 10 -> strtol base (fmt_d n) = (n, []).
Proof.
  intros Hn Hb. unfold strtol. rewrite scan_number_fmt_d by done. f_equal.
  destruct (n <? 0) eqn:E; unfold clamp_long; zbool;
    repeat (case_if; zbool; try lia); lia.
Qed.

Lemma strtoul_fmt_u base n :
  is_u64 n -> base = 0 \/ base = 10 -> strtoul base (fmt_u n) = (n, []).
Proof.
  intros Hn Hb. unfold strtoul. rewrite scan_number_fmt_u by done.
  unfold is_u64 in Hn. case_if; zbool; [lia|done].
Qed.

(** With text after the number. *)
Lemma strtoul_fmt_u_rest n rest : is_u64 n ->
  (match rest with [] => True | c :: _ => digit_val c = None end) ->
  strtoul 10 (fmt_u n ++ rest) = (n, rest)
  /\ is_Some (scan_number 10 (fmt_u n ++ rest)).
Proof.
  intros Hn Hr. assert (scan_number 10 (fmt_u n ++ rest) = Some (false, n, rest)) as E.
  { destruct (fmt_u_head n Hn) as (c & t & Hc & Hd & _).
    unfold scan_number. rewrite Hc. simpl app.
    rewrite skip_spaces_head by (by apply digit_not_space).
    rewrite digit_not_sign by done. simpl scan_base. unfold scan_base. simpl.
    rewrite digit_val_digit by done.
    pose proof (fmt_u_scan n rest Hn) as Hs. rewrite Hc in Hs. simpl app in Hs.
    simpl in Hs. rewrite Hs. destruct rest as [|x rest]; simpl; [done|]. by rewrite Hr. }
  unfold strtoul. rewrite E. unfold is_u64 in Hn. split; [|by eexists].
  case_if; zbool; [lia|done].
Qed.

Lemma atoi_fmt_d n : is_i32 n -> atoi (fmt_d n) = n.
Proof.
  intros Hn. unfold atoi. rewrite strtol_fmt_d; [by apply i32_small|int_lia|by right].
Qed.

(** * Text that survives a line of the wire format *)

(** What [%[^\r\n]] reads back whole: no CR, LF or NUL, not empty and not
    starting with white space (the blank in the format skips it). *)
Definition text_char (c : ascii) : bool := not_in [CR; LF] c && not_nul c.

Definition text_ok (v : bytes) : Prop :=
  Forall (fun c => text_char c = true) v
  /\ match v with [] => False | c :: _ => is_space c = false end.

#[global] Instance text_ok_dec v : Decision (text_ok v).
Proof. unfold text_ok. destruct v; apply _. Defined.

Lemma digit_text c : is_digit c -> text_char c = true.
Proof.
  unfold is_digit. intros Hc. unfold text_char, not_in, not_nul. simpl.
  repeat match goal with |- context [Ascii.eqb ?a ?b] =>
    destruct (Ascii.eqb_spec a b) as [->|_]; [digit_absurd Hc|] end. done.
Qed.

Lemma fmt_u_text n : is_u64 n -> text_ok (fmt_u n).
Proof.
  intros Hn. split.
  - eapply Forall_impl; [by apply fmt_u_digits|]. apply digit_text.
  - destruct (fmt_u_head n Hn) as (c & t & -> & Hd & _). by apply digit_not_space.
Qed.

Lemma fmt_d_text n : LONG_MIN <= n <= LONG_MAX -> text_ok (fmt_d n).
Proof.
  intros Hn. unfold fmt_d. destruct (n <? 0) eqn:E; zbool.
  - destruct (fmt_u_text (- n)) as [H _]; [int_lia|]. split; [by constructor|done].
  - apply fmt_u_text. int_lia.
Qed.

Lemma text_ok_nul_free v : text_ok v -> Forall (fun c => not_nul c = true) v.
Proof.
  intros [H _]. eapply Forall_impl; [done|]. intros c Hc.
  unfold text_char in Hc. by zbool.
Qed.

Lemma text_ok_not_in v : text_ok v -> Forall (fun c => not_in [CR; LF] c = true) v.
Proof.
  intros [H _]. eapply Forall_impl; [done|]. intros c Hc.
  unfold text_char in Hc. by zbool.
Qed.

Create HintDb wire.
#[export] Hint Resolve fmt_u_text fmt_d_text : wire.

(** * Lemmas: sscanf, one directive at a time *)

Lemma sscanf_DNot f stop a rest :
  a <> [] -> Forall (fun c => not_in stop c = true) a ->
  (match rest with [] => True | x :: _ => not_in stop x = false end) ->
  sscanf (DNot None stop :: f) (a ++ rest) = VStr a :: sscanf f rest.
Proof.
  intros Ha Hs Hr. simpl. unfold scan_not. rewrite span_all by done. by destruct a.
Qed.

Lemma fmt_u_no_space n : is_u64 n -> Forall (fun c => is_space c = false) (fmt_u n).
Proof.
  intros Hn. eapply Forall_impl; [by apply fmt_u_digits|]. apply digit_not_space.
Qed.

Lemma fmt_d_no_space n : LONG_MIN <= n <= LONG_MAX ->
  Forall (fun c => is_space c = false) (fmt_d n).
Proof.
  intros Hn. unfold fmt_d. destruct (n <? 0) eqn:E; zbool; [constructor; [done|]|];
    apply fmt_u_no_space; int_lia.
Qed.

Lemma sscanf_DULong f n rest : is_u64 n ->
  (match rest with [] => True | c :: _ => digit_val c = None end) ->
  sscanf (DULong :: f) (fmt_u n ++ rest) = VNum n :: sscanf f rest.
Proof.
  intros Hn Hr. destruct (strtoul_fmt_u_rest n rest Hn Hr) as [E [x Hx]].
  cbn [sscanf]. by rewrite Hx, E.
Qed.

Lemma sscanf_DStr f a rest :
  a <> [] -> Forall (fun c => is_space c = false) a ->
  (match rest with [] => True | x :: _ => is_space x = true end) ->
  sscanf (DStr :: f) (a ++ rest) = VStr a :: sscanf f rest.
Proof.
  intros Ha Hs Hr. simpl.
  assert (skip_spaces (a ++ rest) = a ++ rest) as ->.
  { destruct Hs as [|c a Hc _]; [done|]. simpl. by rewrite Hc. }
  rewrite span_all; [by destruct a|..].
  - eapply Forall_impl; [done|]. by intros c ->.
  - destruct rest; [done|]. by rewrite Hr.
Qed.

Lemma sscanf_DWs f v rest :
  text_ok v -> sscanf (DWs :: f) (v ++ rest) = sscanf f (v ++ rest).
Proof. intros [_ Hv]. destruct v as [|c v]; [done|]. simpl. by rewrite Hv. Qed.

(** * Lemmas: the range of what is read *)

Lemma digit_val_nonneg c d : digit_val c = Some d -> 0 <= d.
Proof. unfold digit_val. repeat case_if; intros [= <-]; zbool; lia. Qed.

Lemma scan_digits_nonneg base s : forall acc, 0 <= base -> 0 <= acc ->
  0 <= (scan_digits base acc s).1.
Proof.
  induction s as [|c s IH]; intros acc Hb Ha; simpl; [done|].
  destruct (digit_val c) as [d|] eqn:E; [|done]. apply digit_val_nonneg in E.
  destruct (d <? base); [|done]. apply IH; [done|nia].
Qed.

Lemma strtoul_range s : is_u64 (strtoul 10 s).1.
Proof.
  unfold strtoul, scan_number. destruct (scan_sign (skip_spaces s)) as [neg s1]. simpl.
  destruct s1 as [|c s1]; [done|]. destruct (digit_in 10 c); [|done].
  destruct (scan_digits 10 0 (c :: s1)) as [v rest] eqn:E.
  assert (0 <= v) as Hv by (pose proof (scan_digits_nonneg 10 (c :: s1) 0); rewrite E in *; simpl in *; lia).
  cbn [fst]. case_if; [done|]. destruct neg; [apply u64_range|]. zbool. split; lia.
Qed.

Definition sval_ok (v : sval) : Prop := match v with VNum n => is_u64 n | VStr _ => True end.

Lemma sscanf_range f : forall s, Forall sval_ok (sscanf f s).
Proof.
  induction f as [|[] f IH]; intros s; cbn [sscanf]; try done.
  - destruct s; [done|]. by case_if.
  - destruct (scan_not w stop s) as [[|] ?]; [done|]. by constructor.
  - destruct (span _ (skip_spaces s)) as [[|] ?]; [done|]. by constructor.
  - destruct (scan_number 10 s); [|done]. pose proof (strtoul_range s) as H.
    destruct (strtoul 10 s). by constructor.
  - by destruct s.
Qed.

Lemma code_range c : 0 <= code c < 256.
Proof. unfold code. pose proof (N_ascii_bounded c). lia. Qed.

(** * Lemmas: lengths *)

Lemma dec_digits_length f n : (length (dec_digits f n []) <= f)%nat.
Proof.
  revert n. induction f as [|f IH]; intros n; [done|]. simpl. case_if; [simpl; lia|].
  rewrite dec_digits_app, length_app. specialize (IH (n / 10)). simpl. lia.
Qed.

Lemma dec_digits_width k fuel : forall n acc, (1 <= k)%nat -> n < 10 ^ Z.of_nat k ->
  (length (dec_digits fuel n acc) <= k + length acc)%nat.
Proof.
  revert k. induction fuel as [|f IH]; intros k n acc Hk Hn; [simpl; lia|].
  cbn [dec_digits]. cbv zeta. case_if; zbool; [simpl; lia|].
  destruct k as [|[|k]]; [lia|simpl in Hn; lia|].
  specialize (IH (S k) (n / 10) (digit_char (n mod 10) :: acc)). simpl length in *.
  assert (n / 10 < 10 ^ Z.of_nat (S k)); [|lia].
  apply Z.div_lt_upper_bound; [lia|]. rewrite <- Z.pow_succ_r by lia.
  by replace (Z.succ (Z.of_nat (S k))) with (Z.of_nat (S (S k))) by lia.
Qed.

Lemma fmt_d_length n : zlen (fmt_d n) <= 21.
Proof.
  unfold zlen, fmt_d, fmt_u.
  pose proof (dec_digits_length 20 n). pose proof (dec_digits_length 20 (- n)).
  case_if; cbn [length]; lia.
Qed.

Lemma fmt_u_length n : zlen (fmt_u n) <= 20.
Proof. unfold zlen, fmt_u. pose proof (dec_digits_length 20 n). lia. Qed.

Lemma span_length {A} (f : A -> bool) l : (length (span f l).1 <= length l)%nat.
Proof. rewrite <- (span_app f l) at 2. rewrite length_app. lia. Qed.

Lemma cstr_length b : zlen (cstr b) <= zlen b.
Proof. unfold cstr, zlen. pose proof (span_length not_nul b). lia. Qed.
