(* ===== verification/Iface.v ===== *)
(** The data the programs share: the enumerations and structures of
    [include/c_s_iface.h], [include/state.h] and [include/replication_util.h].

    An enumeration variable that can be assigned from the wire through an
    [int] pointer holds any [int], so it is a [Z] here and the enumerators are
    named constants; a [char] array is the list of its bytes. *)
From S2P Require Import Prelude CLib.

(** [msg_type_t] *)
Definition INVALID : Z := 0.
Definition MSG_ADD : Z := 1.
Definition MSG_MODIFY : Z := 2.
Definition MSG_GET_ALL : Z := 3.
Definition MSG_REMOVE : Z := 4.
Definition MSG_HEARTBEAT : Z := 5.
Definition MSG_CHK_PT : Z := 6.
Definition MSG_REP_MGR : Z := 7.
Definition MSG_SEND_CHKPT : Z := 8.
Definition MSG_QUIESCE_START : Z := 9.
Definition MSG_QUIESCE_STOP : Z := 10.

(** [enum t_status] *)
Definition TASK_NOT_DONE : Z := 0.
Definition TASK_DONE : Z := 1.

(** [rep_mode_t] *)
Definition UNKNOWN_REP : Z := 0.
Definition ACTIVE_REP : Z := 1.
Definition PASSIVE_REP : Z := 2.

(** [server_states_t] *)
Definition UNKNOWN_STATE : Z := 0.
Definition QUIESCE : Z := 1.
Definition ACTIVE_RUNNING : Z := 2.
Definition ACTIVE_RECOVER : Z := 3.
Definition PASSIVE_PRIMARY : Z := 4.
Definition PASSIVE_BACKUP : Z := 5.
Definition PASSIVE_PREPRIMARY : Z := 6.

(** [enum replica_state] *)
Definition RUNNING : Z := 0.
Definition FAULTED : Z := 1.
Definition SENT_STARTUP_REQ : Z := 2.

(** [enum factory_req] *)
Definition STARTUP : Z := 0.
Definition CHANGE_STATE : Z := 1.
Definition SEND_CHKPT : Z := 2.
Definition QUIESCE_BEGIN : Z := 3.
Definition QUIESCE_STOP : Z := 4.
Definition NO_ACTION : Z := 5.

(** Sizes *)
Definition MAX_REQ_FIELDS : Z := 20.
Definition MAX_LENGTH : Z := 8192.
Definition TASK_LENGTH : Z := 1024.
Definition DATE_LENGTH : Z := 32.
Definition MAX_REPLICAS : Z := 3.

(** Flags of [mod_flags] *)
Definition MOD_FLAGS_TASK_STRING_MODIFIED : Z := 1.
Definition MOD_FLAGS_DATE_MODIFIED : Z := 2.
Definition MOD_FLAGS_STATUS_MODIFIED : Z := 4.

Record message_add := {
  ma_task : bytes;
  ma_task_date : bytes;
  ma_task_status : Z
}.

Record message_modify := {
  mm_task : bytes;
  mm_new_task : bytes;
  mm_new_date : bytes;
  mm_new_task_status : Z;
  mm_mod_flags : Z
}.

Record message_remove := {
  mr_task : bytes;
  mr_req_no : Z
}.

(** [sizeof(struct message_modify)]: two task strings, a date and two ints. *)
Definition MAXMSGSIZE : Z := TASK_LENGTH + TASK_LENGTH + DATE_LENGTH + 4 + 4.

Record message_response := {
  resp_hash_key : Z;
  resp_client_id : Z;
  resp_status : bytes;
  resp_req_no : Z;
  resp_state : Z
}.

Record server_info := {
  server_ip : bytes;
  port : Z
}.
Definition SERVER_INFO_INITIALISER : server_info := {| server_ip := zeros 1024; port := 0 |}.

Record bsvr_ctx := {
  bs_fd : Z;
  bs_info : server_info;
  bs_server_id : Z   (* unsigned int *)
}.
Definition BSVR_CTX_INITIALISER : bsvr_ctx :=
  {| bs_fd := -1; bs_info := SERVER_INFO_INITIALISER; bs_server_id := u32 (-1) |}.
(** An element the initialiser list of an array does not name is all zero. *)
Definition BSVR_CTX_ZERO : bsvr_ctx :=
  {| bs_fd := 0; bs_info := SERVER_INFO_INITIALISER; bs_server_id := 0 |}.

Record rep_mgr_msg_t := {
  rm_rep_mode : Z;
  rm_server_state : Z;
  rm_checkpoint_freq : Z;
  rm_bckup_svr_0 : bsvr_ctx;
  rm_bckup_svr_1 : bsvr_ctx
}.
Definition REP_MGR_MSG_INITIALISER : rep_mgr_msg_t :=
  {| rm_rep_mode := 0; rm_server_state := 0; rm_checkpoint_freq := 10;
     rm_bckup_svr_0 := BSVR_CTX_INITIALISER; rm_bckup_svr_1 := BSVR_CTX_ZERO |}.

Record client_request_t := {
  msg_type : Z;
  task : bytes;            (* char[1024] *)
  date : bytes;            (* char[32] *)
  task_status : Z;
  mod_flags : Z;
  task_len : Z;            (* uint64_t *)
  hash_key : Z;            (* uint64_t *)
  req_no : Z;              (* uint64_t *)
  payload_data : bytes;
  payload_size : Z;        (* int64_t *)
  filename : bytes;        (* char[1024] *)
  rep_mgr_msg : rep_mgr_msg_t
}.
Definition CLIENT_REQUEST_INITIALISER : client_request_t :=
  {| msg_type := 0; task := zeros 1024; date := zeros 32; task_status := 0;
     mod_flags := 0; task_len := 0; hash_key := 0; req_no := 0;
     payload_data := []; payload_size := 0; filename := zeros 1024;
     rep_mgr_msg := REP_MGR_MSG_INITIALISER |}.

(** [client_ctx_t] of [include/server.h]; [addr] is never read. *)
Record client_ctx_t := {
  cc_fd : Z;
  client_id : Z;
  req : client_request_t;
  is_backlog : bool
}.
Definition CLIENT_CTX_INITIALISER : client_ctx_t :=
  {| cc_fd := -1; client_id := 0; req := CLIENT_REQUEST_INITIALISER; is_backlog := false |}.

Record factory_message := {
  fm_replica_id : Z;
  fm_bkp_replica_id_1 : Z;
  fm_bkp_replica_id_2 : Z;
  fm_req : Z;
  fm_mode_rep : Z;
  fm_checkpoint_freq : Z;
  fm_server_state : Z;
  fm_server_arr_0 : server_info;
  fm_server_arr_1 : server_info
}.

Record replication_manager_message := {
  rmm_replica_id : Z;
  rmm_state : Z;
  rmm_server_state : Z
}.

(** * Field updates *)

Definition set_msg_type (v : Z) (r : client_request_t) : client_request_t :=
  {| msg_type := v; task := task r; date := date r; task_status := task_status r;
     mod_flags := mod_flags r; task_len := task_len r; hash_key := hash_key r;
     req_no := req_no r; payload_data := payload_data r; payload_size := payload_size r;
     filename := filename r; rep_mgr_msg := rep_mgr_msg r |}.
Definition set_task (v : bytes) (r : client_request_t) : client_request_t :=
  {| msg_type := msg_type r; task := v; date := date r; task_status := task_status r;
     mod_flags := mod_flags r; task_len := task_len r; hash_key := hash_key r;
     req_no := req_no r; payload_data := payload_data r; payload_size := payload_size r;
     filename := filename r; rep_mgr_msg := rep_mgr_msg r |}.
Definition set_date (v : bytes) (r : client_request_t) : client_request_t :=
  {| msg_type := msg_type r; task := task r; date := v; task_status := task_status r;
     mod_flags := mod_flags r; task_len := task_len r; hash_key := hash_key r;
     req_no := req_no r; payload_data := payload_data r; payload_size := payload_size r;
     filename := filename r; rep_mgr_msg := rep_mgr_msg r |}.
Definition set_task_status (v : Z) (r : client_request_t) : client_request_t :=
  {| msg_type := msg_type r; task := task r; date := date r; task_status := v;
     mod_flags := mod_flags r; task_len := task_len r; hash_key := hash_key r;
     req_no := req_no r; payload_data := payload_data r; payload_size := payload_size r;
     filename := filename r; rep_mgr_msg := rep_mgr_msg r |}.
Definition set_mod_flags (v : Z) (r : client_request_t) : client_request_t :=
  {| msg_type := msg_type r; task := task r; date := date r; task_status := task_status r;
     mod_flags := v; task_len := task_len r; hash_key := hash_key r; req_no := req_no r;
     payload_data := payload_data r; payload_size := payload_size r; filename := filename r;
     rep_mgr_msg := rep_mgr_msg r |}.
Definition set_task_len (v : Z) (r : client_request_t) : client_request_t :=
  {| msg_type := msg_type r; task := task r; date := date r; task_status := task_status r;
     mod_flags := mod_flags r; task_len := v; hash_key := hash_key r; req_no := req_no r;
     payload_data := payload_data r; payload_size := payload_size r; filename := filename r;
     rep_mgr_msg := rep_mgr_msg r |}.
Definition set_hash_key (v : Z) (r : client_request_t) : client_request_t :=
  {| msg_type := msg_type r; task := task r; date := date r; task_status := task_status r;
     mod_flags := mod_flags r; task_len := task_len r; hash_key := v; req_no := req_no r;
     payload_data := payload_data r; payload_size := payload_size r; filename := filename r;
     rep_mgr_msg := rep_mgr_msg r |}.
Definition set_req_no (v : Z) (r : client_request_t) : client_request_t :=
  {| msg_type := msg_type r; task := task r; date := date r; task_status := task_status r;
     mod_flags := mod_flags r; task_len := task_len r; hash_key := hash_key r; req_no := v;
     payload_data := payload_data r; payload_size := payload_size r; filename := filename r;
     rep_mgr_msg := rep_mgr_msg r |}.
Definition set_payload_data (v : bytes) (r : client_request_t) : client_request_t :=
  {| msg_type := msg_type r; task := task r; date := date r; task_status := task_status r;
     mod_flags := mod_flags r; task_len := task_len r; hash_key := hash_key r;
     req_no := req_no r; payload_data := v; payload_size := payload_size r;
     filename := filename r; rep_mgr_msg := rep_mgr_msg r |}.
Definition set_payload_size (v : Z) (r : client_request_t) : client_request_t :=
  {| msg_type := msg_type r; task := task r; date := date r; task_status := task_status r;
     mod_flags := mod_flags r; task_len := task_len r; hash_key := hash_key r;
     req_no := req_no r; payload_data := payload_data r; payload_size := v;
     filename := filename r; rep_mgr_msg := rep_mgr_msg r |}.
Definition set_filename (v : bytes) (r : client_request_t) : client_request_t :=
  {| msg_type := msg_type r; task := task r; date := date r; task_status := task_status r;
     mod_flags := mod_flags r; task_len := task_len r; hash_key := hash_key r;
     req_no := req_no r; payload_data := payload_data r; payload_size := payload_size r;
     filename := v; rep_mgr_msg := rep_mgr_msg r |}.
Definition set_rep_mgr_msg (v : rep_mgr_msg_t) (r : client_request_t) : client_request_t :=
  {| msg_type := msg_type r; task := task r; date := date r; task_status := task_status r;
     mod_flags := mod_flags r; task_len := task_len r; hash_key := hash_key r;
     req_no := req_no r; payload_data := payload_data r; payload_size := payload_size r;
     filename := filename r; rep_mgr_msg := v |}.

Definition set_rm_rep_mode (v : Z) (m : rep_mgr_msg_t) : rep_mgr_msg_t :=
  {| rm_rep_mode := v; rm_server_state := rm_server_state m;
     rm_checkpoint_freq := rm_checkpoint_freq m; rm_bckup_svr_0 := rm_bckup_svr_0 m;
     rm_bckup_svr_1 := rm_bckup_svr_1 m |}.
Definition set_rm_server_state (v : Z) (m : rep_mgr_msg_t) : rep_mgr_msg_t :=
  {| rm_rep_mode := rm_rep_mode m; rm_server_state := v;
     rm_checkpoint_freq := rm_checkpoint_freq m; rm_bckup_svr_0 := rm_bckup_svr_0 m;
     rm_bckup_svr_1 := rm_bckup_svr_1 m |}.
Definition set_rm_checkpoint_freq (v : Z) (m : rep_mgr_msg_t) : rep_mgr_msg_t :=
  {| rm_rep_mode := rm_rep_mode m; rm_server_state := rm_server_state m;
     rm_checkpoint_freq := v; rm_bckup_svr_0 := rm_bckup_svr_0 m;
     rm_bckup_svr_1 := rm_bckup_svr_1 m |}.
Definition set_rm_bckup_svr_0 (v : bsvr_ctx) (m : rep_mgr_msg_t) : rep_mgr_msg_t :=
  {| rm_rep_mode := rm_rep_mode m; rm_server_state := rm_server_state m;
     rm_checkpoint_freq := rm_checkpoint_freq m; rm_bckup_svr_0 := v;
     rm_bckup_svr_1 := rm_bckup_svr_1 m |}.
Definition set_rm_bckup_svr_1 (v : bsvr_ctx) (m : rep_mgr_msg_t) : rep_mgr_msg_t :=
  {| rm_rep_mode := rm_rep_mode m; rm_server_state := rm_server_state m;
     rm_checkpoint_freq := rm_checkpoint_freq m; rm_bckup_svr_0 := rm_bckup_svr_0 m;
     rm_bckup_svr_1 := v |}.

Definition set_cc_fd (v : Z) (c : client_ctx_t) : client_ctx_t :=
  {| cc_fd := v; client_id := client_id c; req := req c; is_backlog := is_backlog c |}.
Definition set_client_id (v : Z) (c : client_ctx_t) : client_ctx_t :=
  {| cc_fd := cc_fd c; client_id := v; req := req c; is_backlog := is_backlog c |}.
Definition set_req (v : client_request_t) (c : client_ctx_t) : client_ctx_t :=
  {| cc_fd := cc_fd c; client_id := client_id c; req := v; is_backlog := is_backlog c |}.
Definition set_is_backlog (v : bool) (c : client_ctx_t) : client_ctx_t :=
  {| cc_fd := cc_fd c; client_id := client_id c; req := req c; is_backlog := v |}.

Definition set_server_ip (v : bytes) (i : server_info) : server_info :=
  {| server_ip := v; port := port i |}.
Definition set_port (v : Z) (i : server_info) : server_info :=
  {| server_ip := server_ip i; port := v |}.

Definition set_bs_fd (v : Z) (b : bsvr_ctx) : bsvr_ctx :=
  {| bs_fd := v; bs_info := bs_info b; bs_server_id := bs_server_id b |}.
Definition set_bs_info (v : server_info) (b : bsvr_ctx) : bsvr_ctx :=
  {| bs_fd := bs_fd b; bs_info := v; bs_server_id := bs_server_id b |}.
Definition set_bs_server_id (v : Z) (b : bsvr_ctx) : bsvr_ctx :=
  {| bs_fd := bs_fd b; bs_info := bs_info b; bs_server_id := v |}.

Definition set_fm_replica_id (v : Z) (f : factory_message) : factory_message :=
  {| fm_replica_id := v; fm_bkp_replica_id_1 := fm_bkp_replica_id_1 f;
     fm_bkp_replica_id_2 := fm_bkp_replica_id_2 f; fm_req := fm_req f;
     fm_mode_rep := fm_mode_rep f; fm_checkpoint_freq := fm_checkpoint_freq f;
     fm_server_state := fm_server_state f; fm_server_arr_0 := fm_server_arr_0 f;
     fm_server_arr_1 := fm_server_arr_1 f |}.
Definition set_fm_bkp_replica_id_1 (v : Z) (f : factory_message) : factory_message :=
  {| fm_replica_id := fm_replica_id f; fm_bkp_replica_id_1 := v;
     fm_bkp_replica_id_2 := fm_bkp_replica_id_2 f; fm_req := fm_req f;
     fm_mode_rep := fm_mode_rep f; fm_checkpoint_freq := fm_checkpoint_freq f;
     fm_server_state := fm_server_state f; fm_server_arr_0 := fm_server_arr_0 f;
     fm_server_arr_1 := fm_server_arr_1 f |}.
Definition set_fm_bkp_replica_id_2 (v : Z) (f : factory_message) : factory_message :=
  {| fm_replica_id := fm_replica_id f; fm_bkp_replica_id_1 := fm_bkp_replica_id_1 f;
     fm_bkp_replica_id_2 := v; fm_req := fm_req f; fm_mode_rep := fm_mode_rep f;
     fm_checkpoint_freq := fm_checkpoint_freq f; fm_server_state := fm_server_state f;
     fm_server_arr_0 := fm_server_arr_0 f; fm_server_arr_1 := fm_server_arr_1 f |}.
Definition set_fm_req (v : Z) (f : factory_message) : factory_message :=
  {| fm_replica_id := fm_replica_id f; fm_bkp_replica_id_1 := fm_bkp_replica_id_1 f;
     fm_bkp_replica_id_2 := fm_bkp_replica_id_2 f; fm_req := v; fm_mode_rep := fm_mode_rep f;
     fm_checkpoint_freq := fm_checkpoint_freq f; fm_server_state := fm_server_state f;
     fm_server_arr_0 := fm_server_arr_0 f; fm_server_arr_1 := fm_server_arr_1 f |}.
Definition set_fm_mode_rep (v : Z) (f : factory_message) : factory_message :=
  {| fm_replica_id := fm_replica_id f; fm_bkp_replica_id_1 := fm_bkp_replica_id_1 f;
     fm_bkp_replica_id_2 := fm_bkp_replica_id_2 f; fm_req := fm_req f; fm_mode_rep := v;
     fm_checkpoint_freq := fm_checkpoint_freq f; fm_server_state := fm_server_state f;
     fm_server_arr_0 := fm_server_arr_0 f; fm_server_arr_1 := fm_server_arr_1 f |}.
Definition set_fm_checkpoint_freq (v : Z) (f : factory_message) : factory_message :=
  {| fm_replica_id := fm_replica_id f; fm_bkp_replica_id_1 := fm_bkp_replica_id_1 f;
     fm_bkp_replica_id_2 := fm_bkp_replica_id_2 f; fm_req := fm_req f;
     fm_mode_rep := fm_mode_rep f; fm_checkpoint_freq := v;
     fm_server_state := fm_server_state f; fm_server_arr_0 := fm_server_arr_0 f;
     fm_server_arr_1 := fm_server_arr_1 f |}.
Definition set_fm_server_state (v : Z) (f : factory_message) : factory_message :=
  {| fm_replica_id := fm_replica_id f; fm_bkp_replica_id_1 := fm_bkp_replica_id_1 f;
     fm_bkp_replica_id_2 := fm_bkp_replica_id_2 f; fm_req := fm_req f;
     fm_mode_rep := fm_mode_rep f; fm_checkpoint_freq := fm_checkpoint_freq f;
     fm_server_state := v; fm_server_arr_0 := fm_server_arr_0 f;
     fm_server_arr_1 := fm_server_arr_1 f |}.
Definition set_fm_server_arr_0 (v : server_info) (f : factory_message) : factory_message :=
  {| fm_replica_id := fm_replica_id f; fm_bkp_replica_id_1 := fm_bkp_replica_id_1 f;
     fm_bkp_replica_id_2 := fm_bkp_replica_id_2 f; fm_req := fm_req f;
     fm_mode_rep := fm_mode_rep f; fm_checkpoint_freq := fm_checkpoint_freq f;
     fm_server_state := fm_server_state f; fm_server_arr_0 := v;
     fm_server_arr_1 := fm_server_arr_1 f |}.
Definition set_fm_server_arr_1 (v : server_info) (f : factory_message) : factory_message :=
  {| fm_replica_id := fm_replica_id f; fm_bkp_replica_id_1 := fm_bkp_replica_id_1 f;
     fm_bkp_replica_id_2 := fm_bkp_replica_id_2 f; fm_req := fm_req f;
     fm_mode_rep := fm_mode_rep f; fm_checkpoint_freq := fm_checkpoint_freq f;
     fm_server_state := fm_server_state f; fm_server_arr_0 := fm_server_arr_0 f;
     fm_server_arr_1 := v |}.

Definition set_rmm_replica_id (v : Z) (m : replication_manager_message) : replication_manager_message :=
  {| rmm_replica_id := v; rmm_state := rmm_state m; rmm_server_state := rmm_server_state m |}.
Definition set_rmm_state (v : Z) (m : replication_manager_message) : replication_manager_message :=
  {| rmm_replica_id := rmm_replica_id m; rmm_state := v;
     rmm_server_state := rmm_server_state m |}.
Definition set_rmm_server_state (v : Z) (m : replication_manager_message) : replication_manager_message :=
  {| rmm_replica_id := rmm_replica_id m; rmm_state := rmm_state m; rmm_server_state := v |}.
