(* ===== verification/Util.v ===== *)
(** [src/util.c]: reading and writing sockets across short counts, the
    buffered line reader, number parsing, the reply parser and the names of the
    enumerators. *)
From S2P Require Import Prelude CLib Iface.

(** * What the kernel does

    A connection delivers a finite sequence of events to [read]; after the last
    one [read] reports end of file.  [Chunk b] offers the bytes [b] (a [read]
    asking for less leaves the rest), [Eintr] interrupts one call, [RdErr] fails
    one call with another error. *)
Inductive rd_event :=
  | Chunk (b : bytes)
  | Eintr
  | RdErr.

Inductive io_result :=
  | IoN (n : Z) (b : bytes)
  | IoEINTR
  | IoFail.

Definition sys_read (evs : list rd_event) (n : Z) : io_result * list rd_event :=
  match evs with
  | [] => (IoN 0 [], [])
  | Eintr :: t => (IoEINTR, t)
  | RdErr :: t => (IoFail, t)
  | Chunk b :: t =>
      if zlen b <=? n then (IoN (zlen b) b, t)
      else (IoN n (ztake n b), Chunk (zdrop n b) :: t)
  end.

(** [write] accepts a prefix of what it is given; with no event left it accepts
    everything. *)
Inductive wr_event :=
  | Accept (k : Z)
  | WrEintr
  | WrErr.

Definition sys_write (evs : list wr_event) (b : bytes) : io_result * list wr_event :=
  match evs with
  | [] => (IoN (zlen b) b, [])
  | WrEintr :: t => (IoEINTR, t)
  | WrErr :: t => (IoFail, t)
  | Accept k :: t => let m := Z.max 0 (Z.min k (zlen b)) in (IoN m (ztake m b), t)
  end.

(** * sock_readn, sock_writen *)

(** Returns the value of the C function, the bytes stored in the buffer and the
    events left.  Each call of [read] that does not end the loop uses up an
    event, so one step per event and one for the end of file are enough. *)
Fixpoint sock_readn_loop (fuel : nat) (evs : list rd_event) (n nleft : Z) (acc : bytes)
  : outcome (Z * bytes * list rd_event) :=
  match fuel with
  | O => NoFuel
  | S f =>
      if 0 <? nleft then
        match sys_read evs nleft with
        | (IoEINTR, evs') => sock_readn_loop f evs' n nleft acc
        | (IoFail, evs') => Ret (-1, acc, evs')
        | (IoN nread b, evs') =>
            if nread =? 0 then Ret (n - nleft, acc, evs')
            else sock_readn_loop f evs' n (nleft - nread) (acc ++ b)
        end
      else Ret (n - nleft, acc, evs)
  end.

Definition sock_readn (evs : list rd_event) (n : Z) : outcome (Z * bytes * list rd_event) :=
  sock_readn_loop (S (S (length evs))) evs n n [].

Fixpoint sock_writen_loop (fuel : nat) (evs : list wr_event) (n nleft : Z) (ptr sent : bytes)
  : outcome (Z * bytes * list wr_event) :=
  match fuel with
  | O => NoFuel
  | S f =>
      if 0 <? nleft then
        match sys_write evs ptr with
        | (IoEINTR, evs') => sock_writen_loop f evs' n nleft ptr sent
        | (IoFail, evs') => Ret (-1, sent, evs')
        | (IoN nwritten b, evs') =>
            sock_writen_loop f evs' n (nleft - nwritten) (zdrop nwritten ptr) (sent ++ b)
        end
      else Ret (n, sent, evs)
  end.

Definition sock_writen (evs : list wr_event) (buf : bytes) : outcome (Z * bytes * list wr_event) :=
  sock_writen_loop (S (S (length evs))) evs (zlen buf) (zlen buf) buf [].

(** * The buffered reader *)

(** [sock_buf_read]: [evs] stands for the descriptor [fd]; [buf_ptr] is an
    offset into [buf]; [bytes_pend] is a [size_t]. *)
Record sock_buf_read := {
  evs : list rd_event;
  buf : bytes;
  buf_ptr : Z;
  bytes_pend : Z
}.

Definition SOCK_BUF_SIZE : Z := 8192.

Definition init_buf_fd (fd : list rd_event) : sock_buf_read :=
  {| evs := fd; buf := zeros SOCK_BUF_SIZE; buf_ptr := 0; bytes_pend := 0 |}.

(** The test [bytes_pend < 0] of the source compares a [size_t] and is never
    true: a failed [sock_readn] leaves [bytes_pend = SIZE_MAX]. *)
Definition sock_read_refill (p : sock_buf_read) : outcome sock_buf_read :=
  if bytes_pend p =? 0 then
    '(r, data, evs') ← sock_readn (evs p) SOCK_BUF_SIZE;
    let pend := u64 r in
    let pend := if pend <? 0 then 0 else pend in
    Ret {| evs := evs'; buf := overwrite data (buf p); buf_ptr := 0; bytes_pend := pend |}
  else Ret p.

(** Returns the C value, the bytes copied out and the new reader.  The second
    and third uses of the minimum are evaluated after [bytes_pend] changed. *)
Definition sock_read (p : sock_buf_read) (n : Z) : outcome (Z * bytes * sock_buf_read) :=
  p1 ← sock_read_refill p;
  if negb (bytes_pend p1 =? 0) then
    let m := if n <? bytes_pend p1 then n else bytes_pend p1 in
    if SOCK_BUF_SIZE <? buf_ptr p1 + m then Undef else
    let out := ztake m (zdrop (buf_ptr p1) (buf p1)) in
    let pend := bytes_pend p1 - m in
    let step := if n <? pend then n else pend in
    Ret (m, out, {| evs := evs p1; buf := buf p1;
                    buf_ptr := buf_ptr p1 + step; bytes_pend := pend |})
  else Ret (0, [], p1).

(** [nleft] counts down by one per character, so it bounds the loop. *)
Fixpoint sock_readline_loop (nleft : nat) (p : sock_buf_read) (out : bytes)
  : outcome (bytes * sock_buf_read) :=
  match nleft with
  | O => Ret (out, p)
  | S nleft' =>
      '(r, c, p1) ← sock_read p 1;
      if r =? 0 then Ret (out, p1)
      else
        let out1 := out ++ c in
        if bytes_eqb c [LF] then Ret (out1, p1)
        else sock_readline_loop nleft' p1 out1
  end.

(** The count the C function returns is the length of the bytes. *)
Definition sock_readline (p : sock_buf_read) (n : Z) : outcome (bytes * sock_buf_read) :=
  sock_readline_loop (Z.to_nat n) p [].

(** * Numbers *)

(** [-1] is [None]; base 0 of [strtol] also reads octal and hexadecimal. *)
Definition str_to_int (str : bytes) : option Z :=
  let '(v, rest) := strtol 0 str in
  if (v =? LONG_MIN) || negb (match rest with [] => true | _ => false end)
  then None
  else Some (i32 v).

(** * Connections *)

(** The results of [socket] and [connect], and of the [write] that follows, for
    one attempt to send a message. *)
Record net_step := {
  socket_ret : Z;
  connect_ret : Z;
  write_ret : Z
}.

Definition connect_to_server (e : net_step) (server : server_info) : Z :=
  if negb (connect_ret e =? 0) then -1 else socket_ret e.

(** The network as the sending programs see it: how many attempts were made and
    what was handed over to whom. *)
Record net := {
  attempts : nat;
  delivered : list (server_info * bytes)
}.

(** The block every sender repeats: connect, [write(fd, buf, MAX_LENGTH)],
    close; -1 when either fails. *)
Definition send_buf (env : nat -> net_step) (server : server_info) (b : bytes) (w : net)
  : Z * net :=
  let e := env (attempts w) in
  let w' := {| attempts := S (attempts w); delivered := delivered w |} in
  let clientfd := connect_to_server e server in
  if clientfd <? 0 then (-1, w')
  else if write_ret e <? 0 then (-1, w')
  else (0, {| attempts := S (attempts w); delivered := delivered w ++ [(server, b)] |}).

(** A message buffer of [MAX_LENGTH] bytes that was zeroed before [sprintf]
    wrote [s] into it, and one that was not ([junk] is the old content). *)
Definition zero_buf (s : bytes) : bytes := overwrite s (zeros MAX_LENGTH).
Definition junk_buf (junk s : bytes) : bytes := overwrite (s ++ [NUL]) junk.

(** [sprintf] into such a buffer: the text and its NUL must fit. *)
Definition sprintf_zero (s : bytes) : outcome bytes :=
  if zlen s <? MAX_LENGTH then Ret (zero_buf s) else Undef.
Definition sprintf_junk (junk s : bytes) : outcome bytes :=
  if zlen s <? MAX_LENGTH then Ret (junk_buf junk s) else Undef.

(** * The reply parser *)

Definition set_resp_status (r : message_response) (s : bytes) : message_response :=
  {| resp_hash_key := resp_hash_key r; resp_client_id := resp_client_id r;
     resp_status := s; resp_req_no := resp_req_no r; resp_state := resp_state r |}.
Definition set_resp_req_no (r : message_response) (z : Z) : message_response :=
  {| resp_hash_key := resp_hash_key r; resp_client_id := resp_client_id r;
     resp_status := resp_status r; resp_req_no := z; resp_state := resp_state r |}.
Definition set_resp_client_id (r : message_response) (z : Z) : message_response :=
  {| resp_hash_key := resp_hash_key r; resp_client_id := z;
     resp_status := resp_status r; resp_req_no := resp_req_no r; resp_state := resp_state r |}.
Definition set_resp_hash_key (r : message_response) (z : Z) : message_response :=
  {| resp_hash_key := z; resp_client_id := resp_client_id r;
     resp_status := resp_status r; resp_req_no := resp_req_no r; resp_state := resp_state r |}.
Definition set_resp_state (r : message_response) (z : Z) : message_response :=
  {| resp_hash_key := resp_hash_key r; resp_client_id := resp_client_id r;
     resp_status := resp_status r; resp_req_no := resp_req_no r; resp_state := z |}.

(** [sscanf(buffer, "<name>: %s", dst)] into an array of [size] bytes: the new C
    string in [dst], unchanged when nothing was read. *)
Definition scan_str (name buffer : bytes) (size : Z) (dst : bytes) : outcome bytes :=
  s ← c_string buffer;
  match sscanf (lit (name ++ ⟦": "⟧) ++ [DStr]) s with
  | VStr v :: _ => if zlen v <? size then Ret v else Undef
  | _ => Ret dst
  end.

(** One pass of the loop body after the tests for the end: the five header
    lines it knows.  [temp] was zeroed before. *)
Definition response_line (resp_buf : bytes) (response : message_response)
  : outcome message_response :=
  r1 ← (if starts_with ⟦"Status"⟧ resp_buf
        then v ← scan_str ⟦"Status"⟧ resp_buf TASK_LENGTH (resp_status response);
             Ret (set_resp_status response v)
        else Ret response);
  '(t2, r2) ← (if starts_with ⟦"Request No"⟧ resp_buf
        then v ← scan_str ⟦"Request No"⟧ resp_buf TASK_LENGTH [];
             Ret (v, set_resp_req_no r1 (atoi v))
        else Ret ([], r1));
  '(t3, r3) ← (if starts_with ⟦"Client ID"⟧ resp_buf
        then v ← scan_str ⟦"Client ID"⟧ resp_buf TASK_LENGTH t2;
             Ret (v, set_resp_client_id r2 (atoi v))
        else Ret (t2, r2));
  '(t4, r4) ← (if starts_with ⟦"Key"⟧ resp_buf
        then v ← scan_str ⟦"Key"⟧ resp_buf TASK_LENGTH t3;
             Ret (v, set_resp_hash_key r3 (fst (strtoul 10 v)))
        else Ret (t3, r3));
  if starts_with ⟦"State"⟧ resp_buf
  then v ← scan_str ⟦"State"⟧ resp_buf TASK_LENGTH t4;
       Ret (set_resp_state r4 (atoi v))
  else Ret r4.

(** [fuel] bounds the number of lines. *)
Fixpoint get_response_loop (fuel : nat) (client_fd : sock_buf_read) (response : message_response)
  : outcome (Z * message_response) :=
  match fuel with
  | O => NoFuel
  | S f =>
      '(line, fd1) ← sock_readline client_fd MAX_LENGTH;
      if zlen line =? 0 then Ret (-1, response)
      else
        let resp_buf := overwrite line (zeros MAX_LENGTH) in
        if starts_with CRLF resp_buf then Ret (0, response)
        else
          r ← response_line resp_buf response;
          get_response_loop f fd1 r
  end.

Definition get_response_from_server (fuel : nat) (clientfd : list rd_event)
    (response : message_response) : outcome (Z * message_response) :=
  get_response_loop fuel (init_buf_fd clientfd) response.

Definition parse_response_from_server (response : message_response) (client_id : Z) : Z :=
  if negb (resp_client_id response =? client_id) then -2
  else if starts_with ⟦"OK"⟧ (resp_status response) then 0
  else if starts_with ⟦"FAIL"⟧ (resp_status response) then -1
  else 0.

(** * Names of the enumerators *)

Definition get_task_status_str (stat : Z) : bytes :=
  if stat =? TASK_NOT_DONE then ⟦"TASK_NOT_DONE"⟧
  else if stat =? TASK_DONE then ⟦"TASK_DONE"⟧
  else ⟦"NA_NA"⟧.

Definition get_msg_type_str (msg_type : Z) : bytes :=
  if msg_type =? INVALID then ⟦"INVALID"⟧
  else if msg_type =? MSG_ADD then ⟦"MSG_ADD"⟧
  else if msg_type =? MSG_MODIFY then ⟦"MSG_MODIFY"⟧
  else if msg_type =? MSG_GET_ALL then ⟦"MSG_GET_ALL"⟧
  else if msg_type =? MSG_REMOVE then ⟦"MSG_REMOVE"⟧
  else if msg_type =? MSG_HEARTBEAT then ⟦"MSG_HEARTBEAT"⟧
  else if msg_type =? MSG_CHK_PT then ⟦"MSG_CHK_PT"⟧
  else if msg_type =? MSG_REP_MGR then ⟦"MSG_REP_MGR"⟧
  else if msg_type =? MSG_SEND_CHKPT then ⟦"MSG_SEND_CHKPT"⟧
  else if msg_type =? MSG_QUIESCE_START then ⟦"MSG_QUIESCE_START"⟧
  else if msg_type =? MSG_QUIESCE_STOP then ⟦"MSG_QUIESCE_STOP"⟧
  else ⟦"YOU FORGOT"⟧.

Definition get_server_state_str (msg_type : Z) : bytes :=
  if msg_type =? UNKNOWN_STATE then ⟦"UNKNOWN_STATE"⟧
  else if msg_type =? QUIESCE then ⟦"QUIESCE"⟧
  else if msg_type =? ACTIVE_RUNNING then ⟦"ACTIVE_RUNNING"⟧
  else if msg_type =? ACTIVE_RECOVER then ⟦"ACTIVE_RECOVER"⟧
  else if msg_type =? PASSIVE_PRIMARY then ⟦"PASSIVE_PRIMARY"⟧
  else if msg_type =? PASSIVE_BACKUP then ⟦"PASSIVE_BACKUP"⟧
  else if msg_type =? PASSIVE_PREPRIMARY then ⟦"PASSIVE_PREPRIMARY"⟧
  else ⟦"YOU FORGOT"⟧.

Definition init_bsvr_ctx (obj : bsvr_ctx) : bsvr_ctx :=
  {| bs_fd := -1; bs_info := SERVER_INFO_INITIALISER; bs_server_id := bs_server_id obj |}.

(** [None]: the file cannot be opened; -1 returned as [unsigned long]. *)
Definition get_file_size (content : option bytes) : Z :=
  match content with
  | None => u64 (-1)
  | Some b => zlen b
  end.

(** * Lemmas: the byte stream of a connection *)

Definition event_bytes (e : rd_event) : bytes :=
  match e with Chunk b => b | _ => [] end.

Definition stream (evs : list rd_event) : bytes := concat (map event_bytes evs).

(** No read error, and no early end of file; interrupts are allowed. *)
Definition clean_event (e : rd_event) : Prop :=
  match e with Chunk b => b <> [] | Eintr => True | RdErr => False end.
Abbreviation clean := (Forall clean_event).

Lemma ztake_app_ge {A} (n : Z) (l k : list A) :
  zlen l <= n -> ztake n (l ++ k) = l ++ ztake (n - zlen l) k.
Proof.
  unfold ztake, zlen. intros H. rewrite take_app_ge by lia. do 2 f_equal. lia.
Qed.

Lemma zdrop_app_ge {A} (n : Z) (l k : list A) :
  zlen l <= n -> zdrop n (l ++ k) = zdrop (n - zlen l) k.
Proof.
  unfold zdrop, zlen. intros H. rewrite drop_app_ge by lia. f_equal. lia.
Qed.

Lemma ztake_app_le {A} (n : Z) (l k : list A) :
  n <= zlen l -> ztake n (l ++ k) = ztake n l.
Proof. unfold ztake, zlen. intros H. apply take_app_le. lia. Qed.

Lemma zdrop_app_le {A} (n : Z) (l k : list A) :
  n <= zlen l -> zdrop n (l ++ k) = zdrop n l ++ k.
Proof. unfold zdrop, zlen. intros H. apply drop_app_le. lia. Qed.

Lemma zlen_ztake {A} (n : Z) (l : list A) : 0 <= n -> zlen (ztake n l) = Z.min n (zlen l).
Proof. unfold zlen, ztake. rewrite length_take. lia. Qed.

Lemma zlen_zdrop {A} (n : Z) (l : list A) : 0 <= n -> zlen (zdrop n l) = Z.max 0 (zlen l - n).
Proof. unfold zlen, zdrop. rewrite length_drop. lia. Qed.

Lemma zlen_pos {A} (l : list A) : l <> [] -> 0 < zlen l.
Proof. destruct l; [done|]. unfold zlen. simpl. lia. Qed.

Lemma ztake_0 {A} (l : list A) : ztake 0 l = [].
Proof. done. Qed.

Lemma zdrop_0 {A} (l : list A) : zdrop 0 l = l.
Proof. done. Qed.

Lemma sock_readn_loop_clean fuel evs n nleft acc :
  clean evs -> 0 <= nleft -> (length evs + 1 < fuel)%nat ->
  exists evs', sock_readn_loop fuel evs n nleft acc
      = Ret (n - nleft + Z.min nleft (zlen (stream evs)), acc ++ ztake nleft (stream evs), evs')
    /\ clean evs' /\ stream evs' = zdrop nleft (stream evs).
Proof.
  revert evs nleft acc. induction fuel as [|f IH]; intros evs nleft acc Hc Hn Hf; [lia|].
  simpl. destruct (0 <? nleft) eqn:E; zbool.
  2:{ assert (nleft = 0) as -> by lia. exists evs. rewrite ztake_0, app_nil_r, zdrop_0.
      pose proof (zlen_nonneg (stream evs)). rewrite Z.min_l, Z.add_0_r by lia. done. }
  destruct Hc as [|e evs He Hc].
  { simpl. exists []. unfold stream; simpl. unfold ztake, zdrop, zlen; simpl.
    rewrite take_nil, drop_nil, app_nil_r, Z.min_r, Z.add_0_r by lia. done. }
  simpl in Hf. destruct e as [b| |]; simpl in He; [|apply (IH evs); (done || lia)|done].
  pose proof (zlen_pos b He) as Hb.
  change (stream (Chunk b :: evs)) with (b ++ stream evs). rewrite zlen_app. simpl.
  destruct (zlen b <=? nleft) eqn:Eb; zbool.
  - destruct (IH evs (nleft - zlen b) (acc ++ b)) as (evs' & Heq & Hc' & Hs); [done|lia|lia|].
    exists evs'. rewrite (proj2 (Z.eqb_neq _ _)) by lia. rewrite Heq.
    rewrite ztake_app_ge, zdrop_app_ge by lia. rewrite app_assoc. split; [|done].
    do 3 f_equal. lia.
  - assert (f <> O) by lia. destruct f as [|f]; [done|].
    exists (Chunk (zdrop nleft b) :: evs).
    rewrite (proj2 (Z.eqb_neq _ _)) by lia. rewrite Z.sub_diag. simpl.
    rewrite ztake_app_le, zdrop_app_le by lia. split; [|split; [|done]].
    + pose proof (zlen_nonneg (stream evs)). do 3 f_equal. lia.
    + constructor; [|done]. simpl. intros Hz. apply (f_equal zlen) in Hz.
      rewrite zlen_zdrop in Hz by lia. unfold zlen at 2 in Hz. simpl in Hz. lia.
Qed.

(** * Lemmas: the buffered reader *)

Definition sb_wf (p : sock_buf_read) : Prop :=
  clean (evs p) /\ zlen (buf p) = SOCK_BUF_SIZE /\ 0 <= buf_ptr p /\ 0 <= bytes_pend p
  /\ (bytes_pend p = 0 \/ buf_ptr p + bytes_pend p <= SOCK_BUF_SIZE).

(** What the reader has still to deliver. *)
Definition pending (p : sock_buf_read) : bytes :=
  ztake (bytes_pend p) (zdrop (buf_ptr p) (buf p)) ++ stream (evs p).

Lemma init_buf_fd_wf fd : clean fd -> sb_wf (init_buf_fd fd).
Proof.
  intros H. split; [done|]. split; [|simpl; lia].
  simpl. unfold zeros, zlen. rewrite length_replicate. done.
Qed.

Lemma init_buf_fd_pending fd : pending (init_buf_fd fd) = stream fd.
Proof. done. Qed.

Lemma refill_pending p d evs' n : bytes_pend p = 0 ->
  d = ztake n (stream (evs p)) -> stream evs' = zdrop n (stream (evs p)) ->
  pending {| evs := evs'; buf := overwrite d (buf p); buf_ptr := 0; bytes_pend := zlen d |}
  = pending p.
Proof.
  intros E Hd Hs. unfold pending. cbn [bytes_pend buf_ptr buf evs]. rewrite zdrop_0, E, ztake_0, app_nil_l.
  unfold ztake at 1. unfold zlen. rewrite Nat2Z.id, take_overwrite, Hs, Hd.
  unfold ztake, zdrop. apply take_drop.
Qed.

Lemma sock_read_refill_wf p : sb_wf p ->
  exists p1, sock_read_refill p = Ret p1 /\ sb_wf p1 /\ pending p1 = pending p
    /\ (bytes_pend p1 = 0 -> pending p1 = []).
Proof.
  intros (Hc & Hl & Hp & Hb & Hd). unfold sock_read_refill.
  destruct (bytes_pend p =? 0) eqn:E; zbool.
  2:{ exists p. split; [done|]. split; [done|]. split; [done|]. lia. }
  destruct (sock_readn_loop_clean (S (S (length (evs p)))) (evs p) SOCK_BUF_SIZE SOCK_BUF_SIZE [])
    as (evs' & Hr & Hc' & Hs); [done|unfold SOCK_BUF_SIZE; lia|lia|].
  unfold sock_readn. rewrite Hr, bind_ret_l. clear Hr. cbv beta zeta.
  rewrite Z.sub_diag, Z.add_0_l, app_nil_l.
  remember (ztake SOCK_BUF_SIZE (stream (evs p))) as d eqn:Hdd.
  assert (zlen d = Z.min SOCK_BUF_SIZE (zlen (stream (evs p)))) as Hd2.
  { rewrite Hdd. rewrite zlen_ztake; [done|]. unfold SOCK_BUF_SIZE. lia. }
  rewrite <- Hd2. pose proof (zlen_nonneg d).
  assert (zlen d <= SOCK_BUF_SIZE) by (unfold SOCK_BUF_SIZE in *; lia).
  rewrite u64_small by (unfold SOCK_BUF_SIZE in *; int_lia).
  replace (zlen d <? 0) with false by lia. cbv iota.
  assert (length d <= length (buf p))%nat as Hlen by (unfold zlen in *; lia).
  eexists. split; [done|].
  assert (pending {| evs := evs'; buf := overwrite d (buf p); buf_ptr := 0; bytes_pend := zlen d |}
          = pending p) as Hpend.
  { by apply (refill_pending p d evs' SOCK_BUF_SIZE). }
  split; [|split; [done|]].
  - split; [done|]. simpl. split; [|lia].
    unfold zlen in *. by rewrite length_overwrite.
  - intros Hd0. simpl in Hd0. rewrite Hpend. unfold pending. rewrite E, ztake_0. simpl.
    assert (zlen (stream (evs p)) = 0) as Hz by (unfold SOCK_BUF_SIZE in *; lia).
    destruct (stream (evs p)); [done|]. unfold zlen in Hz. simpl in Hz. lia.
Qed.

Lemma ztake_zdrop_cons {A} (n i : Z) (l : list A) :
  0 < n -> 0 <= i -> i + n <= zlen l ->
  exists c, ztake n (zdrop i l) = c :: ztake (n - 1) (zdrop (i + 1) l) /\ ztake 1 (zdrop i l) = [c].
Proof.
  intros Hn Hi Hl. unfold ztake, zdrop, zlen in *.
  destruct (drop (Z.to_nat i) l) as [|c t] eqn:E.
  { apply (f_equal length) in E. rewrite length_drop in E. simpl in E. lia. }
  assert (drop (Z.to_nat (i + 1)) l = t) as ->.
  { replace (Z.to_nat (i + 1)) with (Z.to_nat i + 1)%nat by lia.
    rewrite <- drop_drop, E. done. }
  exists c. split; [|done]. replace (Z.to_nat n) with (S (Z.to_nat (n - 1))) by lia. done.
Qed.

Lemma sock_read_one p : sb_wf p ->
  exists p', sb_wf p' /\
    match pending p with
    | [] => sock_read p 1 = Ret (0, [], p') /\ pending p' = []
    | c :: t => sock_read p 1 = Ret (1, [c], p') /\ pending p' = t
    end.
Proof.
  intros Hw. destruct (sock_read_refill_wf p Hw) as (p1 & Hr & Hw1 & <- & Hz).
  unfold sock_read. rewrite Hr, bind_ret_l. cbv zeta.
  destruct Hw1 as (Hc & Hl & Hp & Hb & Hd).
  destruct (bytes_pend p1 =? 0) eqn:E; zbool; simpl.
  { exists p1. rewrite (Hz E). split; [|done]. repeat split; done || by left. }
  destruct Hd as [Hd|Hd]; [done|].
  assert ((if 1 <? bytes_pend p1 then 1 else bytes_pend p1) = 1) as -> by (case_if; zbool; lia).
  replace (SOCK_BUF_SIZE <? buf_ptr p1 + 1) with false by lia.
  destruct (ztake_zdrop_cons (bytes_pend p1) (buf_ptr p1) (buf p1)) as (c & Hcons & ->); [lia..|].
  unfold pending at 1. rewrite Hcons. simpl. eexists. split; [|split; [done|]].
  - split; [done|]. split; [done|]. simpl. case_if; zbool; lia.
  - unfold pending. simpl. f_equal. case_if; zbool; [done|].
    destruct (Z.eq_dec (bytes_pend p1) 1) as [->|]; [done|].
    replace (bytes_pend p1 - 1) with 1 by lia. done.
Qed.

(** The first line: up to and including the line feed, at most [n] bytes. *)
Fixpoint line_of (n : nat) (s : bytes) : bytes :=
  match n, s with
  | S n', c :: t => if Ascii.eqb c LF then [c] else c :: line_of n' t
  | _, _ => []
  end.

Lemma line_of_cons n c s : (0 < n)%nat ->
  line_of n (c :: s) = if Ascii.eqb c LF then [c] else c :: line_of (n - 1) s.
Proof. intros Hn. destruct n; [lia|]. simpl. by rewrite Nat.sub_0_r. Qed.

Lemma line_of_text n t rest :
  Forall (fun c => not_in [LF] c = true) t -> (length t < n)%nat ->
  line_of n (t ++ LF :: rest) = t ++ [LF].
Proof.
  intros Ht. revert n. induction Ht as [|c t Hc Ht IH]; intros n Hn; simpl in *.
  - rewrite line_of_cons by lia. done.
  - rewrite line_of_cons by lia. unfold not_in in Hc. simpl in Hc.
    destruct (Ascii.eqb c LF); [done|]. by rewrite IH by lia.
Qed.

Lemma sock_readline_loop_spec n p out : sb_wf p ->
  exists p', sock_readline_loop n p out = Ret (out ++ line_of n (pending p), p')
    /\ sb_wf p' /\ pending p' = drop (length (line_of n (pending p))) (pending p).
Proof.
  revert p out. induction n as [|n IH]; intros p out Hw.
  { exists p. simpl. by rewrite app_nil_r. }
  destruct (sock_read_one p Hw) as (p' & Hw' & Hp). simpl.
  destruct (pending p) as [|c t].
  { destruct Hp as [-> Hp']. rewrite bind_ret_l. exists p'. simpl. by rewrite app_nil_r. }
  destruct Hp as [-> Hp']. rewrite bind_ret_l. simpl.
  destruct (Ascii.eqb c LF); [exists p'; by rewrite Hp'|].
  destruct (IH p' (out ++ [c]) Hw') as (p2 & -> & Hw2 & Hp2).
  exists p2. rewrite Hp' in *. rewrite <- app_assoc. done.
Qed.

Lemma str_to_int_fmt_d n : is_i32 n -> str_to_int (fmt_d n) = Some n.
Proof.
  intros Hn. unfold str_to_int. rewrite strtol_fmt_d by (auto || int_lia). simpl.
  replace (n =? LONG_MIN) with false by int_lia. by rewrite i32_small.
Qed.

(** The loops end whatever the kernel does. *)
Lemma sock_readn_loop_total fuel evs n nleft acc :
  (length evs + 1 < fuel)%nat -> sock_readn_loop fuel evs n nleft acc <> NoFuel.
Proof.
  revert evs nleft acc. induction fuel as [|f IH]; intros evs nleft acc Hf; [lia|].
  simpl. case_if; [|done]. destruct evs as [|[b| |] evs]; simpl in *; [done| |apply IH; lia|done].
  case_if; case_if; try done; zbool; [apply IH; lia|].
  destruct f as [|f]; [lia|]. simpl. rewrite Z.sub_diag. simpl. done.
Qed.

Lemma sock_readn_total evs n : sock_readn evs n <> NoFuel.
Proof. apply sock_readn_loop_total. lia. Qed.

Lemma sock_read_total p n : sock_read p n <> NoFuel.
Proof.
  unfold sock_read. apply bind_total.
  - unfold sock_read_refill. case_if; [|done]. apply bind_total; [apply sock_readn_total|].
    by intros [[r d] e] _.
  - intros p1 _. repeat (case_if; try done).
Qed.

Lemma sock_readline_loop_total n p out : sock_readline_loop n p out <> NoFuel.
Proof.
  revert p out. induction n as [|n IH]; intros p out; [done|].
  cbn [sock_readline_loop]. apply bind_total; [apply sock_read_total|].
  intros [[r c] p1] _. case_if; [done|]. case_if; [done|]. apply IH.
Qed.

(** * Properties *)

(** C36: the line reader does not see how the network cut the stream. Two readers
    with the same bytes to deliver, buffered or still in pieces and interrupts on
    the descriptor, return the same line, which is the text through the first
    line feed and at most [n] bytes, and still have the same bytes to deliver. *)
Theorem sock_readline_chunking p1 p2 n :
  sb_wf p1 -> sb_wf p2 -> pending p1 = pending p2 ->
  exists p1' p2', let line := line_of (Z.to_nat n) (pending p1) in
    sock_readline p1 n = Ret (line, p1') /\ sock_readline p2 n = Ret (line, p2')
    /\ sb_wf p1' /\ sb_wf p2' /\ pending p1' = pending p2'
    /\ line ++ pending p1' = pending p1.
Proof.
  intros H1 H2 He.
  destruct (sock_readline_loop_spec (Z.to_nat n) p1 [] H1) as (p1' & E1 & Hw1 & Hp1).
  destruct (sock_readline_loop_spec (Z.to_nat n) p2 [] H2) as (p2' & E2 & Hw2 & Hp2).
  rewrite <- He in E2, Hp2. exists p1', p2'. cbv zeta. unfold sock_readline.
  rewrite app_nil_l in E1, E2. rewrite E1, E2, Hp1, Hp2. do 5 (split; [done|]).
  assert (forall k s, line_of k s = take (length (line_of k s)) s) as Hl.
  { induction k as [|k IH]; intros [|x s]; try done. simpl.
    destruct (Ascii.eqb x LF); [done|]. simpl. by rewrite <- IH. }
  rewrite Hl at 1. apply take_drop.
Qed.

Lemma sock_readline_chunking_witness :
  exists p1' p2', sock_readline (init_buf_fd [Chunk (⟦"ab"⟧ ++ CRLF ++ ⟦"c"⟧)]) 100 = Ret (⟦"ab"⟧ ++ CRLF, p1')
    /\ sock_readline (init_buf_fd [Chunk ⟦"a"⟧; Eintr; Chunk (⟦"b"⟧ ++ [CR]); Chunk (LF :: ⟦"c"⟧)]) 100
       = Ret (⟦"ab"⟧ ++ CRLF, p2')
    /\ pending p1' = pending p2'.
Proof.
  destruct (sock_readline_chunking (init_buf_fd [Chunk (⟦"ab"⟧ ++ CRLF ++ ⟦"c"⟧)])
    (init_buf_fd [Chunk ⟦"a"⟧; Eintr; Chunk (⟦"b"⟧ ++ [CR]); Chunk (LF :: ⟦"c"⟧)]) 100)
    as (p1' & p2' & E1 & E2 & _ & _ & Hp & _).
  - apply init_buf_fd_wf. by repeat constructor.
  - apply init_buf_fd_wf. by repeat constructor.
  - reflexivity.
  - exists p1', p2'. split; [exact E1|]. split; [exact E2|exact Hp].
Defined.

(** A write event that is not an error. *)
Definition wr_clean (e : wr_event) : Prop := match e with WrErr => False | _ => True end.

Lemma sock_writen_loop_spec fuel : forall evs n ptr sent,
  (length evs + 1 < fuel)%nat ->
  exists r out evs', sock_writen_loop fuel evs n (zlen ptr) ptr sent = Ret (r, sent ++ out, evs')
    /\ (exists rest, ptr = out ++ rest)
    /\ (Forall wr_clean evs -> r = n /\ out = ptr)
    /\ (r = n /\ out = ptr \/ r = -1).
Proof.
  induction fuel as [|f IH]; intros evs n ptr sent Hf; [lia|]. cbn [sock_writen_loop].
  destruct (0 <? zlen ptr) eqn:E; zbool.
  2:{ exists n, [], evs. rewrite app_nil_r. split; [done|].
      assert (ptr = []) as -> by (destruct ptr; [done|]; unfold zlen in E; simpl in E; lia).
      split; [by exists []|auto]. }
  destruct evs as [|[k| |] evs]; simpl in Hf; cbn [sys_write].
  - destruct f as [|f]; [lia|]. rewrite Z.sub_diag. cbn [sock_writen_loop Z.ltb Z.compare].
    exists n, ptr, []. split; [done|]. split; [exists []; by rewrite app_nil_r|auto].
  - set (m := Z.max 0 (Z.min k (zlen ptr))).
    assert (zlen ptr - m = zlen (zdrop m ptr)) as -> by (rewrite zlen_zdrop; lia).
    destruct (IH evs n (zdrop m ptr) (sent ++ ztake m ptr)) as (r & out & evs' & Er & (rest & Hr) & Hc & Hd);
      [lia|].
    assert (ptr = ztake m ptr ++ zdrop m ptr) as Hsplit by (symmetry; apply take_drop).
    exists r, (ztake m ptr ++ out), evs'. rewrite Er, <- app_assoc. split; [done|].
    split; [exists rest; by rewrite <- app_assoc, <- Hr|]. split.
    + intros H. inversion_clear H. destruct Hc as [-> ->]; [done|]. by rewrite <- Hsplit.
    + destruct Hd as [[-> ->]| ->]; [left; by rewrite <- Hsplit|by right].
  - destruct (IH evs n ptr sent) as (r & out & evs' & Er & Hp & Hc & Hd); [lia|].
    exists r, out, evs'. split; [done|]. split; [done|]. split; [|done].
    intros H. inversion_clear H. by apply Hc.
  - exists (-1), [], evs. rewrite app_nil_r. split; [done|]. split; [by exists ptr|].
    split; [|by right]. intros H. by inversion_clear H.
Qed.

(** The full-length transfers. Whatever short counts and interrupts the
    kernel answers with, [sock_writen] returns: it has written the whole buffer
    in order and returns its length, or an error happened, a prefix was written
    and it returns -1; and [sock_readn] on a stream without errors returns
    exactly the first [n] bytes, or all there are. *)
Theorem full_transfers wevs revs b n :
  (exists r out evs', sock_writen wevs b = Ret (r, out, evs')
     /\ (exists rest, b = out ++ rest) /\ (r = zlen b /\ out = b \/ r = -1)
     /\ (Forall wr_clean wevs -> r = zlen b /\ out = b))
  /\ (clean revs -> 0 <= n ->
      exists evs', sock_readn revs n
                   = Ret (Z.min n (zlen (stream revs)), ztake n (stream revs), evs')
        /\ stream evs' = zdrop n (stream revs)).
Proof.
  split.
  - destruct (sock_writen_loop_spec (S (S (length wevs))) wevs (zlen b) b []) as
      (r & out & evs' & E & Hp & Hc & Hd); [lia|].
    exists r, out, evs'. done.
  - intros Hc Hn. destruct (sock_readn_loop_clean (S (S (length revs))) revs n n []) as
      (evs' & E & _ & Hs); [done|done|lia|].
    exists evs'. unfold sock_readn. rewrite E, Z.sub_diag. done.
Qed.

Lemma full_transfers_witness :
  exists evs', sock_readn [Chunk ⟦"ab"⟧; Eintr; Chunk ⟦"cde"⟧] 4 = Ret (4, ⟦"abcd"⟧, evs')
    /\ stream evs' = ⟦"e"⟧.
Proof.
  destruct (full_transfers [Accept 1; WrEintr] [Chunk ⟦"ab"⟧; Eintr; Chunk ⟦"cde"⟧] [] 4) as [_ H].
  destruct H as (evs' & E & Hs); [by repeat constructor|lia|]. exists evs'. split; [exact E|exact Hs].
Defined.

Lemma readline_after_error k n : forall p out,
  buf p = zeros SOCK_BUF_SIZE -> buf_ptr p = k -> bytes_pend p = ULONG_MAX - k -> 0 <= k ->
  k + Z.of_nat n <= SOCK_BUF_SIZE ->
  exists p', sock_readline_loop n p out = Ret (out ++ zeros (Z.of_nat n), p').
Proof.
  revert k. induction n as [|n IH]; intros k p out Hb Hp Hn Hk Hle.
  { exists p. simpl. by rewrite app_nil_r. }
  cbn [sock_readline_loop]. unfold sock_read, sock_read_refill.
  assert (0 < bytes_pend p - 1) by (unfold SOCK_BUF_SIZE, ULONG_MAX in *; lia).
  rewrite (proj2 (Z.eqb_neq (bytes_pend p) 0)) by lia. rewrite bind_ret_l.
  rewrite (proj2 (Z.eqb_neq (bytes_pend p) 0)) by lia. cbn [negb]. cbv zeta.
  assert ((1 <? bytes_pend p) = true) as -> by lia.
  rewrite (proj2 (Z.ltb_ge SOCK_BUF_SIZE _)) by lia. rewrite bind_ret_l. cbv beta iota.
  assert (ztake 1 (zdrop (buf_ptr p) (buf p)) = [NUL]) as ->.
  { rewrite Hb, Hp. unfold ztake, zdrop, zeros. rewrite drop_replicate, take_replicate.
    rewrite Nat.min_l by lia. done. }
  change (1 =? 0) with false. change (bytes_eqb [NUL] [LF]) with false. cbv iota.
  destruct (IH (k + 1) {| evs := evs p; buf := buf p;
      buf_ptr := buf_ptr p + (if 1 <? bytes_pend p - 1 then 1 else bytes_pend p - 1);
      bytes_pend := bytes_pend p - 1 |} (out ++ [NUL])) as (p' & E); simpl; try (done || lia).
  { unfold SOCK_BUF_SIZE, ULONG_MAX in *. case_if; zbool; lia. }
  exists p'. rewrite E, <- app_assoc. do 3 f_equal. unfold zeros.
  by rewrite !Nat2Z.id.
Qed.

(** A failed [read] is not noticed: [bytes_pend < 0] compares a [size_t],
    the count becomes the largest one, and the reader delivers what its buffer
    happens to hold. On a fresh connection the first line is then [n] zero bytes
    instead of an error. *)
Theorem read_error_unnoticed evs n :
  0 <= n <= SOCK_BUF_SIZE ->
  exists p, sock_readline (init_buf_fd (RdErr :: evs)) n = Ret (zeros n, p).
Proof.
  intros Hn. unfold sock_readline. destruct (Z.to_nat n) as [|k] eqn:Ek.
  { exists (init_buf_fd (RdErr :: evs)). unfold zeros. by rewrite Ek. }
  cbn [sock_readline_loop]. unfold sock_read at 1.
  destruct (readline_after_error 0 (S k) {| evs := evs; buf := zeros SOCK_BUF_SIZE; buf_ptr := 0;
    bytes_pend := ULONG_MAX |} []) as (p' & E); [done|done|done|lia|lia|].
  exists p'. replace n with (Z.of_nat (S k)) by lia. rewrite app_nil_l in E. rewrite <- E.
  reflexivity.
Qed.

Lemma read_error_unnoticed_witness :
  exists p, sock_readline (init_buf_fd [RdErr; Chunk ⟦"data"⟧]) MAXMSGSIZE = Ret (zeros MAXMSGSIZE, p).
Proof. apply (read_error_unnoticed [Chunk ⟦"data"⟧] MAXMSGSIZE). by vm_compute. Defined.

(** Numbers on the wire. A printed [long] (other than the smallest) is
    always accepted and read back reduced to an [int]: exactly for the [int]s,
    and silently wrapped, not refused, for anything larger. *)
Theorem str_to_int_wraps n :
  LONG_MIN < n <= LONG_MAX ->
  str_to_int (fmt_d n) = Some (i32 n) /\ (is_i32 n -> str_to_int (fmt_d n) = Some n).
Proof.
  intros Hn. assert (str_to_int (fmt_d n) = Some (i32 n)) as H.
  { unfold str_to_int. rewrite strtol_fmt_d by (auto || lia). simpl.
    by rewrite (proj2 (Z.eqb_neq n LONG_MIN)) by lia. }
  split; [done|]. intros Hi. by rewrite H, i32_small.
Qed.

Lemma str_to_int_wraps_witness : str_to_int ⟦"4294967297"⟧ = Some 1 /\ str_to_int ⟦"-5"⟧ = Some (-5).
Proof.
  split.
  - apply (str_to_int_wraps 4294967297). by vm_compute.
  - apply (str_to_int_wraps (-5)); by vm_compute.
Defined.
