(* ===== verification/Request.v ===== *)
(** The request format: lines "<key>: <value>" closed by CR LF, ended by an
    empty line.  The three servers of the system (the replica's
    [handle_connection], the replication manager's
    [handle_fault_detector_message] and the factory's
    [handle_replication_manager_message]) run the same loop over it with a
    different [parse_..._kv]; the loop is defined here once, with that function
    and the one difference between the three as parameters. *)
From S2P Require Import Prelude CLib Iface Util.

(** How the loop ends: end of message, end of file, too many fields, a line
    that is not a key and a value, or a field the parser refused. *)
Inductive fl_end := FLDone | FLClosed | FLTooMany | FLMalformed | FLRejected.

(** The three stack buffers of [MAXMSGSIZE] bytes. *)
Record fl_bufs := {
  msg_buf : bytes;
  key_buf : bytes;
  value_buf : bytes
}.
Definition fl_bufs_init : fl_bufs :=
  {| msg_buf := zeros MAXMSGSIZE; key_buf := zeros MAXMSGSIZE; value_buf := zeros MAXMSGSIZE |}.

(** "%[^:]: %[^\r\n]" *)
Definition kv_format : list dir := DNot None ⟦":"⟧ :: lit ⟦": "⟧ ++ [DNot None CRLF].

Section FieldLoop.
Context {C : Type}.
(** [parse c key value] on the two buffers; [false] stands for -1. *)
Variable parse : C -> bytes -> bytes -> outcome (bool * C).
(** Whether [msg_buf] is zeroed after each field. *)
Variable clear : bool.

Fixpoint field_loop (fuel : nat) (client_fd : sock_buf_read) (b : fl_bufs)
    (input_fields_counter : Z) (c : C)
  : outcome (fl_end * C * sock_buf_read * fl_bufs) :=
  match fuel with
  | O => NoFuel
  | S f =>
      '(line, fd1) ← sock_readline client_fd MAXMSGSIZE;
      let msg := overwrite line (msg_buf b) in
      let b1 := {| msg_buf := msg; key_buf := key_buf b; value_buf := value_buf b |} in
      if zlen line =? 0 then Ret (FLClosed, c, fd1, b1)
      else if (zlen line =? 2) && starts_with CRLF msg then Ret (FLDone, c, fd1, b1)
      else if MAX_REQ_FIELDS <=? input_fields_counter then Ret (FLTooMany, c, fd1, b1)
      else
        s ← c_string msg;
        match sscanf kv_format s with
        | [VStr k; VStr v] =>
            let key := overwrite (k ++ [NUL]) (key_buf b) in
            let value := overwrite (v ++ [NUL]) (value_buf b) in
            '(ok, c1) ← parse c key value;
            let b2 := {| msg_buf := if clear then zeros MAXMSGSIZE else msg;
                         key_buf := key; value_buf := value |} in
            if (ok : bool) then field_loop f fd1 b2 (input_fields_counter + 1) c1
            else Ret (FLRejected, c1, fd1, b2)
        | _ => Ret (FLMalformed, c, fd1, b1)
        end
  end.

(** The counter stops the loop at [MAX_REQ_FIELDS] fields, so 21 lines plus
    the line that ends it are the most it reads. *)
Definition fl_fuel : nat := 22.

Definition read_fields (client_fd : sock_buf_read) (c : C)
  : outcome (fl_end * C * sock_buf_read * fl_bufs) :=
  field_loop fl_fuel client_fd fl_bufs_init 0 c.

(** ** The format, as written *)

Definition field_text (kv : bytes * bytes) : bytes := kv.1 ++ ⟦": "⟧ ++ kv.2 ++ CRLF.

Definition wire (fields : list (bytes * bytes)) : bytes := concat (map field_text fields).

Definition message (fields : list (bytes * bytes)) : bytes := wire fields ++ CRLF.
End FieldLoop.

(** A field that the format carries unchanged. *)
Definition key_char (c : ascii) : bool := not_in ⟦":"⟧ c && not_nul c && not_in CRLF c.

Definition field_ok (kv : bytes * bytes) : Prop :=
  kv.1 <> [] /\ Forall (fun c => key_char c = true) kv.1 /\ text_ok kv.2
  /\ zlen (field_text kv) < MAXMSGSIZE.

(** ** One field *)

Lemma forallb_Forall {A} (f : A -> bool) l : forallb f l = true -> Forall (fun x => f x = true) l.
Proof. intros H. by apply List.Forall_forall, List.forallb_forall. Qed.

Lemma key_ok_colon k : Forall (fun c => key_char c = true) k ->
  Forall (fun c => not_in ⟦":"⟧ c = true) k /\ Forall (fun c => not_nul c = true) k
  /\ Forall (fun c => not_in CRLF c = true) k.
Proof.
  intros H. rewrite <- !Forall_and. eapply Forall_impl; [done|].
  intros c Hc. unfold key_char in Hc. by zbool.
Qed.

Lemma kv_format_scan k v rest :
  k <> [] -> Forall (fun c => key_char c = true) k -> text_ok v ->
  sscanf kv_format (k ++ ⟦": "⟧ ++ v ++ CR :: rest) = [VStr k; VStr v].
Proof.
  intros Hk Hkc Hv. destruct (key_ok_colon k Hkc) as (Hc & _ & _).
  unfold kv_format. rewrite sscanf_DNot by done. f_equal.
  change (sscanf (DWs :: [DNot None CRLF]) (v ++ CR :: rest) = [VStr v]).
  rewrite sscanf_DWs, sscanf_DNot; [done| |by apply text_ok_not_in|done|done].
  intros ->. by destruct Hv.
Qed.

Lemma field_line_no_lf k v :
  Forall (fun c => key_char c = true) k -> text_ok v ->
  Forall (fun c => not_in [LF] c = true) (k ++ ⟦": "⟧ ++ v ++ [CR]).
Proof.
  intros Hk Hv. destruct (key_ok_colon k Hk) as (_ & _ & Hk').
  pose proof (text_ok_not_in v Hv) as Hv'.
  assert (forall c, not_in CRLF c = true -> not_in [LF] c = true) as Himp.
  { intros c. unfold not_in. simpl. destruct (Ascii.eqb c CR), (Ascii.eqb c LF); naive_solver. }
  rewrite !Forall_app. split; [by eapply Forall_impl|].
  split; [by apply forallb_Forall|]. split; [by eapply Forall_impl|by apply forallb_Forall].
Qed.

(** The line read for one field, and what remains. *)
Lemma field_line k v rest n :
  field_ok (k, v) -> Z.of_nat n = MAXMSGSIZE ->
  line_of n (field_text (k, v) ++ rest) = field_text (k, v)
  /\ drop (length (field_text (k, v))) (field_text (k, v) ++ rest) = rest.
Proof.
  intros (Hk & Hkc & Hv & Hl) Hn. simpl in *. split; [|apply drop_app_length].
  assert (field_text (k, v) = (k ++ ⟦": "⟧ ++ v ++ [CR]) ++ [LF]) as ->.
  { unfold field_text. rewrite <- !app_assoc. done. }
  rewrite <- app_assoc. apply line_of_text; [by apply field_line_no_lf|].
  unfold field_text, zlen in Hl. rewrite !length_app in *. cbn [length fst snd CRLF list_ascii_of_string] in *. lia.
Qed.

(** ** The whole message *)

Section FieldLoopSpec.
Context {C A : Type}.
Variable parse : C -> bytes -> bytes -> outcome (bool * C).
Variable clear : bool.
(** What the parser stores, read through [abs], changes as [step] says. *)
Variable abs : C -> A.
Variable step : A -> bytes * bytes -> option A.

Definition parse_implements : Prop := forall c k v kj vj a',
  field_ok (k, v) -> step (abs c) (k, v) = Some a' ->
  exists c', parse c (k ++ NUL :: kj) (v ++ NUL :: vj) = Ret (true, c') /\ abs c' = a'.

Fixpoint fold_fields (a : A) (fields : list (bytes * bytes)) : option A :=
  match fields with
  | [] => Some a
  | kv :: t => match step a kv with Some a' => fold_fields a' t | None => None end
  end.

Definition bufs_ok (b : fl_bufs) : Prop :=
  zlen (msg_buf b) = MAXMSGSIZE /\ last (msg_buf b) = Some NUL.

Lemma zeros_bufs k v : bufs_ok {| msg_buf := zeros MAXMSGSIZE; key_buf := k; value_buf := v |}.
Proof. split; [|by vm_compute]. simpl. unfold zeros, zlen. by rewrite length_replicate. Qed.

Lemma bufs_overwrite line b k v : bufs_ok b -> zlen line < MAXMSGSIZE ->
  bufs_ok {| msg_buf := overwrite line (msg_buf b); key_buf := k; value_buf := v |}.
Proof.
  intros [Hl Hn] Hlen. unfold zlen in *. split; simpl.
  - rewrite <- Hl. unfold zlen. by rewrite length_overwrite by lia.
  - apply last_Some in Hn as [l Hm]. rewrite Hm in *. rewrite length_app in Hl. simpl in Hl.
    unfold overwrite. rewrite drop_app_le by lia. by rewrite app_assoc, last_snoc.
Qed.

Lemma c_string_overwrite line b :
  bufs_ok b -> zlen line < MAXMSGSIZE -> Forall (fun c => not_nul c = true) line ->
  exists t, c_string (overwrite line (msg_buf b)) = Ret (line ++ t).
Proof.
  intros Hb Hlen Hline. exists (cstr (drop (length line) (msg_buf b))).
  destruct (bufs_overwrite line b [] [] Hb Hlen) as [_ Hn].
  unfold c_string. rewrite has_nul_last by done. f_equal. by apply cstr_app.
Qed.

Lemma field_text_nul_free kv : field_ok kv -> Forall (fun c => not_nul c = true) (field_text kv).
Proof.
  intros (_ & Hk & Hv & _). destruct (key_ok_colon _ Hk) as (_ & Hk' & _).
  unfold field_text. rewrite !Forall_app.
  split; [done|]. split; [by apply forallb_Forall|]. split; [by apply text_ok_nul_free|].
  by apply forallb_Forall.
Qed.

Lemma field_text_long kv : field_ok kv -> 5 < zlen (field_text kv).
Proof.
  intros (Hk & _ & [_ Hv] & _). destruct kv as [[|k0 k] [|v0 v]]; try done.
  unfold field_text, zlen. rewrite !length_app.
  cbn [length fst snd CRLF list_ascii_of_string]. lia.
Qed.
(** One field through the loop body. *)
Lemma field_loop_step f fd b cnt c kv rest :
  parse_implements -> field_ok kv -> sb_wf fd -> bufs_ok b -> cnt < MAX_REQ_FIELDS ->
  pending fd = field_text kv ++ rest ->
  forall a', step (abs c) kv = Some a' ->
  exists c' fd' b', field_loop parse clear (S f) fd b cnt c
                    = field_loop parse clear f fd' b' (cnt + 1) c'
    /\ abs c' = a' /\ sb_wf fd' /\ bufs_ok b' /\ pending fd' = rest.
Proof.
  intros Hp Hkv Hw Hb Hcnt Hpend a' Hstep. cbn [field_loop].
  destruct (sock_readline_loop_spec (Z.to_nat MAXMSGSIZE) fd [] Hw) as (fd' & Hr & Hw' & Hp').
  pose proof (field_text_long kv Hkv) as Hlong.
  destruct kv as [k v]. rewrite Hpend in Hr, Hp'.
  destruct (field_line k v rest (Z.to_nat MAXMSGSIZE) Hkv) as [Hline Hdrop]; [done|].
  rewrite Hline in Hr, Hp'. rewrite Hdrop in Hp'.
  unfold sock_readline. rewrite Hr, bind_ret_l. cbv zeta. simpl app.
  replace (zlen (field_text (k, v)) =? 0) with false by lia.
  replace (zlen (field_text (k, v)) =? 2) with false by lia.
  replace (MAX_REQ_FIELDS <=? cnt) with false by lia. simpl andb. cbv match.
  destruct (c_string_overwrite (field_text (k, v)) b Hb) as [t Ht];
    [by destruct Hkv as (_ & _ & _ & H)|by apply field_text_nul_free|].
  rewrite Ht, bind_ret_l.
  pose proof Hkv as (Hk & Hkc & Hv & Hl). cbn [fst snd] in *.
  assert (field_text (k, v) ++ t = k ++ ⟦": "⟧ ++ v ++ CR :: LF :: t) as ->.
  { unfold field_text. rewrite <- !app_assoc. done. }
  rewrite kv_format_scan by done.
  cbv beta iota zeta.
  assert (forall s old, overwrite (s ++ [NUL]) old = s ++ NUL :: drop (length (s ++ [NUL])) old)
    as Hover by (intros s old; unfold overwrite; by rewrite <- app_assoc).
  edestruct (Hp c k v) as (c' & Hc & Ha); [done|exact Hstep|].
  rewrite !Hover, Hc, bind_ret_l.
  eexists c', fd', _. split; [done|]. repeat (split; [done|]). split; [|done].
  destruct clear; [apply zeros_bufs|by apply bufs_overwrite].
Qed.

Lemma field_loop_ok fields : forall fuel fd b cnt c rest a',
  parse_implements -> Forall field_ok fields -> sb_wf fd -> bufs_ok b ->
  cnt + zlen fields <= MAX_REQ_FIELDS -> (length fields < fuel)%nat ->
  pending fd = message fields ++ rest -> fold_fields (abs c) fields = Some a' ->
  exists c' fd' b', field_loop parse clear fuel fd b cnt c = Ret (FLDone, c', fd', b')
    /\ abs c' = a' /\ sb_wf fd' /\ bufs_ok b' /\ pending fd' = rest.
Proof.
  induction fields as [|kv fields IH];
    intros [|f] fd b cnt c rest a' Hp Hok Hw Hb Hcnt Hf Hpend Hfold; try (simpl in Hf; lia).
  - simpl in Hfold. injection Hfold as <-. cbn [field_loop].
    destruct (sock_readline_loop_spec (Z.to_nat MAXMSGSIZE) fd [] Hw) as (fd' & Hr & Hw' & Hp').
    rewrite Hpend in Hr, Hp'. unfold sock_readline. rewrite Hr, bind_ret_l.
    do 3 eexists. split; [reflexivity|]. split; [done|]. split; [done|]. split; [|done].
    by apply bufs_overwrite.
  - inversion_clear Hok as [|? ? Hkv Hrest]. simpl in Hfold.
    destruct (step (abs c) kv) as [a1|] eqn:Hs; [|done].
    destruct (field_loop_step f fd b cnt c kv (message fields ++ rest)) with (a' := a1)
      as (c1 & fd1 & b1 & -> & Ha1 & Hw1 & Hb1 & Hp1); try done.
    { unfold zlen in Hcnt. simpl in Hcnt. lia. }
    { rewrite Hpend. unfold message, wire. simpl. by rewrite <- !app_assoc. }
    rewrite <- Ha1 in Hfold.
    apply (IH f fd1 b1 (cnt + 1) c1 rest a'); try done; [|simpl in Hf; lia].
    unfold zlen in *. simpl in Hcnt. lia.
Qed.

(** What the three handlers get from a well-formed message. *)
Lemma read_fields_ok fields fd c rest a' :
  parse_implements -> Forall field_ok fields -> sb_wf fd ->
  zlen fields <= MAX_REQ_FIELDS -> pending fd = message fields ++ rest ->
  fold_fields (abs c) fields = Some a' ->
  exists c' fd' b', read_fields parse clear fd c = Ret (FLDone, c', fd', b')
    /\ abs c' = a' /\ sb_wf fd' /\ bufs_ok b' /\ pending fd' = rest.
Proof.
  intros Hp Hok Hw Hn Hpend Hfold.
  apply (field_loop_ok fields fl_fuel fd fl_bufs_init 0 c rest a'); try done.
  unfold zlen, MAX_REQ_FIELDS in *. unfold fl_fuel. lia.
Qed.

(** The loop ends on every input, whatever the peer sends. *)
Lemma field_loop_total fuel : forall fd b cnt c,
  (forall c k v, parse c k v <> NoFuel) -> cnt <= MAX_REQ_FIELDS ->
  MAX_REQ_FIELDS - cnt < Z.of_nat fuel ->
  field_loop parse clear fuel fd b cnt c <> NoFuel.
Proof.
  induction fuel as [|f IH]; intros fd b cnt c Hp Hc Hf; [lia|].
  cbn [field_loop]. apply bind_total; [apply sock_readline_loop_total|].
  intros [line fd1] _. case_if; [done|]. case_if; [done|]. case_if; [done|]. zbool.
  apply bind_total; [apply c_string_total|]. intros s _.
  destruct (sscanf kv_format s) as [|[k|] [|[v|] [|]]]; try done.
  apply bind_total; [apply Hp|]. intros [[] c1] _; [|done]. apply IH; [done|lia|lia].
Qed.

Lemma read_fields_total fd c :
  (forall c k v, parse c k v <> NoFuel) -> read_fields parse clear fd c <> NoFuel.
Proof. intros Hp. apply field_loop_total; [done|unfold MAX_REQ_FIELDS, fl_fuel; lia..]. Qed.
End FieldLoopSpec.
