(* ===== verification/Fifo.v ===== *)
(** What the message log of a replica promises to the threads that use it: two
    bounded first-in first-out queues.  The threads are modelled against this
    interface; [MsgLog] gives the implementation of [src/log.c]. *)
From S2P Require Import Prelude.

(** [log_msg_type] of [include/log.h]. *)
Inductive log_msg_type := INVALID_LOG | NORMAL | CONTROL.

#[global] Instance log_msg_type_eq_dec : EqDecision log_msg_type.
Proof. solve_decision. Defined.

(** * The abstract log *)

Record log_abs (V : Type) := {
  normal_msgs : list V;
  control_msgs : list V;
  normal_max : Z;
  control_max : Z
}.
Arguments normal_msgs {V} _.
Arguments control_msgs {V} _.
Arguments normal_max {V} _.
Arguments control_max {V} _.

Section Spec.
Context {V : Type}.

Definition abs_init (nm cm : Z) : log_abs V :=
  {| normal_msgs := []; control_msgs := []; normal_max := nm; control_max := cm |}.

Definition msgs (t : log_msg_type) (a : log_abs V) : list V :=
  match t with
  | NORMAL => normal_msgs a
  | CONTROL => control_msgs a
  | INVALID_LOG => []
  end.

Definition set_msgs (t : log_msg_type) (l : list V) (a : log_abs V) : log_abs V :=
  match t with
  | NORMAL => {| normal_msgs := l; control_msgs := control_msgs a;
                 normal_max := normal_max a; control_max := control_max a |}
  | CONTROL => {| normal_msgs := normal_msgs a; control_msgs := l;
                  normal_max := normal_max a; control_max := control_max a |}
  | INVALID_LOG => a
  end.

Definition limit (t : log_msg_type) (a : log_abs V) : Z :=
  match t with NORMAL => normal_max a | CONTROL => control_max a | INVALID_LOG => 0 end.

(** Append, unless the queue holds its limit. *)
Definition spec_put (v : V) (t : log_msg_type) (a : log_abs V) : Z * log_abs V :=
  if limit t a <=? zlen (msgs t a) then (-1, a)
  else (0, set_msgs t (msgs t a ++ [v]) a).

(** Remove the oldest message. *)
Definition spec_take (t : log_msg_type) (a : log_abs V) : option V * log_abs V :=
  match msgs t a with
  | [] => (None, a)
  | v :: l => (Some v, set_msgs t l a)
  end.
End Spec.

(** * The interface *)

Class FifoLog (Q V : Type) := {
  (** allocate a node for the message and enqueue it *)
  lq_put : Q -> V -> log_msg_type -> outcome (Z * Q);
  (** dequeue, read the message, free the node *)
  lq_take : Q -> log_msg_type -> outcome (option V * Q);
  lq_count : Q -> log_msg_type -> outcome (Z * Q);
  lq_rep : Q -> log_abs V -> Prop;
  lq_put_spec : forall q a v t, lq_rep q a ->
    exists q', lq_put q v t = Ret ((spec_put v t a).1, q') /\ lq_rep q' (spec_put v t a).2;
  lq_take_spec : forall q a t, lq_rep q a ->
    exists q', lq_take q t = Ret ((spec_take t a).1, q') /\ lq_rep q' (spec_take t a).2;
  lq_count_spec : forall q a t, lq_rep q a -> t <> INVALID_LOG ->
    exists q', lq_count q t = Ret (zlen (msgs t a), q') /\ lq_rep q' a
}.

(** * Traces of operations *)

Inductive lq_op (V : Type) :=
  | Put (v : V) (t : log_msg_type)
  | Take (t : log_msg_type).
Arguments Put {V} v t.
Arguments Take {V} t.

(** What an operation reported: the status of a put or the message taken. *)
Definition lq_result (V : Type) : Type := Z + option V.

Section Traces.
Context {V : Type}.

Fixpoint spec_run (ops : list (lq_op V)) (a : log_abs V) : list (lq_result V) * log_abs V :=
  match ops with
  | [] => ([], a)
  | Put v t :: ops =>
      let '(r, a) := spec_put v t a in
      let '(rs, a) := spec_run ops a in (inl r :: rs, a)
  | Take t :: ops =>
      let '(o, a) := spec_take t a in
      let '(rs, a) := spec_run ops a in (inr o :: rs, a)
  end.

Fixpoint impl_run {Q} `{FifoLog Q V} (ops : list (lq_op V)) (q : Q)
  : outcome (list (lq_result V) * Q) :=
  match ops with
  | [] => Ret ([], q)
  | Put v t :: ops =>
      '(r, q) ← lq_put q v t;
      '(rs, q) ← impl_run ops q; Ret (inl r :: rs, q)
  | Take t :: ops =>
      '(o, q) ← lq_take q t;
      '(rs, q) ← impl_run ops q; Ret (inr o :: rs, q)
  end.

Lemma impl_run_spec {Q} `{FifoLog Q V} ops (q : Q) a : lq_rep q a ->
  exists q', impl_run ops q = Ret ((spec_run ops a).1, q') /\ lq_rep q' (spec_run ops a).2.
Proof.
  revert q a. induction ops as [|[v t|t] ops IH]; intros q a Hr; simpl; [by exists q| |].
  - destruct (lq_put_spec q a v t Hr) as (q1 & -> & Hr1). simpl.
    destruct (spec_put v t a) as [r a1]. simpl in *.
    destruct (IH q1 a1 Hr1) as (q2 & -> & Hr2). simpl.
    destruct (spec_run ops a1). by exists q2.
  - destruct (lq_take_spec q a t Hr) as (q1 & -> & Hr1). simpl.
    destruct (spec_take t a) as [o a1]. simpl in *.
    destruct (IH q1 a1 Hr1) as (q2 & -> & Hr2). simpl.
    destruct (spec_run ops a1). by exists q2.
Qed.

(** The messages of type [t] that were accepted, and those that were taken,
    in order. *)
Fixpoint accepted (t : log_msg_type) (ops : list (lq_op V)) (rs : list (lq_result V)) : list V :=
  match ops, rs with
  | Put v t' :: ops, inl r :: rs =>
      (if decide (t' = t) then if r =? 0 then [v] else [] else []) ++ accepted t ops rs
  | _ :: ops, _ :: rs => accepted t ops rs
  | _, _ => []
  end.

Fixpoint taken (t : log_msg_type) (ops : list (lq_op V)) (rs : list (lq_result V)) : list V :=
  match ops, rs with
  | Take t' :: ops, inr o :: rs =>
      (if decide (t' = t) then option_list o else []) ++ taken t ops rs
  | _ :: ops, _ :: rs => taken t ops rs
  | _, _ => []
  end.

Lemma msgs_set_msgs t t' l (a : log_abs V) :
  t' <> INVALID_LOG -> msgs t (set_msgs t' l a) = if decide (t' = t) then l else msgs t a.
Proof. intros. destruct t, t'; done. Qed.

Lemma limit_set_msgs t t' l (a : log_abs V) : limit t (set_msgs t' l a) = limit t a.
Proof. by destruct t, t'. Qed.

(** First in, first out: what was in the queue and what was accepted is what
    was taken followed by what is left. *)
Lemma spec_run_fifo t ops a : t <> INVALID_LOG ->
  msgs t a ++ accepted t ops (spec_run ops a).1
  = taken t ops (spec_run ops a).1 ++ msgs t (spec_run ops a).2.
Proof.
  intros Ht. revert a. induction ops as [|[v t'|t'] ops IH]; intros a; simpl.
  - by rewrite app_nil_r.
  - destruct (spec_put v t' a) as [r a1] eqn:E. specialize (IH a1).
    destruct (spec_run ops a1) as [rs a2]. simpl in *. rewrite <- IH, app_assoc. f_equal.
    unfold spec_put in E. destruct (limit t' a <=? _); simplify_eq.
    { case_decide; simpl; by rewrite app_nil_r. }
    case_decide as Hd; subst.
    + by rewrite msgs_set_msgs, decide_True.
    + rewrite app_nil_r. destruct t'; [done|by destruct t..].
  - destruct (spec_take t' a) as [o a1] eqn:E. specialize (IH a1).
    destruct (spec_run ops a1) as [rs a2]. simpl in *. rewrite <- app_assoc, <- IH, app_assoc.
    f_equal. unfold spec_take in E. destruct (msgs t' a) as [|v l] eqn:Em; simplify_eq.
    { case_decide; subst; simpl; by rewrite ?Em. }
    case_decide as Hd; subst.
    + simpl. by rewrite msgs_set_msgs, decide_True.
    + destruct t'; [done|by destruct t..].
Qed.

(** The bound holds in every state. *)
Lemma spec_run_bounded t ops a :
  zlen (msgs t a) <= limit t a -> 0 <= limit t a ->
  zlen (msgs t (spec_run ops a).2) <= limit t (spec_run ops a).2
  /\ limit t (spec_run ops a).2 = limit t a.
Proof.
  revert a. induction ops as [|[v t'|t'] ops IH]; intros a Ha Hl; simpl; [done| |].
  - destruct (spec_put v t' a) as [r a1] eqn:E.
    assert (zlen (msgs t a1) <= limit t a1 /\ limit t a1 = limit t a) as [H1 H2].
    { unfold spec_put in E. case_if; simplify_eq; [done|]. zbool.
      rewrite limit_set_msgs. split; [|done].
      destruct (decide (t' = INVALID_LOG)) as [->|]; [by destruct t|].
      rewrite msgs_set_msgs by done. case_decide; subst; [rewrite zlen_snoc; lia|done]. }
    destruct (IH a1 H1) as [H3 H4]; [lia|]. destruct (spec_run ops a1). simpl in *. lia.
  - destruct (spec_take t' a) as [o a1] eqn:E.
    assert (zlen (msgs t a1) <= limit t a1 /\ limit t a1 = limit t a) as [H1 H2].
    { unfold spec_take in E. destruct (msgs t' a) as [|v l] eqn:Em; simplify_eq; [done|].
      rewrite limit_set_msgs. split; [|done].
      destruct (decide (t' = INVALID_LOG)) as [->|]; [by destruct t|].
      rewrite msgs_set_msgs by done. case_decide; subst; [|done].
      rewrite Em, zlen_cons in Ha. lia. }
    destruct (IH a1 H1) as [H3 H4]; [lia|]. destruct (spec_run ops a1). simpl in *. lia.
Qed.
End Traces.
