(* ===== verification/MsgLog.v ===== *)
(** [src/log.c]: the two bounded message queues of a replica (normal and
    control messages), kept as rings of heap nodes under one mutex, and their
    refinement to two lists.

    A node pointer is an [option positive]; the heap of nodes is a finite map.
    [q_mutex] is true while the mutex is held: a second [pthread_mutex_lock]
    waits, which shows as [NoFuel]. *)
From S2P Require Import Prelude Fifo.

Abbreviation ptr := (option positive).

Section MsgLog.
(** [V]: what [void *val] points to. *)
Context {V : Type}.

Record log_node_t := {
  val : V;
  next : ptr;
  prev : ptr
}.

Abbreviation heap := (gmap positive log_node_t).

(** One of the two queues of [server_log_t] (the [nrl_] or the [ctrl_]
    fields). *)
Record msg_queue := {
  head : ptr;
  tail : ptr;
  count : Z;
  Q_LIMIT : Z
}.

Record server_log_t := {
  nrl : msg_queue;
  ctrl : msg_queue;
  q_mutex : bool
}.

Definition init_queue (limit : Z) : msg_queue :=
  {| head := None; tail := None; count := 0; Q_LIMIT := limit |}.

Definition init_log_queue (nrl_limit ctrl_limit : Z) : server_log_t :=
  {| nrl := init_queue nrl_limit; ctrl := init_queue ctrl_limit; q_mutex := false |}.

Definition take_lq_lock (svr : server_log_t) : outcome server_log_t :=
  if q_mutex svr then NoFuel
  else Ret {| nrl := nrl svr; ctrl := ctrl svr; q_mutex := true |}.

Definition release_lq_lock (svr : server_log_t) : server_log_t :=
  {| nrl := nrl svr; ctrl := ctrl svr; q_mutex := false |}.

Definition get_count (svr : server_log_t) (m_type : log_msg_type)
  : outcome (Z * server_log_t) :=
  match m_type with
  | NORMAL =>
      svr ← take_lq_lock svr;
      let size := count (nrl svr) in
      Ret (size, release_lq_lock svr)
  | CONTROL =>
      svr ← take_lq_lock svr;
      let size := count (ctrl svr) in
      Ret (size, release_lq_lock svr)
  | INVALID_LOG => Exit
  end.

(** ** Heap accesses *)

Definition with_next (p : ptr) (n : log_node_t) : log_node_t :=
  {| val := val n; next := p; prev := prev n |}.
Definition with_prev (p : ptr) (n : log_node_t) : log_node_t :=
  {| val := val n; next := next n; prev := p |}.

Definition load (h : heap) (p : ptr) : outcome log_node_t :=
  l ← deref p; deref (h !! l).

Definition set_next (h : heap) (p v : ptr) : outcome heap :=
  l ← deref p; _ ← deref (h !! l); Ret (alter (with_next v) l h).

Definition set_prev (h : heap) (p v : ptr) : outcome heap :=
  l ← deref p; _ ← deref (h !! l); Ret (alter (with_prev v) l h).

(** ** dequeue *)

Definition dequeue_queue (h : heap) (q : msg_queue) : outcome (ptr * heap * msg_queue) :=
  if 0 <? count q then
    if count q =? 1 then
      Ret (head q, h,
           {| head := None; tail := None; count := count q - 1; Q_LIMIT := Q_LIMIT q |})
    else
      n ← load h (head q);
      h ← set_prev h (next n) (tail q);
      let ret_val := head q in
      n ← load h (head q);
      Ret (ret_val, h,
           {| head := next n; tail := tail q; count := count q - 1; Q_LIMIT := Q_LIMIT q |})
  else Ret (None, h, q).

Definition dequeue (h : heap) (svr : server_log_t) (m_type : log_msg_type)
  : outcome (ptr * heap * server_log_t) :=
  match m_type with
  | INVALID_LOG => Ret (None, h, svr)
  | NORMAL =>
      svr ← take_lq_lock svr;
      '(ret_val, h, q) ← dequeue_queue h (nrl svr);
      Ret (ret_val, h, release_lq_lock {| nrl := q; ctrl := ctrl svr; q_mutex := q_mutex svr |})
  | CONTROL =>
      svr ← take_lq_lock svr;
      '(ret_val, h, q) ← dequeue_queue h (ctrl svr);
      Ret (ret_val, h, release_lq_lock {| nrl := nrl svr; ctrl := q; q_mutex := q_mutex svr |})
  end.

(** ** enqueue *)

Definition enqueue_queue (h : heap) (q : msg_queue) (node : ptr)
  : outcome (Z * heap * msg_queue) :=
  if Q_LIMIT q <=? count q then Ret (-1, h, q)
  else
    let q := if count q =? 0
             then {| head := node; tail := node; count := count q; Q_LIMIT := Q_LIMIT q |}
             else q in
    h ← set_next h node (head q);
    h ← set_prev h node (tail q);
    h ← set_next h (tail q) node;
    h ← set_prev h (head q) node;
    Ret (0, h, {| head := head q; tail := node; count := count q + 1; Q_LIMIT := Q_LIMIT q |}).

Definition enqueue (h : heap) (svr : server_log_t) (node : ptr) (m_type : log_msg_type)
  : outcome (Z * heap * server_log_t) :=
  match m_type with
  | INVALID_LOG => Ret (-1, h, svr)
  | NORMAL =>
      svr ← take_lq_lock svr;
      '(ret_val, h, q) ← enqueue_queue h (nrl svr) node;
      Ret (ret_val, h, release_lq_lock {| nrl := q; ctrl := ctrl svr; q_mutex := q_mutex svr |})
  | CONTROL =>
      svr ← take_lq_lock svr;
      '(ret_val, h, q) ← enqueue_queue h (ctrl svr) node;
      Ret (ret_val, h, release_lq_lock {| nrl := nrl svr; ctrl := q; q_mutex := q_mutex svr |})
  end.

(** * Representation

    The nodes [ls] in order: [head] is the first, [tail] the last, every
    [next] but the last leads to the following node (the last one may point
    to a node that was freed), and the [prev] pointers form the full ring. *)
Definition prev_of (ls : list positive) (i : nat) : ptr :=
  match i with O => last ls | S j => ls !! j end.

Definition node_at (h : heap) (ls : list positive) (i : nat) (l : positive) : Prop :=
  exists n, h !! l = Some n /\ prev n = prev_of ls i
    /\ forall l', ls !! S i = Some l' -> next n = Some l'.

Definition queue_rep (h : heap) (q : msg_queue) (ls : list positive) : Prop :=
  count q = zlen ls /\ head q = hd_error ls /\ tail q = last ls /\ NoDup ls
  /\ forall i l, ls !! i = Some l -> node_at h ls i l.

Definition values (h : heap) (ls : list positive) : list (option V) :=
  map (fun l => val <$> h !! l) ls.

(** ** Heap updates *)

Lemma set_next_Ret h l v n : h !! l = Some n ->
  set_next h (Some l) v = Ret (alter (with_next v) l h).
Proof. intros H. unfold set_next. simpl. by rewrite H. Qed.

Lemma set_prev_Ret h l v n : h !! l = Some n ->
  set_prev h (Some l) v = Ret (alter (with_prev v) l h).
Proof. intros H. unfold set_prev. simpl. by rewrite H. Qed.

Lemma alter_Some (f : log_node_t -> log_node_t) (h : heap) l k n :
  h !! k = Some n -> alter f l h !! k = Some (if decide (l = k) then f n else n).
Proof. intros H. rewrite lookup_alter, H. case_decide; subst; by rewrite ?H. Qed.

Lemma values_alter f h l ls :
  (forall n, val (f n) = val n) -> values (alter f l h) ls = values h ls.
Proof.
  intros Hf. unfold values. apply map_ext. intros k. rewrite lookup_alter.
  case_decide as Hk; [subst|done]. destruct (h !! k); simpl; [|done]. by rewrite Hf.
Qed.

Lemma values_alter_next h l v ls : values (alter (with_next v) l h) ls = values h ls.
Proof. by apply values_alter. Qed.
Lemma values_alter_prev h l v ls : values (alter (with_prev v) l h) ls = values h ls.
Proof. by apply values_alter. Qed.

Lemma queue_rep_alloc h q ls i l : queue_rep h q ls -> ls !! i = Some l ->
  exists n, h !! l = Some n.
Proof. intros (_ & _ & _ & _ & H) Hi. destruct (H i l Hi) as (n & Hn & _). eauto. Qed.

Lemma queue_rep_frame h h' q ls :
  queue_rep h q ls -> (forall l, l ∈ ls -> h' !! l = h !! l) -> queue_rep h' q ls.
Proof.
  intros (Hc & Hh & Ht & Hn & H) Hf. repeat (split; [done|]).
  intros i l Hi. destruct (H i l Hi) as (n & Hl & Hp & Hx).
  exists n. rewrite Hf; [done|]. by eapply list_elem_of_lookup_2.
Qed.

Lemma values_frame h h' ls :
  (forall l, l ∈ ls -> h' !! l = h !! l) -> values h' ls = values h ls.
Proof.
  intros Hf. unfold values. apply map_ext_in. intros l Hl. rewrite Hf; [done|].
  by apply list_elem_of_In.
Qed.

Lemma init_queue_rep h limit : queue_rep h (init_queue limit) [].
Proof. repeat (split; [done || constructor|]). intros i l Hi. by rewrite lookup_nil in Hi. Qed.

(** ** enqueue appends *)

Lemma last_lookup_iff {A} (ls : list A) i x :
  NoDup ls -> ls !! i = Some x -> (last ls = Some x <-> S i = length ls).
Proof.
  intros Hn Hi. rewrite last_lookup. pose proof (lookup_lt_Some _ _ _ Hi). split.
  - intros Hl. pose proof (NoDup_lookup ls _ _ x Hn Hi Hl). lia.
  - intros <-. done.
Qed.

Lemma head_lookup_iff {A} (ls : list A) i x :
  NoDup ls -> ls !! i = Some x -> (hd_error ls = Some x <-> i = O).
Proof.
  intros Hn Hi. destruct ls as [|y ls]; [done|]. simpl. split.
  - intros [= ->]. by apply (NoDup_lookup (x :: ls) i 0 x).
  - intros ->. simpl in Hi. congruence.
Qed.

(** The heap after the four stores of [enqueue] on a non-empty queue. *)
Lemma enqueue_node_at h ls node n0 hd tl i l :
  hd_error ls = Some hd -> last ls = Some tl -> NoDup ls -> node ∉ ls ->
  h !! node = Some n0 ->
  (forall j k, ls !! j = Some k -> node_at h ls j k) ->
  (ls ++ [node]) !! i = Some l ->
  node_at (alter (with_prev (Some node)) hd (alter (with_next (Some node)) tl
    (alter (with_prev (Some tl)) node (alter (with_next (Some hd)) node h))))
    (ls ++ [node]) i l.
Proof.
  intros Hhd Htl Hnd Hnode Hn0 Hall Hi.
  assert (hd ∈ ls) as Hhd_in by (destruct ls; simplify_eq/=; by left).
  assert (tl ∈ ls) as Htl_in.
  { rewrite last_lookup in Htl. by eapply list_elem_of_lookup_2. }
  apply lookup_snoc_Some in Hi as [[Hlt Hi]|[-> <-]].
  - destruct (Hall i l Hi) as (n & Hn & Hprev & Hnext).
    assert (node <> l) as Hne by (intros ->; apply Hnode; by eapply list_elem_of_lookup_2).
    eexists. split; [by do 4 (apply alter_Some)|].
    rewrite !(decide_False (P := node = l)) by done. split.
    + destruct (decide (hd = l)) as [->|Hh].
      * apply (head_lookup_iff ls i l Hnd Hi) in Hhd as ->. simpl. by rewrite last_snoc.
      * assert (i <> O) by (intros ->; apply Hh; destruct ls; simplify_eq/=; done).
        destruct i as [|i]; [done|].
        transitivity (prev n); [by case_decide|]. rewrite Hprev. simpl.
        rewrite lookup_app_l by lia. done.
    + intros l' Hl'. apply lookup_snoc_Some in Hl' as [[Hlt' Hl']|[Hlen <-]].
      * assert (tl <> l) by (intros ->; apply (last_lookup_iff ls i l Hnd Hi) in Htl; lia).
        rewrite (decide_False (P := tl = l)) by done. case_decide; by apply Hnext.
      * assert (tl = l) as ->.
        { apply (last_lookup_iff ls i l Hnd Hi) in Hlen. congruence. }
        rewrite (decide_True (P := l = l)) by done. by case_decide.
  - eexists. split; [by do 4 (apply alter_Some)|].
    rewrite !(decide_True (P := node = node)) by done.
    rewrite (decide_False (P := hd = node)) by (intros ->; done).
    rewrite (decide_False (P := tl = node)) by (intros ->; done). split.
    + simpl. destruct (length ls) as [|k] eqn:E; [destruct ls; simplify_eq/=; done|].
      simpl. rewrite last_lookup, E in Htl. simpl in Htl. rewrite lookup_app_l by lia. done.
    + intros l' Hl'. apply lookup_lt_Some in Hl'. rewrite length_app in Hl'. simpl in Hl'. lia.
Qed.

(** What a call leaves alone: every node outside [ls], and all values. *)
Definition heap_frame (h h' : heap) (ls : list positive) : Prop :=
  (forall l, l ∉ ls -> h' !! l = h !! l) /\ (forall ks, values h' ks = values h ks).

Lemma heap_frame_refl h ls : heap_frame h h ls.
Proof. done. Qed.

Lemma heap_frame_alter h h1 l f ls :
  heap_frame h h1 ls -> (forall n, val (f n) = val n) -> l ∈ ls ->
  heap_frame h (alter f l h1) ls.
Proof.
  intros [A B] Hf Hl. split; [|intros ks; by rewrite values_alter].
  intros k Hk. rewrite lookup_alter_ne; [by apply A|]. by intros ->.
Qed.

Lemma enqueue_queue_ok h q ls node n0 :
  queue_rep h q ls -> count q < Q_LIMIT q -> node ∉ ls -> h !! node = Some n0 ->
  exists h' q', enqueue_queue h q (Some node) = Ret (0, h', q')
    /\ queue_rep h' q' (ls ++ [node]) /\ Q_LIMIT q' = Q_LIMIT q
    /\ heap_frame h h' (ls ++ [node]).
Proof.
  intros (Hc & Hh & Ht & Hnd & Hall) Hlim Hnode Hn0.
  unfold enqueue_queue. rewrite (proj2 (Z.leb_gt _ _)) by done. rewrite Hc.
  destruct ls as [|hd ls'] eqn:Els.
  - simpl. do 4 (erewrite set_next_Ret || erewrite set_prev_Ret; [simpl|by eauto using alter_Some]).
    do 2 eexists. split; [reflexivity|]. split; [|split; [done|]].
    + split; [done|]. split; [done|]. split; [done|]. split; [apply NoDup_singleton|].
      intros i l Hi. destruct i; [|done]. simplify_eq/=.
      eexists. split; [by do 4 (apply alter_Some)|].
      rewrite !(decide_True (P := l = l)) by done. done.
    + repeat (apply heap_frame_alter); try done; by left.
  - rewrite <- Els in *. assert ((zlen ls =? 0) = false) as -> by (subst; unfold zlen; simpl; lia).
    assert (hd_error ls = Some hd) as Hhd by (by subst).
    destruct (last ls) as [tl|] eqn:Htl; [|apply last_None in Htl; congruence].
    destruct (Hall 0%nat hd) as (nh & Hnh & _); [by subst|].
    destruct (Hall (pred (length ls)) tl) as (nt & Hnt & _); [by rewrite <- last_lookup|].
    rewrite Hh, Ht, Hhd. rewrite (set_next_Ret h node (Some hd) n0) by done. simpl mbind.
    do 3 (erewrite set_next_Ret || erewrite set_prev_Ret; [simpl mbind|by eauto using alter_Some]).
    do 2 eexists. split; [reflexivity|]. split; [|split; [done|]].
    + simpl. split; [simpl; rewrite zlen_snoc; lia|]. split; [by subst|].
      split; [by rewrite last_snoc|]. split.
      { apply NoDup_app. split; [done|]. split; [|apply NoDup_singleton].
        intros x Hx Hx2. apply list_elem_of_singleton in Hx2. by subst. }
      intros i l Hi. by eapply enqueue_node_at.
    + assert (hd ∈ ls ++ [node]) by (subst; by left).
      assert (tl ∈ ls ++ [node]).
      { apply elem_of_app. left. rewrite last_lookup in Htl. by eapply list_elem_of_lookup_2. }
      assert (node ∈ ls ++ [node]) by set_solver.
      repeat (apply heap_frame_alter); try apply heap_frame_refl; try assumption;
        intros; reflexivity.
Qed.

Lemma enqueue_queue_full h q node :
  Q_LIMIT q <= count q -> enqueue_queue h q node = Ret (-1, h, q).
Proof. intros H. unfold enqueue_queue. by rewrite (proj2 (Z.leb_le _ _)). Qed.

(** ** dequeue removes the first node *)

Lemma dequeue_queue_empty h q : queue_rep h q [] -> dequeue_queue h q = Ret (None, h, q).
Proof. intros (Hc & _). unfold dequeue_queue. by rewrite Hc. Qed.

Lemma dequeue_queue_ok h q l ls :
  queue_rep h q (l :: ls) ->
  exists h' q', dequeue_queue h q = Ret (Some l, h', q') /\ queue_rep h' q' ls
    /\ Q_LIMIT q' = Q_LIMIT q /\ heap_frame h h' ls.
Proof.
  intros (Hc & Hh & Ht & Hnd & Hall). unfold dequeue_queue. rewrite zlen_cons in Hc.
  pose proof (zlen_nonneg ls). rewrite (proj2 (Z.ltb_lt _ _)) by lia.
  destruct ls as [|l2 ls'] eqn:Els.
  - rewrite (proj2 (Z.eqb_eq _ _)) by (by rewrite Hc). rewrite Hh.
    do 2 eexists. split; [reflexivity|]. split; [|by split].
    rewrite Hc. apply (init_queue_rep h (Q_LIMIT q)).
  - rewrite (proj2 (Z.eqb_neq _ _)) by (rewrite Hc, zlen_cons; pose proof (zlen_nonneg ls'); lia).
    apply NoDup_cons in Hnd as [Hl Hnd].
    destruct (Hall 0%nat l eq_refl) as (n & Hn & _ & Hnext).
    destruct (Hall 1%nat l2 eq_refl) as (n2 & Hn2 & _).
    unfold load. rewrite Hh. simpl mbind. rewrite Hn. simpl mbind.
    rewrite (Hnext l2 eq_refl), (set_prev_Ret h l2 _ n2) by done. simpl mbind.
    rewrite (alter_Some _ _ _ _ n Hn), decide_False by (intros ->; apply Hl; by left).
    simpl mbind. rewrite (Hnext l2 eq_refl). rewrite <- Els in *.
    do 2 eexists. split; [reflexivity|]. split; [|split; [done|]].
    + simpl. split; [simpl; lia|]. split; [by subst|]. split; [by subst; rewrite Ht|].
      split; [done|]. intros i k Hi.
      destruct (Hall (S i) k Hi) as (m & Hm & Hprev & Hmn).
      eexists. split; [by apply alter_Some|]. split.
      * destruct i as [|i]; subst; simplify_eq/=.
        -- by rewrite decide_True, Ht.
        -- rewrite decide_False; [done|]. intros ->. apply NoDup_cons in Hnd as [Hx _].
           apply Hx. by eapply list_elem_of_lookup_2.
      * intros k' Hk'. case_decide; by apply Hmn.
    + apply heap_frame_alter; [done|done|subst; by left].
Qed.

(** * The log as the threads use it

    [log_mem] is the heap of nodes, the [server_log_t] and the next address
    [malloc] returns.  [put] is the allocation in [enqueue_client_req]
    followed by [enqueue]; a refused node is not freed.  [take] is [dequeue],
    the read of [node->val] and [free(node)] of [run]. *)
Record log_mem := {
  lm_heap : heap;
  lm_svr : server_log_t;
  lm_brk : positive
}.

Definition log_mem_init (nrl_limit ctrl_limit : Z) : log_mem :=
  {| lm_heap := ∅; lm_svr := init_log_queue nrl_limit ctrl_limit; lm_brk := 1%positive |}.

Definition put (m : log_mem) (v : V) (t : log_msg_type) : outcome (Z * log_mem) :=
  let node := lm_brk m in
  let h := <[node := {| val := v; next := None; prev := None |}]> (lm_heap m) in
  '(r, h, svr) ← enqueue h (lm_svr m) (Some node) t;
  Ret (r, {| lm_heap := h; lm_svr := svr; lm_brk := Pos.succ node |}).

Definition take (m : log_mem) (t : log_msg_type) : outcome (option V * log_mem) :=
  '(p, h, svr) ← dequeue (lm_heap m) (lm_svr m) t;
  match p with
  | None => Ret (None, {| lm_heap := h; lm_svr := svr; lm_brk := lm_brk m |})
  | Some l =>
      n ← deref (h !! l);
      Ret (Some (val n), {| lm_heap := delete l h; lm_svr := svr; lm_brk := lm_brk m |})
  end.

Definition lcount (m : log_mem) (t : log_msg_type) : outcome (Z * log_mem) :=
  '(n, svr) ← get_count (lm_svr m) t;
  Ret (n, {| lm_heap := lm_heap m; lm_svr := svr; lm_brk := lm_brk m |}).

(** One queue holds the messages [vs] in the nodes [ls]. *)
Definition holds (h : heap) (q : msg_queue) (ls : list positive) (vs : list V) : Prop :=
  queue_rep h q ls /\ values h ls = map Some vs.

Definition log_rep (m : log_mem) (a : log_abs V) : Prop :=
  exists ns cs, q_mutex (lm_svr m) = false
    /\ holds (lm_heap m) (nrl (lm_svr m)) ns (normal_msgs a)
    /\ holds (lm_heap m) (ctrl (lm_svr m)) cs (control_msgs a)
    /\ ns ## cs
    /\ Q_LIMIT (nrl (lm_svr m)) = normal_max a
    /\ Q_LIMIT (ctrl (lm_svr m)) = control_max a
    /\ forall l, (lm_brk m <= l)%positive -> lm_heap m !! l = None.

Lemma holds_count h q ls vs : holds h q ls vs -> count q = zlen vs.
Proof.
  intros [(Hc & _) Hv]. rewrite Hc. unfold zlen. f_equal.
  apply (f_equal length) in Hv. unfold values in Hv. by rewrite !length_map in Hv.
Qed.

Lemma holds_frame h h' q ls vs :
  holds h q ls vs -> (forall l, l ∈ ls -> h' !! l = h !! l) -> holds h' q ls vs.
Proof.
  intros [Hq Hv] Hf. split; [by eapply queue_rep_frame|]. by rewrite (values_frame h).
Qed.

Lemma holds_alloc h q ls vs l : holds h q ls vs -> l ∈ ls -> is_Some (h !! l).
Proof.
  intros [Hq _] Hl. apply list_elem_of_lookup in Hl as [i Hi].
  destruct (queue_rep_alloc h q ls i l Hq Hi) as [n Hn]. eauto.
Qed.

Lemma fresh_not_in h q ls vs l : holds h q ls vs -> h !! l = None -> l ∉ ls.
Proof.
  intros Hh Hl Hin. destruct (holds_alloc h q ls vs l Hh Hin) as [n Hn]. congruence.
Qed.

(** Appending a fresh node to one queue keeps the other. *)
Lemma holds_put h q ls vs q2 ls2 vs2 node v n :
  holds h q ls vs -> holds h q2 ls2 vs2 -> ls ## ls2 ->
  h !! node = None -> val n = v -> zlen vs < Q_LIMIT q ->
  exists h' q', enqueue_queue (<[node:=n]> h) q (Some node) = Ret (0, h', q')
    /\ holds h' q' (ls ++ [node]) (vs ++ [v]) /\ holds h' q2 ls2 vs2
    /\ ls ++ [node] ## ls2 /\ Q_LIMIT q' = Q_LIMIT q
    /\ forall l, l <> node -> h !! l = None -> h' !! l = None.
Proof.
  intros Hh Hh2 Hdisj Hfresh Hval Hlim.
  pose proof (fresh_not_in _ _ _ _ _ Hh Hfresh) as Hn1.
  pose proof (fresh_not_in _ _ _ _ _ Hh2 Hfresh) as Hn2.
  assert (forall ks : list positive, node ∉ ks -> forall l, l ∈ ks -> <[node:=n]> h !! l = h !! l) as Hins.
  { intros ks Hks l Hl. rewrite lookup_insert_ne; [done|]. by intros ->. }
  pose proof (holds_frame _ _ _ _ _ Hh (Hins _ Hn1)) as [Hq Hv].
  pose proof (holds_frame _ _ _ _ _ Hh2 (Hins _ Hn2)) as Hh2'.
  destruct (enqueue_queue_ok _ q ls node n Hq) as (h' & q' & Heq & Hrep & Hl & Hf & Hvals);
    [by rewrite (holds_count _ _ _ _ Hh)|done|apply lookup_insert_eq|].
  exists h', q'. split; [done|]. split; [split; [done|]|].
  { rewrite Hvals. unfold values in *. rewrite !map_app, Hv. simpl.
    by rewrite lookup_insert_eq, <- Hval. }
  split. { apply (holds_frame (<[node:=n]> h)); [done|]. intros l Hl2. apply Hf. set_solver. }
  split; [set_solver|]. split; [done|]. intros l Hne Hl0.
  rewrite Hf; [by rewrite lookup_insert_ne|].
  pose proof (fresh_not_in _ _ _ _ _ Hh Hl0). set_solver.
Qed.

Lemma holds_take h q l ls v vs q2 ls2 vs2 :
  holds h q (l :: ls) (v :: vs) -> holds h q2 ls2 vs2 -> l :: ls ## ls2 ->
  exists h' q' n, dequeue_queue h q = Ret (Some l, h', q')
    /\ h' !! l = Some n /\ val n = v
    /\ holds (delete l h') q' ls vs /\ holds (delete l h') q2 ls2 vs2
    /\ Q_LIMIT q' = Q_LIMIT q /\ forall k, h !! k = None -> delete l h' !! k = None.
Proof.
  intros Hh Hh2 Hdisj. pose proof Hh as [Hq Hv].
  destruct (dequeue_queue_ok h q l ls Hq) as (h' & q' & Heq & Hrep & Hl & Hf & Hvals).
  assert (l ∉ ls) as Hnotin by (destruct Hq as (_ & _ & _ & Hnd & _); by apply NoDup_cons in Hnd as []).
  simpl in Hv. injection Hv as Hv1 Hv2. destruct (h !! l) as [n|] eqn:Hn; [|done].
  exists h', q', n. split; [done|]. split; [by rewrite Hf|]. split; [by injection Hv1|].
  assert (forall ks : list positive, l ∉ ks -> forall k, k ∈ ks -> delete l h' !! k = h' !! k) as Hdel.
  { intros ks Hks k Hk. rewrite lookup_delete_ne; [done|]. by intros ->. }
  split; [apply (holds_frame h'); [split; [done|by rewrite Hvals]|by apply Hdel]|].
  split. { apply (holds_frame h'); [|apply Hdel; set_solver].
    apply (holds_frame h); [done|]. intros k Hk. apply Hf. set_solver. }
  split; [done|]. intros k Hk. rewrite lookup_delete. case_decide; [done|].
  rewrite Hf; [done|]. pose proof (fresh_not_in _ _ _ _ _ Hh Hk). set_solver.
Qed.

Lemma take_lock svr : q_mutex svr = false ->
  take_lq_lock svr = Ret {| nrl := nrl svr; ctrl := ctrl svr; q_mutex := true |}.
Proof. intros H. unfold take_lq_lock. by rewrite H. Qed.

Lemma brk_fresh m a : log_rep m a -> lm_heap m !! lm_brk m = None.
Proof. intros (ns & cs & _ & _ & _ & _ & _ & _ & H). apply H. lia. Qed.

(** A refused message leaves the queues as they are; its node stays behind. *)
Lemma log_rep_refused m a n : log_rep m a ->
  log_rep {| lm_heap := <[lm_brk m := n]> (lm_heap m);
             lm_svr := {| nrl := nrl (lm_svr m); ctrl := ctrl (lm_svr m); q_mutex := false |};
             lm_brk := Pos.succ (lm_brk m) |} a.
Proof.
  intros Hr. pose proof (brk_fresh m a Hr) as Hfresh.
  destruct Hr as (ns & cs & Hm & Hns & Hcs & Hd & Hl1 & Hl2 & Hbrk).
  assert (forall ks vs q, holds (lm_heap m) q ks vs ->
    holds (<[lm_brk m := n]> (lm_heap m)) q ks vs) as Hins.
  { intros ks vs q Hh. apply (holds_frame _ _ _ _ _ Hh). intros l Hl.
    rewrite lookup_insert_ne; [done|]. intros <-. by eapply fresh_not_in. }
  exists ns, cs. simpl. split; [done|]. split; [by apply Hins|]. split; [by apply Hins|].
  repeat (split; [done|]). intros l Hl. rewrite lookup_insert_ne by lia. apply Hbrk. lia.
Qed.

Lemma log_rep_put m a v t : log_rep m a ->
  exists m', put m v t = Ret ((spec_put v t a).1, m') /\ log_rep m' (spec_put v t a).2.
Proof.
  intros Hr. pose proof (brk_fresh m a Hr) as Hfresh.
  set (n := {| val := v; next := None; prev := None |}).
  pose proof (log_rep_refused m a n Hr) as Hfull.
  pose proof Hr as (ns & cs & Hm & Hns & Hcs & Hd & Hl1 & Hl2 & Hbrk).
  assert (forall (h' : heap) l, (forall k, k <> lm_brk m -> lm_heap m !! k = None -> h' !! k = None) ->
    (Pos.succ (lm_brk m) <= l)%positive -> h' !! l = None) as Hbrk'.
  { intros h' l Hk Hl. apply Hk; [lia|]. apply Hbrk. lia. }
  unfold put, enqueue, spec_put. fold n. destruct t; simpl.
  - eexists. split; [done|]. destruct (lm_svr m) as [? ? mu]. simpl in *. by subst mu.
  - rewrite take_lock, <- Hl1 by done. simpl mbind.
    destruct (Q_LIMIT (nrl (lm_svr m)) <=? zlen (normal_msgs a)) eqn:E; zbool.
    + rewrite enqueue_queue_full by (by rewrite (holds_count _ _ _ _ Hns)).
      eexists. by split; [reflexivity|].
    + destruct (holds_put _ _ _ _ _ _ _ (lm_brk m) v n Hns Hcs Hd)
        as (h' & q' & -> & H1 & H2 & H3 & H4 & H5); [done|done|lia|].
      eexists. split; [done|]. exists (ns ++ [lm_brk m]), cs. simpl.
      repeat (split; [done || congruence || set_solver|]). eauto.
  - rewrite take_lock, <- Hl2 by done. simpl mbind.
    destruct (Q_LIMIT (ctrl (lm_svr m)) <=? zlen (control_msgs a)) eqn:E; zbool.
    + rewrite enqueue_queue_full by (by rewrite (holds_count _ _ _ _ Hcs)).
      eexists. by split; [reflexivity|].
    + destruct (holds_put _ _ _ _ _ _ _ (lm_brk m) v n Hcs Hns)
        as (h' & q' & -> & H1 & H2 & H3 & H4 & H5); [set_solver|done|done|lia|].
      eexists. split; [done|]. exists ns, (cs ++ [lm_brk m]). simpl.
      repeat (split; [done || congruence || set_solver|]). eauto.
Qed.

Lemma holds_nil h q ls : holds h q ls [] -> ls = [].
Proof. intros [_ Hv]. by destruct ls. Qed.

Lemma holds_cons h q ls v vs : holds h q ls (v :: vs) -> exists l ls', ls = l :: ls'.
Proof. intros [_ Hv]. destruct ls; [done|eauto]. Qed.

Lemma log_rep_take m a t : log_rep m a ->
  exists m', take m t = Ret ((spec_take t a).1, m') /\ log_rep m' (spec_take t a).2.
Proof.
  intros (ns & cs & Hm & Hns & Hcs & Hd & Hl1 & Hl2 & Hbrk).
  assert (log_rep {| lm_heap := lm_heap m; lm_svr := release_lq_lock {| nrl := nrl (lm_svr m);
      ctrl := ctrl (lm_svr m); q_mutex := true |}; lm_brk := lm_brk m |} a) as Hnone
    by (by exists ns, cs).
  unfold take, dequeue, spec_take. destruct t; simpl.
  - eexists. split; [done|]. destruct m as [? [? ? mu] ?]. simpl in *. by subst mu.
  - rewrite take_lock by done. simpl mbind. destruct (normal_msgs a) as [|v vs] eqn:Ev.
    + pose proof (holds_nil _ _ _ Hns) as ->. destruct Hns as [Hq _].
      rewrite dequeue_queue_empty by done. simpl. by eexists.
    + destruct (holds_cons _ _ _ _ _ Hns) as (l & ls & ->).
      destruct (holds_take _ _ _ _ _ _ _ _ _ Hns Hcs Hd)
        as (h' & q' & n & -> & Hn & <- & H1 & H2 & H3 & H4).
      simpl. rewrite Hn. simpl. eexists. split; [done|]. exists ls, cs. simpl.
      repeat (split; [done || set_solver || congruence|]). intros k Hk. by apply H4, Hbrk.
  - rewrite take_lock by done. simpl mbind. destruct (control_msgs a) as [|v vs] eqn:Ev.
    + pose proof (holds_nil _ _ _ Hcs) as ->. destruct Hcs as [Hq _].
      rewrite dequeue_queue_empty by done. simpl. by eexists.
    + destruct (holds_cons _ _ _ _ _ Hcs) as (l & ls & ->).
      destruct (holds_take _ _ _ _ _ _ _ _ _ Hcs Hns)
        as (h' & q' & n & -> & Hn & <- & H1 & H2 & H3 & H4); [set_solver|].
      simpl. rewrite Hn. simpl. eexists. split; [done|]. exists ns, ls. simpl.
      repeat (split; [done || set_solver || congruence|]). intros k Hk. by apply H4, Hbrk.
Qed.

Lemma log_rep_count m a t : log_rep m a -> t <> INVALID_LOG ->
  exists m', lcount m t = Ret (zlen (msgs t a), m') /\ log_rep m' a.
Proof.
  intros (ns & cs & Hm & Hns & Hcs & Hrest) Ht. unfold lcount, get_count.
  destruct t; [done| |]; rewrite take_lock by done; simpl;
    [rewrite (holds_count _ _ _ _ Hns)|rewrite (holds_count _ _ _ _ Hcs)];
    (eexists; split; [done|]; by exists ns, cs).
Qed.

Lemma log_rep_init nm cm : log_rep (log_mem_init nm cm) (abs_init nm cm).
Proof.
  exists [], []. simpl. split; [done|].
  split; [split; [apply init_queue_rep|done]|]. split; [split; [apply init_queue_rep|done]|].
  split; [set_solver|]. split; [done|]. split; [done|]. intros l _. apply lookup_empty.
Qed.
End MsgLog.

(** [src/log.c] implements the interface. *)
#[global] Instance log_fifo {V} : FifoLog (@log_mem V) V := {|
  lq_put := put;
  lq_take := take;
  lq_count := lcount;
  lq_rep := log_rep;
  lq_put_spec := log_rep_put;
  lq_take_spec := log_rep_take;
  lq_count_spec := log_rep_count
|}.

(** C17: the linked queues of the log refine two bounded lists. For every
    sequence of enqueues and dequeues on a fresh log, with any limits, the
    pointer code is defined (no null or dangling pointer is read), takes and
    releases its mutex, and reports exactly what the specification reports. *)
Theorem log_refines_queues {V} nm cm (ops : list (lq_op V)) :
  exists q, impl_run ops (log_mem_init nm cm) = Ret ((spec_run ops (abs_init nm cm)).1, q)
    /\ log_rep q (spec_run ops (abs_init nm cm)).2.
Proof.
  destruct (impl_run_spec ops (log_mem_init nm cm) (abs_init nm cm)) as (q & Hr & Hq);
    [apply log_rep_init|]. exists q. split; [exact Hr|exact Hq].
Qed.

Lemma limit_init {V} nm cm t : 0 <= nm -> 0 <= cm -> 0 <= limit t (abs_init (V := V) nm cm).
Proof. by destruct t. Qed.

(** Each queue is first in, first out and bounded: the messages accepted so
    far are those delivered so far, in the same order, followed by those still
    queued, whose number is what the counter says and within the limit. *)
Theorem log_fifo_order {V} nm cm t (ops : list (lq_op V)) :
  t <> INVALID_LOG -> 0 <= nm -> 0 <= cm ->
  exists rs q q' left, impl_run ops (log_mem_init nm cm) = Ret (rs, q)
    /\ accepted t ops rs = taken t ops rs ++ left
    /\ lcount q t = Ret (zlen left, q')
    /\ zlen left <= limit t (abs_init (V := V) nm cm).
Proof.
  intros Ht Hn Hc. pose proof (limit_init (V := V) nm cm t Hn Hc) as Hl.
  destruct (impl_run_spec ops (log_mem_init nm cm) (abs_init nm cm)) as (q & Hr & Hq);
    [apply log_rep_init|].
  destruct (lq_count_spec q _ t Hq Ht) as (q' & Hcount & _).
  pose proof (spec_run_fifo t ops (abs_init nm cm) Ht) as Hf.
  destruct (spec_run_bounded t ops (abs_init nm cm)) as [Hb He]; [by destruct t|done|].
  eexists _, q, q', _. split; [exact Hr|]. split; [|split; [exact Hcount|lia]].
  rewrite <- Hf. by destruct t.
Qed.

Lemma log_fifo_order_witness :
  exists rs q q' left,
    impl_run [Put 1 NORMAL; Put 2 NORMAL; Put 9 CONTROL; Put 3 NORMAL; Take NORMAL]
      (log_mem_init 2 2) = Ret (rs, q)
    /\ accepted NORMAL [Put 1 NORMAL; Put 2 NORMAL; Put 9 CONTROL; Put 3 NORMAL; Take NORMAL] rs
       = taken NORMAL [Put 1 NORMAL; Put 2 NORMAL; Put 9 CONTROL; Put 3 NORMAL; Take NORMAL] rs ++ left
    /\ lcount q NORMAL = Ret (zlen left, q') /\ zlen left <= 2.
Proof.
  apply (log_fifo_order 2 2 NORMAL
    [Put 1 NORMAL; Put 2 NORMAL; Put 9 CONTROL; Put 3 NORMAL; Take NORMAL]); [discriminate|lia|lia].
Defined.

Example log_refuses_when_full :
  (r ← impl_run [Put 1 NORMAL; Put 2 NORMAL; Put 3 NORMAL; Take NORMAL] (log_mem_init 2 2); Ret r.1)
  = Ret [inl 0; inl 0; inl (-1); inr (Some 1)].
Proof. by vm_compute. Qed.
