(* ===== verification/Control.v ===== *)
(** The control plane of a replica: the state machine of [src/state.c], the
    flags and the life of the checkpoint thread of [src/chkpt.c], the quiesce
    operations of [src/worker.c] and the message of the replication manager that
    drives them ([handle_rep_msg] and [handle_quiesce_command] of
    [src/server.c]).

    [chk_thread] is the checkpoint thread: [Some n] while it is alive with its
    local [sleep_count = n].  The busy wait of [stop_chk_pt_thread] ends when
    the thread sees the signal, which it only looks at inside its sleep loop:
    with no thread, or with a frequency that keeps the thread out of that loop,
    the wait never ends ([NoFuel]). *)
From S2P Require Import Prelude CLib Iface.

Record ctl := {
  rep_mode : Z;
  state : Z;
  prev_state : Z;
  signal_exit_checkpt_thread : Z;
  is_chkpt_thrd_running : Z;
  checkpoint_freq_g : Z;
  bckup_svr_0 : bsvr_ctx;
  bckup_svr_1 : bsvr_ctx;
  chk_thread : option Z
}.

(** Static initialisation. *)
Definition ctl_init : ctl :=
  {| rep_mode := UNKNOWN_REP; state := UNKNOWN_STATE; prev_state := 0;
     signal_exit_checkpt_thread := 0; is_chkpt_thrd_running := 0;
     checkpoint_freq_g := 10; bckup_svr_0 := BSVR_CTX_ZERO; bckup_svr_1 := BSVR_CTX_ZERO;
     chk_thread := None |}.

Definition upd_mode (m : Z) (c : ctl) : ctl :=
  {| rep_mode := m; state := state c; prev_state := prev_state c;
     signal_exit_checkpt_thread := signal_exit_checkpt_thread c;
     is_chkpt_thrd_running := is_chkpt_thrd_running c;
     checkpoint_freq_g := checkpoint_freq_g c; bckup_svr_0 := bckup_svr_0 c;
     bckup_svr_1 := bckup_svr_1 c; chk_thread := chk_thread c |}.
Definition upd_state (s : Z) (c : ctl) : ctl :=
  {| rep_mode := rep_mode c; state := s; prev_state := prev_state c;
     signal_exit_checkpt_thread := signal_exit_checkpt_thread c;
     is_chkpt_thrd_running := is_chkpt_thrd_running c;
     checkpoint_freq_g := checkpoint_freq_g c; bckup_svr_0 := bckup_svr_0 c;
     bckup_svr_1 := bckup_svr_1 c; chk_thread := chk_thread c |}.
Definition upd_prev (s : Z) (c : ctl) : ctl :=
  {| rep_mode := rep_mode c; state := state c; prev_state := s;
     signal_exit_checkpt_thread := signal_exit_checkpt_thread c;
     is_chkpt_thrd_running := is_chkpt_thrd_running c;
     checkpoint_freq_g := checkpoint_freq_g c; bckup_svr_0 := bckup_svr_0 c;
     bckup_svr_1 := bckup_svr_1 c; chk_thread := chk_thread c |}.
Definition upd_thread (sig run : Z) (t : option Z) (c : ctl) : ctl :=
  {| rep_mode := rep_mode c; state := state c; prev_state := prev_state c;
     signal_exit_checkpt_thread := sig; is_chkpt_thrd_running := run;
     checkpoint_freq_g := checkpoint_freq_g c; bckup_svr_0 := bckup_svr_0 c;
     bckup_svr_1 := bckup_svr_1 c; chk_thread := t |}.

Definition set_bckup_servers (s0 s1 : bsvr_ctx) (c : ctl) : ctl :=
  {| rep_mode := rep_mode c; state := state c; prev_state := prev_state c;
     signal_exit_checkpt_thread := signal_exit_checkpt_thread c;
     is_chkpt_thrd_running := is_chkpt_thrd_running c;
     checkpoint_freq_g := checkpoint_freq_g c; bckup_svr_0 := s0;
     bckup_svr_1 := s1; chk_thread := chk_thread c |}.
Definition set_checkpoint_freq (f : Z) (c : ctl) : ctl :=
  {| rep_mode := rep_mode c; state := state c; prev_state := prev_state c;
     signal_exit_checkpt_thread := signal_exit_checkpt_thread c;
     is_chkpt_thrd_running := is_chkpt_thrd_running c;
     checkpoint_freq_g := f; bckup_svr_0 := bckup_svr_0 c;
     bckup_svr_1 := bckup_svr_1 c; chk_thread := chk_thread c |}.

(** * The checkpoint thread: start and stop *)

Definition start_ckhpt_thread (c : ctl) : ctl :=
  if is_chkpt_thrd_running c =? 1 then c
  else upd_thread (signal_exit_checkpt_thread c) 1 (Some 0) c.

(** What the thread does at the head of its inner loop, [None] when it leaves
    the loop to send a checkpoint: see the signal and end, or sleep one second
    more. *)
Definition chk_thread_sleep (sleep_count : Z) (c : ctl) : option ctl :=
  if sleep_count <? checkpoint_freq_g c then
    if signal_exit_checkpt_thread c =? 1 then Some (upd_thread 0 0 None c)
    else Some (upd_thread (signal_exit_checkpt_thread c) (is_chkpt_thrd_running c)
                 (Some (sleep_count + 1)) c)
  else None.

(** The thread starts every round with [sleep_count = 0]; it looks at the signal
    in this round, or in the next one after sending a checkpoint. *)
Definition stop_chk_pt_thread (c : ctl) : outcome ctl :=
  let c := upd_thread 1 (is_chkpt_thrd_running c) (chk_thread c) c in
  match chk_thread c with
  | None => NoFuel
  | Some sleep_count =>
      match chk_thread_sleep sleep_count c with
      | Some c => Ret c
      | None =>
          match chk_thread_sleep 0 c with
          | Some c => Ret c
          | None => NoFuel
          end
      end
  end.

Definition kill_chkpt_thrd_if_running (c : ctl) : outcome ctl :=
  if is_chkpt_thrd_running c =? 1 then stop_chk_pt_thread c else Ret c.

(** * src/state.c *)

Definition get_mode (c : ctl) : Z := rep_mode c.
Definition get_state (c : ctl) : Z := state c.

Definition set_mode (m : Z) (c : ctl) : outcome ctl :=
  _ ← c_assert (rep_mode c =? UNKNOWN_REP);
  _ ← c_assert ((UNKNOWN_REP <? m) && (m <=? PASSIVE_REP));
  Ret (upd_mode m c).

Definition set_state (s_state : Z) (c : ctl) : outcome ctl :=
  _ ← c_assert (negb (rep_mode c =? UNKNOWN_REP));
  _ ← (if rep_mode c =? ACTIVE_REP then
         if negb (s_state =? ACTIVE_RUNNING) && negb (s_state =? ACTIVE_RECOVER)
            && negb (s_state =? QUIESCE)
         then c_assert false else Ret tt
       else if rep_mode c =? PASSIVE_REP then
         if negb (s_state =? PASSIVE_PRIMARY) && negb (s_state =? PASSIVE_BACKUP)
            && negb (s_state =? PASSIVE_PREPRIMARY)
         then c_assert false else Ret tt
       else Ret tt);
  c ← (if rep_mode c =? PASSIVE_REP then
         if s_state =? PASSIVE_PRIMARY then Ret (start_ckhpt_thread c)
         else if s_state =? PASSIVE_BACKUP then kill_chkpt_thrd_if_running c
         else Ret c
       else Ret c);
  Ret (upd_state s_state c).

Definition rep_mode_str (m : Z) : bytes :=
  if m =? UNKNOWN_REP then ⟦"UNKNOWN_REP"⟧
  else if m =? ACTIVE_REP then ⟦"ACTIVE_REP"⟧
  else if m =? PASSIVE_REP then ⟦"PASSIVE_REP"⟧
  else ⟦"UPDATE_STR_FUNC"⟧.

Definition server_states_str (s : Z) : bytes :=
  if s =? UNKNOWN_STATE then ⟦"UNKNOWN_STATE"⟧
  else if s =? QUIESCE then ⟦"QUIESCE"⟧
  else if s =? ACTIVE_RUNNING then ⟦"ACTIVE_RUNNING"⟧
  else if s =? ACTIVE_RECOVER then ⟦"ACTIVE_RECOVER"⟧
  else if s =? PASSIVE_PRIMARY then ⟦"PASSIVE_PRIMARY"⟧
  else if s =? PASSIVE_BACKUP then ⟦"PASSIVE_BACKUP"⟧
  else if s =? PASSIVE_PREPRIMARY then ⟦"PASSIVE_PREPRIMARY"⟧
  else ⟦"UPDATE_STR_FUNC"⟧.

(** * Quiesce (src/worker.c) *)

Definition put_in_quiesence (c : ctl) : outcome ctl :=
  let c := upd_prev (get_state c) c in
  set_state QUIESCE c.

Definition remove_from_quiesence (c : ctl) : outcome ctl :=
  c ← set_state (prev_state c) c;
  Ret (upd_prev (get_state c) c).

Definition handle_quiesce_command (type : Z) (c : ctl) : outcome (Z * ctl) :=
  if type =? MSG_QUIESCE_START then c ← put_in_quiesence c; Ret (0, c)
  else if type =? MSG_QUIESCE_STOP then c ← remove_from_quiesence c; Ret (0, c)
  else Ret (-1, c).

(** * The message of the replication manager (src/server.c) *)

Definition handle_rep_msg (m : rep_mgr_msg_t) (c : ctl) : outcome ctl :=
  c ← (if get_mode c =? UNKNOWN_REP then set_mode (rm_rep_mode m) c else Ret c);
  c ← kill_chkpt_thrd_if_running c;
  let c := set_bckup_servers (rm_bckup_svr_0 m) (rm_bckup_svr_1 m) c in
  let c := set_checkpoint_freq (rm_checkpoint_freq m) c in
  set_state (rm_server_state m) c.

(** * The predicates the threads test *)

(** [should_nrl_thrd_sleep] (src/worker.c). *)
Definition should_nrl_thrd_sleep (c : ctl) : bool :=
  (get_mode c =? PASSIVE_REP) && (get_state c =? PASSIVE_BACKUP).

(** The promotion of a pre-primary, in [run] (src/worker.c, when the queue is
    empty) and in [execute_msg] (src/server.c, for a request that is not from
    the backlog). *)
Definition is_preprimary (c : ctl) : bool :=
  (get_mode c =? PASSIVE_REP) && (get_state c =? PASSIVE_PREPRIMARY).

(** * Invariant *)

Definition active_state (s : Z) : Prop :=
  s = UNKNOWN_STATE \/ s = ACTIVE_RUNNING \/ s = ACTIVE_RECOVER \/ s = QUIESCE.
Definition passive_state (s : Z) : Prop :=
  s = UNKNOWN_STATE \/ s = PASSIVE_PRIMARY \/ s = PASSIVE_BACKUP \/ s = PASSIVE_PREPRIMARY.

(** The states allowed in each mode, and a checkpoint thread exactly while the
    replica is the passive primary. *)
Record ctl_ok (c : ctl) : Prop := {
  ok_mode : (rep_mode c = UNKNOWN_REP /\ state c = UNKNOWN_STATE)
            \/ (rep_mode c = ACTIVE_REP /\ active_state (state c) /\ active_state (prev_state c))
            \/ (rep_mode c = PASSIVE_REP /\ passive_state (state c));
  ok_prev : rep_mode c <> ACTIVE_REP -> prev_state c = UNKNOWN_STATE;
  ok_signal : signal_exit_checkpt_thread c = 0;
  ok_primary : rep_mode c = PASSIVE_REP /\ state c = PASSIVE_PRIMARY ->
               is_chkpt_thrd_running c = 1 /\ exists n, chk_thread c = Some n /\ 0 <= n;
  ok_other : ~ (rep_mode c = PASSIVE_REP /\ state c = PASSIVE_PRIMARY) ->
             is_chkpt_thrd_running c = 0 /\ chk_thread c = None
}.

Ltac unfold_enums :=
  unfold active_state, passive_state in *;
  unfold UNKNOWN_REP, ACTIVE_REP, PASSIVE_REP, UNKNOWN_STATE, QUIESCE, ACTIVE_RUNNING,
    ACTIVE_RECOVER, PASSIVE_PRIMARY, PASSIVE_BACKUP, PASSIVE_PREPRIMARY in *.

Ltac enum_lia := unfold_enums; lia.

(** Closes the goals that only concern the fields of the control record. *)
Ltac ctl_solve := constructor; simpl in *; unfold_enums; intros;
  repeat match goal with H : _ /\ _ |- _ => destruct H end; subst; try lia; eauto.

Lemma ctl_init_ok : ctl_ok ctl_init.
Proof. ctl_solve. Qed.

(** Stopping the thread, from a state of the invariant. *)
Definition stopped (c : ctl) : ctl := upd_thread 0 0 None c.

Lemma kill_cases c : ctl_ok c ->
  kill_chkpt_thrd_if_running c = Ret (stopped c)
  \/ (kill_chkpt_thrd_if_running c = NoFuel /\ checkpoint_freq_g c <= 0).
Proof.
  intros Hok. unfold kill_chkpt_thrd_if_running.
  destruct (decide (rep_mode c = PASSIVE_REP /\ state c = PASSIVE_PRIMARY)) as [Hp|Hn].
  - destruct (ok_primary c Hok Hp) as (Hr & n & Hn & _). rewrite Hr. simpl.
    unfold stop_chk_pt_thread. simpl. rewrite Hn. unfold chk_thread_sleep. simpl.
    destruct (n <? checkpoint_freq_g c); simpl; [by left|].
    destruct (0 <? checkpoint_freq_g c) eqn:E; zbool; [by left|by right].
  - destruct (ok_other c Hok Hn) as [Hr Ht]. rewrite Hr. simpl. left. f_equal.
    pose proof (ok_signal c Hok) as Hs. destruct c; simpl in *. subst. done.
Qed.

Lemma kill_ok c : ctl_ok c -> 0 < checkpoint_freq_g c ->
  kill_chkpt_thrd_if_running c = Ret (stopped c).
Proof. intros Hok Hf. destruct (kill_cases c Hok) as [H|[_ H]]; [done|lia]. Qed.

(** With a frequency that is not positive the thread never reads the signal. *)
Lemma kill_hangs c : ctl_ok c -> rep_mode c = PASSIVE_REP -> state c = PASSIVE_PRIMARY ->
  checkpoint_freq_g c <= 0 -> kill_chkpt_thrd_if_running c = NoFuel.
Proof.
  intros Hok Hm Hs Hf. destruct (ok_primary c Hok) as (Hr & n & Hn & Hpos); [done|].
  unfold kill_chkpt_thrd_if_running, stop_chk_pt_thread, chk_thread_sleep. rewrite Hr. simpl.
  rewrite Hn. simpl.
  rewrite (proj2 (Z.ltb_ge n _)), (proj2 (Z.ltb_ge 0 _)) by lia. done.
Qed.

(** * set_state, branch by branch *)

(** The states [set_state] accepts in a mode. *)
Definition state_allowed (mode s : Z) : bool :=
  if mode =? ACTIVE_REP then (s =? ACTIVE_RUNNING) || (s =? ACTIVE_RECOVER) || (s =? QUIESCE)
  else if mode =? PASSIVE_REP then
    (s =? PASSIVE_PRIMARY) || (s =? PASSIVE_BACKUP) || (s =? PASSIVE_PREPRIMARY)
  else negb (mode =? UNKNOWN_REP).

Lemma set_state_active c s : rep_mode c = ACTIVE_REP ->
  set_state s c = if state_allowed ACTIVE_REP s then Ret (upd_state s c) else Exit.
Proof.
  intros Hm. unfold set_state, state_allowed. rewrite Hm. simpl.
  by destruct (s =? ACTIVE_RUNNING), (s =? ACTIVE_RECOVER), (s =? QUIESCE).
Qed.

Lemma set_state_unknown c s : rep_mode c = UNKNOWN_REP -> set_state s c = Exit.
Proof. intros Hm. unfold set_state. by rewrite Hm. Qed.

Lemma set_state_passive_bad c s : rep_mode c = PASSIVE_REP ->
  state_allowed PASSIVE_REP s = false -> set_state s c = Exit.
Proof.
  intros Hm Hs. unfold set_state, state_allowed in *. rewrite Hm. simpl in *.
  by destruct (s =? PASSIVE_PRIMARY), (s =? PASSIVE_BACKUP), (s =? PASSIVE_PREPRIMARY).
Qed.

(** From a state without a checkpoint thread. *)
Lemma set_state_passive c s : rep_mode c = PASSIVE_REP -> is_chkpt_thrd_running c = 0 ->
  state_allowed PASSIVE_REP s = true ->
  set_state s c = Ret (upd_state s (if s =? PASSIVE_PRIMARY
                                    then upd_thread (signal_exit_checkpt_thread c) 1 (Some 0) c
                                    else c)).
Proof.
  intros Hm Hr Hs. unfold set_state, state_allowed in *. rewrite Hm. simpl in *.
  destruct (s =? PASSIVE_PRIMARY) eqn:E1; simpl in *.
  - unfold start_ckhpt_thread. by rewrite Hr.
  - destruct (s =? PASSIVE_BACKUP) eqn:E2; simpl in *.
    + unfold kill_chkpt_thrd_if_running. by rewrite Hr.
    + by destruct (s =? PASSIVE_PREPRIMARY).
Qed.

(** * handle_rep_msg as a specification *)

Definition rep_msg_spec (m : rep_mgr_msg_t) (c : ctl) : outcome ctl :=
  let mode := if rep_mode c =? UNKNOWN_REP then rm_rep_mode m else rep_mode c in
  if ((mode =? ACTIVE_REP) || (mode =? PASSIVE_REP)) && state_allowed mode (rm_server_state m)
  then
    let prim := (mode =? PASSIVE_REP) && (rm_server_state m =? PASSIVE_PRIMARY) in
    Ret {| rep_mode := mode; state := rm_server_state m; prev_state := prev_state c;
           signal_exit_checkpt_thread := 0;
           is_chkpt_thrd_running := if prim then 1 else 0;
           checkpoint_freq_g := rm_checkpoint_freq m;
           bckup_svr_0 := rm_bckup_svr_0 m; bckup_svr_1 := rm_bckup_svr_1 m;
           chk_thread := if prim then Some 0 else None |}
  else Exit.

Lemma set_mode_spec m c : rep_mode c = UNKNOWN_REP ->
  set_mode m c = if (m =? ACTIVE_REP) || (m =? PASSIVE_REP) then Ret (upd_mode m c) else Exit.
Proof.
  intros Hm. unfold set_mode. rewrite Hm. simpl. unfold_enums.
  destruct (m =? 1) eqn:E1, (m =? 2) eqn:E2; zbool; subst; simpl; try done.
  destruct ((0 <? m) && (m <=? 2)) eqn:E; [|done]. zbool. lia.
Qed.

(** The second half of the handler, once the mode is known and the thread is
    stopped. *)
Lemma set_state_after_stop mode m c : mode = ACTIVE_REP \/ mode = PASSIVE_REP ->
  set_state (rm_server_state m) (set_checkpoint_freq (rm_checkpoint_freq m)
    (set_bckup_servers (rm_bckup_svr_0 m) (rm_bckup_svr_1 m) (stopped (upd_mode mode c))))
  = if state_allowed mode (rm_server_state m) then
      let prim := (mode =? PASSIVE_REP) && (rm_server_state m =? PASSIVE_PRIMARY) in
      Ret {| rep_mode := mode; state := rm_server_state m; prev_state := prev_state c;
             signal_exit_checkpt_thread := 0;
             is_chkpt_thrd_running := if prim then 1 else 0;
             checkpoint_freq_g := rm_checkpoint_freq m;
             bckup_svr_0 := rm_bckup_svr_0 m; bckup_svr_1 := rm_bckup_svr_1 m;
             chk_thread := if prim then Some 0 else None |}
    else Exit.
Proof.
  intros [-> | ->].
  - by rewrite set_state_active.
  - destruct (state_allowed PASSIVE_REP (rm_server_state m)) eqn:E.
    + rewrite set_state_passive by done. by destruct (rm_server_state m =? PASSIVE_PRIMARY).
    + by apply set_state_passive_bad.
Qed.

Lemma handle_rep_msg_cases m c : ctl_ok c ->
  handle_rep_msg m c = rep_msg_spec m c
  \/ (handle_rep_msg m c = NoFuel /\ checkpoint_freq_g c <= 0 /\ rep_mode c <> UNKNOWN_REP).
Proof.
  intros Hok. unfold handle_rep_msg, rep_msg_spec, get_mode.
  destruct (rep_mode c =? UNKNOWN_REP) eqn:E; zbool.
  - left. rewrite set_mode_spec by done.
    destruct ((rm_rep_mode m =? ACTIVE_REP) || (rm_rep_mode m =? PASSIVE_REP)) eqn:Em; [|done].
    rewrite bind_ret_l. simpl andb.
    assert (kill_chkpt_thrd_if_running (upd_mode (rm_rep_mode m) c)
            = Ret (stopped (upd_mode (rm_rep_mode m) c))) as ->.
    { destruct (ok_other c Hok) as [Hr Ht]; [unfold_enums; lia|].
      unfold kill_chkpt_thrd_if_running. simpl. rewrite Hr. simpl. f_equal.
      pose proof (ok_signal c Hok). destruct c; simpl in *; by subst. }
    rewrite bind_ret_l. apply set_state_after_stop.
    apply orb_prop in Em as [Em|Em]; zbool; eauto.
  - rewrite bind_ret_l. destruct (kill_cases c Hok) as [->|[-> Hf]]; [left|by right].
    rewrite bind_ret_l.
    assert (rep_mode c = ACTIVE_REP \/ rep_mode c = PASSIVE_REP) as Hm
      by (destruct (ok_mode c Hok) as [[]|[[]|[]]]; eauto; done).
    replace (stopped c) with (stopped (upd_mode (rep_mode c) c)) by (by destruct c).
    rewrite set_state_after_stop by done.
    destruct Hm as [-> | ->]; done.
Qed.

(** What [state_allowed] admits. *)
Lemma state_allowed_active s : state_allowed ACTIVE_REP s = true ->
  active_state s /\ s <> UNKNOWN_STATE.
Proof. unfold state_allowed. rewrite Z.eqb_refl. unfold_enums. lia. Qed.

Lemma state_allowed_passive s : state_allowed PASSIVE_REP s = true ->
  passive_state s /\ s <> UNKNOWN_STATE.
Proof.
  unfold state_allowed. change (PASSIVE_REP =? ACTIVE_REP) with false. rewrite Z.eqb_refl.
  unfold_enums. lia.
Qed.

Lemma rep_msg_spec_state m c c' : rep_msg_spec m c = Ret c' -> state c' = rm_server_state m.
Proof. unfold rep_msg_spec. case_if; [by intros [= <-]|done]. Qed.

Lemma rep_msg_spec_ok m c c' : ctl_ok c -> rep_msg_spec m c = Ret c' -> ctl_ok c'.
Proof.
  intros Hok H. unfold rep_msg_spec in H.
  set (mode := if rep_mode c =? UNKNOWN_REP then rm_rep_mode m else rep_mode c) in *.
  destruct (((mode =? ACTIVE_REP) || (mode =? PASSIVE_REP))
            && state_allowed mode (rm_server_state m)) eqn:E; [|done].
  apply andb_prop in E as [Em Hal].
  assert (rep_mode c <> ACTIVE_REP -> prev_state c = UNKNOWN_STATE) as Hprev by apply (ok_prev c Hok).
  assert (mode = ACTIVE_REP -> active_state (prev_state c)) as Hprev2.
  { intros _. destruct (decide (rep_mode c = ACTIVE_REP)) as [Ha|Ha].
    - destruct (ok_mode c Hok) as [[Hm _]|[(_ & _ & Hp)|[Hm _]]]; done || enum_lia.
    - rewrite (Hprev Ha). by left. }
  assert (mode <> ACTIVE_REP -> rep_mode c <> ACTIVE_REP) as Hmode.
  { unfold mode. destruct (rep_mode c =? UNKNOWN_REP) eqn:E2; zbool; [|done].
    intros _. by rewrite E2. }
  injection H as <-.
  apply orb_prop in Em as [Em|Em]; zbool; rewrite Em in *; simpl.
  - pose proof (state_allowed_active _ Hal) as [Hs _].
    constructor; simpl; try done; [|by intros [? _]]. right. left. eauto.
  - pose proof (state_allowed_passive _ Hal) as [Hs _].
    constructor; simpl; try done.
    + right. by right.
    + intros _. apply Hprev, Hmode. done.
    + intros [_ ->]. simpl. eauto with lia.
    + intros Hn. destruct (rm_server_state m =? PASSIVE_PRIMARY) eqn:E2; zbool; [|done].
      exfalso. by apply Hn.
Qed.

(** * Reachable states

    A step is one action of a thread on the control state: the control thread
    handling a message of the replication manager, a connection thread handling
    a quiesce request, the worker promoting a pre-primary, the checkpoint thread
    sleeping a second or starting a new round. *)
Inductive ctl_step : ctl -> ctl -> Prop :=
  | step_rep_msg m c c' : handle_rep_msg m c = Ret c' -> ctl_step c c'
  | step_quiesce t r c c' : handle_quiesce_command t c = Ret (r, c') -> ctl_step c c'
  | step_promote c c' : is_preprimary c = true -> set_state PASSIVE_PRIMARY c = Ret c' ->
      ctl_step c c'
  | step_sleep n c c' : chk_thread c = Some n -> chk_thread_sleep n c = Some c' -> ctl_step c c'
  | step_round n c : chk_thread c = Some n -> chk_thread_sleep n c = None ->
      ctl_step c (upd_thread (signal_exit_checkpt_thread c) (is_chkpt_thrd_running c) (Some 0) c).

Lemma put_in_quiesence_eq c : ctl_ok c ->
  put_in_quiesence c
  = if rep_mode c =? ACTIVE_REP then Ret (upd_state QUIESCE (upd_prev (state c) c)) else Exit.
Proof.
  intros Hok. unfold put_in_quiesence, get_state.
  destruct (ok_mode c Hok) as [[Hm _]|[(Hm & _)|[Hm _]]]; rewrite Hm.
  - by apply set_state_unknown.
  - by rewrite set_state_active.
  - by apply set_state_passive_bad.
Qed.

Lemma remove_from_quiesence_eq c : ctl_ok c ->
  remove_from_quiesence c
  = if (rep_mode c =? ACTIVE_REP) && negb (prev_state c =? UNKNOWN_STATE)
    then Ret (upd_state (prev_state c) c) else Exit.
Proof.
  intros Hok. unfold remove_from_quiesence, get_state.
  destruct (ok_mode c Hok) as [[Hm _]|[(Hm & _ & Hp)|[Hm _]]]; rewrite Hm; simpl.
  - by rewrite set_state_unknown.
  - rewrite set_state_active by done. unfold state_allowed. simpl.
    destruct c as [rm st pv sg ru fr b0 b1 ct]. simpl in *. unfold_enums.
    destruct Hp as [->|[->|[->| ->]]]; done.
  - rewrite set_state_passive_bad; [done|done|].
    rewrite (ok_prev c Hok) by (rewrite Hm; done). done.
Qed.

Lemma upd_state_active_ok s c : ctl_ok c -> rep_mode c = ACTIVE_REP -> active_state s ->
  ctl_ok (upd_state s c).
Proof.
  intros Hok Hm Hs. destruct (ok_mode c Hok) as [[Hx _]|[(_ & _ & Hp)|[Hx _]]]; [enum_lia| |enum_lia].
  assert (~ (rep_mode c = PASSIVE_REP /\ state c = PASSIVE_PRIMARY)) as Hn
    by (intros [Hx _]; enum_lia).
  destruct (ok_other c Hok Hn) as [Hr Ht].
  constructor; simpl; try done; [|apply Hok|intros [Hx _]; enum_lia].
  right. by left.
Qed.

Lemma ctl_step_ok c c' : ctl_ok c -> ctl_step c c' -> ctl_ok c'.
Proof.
  intros Hok Hstep. destruct Hstep as [m c c' H|t r c c' H|c c' Hp H|n c c' Hn H|n c Hn H].
  - destruct (handle_rep_msg_cases m c Hok) as [He|[He _]]; rewrite He in H; [|done].
    by eapply rep_msg_spec_ok.
  - unfold handle_quiesce_command in H. repeat case_if; inv_bind; simplify_eq; [| |done].
    + rewrite put_in_quiesence_eq in Hr by done. case_if; [|done]. zbool. simplify_eq.
      apply upd_state_active_ok; [|done|by do 3 right].
      destruct Hok as [Ho1 Ho2 Ho3 Ho4 Ho5]. constructor; simpl; try done.
      destruct Ho1 as [[Hx _]|[(_ & Hs & _)|[Hx _]]]; [enum_lia| |enum_lia]. right. by left.
    + rewrite remove_from_quiesence_eq in Hr by done. case_if; [|done]. zbool. simplify_eq.
      assert (ctl_ok (upd_state (prev_state c) c)) as Hok'.
      { apply upd_state_active_ok; [done|done|].
        destruct (ok_mode c Hok) as [[Hx _]|[(_ & _ & Hp)|[Hx _]]]; done || enum_lia. }
      destruct c; done.
  - unfold is_preprimary, get_mode, get_state in Hp. zbool.
    destruct (ok_other c Hok) as [Hr Ht]; [intros [_ Hx]; enum_lia|].
    rewrite set_state_passive in H by done. injection H as <-. simpl.
    pose proof (ok_prev c Hok). pose proof (ok_signal c Hok).
    constructor; simpl; unfold_enums; intros; eauto with lia; lia.
  - unfold chk_thread_sleep in H. case_if; [|done]. rewrite (ok_signal c Hok) in H. simpl in H.
    injection H as <-. destruct Hok as [Ho1 Ho2 Ho3 Ho4 Ho5].
    constructor; simpl; try done.
    + intros Hp. destruct (Ho4 Hp) as (-> & k & Hk & Hpos). split; [done|].
      exists (n + 1). split; [done|]. simplify_eq. lia.
    + intros Hp. destruct (Ho5 Hp) as [_ Ht]. congruence.
  - destruct Hok as [Ho1 Ho2 Ho3 Ho4 Ho5]. constructor; simpl; try done.
    + intros Hp. destruct (Ho4 Hp) as [-> _]. split; [done|]. by exists 0.
    + intros Hp. destruct (Ho5 Hp) as [_ Ht]. congruence.
Qed.

Lemma ctl_reachable_ok c : rtc ctl_step ctl_init c -> ctl_ok c.
Proof.
  apply (rtc_ind_r (fun c => ctl_ok c)); [apply ctl_init_ok|].
  intros y z _ Hs Hok. by eapply ctl_step_ok.
Qed.

Lemma thread_iff c : ctl_ok c ->
  is_Some (chk_thread c) <-> rep_mode c = PASSIVE_REP /\ state c = PASSIVE_PRIMARY.
Proof.
  intros Hok. destruct (decide (rep_mode c = PASSIVE_REP /\ state c = PASSIVE_PRIMARY)) as [Hp|Hn].
  - destruct (ok_primary c Hok Hp) as (_ & n & -> & _). split; [done|by eexists].
  - destruct (ok_other c Hok Hn) as [_ ->]. split; [by intros []|done].
Qed.

(** * Properties *)

(** What holds while the actions on the control state come one after the other,
    as long as no two threads are in the middle of one: the state is one its
    mode allows, the exit signal of the checkpoint thread is down, and the
    checkpoint thread is alive exactly while the replica is the passive primary.
    ([Modes.mode_invariant] says what is left of this under every schedule of the
    accesses, and [Races.demotion_race] that the last part is not.) *)
Theorem control_invariant c :
  rtc ctl_step ctl_init c ->
  ctl_ok c
  /\ (is_Some (chk_thread c) <-> rep_mode c = PASSIVE_REP /\ state c = PASSIVE_PRIMARY).
Proof.
  intros Hr. pose proof (ctl_reachable_ok c Hr) as Hok. split; [done|by apply thread_iff].
Qed.

(** A pre-primary that was promoted after its backlog ran dry. *)
Definition preprimary_msg : rep_mgr_msg_t :=
  {| rm_rep_mode := PASSIVE_REP; rm_server_state := PASSIVE_PREPRIMARY; rm_checkpoint_freq := 30;
     rm_bckup_svr_0 := BSVR_CTX_ZERO; rm_bckup_svr_1 := BSVR_CTX_ZERO |}.
Definition promoted_ctl : ctl :=
  {| rep_mode := PASSIVE_REP; state := PASSIVE_PRIMARY; prev_state := 0;
     signal_exit_checkpt_thread := 0; is_chkpt_thrd_running := 1; checkpoint_freq_g := 30;
     bckup_svr_0 := BSVR_CTX_ZERO; bckup_svr_1 := BSVR_CTX_ZERO; chk_thread := Some 0 |}.

Lemma promoted_reachable : rtc ctl_step ctl_init promoted_ctl.
Proof.
  eapply rtc_l; [by eapply (step_rep_msg preprimary_msg)|].
  eapply rtc_l; [by eapply step_promote|]. apply rtc_refl.
Qed.

Lemma control_invariant_witness :
  is_Some (chk_thread promoted_ctl) <->
  rep_mode promoted_ctl = PASSIVE_REP /\ state promoted_ctl = PASSIVE_PRIMARY.
Proof. apply (control_invariant promoted_ctl). apply promoted_reachable. Defined.

(** C28: the handling of a replication manager message, on every branch: the mode
    is taken from the first message only, an unknown mode or a state the mode
    does not allow ends the process, and otherwise state, frequency and backups
    are those of the message and the checkpoint thread is restarted or stopped;
    but on a primary whose frequency is not positive the handler never returns,
    because the checkpoint thread never looks at the exit signal. *)
Theorem handle_rep_msg_behaviour m c :
  ctl_ok c ->
  (0 < checkpoint_freq_g c -> handle_rep_msg m c = rep_msg_spec m c)
  /\ (checkpoint_freq_g c <= 0 -> rep_mode c = PASSIVE_REP -> state c = PASSIVE_PRIMARY ->
      handle_rep_msg m c = NoFuel).
Proof.
  intros Hok. split.
  - intros Hf. destruct (handle_rep_msg_cases m c Hok) as [H|(_ & H & _)]; [done|lia].
  - intros Hf Hm Hs. unfold handle_rep_msg, get_mode. rewrite Hm. simpl.
    by rewrite kill_hangs.
Qed.

Lemma handle_rep_msg_behaviour_witness :
  handle_rep_msg preprimary_msg promoted_ctl = rep_msg_spec preprimary_msg promoted_ctl
  /\ handle_rep_msg preprimary_msg (set_checkpoint_freq 0 promoted_ctl) = NoFuel.
Proof.
  split.
  - apply (handle_rep_msg_behaviour preprimary_msg promoted_ctl); [|by vm_compute].
    apply ctl_reachable_ok, promoted_reachable.
  - apply (handle_rep_msg_behaviour preprimary_msg (set_checkpoint_freq 0 promoted_ctl));
      try done. pose proof (ctl_reachable_ok _ promoted_reachable) as [H1 H2 H3 H4 H5].
    by constructor.
Defined.

Lemma quiesce_start_active c : ctl_ok c -> rep_mode c = ACTIVE_REP ->
  handle_quiesce_command MSG_QUIESCE_START c = Ret (0, upd_state QUIESCE (upd_prev (state c) c))
  /\ ctl_ok (upd_state QUIESCE (upd_prev (state c) c)).
Proof.
  intros Hok Hm.
  assert (handle_quiesce_command MSG_QUIESCE_START c
          = Ret (0, upd_state QUIESCE (upd_prev (state c) c))) as H.
  { unfold handle_quiesce_command. simpl. by rewrite put_in_quiesence_eq, Hm. }
  split; [done|]. eapply ctl_step_ok; [done|]. by eapply step_quiesce.
Qed.

(** The stop that follows a start. *)
Lemma quiesce_stop_active c : ctl_ok c -> rep_mode c = ACTIVE_REP -> state c <> UNKNOWN_STATE ->
  handle_quiesce_command MSG_QUIESCE_STOP (upd_state QUIESCE (upd_prev (state c) c))
  = Ret (0, upd_prev (state c) c).
Proof.
  intros Hok Hm Hs. destruct (quiesce_start_active c Hok Hm) as [_ Hok1].
  unfold handle_quiesce_command. simpl. rewrite remove_from_quiesence_eq by done. simpl. rewrite Hm. simpl.
  rewrite (proj2 (Z.eqb_neq _ _)) by done. simpl. by destruct c.
Qed.

(** Quiescing. In active mode a start request stores the current state and
    enters [QUIESCE] and the stop request that follows goes back to exactly that
    state, leaving everything else alone; in any other mode the start request
    ends the process, and so does a stop request that no start preceded. *)
Theorem quiesce_bracket c :
  ctl_ok c ->
  (rep_mode c = ACTIVE_REP -> state c <> UNKNOWN_STATE ->
   exists c1, handle_quiesce_command MSG_QUIESCE_START c = Ret (0, c1)
     /\ state c1 = QUIESCE
     /\ handle_quiesce_command MSG_QUIESCE_STOP c1 = Ret (0, upd_prev (state c) c))
  /\ (rep_mode c <> ACTIVE_REP -> handle_quiesce_command MSG_QUIESCE_START c = Exit)
  /\ (prev_state c = UNKNOWN_STATE -> handle_quiesce_command MSG_QUIESCE_STOP c = Exit).
Proof.
  intros Hok. split; [|unfold handle_quiesce_command; simpl; split].
  - intros Hm Hs. eexists. split; [by apply quiesce_start_active|]. split; [done|].
    by apply quiesce_stop_active.
  - intros Hm. rewrite put_in_quiesence_eq by done. by rewrite (proj2 (Z.eqb_neq _ _)).
  - intros Hp. rewrite remove_from_quiesence_eq, Hp by done. simpl. by rewrite andb_false_r.
Qed.

Definition active_msg (s : Z) : rep_mgr_msg_t :=
  {| rm_rep_mode := ACTIVE_REP; rm_server_state := s; rm_checkpoint_freq := 30;
     rm_bckup_svr_0 := BSVR_CTX_ZERO; rm_bckup_svr_1 := BSVR_CTX_ZERO |}.
Definition active_ctl (s prev : Z) : ctl :=
  {| rep_mode := ACTIVE_REP; state := s; prev_state := prev;
     signal_exit_checkpt_thread := 0; is_chkpt_thrd_running := 0; checkpoint_freq_g := 30;
     bckup_svr_0 := BSVR_CTX_ZERO; bckup_svr_1 := BSVR_CTX_ZERO; chk_thread := None |}.

Lemma active_ctl_ok s prev : active_state s -> active_state prev -> ctl_ok (active_ctl s prev).
Proof.
  intros Hs Hp. constructor; simpl; try done; [|by intros [? _]]. right. by left.
Qed.

Lemma quiesce_bracket_witness :
  exists c1, handle_quiesce_command MSG_QUIESCE_START (active_ctl ACTIVE_RECOVER 0) = Ret (0, c1)
     /\ state c1 = QUIESCE
     /\ handle_quiesce_command MSG_QUIESCE_STOP c1 = Ret (0, active_ctl ACTIVE_RECOVER ACTIVE_RECOVER).
Proof.
  apply (quiesce_bracket (active_ctl ACTIVE_RECOVER 0)); [|done|done].
  apply active_ctl_ok; unfold active_state; auto.
Defined.

Fixpoint stops (n : nat) (c : ctl) : outcome ctl :=
  match n with
  | O => Ret c
  | S n => '(_, c) ← handle_quiesce_command MSG_QUIESCE_STOP c; stops n c
  end.

Lemma stops_stuck n c : ctl_ok c -> rep_mode c = ACTIVE_REP -> prev_state c = QUIESCE ->
  state c = QUIESCE -> stops n c = Ret c.
Proof.
  intros Hok Hm Hp Hs.
  assert (handle_quiesce_command MSG_QUIESCE_STOP c = Ret (0, c)) as Hstop.
  { unfold handle_quiesce_command. simpl. rewrite remove_from_quiesence_eq, Hm, Hp by done.
    do 3 f_equal. destruct c; simpl in *; by subst. }
  induction n as [|n IH]; [done|]. cbn [stops]. by rewrite Hstop, bind_ret_l.
Qed.

(** Two start requests without a stop between them lose the state to return
    to: however many stop requests follow, the replica stays in [QUIESCE]. *)
Theorem quiesce_twice_sticks c n :
  ctl_ok c -> rep_mode c = ACTIVE_REP ->
  exists c1 c2 c3, handle_quiesce_command MSG_QUIESCE_START c = Ret (0, c1)
    /\ handle_quiesce_command MSG_QUIESCE_START c1 = Ret (0, c2)
    /\ stops n c2 = Ret c3 /\ state c3 = QUIESCE.
Proof.
  intros Hok Hm. destruct (quiesce_start_active c Hok Hm) as [H1 Hok1].
  destruct (quiesce_start_active _ Hok1 Hm) as [H2 Hok2].
  do 3 eexists. split; [exact H1|]. split; [exact H2|]. by rewrite stops_stuck.
Qed.

Lemma quiesce_twice_sticks_witness :
  exists c1 c2 c3,
    handle_quiesce_command MSG_QUIESCE_START (active_ctl ACTIVE_RUNNING 0) = Ret (0, c1)
    /\ handle_quiesce_command MSG_QUIESCE_START c1 = Ret (0, c2)
    /\ stops 5 c2 = Ret c3 /\ state c3 = QUIESCE.
Proof.
  apply (quiesce_twice_sticks (active_ctl ACTIVE_RUNNING 0) 5); [|done].
  apply active_ctl_ok; unfold active_state; auto.
Defined.
