(* ===== verification/Db.v ===== *)
(** [src/db.c]: the task table, a hash table of thirteen linked lists, and its
    textual export and import.

    A bucket is the list of its nodes from the head.  What [malloc] returns is
    not defined by the program: the section's [malloc] gives the contents of the
    n-th allocation, or [None] when it fails, and every theorem holds for all of
    them.  The files the program writes and reads are a finite map from names to
    contents. *)
From stdpp Require Import strings.
From S2P Require Import Prelude CLib Iface Util.

Definition hash_table_len : Z := 13.
Definition MAX_DATA_LEN : Z := 1024.

Record data_point := {
  key : Z;             (* uint64_t *)
  raw_data : bytes;    (* uint8_t[1024] *)
  data_len : Z;        (* uint64_t *)
  dp_status : Z        (* task_status *)
}.

(** The table ([htable]), the counters, the number of allocations made so far
    and the files. *)
Record db := {
  data : list (list data_point);
  data_size : Z;
  allocs : nat;
  file_counter : Z;
  files : gmap bytes bytes
}.

Definition upd_table (d : list (list data_point)) (size : Z) (s : db) : db :=
  {| data := d; data_size := size; allocs := allocs s; file_counter := file_counter s;
     files := files s |}.
Definition upd_allocs (n : nat) (s : db) : db :=
  {| data := data s; data_size := data_size s; allocs := n; file_counter := file_counter s;
     files := files s |}.
Definition upd_files (c : Z) (f : gmap bytes bytes) (s : db) : db :=
  {| data := data s; data_size := data_size s; allocs := allocs s; file_counter := c;
     files := f |}.

Definition hash_func (val : Z) : Z := val mod hash_table_len.

Definition bucket (hash : Z) (s : db) : list data_point := default [] (data s !! Z.to_nat hash).
Definition set_bucket (hash : Z) (l : list data_point) (s : db) : list (list data_point) :=
  <[Z.to_nat hash := l]> (data s).

Definition empty_table : list (list data_point) := replicate (Z.to_nat hash_table_len) [].

Definition hash_table_init (s : db) : db := upd_table empty_table 0 s.

(** Frees every node and the table; the pointer [htable] is left dangling until
    [hash_table_init] sets it again. *)
Definition hash_table_deinit (s : db) : db := upd_table [] 0 s.

Definition db_init : db :=
  hash_table_init {| data := []; data_size := 0; allocs := O; file_counter := 0; files := ∅ |}.

(** The [while] loop walks to the last node. *)
Fixpoint append_node (l : list data_point) (new : data_point) : list data_point :=
  match l with
  | [] => [new]
  | temp :: rest => temp :: append_node rest new
  end.

Definition insert_data_point (hash : Z) (new : data_point) (s : db) : Z * db :=
  (0, upd_table (set_bucket hash (append_node (bucket hash s) new) s) (data_size s) s).

(** [temp] is never advanced: the loop ends when the bucket is empty or its head
    has the key, and runs for ever otherwise. *)
Fixpoint search_loop (fuel : nat) (temp : list data_point) (k : Z) : outcome (option data_point) :=
  match fuel with
  | O => NoFuel
  | S f =>
      match temp with
      | [] => Ret None
      | d :: _ => if k =? key d then Ret (Some d) else search_loop f temp k
      end
  end.

Definition search_list (fuel : nat) (hash k : Z) (s : db) : outcome (option data_point) :=
  search_loop fuel (bucket hash s) k.

(** [hash_table_delete]'s loop: the list without the first node of the key and
    that node. *)
Fixpoint delete_loop (k : Z) (temp : list data_point) : option (data_point * list data_point) :=
  match temp with
  | [] => None
  | d :: rest =>
      if k =? key d then Some (d, rest)
      else match delete_loop k rest with
           | Some (x, rest') => Some (x, d :: rest')
           | None => None
           end
  end.

Definition hash_table_delete (k : Z) (s : db) : Z * db :=
  let hash := hash_func k in
  match delete_loop k (bucket hash s) with
  | Some (d, rest) => (0, upd_table (set_bucket hash rest s) (u64 (data_size s - data_len d)) s)
  | None => (-1, s)
  end.

Definition with_status (st : Z) (d : data_point) : data_point :=
  {| key := key d; raw_data := raw_data d; data_len := data_len d; dp_status := st |}.

(** The node [search_list] returns is the head of the bucket. *)
Definition hash_table_modify (fuel : nat) (k st : Z) (s : db) : outcome (Z * db) :=
  let hash := hash_func k in
  r ← search_list fuel hash k s;
  match r with
  | None => Ret (-1, s)
  | Some d => Ret (0, upd_table (set_bucket hash (with_status st d :: tail (bucket hash s)) s)
                        (data_size s) s)
  end.

(** [snprintf(buffer, MAX_DATA_LEN, ...)]: the text truncated to leave room for
    the NUL. *)
Definition snprintf (n : Z) (text : bytes) : bytes := ztake (n - 1) text ++ [NUL].

Definition hash_table_get (fuel : nat) (k : Z) (s : db) : outcome (Z * bytes) :=
  r ← search_list fuel (hash_func k) k s;
  match r with
  | None => Ret (-1, [])
  | Some d =>
      t ← c_string (raw_data d);
      Ret (0, snprintf MAX_DATA_LEN (⟦"task: "⟧ ++ t ++ ⟦" status: "⟧ ++ fmt_d (dp_status d)
                                     ++ ⟦" "⟧ ++ CRLF))
  end.

(** One line per node; [pos] is [buftemp - buffer], [size] the size of the
    buffer, which each [snprintf] may run past. *)
Definition get_all_text (d : data_point) : outcome bytes :=
  t ← c_string (raw_data d);
  Ret (⟦"hash_key: "⟧ ++ fmt_d (i64 (key d)) ++ ⟦" task: "⟧ ++ t ++ ⟦" "⟧ ++ CRLF).

Fixpoint get_all_loop (l : list data_point) (pos size : Z) (out : bytes) : outcome bytes :=
  match l with
  | [] => Ret out
  | d :: l =>
      text ← get_all_text d;
      let written := snprintf MAX_DATA_LEN text in
      if size <? pos + zlen written then Undef
      else get_all_loop l (pos + zlen text) size (out ++ written)
  end.

Definition hash_table_get_all (size : Z) (s : db) : outcome bytes :=
  get_all_loop (concat (data s)) 0 size [].

Definition hash_table_get_dat_size (s : db) : Z := i32 (data_size s).

(** The bytes [print_state_internal] shows, one line per node. *)
Fixpoint print_nodes (l : list data_point) : outcome bytes :=
  match l with
  | [] => Ret []
  | d :: l =>
      t ← c_string (raw_data d);
      rest ← print_nodes l;
      Ret (⟦"Key: "⟧ ++ fmt_u (key d) ++ ⟦" "⟧ ++ [TAB] ++ ⟦" Task: "⟧ ++ t ++ ⟦" "⟧ ++ [TAB]
           ++ ⟦" Status "⟧ ++ get_task_status_str (dp_status d) ++ [LF] ++ rest)
  end.

Definition print_state_internal (s : db) : outcome bytes :=
  body ← print_nodes (concat (data s));
  Ret ([LF] ++ ⟦"---------------  Current State -----------------"⟧ ++ [LF] ++ body ++ [LF]
       ++ ⟦"-------------------------------------------------"⟧ ++ [LF]).

(** The stores into a fresh node; [task_status] is not among them. *)
Definition fill_node (k : Z) (src : bytes) (len : Z) (new : data_point) : data_point :=
  {| key := k; raw_data := overwrite (ztake len src) (raw_data new);
     data_len := len; dp_status := dp_status new |}.

Section Storage.
(** The n-th allocation of a node. *)
Variable malloc : nat -> option data_point.
(** The [int] that the conversion of the status in the export prints: the call
    passes the pointer [get_task_status_str] returned. *)
Variable status_ptr : Z -> Z.
(** [getpid()] and whether [fopen(name, "w")] succeeds. *)
Variable pid : Z.
Variable can_create : bytes -> bool.

Definition hash_table_insert (k : Z) (src : bytes) (len : Z) (s : db) : outcome (Z * db) :=
  if k =? 0 then Ret (-1, s)
  else
    let hash := hash_func k in
    let s := upd_allocs (S (allocs s)) s in
    match malloc (pred (allocs s)) with
    | None => Ret (-1, s)
    | Some new =>
        if (MAX_DATA_LEN <? len) || (zlen src <? len) then Undef
        else
          Ret (insert_data_point hash (fill_node k src len new)
                 (upd_table (data s) (u64 (data_size s + len)) s))
    end.

(** ** Export *)

Definition export_name (s : db) : bytes :=
  ⟦"tmp/db_export_"⟧ ++ fmt_d pid ++ ⟦"_"⟧ ++ fmt_d (file_counter s).

Definition export_node (d : data_point) : outcome bytes :=
  t ← c_string (raw_data d);
  Ret (⟦"Key: "⟧ ++ fmt_u (key d) ++ CRLF
       ++ ⟦"Data: "⟧ ++ t ++ CRLF
       ++ ⟦"data_len: "⟧ ++ fmt_u (data_len d) ++ CRLF
       ++ ⟦"Status: "⟧ ++ fmt_d (status_ptr (dp_status d)) ++ CRLF
       ++ ⟦"DATA_END"⟧ ++ CRLF).

Fixpoint export_nodes (l : list data_point) : outcome bytes :=
  match l with
  | [] => Ret []
  | d :: l => a ← export_node d; b ← export_nodes l; Ret (a ++ b)
  end.

(** The name of the file ([None]: it could not be created, and the caller's
    buffer stays as it was) and the new state. *)
Definition export_db_internal (s : db) : outcome (option bytes * db) :=
  let filename := export_name s in
  if negb (can_create filename) then Ret (None, s)
  else
    body ← export_nodes (concat (data s));
    Ret (Some filename, upd_files (file_counter s + 1)
           (<[filename := body ++ ⟦"FILE_END"⟧ ++ [LF]]> (files s)) s).

(** ** Import *)

(** [fgets(line, 1024, fp)]: up to 1023 bytes, through the line feed. *)
Definition fgets_line (content : bytes) : bytes := line_of 1023 content.

(** The locals of the loop that survive an iteration. *)
Record import_locals := {
  il_data : bytes;
  il_len : Z;
  il_temp_1 : bytes
}.
Definition import_locals_init : import_locals :=
  {| il_data := zeros 1024; il_len := 0; il_temp_1 := [] |}.

(** The body of the loop on the C string of a line that is neither
    [DATA_END] nor [FILE_END]. *)
Definition import_line (line : bytes) (v : import_locals) : import_locals :=
  let t1 := if starts_with ⟦"Key"⟧ line then
              match sscanf (lit ⟦"Key: "⟧ ++ [DStr]) line with
              | VStr t :: _ => t | _ => il_temp_1 v end
            else il_temp_1 v in
  let dat := if starts_with ⟦"Data"⟧ line then
               match sscanf (lit ⟦"Data: "⟧ ++ [DNot (Some 8191) [LF]; DSkip]) line with
               | VStr t :: _ => overwrite t (zeros 1024) | _ => zeros 1024 end
             else il_data v in
  let len := if starts_with ⟦"data_len"⟧ line then
               match sscanf (lit ⟦"data_len: "⟧ ++ [DULong]) line with
               | VNum n :: _ => n | _ => il_len v end
             else il_len v in
  {| il_data := dat; il_len := len; il_temp_1 := t1 |}.

(** Each round but the last reads at least one byte of the file. *)
Fixpoint import_loop (fuel : nat) (content : bytes) (v : import_locals) (s : db) : outcome db :=
  match fuel with
  | O => NoFuel
  | S f =>
      match fgets_line content with
      | [] => Ret s
      | raw =>
          let content' := drop (length raw) content in
          let line := cstr raw in
          if starts_with ⟦"DATA_END"⟧ line then
            let k := fst (strtoul 10 (il_temp_1 v)) in
            '(_, s) ← hash_table_insert k (il_data v) (il_len v) s;
            import_loop f content' {| il_data := zeros 1024; il_len := 0;
                                      il_temp_1 := il_temp_1 v |} s
          else if starts_with ⟦"FILE_END"⟧ line then Ret s
          else import_loop f content' (import_line line v) s
      end
  end.

(** [fopen] returns a null pointer for a missing file, which the test
    [file_ptr < 0] lets through to [fgets]. *)
Definition import_db_internal (file : bytes) (s : db) : outcome (Z * db) :=
  let s := hash_table_init (hash_table_deinit s) in
  match files s !! file with
  | None => Undef
  | Some content =>
      s ← import_loop (S (length content)) content import_locals_init s;
      Ret (0, s)
  end.
End Storage.

(** * Invariant *)

Definition sizes (l : list data_point) : Z := foldr (fun d n => data_len d + n) 0 l.
Definition total (t : list (list data_point)) : Z := foldr (fun l n => sizes l + n) 0 t.

(** A node in the bucket of index [i]. *)
Record node_ok (i : Z) (d : data_point) : Prop := {
  nd_key : is_u64 (key d);
  nd_nonzero : key d <> 0;
  nd_hash : hash_func (key d) = i;
  nd_len : 0 <= data_len d <= MAX_DATA_LEN;
  nd_raw : zlen (raw_data d) = MAX_DATA_LEN
}.

Record db_wf (s : db) : Prop := {
  wf_buckets : zlen (data s) = hash_table_len;
  wf_nodes : forall h, 0 <= h < hash_table_len -> Forall (node_ok h) (bucket h s);
  wf_size : data_size s = u64 (total (data s))
}.

(** An allocated node is an object of its type. *)
Definition malloc_ok (malloc : nat -> option data_point) : Prop :=
  forall n d, malloc n = Some d -> zlen (raw_data d) = MAX_DATA_LEN.

Lemma hash_range k : 0 <= hash_func k < hash_table_len.
Proof. apply Z.mod_pos_bound. done. Qed.
#[export] Hint Resolve hash_range : core.

Lemma append_node_snoc l d : append_node l d = l ++ [d].
Proof. induction l as [|x l IH]; simpl; [done|]. by rewrite IH. Qed.

Lemma sizes_app l k : sizes (l ++ k) = sizes l + sizes k.
Proof. induction l as [|d l IH]; simpl; [done|]. rewrite IH. lia. Qed.

Lemma total_concat t : total t = sizes (concat t).
Proof. induction t as [|l t IH]; simpl; [done|]. rewrite sizes_app, IH. lia. Qed.

Lemma total_insert t i l l' : t !! i = Some l ->
  total (<[i := l']> t) = total t - sizes l + sizes l'.
Proof.
  revert i. induction t as [|x t IH]; intros [|i] H; simpl in *; simplify_eq; [lia|].
  rewrite IH by done. lia.
Qed.

Lemma bucket_lookup s h : zlen (data s) = hash_table_len -> 0 <= h < hash_table_len ->
  data s !! Z.to_nat h = Some (bucket h s).
Proof.
  intros Hl Hh. unfold bucket. destruct (data s !! Z.to_nat h) eqn:E; [done|].
  apply lookup_ge_None in E. unfold zlen in Hl. lia.
Qed.

Lemma bucket_set s h h' l n : zlen (data s) = hash_table_len -> 0 <= h < hash_table_len ->
  0 <= h' ->
  bucket h' (upd_table (set_bucket h l s) n s) = if h =? h' then l else bucket h' s.
Proof.
  intros Hl Hh Hh'. unfold bucket, set_bucket. simpl. destruct (h =? h') eqn:E; zbool.
  - subst. rewrite list_lookup_insert_eq; [done|]. unfold zlen in Hl. lia.
  - rewrite list_lookup_insert_ne by lia. done.
Qed.

(** Replacing one bucket keeps the invariant. *)
Lemma set_bucket_wf s h l n : db_wf s -> 0 <= h < hash_table_len -> Forall (node_ok h) l ->
  n = u64 (total (data s) - sizes (bucket h s) + sizes l) ->
  db_wf (upd_table (set_bucket h l s) n s).
Proof.
  intros [Hl Hn Hs] Hh Hf ->. constructor; simpl.
  - unfold set_bucket, zlen. rewrite length_insert. done.
  - intros h' Hh'. rewrite bucket_set by (done || lia). case_if; zbool; [by subst|by apply Hn].
  - unfold set_bucket. by rewrite (total_insert _ _ (bucket h s)) by (by apply bucket_lookup).
Qed.

Lemma upd_allocs_wf n s : db_wf s -> db_wf (upd_allocs n s).
Proof. by intros [H1 H2 H3]. Qed.

Lemma bucket_empty h s : bucket h (hash_table_init s) = [].
Proof.
  unfold bucket. simpl. destruct (empty_table !! Z.to_nat h) eqn:E; [|done]. simpl.
  unfold empty_table in E. by apply lookup_replicate in E as [-> _].
Qed.

Lemma hash_table_init_wf s : db_wf (hash_table_init s).
Proof. constructor; [done| |done]. intros h _. by rewrite bucket_empty. Qed.

(** * The operations on the abstract table

    What the table means: for each key the nodes inserted under it, oldest
    first. *)
Definition entry : Type := bytes * Z.
Definition node_entry (d : data_point) : entry := (ztake (data_len d) (raw_data d), dp_status d).
Definition with_key (k : Z) (l : list data_point) : list data_point :=
  filter (fun d => key d = k) l.
Definition view (s : db) (k : Z) : list entry :=
  map node_entry (with_key k (bucket (hash_func k) s)).

Lemma delete_loop_None k l : delete_loop k l = None <-> with_key k l = [].
Proof.
  induction l as [|d l IH]; simpl; [done|]. unfold with_key in *. rewrite filter_cons.
  destruct (k =? key d) eqn:E; zbool; case_decide; try congruence; try done.
  destruct (delete_loop k l) as [[]|]; [split; [done|]|done]. intros H'. by apply IH in H'.
Qed.

Lemma delete_loop_Some k l d rest : delete_loop k l = Some (d, rest) ->
  key d = k /\ with_key k l = d :: with_key k rest
  /\ (forall k', k' <> k -> with_key k' rest = with_key k' l)
  /\ sizes rest = sizes l - data_len d
  /\ (forall P : data_point -> Prop, Forall P l -> Forall P rest).
Proof.
  unfold with_key. revert rest. induction l as [|x l IH]; intros rest; simpl; [done|].
  destruct (k =? key x) eqn:E; zbool.
  - intros [= -> ->]. subst. rewrite filter_cons_True by done. repeat split; [|lia|].
    + intros k' Hk'. by rewrite filter_cons_False by done.
    + intros P HP. by inversion_clear HP.
  - destruct (delete_loop k l) as [[y r]|]; [|done]. intros [= -> <-].
    destruct (IH r eq_refl) as (H1 & H2 & H3 & H4 & H5). simpl.
    rewrite !(filter_cons_False _ x) by done. repeat split; [done|done| |lia|].
    + intros k' Hk'. rewrite !filter_cons. case_decide; by rewrite H3.
    + intros P HP. inversion_clear HP. constructor; auto.
Qed.

Lemma delete_wf k s r s' : db_wf s -> hash_table_delete k s = (r, s') -> db_wf s'.
Proof.
  intros Hw H. unfold hash_table_delete in H.
  destruct (delete_loop k (bucket (hash_func k) s)) as [[d rest]|] eqn:E; simplify_eq; [|done].
  apply delete_loop_Some in E as (_ & _ & _ & Hs & Hf).
  apply set_bucket_wf; [done|done|by apply Hf, Hw|].
  rewrite Hs, (wf_size s Hw). int_lia.
Qed.

Lemma view_set s h l n k : db_wf s -> 0 <= h < hash_table_len ->
  view (upd_table (set_bucket h l s) n s) k
  = if h =? hash_func k then map node_entry (with_key k l) else view s k.
Proof.
  intros [Hl _ _] Hh. unfold view. rewrite bucket_set by (done || apply hash_range).
  by case_if.
Qed.

Lemma delete_view k s r s' : db_wf s -> hash_table_delete k s = (r, s') ->
  r = (match view s k with [] => -1 | _ => 0 end)
  /\ forall k', view s' k' = if k' =? k then tail (view s k) else view s k'.
Proof.
  intros Hw H. unfold hash_table_delete in H.
  destruct (delete_loop k (bucket (hash_func k) s)) as [[d rest]|] eqn:E; injection H as <- <-.
  - apply delete_loop_Some in E as (_ & Hk & Hne & _).
    assert (view s k = node_entry d :: map node_entry (with_key k rest)) as Hv
      by (unfold view; by rewrite Hk).
    rewrite Hv. split; [done|]. intros k'. rewrite view_set by done.
    destruct (k' =? k) eqn:Ek; zbool; [subst; by rewrite Z.eqb_refl|].
    case_if; zbool; [|done]. rewrite Hne by done. unfold view. by rewrite Hif.
  - apply delete_loop_None in E.
    assert (view s k = []) as Hv by (unfold view; by rewrite E).
    rewrite Hv. split; [done|]. intros k'. case_if; zbool; [|done]. by subst.
Qed.

(** The abstract table: appending to and dropping from the list of a key. *)
Definition abs_tbl : Type := Z -> list entry.
Definition abs_set (k : Z) (l : list entry) (t : abs_tbl) : abs_tbl :=
  fun k' => if k' =? k then l else t k'.

(** Two abstract tables with the same entries under every key. *)
#[global] Instance abs_tbl_equiv : Equiv abs_tbl := fun t1 t2 => forall k, t1 k = t2 k.
#[global] Instance abs_tbl_equivalence : Equivalence (≡@{abs_tbl}).
Proof.
  split; [by intros t k|by intros t1 t2 H k|]. intros t1 t2 t3 H1 H2 k. by rewrite H1, H2.
Qed.
#[global] Instance abs_set_proper k l : Proper ((≡) ==> (≡)) (abs_set k l).
Proof. intros t1 t2 H k'. unfold abs_set. case_if; [done|apply H]. Qed.

Section InsertSpec.
Variable malloc : nat -> option data_point.
Hypothesis Hmalloc : malloc_ok malloc.

Lemma zlen_overwrite_ztake n (src raw : bytes) :
  0 <= n <= zlen raw -> zlen (overwrite (ztake n src) raw) = zlen raw.
Proof.
  intros H. unfold zlen. rewrite length_overwrite; [done|].
  unfold ztake, zlen in *. rewrite length_take. lia.
Qed.

Lemma ztake_overwrite_ztake n (src raw : bytes) :
  0 <= n <= zlen src -> ztake n (overwrite (ztake n src) raw) = ztake n src.
Proof.
  intros H. pose proof (zlen_ztake n src (proj1 H)) as Hl. unfold overwrite.
  rewrite ztake_app_le by lia. unfold ztake. rewrite take_take. f_equal. lia.
Qed.

(** Every branch of the insertion. *)
Lemma insert_cases k src len s : db_wf s -> is_u64 k -> 0 <= len ->
  (k = 0 /\ hash_table_insert malloc k src len s = Ret (-1, s))
  \/ (k <> 0 /\ malloc (allocs s) = None
      /\ hash_table_insert malloc k src len s = Ret (-1, upd_allocs (S (allocs s)) s))
  \/ (k <> 0 /\ (MAX_DATA_LEN < len \/ zlen src < len)
      /\ hash_table_insert malloc k src len s = Undef)
  \/ (k <> 0 /\ len <= MAX_DATA_LEN /\ len <= zlen src
      /\ exists g s', malloc (allocs s) = Some g
         /\ hash_table_insert malloc k src len s = Ret (0, s')
         /\ db_wf s' /\ allocs s' = S (allocs s) /\ files s' = files s
         /\ (forall h, 0 <= h -> bucket h s' = if hash_func k =? h
               then bucket h s ++ [fill_node k src len g] else bucket h s)).
Proof using Hmalloc.
  intros Hw Hk Hlen. unfold hash_table_insert.
  destruct (k =? 0) eqn:E; zbool; [by left|]. right. simpl.
  destruct (malloc (allocs s)) as [g|] eqn:Eg; [|left; by destruct s]. right.
  destruct ((MAX_DATA_LEN <? len) || (zlen src <? len)) eqn:El.
  { left. apply orb_prop in El. split; [done|]. split; [|done]. lia. }
  right. zbool. repeat (split; [done|]).
  pose proof (Hmalloc _ _ Eg) as Hg. 
  exists g, (upd_allocs (S (allocs s)) (upd_table (set_bucket (hash_func k)
       (bucket (hash_func k) s ++ [fill_node k src len g]) s) (u64 (data_size s + len)) s)).
  split; [done|]. split; [unfold insert_data_point; by rewrite append_node_snoc|]. split; [|split; [done|split; [done|]]].
  - apply upd_allocs_wf, set_bucket_wf; [done|done| |].
    + apply Forall_app. split; [by apply Hw|]. apply Forall_singleton.
      constructor; simpl; try done. rewrite zlen_overwrite_ztake; [done|].
      unfold MAX_DATA_LEN in *. lia.
    + rewrite sizes_app. simpl. rewrite (wf_size s Hw). int_lia.
  - intros h Hh. change (bucket h (upd_allocs ?n ?x)) with (bucket h x).
    rewrite bucket_set by (done || apply Hw). case_if; zbool; by subst.
Qed.

Lemma insert_view k src len s s' : db_wf s -> is_u64 k -> 0 <= len ->
  hash_table_insert malloc k src len s = Ret (0, s') ->
  db_wf s' /\ exists st, view s' ≡ abs_set k (view s k ++ [(ztake len src, st)]) (view s).
Proof using Hmalloc.
  intros Hw Hk Hlen H.
  destruct (insert_cases k src len s Hw Hk Hlen)
    as [[_ E]|[(_ & _ & E)|[(_ & _ & E)|(_ & Hm & Hz & g & s1 & _ & E & Hw' & _ & _ & Hb)]]];
    rewrite E in H; simplify_eq.
  split; [done|]. exists (dp_status g). intros k'. unfold abs_set, view.
  rewrite Hb by apply hash_range. destruct (k' =? k) eqn:Ek; zbool.
  - subst. rewrite Z.eqb_refl. unfold with_key. rewrite filter_app, map_app. f_equal.
    rewrite filter_cons_True by done. simpl. unfold node_entry. simpl.
    by rewrite ztake_overwrite_ztake.
  - case_if; [|done]. unfold with_key. rewrite filter_app, filter_cons_False;
      simpl; [by rewrite app_nil_r|done].
Qed.
End InsertSpec.

(** * Traces of operations *)

Inductive db_op :=
  | OpInsert (k : Z) (src : bytes) (len : Z)
  | OpDelete (k : Z)
  | OpModify (k st : Z)
  | OpGet (k : Z).

Definition op_ok (o : db_op) : Prop :=
  match o with
  | OpInsert k src len => is_u64 k /\ 0 <= len <= MAX_DATA_LEN /\ len <= zlen src
  | _ => True
  end.

(** The result of a call and the buffer [hash_table_get] fills. *)
Definition run_op (malloc : nat -> option data_point) (fuel : nat) (o : db_op) (s : db) : outcome (Z * bytes * db) :=
  match o with
  | OpInsert k src len => '(r, s) ← hash_table_insert malloc k src len s; Ret (r, [], s)
  | OpDelete k => let '(r, s) := hash_table_delete k s in Ret (r, [], s)
  | OpModify k st => '(r, s) ← hash_table_modify fuel k st s; Ret (r, [], s)
  | OpGet k => '(r, text) ← hash_table_get fuel k s; Ret (r, text, s)
  end.

Fixpoint run_ops (malloc : nat -> option data_point) (fuel : nat) (ops : list db_op) (s : db)
  : outcome (list (Z * bytes) * db) :=
  match ops with
  | [] => Ret ([], s)
  | o :: ops => '(r, text, s) ← run_op malloc fuel o s; '(rs, s) ← run_ops malloc fuel ops s; Ret ((r, text) :: rs, s)
  end.

(** ** The contract

    One list of tasks, in the order in which they were added, and the number of
    nodes asked for. *)
Record tasks := { tk_list : list data_point; tk_asked : nat }.

Definition no_tasks : tasks := {| tk_list := []; tk_asked := O |}.

(** The oldest task with a property and its place. *)
Definition oldest (P : data_point -> bool) (t : tasks) : option (nat * data_point) :=
  list_find (fun d => P d = true) (tk_list t).

Definition has_key (k : Z) (d : data_point) : bool := key d =? k.

(** The tasks a search for the key [k] passes: those whose keys leave the same
    remainder. *)
Definition beside (k : Z) (d : data_point) : bool := key d mod 13 =? k mod 13.

(** A search finds the key when the oldest task beside it has it, and does not
    end when that task has another key. *)
Definition lookup_task (k : Z) (t : tasks) : outcome (option (nat * data_point)) :=
  match oldest (beside k) t with
  | None => Ret None
  | Some (i, d) => if has_key k d then Ret (Some (i, d)) else NoFuel
  end.

(** What each operation returns, and the tasks after it: an insertion is refused
    for the key 0 and when there is no memory, and otherwise adds the first [len]
    bytes under its key, with the status and the tail the memory held; a deletion
    removes the oldest task of the key; a modification sets the status and a
    lookup shows the text of the task found. *)
Definition spec_op (malloc : nat -> option data_point) (o : db_op) (t : tasks) : outcome (Z * bytes * tasks) :=
  match o with
  | OpInsert k src len =>
      if k =? 0 then Ret (-1, [], t)
      else match malloc (tk_asked t) with
           | None => Ret (-1, [], {| tk_list := tk_list t; tk_asked := S (tk_asked t) |})
           | Some g =>
               Ret (0, [], {| tk_list := tk_list t
                     ++ [{| key := k; raw_data := ztake len src ++ zdrop len (raw_data g); data_len := len;
                            dp_status := dp_status g |}];
                     tk_asked := S (tk_asked t) |})
           end
  | OpDelete k =>
      match oldest (has_key k) t with
      | None => Ret (-1, [], t)
      | Some (i, _) => Ret (0, [], {| tk_list := delete i (tk_list t); tk_asked := tk_asked t |})
      end
  | OpModify k st =>
      r ← lookup_task k t;
      match r with
      | None => Ret (-1, [], t)
      | Some (i, d) =>
          Ret (0, [], {| tk_list := <[i := {| key := k; raw_data := raw_data d; data_len := data_len d;
                                              dp_status := st |}]> (tk_list t); tk_asked := tk_asked t |})
      end
  | OpGet k =>
      r ← lookup_task k t;
      match r with
      | None => Ret (-1, [], t)
      | Some (_, d) =>
          text ← c_string (raw_data d);
          Ret (0, ztake 1023 (⟦"task: "⟧ ++ text ++ ⟦" status: "⟧ ++ fmt_d (dp_status d) ++ ⟦" "⟧ ++ CRLF) ++ [NUL], t)
      end
  end.

Fixpoint spec_ops (malloc : nat -> option data_point) (ops : list db_op) (t : tasks)
  : outcome (list (Z * bytes) * tasks) :=
  match ops with
  | [] => Ret ([], t)
  | o :: ops => '(r, text, t) ← spec_op malloc o t; '(rs, t) ← spec_ops malloc ops t; Ret ((r, text) :: rs, t)
  end.

(** A table represents the tasks: each bucket has those of its hash value in the
    same order, and the counter is the sum of the lengths modulo 2^64. *)
Definition in_bucket (h : Z) (l : list data_point) : list data_point := filter (fun d => hash_func (key d) = h) l.

Record table_rep (s : db) (t : tasks) : Prop := {
  tr_bucket : forall h, 0 <= h < hash_table_len -> bucket h s = in_bucket h (tk_list t);
  tr_size : data_size s = u64 (sizes (tk_list t));
  tr_asked : allocs s = tk_asked t
}.

(** ** Lists of tasks and their buckets *)

Lemma in_bucket_cons h d l : in_bucket h (d :: l) = if hash_func (key d) =? h then d :: in_bucket h l else in_bucket h l.
Proof.
  unfold in_bucket. rewrite filter_cons. case_decide as E; [by rewrite (proj2 (Z.eqb_eq _ _) E)|].
  by rewrite (proj2 (Z.eqb_neq _ _) E).
Qed.

Lemma sizes_cons d l : sizes (d :: l) = data_len d + sizes l.
Proof. done. Qed.

Lemma in_bucket_app h l1 l2 : in_bucket h (l1 ++ l2) = in_bucket h l1 ++ in_bucket h l2.
Proof. apply filter_app. Qed.

Lemma find_cons (P : data_point -> bool) d l : list_find (fun d => P d = true) (d :: l)
  = if P d then Some (O, d) else prod_map S id <$> list_find (fun d => P d = true) l.
Proof. cbn [list_find]. by case_decide as E; destruct (P d). Qed.

(** Deleting from the list is deleting from the bucket of the key. *)
Lemma delete_in_bucket k l :
  match list_find (fun d => has_key k d = true) l with
  | None => delete_loop k (in_bucket (hash_func k) l) = None
  | Some (i, d) => delete_loop k (in_bucket (hash_func k) l) = Some (d, in_bucket (hash_func k) (delete i l))
      /\ (forall h, h <> hash_func k -> in_bucket h (delete i l) = in_bucket h l)
      /\ sizes (delete i l) = sizes l - data_len d
  end.
Proof.
  induction l as [|d l IH]; [done|]. rewrite find_cons, in_bucket_cons. unfold has_key at 1.
  destruct (key d =? k) eqn:Ek; zbool.
  - rewrite Ek, Z.eqb_refl. cbn [delete_loop]. rewrite (proj2 (Z.eqb_eq k (key d))) by done.
    split; [done|]. split; [|cbn; lia]. intros h Hh. change (delete 0%nat (d :: l)) with l.
    by rewrite in_bucket_cons, Ek, (proj2 (Z.eqb_neq _ _)) by done.
  - destruct (list_find (fun d => has_key k d = true) l) as [[i x]|]; cbn [fmap option_fmap option_map prod_map id fst snd].
    + destruct IH as (E & Ho & Hs). change (delete (S i) (d :: l)) with (d :: delete i l).
      rewrite in_bucket_cons. split; [|split; [|rewrite !sizes_cons; lia]].
      * case_if; [|done]. cbn [delete_loop]. by rewrite (proj2 (Z.eqb_neq k (key d))), E by done.
      * intros h Hh. rewrite !in_bucket_cons, Ho by done. done.
    + case_if; [|done]. cbn [delete_loop]. by rewrite (proj2 (Z.eqb_neq k (key d))), IH by done.
Qed.

(** The oldest task beside a key is the head of its bucket. *)
Lemma beside_bucket k l : match list_find (fun d => beside k d = true) l with
  | None => in_bucket (hash_func k) l = []
  | Some (i, d) => l !! i = Some d /\ hash_func (key d) = hash_func k
      /\ forall x, key x = key d ->
         in_bucket (hash_func k) (<[i := x]> l) = x :: tail (in_bucket (hash_func k) l)
         /\ head (in_bucket (hash_func k) l) = Some d
         /\ (forall h, h <> hash_func k -> in_bucket h (<[i := x]> l) = in_bucket h l)
         /\ (data_len x = data_len d -> sizes (<[i := x]> l) = sizes l)
  end.
Proof.
  induction l as [|d l IH]; [done|]. rewrite find_cons, !in_bucket_cons. unfold beside at 1.
  change (key d mod 13) with (hash_func (key d)). change (k mod 13) with (hash_func k).
  destruct (hash_func (key d) =? hash_func k) eqn:Eh; zbool.
  - split; [done|]. split; [done|]. intros x Hx. cbn [list_insert insert tail head].
    rewrite in_bucket_cons, Hx, Eh, Z.eqb_refl. split; [done|]. split; [done|]. split; [|cbn; lia].
    intros h Hh. by rewrite !in_bucket_cons, Hx, Eh, (proj2 (Z.eqb_neq _ _)) by done.
  - destruct (list_find (fun d => beside k d = true) l) as [[i y]|]; cbn [fmap option_fmap option_map prod_map id fst snd]; [|done].
    destruct IH as (E & Hh & Hx). split; [done|]. split; [done|]. intros x Ex.
    destruct (Hx x Ex) as (H1 & H2 & H3 & H4). change (<[S i := x]> (d :: l)) with (d :: <[i := x]> l).
    rewrite in_bucket_cons, (proj2 (Z.eqb_neq _ _)) by done. split; [done|]. split; [done|]. split.
    + intros h Hne. by rewrite !in_bucket_cons, H3.
    + intros Hl. by rewrite !sizes_cons, H4.
Qed.

(** ** One operation *)

Lemma rep_bucket s t k : table_rep s t -> bucket (hash_func k) s = in_bucket (hash_func k) (tk_list t).
Proof. intros Hr. by apply Hr. Qed.

(** One bucket is replaced. *)
Lemma rep_set s t k l n l' : db_wf s -> table_rep s t ->
  in_bucket (hash_func k) l' = l -> (forall h, h <> hash_func k -> in_bucket h l' = in_bucket h (tk_list t)) ->
  n = u64 (sizes l') ->
  table_rep (upd_table (set_bucket (hash_func k) l s) n s) {| tk_list := l'; tk_asked := tk_asked t |}.
Proof.
  intros Hw [H1 H2 H3] Hl Ho Hn. constructor; cbn [tk_list tk_asked]; [|done|done].
  intros h Hh. rewrite bucket_set by first [apply Hw | done | lia]. case_if; zbool; [by subst|].
  rewrite Ho by congruence. by apply H1.
Qed.

Lemma search_spec f s t k : table_rep s t ->
  search_list (S f) (hash_func k) k s = (r ← lookup_task k t; Ret (option_map snd r)).
Proof.
  intros Hr. unfold search_list, lookup_task, oldest. rewrite (rep_bucket s t k Hr).
  pose proof (beside_bucket k (tk_list t)) as Hb.
  destruct (list_find (fun d => beside k d = true) (tk_list t)) as [[i d]|]; [|by rewrite Hb].
  destruct Hb as (_ & _ & Hx). destruct (Hx d eq_refl) as (_ & Hh & _).
  destruct (in_bucket (hash_func k) (tk_list t)) as [|y l]; [done|]. injection Hh as ->.
  unfold has_key. cbn [search_loop]. rewrite Z.eqb_sym. destruct (key d =? k) eqn:Ek; [done|].
  induction f as [|f IH]; [done|]. cbn [search_loop]. by rewrite Z.eqb_sym, Ek.
Qed.

Lemma lookup_found s t k i d : table_rep s t -> lookup_task k t = Ret (Some (i, d)) ->
  key d = k /\ exists l, bucket (hash_func k) s = d :: l /\ forall x, key x = key d ->
    in_bucket (hash_func k) (<[i := x]> (tk_list t)) = x :: l
    /\ (forall h, h <> hash_func k -> in_bucket h (<[i := x]> (tk_list t)) = in_bucket h (tk_list t))
    /\ (data_len x = data_len d -> sizes (<[i := x]> (tk_list t)) = sizes (tk_list t)).
Proof.
  intros Hr E. unfold lookup_task, oldest in E. pose proof (beside_bucket k (tk_list t)) as Hb.
  destruct (list_find (fun d => beside k d = true) (tk_list t)) as [[j y]|]; [|done].
  unfold has_key in E. destruct (key y =? k) eqn:Ek; [|done]. injection E as -> ->. zbool. split; [done|].
  destruct Hb as (_ & _ & Hb). rewrite (rep_bucket s t k Hr). destruct (Hb d eq_refl) as (_ & Hh & _).
  destruct (in_bucket (hash_func k) (tk_list t)) as [|y l]; [done|]. injection Hh as ->. exists l.
  split; [done|]. intros x Hx. by destruct (Hb x Hx) as (H1 & _ & H2 & H3).
Qed.

(** An operation does what the contract says: the same result, tables that
    represent the tasks, and no end exactly where the contract has none. *)
Definition agrees {R} (o : outcome (R * db)) (o' : outcome (R * tasks)) : Prop :=
  match o, o' with
  | Ret (r, s), Ret (r', t) => r = r' /\ db_wf s /\ table_rep s t
  | Exit, Exit | Undef, Undef | NoFuel, NoFuel => True
  | _, _ => False
  end.

Lemma insert_agrees malloc fuel k src len s t : malloc_ok malloc -> db_wf s -> table_rep s t ->
  op_ok (OpInsert k src len) ->
  agrees (run_op malloc fuel (OpInsert k src len) s) (spec_op malloc (OpInsert k src len) t).
Proof.
  intros Hm Hw Hr (Hk & Hlen & Hsrc). pose proof Hr as [H1 H2 H3]. cbn [run_op spec_op].
  destruct (insert_cases malloc Hm k src len s Hw Hk (proj1 Hlen))
    as [[Hz E]|[(Hz & Ea & E)|[(_ & Hbad & E)|(Hz & _ & _ & g & s1 & Eg & E & Hw' & Ha & _ & Hb)]]]; [| |lia|];
    rewrite E, bind_ret_l.
  - by rewrite Hz.
  - rewrite (proj2 (Z.eqb_neq k 0)), <- H3, Ea by done. split; [done|].
    split; [by apply upd_allocs_wf|]. by constructor; [apply H1|apply H2|].
  - rewrite (proj2 (Z.eqb_neq k 0)), <- H3, Eg by done. split; [done|]. split; [done|].
    assert (fill_node k src len g = {| key := k; raw_data := ztake len src ++ zdrop len (raw_data g);
      data_len := len; dp_status := dp_status g |}) as <-.
    { unfold fill_node, overwrite. do 2 f_equal. unfold zdrop, ztake. rewrite length_take. unfold zlen in Hsrc.
      do 2 f_equal. lia. }
    constructor; cbn [tk_list tk_asked]; [|..|by rewrite Ha].
    + intros h Hh. rewrite Hb, H1, in_bucket_app, in_bucket_cons by lia. cbn [key fill_node].
      case_if; [done|]. by rewrite app_nil_r.
    + rewrite sizes_app. unfold hash_table_insert in E. rewrite (proj2 (Z.eqb_neq k 0)) in E by done.
      cbn [allocs upd_allocs pred] in E. rewrite Eg in E. case_if; [done|]. injection E as <-. cbn.
      rewrite H2. int_lia.
Qed.

Lemma delete_agrees malloc fuel k s t : db_wf s -> table_rep s t ->
  agrees (run_op malloc fuel (OpDelete k) s) (spec_op malloc (OpDelete k) t).
Proof.
  intros Hw Hr. cbn [run_op spec_op]. destruct (hash_table_delete k s) as [r s'] eqn:E.
  pose proof (delete_wf _ _ _ _ Hw E) as Hw'. unfold hash_table_delete in E. rewrite (rep_bucket s t k Hr) in E.
  pose proof (delete_in_bucket k (tk_list t)) as Hd. unfold oldest.
  destruct (list_find (fun d => has_key k d = true) (tk_list t)) as [[i d]|].
  - destruct Hd as (Ed & Ho & Hs). rewrite Ed in E. injection E as <- <-. split; [done|]. split; [done|].
    apply rep_set; [done..|]. rewrite Hs, (tr_size s t Hr). int_lia.
  - rewrite Hd in E. by injection E as <- <-.
Qed.

Lemma modify_agrees malloc f k st s t : db_wf s -> table_rep s t ->
  agrees (run_op malloc (S f) (OpModify k st) s) (spec_op malloc (OpModify k st) t).
Proof.
  intros Hw Hr. cbn [run_op spec_op]. unfold hash_table_modify. rewrite (search_spec f s t k Hr).
  destruct (lookup_task k t) as [[[i d]|]| | |] eqn:E; try done; rewrite !bind_ret_l; cbn [option_map snd].
  destruct (lookup_found s t k i d Hr E) as (Hk & l & El & Hx). set (x := with_status st d).
  destruct (Hx x eq_refl) as (H1 & H2 & H3).
  assert ({| key := k; raw_data := raw_data d; data_len := data_len d; dp_status := st |} = x) as ->
    by (unfold x, with_status; by rewrite Hk).
  split; [done|]. specialize (H3 eq_refl).
  split; [|apply rep_set; [done|done|by rewrite El|done|by rewrite H3; apply Hr]].
  pose proof (wf_nodes s Hw _ (hash_range k)) as Hf. rewrite El in *. inversion Hf as [|? ? Hd Hl]; subst.
  apply set_bucket_wf; [done|done| |].
  - constructor; [|done]. destruct Hd. by constructor.
  - rewrite El. cbn. rewrite (wf_size s Hw). int_lia.
Qed.

Lemma get_agrees malloc f k s t : db_wf s -> table_rep s t ->
  agrees (run_op malloc (S f) (OpGet k) s) (spec_op malloc (OpGet k) t).
Proof.
  intros Hw Hr. cbn [run_op spec_op]. unfold hash_table_get. rewrite (search_spec f s t k Hr).
  destruct (lookup_task k t) as [[[i d]|]| | |]; try done; rewrite !bind_ret_l; cbn [option_map snd].
  unfold c_string. by case_if.
Qed.

Lemma op_agrees malloc f o s t : malloc_ok malloc -> db_wf s -> table_rep s t -> op_ok o ->
  agrees (run_op malloc (S f) o s) (spec_op malloc o t).
Proof.
  intros Hm Hw Hr Ho. destruct o; [by apply insert_agrees|by apply delete_agrees|by apply modify_agrees|by apply get_agrees].
Qed.

(** C9: the table implements its contract. On every sequence of insertions
    (within the size of a node), deletions, modifications and lookups from the
    empty table, whatever [malloc] returns, the hash table does what one list of
    tasks in the order of their insertion does ([spec_op]): every call has the
    same result and the same text, an insertion is refused exactly for the key 0
    or for want of memory, a deletion takes the oldest task of its key, and a
    modification or a lookup ends exactly when the oldest task in the bucket of
    its key has that key or the bucket is empty. The table stays well formed, its
    buckets are that list split by hash value, and its counter is the sum of the
    lengths modulo 2^64. *)
Theorem db_refines_table malloc f ops :
  malloc_ok malloc -> Forall op_ok ops ->
  agrees (run_ops malloc (S f) ops db_init) (spec_ops malloc ops no_tasks).
Proof.
  intros Hm Hops.
  assert (forall s t, db_wf s -> table_rep s t -> agrees (run_ops malloc (S f) ops s) (spec_ops malloc ops t)) as Hall.
  { induction Hops as [|o ops Ho Hops IH]; intros s t Hw Hr; [done|]. cbn [run_ops spec_ops].
    pose proof (op_agrees malloc f o s t Hm Hw Hr Ho) as H1.
    destruct (run_op malloc (S f) o s) as [[[r text] s1]| | |], (spec_op malloc o t) as [[[r' text'] t1]| | |]; try done.
    destruct H1 as ([= <- <-] & Hw1 & Hr1). rewrite !bind_ret_l. specialize (IH s1 t1 Hw1 Hr1).
    destruct (run_ops malloc (S f) ops s1) as [[rs s2]| | |], (spec_ops malloc ops t1) as [[rs' t2]| | |]; try done.
    destruct IH as (<- & ? & ?). done. }
  apply Hall; [apply hash_table_init_wf|]. constructor; [|done|done]. intros h _. unfold db_init. by rewrite bucket_empty.
Qed.

(** A [malloc] that never fails, with dirty memory. *)
Definition dirty_malloc (n : nat) : option data_point :=
  Some {| key := 0; raw_data := ⟦"junk"⟧ ++ zeros (MAX_DATA_LEN - 4); data_len := 7; dp_status := 77 |}.

Lemma dirty_malloc_ok : malloc_ok dirty_malloc.
Proof. intros n d [= <-]. done. Qed.

(** Keys 5 and 18 share a bucket; 5 is inserted twice. *)
Definition demo_ops : list db_op :=
  [OpInsert 5 ⟦"milk"⟧ 4; OpInsert 18 ⟦"bread"⟧ 5; OpInsert 5 ⟦"eggs"⟧ 4; OpModify 5 1; OpGet 5; OpDelete 5;
   OpDelete 31; OpInsert 0 ⟦"none"⟧ 4; OpModify 18 1].

Lemma demo_ops_ok : Forall op_ok demo_ops.
Proof. unfold demo_ops, op_ok. repeat (constructor; [first [done|by (repeat split; vm_compute)]|]). constructor. Qed.

Lemma agrees_Ret {R} (o : outcome (R * db)) o' r : agrees o o' ->
  match o' with Ret (r, _) => Some r | _ => None end = Some r -> exists s t, o = Ret (r, s) /\ table_rep s t.
Proof.
  destruct o as [[r1 s]| | |], o' as [[r2 t]| | |]; try done. intros (-> & _ & Hr) [= ->]. by exists s, t.
Qed.

Lemma agrees_NoFuel {R} (o : outcome (R * db)) o' : agrees o o' -> o' = NoFuel -> o = NoFuel.
Proof. intros Ha ->. by destruct o as [[]| | |]. Qed.

(** After the deletion of the first entry of 5 the bucket starts with 18, and a
    modification of 5 does not end. *)
Lemma db_refines_table_witness :
  (exists s t, run_ops dirty_malloc 1 demo_ops db_init
     = Ret ([(0, []); (0, []); (0, []); (0, []); (0, ⟦"task: milk status: 1 "⟧ ++ CRLF ++ [NUL]); (0, []); (-1, []);
             (-1, []); (0, [])], s) /\ table_rep s t)
  /\ run_ops dirty_malloc 1 (demo_ops ++ [OpModify 5 0]) db_init = NoFuel.
Proof.
  split.
  - apply (agrees_Ret _ (spec_ops dirty_malloc demo_ops no_tasks)); [|by vm_compute].
    exact (db_refines_table dirty_malloc 0 demo_ops dirty_malloc_ok demo_ops_ok).
  - apply (agrees_NoFuel _ (spec_ops dirty_malloc (demo_ops ++ [OpModify 5 0]) no_tasks)); [|by vm_compute].
    apply (db_refines_table dirty_malloc 0 (demo_ops ++ [OpModify 5 0]) dirty_malloc_ok).
    apply Forall_app. split; [apply demo_ops_ok|by constructor].
Defined.

(** C37: modifying and looking up a task only ever look at the head of the key's
    bucket.  An empty bucket is reported as not found; a head with the key is
    updated (the first entry of the key, nothing else); and when the bucket
    starts with a task of another key the search never ends, whether or not the
    key is further down the list. *)
Theorem modify_behaviour k st s :
  db_wf s ->
  match bucket (hash_func k) s with
  | [] => hash_table_modify 1 k st s = Ret (-1, s) /\ view s k = []
  | d :: _ =>
      if key d =? k
      then exists s', hash_table_modify 1 k st s = Ret (0, s') /\ db_wf s'
             /\ exists e l, view s k = e :: l /\ view s' ≡ abs_set k ((e.1, st) :: l) (view s)
      else forall fuel, hash_table_modify fuel k st s = NoFuel
                        /\ hash_table_get fuel k s = NoFuel
  end.
Proof.
  intros Hw. pose proof (wf_nodes s Hw _ (hash_range k)) as Hf.
  unfold hash_table_modify, hash_table_get, search_list, view, with_key.
  destruct (bucket (hash_func k) s) as [|d l] eqn:E; [done|].
  destruct (key d =? k) eqn:Ek; zbool.
  - simpl search_loop. rewrite Ek, Z.eqb_refl, bind_ret_l. simpl tail.
    eexists. split; [done|]. split.
    + apply set_bucket_wf; [done|done| |].
      * inversion Hf as [|? ? Hd Hl]; subst. constructor; [|done]. destruct Hd. by constructor.
      * rewrite E. simpl. rewrite (wf_size s Hw). int_lia.
    + rewrite filter_cons_True by done. simpl. eexists _, _. split; [done|].
      intros k'. change (view (upd_table (set_bucket (hash_func k) (with_status st d :: l) s)
        (data_size s) s) k' = abs_set k (((node_entry d).1, st) :: map node_entry (with_key k l))
        (view s) k').
      rewrite view_set by done. unfold abs_set, with_key. destruct (k' =? k) eqn:Ek'; zbool.
      * subst k'. rewrite Z.eqb_refl, filter_cons_True by done. done.
      * case_if; zbool; [|done]. unfold view, with_key. rewrite <- Hif, E.
        rewrite !filter_cons_False by (simpl; congruence). done.
  - intros fuel. assert (search_loop fuel (d :: l) k = NoFuel) as ->; [|done].
    induction fuel as [|f IH]; [done|]. simpl. by rewrite (proj2 (Z.eqb_neq k (key d))).
Qed.

(** * Export followed by import *)

(** Two tables that hold the same tasks in the same order: the key, the length
    and the bytes the length covers.  The status is not part of it (the export
    does not carry it), nor are the bytes after the end. *)
Definition node_eqv (d d' : data_point) : Prop :=
  key d = key d' /\ data_len d = data_len d'
  /\ ztake (data_len d) (raw_data d) = ztake (data_len d') (raw_data d').

#[global] Instance node_eqv_equivalence : Equivalence node_eqv.
Proof.
  split; [by intros d|by intros d d' (? & ? & ?)|].
  intros d1 d2 d3 (H1 & H2 & H3) (H4 & H5 & H6). repeat split; congruence.
Qed.

#[global] Instance db_equiv : Equiv db := fun s s' =>
  Forall2 (Forall2 node_eqv) (data s) (data s').

(** A node whose text the line format carries. *)
Record node_text (d : data_point) : Prop := {
  nt_text : text_ok (cstr (raw_data d));
  nt_nul : has_nul (raw_data d) = true;
  nt_short : zlen (cstr (raw_data d)) <= 1015;
  nt_len : data_len d <= zlen (cstr (raw_data d))
}.

Definition line_ok (t : bytes) : Prop :=
  Forall (fun c => not_in [LF] c = true) t /\ Forall (fun c => not_nul c = true) t
  /\ zlen t < 1023.

Lemma fgets_line_text t rest : line_ok t -> fgets_line (t ++ LF :: rest) = t ++ [LF].
Proof. intros (H1 & _ & H2). apply line_of_text; [done|]. unfold zlen in H2. lia. Qed.

Lemma text_line_ok pre v post : line_ok (pre ++ post) -> text_ok v -> zlen (pre ++ v ++ post) < 1023 ->
  line_ok (pre ++ v ++ post).
Proof.
  intros (H1 & H2 & _) Hv Hl. apply Forall_app in H1 as [? ?]. apply Forall_app in H2 as [? ?].
  split; [|split; [|done]]; rewrite !Forall_app; split; try done; split; try done.
  - eapply Forall_impl; [apply text_ok_not_in, Hv|]. intros c. unfold not_in. simpl.
    destruct (Ascii.eqb c CR), (Ascii.eqb c LF); done.
  - by apply text_ok_nul_free.
Qed.

Lemma cstr_line t : line_ok t -> cstr (t ++ [LF]) = t ++ [LF].
Proof.
  intros (_ & H & _). apply cstr_nul_free, Forall_app. split; [done|]. by apply Forall_singleton.
Qed.

Section ImportSpec.
Variable malloc : nat -> option data_point.
Variable status_ptr : Z -> Z.
Hypothesis malloc_total : forall n, exists d, malloc n = Some d /\ zlen (raw_data d) = MAX_DATA_LEN.
Hypothesis status_int : forall z, is_i32 (status_ptr z).

Lemma malloc_total_ok : malloc_ok malloc.
Proof using malloc_total. intros n d H. destruct (malloc_total n) as (d' & H' & ?). congruence. Qed.

(** One line that is neither a [DATA_END] nor a [FILE_END]. *)
Lemma import_step f t rest v s : line_ok t -> t <> [] ->
  starts_with ⟦"DATA_END"⟧ (t ++ [LF]) = false -> starts_with ⟦"FILE_END"⟧ (t ++ [LF]) = false ->
  import_loop malloc (S f) (t ++ LF :: rest) v s
  = import_loop malloc f rest (import_line (t ++ [LF]) v) s.
Proof.
  intros Hl Ht H1 H2. cbn [import_loop]. rewrite fgets_line_text by done.
  destruct (t ++ [LF]) as [|c u] eqn:E; [by destruct t|]. rewrite <- E in *.
  rewrite cstr_line, H1, H2 by done.
  replace (t ++ LF :: rest) with ((t ++ [LF]) ++ rest) by (by rewrite <- app_assoc).
  by rewrite drop_app_length.
Qed.

Lemma import_key k v : is_u64 k ->
  import_line (⟦"Key: "⟧ ++ fmt_u k ++ CRLF) v
  = {| il_data := il_data v; il_len := il_len v; il_temp_1 := fmt_u k |}.
Proof.
  intros Hk. unfold import_line.
  assert (sscanf (lit ⟦"Key: "⟧ ++ [DStr]) (⟦"Key: "⟧ ++ fmt_u k ++ CRLF) = [VStr (fmt_u k)]) as ->.
  { change (sscanf [DWs; DStr] (fmt_u k ++ CRLF) = [VStr (fmt_u k)]).
    rewrite sscanf_DWs by auto with wire.
    rewrite sscanf_DStr; [done| |by apply fmt_u_no_space|done].
    destruct (fmt_u_text k Hk) as [_ H]. by destruct (fmt_u k). }
  done.
Qed.

Lemma import_data t v : text_ok t -> zlen t <= 1015 ->
  import_line (⟦"Data: "⟧ ++ t ++ CRLF) v
  = {| il_data := overwrite (t ++ [CR]) (zeros 1024); il_len := il_len v;
       il_temp_1 := il_temp_1 v |}.
Proof.
  intros Ht Hl. unfold import_line.
  assert (sscanf (lit ⟦"Data: "⟧ ++ [DNot (Some 8191) [LF]; DSkip]) (⟦"Data: "⟧ ++ t ++ CRLF)
          = [VStr (t ++ [CR])]) as ->; [|done].
  change (sscanf [DWs; DNot (Some 8191) [LF]; DSkip] (t ++ CRLF) = [VStr (t ++ [CR])]).
  rewrite sscanf_DWs by done. cbn [sscanf]. unfold scan_not.
  replace (t ++ CRLF) with ((t ++ [CR]) ++ [LF]) by (by rewrite <- app_assoc).
  rewrite span_all; [|apply Forall_app; split; [|by apply Forall_singleton]|done].
  - unfold ztake. rewrite take_ge.
    { destruct (t ++ [CR]) as [|c u] eqn:E; [by destruct t|].
      by destruct (zdrop 8191 (c :: u) ++ [LF]). }
    unfold zlen in Hl. rewrite length_app. simpl. lia.
  - eapply Forall_impl; [apply text_ok_not_in, Ht|]. intros c. unfold not_in. simpl.
    destruct (Ascii.eqb c CR), (Ascii.eqb c LF); done.
Qed.

Lemma import_len n v : is_u64 n ->
  import_line (⟦"data_len: "⟧ ++ fmt_u n ++ CRLF) v
  = {| il_data := il_data v; il_len := n; il_temp_1 := il_temp_1 v |}.
Proof.
  intros Hn. unfold import_line.
  assert (sscanf (lit ⟦"data_len: "⟧ ++ [DULong]) (⟦"data_len: "⟧ ++ fmt_u n ++ CRLF) = [VNum n])
    as ->; [|done].
  change (sscanf [DWs; DULong] (fmt_u n ++ CRLF) = [VNum n]).
  rewrite sscanf_DWs by auto with wire. by rewrite sscanf_DULong.
Qed.

Lemma import_status z v :
  import_line (⟦"Status: "⟧ ++ fmt_d z ++ CRLF) v = v.
Proof. by destruct v. Qed.

Lemma import_data_end f rest v s k : strtoul 10 (il_temp_1 v) = (k, []) ->
  import_loop malloc (S f) (⟦"DATA_END"⟧ ++ CRLF ++ rest) v s
  = ('(_, s) ← hash_table_insert malloc k (il_data v) (il_len v) s;
     import_loop malloc f rest {| il_data := zeros 1024; il_len := 0; il_temp_1 := il_temp_1 v |} s).
Proof. intros Hk. cbn [import_loop]. simpl. by rewrite Hk. Qed.

(** A line as the export writes it. *)
Lemma import_field pre x rest f v s :
  line_ok (pre ++ [CR]) -> text_ok x -> zlen pre + zlen x <= 1021 -> pre <> [] ->
  (forall y, starts_with ⟦"DATA_END"⟧ (pre ++ y) = false) ->
  (forall y, starts_with ⟦"FILE_END"⟧ (pre ++ y) = false) ->
  import_loop malloc (S f) (pre ++ x ++ CRLF ++ rest) v s
  = import_loop malloc f rest (import_line (pre ++ x ++ CRLF) v) s.
Proof.
  intros Hp Hx Hl Hne H1 H2.
  replace (pre ++ x ++ CRLF ++ rest) with ((pre ++ x ++ [CR]) ++ LF :: rest)
    by (by rewrite <- !app_assoc).
  replace (pre ++ x ++ CRLF) with ((pre ++ x ++ [CR]) ++ [LF]) by (by rewrite <- !app_assoc).
  apply import_step; [|by destruct pre|by rewrite <- app_assoc|by rewrite <- app_assoc].
  apply text_line_ok; [done|done|]. rewrite !zlen_app. change (zlen [CR]) with 1. lia.
Qed.

Lemma line_ok_lit s : forallb (fun c => not_in [LF] c && not_nul c) s = true -> zlen s < 1023 ->
  line_ok s.
Proof.
  intros H Hl. apply forallb_True, Is_true_true in H || idtac.
  split; [|split; [|done]]; apply List.Forall_forall; intros c Hc;
    pose proof (proj1 (List.forallb_forall _ s) H c Hc) as Hb; simpl in Hb; by zbool.
Qed.

Lemma import_node d f rest t1 s :
  is_u64 (key d) -> 0 <= data_len d -> node_text d ->
  exists text, export_node status_ptr d = Ret text /\
    import_loop malloc (5 + f) (text ++ rest)
      {| il_data := zeros 1024; il_len := 0; il_temp_1 := t1 |} s
    = ('(_, s) ← hash_table_insert malloc (key d)
                  (overwrite (cstr (raw_data d) ++ [CR]) (zeros 1024)) (data_len d) s;
       import_loop malloc f rest
         {| il_data := zeros 1024; il_len := 0; il_temp_1 := fmt_u (key d) |} s).
Proof using status_int.
  intros Hk Hl [Ht Hn Hs Hd]. unfold export_node, c_string. rewrite Hn, bind_ret_l.
  eexists. split; [done|].
  pose proof (fmt_u_length (key d)). pose proof (fmt_u_length (data_len d)).
  pose proof (fmt_d_length (status_ptr (dp_status d))).
  assert (is_u64 (data_len d)) by int_lia.
  pose proof (status_int (dp_status d)).
  rewrite <- !app_assoc. change (5 + f)%nat with (S (S (S (S (S f))))).
  rewrite import_field; [|by apply line_ok_lit|by auto with wire|change (zlen ⟦"Key: "⟧) with 5; lia|done..].
  rewrite import_key by done.
  rewrite import_field; [|by apply line_ok_lit|done|change (zlen ⟦"Data: "⟧) with 6; lia|done..].
  rewrite import_data by done.
  rewrite import_field; [|by apply line_ok_lit|by auto with wire|change (zlen ⟦"data_len: "⟧) with 10; lia|done..].
  rewrite import_len by done.
  rewrite import_field; [|by apply line_ok_lit|apply fmt_d_text; int_lia|change (zlen ⟦"Status: "⟧) with 8; lia|done..].
  rewrite import_status.
  apply import_data_end. by apply strtoul_fmt_u; [|right].
Qed.

(** The node the import makes of an exported one. *)
Lemma import_insert d s : db_wf s -> node_ok (hash_func (key d)) d -> node_text d ->
  exists d' s', hash_table_insert malloc (key d) (overwrite (cstr (raw_data d) ++ [CR]) (zeros 1024))
                  (data_len d) s = Ret (0, s')
    /\ db_wf s' /\ node_eqv d d' /\ files s' = files s
    /\ forall h, 0 <= h -> bucket h s' = bucket h s ++ (if hash_func (key d) =? h then [d'] else []).
Proof using malloc_total.
  intros Hw [Hk Hnz _ Hl _] [Ht Hn Hs Hd].
  set (src := overwrite (cstr (raw_data d) ++ [CR]) (zeros 1024)).
  assert (zlen src = 1024) as Hsrc.
  { unfold src, zlen in *. rewrite length_overwrite; unfold zeros; rewrite length_replicate; [done|].
    rewrite length_app. simpl. lia. }
  assert (ztake (data_len d) src = ztake (data_len d) (raw_data d)) as Htake.
  { unfold src, overwrite. rewrite <- !app_assoc, ztake_app_le by done.
    rewrite <- (span_app not_nul (raw_data d)) at 2. change (span not_nul (raw_data d)).1 with
      (cstr (raw_data d)). by rewrite ztake_app_le by done. }
  destruct (insert_cases malloc malloc_total_ok (key d) src (data_len d) s Hw Hk (proj1 Hl))
    as [[? _]|[(_ & Hm & _)|[(_ & [?|?] & _)|(_ & Hm & Hz & g & s1 & Hg & E & Hw' & _ & Hf & Hb)]]];
    [done| |lia|lia|].
  { destruct (malloc_total (allocs s)) as (g & Hg & _). congruence. }
  exists (fill_node (key d) src (data_len d) g), s1. split; [done|]. split; [done|].
  split; [|split; [done|]].
  - split; [done|]. split; [done|]. cbn [data_len raw_data fill_node].
    by rewrite ztake_overwrite_ztake by (unfold MAX_DATA_LEN in *; lia).
  - intros h Hh. rewrite Hb by done. case_if; [done|by rewrite app_nil_r].
Qed.

Lemma import_nodes l : forall f t1 s rest,
  db_wf s -> Forall (fun d => node_ok (hash_func (key d)) d) l -> Forall node_text l ->
  exists text t2 s', export_nodes status_ptr l = Ret text
    /\ import_loop malloc (5 * length l + f) (text ++ rest)
         {| il_data := zeros 1024; il_len := 0; il_temp_1 := t1 |} s
       = import_loop malloc f rest
         {| il_data := zeros 1024; il_len := 0; il_temp_1 := t2 |} s'
    /\ db_wf s' /\ files s' = files s
    /\ (5 * length l <= length text)%nat
    /\ forall h, 0 <= h -> exists k, bucket h s' = bucket h s ++ k
                                    /\ Forall2 node_eqv (in_bucket h l) k.
Proof using malloc_total status_int.
  induction l as [|d l IH]; intros f t1 s rest Hw Hok Htext.
  { exists [], t1, s. do 5 (split; [done|]). intros h _. exists [].
    by rewrite app_nil_r. }
  inversion_clear Hok as [|? ? Hd Hok']. inversion_clear Htext as [|? ? Hdt Ht'].
  destruct (import_insert d s Hw Hd Hdt) as (d' & s1 & E & Hw1 & Heq & Hf1 & Hb1).
  destruct (IH f (fmt_u (key d)) s1 rest Hw1 Hok' Ht') as (text & t2 & s' & Et & Ei & Hw' & Hf' & Hlen & Hb').
  destruct (import_node d (5 * length l + f) (text ++ rest) t1 s) as (td & Etd & Eloop);
    [by destruct Hd|by destruct Hd as [_ _ _ [? _] _]|done|].
  exists (td ++ text), t2, s'. cbn [export_nodes]. rewrite Etd, bind_ret_l, Et, bind_ret_l.
  split; [done|]. split; [|split; [done|split; [congruence|split]]].
  - rewrite <- app_assoc.
    replace (5 * length (d :: l) + f)%nat with (5 + (5 * length l + f))%nat by (simpl; lia).
    rewrite Eloop, E. cbv beta iota. by rewrite bind_ret_l.
  - assert (5 <= length td)%nat; [|rewrite length_app; simpl; lia].
    unfold export_node in Etd. apply bind_Ret_inv in Etd as (x & _ & [= <-]). simpl. lia.
  - intros h Hh. destruct (Hb' h Hh) as (k & Hk & Hall). rewrite Hk, Hb1, <- app_assoc by done.
    eexists. split; [done|]. unfold in_bucket in *. rewrite filter_cons.
    destruct (hash_func (key d) =? h) eqn:Eh; zbool;
      [rewrite decide_True by done; by constructor|by rewrite decide_False].
Qed.
End ImportSpec.

Lemma in_bucket_concat h t i0 :
  (forall i l, t !! i = Some l -> Forall (fun d => hash_func (key d) = i0 + Z.of_nat i) l) ->
  i0 <= h -> in_bucket h (concat t) = default [] (t !! Z.to_nat (h - i0)).
Proof.
  revert i0. induction t as [|l t IH]; intros i0 Ht Hh; [done|].
  unfold in_bucket in *. cbn [concat]. rewrite filter_app.
  pose proof (Ht O l eq_refl) as Hl. rewrite Z.add_0_r in Hl.
  assert (forall i0', h < i0' -> forall t', (forall i l, t' !! i = Some l ->
    Forall (fun d => hash_func (key d) = i0' + Z.of_nat i) l) ->
    filter (fun d => hash_func (key d) = h) (concat t') = []) as Hempty.
  { clear. intros i0' Hlt t'. revert i0' Hlt. induction t' as [|l t' IH]; intros i0' Hlt Ht; [done|].
    cbn [concat]. rewrite filter_app, (IH (i0' + 1)); [|lia|].
    - rewrite app_nil_r. pose proof (Ht O l eq_refl) as Hl. simpl in Hl.
      induction Hl as [|d l Hd Hl IHl]; [done|]. rewrite filter_cons_False by lia. apply IHl.
      intros [|i] l' Hi; [|by apply (Ht (S i))]. by injection Hi as <-.
    - intros i l' Hi. eapply Forall_impl; [by apply (Ht (S i))|]. intros d. simpl. lia. }
  assert (forall i l', t !! i = Some l' -> Forall (fun d => hash_func (key d) = i0 + 1 + Z.of_nat i) l')
    as Ht'. { intros i l' Hi. eapply Forall_impl; [by apply (Ht (S i))|]. intros d. simpl. lia. }
  destruct (decide (h = i0)) as [->|Hne].
  - rewrite (Hempty (i0 + 1)) by (done || lia). rewrite app_nil_r, Z.sub_diag. simpl.
    clear -Hl. induction Hl as [|d l Hd Hl IHl]; [done|]. rewrite filter_cons_True by done. by rewrite IHl.
  - rewrite (IH (i0 + 1)) by (done || lia).
    replace (Z.to_nat (h - i0)) with (S (Z.to_nat (h - (i0 + 1)))) by lia. simpl.
    assert (filter (fun d => hash_func (key d) = h) l = []) as ->; [|done].
    clear -Hl Hne. induction Hl as [|d l Hd Hl IHl]; [done|]. by rewrite filter_cons_False by lia.
Qed.

Lemma sizes_eqv l k : Forall2 node_eqv l k -> sizes l = sizes k.
Proof. induction 1 as [|d d' l k (_ & H & _) _ IH]; simpl; [done|]. by rewrite H, IH. Qed.

Lemma total_eqv t u : Forall2 (Forall2 node_eqv) t u -> total t = total u.
Proof. induction 1 as [|l k t u H _ IH]; simpl; [done|]. by rewrite (sizes_eqv _ _ H), IH. Qed.

Lemma wf_in_bucket s h : db_wf s -> 0 <= h < hash_table_len ->
  in_bucket h (concat (data s)) = bucket h s.
Proof.
  intros Hw Hh. rewrite (in_bucket_concat h (data s) 0); [|intros i l Hi|lia].
  - by rewrite Z.sub_0_r.
  - assert (0 <= Z.of_nat i < hash_table_len) as Hr.
    { apply lookup_lt_Some in Hi. pose proof (wf_buckets s Hw) as H. unfold zlen in H. lia. }
    pose proof (wf_nodes s Hw _ Hr) as Hf. unfold bucket in Hf. rewrite Nat2Z.id, Hi in Hf.
    eapply Forall_impl; [exact Hf|]. intros d Hd. apply Hd.
Qed.

Lemma wf_entries s : db_wf s -> Forall (fun d => node_ok (hash_func (key d)) d) (concat (data s)).
Proof.
  intros Hw. apply Forall_concat, Forall_lookup. intros i l Hi.
  assert (0 <= Z.of_nat i < hash_table_len) as Hr.
  { apply lookup_lt_Some in Hi. pose proof (wf_buckets s Hw) as H. unfold zlen in H. lia. }
  pose proof (wf_nodes s Hw _ Hr) as Hf. unfold bucket in Hf. rewrite Nat2Z.id, Hi in Hf.
  eapply Forall_impl; [exact Hf|]. intros d Hd. by rewrite (nd_hash _ _ Hd).
Qed.

(** Tables are equivalent when their buckets are. *)
Lemma db_equiv_buckets s s' : db_wf s -> db_wf s' ->
  (forall h, 0 <= h < hash_table_len -> Forall2 node_eqv (bucket h s) (bucket h s')) -> s ≡ s'.
Proof.
  intros Hw Hw' H. pose proof (wf_buckets s Hw) as Hl. pose proof (wf_buckets s' Hw') as Hl'.
  unfold zlen in *. apply Forall2_same_length_lookup_2; [lia|]. intros i x y Hx Hy.
  assert (0 <= Z.of_nat i < hash_table_len) as Hr by (apply lookup_lt_Some in Hx; lia).
  specialize (H _ Hr). unfold bucket in H. by rewrite Nat2Z.id, Hx, Hy in H.
Qed.

(** The text of the table, and what importing a file with that text gives. *)
Lemma import_file malloc status_ptr s :
  (forall n, exists d, malloc n = Some d /\ zlen (raw_data d) = MAX_DATA_LEN) ->
  (forall z, is_i32 (status_ptr z)) -> db_wf s -> Forall node_text (concat (data s)) ->
  exists text, export_nodes status_ptr (concat (data s)) = Ret text
    /\ forall r name, files r !! name = Some (text ++ ⟦"FILE_END"⟧ ++ [LF]) ->
       exists r', import_db_internal malloc name r = Ret (0, r')
         /\ db_wf r' /\ s ≡ r' /\ data_size r' = data_size s
         /\ exists f, import_loop malloc f (text ++ ⟦"FILE_END"⟧ ++ [LF]) import_locals_init
                          (hash_table_init (hash_table_deinit r)) = Ret r'.
Proof.
  intros Hm Hst Hw Ht. set (l := concat (data s)) in *.
  pose proof (fun f r rest => import_nodes malloc status_ptr Hm Hst l f []
    (hash_table_init (hash_table_deinit r)) rest (hash_table_init_wf _) (wf_entries s Hw) Ht) as Hi.
  destruct (Hi O s []) as (text & _ & _ & Et & _). exists text. split; [done|].
  intros r name Hr. unfold import_db_internal. simpl files. rewrite Hr.
  set (content := text ++ ⟦"FILE_END"⟧ ++ [LF]).
  destruct (Hi (S (length content) - 5 * length l)%nat r (⟦"FILE_END"⟧ ++ [LF]))
    as (text' & t2 & r' & Et' & Eloop & Hw' & _ & Hlen & Hb).
  assert (text' = text) as -> by congruence.
  assert (5 * length l + (S (length content) - 5 * length l) = S (length content))%nat as Hfuel.
  { unfold content. rewrite length_app. lia. }
  rewrite Hfuel in Eloop. change {| il_data := zeros 1024; il_len := 0; il_temp_1 := [] |}
    with import_locals_init in Eloop. fold content in Eloop.
  destruct (S (length content) - 5 * length l)%nat as [|f] eqn:Ef.
  { exfalso. unfold content in *. rewrite length_app in *. lia. }
  assert (import_loop malloc (S (length content)) content import_locals_init
    (hash_table_init (hash_table_deinit r)) = Ret r') as E by (rewrite Eloop; done).
  rewrite E, bind_ret_l. exists r'. split; [done|]. split; [done|].
  assert (s ≡ r') as Heq.
  { apply db_equiv_buckets; [done|done|]. intros h Hh.
    destruct (Hb h (proj1 Hh)) as (k & Hk & Hall). rewrite Hk, bucket_empty. simpl app.
    unfold l in Hall. by rewrite wf_in_bucket in Hall. }
  split; [done|]. split; [|by eexists].
  rewrite (wf_size r' Hw'), (wf_size s Hw). f_equal. symmetry. by apply total_eqv.
Qed.

(** Strings that end inside their array, when the last byte of the memory
    [malloc] hands out is zero: nodes that are not full keep it. *)
Definition ends_zero (d : data_point) : Prop :=
  zlen (raw_data d) = MAX_DATA_LEN /\ (data_len d < MAX_DATA_LEN -> last (raw_data d) = Some NUL).

Section EndsZero.
Variable malloc : nat -> option data_point.
Hypothesis malloc_zero : forall n, exists d, malloc n = Some d /\ zlen (raw_data d) = MAX_DATA_LEN
  /\ last (raw_data d) = Some NUL.

Lemma insert_ends_zero k src len s r s' : 0 <= len -> Forall (Forall ends_zero) (data s) ->
  hash_table_insert malloc k src len s = Ret (r, s') -> Forall (Forall ends_zero) (data s').
Proof using malloc_zero.
  intros Hlen Hs. unfold hash_table_insert. case_if; [by intros [= <- <-]|]. cbv zeta.
  destruct (malloc_zero (pred (allocs (upd_allocs (S (allocs s)) s)))) as (d & -> & Hd & Hl).
  case_if; [done|]. zbool. intros [= <- <-]. cbn [data upd_table]. unfold set_bucket.
  apply Forall_insert; [done|]. cbn [data upd_table].
  assert (ends_zero (fill_node k src len d)) as Hnew.
  { unfold fill_node, ends_zero. cbn [raw_data data_len].
    assert (length (ztake len src) = Z.to_nat len) as Ht by (unfold ztake, zlen in *; rewrite length_take; lia).
    split; [unfold zlen in *; rewrite length_overwrite; unfold MAX_DATA_LEN in *; lia|].
    intros Hlt. apply last_overwrite; [|done]. rewrite Ht. unfold zlen, MAX_DATA_LEN in *. lia. }
  assert (forall l, Forall ends_zero l -> Forall ends_zero (append_node l (fill_node k src len d))) as Happ.
  { intros l Hf. induction Hf; cbn [append_node]; constructor; auto. }
  apply Happ. unfold bucket. cbn [data upd_table upd_allocs].
  destruct (data s !! Z.to_nat (hash_func k)) as [l|] eqn:E; [|constructor].
  cbn [default]. by eapply Forall_lookup_1 in Hs.
Qed.

Lemma import_ends_zero f : forall content v s s', 0 <= il_len v -> Forall (Forall ends_zero) (data s) ->
  import_loop malloc f content v s = Ret s' -> Forall (Forall ends_zero) (data s').
Proof using malloc_zero.
  induction f as [|f IH]; intros content v s s' Hv Hs; [done|]. cbn [import_loop].
  destruct (fgets_line content) as [|x raw]; [by intros [= <-]|]. cbv zeta.
  case_if; [|case_if; [by intros [= <-]|]].
  - intros H1. apply bind_Ret_inv in H1 as ([r s1] & Hins & H1). 
    eapply IH; [|eapply insert_ends_zero; [|done|done]|exact H1]; done.
  - apply IH; [|done]. unfold import_line. cbn [il_len]. case_if; [|done].
    pose proof (sscanf_range (lit ⟦"data_len: "⟧ ++ [DULong]) (cstr (x :: raw))) as Hr.
    destruct (sscanf _ _) as [|[|n] ?]; [done|done|]. inversion_clear Hr as [|? ? Hn]. apply Hn.
Qed.
End EndsZero.

Lemma print_nodes_total l : Forall (fun d => has_nul (raw_data d) = true) l ->
  exists t, print_nodes l = Ret t.
Proof.
  induction 1 as [|d l Hd _ [t IH]]; [by exists []|]. cbn [print_nodes]. unfold c_string at 1.
  rewrite Hd, bind_ret_l, IH, bind_ret_l. by eexists.
Qed.

(** C27: a checkpoint file restores the table. Exporting a well-formed table whose
    texts fit the line format succeeds without changing the table, and importing
    that file, into any table and whatever memory [malloc] hands out, returns 0
    and ends in an equivalent table: the same tasks in the same order in the
    same buckets, with the same keys, lengths and bytes, and the same total
    size.  (The status is not restored.) *)
Theorem import_export malloc status_ptr pid can_create s r :
  (forall n, exists d, malloc n = Some d /\ zlen (raw_data d) = MAX_DATA_LEN) ->
  (forall z, is_i32 (status_ptr z)) ->
  can_create (export_name pid s) = true ->
  db_wf s -> Forall node_text (concat (data s)) ->
  exists content s1,
    export_db_internal status_ptr pid can_create s = Ret (Some (export_name pid s), s1)
    /\ data s1 = data s /\ files s1 = <[export_name pid s := content]> (files s)
    /\ (files r !! export_name pid s = Some content ->
        exists r', import_db_internal malloc (export_name pid s) r = Ret (0, r')
          /\ db_wf r' /\ s ≡ r' /\ data_size r' = data_size s).
Proof.
  intros Hm Hst Hc Hw Ht. destruct (import_file malloc status_ptr s Hm Hst Hw Ht) as (text & Et & Hi).
  unfold export_db_internal. rewrite Hc, Et. cbn [negb]. rewrite bind_ret_l.
  exists (text ++ ⟦"FILE_END"⟧ ++ [LF]). eexists. split; [done|]. split; [done|]. split; [done|].
  intros Hr. by destruct (Hi r _ Hr) as (r' & E & Hw' & Hs & Hd & _); exists r'.
Qed.

(** The table after the demo operations, built with dirty memory. *)
Definition demo_db : db :=
  match run_ops dirty_malloc 1 [OpInsert 5 ⟦"milk"⟧ 4; OpInsert 18 ⟦"bread"⟧ 5; OpInsert 7 ⟦"eggs"⟧ 4] db_init with
  | Ret (_, s) => s
  | _ => db_init
  end.

(** The nodes of a bucket, checked by computation. *)
Definition node_okb (i : Z) (d : data_point) : bool :=
  (0 <? key d) && (key d <=? ULONG_MAX) && (hash_func (key d) =? i)
  && (0 <=? data_len d) && (data_len d <=? MAX_DATA_LEN) && (zlen (raw_data d) =? MAX_DATA_LEN).

Definition db_wfb (s : db) : bool :=
  (zlen (data s) =? hash_table_len)
  && forallb (fun i => forallb (node_okb (Z.of_nat i)) (bucket (Z.of_nat i) s)) (seq 0 13)
  && (data_size s =? u64 (total (data s))).

Lemma db_wfb_ok s : db_wfb s = true -> db_wf s.
Proof.
  unfold db_wfb. intros H. zbool. constructor; [done| |done]. intros h Hh.
  assert (Forall (fun i => forallb (node_okb (Z.of_nat i)) (bucket (Z.of_nat i) s) = true) (seq 0 13))
    as Hf by (by apply List.Forall_forall, List.forallb_forall).
  rewrite List.Forall_forall in Hf. specialize (Hf (Z.to_nat h)).
  rewrite Z2Nat.id in Hf by lia. apply List.Forall_forall. intros d Hd.
  rewrite List.forallb_forall in Hf. unfold hash_table_len in Hh.
  assert (node_okb h d = true) as Hb by (apply Hf; [apply in_seq; lia|done]).
  unfold node_okb in Hb. zbool. constructor; unfold is_u64; lia.
Qed.

Definition node_textb (d : data_point) : bool :=
  bool_decide (text_ok (cstr (raw_data d))) && has_nul (raw_data d)
  && (zlen (cstr (raw_data d)) <=? 1015) && (data_len d <=? zlen (cstr (raw_data d))).

Lemma node_textb_ok l : forallb node_textb l = true -> Forall node_text l.
Proof.
  intros H. apply List.Forall_forall. intros d Hd. rewrite List.forallb_forall in H.
  specialize (H d Hd). unfold node_textb in H. zbool. constructor; [|done|lia|lia].
  by apply bool_decide_eq_true in H.
Qed.

Lemma modify_behaviour_witness :
  (exists s', hash_table_modify 1 5 TASK_DONE demo_db = Ret (0, s') /\ db_wf s'
     /\ exists e l, view demo_db 5 = e :: l /\ view s' ≡ abs_set 5 ((e.1, TASK_DONE) :: l) (view demo_db))
  /\ (forall fuel, hash_table_modify fuel 18 TASK_DONE demo_db = NoFuel
                   /\ hash_table_get fuel 18 demo_db = NoFuel)
  /\ hash_table_modify 1 6 TASK_DONE demo_db = Ret (-1, demo_db) /\ view demo_db 6 = [].
Proof.
  assert (db_wf demo_db) as Hw by (apply db_wfb_ok; by vm_compute).
  pose proof (modify_behaviour 5 TASK_DONE demo_db Hw) as H1.
  pose proof (modify_behaviour 18 TASK_DONE demo_db Hw) as H2.
  pose proof (modify_behaviour 6 TASK_DONE demo_db Hw) as H3.
  split; [exact H1|]. split; [exact H2|exact H3].
Defined.

Lemma import_export_witness :
  exists content s1,
    export_db_internal (fun _ => 42) 100 (fun _ => true) demo_db
      = Ret (Some ⟦"tmp/db_export_100_0"⟧, s1)
    /\ files s1 !! ⟦"tmp/db_export_100_0"⟧ = Some content
    /\ exists r', import_db_internal dirty_malloc ⟦"tmp/db_export_100_0"⟧ s1 = Ret (0, r')
         /\ demo_db ≡ r' /\ data_size r' = 13.
Proof.
  assert (db_wf demo_db) as Hw by (apply db_wfb_ok; by vm_compute).
  assert (Forall node_text (concat (data demo_db))) as Ht by (apply node_textb_ok; by vm_compute).
  assert (forall n, exists d, dirty_malloc n = Some d /\ zlen (raw_data d) = MAX_DATA_LEN) as Hm
    by (intros n; by eexists).
  assert (forall z : Z, is_i32 42) as Hst by (intros _; int_lia).
  pose proof (fun r => import_export dirty_malloc (fun _ => 42) 100 (fun _ => true) demo_db r
    Hm Hst eq_refl Hw Ht) as H.
  change (export_name 100 demo_db) with (⟦"tmp/db_export_100_0"⟧) in H.
  destruct (H db_init) as (c0 & s1 & E & _ & Hf & _).
  destruct (H s1) as (c1 & s1' & E' & _ & Hf' & Hi).
  rewrite E in E'. injection E' as <-. exists c1, s1. split; [done|].
  assert (files s1 !! ⟦"tmp/db_export_100_0"⟧ = Some c1) as Hl
    by (rewrite Hf'; apply lookup_insert_eq).
  split; [done|]. destruct (Hi Hl) as (r' & Hr & _ & Heq & Hs).
  exists r'. split; [done|]. split; [done|]. rewrite Hs. by vm_compute.
Defined.

(** * Listing all tasks *)

Lemma get_all_loop_overflow l : forall pos size out,
  Forall (fun d => has_nul (raw_data d) = true /\ 0 <= data_len d <= zlen (cstr (raw_data d))
                   /\ data_len d < MAX_DATA_LEN) l ->
  l <> [] -> size <= pos + sizes l -> get_all_loop l pos size out = Undef.
Proof.
  induction l as [|d l IH]; intros pos size out Hf Hne Hs; [done|].
  inversion_clear Hf as [|? ? (Hn & Hd & Hm) Hf']. cbn [get_all_loop].
  unfold get_all_text, c_string. rewrite Hn, !bind_ret_l. cbv zeta. simpl sizes in Hs.
  set (text := ⟦"hash_key: "⟧ ++ _).
  assert (data_len d + 3 <= zlen text) as Ht.
  { unfold text. rewrite !zlen_app. pose proof (zlen_nonneg (fmt_d (i64 (key d)))).
    change (zlen ⟦"hash_key: "⟧) with 10. change (zlen ⟦" task: "⟧) with 7.
    change (zlen ⟦" "⟧) with 1. change (zlen CRLF) with 2. lia. }
  case_if; zbool; [done|].
  destruct l as [|d' l'].
  - exfalso. unfold snprintf in Hif. rewrite zlen_app, zlen_ztake in Hif by done.
    change (zlen [NUL]) with 1 in Hif. unfold MAX_DATA_LEN in *. simpl sizes in Hs. lia.
  - apply IH; [done|done|]. lia.
Qed.

(** Listing the tasks writes past its buffer: the caller allocates exactly
    the sum of the data lengths, and for every non-empty well-formed table of
    NUL-free texts whose lengths fit 31 bits the lines, which carry the key and
    the punctuation as well, do not fit. *)
Theorem get_all_overflows s :
  db_wf s -> concat (data s) <> [] ->
  Forall (fun d => has_nul (raw_data d) = true /\ data_len d <= zlen (cstr (raw_data d))
                   /\ data_len d < MAX_DATA_LEN) (concat (data s)) ->
  total (data s) <= INT_MAX ->
  hash_table_get_all (hash_table_get_dat_size s) s = Undef.
Proof.
  intros Hw Hne Hf Hmax. unfold hash_table_get_all, hash_table_get_dat_size.
  pose proof (wf_entries s Hw) as Hok.
  apply get_all_loop_overflow; [|done|].
  - rewrite Forall_lookup in *. intros i d Hd. destruct (Hok i d Hd). destruct (Hf i d Hd).
    destruct_and?. repeat split; lia || done.
  - rewrite (wf_size s Hw), total_concat.
    assert (0 <= sizes (concat (data s))) as H0.
    { clear -Hok. induction Hok as [|d l [_ _ _ ? _] _ IH]; simpl; lia. }
    rewrite total_concat in Hmax. int_lia.
Qed.

Lemma get_all_overflows_witness :
  hash_table_get_all (hash_table_get_dat_size demo_db) demo_db = Undef.
Proof.
  apply (get_all_overflows demo_db); [apply db_wfb_ok; by vm_compute|by vm_compute| |by vm_compute].
  apply List.Forall_forall. intros d Hd. vm_compute in Hd.
  repeat (destruct Hd as [<-|Hd]; [by vm_compute|]). destruct Hd.
Defined.

