(* ===== verification/Storage.v ===== *)
(** [src/storage.c]: the key of a task and the dispatch of a request to the
    table.  OpenSSL's SHA-1 is a parameter. *)
From stdpp Require Import strings.
From S2P Require Import Prelude CLib Iface Util Db.

Section Handle.
Variable malloc : nat -> option data_point.
(** The digest of a byte string; [None] when one of the three OpenSSL calls
    reports failure. *)
Variable sha1 : bytes -> option bytes.
(** Bound for the search loop of [hash_table_modify]. *)
Variable fuel : nat.

(** The 64-bit little-endian number in the first eight bytes. *)
Definition le64 (b : bytes) : Z :=
  foldr (fun c acc => code c + 256 * acc) 0 (take 8 b).

(** [raw_buffer] is filled and never hashed: the digest is taken over
    [data_len + 5] bytes of [raw_data], the 1024-byte [task] array. *)
Definition generate_key (raw : bytes) (client_id : Z) (data_len : Z) : outcome Z :=
  if TASK_LENGTH <? data_len + 5 then Undef
  else match sha1 (ztake (data_len + 5) raw) with
       | None => Ret (u64 (-1))
       | Some h => Ret (le64 h)
       end.

Definition storage_init (s : db) : db := hash_table_init s.

Definition export_db := export_db_internal.

(** The result of [import_db_internal] is dropped. *)
Definition import_db (file : bytes) (s : db) : outcome (Z * db) :=
  '(_, s) ← import_db_internal malloc file s;
  Ret (0, s).

Definition remove_file (file : bytes) (s : db) : db :=
  upd_files (file_counter s) (delete file (files s)) s.

Definition handle_storage (client_ctx : client_ctx_t) (s : db)
  : outcome (Z * client_ctx_t * db) :=
  let r := req client_ctx in
  let t := msg_type r in
  if t =? MSG_ADD then
    k ← generate_key (task r) (client_id client_ctx) (task_len r);
    '(ret, s) ← hash_table_insert malloc k (task r) (task_len r) s;
    Ret (ret, set_req (set_hash_key k r) client_ctx, s)
  else if t =? MSG_MODIFY then
    '(_, s) ← hash_table_modify fuel (hash_key r) (task_status r) s;
    Ret (0, client_ctx, s)
  else if t =? MSG_REMOVE then
    let '(ret, s) := hash_table_delete (hash_key r) s in
    Ret (ret, client_ctx, s)
  else if t =? MSG_GET_ALL then
    _ ← hash_table_get_all (hash_table_get_dat_size s) s;
    Ret (0, client_ctx, s)
  else if (t =? INVALID) || (t =? MSG_HEARTBEAT) then Ret (0, client_ctx, s)
  else if t =? MSG_CHK_PT then
    name ← c_string (filename r);
    '(_, s) ← import_db name s;
    let s := remove_file name s in
    _ ← print_state_internal s;
    Ret (0, client_ctx, s)
  else Ret (-1, client_ctx, s).
End Handle.

(** * Invariant of the table under every request *)

Lemma le64_bound (b : bytes) n : (length b <= n)%nat ->
  0 <= foldr (fun c acc => code c + 256 * acc) 0 b < 256 ^ Z.of_nat n.
Proof.
  revert n. induction b as [|c b IH]; intros n Hn; cbn [foldr]; [pose proof (Z.pow_pos_nonneg 256 (Z.of_nat n)); lia|].
  destruct n as [|n]; simpl in Hn; [lia|]. specialize (IH n ltac:(lia)).
  pose proof (code_range c). rewrite Nat2Z.inj_succ, Z.pow_succ_r by lia. lia.
Qed.

Lemma le64_range b : is_u64 (le64 b).
Proof.
  unfold le64. pose proof (le64_bound (take 8 b) 8) as H. rewrite length_take in H.
  change (256 ^ Z.of_nat 8) with (2 ^ 64) in H. int_lia.
Qed.

Lemma generate_key_range sha1 raw id n k : generate_key sha1 raw id n = Ret k -> is_u64 k.
Proof.
  unfold generate_key. case_if; [done|]. destruct (sha1 _); intros [= <-];
    [apply le64_range|apply u64_range].
Qed.

Lemma insert_wf malloc k src len s r s' : malloc_ok malloc -> db_wf s -> is_u64 k -> 0 <= len ->
  hash_table_insert malloc k src len s = Ret (r, s') -> db_wf s' /\ (r = 0 \/ r = -1).
Proof.
  intros Hm Hw Hk Hl H.
  destruct (insert_cases malloc Hm k src len s Hw Hk Hl)
    as [[_ E]|[(_ & _ & E)|[(_ & _ & E)|(_ & _ & _ & g & s1 & _ & E & Hw' & _)]]];
    rewrite E in H; simplify_eq; auto using upd_allocs_wf.
Qed.

Lemma import_line_len line v : 0 <= il_len v -> 0 <= il_len (import_line line v).
Proof.
  intros H. unfold import_line. cbn [il_len]. case_if; [|done].
  pose proof (sscanf_range (lit ⟦"data_len: "⟧ ++ [DULong]) line) as Hf.
  destruct (sscanf _ line) as [|[t|n] l]; [done|done|]. inversion_clear Hf as [|? ? Hn _].
  apply Hn.
Qed.

Lemma import_loop_wf malloc fuel : malloc_ok malloc -> forall content v s s', db_wf s -> 0 <= il_len v ->
  import_loop malloc fuel content v s = Ret s' -> db_wf s'.
Proof.
  intros Hm. induction fuel as [|f IH]; intros content v s s' Hw Hl H; [done|].
  cbn [import_loop] in H. destruct (fgets_line content) as [|c raw]; [by simplify_eq|].
  cbv zeta in H. destruct (starts_with ⟦"DATA_END"⟧ (cstr (c :: raw))).
  - apply bind_Ret_inv in H as ([r s1] & H1 & H2).
    apply insert_wf in H1 as [Hw1 _]; [|done|done|apply strtoul_range|done].
    by eapply IH; [exact Hw1| |exact H2].
  - destruct (starts_with ⟦"FILE_END"⟧ (cstr (c :: raw))); [by simplify_eq|].
    eapply IH; [exact Hw| |exact H]. by apply import_line_len.
Qed.

Lemma modify_wf fuel k st s r s' : db_wf s -> hash_table_modify fuel k st s = Ret (r, s') -> db_wf s'.
Proof.
  intros Hw H. unfold hash_table_modify, search_list in H. apply bind_Ret_inv in H as (o & Ho & H).
  destruct o as [d|]; simplify_eq; [|done].
  pose proof (wf_nodes s Hw _ (hash_range k)) as Hf.
  assert (exists l, bucket (hash_func k) s = d :: l) as [l E].
  { destruct (bucket (hash_func k) s) as [|d' l]; [by destruct fuel|].
    exists l. f_equal. induction fuel as [|f IH]; [done|]. simpl in Ho. case_if; [|by apply IH].
    by injection Ho. }
  rewrite E in *. inversion Hf as [|? ? Hd Hl]; subst. apply set_bucket_wf; [done|done| |].
  - constructor; [|done]. destruct Hd. by constructor.
  - rewrite E. simpl. rewrite (wf_size s Hw). int_lia.
Qed.

Lemma upd_files_wf c f s : db_wf s -> db_wf (upd_files c f s).
Proof. by intros [H1 H2 H3]. Qed.

(** The keys a request asks for and the lengths it gives are in range. *)
Definition req_ok (r : client_request_t) : Prop := 0 <= task_len r.

(** Refutes equations between message types. *)
Ltac msg_lia := unfold INVALID, MSG_ADD, MSG_MODIFY, MSG_GET_ALL, MSG_REMOVE, MSG_HEARTBEAT,
  MSG_CHK_PT, MSG_REP_MGR, MSG_SEND_CHKPT, MSG_QUIESCE_START, MSG_QUIESCE_STOP in *;
  repeat match goal with H : context [elem_of _ _] |- _ => progress set_unfold in H end;
  set_unfold; lia.

Definition storage_types : list Z :=
  [MSG_ADD; MSG_MODIFY; MSG_REMOVE; MSG_GET_ALL; INVALID; MSG_HEARTBEAT; MSG_CHK_PT].

(** The request types one by one. *)
Lemma handle_storage_unknown malloc sha1 fuel c s : msg_type (req c) ∉ storage_types ->
  handle_storage malloc sha1 fuel c s = Ret (-1, c, s).
Proof.
  intros H. unfold handle_storage, storage_types in *. cbv zeta.
  repeat (rewrite (proj2 (Z.eqb_neq (msg_type (req c)) _)) by msg_lia). done.
Qed.

Lemma handle_storage_wf malloc sha1 fuel c s r c' s' :
  malloc_ok malloc -> db_wf s -> req_ok (req c) ->
  handle_storage malloc sha1 fuel c s = Ret (r, c', s') ->
  db_wf s' /\ (msg_type (req c) ∈ storage_types ->
    r = if msg_type (req c) =? MSG_ADD then r
        else if msg_type (req c) =? MSG_REMOVE
             then match view s (hash_key (req c)) with [] => -1 | _ => 0 end else 0)
  /\ (r = 0 \/ r = -1).
Proof.
  intros Hm Hw Hr H. unfold handle_storage in H. cbv zeta in H.
  destruct (msg_type (req c) =? MSG_ADD) eqn:E1.
  { apply bind_Ret_inv in H as (k & Hk & H). apply bind_Ret_inv in H as ([ret s1] & H1 & H).
    apply generate_key_range in Hk. apply insert_wf in H1 as [? ?]; try done. by injection H as <- <- <-. }
  destruct (msg_type (req c) =? MSG_MODIFY) eqn:E2; zbool.
  { apply bind_Ret_inv in H as ([ret s1] & H1 & H). apply modify_wf in H1; [|done].
    injection H as <- <- <-. rewrite E2. auto. }
  destruct (msg_type (req c) =? MSG_REMOVE) eqn:E3; zbool.
  { destruct (hash_table_delete (hash_key (req c)) s) as [ret s1] eqn:Ed. injection H as <- <- <-.
    pose proof (delete_wf _ _ _ _ Hw Ed). destruct (delete_view _ _ _ _ Hw Ed) as [-> _].
    split; [done|]. split; [done|]. destruct (view s (hash_key (req c))); auto. }
  destruct (msg_type (req c) =? MSG_GET_ALL) eqn:E6;
    [apply bind_Ret_inv in H as (? & _ & H); injection H as <- <- <-; auto|].
  destruct ((msg_type (req c) =? INVALID) || (msg_type (req c) =? MSG_HEARTBEAT)) eqn:E4;
    [injection H as <- <- <-; auto|].
  destruct (msg_type (req c) =? MSG_CHK_PT) eqn:E5; zbool; [|injection H as <- <- <-].
  - apply bind_Ret_inv in H as (name & _ & H). apply bind_Ret_inv in H as ([ret s1] & Himp & H).
    apply bind_Ret_inv in H as (? & _ & H). injection H as <- <- <-. split; [|auto]. apply upd_files_wf.
    unfold import_db in Himp. apply bind_Ret_inv in Himp as ([r2 s2] & Hint & [= <- <-]).
    unfold import_db_internal in Hint. destruct (_ !! name); [|done].
    apply bind_Ret_inv in Hint as (s3 & Hloop & [= <- <-]).
    eapply import_loop_wf; [done|apply hash_table_init_wf| |exact Hloop]. done.
  - split; [done|]. split; [|auto]. unfold storage_types. intros Hin. exfalso. msg_lia.
Qed.

(** C26: every request keeps the table well formed, whatever bytes a checkpoint
    file holds, and its result is 0 or -1: 0 always for a modification (also
    when the task does not exist), a checkpoint, a listing, a heartbeat and a
    request without a type; for a removal 0 exactly when the key had a task; -1
    for the types the storage does not know, which change nothing. *)
Theorem handle_storage_invariant malloc sha1 fuel c s r c' s' :
  malloc_ok malloc -> db_wf s -> req_ok (req c) ->
  handle_storage malloc sha1 fuel c s = Ret (r, c', s') ->
  db_wf s' /\ (r = 0 \/ r = -1)
  /\ (msg_type (req c) ∈ [MSG_MODIFY; MSG_GET_ALL; INVALID; MSG_HEARTBEAT; MSG_CHK_PT] -> r = 0)
  /\ (msg_type (req c) = MSG_REMOVE -> (r = 0 <-> view s (hash_key (req c)) <> []))
  /\ (msg_type (req c) ∉ storage_types -> r = -1 /\ s' = s /\ c' = c).
Proof.
  intros Hm Hw Hr H.
  destruct (handle_storage_wf malloc sha1 fuel c s r c' s' Hm Hw Hr H) as (Hw' & Hres & Hrange).
  split; [done|]. split; [done|]. unfold storage_types in *. split; [|split].
  - intros Hin. rewrite Hres by msg_lia.
    by do 2 (rewrite (proj2 (Z.eqb_neq (msg_type (req c)) _)) by msg_lia).
  - intros E. rewrite E in Hres. rewrite Hres by msg_lia. simpl.
    by destruct (view s (hash_key (req c))).
  - intros Hn. rewrite handle_storage_unknown in H by done. by injection H as <- <- <-.
Qed.

(** A request for a task of a client, as the server stores it. *)
Definition task_request (t id k : Z) (text : bytes) : client_ctx_t :=
  {| cc_fd := 4; client_id := id; is_backlog := false;
     req := set_task_len (zlen text) (set_task (strncpy 1024 text)
              (set_hash_key k (set_msg_type t CLIENT_REQUEST_INITIALISER))) |}.

Lemma handle_storage_invariant_witness :
  exists s', handle_storage dirty_malloc (fun _ => None) 1 (task_request MSG_MODIFY 1 6 []) demo_db
             = Ret (0, task_request MSG_MODIFY 1 6 [], s') /\ db_wf s'.
Proof.
  eexists. split; [by vm_compute|].
  eapply (handle_storage_invariant dirty_malloc (fun _ => None) 1 (task_request MSG_MODIFY 1 6 []) demo_db);
    [apply dirty_malloc_ok|apply db_wfb_ok; by vm_compute|by vm_compute|by vm_compute].
Defined.

(** * Adding and removing tasks *)

(** An ADD request the table has room for: a task that fits the hashed range, a
    key that is not zero and a node from [malloc]. *)
Record add_ok (malloc : nat -> option data_point) (sha1 : bytes -> option bytes)
    (c : client_ctx_t) (s : db) (k : Z) : Prop := {
  ao_type : msg_type (req c) = MSG_ADD;
  ao_len : 0 <= task_len (req c);
  ao_task : zlen (task (req c)) = 1024;
  ao_key : generate_key sha1 (task (req c)) (client_id c) (task_len (req c)) = Ret k;
  ao_nonzero : k <> 0;
  ao_node : is_Some (malloc (allocs s))
}.

Lemma handle_add malloc sha1 fuel c s k : malloc_ok malloc -> db_wf s -> add_ok malloc sha1 c s k ->
  exists s1 st, handle_storage malloc sha1 fuel c s = Ret (0, set_req (set_hash_key k (req c)) c, s1)
    /\ db_wf s1 /\ allocs s1 = S (allocs s)
    /\ view s1 ≡ abs_set k (view s k ++ [(ztake (task_len (req c)) (task (req c)), st)]) (view s).
Proof.
  intros Hm Hw [Ht Hl Hz Hk Hnz [g Hg]]. unfold handle_storage. cbv zeta. rewrite Ht. simpl Z.eqb.
  cbv iota. rewrite Hk, bind_ret_l. pose proof (generate_key_range _ _ _ _ _ Hk) as Hku.
  unfold generate_key in Hk. case_if; [done|]. zbool.
  destruct (insert_cases malloc Hm k (task (req c)) (task_len (req c)) s Hw Hku Hl)
    as [[? _]|[(_ & Hn & _)|[(_ & [?|?] & _)|(_ & _ & _ & g' & s1 & _ & E & Hw' & Ha & _)]]];
    [done|congruence|unfold TASK_LENGTH, MAX_DATA_LEN in *; lia|unfold TASK_LENGTH in *; lia|].
  destruct (insert_view malloc Hm _ _ _ _ _ Hw Hku Hl E) as [_ [st Hv]].
  rewrite E, bind_ret_l. by exists s1, st.
Qed.

Lemma handle_remove malloc sha1 fuel c s : db_wf s -> msg_type (req c) = MSG_REMOVE ->
  exists s', handle_storage malloc sha1 fuel c s
             = Ret (match view s (hash_key (req c)) with [] => -1 | _ => 0 end, c, s')
    /\ db_wf s'
    /\ view s' ≡ abs_set (hash_key (req c)) (tail (view s (hash_key (req c)))) (view s).
Proof.
  intros Hw Ht. unfold handle_storage. cbv zeta. rewrite Ht. simpl Z.eqb. cbv iota.
  destruct (hash_table_delete (hash_key (req c)) s) as [r s'] eqn:E.
  destruct (delete_view _ _ _ _ Hw E) as [-> Hv]. exists s'.
  split; [done|]. split; [by eapply delete_wf|exact Hv].
Qed.

Lemma abs_set_twice k l l' t : abs_set k l (abs_set k l' t) ≡ abs_set k l t.
Proof. intros k'. unfold abs_set. by destruct (k' =? k). Qed.

Lemma abs_set_at k l t : abs_set k l t k = l.
Proof. unfold abs_set. by rewrite Z.eqb_refl. Qed.

(** Adding a task and removing it by the key of the reply is the identity
    on the table, when no other task has the key; the reply's key is the one
    the removal needs. *)
Theorem add_then_remove malloc sha1 fuel c c2 s k :
  malloc_ok malloc -> db_wf s -> add_ok malloc sha1 c s k -> view s k = [] ->
  msg_type (req c2) = MSG_REMOVE -> hash_key (req c2) = k ->
  exists c1 s1 s2, handle_storage malloc sha1 fuel c s = Ret (0, c1, s1)
    /\ hash_key (req c1) = k /\ map fst (view s1 k) = [ztake (task_len (req c)) (task (req c))]
    /\ handle_storage malloc sha1 fuel c2 s1 = Ret (0, c2, s2)
    /\ db_wf s2 /\ view s2 ≡ view s.
Proof.
  intros Hm Hw Ha Hv Ht2 Hk2.
  destruct (handle_add malloc sha1 fuel c s k Hm Hw Ha) as (s1 & st & E1 & Hw1 & _ & Hv1).
  destruct (handle_remove malloc sha1 fuel c2 s1 Hw1 Ht2) as (s2 & E2 & Hw2 & Hv2).
  pose proof (Hv1 k) as Hk. rewrite abs_set_at, Hv in Hk. rewrite Hk2, Hk in E2.
  eexists _, s1, s2. split; [done|]. split; [done|]. split; [by rewrite Hk|].
  split; [done|]. split; [done|].
  rewrite Hv2, Hk2, Hk, Hv1, abs_set_twice. simpl tail.
  intros k'. unfold abs_set. case_if; zbool; [by subst|done].
Qed.

(** The first eight bytes of its input, as a stand-in for the digest. *)
Definition demo_sha1 (b : bytes) : option bytes := Some (take 20 b).

Definition bread_add (id : Z) : client_ctx_t := task_request MSG_ADD id 0 ⟦"bread"⟧.
Definition bread_key : Z := le64 (⟦"bread"⟧ ++ zeros 3).

Lemma bread_add_ok id s : add_ok dirty_malloc demo_sha1 (bread_add id) s bread_key.
Proof. by constructor. Qed.

Lemma add_then_remove_witness :
  exists c1 s1 s2, handle_storage dirty_malloc demo_sha1 1 (bread_add 3) demo_db = Ret (0, c1, s1)
    /\ handle_storage dirty_malloc demo_sha1 1 (task_request MSG_REMOVE 3 bread_key []) s1
       = Ret (0, task_request MSG_REMOVE 3 bread_key [], s2)
    /\ view s2 ≡ view demo_db.
Proof.
  destruct (add_then_remove dirty_malloc demo_sha1 1 (bread_add 3)
    (task_request MSG_REMOVE 3 bread_key []) demo_db bread_key)
    as (c1 & s1 & s2 & E1 & _ & _ & E2 & _ & Hv); eauto using dirty_malloc_ok, bread_add_ok.
  - apply db_wfb_ok; by vm_compute.
  - by exists c1, s1, s2.
Defined.

(** The key does not depend on the client, although the code builds it from
    the client id: two clients that add the same task get the same key and two
    entries under it, and a removal by the second client's key deletes the
    entry of the first and leaves its own. *)
Theorem clients_share_keys malloc sha1 fuel a b c s k :
  malloc_ok malloc -> db_wf s -> add_ok malloc sha1 a s k ->
  msg_type (req b) = MSG_ADD -> task (req b) = task (req a) -> task_len (req b) = task_len (req a) ->
  is_Some (malloc (S (allocs s))) -> view s k = [] ->
  msg_type (req c) = MSG_REMOVE -> hash_key (req c) = k ->
  exists a1 b1 s1 s2 s3 e1 e2, handle_storage malloc sha1 fuel a s = Ret (0, a1, s1)
    /\ handle_storage malloc sha1 fuel b s1 = Ret (0, b1, s2)
    /\ hash_key (req a1) = k /\ hash_key (req b1) = k
    /\ view s1 k = [e1] /\ view s2 k = [e1; e2]
    /\ handle_storage malloc sha1 fuel c s2 = Ret (0, c, s3) /\ view s3 k = [e2].
Proof.
  intros Hm Hw Ha Hbt Hb Hbl Hbm Hv Hct Hck.
  destruct (handle_add malloc sha1 fuel a s k Hm Hw Ha) as (s1 & st1 & E1 & Hw1 & Hal & Hv1).
  assert (add_ok malloc sha1 b s1 k) as Hb1.
  { destruct Ha as [H1 H2 H3 H4 H5 H6]. constructor; rewrite ?Hb, ?Hbl, ?Hal; done. }
  destruct (handle_add malloc sha1 fuel b s1 k Hm Hw1 Hb1) as (s2 & st2 & E2 & Hw2 & _ & Hv2).
  destruct (handle_remove malloc sha1 fuel c s2 Hw2 Hct) as (s3 & E3 & _ & Hv3).
  pose proof (Hv1 k) as Hk1. rewrite abs_set_at, Hv in Hk1.
  pose proof (Hv2 k) as Hk2. rewrite abs_set_at, Hk1 in Hk2.
  rewrite Hck in *. pose proof (Hv3 k) as Hk3. rewrite abs_set_at, Hk2 in Hk3. rewrite Hk2 in E3.
  eexists _, _, s1, s2, s3, _, _. split; [exact E1|]. split; [exact E2|]. split; [done|].
  split; [done|]. split; [exact Hk1|]. split; [exact Hk2|]. split; [exact E3|exact Hk3].
Qed.

Lemma clients_share_keys_witness :
  exists a1 b1 s1 s2 s3 e1 e2, handle_storage dirty_malloc demo_sha1 1 (bread_add 1) demo_db = Ret (0, a1, s1)
    /\ handle_storage dirty_malloc demo_sha1 1 (bread_add 2) s1 = Ret (0, b1, s2)
    /\ hash_key (req a1) = bread_key /\ hash_key (req b1) = bread_key
    /\ view s1 bread_key = [e1] /\ view s2 bread_key = [e1; e2]
    /\ handle_storage dirty_malloc demo_sha1 1 (task_request MSG_REMOVE 2 bread_key []) s2
       = Ret (0, task_request MSG_REMOVE 2 bread_key [], s3) /\ view s3 bread_key = [e2].
Proof.
  apply (clients_share_keys dirty_malloc demo_sha1 1 (bread_add 1) (bread_add 2)
    (task_request MSG_REMOVE 2 bread_key []) demo_db bread_key); try reflexivity.
  - apply dirty_malloc_ok.
  - apply db_wfb_ok; by vm_compute.
  - apply bread_add_ok.
  - by eexists.
Defined.
