(* ===== verification/Replica.v ===== *)
(** The state of a replica process that its threads share, and what they do to
    it: the reply writer of [src/server.c] and the checkpoint senders of
    [src/chkpt.c].

    The message log is used through the interface of [Fifo]. *)
From stdpp Require Import strings.
From S2P Require Import Prelude CLib Iface Util Fifo Control Db Storage.

Record replica (Q : Type) := {
  r_ctl : ctl;                      (* src/state.c, chkpt.c, worker.c flags *)
  r_log : Q;                        (* svr_log *)
  r_db : db;                        (* the table and the files *)
  is_prune : Z;
  msg_count : Z;
  config_done : Z;
  chk_point_num : Z;                (* uint64_t *)
  sent : list (Z * bytes);          (* bytes written, per descriptor *)
  closed : list Z;                  (* descriptors closed, in order *)
  net_out : net                     (* connections to the other replicas *)
}.
Arguments r_ctl {Q} _.
Arguments r_log {Q} _.
Arguments r_db {Q} _.
Arguments is_prune {Q} _.
Arguments msg_count {Q} _.
Arguments config_done {Q} _.
Arguments chk_point_num {Q} _.
Arguments sent {Q} _.
Arguments closed {Q} _.
Arguments net_out {Q} _.

(** The state [main] sets up, on an empty log. *)
Definition replica_init {Q} (q : Q) : replica Q :=
  {| r_ctl := ctl_init; r_log := q; r_db := db_init; is_prune := 0; msg_count := 0;
     config_done := 0; chk_point_num := 0; sent := []; closed := [];
     net_out := {| attempts := O; delivered := [] |} |}.

(** * Replies *)

Definition header (status : bytes) (c : client_ctx_t) : bytes :=
  ⟦"Status: "⟧ ++ status ++ CRLF ++ ⟦"Client ID: "⟧ ++ fmt_d (client_id c) ++ CRLF
  ++ ⟦"Request No: "⟧ ++ fmt_u (req_no (req c)) ++ CRLF.

(** The text [snprintf] is asked for; the heartbeat reply has no empty line at
    its end. *)
Definition response_text (c : client_ctx_t) (status msg : bytes) (st : Z) : bytes :=
  if msg_type (req c) =? MSG_ADD then
    header status c ++ ⟦"Msg: "⟧ ++ msg ++ CRLF ++ ⟦"Key: "⟧ ++ fmt_u (hash_key (req c)) ++ CRLF ++ CRLF
  else if msg_type (req c) =? MSG_HEARTBEAT then
    header status c ++ ⟦"Msg: "⟧ ++ msg ++ CRLF ++ ⟦"State: "⟧ ++ fmt_d st ++ CRLF
  else header status c ++ ⟦"Msg: "⟧ ++ msg ++ CRLF ++ CRLF.

(** The bytes passed to [sock_writen]; [None] when the reply does not fit. *)
Definition write_client_responce (c : client_ctx_t) (status msg : bytes) (st : Z) : option bytes :=
  let resp := response_text c status msg st in
  if MAX_LENGTH <? zlen resp then None
  else Some (ztake (zlen resp) (snprintf MAX_LENGTH resp)).

Section Updates.
Context {Q : Type}.
Implicit Types w : replica Q.
Definition set_r_ctl (v : ctl) (w : replica Q) : replica Q :=
  {| r_ctl := v; r_log := r_log w; r_db := r_db w; is_prune := is_prune w;
     msg_count := msg_count w; config_done := config_done w;
     chk_point_num := chk_point_num w; sent := sent w; closed := closed w;
     net_out := net_out w |}.
Definition set_r_log (v : Q) (w : replica Q) : replica Q :=
  {| r_ctl := r_ctl w; r_log := v; r_db := r_db w; is_prune := is_prune w;
     msg_count := msg_count w; config_done := config_done w;
     chk_point_num := chk_point_num w; sent := sent w; closed := closed w;
     net_out := net_out w |}.
Definition set_r_db (v : db) (w : replica Q) : replica Q :=
  {| r_ctl := r_ctl w; r_log := r_log w; r_db := v; is_prune := is_prune w;
     msg_count := msg_count w; config_done := config_done w;
     chk_point_num := chk_point_num w; sent := sent w; closed := closed w;
     net_out := net_out w |}.
Definition set_prune (v : Z) (w : replica Q) : replica Q :=
  {| r_ctl := r_ctl w; r_log := r_log w; r_db := r_db w; is_prune := v;
     msg_count := msg_count w; config_done := config_done w;
     chk_point_num := chk_point_num w; sent := sent w; closed := closed w;
     net_out := net_out w |}.
Definition set_msg_count (v : Z) (w : replica Q) : replica Q :=
  {| r_ctl := r_ctl w; r_log := r_log w; r_db := r_db w; is_prune := is_prune w;
     msg_count := v; config_done := config_done w; chk_point_num := chk_point_num w;
     sent := sent w; closed := closed w; net_out := net_out w |}.
Definition set_config_done (v : Z) (w : replica Q) : replica Q :=
  {| r_ctl := r_ctl w; r_log := r_log w; r_db := r_db w; is_prune := is_prune w;
     msg_count := msg_count w; config_done := v; chk_point_num := chk_point_num w;
     sent := sent w; closed := closed w; net_out := net_out w |}.
Definition set_chk_point_num (v : Z) (w : replica Q) : replica Q :=
  {| r_ctl := r_ctl w; r_log := r_log w; r_db := r_db w; is_prune := is_prune w;
     msg_count := msg_count w; config_done := config_done w; chk_point_num := v;
     sent := sent w; closed := closed w; net_out := net_out w |}.
Definition set_sent (v : list (Z * bytes)) (w : replica Q) : replica Q :=
  {| r_ctl := r_ctl w; r_log := r_log w; r_db := r_db w; is_prune := is_prune w;
     msg_count := msg_count w; config_done := config_done w;
     chk_point_num := chk_point_num w; sent := v; closed := closed w;
     net_out := net_out w |}.
Definition set_closed (v : list Z) (w : replica Q) : replica Q :=
  {| r_ctl := r_ctl w; r_log := r_log w; r_db := r_db w; is_prune := is_prune w;
     msg_count := msg_count w; config_done := config_done w;
     chk_point_num := chk_point_num w; sent := sent w; closed := v; net_out := net_out w |}.
Definition set_net_out (v : net) (w : replica Q) : replica Q :=
  {| r_ctl := r_ctl w; r_log := r_log w; r_db := r_db w; is_prune := is_prune w;
     msg_count := msg_count w; config_done := config_done w;
     chk_point_num := chk_point_num w; sent := sent w; closed := closed w; net_out := v |}.

Definition reply (c : client_ctx_t) (status msg : bytes) w : replica Q :=
  match write_client_responce c status msg (state (r_ctl w)) with
  | Some b => set_sent (sent w ++ [(cc_fd c, b)]) w
  | None => w
  end.

(** [if (fd >= 0) close(fd)], which ends every handler. *)
Definition close_fd (fd : Z) w : replica Q :=
  if 0 <=? fd then set_closed (closed w ++ [fd]) w else w.

Lemma close_fd_frame fd w : r_ctl (close_fd fd w) = r_ctl w /\ r_db (close_fd fd w) = r_db w
  /\ r_log (close_fd fd w) = r_log w /\ is_prune (close_fd fd w) = is_prune w
  /\ sent (close_fd fd w) = sent w.
Proof. unfold close_fd. by destruct (0 <=? fd). Qed.

(** Runs an operation of the control state on the shared state. *)
Definition on_ctl (f : ctl -> outcome ctl) w : outcome (replica Q) :=
  c ← f (r_ctl w); Ret (set_r_ctl c w).
End Updates.

(** * Checkpoints (src/chkpt.c) *)

Section Chkpt.
Context {Q : Type}.
Variable status_ptr : Z -> Z.
Variable pid : Z.
Variable can_create : bytes -> bool.
Variable server_id : Z.
(** The results of the network calls, by attempt. *)
Variable env : nat -> net_step.
(** The bytes already on the stack where the file name goes. *)
Variable junk : bytes.

(** [connect] for one backup: its descriptor. *)
Definition open_port (b : bsvr_ctx) (w : net) : bsvr_ctx * net :=
  (set_bs_fd (connect_to_server (env (attempts w)) (bs_info b)) b,
   {| attempts := S (attempts w); delivered := delivered w |}).

Definition open_ports_secondary (w : replica Q) : replica Q :=
  let c := r_ctl w in
  let '(b0, n) := open_port (bckup_svr_0 c) (net_out w) in
  let '(b1, n) := open_port (bckup_svr_1 c) n in
  set_net_out n (set_r_ctl (set_bckup_servers b0 b1 c) w).

(** The header of the checkpoint message; [size] is [get_file_size]. *)
Definition chkpt_header (num size : Z) : bytes :=
  ⟦"Client ID: "⟧ ++ fmt_d server_id ++ CRLF ++ ⟦"Request No: "⟧ ++ fmt_u num ++ CRLF
  ++ ⟦"Message Type: "⟧ ++ fmt_d MSG_CHK_PT ++ CRLF
  ++ ⟦"Data Length: "⟧ ++ fmt_u size ++ CRLF ++ CRLF.

(** The [read]/[write] loop over the file in blocks of [MAX_LENGTH]: what was
    written and the calls made; a failed write ends it. *)
Fixpoint copy_loop (fuel : nat) (content acc : bytes) (calls : nat) : outcome (bytes * nat) :=
  match fuel with
  | O => NoFuel
  | S f =>
      match ztake MAX_LENGTH content with
      | [] => Ret (acc, calls)
      | block =>
          if write_ret (env calls) <? 0 then Ret (acc, S calls)
          else copy_loop f (zdrop MAX_LENGTH content) (acc ++ block) (S calls)
      end
  end.

(** Header and file over the open descriptor. *)
Definition write_check_point (b : bsvr_ctx) (chk_file_name : bytes) (w : replica Q)
  : outcome (Z * replica Q) :=
  match files (r_db w) !! chk_file_name with
  | None => Ret (-1, w)
  | Some content =>
      _ ← print_state_internal (r_db w);
      let hd := chkpt_header (chk_point_num w) (get_file_size (Some content)) in
      let n := net_out w in
      if write_ret (env (attempts n)) <? 0
      then Ret (0, set_net_out {| attempts := S (attempts n); delivered := delivered n |} w)
      else
        '(bytes, calls) ← copy_loop (S (length content)) content hd (S (attempts n));
        Ret (0, set_net_out {| attempts := calls;
                               delivered := delivered n ++ [(bs_info b, bytes)] |} w)
  end.

(** One turn of the loop over the two backups. *)
Definition send_to (b : bsvr_ctx) (name : bytes) (w : replica Q) : outcome (replica Q) :=
  if 0 <=? bs_fd b then
    '(_, w) ← write_check_point b name w;
    Ret (set_closed (closed w ++ [bs_fd b]) w)
  else Ret w.

(** When the export cannot create its file the name buffer is read as it
    was. *)
Definition send_checkpoint_ondemand (w : replica Q) : outcome (replica Q) :=
  let w := open_ports_secondary w in
  '(name, d) ← export_db status_ptr pid can_create (r_db w);
  let w := set_r_db d w in
  name ← match name with Some n => Ret n | None => c_string junk end;
  w ← send_to (bckup_svr_0 (r_ctl w)) name w;
  w ← send_to (bckup_svr_1 (r_ctl w)) name w;
  Ret (set_chk_point_num (u64 (chk_point_num w + 1)) w).

(** A round of the periodic thread [send_checkpoint] after its sleep: the
    same sequence. *)
Definition send_checkpoint_round (w : replica Q) : outcome (replica Q) :=
  send_checkpoint_ondemand w.

(** One step of the thread: sleep a second, leave on the signal, or send. *)
Definition send_checkpoint (w : replica Q) : outcome (replica Q) :=
  match chk_thread (r_ctl w) with
  | None => Ret w
  | Some sleep_count =>
      match chk_thread_sleep sleep_count (r_ctl w) with
      | Some c => Ret (set_r_ctl c w)
      | None =>
          let c := r_ctl w in
          send_checkpoint_round (set_r_ctl (upd_thread (signal_exit_checkpt_thread c)
            (is_chkpt_thrd_running c) (Some 0) c) w)
      end
  end.
End Chkpt.
