(* ===== verification/Console.v ===== *)
(** [print_user_req] of [src/server.c]: the row the server prints for each
    request and reply, with its 4096-byte buffer. The console is the list of
    bytes written to it. *)
From S2P Require Import Prelude CLib Iface Util Request.

Definition CONSOLE_BUF : Z := 4096.

Definition spaces (n : Z) : bytes := replicate (Z.to_nat n) " "%char.
(** [%-ns] and [%ns]. *)
Definition pad_right (n : Z) (s : bytes) : bytes := s ++ spaces (n - zlen s).
Definition pad_left (n : Z) (s : bytes) : bytes := spaces (n - zlen s) ++ s.
Definition columns (l : list bytes) : bytes := concat l.

Definition title_row : bytes :=
  columns [pad_right 2 ⟦"|"⟧; ⟦" "⟧; pad_left 3 ⟦"DIR"⟧; pad_left 1 []; ⟦" "⟧;
    pad_left 7 ⟦"ClntID"⟧; pad_left 1 []; ⟦" "⟧; pad_left 7 ⟦"Seq No"⟧; pad_left 1 []; ⟦" "⟧;
    pad_right 14 ⟦"MSG Type"⟧; pad_left 1 []; ⟦" "⟧; pad_right 24 ⟦"Hash"⟧; pad_left 1 []; ⟦" "⟧;
    pad_right 30 ⟦"TASK"⟧; pad_left 1 []; ⟦" "⟧; pad_right 10 ⟦"Date"⟧; pad_left 1 []; ⟦" "⟧;
    pad_right 15 ⟦"Task Status"⟧; pad_left 1 []; ⟦" "⟧; pad_right 4 ⟦"Mod Flags"⟧; pad_left 2 ⟦"|"⟧; [LF]].

(** The task and the date must end within their arrays. *)
Definition request_row (c : client_ctx_t) (dir : bytes) : outcome bytes :=
  let r := req c in
  t ← c_string (task r);
  d ← c_string (date r);
  Ret (columns [pad_right 2 ⟦"|"⟧; ⟦" "⟧; pad_left 3 (ztake 3 dir); pad_left 1 []; ⟦" "⟧;
    pad_left 7 (fmt_d (client_id c)); pad_left 2 []; ⟦" "⟧; pad_left 7 (fmt_u (req_no r)); pad_left 1 []; ⟦" "⟧;
    pad_right 14 (get_msg_type_str (msg_type r)); pad_left 2 []; ⟦" "⟧;
    pad_right 24 (fmt_u (hash_key r)); pad_left 2 []; ⟦" "⟧; pad_right 30 t; pad_left 2 []; ⟦" "⟧;
    pad_right 10 d; pad_left 2 []; ⟦" "⟧; pad_right 15 (get_task_status_str (task_status r)); pad_left 2 []; ⟦" "⟧;
    pad_right 8 (fmt_d (mod_flags r)); pad_left 3 ⟦"|"⟧; [LF]]).

(** [snprintf] into the buffer, then a line of [fill] of the same width: the
    [memset] and the last corner use the length [snprintf] would have written. *)
Definition print_boxed (row : bytes) (fill : ascii) : outcome bytes :=
  let ch := zlen row - 2 in
  if (ch <? 0) || (CONSOLE_BUF <=? ch) then Undef
  else
    let buffer := overwrite (replicate (Z.to_nat ch) fill) (zeros CONSOLE_BUF) in
    let buffer := <[O := "+"%char]> buffer in
    let buffer := <[Z.to_nat ch := "+"%char]> buffer in
    s ← c_string buffer;
    Ret (ztake (CONSOLE_BUF - 1) row ++ s ++ [LF]).

(** [once]: the static flag. *)
Definition print_user_req (once : Z) (c : client_ctx_t) (dir : bytes) : outcome (bytes * Z) :=
  head ← (if once =? 0 then print_boxed title_row "="%char else Ret []);
  row ← request_row c dir;
  body ← print_boxed row (if bytes_eqb dir ⟦"Res"⟧ then "="%char else "-"%char);
  Ret (head ++ body, 1).

(** * Lemmas *)

Lemma zlen_spaces n : zlen (spaces n) = Z.max 0 n.
Proof. unfold zlen, spaces. rewrite length_replicate. lia. Qed.

Lemma zlen_pad_right n s : zlen (pad_right n s) = Z.max n (zlen s).
Proof. unfold pad_right. rewrite zlen_app, zlen_spaces. lia. Qed.

Lemma zlen_pad_left n s : zlen (pad_left n s) = Z.max n (zlen s).
Proof. unfold pad_left. rewrite zlen_app, zlen_spaces. lia. Qed.

Lemma msg_type_width t : zlen (get_msg_type_str t) <= 17.
Proof. unfold get_msg_type_str. repeat case_if; apply Z.leb_le; reflexivity. Qed.

Lemma task_status_width t : zlen (get_task_status_str t) <= 13.
Proof. unfold get_task_status_str. repeat case_if; apply Z.leb_le; reflexivity. Qed.

Lemma ztake_width {A} n (l : list A) : 0 <= n -> zlen (ztake n l) <= n.
Proof. intros. unfold zlen, ztake. rewrite length_take. lia. Qed.

(** The width of a row. *)
Lemma request_row_length c dir row : request_row c dir = Ret row ->
  zlen (task (req c)) <= 1024 -> zlen (date (req c)) <= 32 -> 100 <= zlen row <= 1300.
Proof.
  unfold request_row. intros H Ht Hd. apply bind_Ret_inv in H as (t & Et & H).
  apply bind_Ret_inv in H as (d & Ed & H). injection H as <-.
  unfold c_string in Et, Ed. destruct (has_nul (task (req c))); [|done].
  destruct (has_nul (date (req c))); [|done]. injection Et as <-. injection Ed as <-.
  repeat first [rewrite zlen_cons | rewrite zlen_app]. rewrite !zlen_pad_right, !zlen_pad_left.
  change (zlen (@nil ascii)) with 0.
  pose proof (cstr_length (task (req c))). pose proof (cstr_length (date (req c))).
  pose proof (fmt_d_length (client_id c)). pose proof (fmt_d_length (mod_flags (req c))).
  pose proof (fmt_u_length (req_no (req c))). pose proof (fmt_u_length (hash_key (req c))).
  pose proof (msg_type_width (msg_type (req c))). pose proof (task_status_width (task_status (req c))).
  pose proof (ztake_width 3 dir). lia.
Qed.

(** The text of a line below a row of width [ch + 2]. *)
Definition rule (ch : Z) (fill : ascii) : bytes :=
  "+"%char :: replicate (Z.to_nat ch - 1) fill ++ ["+"%char].

Lemma cstr_rule k fill rest : not_nul fill = true ->
  cstr ("+"%char :: replicate k fill ++ "+"%char :: NUL :: rest)
  = "+"%char :: replicate k fill ++ ["+"%char].
Proof.
  intros Hf. change ("+"%char :: replicate k fill ++ "+"%char :: NUL :: rest)
    with (("+"%char :: replicate k fill) ++ ["+"%char] ++ NUL :: rest).
  rewrite app_assoc, cstr_app_nul; [done|].
  apply Forall_app. split; [|by repeat constructor]. apply Forall_cons_2; [done|]. by apply Forall_replicate.
Qed.

Lemma insert_middle {A} (l1 : list A) x y l2 : <[length l1 := y]> (l1 ++ x :: l2) = l1 ++ y :: l2.
Proof. induction l1 as [|z l1 IH]; simpl; [done|]. by rewrite IH. Qed.

(** A row of moderate width is printed with a line of the same width. *)
Lemma print_boxed_ok row fill : not_nul fill = true -> 3 <= zlen row < CONSOLE_BUF ->
  print_boxed row fill = Ret (row ++ rule (zlen row - 2) fill ++ [LF]).
Proof.
  intros Hf Hr. unfold print_boxed, rule. cbv zeta. unfold CONSOLE_BUF in *.
  remember (zlen row - 2) as ch eqn:Ech.
  rewrite (proj2 (Z.ltb_ge ch 0)), (proj2 (Z.leb_gt 4096 ch)) by lia. cbn [orb].
  remember (Z.to_nat ch - 1)%nat as k eqn:Ek. replace (Z.to_nat ch) with (S k) by lia.
  assert (overwrite (replicate (S k) fill) (zeros 4096)
          = (fill :: replicate k fill) ++ NUL :: NUL :: replicate (4094 - S k) NUL) as ->.
  { unfold overwrite, zeros. rewrite length_replicate, drop_replicate.
    replace (Z.to_nat 4096 - S k)%nat with (S (S (4094 - S k))) by lia. done. }
  change (<[O := "+"%char]> ((fill :: replicate k fill) ++ NUL :: NUL :: replicate (4094 - S k) NUL))
    with (("+"%char :: replicate k fill) ++ NUL :: NUL :: replicate (4094 - S k) NUL).
  assert (S k = length ("+"%char :: replicate k fill)) as Hk by by rewrite length_cons, length_replicate.
  rewrite Hk at 1. rewrite insert_middle. unfold c_string.
  change (("+"%char :: replicate k fill) ++ "+"%char :: NUL :: replicate (4094 - S k) NUL)
    with ("+"%char :: replicate k fill ++ "+"%char :: NUL :: replicate (4094 - S k) NUL).
  rewrite cstr_rule by done.
  assert (has_nul ("+"%char :: replicate k fill ++ "+"%char :: NUL :: replicate (4094 - S k) NUL) = true) as ->.
  { change (has_nul (("+"%char :: replicate k fill) ++ ["+"%char] ++ NUL :: replicate (4094 - S k) NUL) = true).
    rewrite app_assoc. apply has_nul_app_nul. }
  rewrite bind_ret_l. unfold ztake. rewrite take_ge; [done|]. unfold zlen in *. lia.
Qed.

(** C40: what the server prints for a request. When the task and the date end
    within their arrays (as they do unless the client sends a due date of 32
    characters or more), the row and the line below it stay inside the buffer of
    4096 bytes, whatever the numbers, and the line is as wide as the row; a date
    that fills its array is read beyond its end. *)
Theorem request_row_fits once c dir :
  zlen (task (req c)) = 1024 -> zlen (date (req c)) = 32 -> has_nul (task (req c)) = true ->
  if has_nul (date (req c)) then
    exists row fill, request_row c dir = Ret row /\ zlen row < CONSOLE_BUF
      /\ print_user_req once c dir
         = Ret ((if once =? 0 then title_row ++ rule (zlen title_row - 2) "="%char ++ [LF] else [])
                ++ row ++ rule (zlen row - 2) fill ++ [LF], 1)
      /\ zlen (rule (zlen row - 2) fill ++ [LF]) = zlen row
  else print_user_req once c dir = Undef.
Proof.
  intros Ht Hd Htn.
  assert ((if once =? 0 then print_boxed title_row "="%char else Ret [])
    = Ret (if once =? 0 then title_row ++ rule (zlen title_row - 2) "="%char ++ [LF] else [])) as Hhead.
  { case_if; [|done]. apply print_boxed_ok; [done|]. split; [by apply Z.leb_le|by apply Z.ltb_lt]. }
  unfold print_user_req. rewrite Hhead, bind_ret_l.
  destruct (has_nul (date (req c))) eqn:Edn.
  - destruct (request_row c dir) as [row| | |] eqn:Er; try (unfold request_row, c_string in Er;
      rewrite Htn, Edn in Er; by rewrite !bind_ret_l in Er).
    pose proof (request_row_length c dir row Er ltac:(lia) ltac:(lia)) as Hl.
    exists row, (if bytes_eqb dir ⟦"Res"⟧ then "="%char else "-"%char). rewrite bind_ret_l.
    rewrite print_boxed_ok, bind_ret_l; [|by case_if|unfold CONSOLE_BUF; lia].
    split; [done|]. split; [unfold CONSOLE_BUF; lia|]. split; [done|].
    unfold rule. rewrite zlen_app, zlen_cons, zlen_app. unfold zlen in *.
    rewrite length_replicate. simpl. lia.
  - assert (request_row c dir = Undef) as ->; [|done].
    unfold request_row, c_string. by rewrite Htn, Edn, bind_ret_l.
Qed.

Definition demo_row_ctx : client_ctx_t :=
  {| cc_fd := 5; client_id := -2147483648; is_backlog := false;
     req := set_task (⟦"write the report"⟧ ++ zeros 1008) (set_date (⟦"tomorrow"⟧ ++ zeros 24) CLIENT_REQUEST_INITIALISER) |}.

Lemma request_row_fits_witness : exists out, print_user_req 0 demo_row_ctx ⟦"Req"⟧ = Ret (out, 1).
Proof.
  destruct (request_row_fits 0 demo_row_ctx ⟦"Req"⟧ eq_refl eq_refl eq_refl) as (row & fill & _ & _ & E & _).
  eexists. exact E.
Defined.
