(* ===== verification/Server.v ===== *)
(** [src/server.c]: reading a request off a connection, putting it in the log,
    and executing it. *)
From stdpp Require Import strings.
From S2P Require Import Prelude CLib Iface Util Request Fifo Control Db Storage Replica Console.
From S2P Require MsgLog.

(** * parse_kv *)

(** What [parse_kv] changes: the request, the replies already written to the
    client, and the global [config_done]. *)
Record conn := {
  cn_ctx : client_ctx_t;
  cn_replies : list bytes;
  cn_config : Z
}.

Definition with_ctx (c : client_ctx_t) (n : conn) : conn :=
  {| cn_ctx := c; cn_replies := cn_replies n; cn_config := cn_config n |}.

Definition upd_req (f : client_request_t -> client_request_t) (n : conn) : conn :=
  with_ctx (set_req (f (req (cn_ctx n))) (cn_ctx n)) n.

Definition upd_rm (f : rep_mgr_msg_t -> rep_mgr_msg_t) : client_request_t -> client_request_t :=
  fun r => set_rep_mgr_msg (f (rep_mgr_msg r)) r.
Definition upd_b0 (f : bsvr_ctx -> bsvr_ctx) : rep_mgr_msg_t -> rep_mgr_msg_t :=
  fun m => set_rm_bckup_svr_0 (f (rm_bckup_svr_0 m)) m.
Definition upd_b1 (f : bsvr_ctx -> bsvr_ctx) : rep_mgr_msg_t -> rep_mgr_msg_t :=
  fun m => set_rm_bckup_svr_1 (f (rm_bckup_svr_1 m)) m.
Definition upd_info (f : server_info -> server_info) : bsvr_ctx -> bsvr_ctx :=
  fun b => set_bs_info (f (bs_info b)) b.

(** [strncpy] into [task] and [strlen] of the result, which has no end when the
    value fills the array. *)
Definition store_task (value : bytes) (r : client_request_t) : outcome client_request_t :=
  let t := strncpy 1024 value in
  s ← c_string t;
  Ret (set_task_len (zlen s) (set_task t r)).

Section ParseKv.
(** [get_state()], which only a heartbeat's reply prints. *)
Variable st : Z.

(** A reply written while the connection is still being read. *)
Definition conn_fail (msg : bytes) (n : conn) : conn :=
  {| cn_ctx := cn_ctx n;
     cn_replies := cn_replies n ++ option_list (write_client_responce (cn_ctx n) ⟦"FAIL"⟧ msg st);
     cn_config := cn_config n |}.

(** The repeated block: convert, store or refuse. *)
Definition int_field (value msg : bytes) (upd : Z -> client_request_t -> client_request_t)
    (n : conn) : outcome (bool * conn) :=
  match str_to_int value with
  | Some z => Ret (true, upd_req (upd z) n)
  | None => Ret (false, conn_fail msg n)
  end.

Definition bad_len : bytes := ⟦"Malformed Data Length."⟧.

(** The chain of [strcmp]s on the two strings. *)
Definition parse_pair (n : conn) (key value : bytes) : outcome (bool * conn) :=
  if bytes_eqb key ⟦"Client ID"⟧ then
    match str_to_int value with
    | Some z => Ret (true, with_ctx (set_client_id z (cn_ctx n)) n)
    | None => Ret (false, conn_fail ⟦"Malformed Client ID received"⟧ n)
    end
  else if bytes_eqb key ⟦"Message Type"⟧ then
    int_field value ⟦"Malformed Msg Type received"⟧ set_msg_type n
  else if bytes_eqb key ⟦"Task"⟧ then
    r ← store_task value (req (cn_ctx n)); Ret (true, upd_req (fun _ => r) n)
  else if bytes_eqb key ⟦"Task status"⟧ then
    int_field value ⟦"Malformed Task Status"⟧ set_task_status n
  else if bytes_eqb key ⟦"Due date"⟧ then Ret (true, upd_req (set_date (strncpy 32 value)) n)
  else if bytes_eqb key ⟦"Key"⟧ then
    Ret (true, upd_req (set_hash_key (fst (strtoul 10 value))) n)
  else if bytes_eqb key ⟦"New Task"⟧ then
    r ← store_task value (req (cn_ctx n)); Ret (true, upd_req (fun _ => r) n)
  else if bytes_eqb key ⟦"New Date"⟧ then Ret (true, upd_req (set_date (strncpy 32 value)) n)
  else if bytes_eqb key ⟦"New status"⟧ then
    int_field value ⟦"Malformed Task Status"⟧ set_task_status n
  else if bytes_eqb key ⟦"Request No"⟧ then
    int_field value ⟦"Malformed Req No."⟧
      (fun z r => set_req_no (store_low32 (req_no r) z) r) n
  else if bytes_eqb key ⟦"Data Length"⟧ then
    int_field value bad_len
      (fun z r => set_payload_size (i64 (store_low32 (payload_size r) z)) r) n
  else if bytes_eqb key ⟦"REP MODE"⟧ then int_field value bad_len (fun z => upd_rm (set_rm_rep_mode z)) n
  else if bytes_eqb key ⟦"Server State"⟧ then
    int_field value bad_len (fun z => upd_rm (set_rm_server_state z)) n
  else if bytes_eqb key ⟦"Replica 1 ID"⟧ then
    int_field value bad_len (fun z => upd_rm (upd_b0 (set_bs_server_id (u32 z)))) n
  else if bytes_eqb key ⟦"Replica 1 IP"⟧ then
    let n := upd_req (upd_rm (upd_b0 (upd_info (set_server_ip (strncpy 1024 value))))) n in
    Ret (true, {| cn_ctx := cn_ctx n; cn_replies := cn_replies n; cn_config := 1 |})
  else if bytes_eqb key ⟦"Replica 1 Port"⟧ then
    int_field value bad_len (fun z => upd_rm (upd_b0 (upd_info (set_port z)))) n
  else if bytes_eqb key ⟦"Replica 2 ID"⟧ then
    int_field value bad_len (fun z => upd_rm (upd_b1 (set_bs_server_id (u32 z)))) n
  else if bytes_eqb key ⟦"Replica 2 IP"⟧ then
    Ret (true, upd_req (upd_rm (upd_b1 (upd_info (set_server_ip (strncpy 1024 value))))) n)
  else if bytes_eqb key ⟦"Replica 2 Port"⟧ then
    int_field value bad_len (fun z => upd_rm (upd_b1 (upd_info (set_port z)))) n
  else if bytes_eqb key ⟦"Checkpoint freq"⟧ then
    int_field value bad_len (fun z => upd_rm (set_rm_checkpoint_freq z)) n
  else Ret (true, n).

Definition parse_kv (n : conn) (key_buf value_buf : bytes) : outcome (bool * conn) :=
  key ← c_string key_buf;
  value ← c_string value_buf;
  parse_pair n key value.
End ParseKv.

(** * handle_connection *)

(** The payload loop: [toread] bytes still missing.  End of file before that
    leaves [toread] as it is and the loop goes on; a negative [toread] is the
    size of the [memcpy].  [mem_ok] tells whether [malloc] gave the memory: the
    test after it, [data < 0], does not. *)
Fixpoint payload_loop (mem_ok : bool) (fuel : nat) (client_fd : sock_buf_read) (toread : Z) (data : bytes)
  : outcome (bytes * sock_buf_read) :=
  match fuel with
  | O => NoFuel
  | S f =>
      '(line, fd1) ← sock_readline client_fd MAXMSGSIZE;
      let n := zlen line in
      let m := if toread <? n then toread else n in
      if (m <? 0) || (negb mem_ok && (0 <? m)) then Undef
      else
        let data := data ++ ztake m line in
        if toread - m =? 0 then Ret (data, fd1)
        else payload_loop mem_ok f fd1 (toread - m) data
  end.

Definition init_client_ctx : client_ctx_t := CLIENT_CTX_INITIALISER.

Section Connection.
Context {Q : Type} `{FifoLog Q client_ctx_t}.
Variable server_id : Z.
(** The next value of [rand()], the success of [malloc(size)] and of the
    creation of a file. *)
Variable rand : Z.
Variable malloc_bytes : Z -> bool.
Variable can_create : bytes -> bool.

Definition set_worker_prune (w : replica Q) : replica Q := set_prune 1 w.

(** The log a request goes to. *)
Definition log_type (t : Z) : log_msg_type :=
  if (t =? MSG_HEARTBEAT) || (t =? MSG_REP_MGR) || (t =? MSG_SEND_CHKPT)
  then CONTROL else NORMAL.

Definition enqueue_client_req (c : client_ctx_t) (w : replica Q) : outcome (Z * replica Q) :=
  let c := set_is_backlog ((get_mode (r_ctl w) =? PASSIVE_REP)
                           && (get_state (r_ctl w) =? PASSIVE_BACKUP)) c in
  let w := if (msg_type (req c) =? MSG_CHK_PT) && is_backlog c then set_worker_prune w else w in
  '(ret, q) ← lq_put (r_log w) c (log_type (msg_type (req c)));
  Ret (ret, set_r_log q w).

(** The payload and the temporary file it is written to. *)
Definition read_payload (fuel : nat) (fd : sock_buf_read) (c : client_ctx_t) (w : replica Q)
  : outcome (client_ctx_t * replica Q) :=
  let size := payload_size (req c) in
  if negb (size =? 0) then
    '(data, _) ← payload_loop (malloc_bytes size) fuel fd (i32 size) [];
    let name := ztake 63 (⟦"tmp-"⟧ ++ fmt_u (u32 (rand * server_id))) in
    let d := r_db w in
    let w := if can_create name
             then set_r_db (upd_files (file_counter d) (<[name := data]> (files d)) d) w else w in
    Ret (set_req (set_filename (strncpy 1024 name) (set_payload_data data (req c))) c, w)
  else Ret (c, w).

(** [_EXIT]. *)
Definition exit_connection (c : client_ctx_t) (w : replica Q) : outcome (Z * replica Q) :=
  Ret (-1, close_fd (cc_fd c) w).

(** What follows the payload: a quiesce command at once, anything else into
    the log; a recovering replica closes the client's descriptor, which stays
    in the logged context. *)
Definition dispatch_request (c : client_ctx_t) (w : replica Q) : outcome (Z * replica Q) :=
  let t := msg_type (req c) in
  if (t =? MSG_QUIESCE_STOP) || (t =? MSG_QUIESCE_START) then
    '(ret, k) ← handle_quiesce_command t (r_ctl w);
    let w := set_r_ctl k w in
    if negb (ret =? 0) then exit_connection c w
    else Ret (0, close_fd (cc_fd c) w)
  else
    '(ret, w) ← enqueue_client_req c w;
    if negb (ret =? 0) then exit_connection c w
    else if (get_mode (r_ctl w) =? ACTIVE_REP) && (get_state (r_ctl w) =? ACTIVE_RECOVER)
            && negb (t =? MSG_HEARTBEAT) && negb (t =? MSG_REP_MGR)
    then Ret (0, set_closed (closed w ++ [cc_fd c]) w)
    else Ret (0, w).

Definition handle_connection (fuel : nat) (fd : Z) (input : list rd_event) (w : replica Q)
  : outcome (Z * replica Q) :=
  let c0 := {| cn_ctx := set_cc_fd fd init_client_ctx; cn_replies := [];
               cn_config := config_done w |} in
  '(e, n, sb, _) ← read_fields (parse_kv (get_state (r_ctl w))) true (init_buf_fd input) c0;
  let c := cn_ctx n in
  let w := set_config_done (cn_config n)
             (set_sent (sent w ++ map (pair fd) (cn_replies n)) w) in
  match e with
  | FLClosed | FLRejected => exit_connection c w
  | FLTooMany => exit_connection c (reply c ⟦"FAIL"⟧ ⟦"req had more than req num of fields"⟧ w)
  | FLMalformed => exit_connection c (reply c ⟦"FAIL"⟧ ⟦"Malformed Key-Value received in input"⟧ w)
  | FLDone =>
      '(c, w) ← read_payload fuel sb c w;
      dispatch_request c w
  end.
End Connection.

(** * Execution of the logged requests *)

Section Execute.
Context {Q : Type}.
Variable malloc : nat -> option data_point.
Variable sha1 : bytes -> option bytes.
Variable fuel : nat.
Variable status_ptr : Z -> Z.
Variable pid : Z.
Variable can_create : bytes -> bool.
Variable server_id : Z.
Variable env : nat -> net_step.
Variable junk : bytes.

Definition execute_msg (c : client_ctx_t) (w : replica Q) : outcome (replica Q) :=
  w ← (if is_preprimary (r_ctl w) then
         if negb (is_backlog c) then on_ctl (set_state PASSIVE_PRIMARY) w else Ret w
       else Ret w);
  '(ret, c, d) ← handle_storage malloc sha1 fuel c (r_db w);
  let w := set_r_db d w in
  let w := if negb (ret =? 0) then reply c ⟦"FAIL"⟧ ⟦"Check inputs"⟧ w else w in
  let w := if negb (msg_type (req c) =? MSG_HEARTBEAT)
           then set_msg_count (i32 (msg_count w + 1)) w else w in
  let w := reply c ⟦"OK"⟧ ⟦"Success"⟧ w in
  Ret (close_fd (cc_fd c) w).

(** The same handler with the rows it prints, before and after the storage;
    [once]: the static flag of [print_user_req]. *)
Definition execute_msg_printed (once : Z) (c : client_ctx_t) (w : replica Q) : outcome (bytes * Z * replica Q) :=
  w ← (if is_preprimary (r_ctl w) then
         if negb (is_backlog c) then on_ctl (set_state PASSIVE_PRIMARY) w else Ret w
       else Ret w);
  '(row1, once) ← print_user_req once c ⟦"Req"⟧;
  '(ret, c, d) ← handle_storage malloc sha1 fuel c (r_db w);
  let w := set_r_db d w in
  let w := if negb (ret =? 0) then reply c ⟦"FAIL"⟧ ⟦"Check inputs"⟧ w else w in
  '(row2, once) ← print_user_req once c ⟦"Res"⟧;
  let w := if negb (msg_type (req c) =? MSG_HEARTBEAT)
           then set_msg_count (i32 (msg_count w + 1)) w else w in
  let w := reply c ⟦"OK"⟧ ⟦"Success"⟧ w in
  Ret (row1 ++ row2, once, close_fd (cc_fd c) w).

Definition execute_msg_ctrl (c : client_ctx_t) (w : replica Q) : outcome (replica Q) :=
  let t := msg_type (req c) in
  w ← (if t =? MSG_REP_MGR then on_ctl (handle_rep_msg (rep_mgr_msg (req c))) w
       else if t =? MSG_HEARTBEAT then Ret w
       else if t =? MSG_SEND_CHKPT then
         if negb (prev_state (r_ctl w) =? ACTIVE_RECOVER)
         then send_checkpoint_ondemand status_ptr pid can_create server_id env junk w
         else Ret w
       else Ret w);
  let w := reply c ⟦"OK"⟧ ⟦"Success"⟧ w in
  Ret (close_fd (cc_fd c) w).
End Execute.

(** * Lemmas: parsing a request *)

(** The effect of one field on the request, read off [parse_pair]. *)
Definition kv_step (c : client_ctx_t) (kv : bytes * bytes) : option client_ctx_t :=
  match parse_pair 0 {| cn_ctx := c; cn_replies := []; cn_config := 0 |} kv.1 kv.2 with
  | Ret (true, n) => Some (cn_ctx n)
  | _ => None
  end.

(** The context does not depend on the state, the replies or [config_done], and
    no reply is written for a field that is stored. *)
Lemma parse_pair_ctx st n k v c' : kv_step (cn_ctx n) (k, v) = Some c' ->
  exists n', parse_pair st n k v = Ret (true, n') /\ cn_ctx n' = c' /\ cn_replies n' = cn_replies n.
Proof.
  unfold kv_step, parse_pair, int_field, fst, snd.
  assert (forall (o : option Z) (f : Z -> client_request_t -> client_request_t) m,
    match (match o with
           | Some z => Ret (true, upd_req (f z) {| cn_ctx := cn_ctx n; cn_replies := []; cn_config := 0 |})
           | None => Ret (false, conn_fail 0 m {| cn_ctx := cn_ctx n; cn_replies := []; cn_config := 0 |})
           end) with Ret (true, n0) => Some (cn_ctx n0) | _ => None end = Some c' ->
    exists n', match o with Some z => Ret (true, upd_req (f z) n)
                          | None => Ret (false, conn_fail st m n) end = Ret (true, n')
               /\ cn_ctx n' = c' /\ cn_replies n' = cn_replies n)
    as Hint by (intros [z|] f m; [intros [= <-]; by eexists|done]).
  assert (forall v, match (r ← store_task v (req (cn_ctx n));
      Ret (true, upd_req (fun _ => r) {| cn_ctx := cn_ctx n; cn_replies := []; cn_config := 0 |}))
      with Ret (true, n0) => Some (cn_ctx n0) | _ => None end = Some c' ->
    exists n', (r ← store_task v (req (cn_ctx n)); Ret (true, upd_req (fun _ => r) n)) = Ret (true, n')
               /\ cn_ctx n' = c' /\ cn_replies n' = cn_replies n) as Htask
    by (intros v'; destruct (store_task v' (req (cn_ctx n))); [intros [= <-]; by eexists|done..]).
  repeat (destruct (bytes_eqb k _); [first
    [ exact (Hint _ _ _) | exact (Htask _) | intros [= <-]; by eexists
    | destruct (str_to_int v); [intros [= <-]; by eexists|done] ]|]).
  intros [= <-]. by eexists.
Qed.

Definition conn_abs (n : conn) : client_ctx_t * list bytes := (cn_ctx n, cn_replies n).
Definition conn_step (a : client_ctx_t * list bytes) (kv : bytes * bytes)
  : option (client_ctx_t * list bytes) :=
  match kv_step a.1 kv with Some c => Some (c, a.2) | None => None end.

Lemma parse_kv_implements st : parse_implements (parse_kv st) conn_abs conn_step.
Proof.
  intros n k v kj vj a' (_ & Hk & Hv & _) Hs. simpl in Hk, Hv.
  destruct (key_ok_colon k Hk) as (_ & Hk' & _).
  unfold parse_kv. rewrite (c_string_app_nul k), bind_ret_l by done.
  rewrite (c_string_app_nul v), bind_ret_l by (by apply text_ok_nul_free).
  unfold conn_step in Hs. simpl in Hs. destruct (kv_step (cn_ctx n) (k, v)) as [c'|] eqn:E; [|done].
  injection Hs as <-. destruct (parse_pair_ctx st n k v c' E) as (n' & -> & Hc & Hr).
  exists n'. split; [done|]. unfold conn_abs. by rewrite Hc, Hr.
Qed.

Lemma fold_conn_step fields : forall c r c', fold_fields kv_step c fields = Some c' ->
  fold_fields conn_step (c, r) fields = Some (c', r).
Proof.
  induction fields as [|kv fields IH]; intros c r c' H; simpl in *; [by simplify_eq|].
  unfold conn_step at 1. simpl. destruct (kv_step c kv); [by apply IH|done].
Qed.

Section ConnectionSpec.
Context {Q : Type} `{FifoLog Q client_ctx_t}.
Variables server_id rand : Z.
Variable malloc_bytes : Z -> bool.
Variable can_create : bytes -> bool.

(** A well-formed message gets through the loop, however its bytes arrive and
    whatever follows them; what follows is left for the payload. *)
Lemma handle_connection_fields fuel fd input fields rest c (w : replica Q) :
  clean input -> stream input = message fields ++ rest -> Forall field_ok fields ->
  zlen fields <= MAX_REQ_FIELDS ->
  fold_fields kv_step (set_cc_fd fd init_client_ctx) fields = Some c ->
  exists cfg sb, sb_wf sb /\ pending sb = rest
    /\ handle_connection server_id rand malloc_bytes can_create fuel fd input w
       = ('(c, w) ← read_payload server_id rand malloc_bytes can_create fuel sb c
                      (set_config_done cfg w);
          dispatch_request c w).
Proof.
  intros Hc Hs Hf Hn Hfold.
  set (c0 := {| cn_ctx := set_cc_fd fd init_client_ctx; cn_replies := [];
                cn_config := config_done w |}).
  destruct (read_fields_ok (parse_kv (get_state (r_ctl w))) true conn_abs conn_step fields
    (init_buf_fd input) c0 rest (c, [])) as (n & sb & b & E & Ha & Hw & _ & Hp).
  - apply parse_kv_implements.
  - done.
  - by apply init_buf_fd_wf.
  - done.
  - by rewrite init_buf_fd_pending.
  - by apply fold_conn_step.
  - exists (cn_config n), sb. split; [done|]. split; [done|].
    unfold handle_connection. fold c0.
    unfold conn_abs in Ha. injection Ha as Hctx Hrep. rewrite E, bind_ret_l.
    cbv beta iota zeta. rewrite Hrep, Hctx. simpl map. rewrite app_nil_r. by destruct w.
Qed.

Lemma read_payload_none fuel sb c (w : replica Q) : payload_size (req c) = 0 ->
  read_payload server_id rand malloc_bytes can_create fuel sb c w = Ret (c, w).
Proof. intros Hp. unfold read_payload. by rewrite Hp. Qed.

Lemma line_of_prefix n s : line_of n s = take (length (line_of n s)) s.
Proof.
  revert s. induction n as [|n IH]; intros [|x s]; try done. simpl.
  destruct (Ascii.eqb x LF); [done|]. simpl. by rewrite <- IH.
Qed.

Lemma line_of_length n s : (length (line_of n s) <= length s)%nat.
Proof. rewrite line_of_prefix, length_take. lia. Qed.

Lemma line_of_nonempty n s : (0 < n)%nat -> s <> [] -> (0 < length (line_of n s))%nat.
Proof. intros Hn Hs. destruct s as [|x s]; [done|]. rewrite line_of_cons by done. case_if; simpl; lia. Qed.

(** The payload is exactly the announced number of bytes, line feeds and NULs
    included. *)
Lemma payload_loop_ok fuel : forall sb toread data,
  sb_wf sb -> 0 < toread <= zlen (pending sb) -> toread <= Z.of_nat fuel ->
  exists sb', payload_loop true fuel sb toread data = Ret (data ++ ztake toread (pending sb), sb').
Proof.
  induction fuel as [|f IH]; intros sb toread data Hw Ht Hf; [lia|]. cbn [payload_loop].
  destruct (sock_readline_loop_spec (Z.to_nat MAXMSGSIZE) sb [] Hw) as (sb1 & Hr & Hw1 & Hp1).
  set (line := line_of (Z.to_nat MAXMSGSIZE) (pending sb)) in *.
  unfold sock_readline. rewrite Hr, bind_ret_l, app_nil_l. cbv beta iota zeta.
  pose proof (line_of_prefix (Z.to_nat MAXMSGSIZE) (pending sb)) as Hpre. fold line in Hpre.
  pose proof (line_of_length (Z.to_nat MAXMSGSIZE) (pending sb)) as Hle. fold line in Hle.
  assert (0 < zlen line) as Hl.
  { pose proof (line_of_nonempty (Z.to_nat MAXMSGSIZE) (pending sb)) as H'. fold line in H'.
    unfold zlen in *. assert (0 < length line)%nat; [apply H';
      [unfold MAXMSGSIZE, TASK_LENGTH, DATE_LENGTH; lia|]|lia].
    intros E. rewrite E in Ht. simpl in Ht. lia. }
  set (m := if toread <? zlen line then toread else zlen line).
  assert (m = Z.min toread (zlen line)) as Hm by (unfold m; case_if; zbool; lia).
  replace ((m <? 0) || (negb true && (0 <? m))) with false by (simpl; rewrite orb_false_r; lia).
  assert (ztake m line = ztake m (pending sb)) as Htake.
  { rewrite Hpre. unfold ztake, zlen in *. rewrite take_take. f_equal. lia. }
  rewrite Htake. destruct (toread - m =? 0) eqn:E; zbool.
  - exists sb1. replace toread with m by lia. done.
  - assert (m = zlen line) as Hml by lia. clearbody m line.
    destruct (IH sb1 (toread - m) (data ++ ztake m (pending sb)) Hw1) as (sb' & Hr').
    { rewrite Hp1. unfold zlen in *. rewrite length_drop. lia. }
    { lia. }
    exists sb'. rewrite Hr', <- app_assoc, Hp1. do 3 f_equal.
    unfold ztake, zlen in *. rewrite Hml, Nat2Z.id.
    rewrite <- (take_drop (length line) (pending sb)) at 3.
    rewrite take_app_ge by (rewrite length_take; lia). do 2 f_equal.
    rewrite length_take. lia.
Qed.

(** Once the stream is exhausted before the announced size the loop never
    ends. *)
Lemma payload_loop_eof fuel : forall sb toread data,
  sb_wf sb -> zlen (pending sb) < toread ->
  payload_loop true fuel sb toread data = NoFuel.
Proof.
  induction fuel as [|f IH]; intros sb toread data Hw Ht; [done|]. cbn [payload_loop].
  destruct (sock_readline_loop_spec (Z.to_nat MAXMSGSIZE) sb [] Hw) as (sb1 & Hr & Hw1 & Hp1).
  set (line := line_of (Z.to_nat MAXMSGSIZE) (pending sb)) in *.
  unfold sock_readline. rewrite Hr, bind_ret_l, app_nil_l. cbv beta iota zeta.
  pose proof (line_of_length (Z.to_nat MAXMSGSIZE) (pending sb)) as Hle. fold line in Hle.
  assert ((toread <? zlen line) = false) as -> by (unfold zlen in *; lia).
  pose proof (zlen_nonneg line).
  replace ((zlen line <? 0) || (negb true && (0 <? zlen line))) with false
    by (simpl; rewrite orb_false_r; lia).
  assert ((toread - zlen line =? 0) = false) as -> by (unfold zlen in *; lia).
  apply IH; [done|]. rewrite Hp1. unfold zlen in *. rewrite length_drop. lia.
Qed.
End ConnectionSpec.

(** * The request loop and the log *)

(** ** What the fields of a message say

    Each part of a request is named by one or two keys; the last field with such
    a key counts. *)
Definition last_value (names : list bytes) (fields : list (bytes * bytes)) : option bytes :=
  snd <$> last (List.filter (fun kv => existsb (bytes_eqb kv.1) names) fields).

Definition int_of (names : list bytes) (dflt : Z) (fields : list (bytes * bytes)) : Z :=
  from_option (fun v => default dflt (str_to_int v)) dflt (last_value names fields).
Definition text_of (names : list bytes) (size : Z) (fields : list (bytes * bytes)) : bytes :=
  from_option (strncpy size) (zeros size) (last_value names fields).

Definition backup_of (fd id0 : Z) (id ip prt : bytes) (fields : list (bytes * bytes)) : bsvr_ctx :=
  {| bs_fd := fd;
     bs_info := {| server_ip := text_of [ip] 1024 fields; port := int_of [prt] 0 fields |};
     bs_server_id := u32 (int_of [id] id0 fields) |}.

(** The request the fields describe. *)
Definition request_of (fields : list (bytes * bytes)) : client_request_t :=
  {| msg_type := int_of [⟦"Message Type"⟧] 0 fields;
     task := text_of [⟦"Task"⟧; ⟦"New Task"⟧] 1024 fields;
     date := text_of [⟦"Due date"⟧; ⟦"New Date"⟧] 32 fields;
     task_status := int_of [⟦"Task status"⟧; ⟦"New status"⟧] 0 fields;
     mod_flags := 0;
     task_len := from_option zlen 0 (last_value [⟦"Task"⟧; ⟦"New Task"⟧] fields);
     hash_key := from_option (fun v => fst (strtoul 10 v)) 0 (last_value [⟦"Key"⟧] fields);
     req_no := u32 (int_of [⟦"Request No"⟧] 0 fields);
     payload_data := [];
     payload_size := u32 (int_of [⟦"Data Length"⟧] 0 fields);
     filename := zeros 1024;
     rep_mgr_msg :=
       {| rm_rep_mode := int_of [⟦"REP MODE"⟧] 0 fields;
          rm_server_state := int_of [⟦"Server State"⟧] 0 fields;
          rm_checkpoint_freq := int_of [⟦"Checkpoint freq"⟧] 10 fields;
          rm_bckup_svr_0 := backup_of (-1) (-1) ⟦"Replica 1 ID"⟧ ⟦"Replica 1 IP"⟧ ⟦"Replica 1 Port"⟧ fields;
          rm_bckup_svr_1 := backup_of 0 0 ⟦"Replica 2 ID"⟧ ⟦"Replica 2 IP"⟧ ⟦"Replica 2 Port"⟧ fields |} |}.

Definition context_of (fd : Z) (fields : list (bytes * bytes)) : client_ctx_t :=
  {| cc_fd := fd; client_id := int_of [⟦"Client ID"⟧] 0 fields; is_backlog := false; req := request_of fields |}.

Definition int_keys : list bytes :=
  [⟦"Client ID"⟧; ⟦"Message Type"⟧; ⟦"Task status"⟧; ⟦"New status"⟧; ⟦"Request No"⟧; ⟦"Data Length"⟧;
   ⟦"REP MODE"⟧; ⟦"Server State"⟧; ⟦"Replica 1 ID"⟧; ⟦"Replica 1 Port"⟧; ⟦"Replica 2 ID"⟧; ⟦"Replica 2 Port"⟧;
   ⟦"Checkpoint freq"⟧].

(** A field the server accepts: a number where it expects one, a task that
    leaves room for its end. *)
Definition readable (kv : bytes * bytes) : Prop :=
  (existsb (bytes_eqb kv.1) int_keys = true -> is_Some (str_to_int kv.2))
  /\ (existsb (bytes_eqb kv.1) [⟦"Task"⟧; ⟦"New Task"⟧] = true -> zlen kv.2 < 1024).

Lemma last_value_snoc names fields k v : last_value names (fields ++ [(k, v)])
  = if existsb (bytes_eqb k) names then Some v else last_value names fields.
Proof.
  unfold last_value. rewrite List.filter_app. cbn [List.filter fst].
  destruct (existsb (bytes_eqb k) names); [by rewrite last_snoc|by rewrite app_nil_r].
Qed.

Lemma int_of_snoc names d fields k v : int_of names d (fields ++ [(k, v)])
  = if existsb (bytes_eqb k) names then default d (str_to_int v) else int_of names d fields.
Proof. unfold int_of. rewrite last_value_snoc. by case_if. Qed.

Lemma text_of_snoc names n fields k v : text_of names n (fields ++ [(k, v)])
  = if existsb (bytes_eqb k) names then strncpy n v else text_of names n fields.
Proof. unfold text_of. rewrite last_value_snoc. by case_if. Qed.

Lemma store_low32_u32 x z : store_low32 (u32 x) z = u32 z.
Proof.
  unfold store_low32. assert (Z.shiftr (u64 (u32 x)) 32 = 0) as ->; [|done].
  rewrite Z.shiftr_div_pow2 by lia. apply Z.div_small. unfold u64, u32.
  pose proof (Z.mod_pos_bound x (2 ^ 32)). rewrite Z.mod_small; lia.
Qed.

Lemma i64_u32 z : i64 (u32 z) = u32 z.
Proof. pose proof (Z.mod_pos_bound z (2 ^ 32)). unfold u32. unfold i64. int_lia. Qed.

Lemma store_task_text v r : text_ok v -> zlen v < 1024 ->
  store_task v r = Ret (set_task_len (zlen v) (set_task (strncpy 1024 v) r)).
Proof.
  intros Hv Hl. unfold store_task, strncpy. pose proof (zlen_nonneg v).
  assert (ztake 1024 v = v) as -> by (unfold ztake, zlen in *; apply take_ge; lia).
  assert (exists n, zeros (1024 - zlen v) = NUL :: n) as [n ->].
  { unfold zeros. destruct (Z.to_nat (1024 - zlen v)) eqn:E; [lia|]. by eexists. }
  by rewrite (c_string_app_nul v), bind_ret_l by by apply text_ok_nul_free.
Qed.

Ltac compute_keys := repeat match goal with
  | |- context [existsb (bytes_eqb ?a) ?b] =>
      let x := eval vm_compute in (existsb (bytes_eqb a) b) in change (existsb (bytes_eqb a) b) with x
  end; cbv iota.

(** [parse_kv] adds a field to what is described so far. *)
Lemma kv_step_context fd fields k v : field_ok (k, v) -> readable (k, v) ->
  kv_step (context_of fd fields) (k, v) = Some (context_of fd (fields ++ [(k, v)])).
Proof.
  intros (_ & _ & Hv & _) [Hint Htask]. cbn [fst snd] in *.
  unfold context_of at 2, request_of, backup_of. rewrite !int_of_snoc, !text_of_snoc, !last_value_snoc.
  unfold kv_step, parse_pair, int_field. cbn [fst snd].
  repeat match goal with
  | |- context [if bytes_eqb k ?l then _ else _] =>
      destruct (bytes_eqb_spec k l) as [->|?];
      [compute_keys;
       first [destruct Hint as [z Hz]; [by vm_compute|]; rewrite Hz
             |rewrite store_task_text by (first [done|by apply Htask; vm_compute]) | idtac];
       unfold with_ctx, upd_req, upd_rm, upd_b0, upd_b1, upd_info, set_req; cbn;
       rewrite ?store_low32_u32, ?i64_u32; reflexivity|]
  end.
  cbn [existsb]. repeat (rewrite (bytes_eqb_neq k) by done). reflexivity.
Qed.

Lemma fold_fields_snoc {A} (step : A -> bytes * bytes -> option A) fields kv : forall a,
  fold_fields step a (fields ++ [kv]) = match fold_fields step a fields with Some a => step a kv | None => None end.
Proof.
  induction fields as [|x fields IH]; intros a; cbn [app fold_fields]; [by destruct (step a kv)|].
  destruct (step a x); [apply IH|done].
Qed.

Lemma fields_described fd fields : Forall field_ok fields -> Forall readable fields ->
  fold_fields kv_step (set_cc_fd fd init_client_ctx) fields = Some (context_of fd fields).
Proof.
  induction fields as [|[k v] fields IH] using rev_ind; intros Hf Hr; [reflexivity|].
  apply Forall_app in Hf as [Hf Hkv], Hr as [Hr Hkv']. apply Forall_inv in Hkv, Hkv'.
  rewrite fold_fields_snoc, IH by done. by apply kv_step_context.
Qed.

Lemma kv_step_fd c kv c' : kv_step c kv = Some c' -> cc_fd c' = cc_fd c.
Proof.
  unfold kv_step, parse_pair, int_field, store_task. destruct kv as [k v]; unfold fst, snd.
  repeat (destruct (bytes_eqb k _); [first
    [ destruct (str_to_int v); [by intros [= <-]|done]
    | destruct (c_string (strncpy 1024 v)); [by intros [= <-]|done..]
    | by intros [= <-] ]|]).
  by intros [= <-].
Qed.

Lemma fold_kv_fd fields : forall c c', fold_fields kv_step c fields = Some c' -> cc_fd c' = cc_fd c.
Proof.
  induction fields as [|kv fields IH]; intros c c' H; simpl in H; [by simplify_eq|].
  destruct (kv_step c kv) as [c1|] eqn:E; [|done]. rewrite (IH _ _ H). by eapply kv_step_fd.
Qed.

(** Whether a request counts as backlog when it arrives. *)
Definition arrives_as_backlog (k : ctl) : bool :=
  (get_mode k =? PASSIVE_REP) && (get_state k =? PASSIVE_BACKUP).

(** Whether [handle_connection] closes the client's descriptor after logging. *)
Definition closes_early (k : ctl) (t : Z) : bool :=
  (get_mode k =? ACTIVE_REP) && (get_state k =? ACTIVE_RECOVER)
  && negb (t =? MSG_HEARTBEAT) && negb (t =? MSG_REP_MGR).

Definition is_quiesce (t : Z) : bool := (t =? MSG_QUIESCE_STOP) || (t =? MSG_QUIESCE_START).

Section LogSpec.
Context {Q : Type} `{FifoLog Q client_ctx_t}.

(** The queue a request belongs to: control messages are served by a worker of
    their own. *)
Definition queue_of (c : client_ctx_t) : log_msg_type :=
  if bool_decide (msg_type (req c) ∈ [MSG_HEARTBEAT; MSG_REP_MGR; MSG_SEND_CHKPT]) then CONTROL else NORMAL.

Lemma log_type_queue c : log_type (msg_type (req c)) = queue_of c.
Proof.
  unfold log_type, queue_of. case_bool_decide as E.
  - rewrite !elem_of_cons, elem_of_nil in E. by destruct E as [->|[->|[->|[]]]].
  - destruct (_ || _) eqn:Eb; [|done]. destruct E. rewrite !elem_of_cons.
    rewrite !orb_true_iff, !Z.eqb_eq in Eb. tauto.
Qed.

(** The log after a request that found room, and the request it holds. *)
Definition logged (k : ctl) (c : client_ctx_t) (a : log_abs client_ctx_t) : log_abs client_ctx_t :=
  let t := queue_of c in
  set_msgs t (msgs t a ++ [set_is_backlog (arrives_as_backlog k) c]) a.

Definition has_room (c : client_ctx_t) (a : log_abs client_ctx_t) : bool :=
  let t := queue_of c in zlen (msgs t a) <? limit t a.

Definition prunes (k : ctl) (c : client_ctx_t) : bool :=
  (msg_type (req c) =? MSG_CHK_PT) && arrives_as_backlog k.

Lemma enqueue_spec c (w : replica Q) a : lq_rep (r_log w) a ->
  exists q, enqueue_client_req c w
            = Ret (if has_room c a then 0 else -1,
                   set_r_log q (if prunes (r_ctl w) c then set_prune 1 w else w))
    /\ lq_rep q (if has_room c a then logged (r_ctl w) c a else a).
Proof.
  intros Hr. unfold enqueue_client_req. cbv zeta.
  change ((get_mode (r_ctl w) =? PASSIVE_REP) && (get_state (r_ctl w) =? PASSIVE_BACKUP))
    with (arrives_as_backlog (r_ctl w)).
  set (c' := set_is_backlog (arrives_as_backlog (r_ctl w)) c).
  change (msg_type (req c')) with (msg_type (req c)).
  change (is_backlog c') with (arrives_as_backlog (r_ctl w)).
  change ((msg_type (req c) =? MSG_CHK_PT) && arrives_as_backlog (r_ctl w)) with (prunes (r_ctl w) c).
  assert (r_log (if prunes (r_ctl w) c then set_worker_prune w else w) = r_log w) as ->
    by by destruct (prunes (r_ctl w) c).
  destruct (lq_put_spec (r_log w) a c' (queue_of c) Hr) as (q & E0 & Hq).
  rewrite log_type_queue, E0, bind_ret_l. exists q. unfold spec_put in *. unfold has_room, logged. fold c'.
  destruct (limit (queue_of c) a <=? zlen (msgs (queue_of c) a)) eqn:E;
    zbool; simpl in *.
  - by rewrite (proj2 (Z.ltb_ge _ _)).
  - by rewrite (proj2 (Z.ltb_lt _ _)).
Qed.

(** What the connection thread does with a request that is complete. *)
Lemma dispatch_spec c (w : replica Q) a : lq_rep (r_log w) a ->
  is_quiesce (msg_type (req c)) = false ->
  exists w', dispatch_request c w = Ret (if has_room c a then 0 else -1, w')
    /\ lq_rep (r_log w') (if has_room c a then logged (r_ctl w) c a else a)
    /\ r_ctl w' = r_ctl w /\ r_db w' = r_db w /\ sent w' = sent w
    /\ is_prune w' = (if prunes (r_ctl w) c then 1 else is_prune w)
    /\ closed w' = closed w ++ (if has_room c a
                                then if closes_early (r_ctl w) (msg_type (req c)) then [cc_fd c] else []
                                else if 0 <=? cc_fd c then [cc_fd c] else []).
Proof.
  intros Hr Hq. unfold dispatch_request. cbv zeta. fold (is_quiesce (msg_type (req c))).
  rewrite Hq. destruct (enqueue_spec c w a Hr) as (q & -> & Hrep). rewrite bind_ret_l.
  cbv beta iota. set (w1 := set_r_log q _).
  assert (r_ctl w1 = r_ctl w /\ r_db w1 = r_db w /\ sent w1 = sent w /\ closed w1 = closed w
          /\ is_prune w1 = (if prunes (r_ctl w) c then 1 else is_prune w) /\ r_log w1 = q)
    as (E1 & E2 & E3 & E4 & E5 & E6) by (unfold w1; by destruct (prunes (r_ctl w) c)).
  clearbody w1. destruct (has_room c a); cbn [negb Z.eqb].
  - rewrite E1. fold (closes_early (r_ctl w) (msg_type (req c))).
    destruct (closes_early (r_ctl w) (msg_type (req c))).
    + eexists. split; [done|]. simpl. by rewrite E1, E2, E3, E4, E5, E6.
    + eexists. split; [done|]. rewrite app_nil_r. by rewrite E1, E2, E3, E4, E5, E6.
  - unfold exit_connection, close_fd. eexists. split; [done|].
    destruct (0 <=? cc_fd c); simpl; rewrite ?app_nil_r, ?E1, ?E2, ?E3, ?E4, ?E5, ?E6; done.
Qed.
End LogSpec.

(** C16: a request reaches the log as its fields say. Whatever way the bytes of a
    message without payload are cut into reads and interrupts, and whatever
    follows them, if every number in it is one and every task leaves room for its
    end, the connection thread stores the request that [context_of] reads off the
    fields (for each part of the request the last field with its key: the task
    and its length, the date, the key, the numbers, the addresses of the
    backups; the defaults for the others) at the end of the queue for its type
    (control for heartbeats, replication manager and checkpoint commands, normal
    otherwise), marked as backlog exactly on a passive backup, and changes
    neither the mode, the table nor what was sent; when that queue is full it
    logs nothing, returns -1 and closes the connection. *)
Theorem handle_connection_logs {Q} `{FifoLog Q client_ctx_t} server_id rand mb cc fuel fd input fields
    rest (w : replica Q) a :
  let c := context_of fd fields in
  clean input -> stream input = message fields ++ rest -> Forall field_ok fields -> Forall readable fields ->
  zlen fields <= MAX_REQ_FIELDS -> 0 <= fd -> payload_size (req c) = 0 ->
  is_quiesce (msg_type (req c)) = false -> lq_rep (r_log w) a ->
  exists w', handle_connection server_id rand mb cc fuel fd input w
             = Ret (if has_room c a then 0 else -1, w')
    /\ lq_rep (r_log w') (if has_room c a then logged (r_ctl w) c a else a)
    /\ r_ctl w' = r_ctl w /\ r_db w' = r_db w /\ sent w' = sent w
    /\ closed w' = closed w ++ (if has_room c a
                                then if closes_early (r_ctl w) (msg_type (req c)) then [fd] else []
                                else [fd]).
Proof.
  intros c Hc Hs Hf Hread Hn Hfd Hp Hq Hr. pose proof (fields_described fd fields Hf Hread) as Hfold.
  destruct (handle_connection_fields server_id rand mb cc fuel fd input fields rest c w)
    as (cfg & sb & _ & _ & E); try done.
  rewrite E, read_payload_none, bind_ret_l by done. cbv beta iota.
  destruct (dispatch_spec c (set_config_done cfg w) a Hr Hq) as (w' & Hd & H1 & H2 & H3 & H4 & _ & H6).
  exists w'. split; [exact Hd|].
  do 4 (split; [done|]). rewrite H6. cbn [cc_fd c context_of]. by rewrite (proj2 (Z.leb_le 0 fd)).
Qed.

(** A message cut in the middle of a key, with an interrupt, and the zeros of the
    sender's buffer behind it. *)
Definition demo_fields : list (bytes * bytes) :=
  [(⟦"Request No"⟧, ⟦"7"⟧); (⟦"Client ID"⟧, ⟦"3"⟧); (⟦"Message Type"⟧, ⟦"1"⟧);
   (⟦"Task"⟧, ⟦"buy: milk"⟧); (⟦"Task status"⟧, ⟦"0"⟧); (⟦"Due date"⟧, ⟦"monday"⟧)].
Definition demo_input : list rd_event :=
  [Chunk (take 25 (message demo_fields)); Eintr;
   Chunk (drop 25 (message demo_fields) ++ zeros 40)].
Definition demo_ctx : client_ctx_t :=
  default CLIENT_CTX_INITIALISER
    (fold_fields kv_step (set_cc_fd 9 init_client_ctx) demo_fields).
Definition demo_log : MsgLog.log_mem (V := client_ctx_t) := MsgLog.log_mem_init 50 50.

(** [field_ok], computing. *)
Definition field_okb (kv : bytes * bytes) : bool :=
  negb (bool_decide (kv.1 = [])) && forallb key_char kv.1 && bool_decide (text_ok kv.2)
  && (zlen (field_text kv) <? MAXMSGSIZE).

Lemma field_okb_ok l : forallb field_okb l = true -> Forall field_ok l.
Proof.
  intros H. apply List.Forall_forall. intros kv Hkv. rewrite List.forallb_forall in H.
  specialize (H kv Hkv). unfold field_okb in H. zbool.
  split; [|split; [by apply forallb_Forall|split; [|done]]].
  - by apply bool_decide_eq_false in H.
  - by apply bool_decide_eq_true in H2 || apply bool_decide_eq_true in H1.
Qed.

(** [readable], computing. *)
Definition readableb (kv : bytes * bytes) : bool :=
  (negb (existsb (bytes_eqb kv.1) int_keys) || bool_decide (is_Some (str_to_int kv.2)))
  && (negb (existsb (bytes_eqb kv.1) [⟦"Task"⟧; ⟦"New Task"⟧]) || (zlen kv.2 <? 1024)).

Lemma readableb_ok l : forallb readableb l = true -> Forall readable l.
Proof.
  intros H. apply List.Forall_forall. intros kv Hkv. rewrite List.forallb_forall in H.
  specialize (H kv Hkv). unfold readableb in H. apply andb_prop in H as [H1 H2]. split; intros E.
  - rewrite E in H1. by apply bool_decide_eq_true in H1.
  - rewrite E in H2. by apply Z.ltb_lt in H2.
Qed.

Lemma handle_connection_logs_witness :
  exists w', handle_connection 0 0 (fun _ => true) (fun _ => true) 5 9 demo_input (replica_init demo_log)
             = Ret (0, w')
    /\ lq_rep (r_log w') (logged ctl_init demo_ctx (abs_init 50 50))
    /\ task_len (req demo_ctx) = 9 /\ msg_type (req demo_ctx) = MSG_ADD
    /\ date (req demo_ctx) = ⟦"monday"⟧ ++ zeros 26.
Proof.
  destruct (handle_connection_logs 0 0 (fun _ => true) (fun _ => true) 5 9 demo_input demo_fields
    (zeros 40) (replica_init demo_log) (abs_init 50 50)) as (w' & E & Hr & _).
  - by repeat (constructor; [by vm_compute|]).
  - by vm_compute.
  - apply field_okb_ok; by vm_compute.
  - apply readableb_ok; by vm_compute.
  - by vm_compute.
  - done.
  - by vm_compute.
  - by vm_compute.
  - apply MsgLog.log_rep_init.
  - assert (context_of 9 demo_fields = demo_ctx) as Hctx by (by vm_compute). rewrite Hctx in *.
    assert (has_room demo_ctx (abs_init 50 50) = true) as Hroom by (by vm_compute).
    rewrite Hroom in *. change (r_ctl (replica_init demo_log)) with ctl_init in Hr.
    exists w'. split; [exact E|]. split; [exact Hr|].
    split; [by vm_compute|].
    split; [by vm_compute|]. by vm_compute.
Defined.

(** * Payloads *)

Definition payload_name (rand server_id : Z) : bytes :=
  ztake 63 (⟦"tmp-"⟧ ++ fmt_u (u32 (rand * server_id))).

(** The context after its payload was stored under [name]. *)
Definition with_payload (name data : bytes) (c : client_ctx_t) : client_ctx_t :=
  set_req (set_filename (strncpy 1024 name) (set_payload_data data (req c))) c.

Definition store_file (name data : bytes) (d : db) : db :=
  upd_files (file_counter d) (<[name := data]> (files d)) d.

Section PayloadSpec.
Context {Q : Type} `{FifoLog Q client_ctx_t}.
Variables server_id rand : Z.
Variable malloc_bytes : Z -> bool.
Variable can_create : bytes -> bool.

Lemma read_payload_ok fuel sb c data rest (w : replica Q) :
  sb_wf sb -> pending sb = data ++ rest -> payload_size (req c) = zlen data ->
  0 < zlen data <= INT_MAX -> zlen data <= Z.of_nat fuel ->
  malloc_bytes (zlen data) = true -> can_create (payload_name rand server_id) = true ->
  read_payload server_id rand malloc_bytes can_create fuel sb c w
  = Ret (with_payload (payload_name rand server_id) data c,
         set_r_db (store_file (payload_name rand server_id) data (r_db w)) w).
Proof.
  intros Hw Hp Hs Hd Hf Hm Hc. unfold read_payload. rewrite Hs. cbv zeta.
  replace (zlen data =? 0) with false by lia. cbn [negb].
  rewrite i32_small by (unfold is_i32, INT_MIN, INT_MAX in *; lia). rewrite Hm.
  destruct (payload_loop_ok fuel sb (zlen data) [] Hw) as (sb' & ->); [|done|].
  { rewrite Hp, zlen_app. pose proof (zlen_nonneg rest). lia. }
  rewrite bind_ret_l. cbv beta iota. fold (payload_name rand server_id). rewrite Hc, app_nil_l, Hp.
  assert (ztake (zlen data) (data ++ rest) = data) as ->; [|done].
  unfold ztake, zlen. rewrite Nat2Z.id. apply take_app_length.
Qed.

Lemma read_payload_eof fuel sb c (w : replica Q) :
  sb_wf sb -> zlen (pending sb) < payload_size (req c) <= INT_MAX ->
  malloc_bytes (payload_size (req c)) = true ->
  read_payload server_id rand malloc_bytes can_create fuel sb c w = NoFuel.
Proof.
  intros Hw Hp Hm. unfold read_payload. cbv zeta. pose proof (zlen_nonneg (pending sb)).
  replace (payload_size (req c) =? 0) with false by lia. cbn [negb].
  rewrite i32_small by (unfold is_i32, INT_MIN, INT_MAX in *; lia). rewrite Hm.
  by rewrite payload_loop_eof by (done || lia).
Qed.
End PayloadSpec.

(** A checkpoint arrives whole. When a well-formed message announces a
    payload and the announced number of bytes follows (any bytes, in any
    pieces), the connection thread stores exactly these bytes in a file, logs
    the request with the name of that file, and, on a passive backup, raises the
    pruning flag of the worker. *)
Theorem handle_connection_payload {Q} `{FifoLog Q client_ctx_t} server_id rand mb cc fuel fd input
    fields data rest c (w : replica Q) a :
  clean input -> stream input = message fields ++ data ++ rest -> Forall field_ok fields ->
  zlen fields <= MAX_REQ_FIELDS ->
  fold_fields kv_step (set_cc_fd fd init_client_ctx) fields = Some c ->
  payload_size (req c) = zlen data -> 0 < zlen data <= INT_MAX -> zlen data <= Z.of_nat fuel ->
  mb (zlen data) = true -> cc (payload_name rand server_id) = true ->
  is_quiesce (msg_type (req c)) = false -> lq_rep (r_log w) a -> has_room c a = true ->
  exists w', handle_connection server_id rand mb cc fuel fd input w = Ret (0, w')
    /\ lq_rep (r_log w') (logged (r_ctl w) (with_payload (payload_name rand server_id) data c) a)
    /\ files (r_db w') = <[payload_name rand server_id := data]> (files (r_db w))
    /\ Db.data (r_db w') = Db.data (r_db w) /\ r_ctl w' = r_ctl w
    /\ is_prune w' = (if prunes (r_ctl w) c then 1 else is_prune w).
Proof.
  intros Hc Hs Hf Hn Hfold Hp Hd Hfuel Hmb Hcc Hq Hr Hroom.
  destruct (handle_connection_fields server_id rand mb cc fuel fd input fields (data ++ rest) c w)
    as (cfg & sb & Hsb & Hpend & E); try done.
  rewrite E, (read_payload_ok server_id rand mb cc fuel sb c data rest), bind_ret_l by done.
  cbv beta iota. clear E.
  set (w1 := set_r_db _ _). set (c1 := with_payload _ _ _).
  destruct (dispatch_spec c1 w1 a Hr Hq) as (w' & Hdisp & H1 & H2 & H3 & _ & H5 & _).
  assert (has_room c1 a = true) as Hroom1 by done. rewrite Hroom1 in *.
  exists w'. split; [exact Hdisp|]. split; [exact H1|]. rewrite H3. do 3 (split; [done|]). done.
Qed.

Definition chk_fields : list (bytes * bytes) :=
  [(⟦"Client ID"⟧, ⟦"1"⟧); (⟦"Request No"⟧, ⟦"0"⟧); (⟦"Message Type"⟧, ⟦"6"⟧);
   (⟦"Data Length"⟧, ⟦"9"⟧)].
Definition chk_ctx : client_ctx_t :=
  default CLIENT_CTX_INITIALISER (fold_fields kv_step (set_cc_fd 9 init_client_ctx) chk_fields).
Definition backup_ctl : ctl :=
  upd_state PASSIVE_BACKUP (upd_mode PASSIVE_REP ctl_init).

Lemma handle_connection_payload_witness :
  exists w', handle_connection 2 5 (fun _ => true) (fun _ => true) 9 9
               [Chunk (message chk_fields); Chunk ⟦"FILE"⟧; Chunk ⟦"_END"⟧; Eintr; Chunk [LF]]
               (set_r_ctl backup_ctl (replica_init demo_log)) = Ret (0, w')
    /\ files (r_db w') = {[ ⟦"tmp-10"⟧ := ⟦"FILE_END"⟧ ++ [LF] ]} /\ is_prune w' = 1.
Proof.
  destruct (handle_connection_payload 2 5 (fun _ => true) (fun _ => true) 9 9
    [Chunk (message chk_fields); Chunk ⟦"FILE"⟧; Chunk ⟦"_END"⟧; Eintr; Chunk [LF]] chk_fields
    (⟦"FILE_END"⟧ ++ [LF]) [] chk_ctx (set_r_ctl backup_ctl (replica_init demo_log)) (abs_init 50 50))
    as (w' & E & _ & Hf & _ & _ & Hprune).
  - by repeat (constructor; [by vm_compute|]).
  - by vm_compute.
  - apply field_okb_ok; by vm_compute.
  - by vm_compute.
  - by vm_compute.
  - by vm_compute.
  - by vm_compute.
  - by vm_compute.
  - done.
  - done.
  - by vm_compute.
  - apply MsgLog.log_rep_init.
  - by vm_compute.
  - exists w'. split; [exact E|]. split; [|exact Hprune]. rewrite Hf.
    assert (payload_name 5 2 = ⟦"tmp-10"⟧) as -> by reflexivity. apply insert_empty.
Defined.

(** C38: a peer that closes its connection before the announced payload is
    complete leaves the connection thread in an endless loop: end of file reads
    as a line of length zero, which the loop accepts. *)
Theorem truncated_payload_hangs {Q} `{FifoLog Q client_ctx_t} server_id rand mb cc fuel fd input
    fields rest c (w : replica Q) :
  clean input -> stream input = message fields ++ rest -> Forall field_ok fields ->
  zlen fields <= MAX_REQ_FIELDS ->
  fold_fields kv_step (set_cc_fd fd init_client_ctx) fields = Some c ->
  zlen rest < payload_size (req c) <= INT_MAX -> mb (payload_size (req c)) = true ->
  handle_connection server_id rand mb cc fuel fd input w = NoFuel.
Proof.
  intros Hc Hs Hf Hn Hfold Hp Hmb.
  destruct (handle_connection_fields server_id rand mb cc fuel fd input fields rest c w)
    as (cfg & sb & Hsb & Hpend & E); try done.
  rewrite E, read_payload_eof; [done|done|by rewrite Hpend|done].
Qed.

Lemma truncated_payload_hangs_witness :
  ~ exists fuel, handle_connection 2 5 (fun _ => true) (fun _ => true) fuel 9
    [Chunk (message chk_fields); Chunk ⟦"FILE"⟧] (replica_init demo_log) <> NoFuel.
Proof.
  intros [fuel Hn]. apply Hn.
  apply (truncated_payload_hangs 2 5 (fun _ => true) (fun _ => true) fuel 9
    [Chunk (message chk_fields); Chunk ⟦"FILE"⟧] chk_fields ⟦"FILE"⟧ chk_ctx (replica_init demo_log)).
  - by repeat (constructor; [by vm_compute|]).
  - by vm_compute.
  - apply field_okb_ok; by vm_compute.
  - by vm_compute.
  - by vm_compute.
  - by vm_compute.
  - done.
Defined.

(** * Execution *)

(** The control state after the promotion check of [execute_msg]. *)
Definition promoted (k : ctl) : ctl :=
  upd_state PASSIVE_PRIMARY (upd_thread (signal_exit_checkpt_thread k) 1 (Some 0) k).

Lemma promote_eq k : ctl_ok k -> is_preprimary k = true ->
  set_state PASSIVE_PRIMARY k = Ret (promoted k) /\ ctl_ok (promoted k).
Proof.
  intros Hok Hp. pose proof Hp as Hp'. unfold is_preprimary, get_mode, get_state in Hp. zbool.
  destruct (ok_other k Hok) as [Hr _]; [intros [_ Hx]; enum_lia|].
  assert (set_state PASSIVE_PRIMARY k = Ret (promoted k)) as E by (by rewrite set_state_passive).
  split; [done|]. eapply ctl_step_ok; [done|]. by eapply step_promote.
Qed.

Section ExecuteSpec.
Context {Q : Type}.
Variable malloc : nat -> option data_point.
Variable sha1 : bytes -> option bytes.
Variable fuel : nat.

Definition replies (c : client_ctx_t) (status msg : bytes) (st : Z) : list (Z * bytes) :=
  map (pair (cc_fd c)) (option_list (write_client_responce c status msg st)).

Lemma reply_eq c status msg (w : replica Q) :
  reply c status msg w = set_sent (sent w ++ replies c status msg (state (r_ctl w))) w.
Proof.
  unfold reply, replies. destruct (write_client_responce _ _ _ _); [done|].
  simpl. rewrite app_nil_r. by destruct w.
Qed.

(** The control state in which a request is executed. *)
Definition exec_ctl (c : client_ctx_t) (k : ctl) : ctl :=
  if is_preprimary k && negb (is_backlog c) then promoted k else k.

Lemma handle_storage_ctx c s r c' s' : handle_storage malloc sha1 fuel c s = Ret (r, c', s') ->
  msg_type (req c') = msg_type (req c) /\ cc_fd c' = cc_fd c.
Proof.
  unfold handle_storage. cbv zeta. intros H.
  repeat (destruct (_ =? _) in H); cbn [orb] in H;
    repeat match goal with
    | H : (_ ≫= _) = Ret _ |- _ => apply bind_Ret_inv in H as ([] & _ & H) || apply bind_Ret_inv in H as (? & _ & H)
    | H : (let '(_, _) := ?x in _) = Ret _ |- _ => destruct x
    end; by simplify_eq.
Qed.

Lemma execute_msg_storage c (w w' : replica Q) : execute_msg malloc sha1 fuel c w = Ret w' ->
  exists r c' d, handle_storage malloc sha1 fuel c (r_db w) = Ret (r, c', d).
Proof.
  unfold execute_msg. intros E. apply bind_Ret_inv in E as (w1 & E1 & E).
  apply bind_Ret_inv in E as ([[r c'] d] & E2 & _). exists r, c', d. rewrite <- E2. f_equal.
  case_if; [case_if|]; [|by injection E1 as <-..].
  unfold on_ctl in E1. by apply bind_Ret_inv in E1 as (k & _ & [= <-]).
Qed.

Lemma exec_ctl_ok c k : ctl_ok k -> ctl_ok (exec_ctl c k).
Proof.
  intros Hk. unfold exec_ctl. destruct (is_preprimary k) eqn:Ep; [|done].
  destruct (negb (is_backlog c)); [by apply promote_eq|done].
Qed.

(** The promotion check never stops the worker. *)
Lemma execute_promote c (w : replica Q) : ctl_ok (r_ctl w) ->
  (if is_preprimary (r_ctl w) then
     if negb (is_backlog c) then on_ctl (set_state PASSIVE_PRIMARY) w else Ret w
   else Ret w) = Ret (set_r_ctl (exec_ctl c (r_ctl w)) w).
Proof.
  intros Hok. unfold exec_ctl. destruct (is_preprimary (r_ctl w)) eqn:E; [|by destruct w].
  destruct (is_backlog c); simpl; [by destruct w|].
  unfold on_ctl. by rewrite (proj1 (promote_eq _ Hok E)).
Qed.

(** A request on which the storage does not return is one on which the worker
    does not return. *)
Lemma execute_msg_stuck c (w : replica Q) : ctl_ok (r_ctl w) ->
  execute_msg malloc sha1 fuel c w
  = match handle_storage malloc sha1 fuel c (r_db w) with
    | Ret _ => execute_msg malloc sha1 fuel c w
    | Exit => Exit | Undef => Undef | NoFuel => NoFuel
    end.
Proof.
  intros Hok. destruct (handle_storage malloc sha1 fuel c (r_db w)) eqn:E; [done|..];
    unfold execute_msg; rewrite execute_promote by done; rewrite bind_ret_l; simpl r_db; by rewrite E.
Qed.

Lemma execute_msg_eq c (w : replica Q) r c' d : ctl_ok (r_ctl w) ->
  handle_storage malloc sha1 fuel c (r_db w) = Ret (r, c', d) ->
  exists w', execute_msg malloc sha1 fuel c w = Ret w'
    /\ r_ctl w' = exec_ctl c (r_ctl w) /\ r_db w' = d /\ r_log w' = r_log w /\ is_prune w' = is_prune w
    /\ sent w' = sent w
         ++ (if r =? 0 then [] else replies c' ⟦"FAIL"⟧ ⟦"Check inputs"⟧ (state (exec_ctl c (r_ctl w))))
         ++ replies c' ⟦"OK"⟧ ⟦"Success"⟧ (state (exec_ctl c (r_ctl w)))
    /\ closed w' = closed w ++ (if 0 <=? cc_fd c then [cc_fd c] else []).
Proof.
  intros Hok Hs. unfold execute_msg.
  rewrite execute_promote by done.
  rewrite bind_ret_l. simpl r_db. rewrite Hs, bind_ret_l. cbv beta iota zeta.
  destruct (handle_storage_ctx _ _ _ _ _ Hs) as [_ Hfd].
  eexists. split; [done|]. rewrite !reply_eq. unfold close_fd. rewrite Hfd.
  destruct (r =? 0), (msg_type (req c') =? MSG_HEARTBEAT), (0 <=? cc_fd c); simpl;
    rewrite ?app_nil_r, <- ?app_assoc; done.
Qed.

(** A message of the manager, executed by the control worker. *)
Lemma ctrl_rep_msg status_ptr pid can_create server_id env junk c (w : replica Q) k :
  msg_type (req c) = MSG_REP_MGR -> handle_rep_msg (rep_mgr_msg (req c)) (r_ctl w) = Ret k ->
  execute_msg_ctrl status_ptr pid can_create server_id env junk c w
  = Ret (close_fd (cc_fd c) (reply c ⟦"OK"⟧ ⟦"Success"⟧ (set_r_ctl k w))).
Proof.
  intros Ht Hk. unfold execute_msg_ctrl, on_ctl. cbv zeta. rewrite Ht.
  change (MSG_REP_MGR =? MSG_REP_MGR) with true. cbv iota. by rewrite Hk.
Qed.
End ExecuteSpec.

(** What a request leaves of the text of a task and a date. *)
Lemma handle_storage_text {malloc sha1 fuel} c s r c' s' : handle_storage malloc sha1 fuel c s = Ret (r, c', s') ->
  task (req c') = task (req c) /\ date (req c') = date (req c).
Proof.
  unfold handle_storage. cbv zeta. intros H.
  repeat (destruct (_ =? _) in H); cbn [orb] in H;
    repeat match goal with
    | H : (_ ≫= _) = Ret _ |- _ => apply bind_Ret_inv in H as ([] & _ & H) || apply bind_Ret_inv in H as (? & _ & H)
    | H : (let '(_, _) := ?x in _) = Ret _ |- _ => destruct x
    end; by simplify_eq.
Qed.

(** The arrays of a request have their sizes and the task ends in its array. *)
Record arrays_ok (c : client_ctx_t) : Prop := {
  ar_task : zlen (task (req c)) = 1024;
  ar_date : zlen (date (req c)) = 32;
  ar_nul : has_nul (task (req c)) = true
}.

(** A row is printed, or the date is read past its end. *)
Lemma row_printed once c dir : arrays_ok c ->
  if has_nul (date (req c)) then exists out, print_user_req once c dir = Ret (out, 1) /\ out <> []
  else print_user_req once c dir = Undef.
Proof.
  intros [Ht Hd Hn].
  assert (forall once, match (if once =? 0 then print_boxed title_row "="%char else Ret []) with
    | Ret _ => True | _ => False end) as Hhead.
  { intros o. case_if; [|done]. rewrite print_boxed_ok; [done..|]. split; [by apply Z.leb_le|by apply Z.ltb_lt]. }
  specialize (Hhead once). unfold print_user_req.
  destruct (if once =? 0 then _ else _) as [head| | |]; [|done..]. rewrite bind_ret_l.
  destruct (request_row c dir) as [row| | |] eqn:Er.
  1: assert (has_nul (date (req c)) = true) as -> by (unfold request_row, c_string in Er; rewrite Hn in Er;
       rewrite bind_ret_l in Er; by destruct (has_nul (date (req c)))).
  2-4: unfold request_row, c_string in Er; rewrite Hn, bind_ret_l in Er;
       destruct (has_nul (date (req c))); [by rewrite bind_ret_l in Er|done].
  pose proof (request_row_length c dir row Er ltac:(lia) ltac:(lia)) as Hl.
  rewrite bind_ret_l, print_boxed_ok, bind_ret_l; [|by case_if|unfold CONSOLE_BUF; lia].
  eexists. split; [done|]. destruct head, row; done.
Qed.

(** With the counter of the requests. *)
Lemma execute_msg_count {Q} malloc sha1 fuel c (w w' : replica Q) r c' d : ctl_ok (r_ctl w) ->
  handle_storage malloc sha1 fuel c (r_db w) = Ret (r, c', d) -> execute_msg malloc sha1 fuel c w = Ret w' ->
  msg_count w' = if msg_type (req c) =? MSG_HEARTBEAT then msg_count w else i32 (msg_count w + 1).
Proof.
  intros Hok Hs. unfold execute_msg. rewrite execute_promote, bind_ret_l by done. simpl r_db.
  rewrite Hs, bind_ret_l. intros [= <-]. destruct (handle_storage_ctx _ _ _ _ _ _ _ _ Hs) as [-> _].
  rewrite !reply_eq. unfold close_fd. by destruct (r =? 0), (msg_type (req c) =? MSG_HEARTBEAT), (0 <=? cc_fd c').
Qed.

(** What a removal, an addition and a request that is none of the four that
    change the table make of it. *)
Definition table_after (c : client_ctx_t) (r : Z) (k' : Z) (s s' : db) : Prop :=
  db_wf s'
  /\ (msg_type (req c) = MSG_REMOVE ->
      (r = 0 <-> view s (hash_key (req c)) <> [])
      /\ view s' ≡ abs_set (hash_key (req c)) (tail (view s (hash_key (req c)))) (view s))
  /\ (msg_type (req c) = MSG_ADD ->
      if r =? 0 then exists st, view s' ≡ abs_set k' (view s k' ++ [(ztake (task_len (req c)) (task (req c)), st)]) (view s)
      else view s' ≡ view s)
  /\ (msg_type (req c) ∉ [MSG_ADD; MSG_MODIFY; MSG_REMOVE; MSG_CHK_PT] -> s' = s).

Lemma table_changed malloc sha1 fuel c s r c' s' : malloc_ok malloc -> db_wf s -> req_ok (req c) ->
  handle_storage malloc sha1 fuel c s = Ret (r, c', s') -> table_after c r (hash_key (req c')) s s'.
Proof.
  intros Hm Hw Hr E. destruct (handle_storage_wf _ _ _ _ _ _ _ _ Hm Hw Hr E) as (Hw' & _).
  split; [done|]. split; [|split].
  - intros Ht. destruct (handle_remove malloc sha1 fuel c s Hw Ht) as (s1 & E1 & _ & Hv).
    rewrite E in E1. injection E1 as -> _ ->. split; [|done]. by destruct (view s (hash_key (req c))).
  - intros Ht. unfold handle_storage in E. cbv zeta in E. rewrite Ht in E. simpl Z.eqb in E. cbv iota in E.
    apply bind_Ret_inv in E as (k & Hk & E). apply bind_Ret_inv in E as ([r1 s1] & Ei & E). injection E as <- <- <-.
    pose proof (generate_key_range _ _ _ _ _ Hk) as Hku. cbn [req set_req hash_key set_hash_key].
    destruct (insert_cases malloc Hm k (task (req c)) (task_len (req c)) s Hw Hku Hr)
      as [[_ E1]|[(_ & _ & E1)|[(_ & _ & E1)|(_ & _ & _ & g & s2 & _ & E1 & _)]]];
      rewrite E1 in Ei; try done; injection Ei as <- <-; [done|done|].
    destruct (insert_view malloc Hm _ _ _ _ _ Hw Hku Hr E1) as [_ [st Hv]]. by exists st.
  - intros Hn. unfold handle_storage in E. cbv zeta in E.
    repeat (rewrite (proj2 (Z.eqb_neq (msg_type (req c)) MSG_ADD)) in E by msg_lia).
    rewrite (proj2 (Z.eqb_neq _ MSG_MODIFY)), (proj2 (Z.eqb_neq _ MSG_REMOVE)) in E by msg_lia.
    case_if; [by apply bind_Ret_inv in E as (? & _ & [= _ _ ->])|].
    case_if; [by injection E|]. rewrite (proj2 (Z.eqb_neq _ MSG_CHK_PT)) in E by msg_lia. by injection E.
Qed.


(** Removing a task that does not exist, on a fresh table. *)
Definition remove_ctx : client_ctx_t :=
  {| cc_fd := 4; client_id := 2; is_backlog := false;
     req := set_hash_key 77 (set_msg_type MSG_REMOVE CLIENT_REQUEST_INITIALISER) |}.

