(* ===== verification/Worker.v ===== *)
(** [src/worker.c]: the two worker threads, one iteration at a time, over the
    message log as an interface. *)
From S2P Require Import Prelude CLib Iface Util Fifo Control Db Storage Replica Server.
From S2P Require MsgLog.

Section Worker.
Context {Q : Type} `{FifoLog Q client_ctx_t}.
(** [start_worker_threads] stores the two handlers; the server passes
    [execute_msg] and [execute_msg_ctrl]. *)
Variable hdl_nrl : client_ctx_t -> replica Q -> outcome (replica Q).
Variable hdl_ctrl : client_ctx_t -> replica Q -> outcome (replica Q).

Definition free_msg (c : client_ctx_t) (w : replica Q) : replica Q := close_fd (cc_fd c) w.

(** The inner loop while pruning: it ends when the log is empty, whether or
    not a checkpoint was found on the way. *)
Fixpoint prune_loop (fuel : nat) (w : replica Q) : outcome (replica Q) :=
  match fuel with
  | O => NoFuel
  | S f =>
      '(o, q) ← lq_take (r_log w) NORMAL;
      let w := set_r_log q w in
      match o with
      | None => Ret w
      | Some c =>
          if negb (msg_type (req c) =? MSG_CHK_PT) then prune_loop f (free_msg c w)
          else w ← hdl_nrl c (set_prune 0 w); prune_loop f w
      end
  end.

(** One iteration of the outer loop of [run]. *)
Definition run (fuel : nat) (prio : log_msg_type) (w : replica Q) : outcome (replica Q) :=
  let normal := bool_decide (prio = NORMAL) in
  w ← (if normal && (is_prune w =? 1) then prune_loop fuel w else Ret w);
  if (is_prune w =? 0) && should_nrl_thrd_sleep (r_ctl w) && normal then Ret w
  else
    '(n_count, q) ← (if normal then lq_count (r_log w) NORMAL else Ret (0, r_log w));
    '(c_count, q) ← (if bool_decide (prio = CONTROL) then lq_count q CONTROL else Ret (0, q));
    let w := set_r_log q w in
    w ← (if normal && is_preprimary (r_ctl w) && (n_count =? 0)
         then on_ctl (set_state PASSIVE_PRIMARY) w else Ret w);
    if (n_count =? 0) && (c_count =? 0) then Ret w
    else
      w ← (if negb (c_count =? 0) then
             '(o, q) ← lq_take (r_log w) CONTROL;
             let w := set_r_log q w in
             match o with Some c => hdl_ctrl c w | None => Ret w end
           else Ret w);
      if negb (n_count =? 0) && negb (get_state (r_ctl w) =? QUIESCE) then
        '(o, q) ← lq_take (r_log w) NORMAL;
        let w := set_r_log q w in
        match o with Some c => hdl_nrl c w | None => Ret w end
      else Ret w.
End Worker.

(** * Pruning *)

Section PruneSpec.
Context {Q : Type} `{FifoLog Q client_ctx_t}.
Variable hdl_nrl : client_ctx_t -> replica Q -> outcome (replica Q).
Variable hdl_ctrl : client_ctx_t -> replica Q -> outcome (replica Q).

(** A handler works on everything but the log. *)
Definition log_frame (h : client_ctx_t -> replica Q -> outcome (replica Q)) : Prop :=
  forall c q w, h c (set_r_log q w) = (w' ← h c w; Ret (set_r_log q w')).

(** What pruning does with the queued messages, without the queue. *)
Fixpoint prune_msgs (l : list client_ctx_t) (w : replica Q) : outcome (replica Q) :=
  match l with
  | [] => Ret w
  | c :: l =>
      if negb (msg_type (req c) =? MSG_CHK_PT) then prune_msgs l (free_msg c w)
      else w ← hdl_nrl c (set_prune 0 w); prune_msgs l w
  end.

Lemma free_msg_log c q (w : replica Q) : free_msg c (set_r_log q w) = set_r_log q (free_msg c w).
Proof. unfold free_msg, close_fd. by case_if. Qed.

Lemma prune_loop_spec l : forall fuel (w : replica Q) q a, log_frame hdl_nrl ->
  lq_rep q a -> normal_msgs a = l -> (length l < fuel)%nat ->
  exists q', lq_rep q' (set_msgs NORMAL [] a)
    /\ prune_loop hdl_nrl fuel (set_r_log q w) = (w' ← prune_msgs l w; Ret (set_r_log q' w')).
Proof.
  induction l as [|c l IH]; intros [|f] w q a Hf Hq Hl Hlen; try (simpl in Hlen; lia);
    destruct (lq_take_spec q a NORMAL Hq) as (q1 & E & Hq1); cbn [prune_loop];
    change (r_log (set_r_log q w)) with q; rewrite E, bind_ret_l; cbv beta iota zeta;
    unfold spec_take in *; simpl msgs in *; rewrite Hl in *; cbn [fst snd] in *.
  - exists q1. split; [|done]. destruct a; simpl in *. by rewrite Hl in Hq1.
  - change (set_r_log q1 (set_r_log q w)) with (set_r_log q1 w).
    assert (set_msgs NORMAL [] (set_msgs NORMAL l a) = set_msgs NORMAL [] a) as Hset by done.
    cbn [prune_msgs]. destruct (negb (msg_type (req c) =? MSG_CHK_PT)).
    + rewrite free_msg_log.
      destruct (IH f (free_msg c w) q1 (set_msgs NORMAL l a)) as (q' & Hq' & E'); try done;
        [simpl in Hlen; lia|]. exists q'. by rewrite E'.
    + change (set_prune 0 (set_r_log q1 w)) with (set_r_log q1 (set_prune 0 w)).
      rewrite Hf. destruct (hdl_nrl c (set_prune 0 w)) as [w1| | |]; cbn [mbind outcome_bind].
      2-4: destruct (IH f w q1 (set_msgs NORMAL l a)) as (q' & Hq' & _); try done;
           [simpl in Hlen; lia|by exists q'].
      destruct (IH f w1 q1 (set_msgs NORMAL l a)) as (q' & Hq' & E'); try done;
        [simpl in Hlen; lia|]. exists q'. split; [done|]. exact E'.
Qed.

Definition free_all (l : list client_ctx_t) (w : replica Q) : replica Q :=
  fold_left (fun w c => free_msg c w) l w.

Definition not_chk (c : client_ctx_t) : Prop := msg_type (req c) <> MSG_CHK_PT.

Lemma prune_msgs_free l w : Forall not_chk l -> prune_msgs l w = Ret (free_all l w).
Proof.
  intros Hl. revert w. induction Hl as [|c l Hc Hl IH]; intros w; simpl; [done|].
  unfold not_chk in Hc. rewrite (proj2 (Z.eqb_neq _ _)) by done. simpl. apply IH.
Qed.

Lemma prune_msgs_chk l1 c l2 w : Forall not_chk l1 -> msg_type (req c) = MSG_CHK_PT ->
  Forall not_chk l2 ->
  prune_msgs (l1 ++ c :: l2) w
  = (w' ← hdl_nrl c (set_prune 0 (free_all l1 w)); Ret (free_all l2 w')).
Proof.
  intros H1 Hc H2. revert w. induction H1 as [|x l1 Hx H1 IH]; intros w; simpl.
  - rewrite Hc. simpl. destruct (hdl_nrl c (set_prune 0 w)); simpl; [|done..].
    by rewrite prune_msgs_free.
  - unfold not_chk in Hx. rewrite (proj2 (Z.eqb_neq _ _)) by done. simpl. apply IH.
Qed.
End PruneSpec.

(** Handlers that do not look at the log. *)
Lemma execute_msg_frame {Q} malloc sha1 fuel :
  log_frame (execute_msg (Q := Q) malloc sha1 fuel).
Proof.
  intros c q w. unfold execute_msg, on_ctl. simpl r_ctl.
  assert (forall w0 : replica Q,
    ('(ret, c1, d) ← handle_storage malloc sha1 fuel c (r_db (set_r_log q w0));
     let w := set_r_db d (set_r_log q w0) in
     let w := if negb (ret =? 0) then reply c1 ⟦"FAIL"⟧ ⟦"Check inputs"⟧ w else w in
     let w := if negb (msg_type (req c1) =? MSG_HEARTBEAT)
              then set_msg_count (i32 (msg_count w + 1)) w else w in
     let w := reply c1 ⟦"OK"⟧ ⟦"Success"⟧ w in Ret (close_fd (cc_fd c1) w))
    = (w' ← ('(ret, c1, d) ← handle_storage malloc sha1 fuel c (r_db w0);
       let w := set_r_db d w0 in
       let w := if negb (ret =? 0) then reply c1 ⟦"FAIL"⟧ ⟦"Check inputs"⟧ w else w in
       let w := if negb (msg_type (req c1) =? MSG_HEARTBEAT)
                then set_msg_count (i32 (msg_count w + 1)) w else w in
       let w := reply c1 ⟦"OK"⟧ ⟦"Success"⟧ w in Ret (close_fd (cc_fd c1) w));
       Ret (set_r_log q w'))) as Hrest.
  { intros w0. simpl r_db. destruct (handle_storage malloc sha1 fuel c (r_db w0)) as [[[r c1] d]| | |];
      [|done..]. rewrite !bind_ret_l. cbv zeta. rewrite !reply_eq. unfold close_fd. simpl.
    destruct (r =? 0), (msg_type (req c1) =? MSG_HEARTBEAT), (0 <=? cc_fd c1); done. }
  destruct (is_preprimary (r_ctl w)); [destruct (negb (is_backlog c))|]; try apply Hrest.
  destruct (set_state PASSIVE_PRIMARY (r_ctl w)) as [k| | |]; [|done..]. simpl.
  apply (Hrest (set_r_ctl k w)).
Qed.

(** Applying a checkpoint throws away requests that came after it. When the
    worker prunes a log that holds the requests [l1], a checkpoint and then the
    requests [l2], the only request executed is the checkpoint: those before it,
    which it covers, and those after it, which it does not, are all freed
    without being executed, and the log is left empty. *)
Theorem prune_drops_later {Q} `{FifoLog Q client_ctx_t} hdl fuel (w : replica Q) a l1 c l2 :
  log_frame hdl -> lq_rep (r_log w) a -> normal_msgs a = l1 ++ c :: l2 ->
  Forall not_chk l1 -> msg_type (req c) = MSG_CHK_PT -> Forall not_chk l2 ->
  (length (normal_msgs a) < fuel)%nat ->
  exists q, lq_rep q (set_msgs NORMAL [] a)
    /\ prune_loop hdl fuel w
       = (w' ← hdl c (set_prune 0 (free_all l1 w)); Ret (set_r_log q (free_all l2 w'))).
Proof.
  intros Hf Hr Ha H1 Hc H2 Hfuel.
  destruct (prune_loop_spec hdl (normal_msgs a) fuel w (r_log w) a Hf Hr eq_refl Hfuel)
    as (q & Hq & E).
  exists q. split; [done|]. replace (set_r_log (r_log w) w) with w in E by (by destruct w).
  rewrite E, Ha, prune_msgs_chk by done. by destruct (hdl c _).
Qed.

(** A log with an addition on each side of a checkpoint. *)
Definition mixed_log : list client_ctx_t :=
  [task_request MSG_ADD 1 0 ⟦"before"⟧; task_request MSG_CHK_PT 9 0 [];
   task_request MSG_ADD 1 0 ⟦"after"⟧].
Definition put_normal (c : client_ctx_t) : lq_op client_ctx_t := Put c NORMAL.

Lemma prune_drops_later_witness :
  exists q q', lq_rep q (set_msgs NORMAL [] (spec_run (map put_normal mixed_log) (abs_init 50 50)).2)
    /\ prune_loop (execute_msg dirty_malloc demo_sha1 1) 9 (set_r_log q' (replica_init demo_log))
       = (w' ← execute_msg dirty_malloc demo_sha1 1 (task_request MSG_CHK_PT 9 0 [])
                (set_prune 0 (free_all [task_request MSG_ADD 1 0 ⟦"before"⟧]
                                (set_r_log q' (replica_init demo_log))));
          Ret (set_r_log q (free_all [task_request MSG_ADD 1 0 ⟦"after"⟧] w'))).
Proof.
  destruct (impl_run_spec (map put_normal mixed_log) demo_log (abs_init 50 50)) as (q' & _ & Hq');
    [apply MsgLog.log_rep_init|].
  destruct (prune_drops_later (execute_msg dirty_malloc demo_sha1 1) 9
    (set_r_log q' (replica_init demo_log)) (spec_run (map put_normal mixed_log) (abs_init 50 50)).2
    [task_request MSG_ADD 1 0 ⟦"before"⟧] (task_request MSG_CHK_PT 9 0 [])
    [task_request MSG_ADD 1 0 ⟦"after"⟧]) as (q & Hq & E).
  - apply execute_msg_frame.
  - exact Hq'.
  - reflexivity.
  - by constructor.
  - reflexivity.
  - by constructor.
  - change (3 < 9)%nat. lia.
  - exists q, q'. split; [exact Hq|exact E].
Defined.

(** * One iteration of a worker *)

Section RunSpec.
Context {Q : Type} `{FifoLog Q client_ctx_t}.
Variable hdl_nrl : client_ctx_t -> replica Q -> outcome (replica Q).
Variable hdl_ctrl : client_ctx_t -> replica Q -> outcome (replica Q).

Lemma zlen_zero {A} (l : list A) : (zlen l =? 0) = match l with [] => true | _ => false end.
Proof. destruct l; [done|]. unfold zlen. simpl. lia. Qed.

Lemma set_r_log_twice q q' (w : replica Q) : set_r_log q (set_r_log q' w) = set_r_log q w.
Proof. done. Qed.

(** The worker of a replica that is not a backup, outside pruning. *)
Record awake (w : replica Q) : Prop := {
  aw_ctl : ctl_ok (r_ctl w);
  aw_prune : is_prune w = 0;
  aw_sleep : should_nrl_thrd_sleep (r_ctl w) = false
}.

Lemma run_awake fuel (w : replica Q) a : lq_rep (r_log w) a -> awake w ->
  exists q, lq_rep q a /\ run hdl_nrl hdl_ctrl fuel NORMAL w
    = (w ← (if is_preprimary (r_ctl w) && (zlen (normal_msgs a) =? 0)
            then on_ctl (set_state PASSIVE_PRIMARY) (set_r_log q w) else Ret (set_r_log q w));
       if zlen (normal_msgs a) =? 0 then Ret w
       else if negb (get_state (r_ctl w) =? QUIESCE)
       then '(o, q) ← lq_take (r_log w) NORMAL;
            match o with Some c => hdl_nrl c (set_r_log q w) | None => Ret (set_r_log q w) end
       else Ret w).
Proof.
  intros Hr [_ Hp Hs]. unfold run. rewrite !bool_decide_true by done. rewrite Hp. cbn [andb Z.eqb].
  rewrite bind_ret_l, Hp, Hs. cbn [Z.eqb andb].
  destruct (lq_count_spec (r_log w) a NORMAL Hr ltac:(done)) as (q & E & Hq).
  exists q. split; [exact Hq|]. rewrite E, bind_ret_l. cbv beta iota. rewrite bool_decide_false by done.
  rewrite bind_ret_l. cbv beta iota zeta. simpl msgs. cbn [Z.eqb negb andb].
  change (r_ctl (set_r_log q w)) with (r_ctl w). rewrite andb_true_r.
  destruct (is_preprimary (r_ctl w) && (zlen (normal_msgs a) =? 0)); [|rewrite !bind_ret_l].
  - destruct (on_ctl _ _) as [w1| | |]; [|done..]. rewrite !bind_ret_l.
    by destruct (zlen (normal_msgs a) =? 0).
  - by destruct (zlen (normal_msgs a) =? 0).
Qed.

Lemma run_idle fuel (w : replica Q) a : lq_rep (r_log w) a -> awake w -> normal_msgs a = [] ->
  exists q, lq_rep q a /\ run hdl_nrl hdl_ctrl fuel NORMAL w
    = Ret (set_r_log q (if is_preprimary (r_ctl w) then set_r_ctl (promoted (r_ctl w)) w else w)).
Proof.
  intros Hr Hw Em. destruct (run_awake fuel w a Hr Hw) as (q & Hq & E). exists q. split; [done|].
  rewrite E, Em. change (zlen [] =? 0) with true. cbv iota. rewrite andb_true_r.
  destruct (is_preprimary (r_ctl w)) eqn:Ep; [|done].
  unfold on_ctl. simpl r_ctl. by rewrite (proj1 (promote_eq _ (aw_ctl w Hw) Ep)).
Qed.

Lemma run_quiesced fuel (w : replica Q) a c l : lq_rep (r_log w) a -> awake w ->
  normal_msgs a = c :: l -> get_state (r_ctl w) = QUIESCE ->
  exists q, lq_rep q a /\ run hdl_nrl hdl_ctrl fuel NORMAL w = Ret (set_r_log q w).
Proof.
  intros Hr Hw Em Hs. destruct (run_awake fuel w a Hr Hw) as (q & Hq & E). exists q. split; [done|].
  rewrite E, Em, zlen_zero. rewrite andb_false_r, bind_ret_l. simpl r_ctl. by rewrite Hs.
Qed.

Lemma run_take fuel (w : replica Q) a c l : lq_rep (r_log w) a -> awake w ->
  normal_msgs a = c :: l -> get_state (r_ctl w) <> QUIESCE ->
  exists q, lq_rep q (set_msgs NORMAL l a)
    /\ run hdl_nrl hdl_ctrl fuel NORMAL w = hdl_nrl c (set_r_log q w).
Proof.
  intros Hr Hw Em Hs. destruct (run_awake fuel w a Hr Hw) as (q & Hq & E).
  destruct (lq_take_spec q a NORMAL Hq) as (q2 & E2 & Hq2).
  unfold spec_take in *. simpl msgs in *. rewrite Em in *. exists q2. split; [done|].
  rewrite E, zlen_zero, andb_false_r, bind_ret_l. simpl r_ctl.
  rewrite (proj2 (Z.eqb_neq _ _) Hs). cbn [negb]. change (r_log (set_r_log q w)) with q.
  by rewrite E2, bind_ret_l.
Qed.

(** The control worker looks at nothing but its queue. *)
Lemma run_control fuel (w : replica Q) a c l : lq_rep (r_log w) a -> control_msgs a = c :: l ->
  exists q, lq_rep q (set_msgs CONTROL l a)
    /\ run hdl_nrl hdl_ctrl fuel CONTROL w = hdl_ctrl c (set_r_log q w).
Proof.
  intros Hr Em. unfold run. rewrite !(bool_decide_false (CONTROL = NORMAL)) by done. cbn [andb].
  rewrite bind_ret_l, andb_false_r, bind_ret_l. cbv beta iota. rewrite bool_decide_true by done.
  destruct (lq_count_spec (r_log w) a CONTROL Hr ltac:(done)) as (q & E & Hq).
  rewrite E, bind_ret_l. cbv beta iota zeta. simpl msgs. rewrite Em, zlen_zero. rewrite bind_ret_l.
  cbn [Z.eqb negb andb]. change (r_log (set_r_log q w)) with q.
  destruct (lq_take_spec q a CONTROL Hq) as (q2 & E2 & Hq2).
  unfold spec_take in *. simpl msgs in *. rewrite Em in *. exists q2. split; [done|].
  rewrite E2, bind_ret_l. cbn [fst]. rewrite set_r_log_twice. by destruct (hdl_ctrl c (set_r_log q2 w)).
Qed.
End RunSpec.

(** C35: one iteration of the normal worker outside pruning, case by case: on a
    passive backup the log is only kept; an empty log makes a pre-primary the
    primary and is otherwise left alone; in [QUIESCE] the queued requests stay;
    and in every other case the oldest request leaves the log and is executed. *)
Theorem run_normal_step {Q} `{FifoLog Q client_ctx_t} hdl_nrl hdl_ctrl fuel (w : replica Q) a :
  lq_rep (r_log w) a -> ctl_ok (r_ctl w) -> is_prune w = 0 ->
  if should_nrl_thrd_sleep (r_ctl w) then run hdl_nrl hdl_ctrl fuel NORMAL w = Ret w
  else exists q,
    match normal_msgs a with
    | [] => lq_rep q a
        /\ run hdl_nrl hdl_ctrl fuel NORMAL w
           = Ret (set_r_log q (if is_preprimary (r_ctl w)
                               then set_r_ctl (promoted (r_ctl w)) w else w))
    | c :: l =>
        if get_state (r_ctl w) =? QUIESCE
        then lq_rep q a /\ run hdl_nrl hdl_ctrl fuel NORMAL w = Ret (set_r_log q w)
        else lq_rep q (set_msgs NORMAL l a)
             /\ run hdl_nrl hdl_ctrl fuel NORMAL w = hdl_nrl c (set_r_log q w)
    end.
Proof.
  intros Hr Hok Hp. destruct (should_nrl_thrd_sleep (r_ctl w)) eqn:Hs.
  - unfold run. rewrite !bool_decide_true by done. rewrite Hp. cbn [andb Z.eqb].
    by rewrite bind_ret_l, Hp, Hs.
  - assert (awake w) as Hw by done. destruct (normal_msgs a) as [|c l] eqn:Em.
    + by apply run_idle.
    + destruct (get_state (r_ctl w) =? QUIESCE) eqn:Hq; zbool; [by eapply run_quiesced|by apply run_take].
Qed.

Lemma run_normal_step_witness :
  exists q q', lq_rep q (set_msgs NORMAL [] (abs_init 50 50))
    /\ run (execute_msg dirty_malloc demo_sha1 1) (fun _ => Ret) 9 NORMAL
         (set_r_log q' (replica_init demo_log))
       = execute_msg dirty_malloc demo_sha1 1 remove_ctx (set_r_log q (replica_init demo_log)).
Proof.
  destruct (impl_run_spec [put_normal remove_ctx] demo_log (abs_init 50 50)) as (q' & _ & Hq');
    [apply MsgLog.log_rep_init|].
  pose proof (run_normal_step (execute_msg dirty_malloc demo_sha1 1) (fun _ => Ret) 9
    (set_r_log q' (replica_init demo_log)) _ Hq' ctl_init_ok eq_refl) as (q & Hq & E).
  exists q, q'. split; [exact Hq|exact E].
Defined.
