(* ===== verification/Failover.v ===== *)
(** A backup that takes over: the iterations of the worker of [src/worker.c]
    that empty the log a backup collected, and the promotion at their end. *)
From S2P Require Import Prelude CLib Iface Util Fifo Control Db Storage Replica Server Worker.
From S2P Require MsgLog.

(** * Emptying the log *)

(** [n] iterations of the outer loop of [run]. *)
Fixpoint run_n {Q} `{FifoLog Q client_ctx_t} hn hc (fuel : nat) (prio : log_msg_type) (n : nat)
    (w : replica Q) : outcome (replica Q) :=
  match n with
  | O => Ret w
  | S n => w ← run hn hc fuel prio w; run_n hn hc fuel prio n w
  end.

(** The requests [l] one after the other. *)
Fixpoint exec_all {Q} (h : client_ctx_t -> replica Q -> outcome (replica Q)) (l : list client_ctx_t)
    (w : replica Q) : outcome (replica Q) :=
  match l with
  | [] => Ret w
  | c :: l => w ← h c w; exec_all h l w
  end.

Lemma run_n_app {Q} `{FifoLog Q client_ctx_t} hn hc fuel prio n m (w : replica Q) :
  run_n hn hc fuel prio (n + m) w = (w ← run_n hn hc fuel prio n w; run_n hn hc fuel prio m w).
Proof.
  revert w. induction n as [|n IH]; intros w; cbn [run_n plus]; [done|].
  destruct (run hn hc fuel prio w); [|done..]. rewrite !bind_ret_l. apply IH.
Qed.

Lemma exec_all_app {Q} h l1 l2 (w : replica Q) :
  exec_all h (l1 ++ l2) w = (w ← exec_all h l1 w; exec_all h l2 w).
Proof.
  revert w. induction l1 as [|c l1 IH]; intros w; cbn [exec_all app]; [done|].
  destruct (h c w); [|done..]. rewrite !bind_ret_l. apply IH.
Qed.

Section Drain.
Context {Q : Type} `{FifoLog Q client_ctx_t}.
Variables hn hc : client_ctx_t -> replica Q -> outcome (replica Q).
Variable fuel : nat.

(** The worker takes requests. *)
Definition steady (w : replica Q) : Prop := awake w /\ get_state (r_ctl w) <> QUIESCE.

Hypothesis hn_frame : log_frame hn.
Hypothesis hn_steady : forall c w w', steady w -> hn c w = Ret w' -> steady w'.

Lemma steady_log q w : steady w -> steady (set_r_log q w).
Proof. intros [[H1 H2 H3] Hs]. by split; [constructor|]. Qed.

Lemma exec_all_log l q w :
  exec_all hn l (set_r_log q w) = (w' ← exec_all hn l w; Ret (set_r_log q w')).
Proof using hn_frame.
  revert w. induction l as [|c l IH]; intros w; cbn [exec_all]; [done|].
  rewrite hn_frame. destruct (hn c w) as [w1| | |]; [|done..]. rewrite !bind_ret_l. apply IH.
Qed.

(** The first requests of the log, whatever is behind them. *)
Lemma drain_prefix l l' : forall w a, lq_rep (r_log w) a -> steady w -> normal_msgs a = l ++ l' ->
  exists q, lq_rep q (set_msgs NORMAL l' a)
    /\ run_n hn hc fuel NORMAL (length l) w = (w' ← exec_all hn l w; Ret (set_r_log q w')).
Proof using hn_frame hn_steady.
  induction l as [|c l IH]; intros w a Hr Hw Hl; cbn [run_n exec_all length].
  - exists (r_log w). rewrite bind_ret_l. split; [|by destruct w].
    destruct a. simpl in *. by rewrite <- Hl.
  - destruct (run_take hn hc fuel w a c (l ++ l') Hr (proj1 Hw) Hl (proj2 Hw)) as (q1 & Hq1 & ->).
    rewrite hn_frame. destruct (hn c w) as [w1| | |] eqn:Ew.
    2-4: destruct (IH (set_r_log q1 w) _ Hq1 (steady_log q1 w Hw) eq_refl) as (q & Hq & _); by exists q.
    rewrite !bind_ret_l.
    destruct (IH (set_r_log q1 w1) _ Hq1 (steady_log q1 w1 (hn_steady c w w1 Hw Ew)) eq_refl)
      as (q & Hq & E). exists q. split; [exact Hq|]. rewrite E, exec_all_log.
    by destruct (exec_all hn l w1).
Qed.

Lemma drain l w a : lq_rep (r_log w) a -> steady w -> normal_msgs a = l ->
  exists q, lq_rep q (set_msgs NORMAL [] a)
    /\ run_n hn hc fuel NORMAL (length l) w = (w' ← exec_all hn l w; Ret (set_r_log q w')).
Proof using hn_frame hn_steady. intros Hr Hw <-. apply drain_prefix; [done..|]. by rewrite app_nil_r. Qed.

Lemma exec_all_steady l : forall w w', steady w -> exec_all hn l w = Ret w' -> steady w'.
Proof using hn_steady.
  induction l as [|c l IH]; intros w w' Hw; cbn [exec_all]; [by intros [= <-]|].
  destruct (hn c w) as [w1| | |] eqn:E; [|done..]. rewrite bind_ret_l. intros E1.
  apply (IH w1); [by eapply hn_steady|done].
Qed.
End Drain.

(** * The requests of a backlog *)

Section Backlog.
Context {Q : Type} `{FifoLog Q client_ctx_t}.
Variable malloc : nat -> option data_point.
Hypothesis malloc_sized : malloc_ok malloc.
Hypothesis malloc_some : forall n, is_Some (malloc n).
Variable sha1 : bytes -> option bytes.
Variable sfuel : nat.

(** The requests that change the table and always return: additions whose task
    fits the hashed range, and removals. *)
Definition task_change (c : client_ctx_t) : Prop :=
  (msg_type (req c) = MSG_ADD /\ zlen (task (req c)) = TASK_LENGTH
   /\ 0 <= task_len (req c) <= TASK_LENGTH - 5)
  \/ msg_type (req c) = MSG_REMOVE.

Lemma task_change_returns c s : task_change c -> db_wf s ->
  exists r c' s', handle_storage malloc sha1 sfuel c s = Ret (r, c', s') /\ db_wf s'.
Proof using malloc_sized malloc_some.
  intros [(Ht & Hz & Hl)|Ht] Hw.
  - unfold handle_storage. cbv zeta. rewrite Ht. simpl Z.eqb. cbv iota.
    destruct (generate_key sha1 (task (req c)) (client_id c) (task_len (req c))) as [k| | |] eqn:Ek.
    2-4: unfold generate_key in Ek; case_if; [zbool; lia|by destruct (sha1 _)].
    rewrite bind_ret_l. pose proof (generate_key_range _ _ _ _ _ Ek) as Hk.
    assert (exists r s1, hash_table_insert malloc k (task (req c)) (task_len (req c)) s = Ret (r, s1))
      as (r & s1 & E).
    { destruct (insert_cases malloc malloc_sized k (task (req c)) (task_len (req c)) s Hw Hk (proj1 Hl))
        as [[_ E]|[(_ & _ & E)|[(_ & [?|?] & _)|(_ & _ & _ & g & s1 & _ & E & _)]]]; eauto;
        unfold TASK_LENGTH, MAX_DATA_LEN in *; lia. }
    pose proof (insert_wf _ _ _ _ _ _ _ malloc_sized Hw Hk (proj1 Hl) E) as [Hw1 _].
    rewrite E, bind_ret_l. by eexists _, _, s1.
  - destruct (handle_remove malloc sha1 sfuel c s Hw Ht) as (s' & E & Hw' & _). by eexists _, _, s'.
Qed.

Lemma execute_steady c (w w' : replica Q) : steady w -> execute_msg malloc sha1 sfuel c w = Ret w' ->
  steady w'.
Proof.
  intros [[Hk Hp Hs] Hq] E. destruct (execute_msg_storage _ _ _ _ _ _ E) as (r & c' & d & Ed).
  destruct (execute_msg_eq malloc sha1 sfuel c w r c' d Hk Ed) as (w2 & E2 & K & _ & _ & P & _).
  rewrite E in E2. injection E2 as <-. unfold steady.
  assert (ctl_ok (exec_ctl c (r_ctl w)) /\ should_nrl_thrd_sleep (exec_ctl c (r_ctl w)) = false
          /\ get_state (exec_ctl c (r_ctl w)) <> QUIESCE) as (H1 & H2 & H3).
  { unfold exec_ctl. destruct (is_preprimary (r_ctl w)) eqn:Ep; [|done].
    destruct (negb (is_backlog c)); [|done]. split; [by apply promote_eq|]. split; [|done].
    unfold should_nrl_thrd_sleep. by rewrite andb_false_r. }
  split; [|by rewrite K]. constructor; [by rewrite K|by rewrite P|by rewrite K].
Qed.

(** A backlog is executed without promoting the replica. *)
Lemma exec_backlog l : forall (w : replica Q), ctl_ok (r_ctl w) -> db_wf (r_db w) ->
  Forall task_change l -> Forall (fun c => is_backlog c = true) l ->
  exists w', exec_all (execute_msg malloc sha1 sfuel) l w = Ret w'
    /\ r_ctl w' = r_ctl w /\ db_wf (r_db w') /\ is_prune w' = is_prune w.
Proof using malloc_sized malloc_some.
  induction l as [|c l IH]; intros w Hk Hw Hc Hb; cbn [exec_all]; [by exists w|].
  apply Forall_cons_1 in Hc as [Hc Hl]. apply Forall_cons_1 in Hb as [Hb Hbl].
  destruct (task_change_returns c (r_db w) Hc Hw) as (r & c' & d & Ed & Hd).
  destruct (execute_msg_eq malloc sha1 sfuel c w r c' d Hk Ed) as (w1 & -> & K & D & _ & P & _).
  unfold exec_ctl in K. rewrite Hb, andb_false_r in K. rewrite bind_ret_l.
  destruct (IH w1) as (w' & E & K' & Hw' & P'); [by rewrite K|by rewrite D|done|done|].
  exists w'. split; [exact E|]. by rewrite K', K, P', P.
Qed.
End Backlog.

(** A backup that is made the primary first works off its backlog. Let a
    pre-primary hold the additions and removals [l] in its log, all logged while
    it was a backup. Then [length l] iterations of its worker execute exactly
    these requests in the order they were logged, leave the log empty and the
    replica a pre-primary with a well-formed table; the next iteration makes it
    the primary, with the checkpoint thread running. *)
Theorem failover_drains_backlog {Q} `{FifoLog Q client_ctx_t} malloc sha1 sfuel hc fuel
    (w : replica Q) a l :
  malloc_ok malloc -> (forall n, is_Some (malloc n)) -> db_wf (r_db w) ->
  ctl_ok (r_ctl w) -> is_preprimary (r_ctl w) = true -> is_prune w = 0 ->
  lq_rep (r_log w) a -> normal_msgs a = l ->
  Forall task_change l -> Forall (fun c => is_backlog c = true) l ->
  exists w' q q', exec_all (execute_msg malloc sha1 sfuel) l w = Ret w'
    /\ lq_rep q (set_msgs NORMAL [] a) /\ lq_rep q' (set_msgs NORMAL [] a)
    /\ run_n (execute_msg malloc sha1 sfuel) hc fuel NORMAL (length l) w = Ret (set_r_log q w')
    /\ is_preprimary (r_ctl w') = true /\ db_wf (r_db w') /\ is_prune w' = 0
    /\ run_n (execute_msg malloc sha1 sfuel) hc fuel NORMAL (length l + 1) w
       = Ret (set_r_log q' (set_r_ctl (promoted (r_ctl w)) w'))
    /\ state (promoted (r_ctl w)) = PASSIVE_PRIMARY /\ is_Some (chk_thread (promoted (r_ctl w))).
Proof.
  intros Hm Hs Hw Hk Hp Hprune Hr Hl Hc Hb.
  assert (steady w) as Hst.
  { unfold is_preprimary, get_mode, get_state in Hp. zbool.
    split; [constructor; [done|done|]|]; unfold should_nrl_thrd_sleep, get_mode, get_state; enum_lia. }
  destruct (exec_backlog malloc Hm Hs sha1 sfuel l w Hk Hw Hc Hb) as (w' & E & K & Hw' & P).
  destruct (drain (execute_msg malloc sha1 sfuel) hc fuel (execute_msg_frame malloc sha1 sfuel)
    (execute_steady malloc sha1 sfuel) l w a Hr Hst Hl) as (q & Hq & En).
  rewrite E, bind_ret_l in En.
  destruct (run_idle (execute_msg malloc sha1 sfuel) hc fuel (set_r_log q w') _ Hq) as (q' & Hq' & Ei).
  { destruct Hst as [[? ? ?] ?]. constructor; simpl; rewrite ?K, ?P; done. }
  { done. }
  exists w', q, q'. do 4 (split; [done|]). rewrite K. split; [done|]. split; [done|]. split; [by rewrite P|].
  split; [|done]. rewrite run_n_app, En, bind_ret_l. cbn [run_n]. rewrite Ei, bind_ret_l.
  simpl r_ctl. by rewrite K, Hp.
Qed.

(** A pre-primary whose backlog adds a task and removes it again. *)
Definition preprimary_ctl : ctl :=
  match handle_rep_msg preprimary_msg ctl_init with Ret k => k | _ => ctl_init end.
Definition demo_backlog : list client_ctx_t :=
  map (set_is_backlog true) [bread_add 3; task_request MSG_REMOVE 3 bread_key []].

Lemma failover_drains_backlog_witness :
  exists q0 w w', run_n (execute_msg dirty_malloc demo_sha1 1) (fun _ => Ret) 9 NORMAL 3
      (set_r_ctl preprimary_ctl (set_r_log q0 (replica_init demo_log))) = Ret w'
    /\ exec_all (execute_msg dirty_malloc demo_sha1 1) demo_backlog
         (set_r_ctl preprimary_ctl (set_r_log q0 (replica_init demo_log))) = Ret w
    /\ r_db w' = r_db w /\ state (r_ctl w') = PASSIVE_PRIMARY.
Proof.
  destruct (impl_run_spec (map put_normal demo_backlog) demo_log (abs_init 50 50)) as (q0 & _ & Hq0);
    [apply MsgLog.log_rep_init|].
  destruct (failover_drains_backlog dirty_malloc demo_sha1 1 (fun _ => Ret) 9
    (set_r_ctl preprimary_ctl (set_r_log q0 (replica_init demo_log)))
    (spec_run (map put_normal demo_backlog) (abs_init 50 50)).2 demo_backlog)
    as (w' & q & q' & E & _ & _ & _ & Hp & _ & _ & E2 & Hs & _).
  - apply dirty_malloc_ok.
  - intros n. by eexists.
  - apply hash_table_init_wf.
  - apply ctl_reachable_ok. eapply rtc_l; [by eapply (step_rep_msg preprimary_msg)|apply rtc_refl].
  - by vm_compute.
  - done.
  - exact Hq0.
  - by vm_compute.
  - constructor; [left; split; [done|split; [by vm_compute|by vm_compute]]|].
    constructor; [by right|constructor].
  - by repeat constructor.
  - eexists q0, w', _. split; [exact E2|]. split; [exact E|]. split; [done|exact Hs].
Defined.
