(* ===== verification/Agreement.v ===== *)
(** Active replication: what two replicas that log the same requests have in
    common, and what they do not. *)
From S2P Require Import Prelude CLib Iface Util Fifo Control Db Storage Replica Server Worker Failover.
From S2P Require MsgLog.

(** * Tables that hold the same tasks

    The status of a task is left out: the insertion does not store it. *)
Definition node_same (d d' : data_point) : Prop :=
  key d = key d' /\ data_len d = data_len d'
  /\ ztake (data_len d) (raw_data d) = ztake (data_len d') (raw_data d').

Definition tbl_same (s s' : db) : Prop := Forall2 (Forall2 node_same) (data s) (data s').

#[export] Instance node_same_refl : Reflexive node_same.
Proof. by intros d. Qed.
#[export] Instance tbl_same_refl : Reflexive tbl_same.
Proof. intros s. unfold tbl_same. reflexivity. Qed.

Lemma bucket_same h s s' : tbl_same s s' -> Forall2 node_same (bucket h s) (bucket h s').
Proof.
  intros Hs. unfold bucket.
  pose proof (proj1 (Forall2_lookup (Forall2 node_same) (data s) (data s')) Hs (Z.to_nat h)) as Hl.
  destruct Hl; simpl; [done|constructor].
Qed.

Lemma set_bucket_same h l l' n n' s s' : tbl_same s s' -> Forall2 node_same l l' ->
  tbl_same (upd_table (set_bucket h l s) n s) (upd_table (set_bucket h l' s') n' s').
Proof. intros Hs Hl. unfold tbl_same. simpl. by apply Forall2_insert. Qed.

(** What a client can see of the tasks under a key. *)
Lemma view_same k s s' : tbl_same s s' -> map fst (view s k) = map fst (view s' k).
Proof.
  intros Hs. unfold view, with_key. pose proof (bucket_same (hash_func k) s s' Hs) as Hb.
  induction Hb as [|d d' l l' (H1 & H2 & H3) Hb IH]; [done|].
  rewrite !filter_cons, <- H1. case_decide; [|done]. cbn [map fst node_entry]. by rewrite H3, IH.
Qed.

Lemma delete_loop_same k l l' : Forall2 node_same l l' ->
  match delete_loop k l, delete_loop k l' with
  | Some (_, r), Some (_, r') => Forall2 node_same r r'
  | None, None => True
  | _, _ => False
  end.
Proof.
  intros Hl. induction Hl as [|d d' l l' Hd Hl IH]; cbn [delete_loop]; [done|].
  destruct Hd as (Hk & Hd). rewrite <- Hk. case_if; [done|].
  destruct (delete_loop k l) as [[]|], (delete_loop k l') as [[]|]; try done. by constructor.
Qed.

Lemma delete_same k s s' : tbl_same s s' ->
  (hash_table_delete k s).1 = (hash_table_delete k s').1
  /\ tbl_same (hash_table_delete k s).2 (hash_table_delete k s').2.
Proof.
  intros Hs. unfold hash_table_delete.
  pose proof (delete_loop_same k _ _ (bucket_same (hash_func k) s s' Hs)) as Hd.
  destruct (delete_loop _ _) as [[]|], (delete_loop _ _) as [[]|]; try done.
  split; [done|]. by apply set_bucket_same.
Qed.

Lemma search_loop_same k l l' fuel : Forall2 node_same l l' ->
  outcome_rel (option_Forall2 node_same) (search_loop fuel l k) (search_loop fuel l' k).
Proof.
  intros Hl. induction fuel as [|f IH]; cbn [search_loop]; [done|].
  destruct Hl as [|d d' l l' Hd Hl]; [constructor|]. pose proof Hd as (Hk & _). rewrite <- Hk.
  case_if; [by constructor|exact IH].
Qed.

(** Results with the same number and the same table. *)
Definition same_result {A} (x y : A * db) : Prop := x.1 = y.1 /\ tbl_same x.2 y.2.

Lemma modify_same fuel k st s s' : tbl_same s s' ->
  outcome_rel same_result (hash_table_modify fuel k st s) (hash_table_modify fuel k st s').
Proof.
  intros Hs. unfold hash_table_modify, search_list.
  pose proof (bucket_same (hash_func k) s s' Hs) as Hb.
  eapply outcome_rel_bind; [by apply search_loop_same|].
  intros o o' [d d' (H1 & H2 & H3)|]; [|done]. split; [done|]. apply set_bucket_same; [done|].
  constructor; [done|]. destruct Hb; [constructor|done].
Qed.

(** * Two replicas, each with its own memory *)

Section Agree.
Variables malloc malloc' : nat -> option data_point.
Hypothesis sized : malloc_ok malloc.
Hypothesis sized' : malloc_ok malloc'.
Hypothesis some : forall n, is_Some (malloc n).
Hypothesis some' : forall n, is_Some (malloc' n).
Variable sha1 : bytes -> option bytes.
Variable sfuel : nat.

Lemma insert_same k src len s s' : 0 <= len -> tbl_same s s' ->
  outcome_rel same_result (hash_table_insert malloc k src len s) (hash_table_insert malloc' k src len s').
Proof using sized sized' some some'.
  intros Hl Hs. unfold hash_table_insert. case_if; [done|]. cbn [allocs upd_allocs pred].
  destruct (some (allocs s)) as [g Eg], (some' (allocs s')) as [g' Eg']. rewrite Eg, Eg'.
  destruct ((MAX_DATA_LEN <? len) || (zlen src <? len)) eqn:El; [done|]. zbool.
  split; [done|]. unfold insert_data_point. cbn [snd]. rewrite !append_node_snoc.
  apply set_bucket_same; [exact Hs|]. apply Forall2_app.
  - apply (bucket_same _ s s' Hs).
  - constructor; [|constructor]. split; [done|]. split; [done|]. simpl.
    by rewrite !ztake_overwrite_ztake by lia.
Qed.

(** The same request, possibly over another connection. *)
Definition same_req (c c' : client_ctx_t) : Prop := client_id c = client_id c' /\ req c = req c'.

(** Every request but a listing, a checkpoint and a heartbeat. *)
Definition table_request (c : client_ctx_t) : Prop :=
  req_ok (req c) /\ msg_type (req c) ∉ [MSG_GET_ALL; MSG_CHK_PT; MSG_HEARTBEAT].

Definition same_handled (x y : Z * client_ctx_t * db) : Prop :=
  x.1.1 = y.1.1 /\ same_req x.1.2 y.1.2 /\ tbl_same x.2 y.2.

Lemma storage_same c c' s s' : same_req c c' -> table_request c -> tbl_same s s' ->
  outcome_rel same_handled (handle_storage malloc sha1 sfuel c s) (handle_storage malloc' sha1 sfuel c' s').
Proof using sized sized' some some'.
  intros [Hi Hr] [Hok Ht] Hs. unfold handle_storage. cbv zeta. rewrite <- Hi, <- Hr.
  destruct (msg_type (req c) =? MSG_ADD).
  { eapply (outcome_rel_bind eq); [by destruct (generate_key _ _ _ _)|]. intros k _ <-.
    eapply outcome_rel_bind; [by apply insert_same|]. intros [r s1] [r' s1'] [Hrr Hss].
    simpl in Hrr. subst r'. split; [done|]. split; [|done]. split; [done|]. simpl. by rewrite Hr. }
  destruct (msg_type (req c) =? MSG_MODIFY).
  { eapply outcome_rel_bind; [by apply modify_same|]. intros [r s1] [r' s1'] [_ Hss]. done. }
  destruct (msg_type (req c) =? MSG_REMOVE).
  { destruct (delete_same (hash_key (req c)) s s' Hs) as [H1 H2].
    destruct (hash_table_delete _ s), (hash_table_delete _ s'). simpl in H1. by subst. }
  rewrite (proj2 (Z.eqb_neq _ MSG_GET_ALL)) by set_solver.
  case_if; [done|]. by rewrite (proj2 (Z.eqb_neq _ MSG_CHK_PT)) by set_solver.
Qed.

(** ** Executing requests *)

Context {Q : Type}.

(** From two replicas on: the same tasks, and the same texts written to the
    clients. *)
Definition agreed (w w' w1 w1' : replica Q) : Prop :=
  tbl_same (r_db w1) (r_db w1') /\ ctl_ok (r_ctl w1) /\ ctl_ok (r_ctl w1')
  /\ exists r r', sent w1 = sent w ++ r /\ sent w1' = sent w' ++ r' /\ map snd r = map snd r'.

Lemma agreed_trans w w' w1 w1' w2 w2' : agreed w w' w1 w1' -> agreed w1 w1' w2 w2' -> agreed w w' w2 w2'.
Proof.
  intros (_ & _ & _ & r & r' & E & E' & Er) (Ht & Hk & Hk' & s & s' & F & F' & Es).
  do 3 (split; [done|]). exists (r ++ s), (r' ++ s').
  by rewrite F, F', E, E', !map_app, Er, Es, !app_assoc.
Qed.

Lemma replies_same c c' status msg st st' : same_req c c' -> msg_type (req c) <> MSG_HEARTBEAT ->
  map snd (replies c status msg st) = map snd (replies c' status msg st').
Proof.
  intros [Hi Hr] Ht. unfold replies.
  assert (write_client_responce c status msg st = write_client_responce c' status msg st') as ->.
  { unfold write_client_responce, response_text, header. rewrite <- Hi, <- Hr.
    by rewrite (proj2 (Z.eqb_neq _ MSG_HEARTBEAT)). }
  by destruct (write_client_responce c' status msg st').
Qed.

Lemma execute_same c c' (w w' : replica Q) : same_req c c' -> table_request c ->
  tbl_same (r_db w) (r_db w') -> ctl_ok (r_ctl w) -> ctl_ok (r_ctl w') ->
  outcome_rel (agreed w w') (execute_msg malloc sha1 sfuel c w) (execute_msg malloc' sha1 sfuel c' w').
Proof using sized sized' some some'.
  intros Hc Ht Hs Hk Hk'. pose proof (storage_same c c' _ _ Hc Ht Hs) as Hh.
  destruct (handle_storage malloc sha1 sfuel c (r_db w)) as [[[r c1] d]| | |] eqn:E,
    (handle_storage malloc' sha1 sfuel c' (r_db w')) as [[[r' c1'] d']| | |] eqn:E'; try done.
  { destruct Hh as (Hrr & Hcc & Hdd). cbn [fst snd] in *. subst r'.
    destruct (execute_msg_eq malloc sha1 sfuel c w r c1 d Hk E) as (w1 & -> & K & D & _ & _ & S & _).
    destruct (execute_msg_eq malloc' sha1 sfuel c' w' r c1' d' Hk' E') as (w1' & -> & K' & D' & _ & _ & S' & _).
    pose proof (handle_storage_ctx _ _ _ _ _ _ _ _ E) as [Hty _].
    assert (msg_type (req c1) <> MSG_HEARTBEAT) as Hnh by (rewrite Hty; destruct Ht as [_ Ht]; set_solver).
    split; [by rewrite D, D'|]. split; [by rewrite K; apply exec_ctl_ok|].
    split; [by rewrite K'; apply exec_ctl_ok|]. eexists _, _. split; [exact S|]. split; [exact S'|].
    rewrite !map_app. f_equal; [case_if; [done|]|]; by apply replies_same. }
  all: by rewrite (execute_msg_stuck malloc sha1 sfuel c w Hk), E, (execute_msg_stuck malloc' sha1 sfuel c' w' Hk'), E'.
Qed.

Lemma exec_all_same l l' : Forall2 same_req l l' -> Forall table_request l -> forall w w' : replica Q,
  tbl_same (r_db w) (r_db w') -> ctl_ok (r_ctl w) -> ctl_ok (r_ctl w') ->
  outcome_rel (agreed w w') (exec_all (execute_msg malloc sha1 sfuel) l w)
    (exec_all (execute_msg malloc' sha1 sfuel) l' w').
Proof using sized sized' some some'.
  intros Hl. induction Hl as [|c c' l l' Hc Hl IH]; intros Ht w w' Hs Hk Hk'; cbn [exec_all].
  - do 3 (split; [done|]). exists [], []. by rewrite !app_nil_r.
  - apply Forall_cons_1 in Ht as [Hct Ht].
    eapply outcome_rel_bind; [by apply execute_same|]. intros w1 w1' H1.
    pose proof H1 as (Hs1 & Hk1 & Hk1' & _).
    eapply outcome_rel_impl; [by apply IH|]. intros w2 w2' H2. by eapply agreed_trans.
Qed.
End Agree.

(** ** An addition and a removal *)

Section Changes.
Context {Q : Type}.
Variable malloc : nat -> option data_point.
Hypothesis sized : malloc_ok malloc.
Variable sha1 : bytes -> option bytes.
Variable sfuel : nat.

Lemma execute_add c (w : replica Q) k : steady w -> db_wf (r_db w) -> add_ok malloc sha1 c (r_db w) k ->
  exists w1 st, execute_msg malloc sha1 sfuel c w = Ret w1 /\ steady w1 /\ db_wf (r_db w1)
    /\ view (r_db w1) ≡ abs_set k (view (r_db w) k ++ [(ztake (task_len (req c)) (task (req c)), st)])
                                 (view (r_db w)).
Proof using sized.
  intros Hw Hd Ha. destruct (handle_add malloc sha1 sfuel c (r_db w) k sized Hd Ha)
    as (s1 & st & E & Hd1 & _ & V).
  destruct (execute_msg_eq malloc sha1 sfuel c w _ _ _ (aw_ctl w (proj1 Hw)) E)
    as (w1 & E1 & _ & D & _). exists w1, st. rewrite D.
  split; [exact E1|]. split; [|done]. by eapply execute_steady.
Qed.

Lemma execute_remove c (w : replica Q) : steady w -> db_wf (r_db w) -> msg_type (req c) = MSG_REMOVE ->
  exists w1, execute_msg malloc sha1 sfuel c w = Ret w1 /\ steady w1 /\ db_wf (r_db w1)
    /\ view (r_db w1) ≡ abs_set (hash_key (req c)) (tail (view (r_db w) (hash_key (req c)))) (view (r_db w)).
Proof.
  intros Hw Hd Ht. destruct (handle_remove malloc sha1 sfuel c (r_db w) Hd Ht) as (s1 & E & Hd1 & V).
  destruct (execute_msg_eq malloc sha1 sfuel c w _ _ _ (aw_ctl w (proj1 Hw)) E)
    as (w1 & E1 & _ & D & _). exists w1. rewrite D.
  split; [exact E1|]. split; [|done]. by eapply execute_steady.
Qed.

(** In the order of the clients' intent, and in the other. *)
Lemma add_remove c c2 (w : replica Q) k : steady w -> db_wf (r_db w) ->
  add_ok malloc sha1 c (r_db w) k -> view (r_db w) k = [] ->
  msg_type (req c2) = MSG_REMOVE -> hash_key (req c2) = k ->
  exists w1, exec_all (execute_msg malloc sha1 sfuel) [c; c2] w = Ret w1 /\ view (r_db w1) k = [].
Proof using sized.
  intros Hw Hd Ha Hv Ht Hk. destruct (execute_add c w k Hw Hd Ha) as (w1 & st & E1 & Hw1 & Hd1 & V1).
  destruct (execute_remove c2 w1 Hw1 Hd1 Ht) as (w2 & E2 & _ & _ & V2).
  exists w2. cbn [exec_all]. rewrite E1, bind_ret_l, E2, bind_ret_l. split; [done|].
  by rewrite (V2 k), Hk, abs_set_at, (V1 k), abs_set_at, Hv.
Qed.

Lemma remove_add c c2 (w : replica Q) k : (forall n, is_Some (malloc n)) -> steady w -> db_wf (r_db w) ->
  add_ok malloc sha1 c (r_db w) k -> view (r_db w) k = [] ->
  msg_type (req c2) = MSG_REMOVE -> hash_key (req c2) = k ->
  exists w1, exec_all (execute_msg malloc sha1 sfuel) [c2; c] w = Ret w1
    /\ map fst (view (r_db w1) k) = [ztake (task_len (req c)) (task (req c))].
Proof using sized.
  intros Hs Hw Hd Ha Hv Ht Hk. destruct (execute_remove c2 w Hw Hd Ht) as (w1 & E1 & Hw1 & Hd1 & V1).
  assert (add_ok malloc sha1 c (r_db w1) k) as Ha1 by (destruct Ha; by constructor).
  destruct (execute_add c w1 k Hw1 Hd1 Ha1) as (w2 & st & E2 & _ & _ & V2).
  exists w2. cbn [exec_all]. rewrite E1, bind_ret_l, E2, bind_ret_l. split; [done|].
  by rewrite (V2 k), abs_set_at, (V1 k), Hk, abs_set_at, Hv.
Qed.
End Changes.

(** * Properties *)

(** C19: strong consistency of the replicas, given the order. Let two replicas
    that are not backups and not quiesced, with memory of their own, hold the
    same tasks and have the same requests in their logs, whatever connections
    these came over. When both work off their logs, they end alike: both
    return, or both are stuck in the same way; and if they return they hold the
    same tasks again and have written the same answers to their clients. *)
Theorem replicas_agree {Q} `{FifoLog Q client_ctx_t} malloc malloc' sha1 sfuel hc hc' fuel
    (w w' : replica Q) a a' :
  malloc_ok malloc -> malloc_ok malloc' -> (forall n, is_Some (malloc n)) -> (forall n, is_Some (malloc' n)) ->
  lq_rep (r_log w) a -> lq_rep (r_log w') a' -> steady w -> steady w' ->
  tbl_same (r_db w) (r_db w') ->
  Forall2 same_req (normal_msgs a) (normal_msgs a') -> Forall table_request (normal_msgs a) ->
  outcome_rel (agreed w w')
    (run_n (execute_msg malloc sha1 sfuel) hc fuel NORMAL (length (normal_msgs a)) w)
    (run_n (execute_msg malloc' sha1 sfuel) hc' fuel NORMAL (length (normal_msgs a')) w').
Proof.
  intros Hm Hm' Hs Hs' Hr Hr' Hw Hw' Ht Hl Hreq.
  destruct (drain (execute_msg malloc sha1 sfuel) hc fuel (execute_msg_frame malloc sha1 sfuel)
    (execute_steady malloc sha1 sfuel) _ w a Hr Hw eq_refl) as (q & _ & ->).
  destruct (drain (execute_msg malloc' sha1 sfuel) hc' fuel (execute_msg_frame malloc' sha1 sfuel)
    (execute_steady malloc' sha1 sfuel) _ w' a' Hr' Hw' eq_refl) as (q' & _ & ->).
  eapply outcome_rel_bind; [|intros w1 w1' H1; exact H1].
  apply exec_all_same; try done; [apply Hw|apply Hw'].
Qed.

(** The tables of two replicas, by their clients' requests and their memory. *)
Definition zero_malloc (n : nat) : option data_point :=
  Some {| key := 0; raw_data := zeros MAX_DATA_LEN; data_len := 0; dp_status := 0 |}.

Definition demo_requests : list client_ctx_t :=
  [bread_add 3; task_request MSG_REMOVE 3 bread_key []; bread_add 4].

Definition active_replica (q : MsgLog.log_mem (V := client_ctx_t)) : replica MsgLog.log_mem :=
  set_r_ctl (active_ctl ACTIVE_RUNNING 0) (set_r_log q (replica_init demo_log)).

Lemma active_steady q : steady (active_replica q).
Proof. split; [constructor; [apply active_ctl_ok; [by right; left|by left]|done|done]|done]. Qed.

Lemma zero_malloc_ok : malloc_ok zero_malloc.
Proof. intros n d [= <-]. by vm_compute. Qed.

Lemma replicas_agree_witness :
  exists q, outcome_rel (agreed (active_replica q) (active_replica q))
    (run_n (execute_msg dirty_malloc demo_sha1 1) (fun _ => Ret) 9 NORMAL 3 (active_replica q))
    (run_n (execute_msg zero_malloc demo_sha1 1) (fun _ => Ret) 9 NORMAL 3 (active_replica q)).
Proof.
  destruct (impl_run_spec (map put_normal demo_requests) demo_log (abs_init 50 50)) as (q & _ & Hq);
    [apply MsgLog.log_rep_init|].
  exists q. apply (replicas_agree dirty_malloc zero_malloc demo_sha1 1 (fun _ => Ret) (fun _ => Ret) 9
    (active_replica q) (active_replica q) (spec_run (map put_normal demo_requests) (abs_init 50 50)).2
    (spec_run (map put_normal demo_requests) (abs_init 50 50)).2 dirty_malloc_ok zero_malloc_ok); [| |exact Hq|exact Hq|..].
  - intros n. by eexists.
  - intros n. by eexists.
  - apply active_steady.
  - apply active_steady.
  - reflexivity.
  - by repeat constructor.
  - apply (bool_decide_eq_true_1 _). by vm_compute.
Defined.

(** C39: the order is not given. Two replicas with the same table whose logs hold
    the same addition and removal, in opposite orders (as two clients' requests
    can arrive), end with different tables: one without the task, one with it.
    Nothing in the program orders the requests of different clients. *)
Theorem orders_diverge {Q} `{FifoLog Q client_ctx_t} malloc sha1 sfuel hc fuel (w w' : replica Q) a a' c c2 k :
  malloc_ok malloc -> (forall n, is_Some (malloc n)) -> db_wf (r_db w) -> r_db w' = r_db w ->
  steady w -> steady w' -> lq_rep (r_log w) a -> lq_rep (r_log w') a' ->
  normal_msgs a = [c; c2] -> normal_msgs a' = [c2; c] ->
  add_ok malloc sha1 c (r_db w) k -> view (r_db w) k = [] ->
  msg_type (req c2) = MSG_REMOVE -> hash_key (req c2) = k ->
  exists w1 w1', run_n (execute_msg malloc sha1 sfuel) hc fuel NORMAL 2 w = Ret w1
    /\ run_n (execute_msg malloc sha1 sfuel) hc fuel NORMAL 2 w' = Ret w1'
    /\ view (r_db w1) k = []
    /\ map fst (view (r_db w1') k) = [ztake (task_len (req c)) (task (req c))]
    /\ ~ tbl_same (r_db w1) (r_db w1').
Proof.
  intros Hm Hsome Hd Ed Hw Hw' Hr Hr' Hl Hl' Ha Hv Ht Hk.
  destruct (drain (execute_msg malloc sha1 sfuel) hc fuel (execute_msg_frame malloc sha1 sfuel)
    (execute_steady malloc sha1 sfuel) _ w a Hr Hw Hl) as (q & _ & E).
  destruct (drain (execute_msg malloc sha1 sfuel) hc fuel (execute_msg_frame malloc sha1 sfuel)
    (execute_steady malloc sha1 sfuel) _ w' a' Hr' Hw' Hl') as (q' & _ & E').
  destruct (add_remove malloc Hm sha1 sfuel c c2 w k Hw Hd Ha Hv Ht Hk) as (w1 & E1 & V1).
  rewrite <- Ed in Hd, Ha, Hv.
  destruct (remove_add malloc Hm sha1 sfuel c c2 w' k Hsome Hw' Hd Ha Hv Ht Hk) as (w1' & E1' & V1').
  rewrite E1, bind_ret_l in E. rewrite E1', bind_ret_l in E'.
  eexists _, _. split; [exact E|]. split; [exact E'|]. simpl r_db.
  split; [exact V1|]. split; [exact V1'|]. intros Hsame. apply (view_same k) in Hsame.
  simpl r_db in Hsame. rewrite V1, V1' in Hsame. done.
Qed.

Definition bread_remove : client_ctx_t := task_request MSG_REMOVE 4 bread_key [].

Lemma orders_diverge_witness :
  exists q q' w1 w1',
    run_n (execute_msg dirty_malloc demo_sha1 1) (fun _ => Ret) 9 NORMAL 2 (active_replica q) = Ret w1
    /\ run_n (execute_msg dirty_malloc demo_sha1 1) (fun _ => Ret) 9 NORMAL 2 (active_replica q') = Ret w1'
    /\ ~ tbl_same (r_db w1) (r_db w1').
Proof.
  destruct (impl_run_spec (map put_normal [bread_add 3; bread_remove]) demo_log (abs_init 50 50))
    as (q & _ & Hq); [apply MsgLog.log_rep_init|].
  destruct (impl_run_spec (map put_normal [bread_remove; bread_add 3]) demo_log (abs_init 50 50))
    as (q' & _ & Hq'); [apply MsgLog.log_rep_init|].
  destruct (orders_diverge dirty_malloc demo_sha1 1 (fun _ => Ret) 9 (active_replica q) (active_replica q')
    (spec_run (map put_normal [bread_add 3; bread_remove]) (abs_init 50 50)).2
    (spec_run (map put_normal [bread_remove; bread_add 3]) (abs_init 50 50)).2
    (bread_add 3) bread_remove bread_key dirty_malloc_ok)
    as (w1 & w1' & E & E' & _ & _ & Hn).
  - intros n. by eexists.
  - apply hash_table_init_wf.
  - done.
  - apply active_steady.
  - apply active_steady.
  - exact Hq.
  - exact Hq'.
  - done.
  - done.
  - apply bread_add_ok.
  - by vm_compute.
  - done.
  - done.
  - exists q, q', w1, w1'. split; [exact E|]. split; [exact E'|exact Hn].
Defined.
