(* ===== verification/Client.v ===== *)
(** [src/client.c]: the interactive client — its input, the requests it writes,
    the sending to all replicas and the collection of their replies, and the
    configuration file. *)
From S2P Require Import Prelude CLib Iface Util Request.

(** * Requests as text *)

Section Builders.
Variable request_no_g : Z.

Definition create_add_message_to_server (m : message_add) (client_id : Z) : outcome bytes :=
  t ← c_string (ma_task m);
  d ← c_string (ma_task_date m);
  Ret (⟦"Request No: "⟧ ++ fmt_d request_no_g ++ CRLF
       ++ ⟦"Client ID: "⟧ ++ fmt_d client_id ++ CRLF
       ++ ⟦"Message Type: "⟧ ++ fmt_d MSG_ADD ++ CRLF
       ++ ⟦"Task: "⟧ ++ t ++ CRLF
       ++ ⟦"Task status: "⟧ ++ fmt_d (ma_task_status m) ++ CRLF
       ++ ⟦"Due date: "⟧ ++ d ++ CRLF ++ CRLF).

Definition create_remove_message_to_server (m : message_remove) (client_id : Z) : outcome bytes :=
  t ← c_string (mr_task m);
  Ret (⟦"Request No: "⟧ ++ fmt_d request_no_g ++ CRLF
       ++ ⟦"Client ID: "⟧ ++ fmt_d client_id ++ CRLF
       ++ ⟦"Message Type: "⟧ ++ fmt_d MSG_REMOVE ++ CRLF
       ++ ⟦"Key: "⟧ ++ t ++ CRLF ++ CRLF).

Definition create_modify_message_to_server (m : message_modify) (client_id : Z) : outcome bytes :=
  t ← c_string (mm_task m);
  n ← c_string (mm_new_task m);
  d ← c_string (mm_new_date m);
  Ret (⟦"Request No: "⟧ ++ fmt_d request_no_g ++ CRLF
       ++ ⟦"Client ID: "⟧ ++ fmt_d client_id ++ CRLF
       ++ ⟦"Message Type: "⟧ ++ fmt_d MSG_MODIFY ++ CRLF
       ++ ⟦"Flags: "⟧ ++ fmt_d (mm_mod_flags m) ++ CRLF
       ++ ⟦"Key: "⟧ ++ t ++ CRLF
       ++ ⟦"New Task: "⟧ ++ n ++ CRLF
       ++ ⟦"New Date: "⟧ ++ d ++ CRLF
       ++ ⟦"New status: "⟧ ++ fmt_d (mm_new_task_status m) ++ CRLF ++ CRLF).
End Builders.

(** * Input *)

(** [scanf("%8191[^\n]%*c", dst)] on the bytes of standard input: an empty line
    matches nothing, stores nothing and consumes nothing. *)
Definition scan_line (dst stdin : bytes) : outcome (bytes * bytes) :=
  match scan_not (Some 8191) [LF] stdin with
  | ([], _) => Ret (dst, stdin)
  | (v, rest) => if zlen dst <=? zlen v then Undef
                 else Ret (overwrite (v ++ [NUL]) dst, tail rest)
  end.

Definition get_inputs_for_message_add (m : message_add) (stdin : bytes)
  : outcome (message_add * bytes) :=
  '(t, stdin) ← scan_line (ma_task m) stdin;
  '(d, stdin) ← scan_line (ma_task_date m) stdin;
  Ret ({| ma_task := t; ma_task_date := d; ma_task_status := TASK_NOT_DONE |}, stdin).

Definition get_inputs_for_message_remove (m : message_remove) (stdin : bytes)
  : outcome (message_remove * bytes) :=
  '(t, stdin) ← scan_line (mr_task m) stdin;
  Ret ({| mr_task := t; mr_req_no := mr_req_no m |}, stdin).

Definition get_inputs_for_message_modify (m : message_modify) (stdin : bytes)
  : outcome (message_modify * bytes) :=
  '(t, stdin) ← scan_line (mm_task m) stdin;
  '(n, stdin) ← scan_line (mm_new_task m) stdin;
  let flags := if starts_with ⟦"NA"⟧ n then mm_mod_flags m
               else Z.lor (mm_mod_flags m) MOD_FLAGS_TASK_STRING_MODIFIED in
  '(d, stdin) ← scan_line (mm_new_date m) stdin;
  let flags := if starts_with ⟦"NA"⟧ d then flags
               else Z.lor flags MOD_FLAGS_DATE_MODIFIED in
  '(temp, stdin) ← scan_line (zeros MAX_LENGTH) stdin;
  let '(flags, st) :=
    if starts_with ⟦"NA"⟧ temp then (flags, mm_new_task_status m)
    else (Z.lor flags MOD_FLAGS_STATUS_MODIFIED,
          if starts_with ⟦"DONE"⟧ temp then TASK_DONE
          else if starts_with ⟦"NOT_DONE"⟧ temp then TASK_NOT_DONE
          else mm_new_task_status m) in
  Ret ({| mm_task := t; mm_new_task := n; mm_new_date := d; mm_new_task_status := st;
          mm_mod_flags := flags |}, stdin).

Definition validate_input_from_user (choice : Z) : Z :=
  if (1 <=? choice) && (choice <=? 4) then 0 else -1.

(** * Sending a request and collecting the replies *)

Record pollfd := { pfd_fd : Z; pfd_events : bool (* POLLIN requested *) }.

(** The client's side of an exchange: the poll set, the counters and the
    descriptors closed so far. *)
Record exchange := {
  pfds : list pollfd;
  num_open_fds : Z;
  success : bool;
  response : message_response;
  response_no_g : Z;
  ex_closed : list Z
}.

Section Exchange.
Variable client_id : Z.
(** Per server: the result of [connect_to_server] and of the [write]. *)
Variable servers : list net_step.
(** What a descriptor delivers, and the descriptors with data at each call of
    [poll]. *)
Variable resp : Z -> list rd_event.
Variable ready : nat -> Z -> bool.
(** Bound on the lines of a reply. *)
Variable lines : nat.

(** The sending loop: the poll set has one entry per server, indexed by the
    server, while [nfds] counts the successful ones. *)
Fixpoint send_loop (l : list net_step) (closed : list Z) : list pollfd * Z * list Z :=
  match l with
  | [] => ([], 0, closed)
  | e :: l =>
      let fd := connect_to_server e SERVER_INFO_INITIALISER in
      if fd <? 0 then
        let '(p, n, c) := send_loop l closed in
        ({| pfd_fd := 0; pfd_events := false |} :: p, n, c)
      else if write_ret e <? 0 then
        let '(p, n, c) := send_loop l (closed ++ [fd]) in
        ({| pfd_fd := 0; pfd_events := false |} :: p, n, c)
      else
        let '(p, n, c) := send_loop l closed in
        ({| pfd_fd := fd; pfd_events := true |} :: p, n + 1, c)
  end.

(** [poll] reports POLLIN on an open descriptor it was asked about. *)
Definition has_data (round : nat) (p : pollfd) (x : exchange) : bool :=
  (0 <=? pfd_fd p) && pfd_events p && ready round (pfd_fd p)
  && negb (bool_decide (pfd_fd p ∈ ex_closed x)).

Definition set_fd (j : nat) (fd : Z) (l : list pollfd) : list pollfd :=
  alter (fun p => {| pfd_fd := fd; pfd_events := pfd_events p |}) j l.

(** The body of the inner loop for one entry. *)
Definition poll_entry (round j : nat) (x : exchange) : outcome exchange :=
  p ← deref (pfds x !! j);
  if has_data round p x then
    '(status, r) ← get_response_from_server lines (resp (pfd_fd p)) (response x);
    let closed := ex_closed x ++ [pfd_fd p] in
    if status <? 0 then
      Ret {| pfds := pfds x; num_open_fds := num_open_fds x; success := success x;
             response := r; response_no_g := response_no_g x; ex_closed := closed |}
    else
      let ps := set_fd j (-1) (pfds x) in
      let open := num_open_fds x - 1 in
      if resp_req_no r =? response_no_g x then
        Ret {| pfds := ps; num_open_fds := open; success := success x; response := r;
               response_no_g := response_no_g x; ex_closed := closed |}
      else
        Ret {| pfds := ps; num_open_fds := open;
               success := if parse_response_from_server r client_id <? 0 then success x else true;
               response := r; response_no_g := response_no_g x + 1; ex_closed := closed |}
  else Ret x.

Fixpoint poll_entries (round : nat) (js : list nat) (x : exchange) : outcome exchange :=
  match js with
  | [] => Ret x
  | j :: js => x ← poll_entry round j x; poll_entries round js x
  end.

(** After a success every entry below [nfds] that is not -1 is closed. *)
Definition close_entry (x : exchange) (j : nat) : exchange :=
  match pfds x !! j with
  | Some p =>
      if pfd_fd p =? -1 then x
      else {| pfds := set_fd j (-1) (pfds x); num_open_fds := num_open_fds x - 1;
              success := success x; response := response x;
              response_no_g := response_no_g x; ex_closed := ex_closed x ++ [pfd_fd p] |}
  | None => x
  end.

Fixpoint poll_loop (fuel : nat) (round nfds : nat) (x : exchange) : outcome exchange :=
  match fuel with
  | O => NoFuel
  | S f =>
      if 0 <? num_open_fds x then
        x ← poll_entries round (seq 0 nfds) x;
        let x := if success x then fold_left close_entry (seq 0 nfds) x else x in
        poll_loop f (S round) nfds x
      else Ret x
  end.

Definition send_and_get_response (fuel : nat) (r : message_response) (resp_no : Z)
  : outcome (Z * exchange) :=
  let '(ps, nfds, closed) := send_loop servers [] in
  x ← poll_loop fuel O (Z.to_nat nfds)
    {| pfds := ps; num_open_fds := nfds; success := false; response := r;
       response_no_g := resp_no; ex_closed := closed |};
  Ret (if success x then 0 else -1, x).
End Exchange.

(** * The handlers of the menu *)

Definition ma_zero : message_add :=
  {| ma_task := zeros TASK_LENGTH; ma_task_date := zeros DATE_LENGTH; ma_task_status := 0 |}.
Definition mr_zero : message_remove := {| mr_task := zeros TASK_LENGTH; mr_req_no := 0 |}.

(** [memset(&message, 0, sizeof(struct message_remove))] on a modify message:
    the key and four bytes of the new task; the rest is what was on the stack. *)
Definition mm_partly_zero (junk : message_modify) : message_modify :=
  {| mm_task := zeros TASK_LENGTH; mm_new_task := overwrite (zeros 4) (mm_new_task junk);
     mm_new_date := mm_new_date junk; mm_new_task_status := mm_new_task_status junk;
     mm_mod_flags := mm_mod_flags junk |}.

Definition response_zero : message_response :=
  {| resp_hash_key := 0; resp_client_id := 0; resp_status := []; resp_req_no := 0; resp_state := 0 |}.

Section Handlers.
Variable client_id : Z.
(** Sends the buffer and waits: [send_and_get_response]. *)
Variable send : bytes -> message_response -> outcome (Z * exchange).

Definition handle_new_task (request_no_g : Z) (stdin : bytes)
  : outcome (Z * exchange * Z * bytes) :=
  '(m, stdin) ← get_inputs_for_message_add ma_zero stdin;
  let request_no_g := i32 (request_no_g + 1) in
  text ← create_add_message_to_server request_no_g m client_id;
  buf ← sprintf_zero text;
  '(status, x) ← send buf response_zero;
  Ret (status, x, request_no_g, stdin).

Definition handle_remove_task (request_no_g : Z) (stdin : bytes)
  : outcome (Z * exchange * Z * bytes) :=
  let request_no_g := i32 (request_no_g + 1) in
  '(m, stdin) ← get_inputs_for_message_remove mr_zero stdin;
  text ← create_remove_message_to_server request_no_g m client_id;
  buf ← sprintf_zero text;
  '(status, x) ← send buf response_zero;
  Ret (status, x, request_no_g, stdin).

Definition handle_mod_task (junk : message_modify) (request_no_g : Z) (stdin : bytes)
  : outcome (Z * exchange * Z * bytes) :=
  let request_no_g := i32 (request_no_g + 1) in
  '(m, stdin) ← get_inputs_for_message_modify (mm_partly_zero junk) stdin;
  text ← create_modify_message_to_server request_no_g m client_id;
  buf ← sprintf_zero text;
  '(status, x) ← send buf response_zero;
  Ret (status, x, request_no_g, stdin).
End Handlers.

(** * The configuration file *)

Record config_locals := {
  cf_i : Z;
  cf_temp : bytes;
  cf_count : Z;
  cf_servers : list server_info
}.

Definition upd_server (i : Z) (f : server_info -> server_info) (l : list server_info)
  : outcome (list server_info) :=
  if (0 <=? i) && (i <? zlen l) then Ret (alter f (Z.to_nat i) l) else Undef.

(** The loop body on a line of the file. *)
Definition config_line (line : bytes) (v : config_locals) : outcome config_locals :=
  if starts_with ⟦"###"⟧ line then
    Ret {| cf_i := 0; cf_temp := cf_temp v; cf_count := cf_count v; cf_servers := cf_servers v |}
  else if starts_with ⟦"##"⟧ line then
    Ret {| cf_i := cf_i v + 1; cf_temp := []; cf_count := cf_i v + 1; cf_servers := cf_servers v |}
  else
    v ← (if starts_with ⟦"Server"⟧ line then
           let t := match sscanf (lit ⟦"Server: "⟧ ++ [DStr]) line with
                    | VStr t :: _ => t | _ => cf_temp v end in
           s ← upd_server (cf_i v) (fun s => set_server_ip (overwrite t (server_ip s)) s) (cf_servers v);
           Ret {| cf_i := cf_i v; cf_temp := t; cf_count := cf_count v; cf_servers := s |}
         else Ret v);
    if starts_with ⟦"Port"⟧ line then
      let t := match sscanf (lit ⟦"Port: "⟧ ++ [DStr]) line with
               | VStr t :: _ => t | _ => cf_temp v end in
      s ← upd_server (cf_i v) (set_port (atoi t)) (cf_servers v);
      Ret {| cf_i := cf_i v; cf_temp := t; cf_count := cf_count v; cf_servers := s |}
    else Ret v.

Fixpoint config_loop (fuel : nat) (content : bytes) (v : config_locals) : outcome config_locals :=
  match fuel with
  | O => NoFuel
  | S f =>
      match line_of 1023 content with
      | [] => Ret v
      | raw => v ← config_line (cstr raw) v; config_loop f (drop (length raw) content) v
      end
  end.

(** [None]: the file cannot be opened, and [fgets] is called all the same.
    [count] and [servers]: the global before the call. *)
Definition parse_and_prepare_server_array (file : option bytes) (count : Z) (servers : list server_info)
  : outcome (Z * list server_info) :=
  content ← deref file;
  v ← config_loop (S (length content)) content
    {| cf_i := 0; cf_temp := []; cf_count := count; cf_servers := servers |};
  Ret (cf_count v, cf_servers v).

(** * Lemmas: the exchange *)

Section ExchangeSpec.
Variable client_id : Z.
Variable resp : Z -> list rd_event.
Variable ready : nat -> Z -> bool.
Variable lines : nat.

Definition open_pfd (fd : Z) : pollfd := {| pfd_fd := fd; pfd_events := true |}.
Definition shut_pfd : pollfd := {| pfd_fd := -1; pfd_events := true |}.

Lemma poll_entry_idle round j x p : pfds x !! j = Some p -> has_data ready round p x = false ->
  poll_entry client_id resp ready lines round j x = Ret x.
Proof. intros Hp Hd. unfold poll_entry. rewrite Hp. cbn [deref]. by rewrite bind_ret_l, Hd. Qed.

Lemma poll_entries_idle round js : forall x,
  (forall j, j ∈ js -> exists p, pfds x !! j = Some p /\ has_data ready round p x = false) ->
  poll_entries client_id resp ready lines round js x = Ret x.
Proof.
  induction js as [|j js IH]; intros x H; [done|]. cbn [poll_entries].
  destruct (H j) as (p & Hp & Hd); [by left|]. rewrite (poll_entry_idle _ _ _ p), bind_ret_l by done.
  apply IH. intros j' Hj'. apply H. by right.
Qed.

(** A server that answers with the request number [n]. *)
Definition answers (n fd : Z) : Prop := 0 <= fd /\ forall r, exists r',
  get_response_from_server lines (resp fd) r = Ret (0, r')
  /\ resp_req_no r' = n /\ parse_response_from_server r' client_id = 0.

(** What one pass over the poll set does with the entries that have data. *)
Record polled (n : Z) (round : nat) (fd : nat -> Z) (js : list nat) (x x' : exchange) : Prop := {
  po_at : forall j, j ∈ js -> pfds x' !! j = Some (if ready round (fd j) then shut_pfd else open_pfd (fd j));
  po_other : forall j, j ∉ js -> pfds x' !! j = pfds x !! j;
  po_len : length (pfds x') = length (pfds x);
  po_open : num_open_fds x' = num_open_fds x - zlen (List.filter (fun j => ready round (fd j)) js);
  po_closed : ex_closed x' = ex_closed x ++ map fd (List.filter (fun j => ready round (fd j)) js);
  po_no : response_no_g x' = (if existsb (fun j => ready round (fd j)) js then n else response_no_g x);
  po_success : success x' = success x || (existsb (fun j => ready round (fd j)) js
                                          && negb (response_no_g x =? n))
}.

Lemma poll_entry_answer n round j x fd : pfds x !! j = Some (open_pfd fd) -> answers n fd ->
  ready round fd = true -> fd ∉ ex_closed x -> response_no_g x = n \/ response_no_g x = n - 1 ->
  exists x', poll_entry client_id resp ready lines round j x = Ret x'
    /\ pfds x' = set_fd j (-1) (pfds x) /\ num_open_fds x' = num_open_fds x - 1
    /\ ex_closed x' = ex_closed x ++ [fd] /\ response_no_g x' = n
    /\ success x' = success x || negb (response_no_g x =? n).
Proof.
  intros Hp [Hfd Ha] Hr Hc Hn. unfold poll_entry. rewrite Hp. cbn [deref]. rewrite bind_ret_l.
  unfold has_data. cbn [pfd_fd pfd_events open_pfd]. rewrite (proj2 (Z.leb_le 0 fd) Hfd), Hr.
  rewrite (bool_decide_eq_false_2 _ Hc). cbn [andb negb].
  destruct (Ha (response x)) as (r' & -> & Hq & Hv). rewrite bind_ret_l. cbn [Z.ltb Z.compare].
  rewrite Hq, Hv, (Z.eqb_sym n). destruct (response_no_g x =? n) eqn:E; zbool.
  - eexists. split; [done|]. cbn. rewrite orb_false_r. done.
  - eexists. split; [done|]. cbn. rewrite orb_true_r.
    split; [done|split; [done|split; [done|split; [lia|done]]]].
Qed.

Lemma lookup_set_fd j (l : list pollfd) fd i :
  set_fd j fd l !! i = if decide (i = j) then (fun p => {| pfd_fd := fd; pfd_events := pfd_events p |}) <$> l !! i
                       else l !! i.
Proof.
  unfold set_fd. rewrite list_lookup_alter. destruct (decide (j = i)) as [->|Hne];
    [by rewrite decide_True|by rewrite decide_False by (intros ->; done)].
Qed.

Lemma poll_entries_spec n round fd js : forall x, NoDup js ->
  (forall j, j ∈ js -> pfds x !! j = Some (open_pfd (fd j)) /\ (ready round (fd j) = true -> answers n (fd j))) ->
  (forall i j, i ∈ js -> j ∈ js -> fd i = fd j -> i = j) ->
  (forall j, j ∈ js -> fd j ∉ ex_closed x) ->
  response_no_g x = n \/ response_no_g x = n - 1 ->
  exists x', poll_entries client_id resp ready lines round js x = Ret x' /\ polled n round fd js x x'.
Proof.
  induction js as [|j js IH]; intros x Hnd Hat Hinj Hcl Hn.
  { exists x. split; [done|]. split; try done; cbn; rewrite ?app_nil_r, ?orb_false_r; try done.
    - intros j Hj. by apply elem_of_nil in Hj. - unfold zlen. cbn. lia. }
  apply NoDup_cons in Hnd as [Hj Hnd]. cbn [poll_entries].
  destruct (Hat j) as [Hp Ha]; [by left|].
  destruct (ready round (fd j)) eqn:Er.
  - destruct (poll_entry_answer n round j x (fd j)) as (x1 & -> & H1 & H2 & H3 & H4 & H5); try done;
      [by apply Ha|by apply Hcl; left|]. rewrite bind_ret_l.
    destruct (IH x1) as (x' & -> & [Q1 Q2 Q3 Q4 Q5 Q6 Q7]); [done|..].
    + intros i Hi. destruct (Hat i) as [Hpi Hai]; [by right|]. split; [|done].
      rewrite H1, lookup_set_fd, decide_False; [done|]. by intros ->.
    + intros i k Hi Hk. apply Hinj; by right.
    + intros i Hi. rewrite H3, not_elem_of_app, list_elem_of_singleton. split; [apply Hcl; by right|].
      intros E. apply Hj. rewrite <- (Hinj i j); [done|by right|by left|done].
    + by left.
    + exists x'. split; [done|]. split.
      * intros i Hi. apply elem_of_cons in Hi as [->|Hi]; [|by apply Q1].
        rewrite Q2 by done. rewrite H1, lookup_set_fd, decide_True, Hp, Er by done. done.
      * intros i Hi. rewrite Q2 by (intros ?; apply Hi; by right).
        rewrite H1, lookup_set_fd, decide_False; [done|]. intros ->. apply Hi. by left.
      * rewrite Q3, H1. apply length_alter.
      * rewrite Q4, H2. cbn [List.filter]. rewrite Er, zlen_cons. lia.
      * rewrite Q5, H3. cbn [List.filter]. rewrite Er, <- app_assoc. done.
      * rewrite Q6, H4. cbn [existsb]. rewrite Er. by destruct (existsb _ js).
      * rewrite Q7, H4, H5, Z.eqb_refl. cbn [existsb]. rewrite Er. cbn [negb orb andb].
        by rewrite andb_false_r, orb_false_r.
  - rewrite (poll_entry_idle _ _ _ _ Hp), bind_ret_l
      by (unfold has_data; cbn [pfd_fd open_pfd pfd_events]; by rewrite Er, andb_false_r).
    destruct (IH x) as (x' & -> & [Q1 Q2 Q3 Q4 Q5 Q6 Q7]); try done.
    + intros i Hi. apply Hat. by right.
    + intros i k Hi Hk. apply Hinj; by right.
    + intros i Hi. apply Hcl. by right.
    + exists x'. split; [done|]. split; try done; cbn [List.filter existsb]; rewrite ?Er; try done.
      * intros i Hi. apply elem_of_cons in Hi as [->|Hi]; [|by apply Q1]. by rewrite Q2, Er.
      * intros i Hi. apply Q2. intros ?. apply Hi. by right.
Qed.

(** Closing the entries that are still open after a success. *)
Lemma close_entries_spec (h : nat -> bool) fd js : forall x, NoDup js ->
  (forall j, j ∈ js -> pfds x !! j = Some (if h j then shut_pfd else open_pfd (fd j)) /\ 0 <= fd j) ->
  let x' := fold_left close_entry js x in
  num_open_fds x' = num_open_fds x - zlen (List.filter (fun j => negb (h j)) js)
  /\ ex_closed x' = ex_closed x ++ map fd (List.filter (fun j => negb (h j)) js)
  /\ success x' = success x /\ response_no_g x' = response_no_g x /\ response x' = response x.
Proof.
  induction js as [|j js IH]; intros x Hnd Hat; cbn zeta.
  { cbn. rewrite app_nil_r. unfold zlen. cbn. by rewrite Z.sub_0_r. }
  apply NoDup_cons in Hnd as [Hj Hnd]. cbn [fold_left List.filter].
  destruct (Hat j) as [Hp Hfd]; [by left|]. destruct (h j) eqn:Eh; cbn [negb].
  - assert (close_entry x j = x) as -> by (unfold close_entry; by rewrite Hp).
    apply IH; [done|]. intros i Hi. apply Hat. by right.
  - set (x1 := close_entry x j).
    assert (pfds x1 = set_fd j (-1) (pfds x) /\ num_open_fds x1 = num_open_fds x - 1
      /\ ex_closed x1 = ex_closed x ++ [fd j] /\ success x1 = success x
      /\ response_no_g x1 = response_no_g x /\ response x1 = response x) as (E1 & E2 & E3 & E4 & E5 & E6).
    { unfold x1, close_entry. rewrite Hp. cbn [open_pfd pfd_fd].
      by rewrite (proj2 (Z.eqb_neq (fd j) (-1))) by lia. }
    clearbody x1. destruct (IH x1) as (I1 & I2 & I3 & I4 & I5); [done| |].
    + intros i Hi. destruct (Hat i) as [Hpi Hfi]; [by right|]. split; [|done].
      rewrite E1, lookup_set_fd, decide_False; [done|]. by intros ->.
    + rewrite I1, I2, I3, I4, I5, E2, E3, E4, E5, E6. cbn [map]. rewrite zlen_cons, <- app_assoc.
      split; [lia|done].
Qed.

Lemma poll_loop_wait k : forall f round nfds x, 0 < num_open_fds x -> success x = false ->
  (forall i, (round <= i < round + k)%nat -> forall j, j ∈ seq 0 nfds ->
     exists p, pfds x !! j = Some p /\ has_data ready i p x = false) ->
  poll_loop client_id resp ready lines (k + f) round nfds x
  = poll_loop client_id resp ready lines f (round + k) nfds x.
Proof.
  induction k as [|k IH]; intros f round nfds x Ho Hs Hr; [by rewrite Nat.add_0_r|].
  cbn [Nat.add poll_loop]. rewrite (proj2 (Z.ltb_lt _ _) Ho).
  rewrite poll_entries_idle by (apply Hr; lia). rewrite bind_ret_l. cbv zeta. rewrite Hs.
  rewrite IH; [by replace (S round + k)%nat with (round + S k)%nat by lia|done|done|].
  intros i Hi. apply Hr. lia.
Qed.
End ExchangeSpec.

(** What [send_loop] sets up when the servers take the request, but for some at
    the end of the list that refuse the connection. *)
Definition reachable (e : net_step) : Prop := connect_ret e = 0 /\ 0 <= socket_ret e /\ 0 <= write_ret e.
Definition refuses (e : net_step) : Prop := connect_ret e <> 0.
Definition unused_pfd : pollfd := {| pfd_fd := 0; pfd_events := false |}.

Lemma send_loop_down l closed : Forall refuses l -> send_loop l closed = (map (fun _ => unused_pfd) l, 0, closed).
Proof.
  intros Hl. induction Hl as [|e l He _ IH]; [done|]. cbn [send_loop map]. unfold connect_to_server.
  rewrite (proj2 (Z.eqb_neq _ _) He). cbn [negb Z.ltb Z.compare]. by rewrite IH.
Qed.

Lemma send_loop_up l down closed : Forall reachable l -> Forall refuses down ->
  send_loop (l ++ down) closed
  = (map (fun e => open_pfd (socket_ret e)) l ++ map (fun _ => unused_pfd) down, zlen l, closed).
Proof.
  intros Hl Hd. induction Hl as [|e l (Hc & Hs & Hw) _ IH]; [by apply send_loop_down|].
  cbn [app send_loop]. unfold connect_to_server. rewrite Hc. cbn [Z.eqb negb].
  by rewrite (proj2 (Z.ltb_ge _ _) Hs), (proj2 (Z.ltb_ge _ _) Hw), IH, zlen_cons.
Qed.

Lemma send_loop_all l closed : Forall reachable l ->
  send_loop l closed = (map (fun e => open_pfd (socket_ret e)) l, zlen l, closed).
Proof.
  intros Hl. pose proof (send_loop_up l [] closed Hl (Forall_nil_2 _)) as E. by rewrite !app_nil_r in E.
Qed.

Lemma filter_split {A} (h : A -> bool) l :
  List.filter h l ++ List.filter (fun x => negb (h x)) l ≡ₚ l.
Proof.
  induction l as [|x l IH]; [done|]. cbn [List.filter]. destruct (h x); cbn [negb app].
  - by constructor.
  - rewrite <- Permutation_middle. by constructor.
Qed.

Definition nth_fd (l : list Z) (j : nat) : Z := default 0 (l !! j).

Lemma map_nth_fd l : map (nth_fd l) (seq 0 (length l)) = l.
Proof.
  apply list_eq. intros i. change (map (nth_fd l)) with (fmap (M := list) (nth_fd l)).
  rewrite list_lookup_fmap. destruct (decide (i < length l)%nat) as [Hi|Hi].
  - rewrite lookup_seq_lt by done. cbn. unfold nth_fd.
    destruct (lookup_lt_is_Some_2 l i Hi) as [v Hv]. by rewrite Hv.
  - rewrite lookup_seq_ge, lookup_ge_None_2 by lia. done.
Qed.

Section Round.
Variable client_id : Z.
Variable resp : Z -> list rd_event.
Variable ready : nat -> Z -> bool.
Variable lines : nat.
Variable fds : list Z.
Variable n : Z.
Hypothesis fds_nodup : NoDup fds.
Hypothesis fds_answer : Forall (fun fd => 0 <= fd /\ forall i, ready i fd = true -> answers client_id resp lines n fd) fds.

Definition open_at (x : exchange) : Prop :=
  (exists rest, pfds x = map open_pfd fds ++ rest) /\ num_open_fds x = zlen fds /\ success x = false
  /\ ex_closed x = [] /\ response_no_g x = n - 1.

Lemma open_lookup x j : open_at x -> j ∈ seq 0 (length fds) ->
  pfds x !! j = Some (open_pfd (nth_fd fds j))
  /\ (0 <= nth_fd fds j /\ forall i, ready i (nth_fd fds j) = true -> answers client_id resp lines n (nth_fd fds j))
  /\ fds !! j = Some (nth_fd fds j).
Proof using fds_answer.
  intros ([rest Hp] & _) Hj. apply elem_of_seq in Hj as [_ Hj].
  destruct (lookup_lt_is_Some_2 fds j Hj) as [v Hv]. unfold nth_fd. rewrite Hv. cbn. split; [|split].
  - rewrite Hp. apply lookup_app_l_Some. change (map open_pfd fds) with (open_pfd <$> fds).
    by rewrite list_lookup_fmap, Hv.
  - rewrite Forall_forall in fds_answer. apply fds_answer. by eapply list_elem_of_lookup_2.
  - done.
Qed.

(** The round in which the first answers arrive ends the exchange. *)
Lemma answered_round f round x : open_at x -> Exists (fun fd => ready round fd = true) fds ->
  exists x', poll_loop client_id resp ready lines (S (S f)) round (length fds) x = Ret x'
    /\ success x' = true /\ response_no_g x' = n /\ ex_closed x' ≡ₚ fds /\ num_open_fds x' = 0.
Proof using fds_nodup fds_answer.
  intros Hx Hex. set (js := seq 0 (length fds)).
  destruct Hx as (Hp & Ho & Hs & Hc & Hn).
  assert (open_at x) as Hx by done.
  destruct (poll_entries_spec client_id resp ready lines n round (nth_fd fds) js x)
    as (x1 & E1 & [P1 P2 P3 P4 P5 P6 P7]).
  - apply NoDup_seq.
  - intros j Hj. destruct (open_lookup x j Hx Hj) as (? & [_ Ha] & _). split; [done|apply Ha].
  - intros i j Hi Hj E. destruct (open_lookup x i Hx Hi) as (_ & _ & Li).
    destruct (open_lookup x j Hx Hj) as (_ & _ & Lj). rewrite E in Li. by eapply NoDup_lookup.
  - intros j _. rewrite Hc. apply not_elem_of_nil.
  - by right.
  - set (h := fun j => ready round (nth_fd fds j)) in *.
    assert (existsb h js = true) as Hh.
    { apply List.existsb_exists. apply Exists_exists in Hex as (fd & Hin & Hr).
      apply list_elem_of_lookup_1 in Hin as [j Hj]. exists j. split.
      - apply List.in_seq. pose proof (lookup_lt_Some _ _ _ Hj). lia.
      - unfold h, nth_fd. by rewrite Hj. }
    rewrite Hh in P6, P7. rewrite Hs, Hn, (proj2 (Z.eqb_neq _ _)) in P7 by lia. cbn in P7.
    destruct (close_entries_spec h (nth_fd fds) js x1) as (C1 & C2 & C3 & C4 & _).
    { apply NoDup_seq. }
    { intros j Hj. split; [by apply P1|]. destruct (open_lookup x j Hx Hj) as (_ & [Hfd _] & _). done. }
    pose proof (filter_split h js) as Hperm.
    assert (zlen (List.filter h js) + zlen (List.filter (fun j => negb (h j)) js) = zlen fds) as Hcount.
    { rewrite <- zlen_app. unfold zlen. rewrite Hperm. unfold js. by rewrite length_seq. }
    set (x2 := fold_left close_entry js x1) in *.
    assert (num_open_fds x2 = 0) as H0 by (rewrite C1, P4, Ho; lia).
    exists x2. split; [|split; [by rewrite C3|split; [by rewrite C4|split; [|done]]]].
    + cbn [poll_loop]. rewrite Ho. rewrite (proj2 (Z.ltb_lt _ _)).
      * fold js. rewrite E1, bind_ret_l. cbv zeta. rewrite P7. fold x2. by rewrite H0.
      * apply Exists_exists in Hex as (fd & Hin & _). destruct fds; [by apply elem_of_nil in Hin|].
        rewrite zlen_cons. pose proof (zlen_nonneg l). lia.
    + rewrite C2, P5, Hc. cbn [app]. rewrite <- map_app, Hperm. unfold js. by rewrite map_nth_fd.
Qed.
End Round.

(** Asking all replicas. When the servers take the request, but for some at the
    end of the list that refuse the connection, and those that answer do so with
    its number and an "OK", then, whatever order and rounds the
    answers arrive in, the client terminates with success as soon as one answer is
    there, counts exactly one response however many arrive together, and closes
    every connection exactly once. *)
Theorem exchange_succeeds client_id resp ready lines servers down fuel r resp_no k :
  servers <> [] -> Forall reachable servers -> Forall refuses down -> NoDup (map socket_ret servers) ->
  Forall (fun e => forall i, ready i (socket_ret e) = true -> answers client_id resp lines (resp_no + 1) (socket_ret e)) servers ->
  (forall i e, (i < k)%nat -> e ∈ servers -> ready i (socket_ret e) = false) ->
  Exists (fun e => ready k (socket_ret e) = true) servers -> (k + 2 <= fuel)%nat ->
  exists x, send_and_get_response client_id (servers ++ down) resp ready lines fuel r resp_no = Ret (0, x)
    /\ response_no_g x = resp_no + 1 /\ ex_closed x ≡ₚ map socket_ret servers /\ num_open_fds x = 0.
Proof.
  intros Hne Hre Hdown Hnd Han Hwait Hk Hf. unfold send_and_get_response.
  rewrite send_loop_up by done. set (fds := map socket_ret servers) in *.
  set (x0 := Build_exchange _ _ _ _ _ _).
  assert (Forall (fun fd => 0 <= fd /\ forall i, ready i fd = true -> answers client_id resp lines (resp_no + 1) fd) fds) as Hans.
  { apply Forall_map. rewrite Forall_forall in Hre, Han. apply Forall_forall. intros e He.
    split; [by destruct (Hre e He) as (_ & ? & _)|by apply Han]. }
  assert (open_at fds (resp_no + 1) x0) as Hx0.
  { unfold open_at, x0, fds. cbn. rewrite List.map_map. split; [by eexists|]. unfold zlen. rewrite length_map.
    split; [done|split; [done|split; [done|lia]]]. }
  assert (Z.to_nat (zlen servers) = length fds) as -> by (unfold fds, zlen; rewrite length_map; lia).
  assert (exists f, fuel = (k + S (S f))%nat) as [f ->] by (exists (fuel - k - 2)%nat; lia).
  rewrite poll_loop_wait.
  - destruct (answered_round client_id resp ready lines fds (resp_no + 1) Hnd Hans f (0 + k) x0 Hx0)
      as (x & -> & H1 & H2 & H3 & H4); [by apply Exists_map|].
    rewrite bind_ret_l, H1. by exists x.
  - destruct Hx0 as (_ & -> & _). unfold fds. destruct servers as [|e l]; [done|].
    cbn [map]. rewrite zlen_cons. pose proof (zlen_nonneg (map socket_ret l)). lia.
  - done.
  - intros i Hi j Hj. destruct (open_lookup _ _ _ _ fds _ Hans x0 j Hx0 Hj) as (Hp & _ & Hl).
    eexists. split; [exact Hp|]. unfold has_data. cbn [pfd_fd open_pfd].
    apply list_elem_of_lookup_2 in Hl. apply (list_elem_of_fmap_1 socket_ret) in Hl as (e & Hfd & He).
    rewrite Hfd, Hwait by (done || lia).
    by rewrite andb_false_r.
Qed.

(** Three replicas and a dead one; the first answer comes in the second round,
    together with the third replica's. *)
Definition net_ok (fd : Z) : net_step := {| socket_ret := fd; connect_ret := 0; write_ret := MAX_LENGTH |}.
Definition net_refused : net_step := {| socket_ret := 9; connect_ret := -1; write_ret := -1 |}.
Definition demo_reply : bytes :=
  ⟦"Status: OK"⟧ ++ CRLF ++ ⟦"Client ID: 3"⟧ ++ CRLF ++ ⟦"Request No: 1"⟧ ++ CRLF ++ ⟦"Msg: Success"⟧
  ++ CRLF ++ CRLF.
Definition demo_resp (fd : Z) : list rd_event := [Chunk demo_reply].
Definition demo_ready (round : nat) (fd : Z) : bool := (1 <=? Z.of_nat round) && negb (fd =? 5).

Lemma demo_answers fd : 0 <= fd -> answers 3 demo_resp 5 1 fd.
Proof. intros Hfd. split; [done|]. intros r. eexists. split; [vm_compute; reflexivity|]. by split. Qed.

Lemma exchange_succeeds_witness :
  exists x, send_and_get_response 3 [net_ok 4; net_ok 5; net_ok 6; net_refused] demo_resp demo_ready 5 3 response_zero 0
            = Ret (0, x) /\ response_no_g x = 1 /\ num_open_fds x = 0.
Proof.
  destruct (exchange_succeeds 3 demo_resp demo_ready 5 [net_ok 4; net_ok 5; net_ok 6] [net_refused] 3 response_zero 0 1)
    as (x & E & H1 & _ & H2).
  - done.
  - repeat apply Forall_cons_2; try apply Forall_nil_2; by repeat split.
  - by apply Forall_cons_2; [|apply Forall_nil_2].
  - by apply (bool_decide_unpack _).
  - repeat apply Forall_cons_2; try apply Forall_nil_2; intros i _; by apply demo_answers.
  - intros [|i] e Hi _; [done|lia].
  - by apply Exists_cons_hd.
  - lia.
  - exists x. split; [exact E|]. split; [exact H1|exact H2].
Defined.

(** * Unreachable servers

    The poll set is indexed by server, and [poll] is told the number of servers
    that took the request. *)

Lemma send_loop_spec l : forall closed, exists ps n c, send_loop l closed = (ps, n, c)
  /\ length ps = length l /\ 0 <= n <= zlen l
  /\ (forall i e, l !! i = Some e -> ~ reachable e -> ps !! i = Some {| pfd_fd := 0; pfd_events := false |})
  /\ (Exists reachable l -> 0 < n).
Proof.
  induction l as [|e l IH]; intros closed; cbn [send_loop].
  { exists [], 0, closed. split; [done|]. split; [done|]. split; [unfold zlen; cbn; lia|].
    split; [done|]. intros H. by apply Exists_nil in H. }
  assert (forall closed0, ~ reachable e ->
    exists ps n c, (let '(p, n, c) := send_loop l closed0 in
                    ({| pfd_fd := 0; pfd_events := false |} :: p, n, c)) = (ps, n, c)
      /\ length ps = S (length l) /\ 0 <= n <= zlen (e :: l)
      /\ (forall i e', (e :: l) !! i = Some e' -> ~ reachable e' ->
          ps !! i = Some {| pfd_fd := 0; pfd_events := false |})
      /\ (Exists reachable (e :: l) -> 0 < n)) as Hno.
  { intros closed0 Hr. destruct (IH closed0) as (ps & n & c & -> & H1 & H2 & H3 & H4).
    do 3 eexists. split; [done|]. cbn [length]. split; [by rewrite H1|]. split; [rewrite zlen_cons; lia|]. split.
    - intros [|i] e' Hi Hr'; [done|]. by eapply H3.
    - intros H. apply Exists_cons in H as [H|H]; [done|]. by apply H4. }
  unfold connect_to_server. destruct (connect_ret e =? 0) eqn:Ec; cbn [negb]; zbool.
  2: by apply Hno; intros (? & _).
  destruct (socket_ret e <? 0) eqn:Es; zbool; [by apply Hno; intros (_ & ? & _); lia|].
  destruct (write_ret e <? 0) eqn:Ew; zbool; [by apply Hno; intros (_ & _ & ?); lia|].
  destruct (IH closed) as (ps & n & c & -> & H1 & H2 & H3 & H4).
  do 3 eexists. split; [done|]. cbn [length]. split; [by rewrite H1|].
  split; [rewrite zlen_cons; lia|]. split; [|lia].
  intros [|i] e' Hi Hr'; [|by eapply H3]. cbn in Hi. simplify_eq. by destruct Hr'.
Qed.

Definition reached (l : list net_step) : Z := (send_loop l []).1.2.

(** A reachable server that is never listened to. When none of the first
    [k] servers takes the request, where [k] counts the servers that do take
    it, the client polls only entries without a descriptor: it waits for ever,
    whatever the servers answer. *)
Theorem exchange_hangs client_id resp ready lines servers fuel r resp_no :
  Exists reachable servers ->
  (forall i e, Z.of_nat i < reached servers -> servers !! i = Some e -> ~ reachable e) ->
  send_and_get_response client_id servers resp ready lines fuel r resp_no = NoFuel.
Proof.
  intros Hex Hun. unfold send_and_get_response, reached in *.
  destruct (send_loop_spec servers []) as (ps & n & c & E & Hlen & Hn & Hnone & Hpos).
  rewrite E in *. cbn [fst snd] in *. specialize (Hpos Hex).
  set (x0 := Build_exchange _ _ _ _ _ _).
  replace fuel with (fuel + 0)%nat by lia. rewrite poll_loop_wait; [done|done|done|].
  intros i _ j Hj. apply elem_of_seq in Hj as [_ Hj].
  destruct (lookup_lt_is_Some_2 servers j) as [e He]; [unfold zlen in Hn; lia|].
  eexists. split; [eapply Hnone; [done|]; eapply Hun; [|done]; lia|]. done.
Qed.

(** Only the last of two servers is up. *)
Lemma exchange_hangs_witness :
  send_and_get_response 3 [net_refused; net_ok 5] demo_resp (fun _ _ => true) 5 100 response_zero 0 = NoFuel.
Proof.
  apply exchange_hangs.
  - apply Exists_cons_tl, Exists_cons_hd. by repeat split.
  - intros [|i] e Hi He; [|change (reached _) with 1 in Hi; lia]. cbn in He. simplify_eq. by intros (H & _).
Defined.

(** The wrong descriptors are closed. With three servers of which the first
    does not take the request, the client that gets its answer from the second
    closes descriptor 0, its standard input, and neither reads nor closes the
    connection to the third. *)
Theorem exchange_closes_stdin client_id resp ready lines e a b fuel r resp_no :
  socket_ret e < 0 \/ connect_ret e <> 0 -> reachable a -> reachable b ->
  answers client_id resp lines (resp_no + 1) (socket_ret a) -> ready O (socket_ret a) = true ->
  exists x, send_and_get_response client_id [e; a; b] resp ready lines (2 + fuel) r resp_no = Ret (0, x)
    /\ ex_closed x = [socket_ret a; 0] /\ (socket_ret b <> socket_ret a -> socket_ret b <> 0 ->
                                           socket_ret b ∉ ex_closed x).
Proof.
  intros He (Ha1 & Ha2 & Ha3) (Hb1 & Hb2 & Hb3) Ha Hr. unfold send_and_get_response.
  assert (send_loop [e; a; b] []
    = ([{| pfd_fd := 0; pfd_events := false |}; open_pfd (socket_ret a); open_pfd (socket_ret b)], 2, [])) as ->.
  { assert (send_loop [a; b] [] = ([open_pfd (socket_ret a); open_pfd (socket_ret b)], 2, [])) as E
      by (apply send_loop_all; repeat apply Forall_cons_2; try apply Forall_nil_2; done).
    cbn [send_loop] in *. unfold connect_to_server at 1.
    assert (((if negb (connect_ret e =? 0) then -1 else socket_ret e) <? 0) = true) as ->
      by (destruct (connect_ret e =? 0) eqn:E0; zbool; cbn; lia).
    by rewrite E. }
  set (x0 := Build_exchange _ _ _ _ _ _).
  destruct (poll_entry_answer client_id resp ready lines (resp_no + 1) O 1%nat x0 (socket_ret a))
    as (x1 & E1 & P1 & P2 & P3 & P4 & P5); try done; [by apply not_elem_of_nil|cbn; lia|].
  change (Z.to_nat 2) with 2%nat. cbn [Nat.add poll_loop]. change (0 <? num_open_fds x0) with true. cbv iota.
  cbn [seq poll_entries]. rewrite (poll_entry_idle _ _ _ _ _ _ x0 {| pfd_fd := 0; pfd_events := false |}) by done.
  rewrite bind_ret_l, E1, bind_ret_l, bind_ret_l. cbv zeta.
  rewrite P5. cbn [response_no_g x0]. rewrite (proj2 (Z.eqb_neq _ _)) by lia. rewrite orb_true_r.
  destruct x1 as [ps no su rp rn cl]. cbn in P1, P2, P3, P4. subst ps no cl.
  assert (fold_left close_entry [0%nat; 1%nat]
    {| pfds := [{| pfd_fd := 0; pfd_events := false |}; shut_pfd; open_pfd (socket_ret b)];
       num_open_fds := 1; success := su; response := rp; response_no_g := rn;
       ex_closed := [socket_ret a] |}
    = {| pfds := [{| pfd_fd := -1; pfd_events := false |}; shut_pfd; open_pfd (socket_ret b)];
         num_open_fds := 0; success := su; response := rp; response_no_g := rn;
         ex_closed := [socket_ret a; 0] |}) as E2 by done.
  cbn in P5. match goal with |- context [fold_left close_entry ?l ?x] =>
    change (fold_left close_entry l x) with (fold_left close_entry l
      {| pfds := [{| pfd_fd := 0; pfd_events := false |}; shut_pfd; open_pfd (socket_ret b)];
       num_open_fds := 1; success := su; response := rp; response_no_g := rn;
       ex_closed := [socket_ret a] |}) end.
  rewrite E2. cbn [num_open_fds]. change (0 <? 0) with false. cbv iota. rewrite bind_ret_l.
  cbn [success]. rewrite P5, (proj2 (Z.eqb_neq resp_no (resp_no + 1))) by lia. cbn [negb].
  eexists. split; [done|]. split; [done|]. intros H1 H2. cbn [ex_closed].
  rewrite !not_elem_of_cons. split; [done|]. split; [done|]. apply not_elem_of_nil.
Qed.

Lemma exchange_closes_stdin_witness :
  exists x, send_and_get_response 3 [net_refused; net_ok 5; net_ok 6] demo_resp (fun _ _ => true) 5 2
              response_zero 0 = Ret (0, x)
    /\ ex_closed x = [5; 0].
Proof.
  destruct (exchange_closes_stdin 3 demo_resp (fun _ _ => true) 5 net_refused (net_ok 5) (net_ok 6) 0
    response_zero 0) as (x & E & H & _).
  - by right.
  - by repeat split.
  - by repeat split.
  - by apply demo_answers.
  - done.
  - exists x. split; [exact E|exact H].
Defined.
