(* ===== verification/Menu.v ===== *)
(** [main] of [src/client.c]: its options, the configuration file they name and
    the menu, with the handlers of [Client.v] behind it. *)
From S2P Require Import Prelude CLib Iface Util Request Client.

(** * The options *)

(** What [getopt(argc, argv, "C:F:")] returns, one value per call. *)
Inductive client_opt :=
  | OptC (optarg : bytes)
  | OptF (optarg : bytes)
  | OptUnknown.

(** The globals the options set: [client_id] and [server_arr]. *)
Record client_args := {
  cl_id : Z;
  cl_count : Z;
  cl_servers : list server_info
}.

Definition client_args_zero : client_args :=
  {| cl_id := 0; cl_count := 0; cl_servers := replicate 3 SERVER_INFO_INITIALISER |}.

(** [files]: the file system. [filename] is 1024 bytes and kept between
    options. *)
Fixpoint parse_input_arguments (files : bytes -> option bytes) (filename : bytes)
    (opts : list client_opt) (a : client_args) : outcome (Z * client_args) :=
  match opts with
  | [] => Ret (0, a)
  | OptC s :: opts =>
      parse_input_arguments files filename opts
        {| cl_id := atoi s; cl_count := cl_count a; cl_servers := cl_servers a |}
  | OptF s :: opts =>
      if 1024 <? zlen s then Undef
      else
        let filename := overwrite s filename in
        name ← c_string filename;
        '(n, l) ← parse_and_prepare_server_array (files name) (cl_count a) (cl_servers a);
        parse_input_arguments files filename opts {| cl_id := cl_id a; cl_count := n; cl_servers := l |}
  | OptUnknown :: _ => Ret (-1, a)
  end.

(** * The menu *)

(** A byte as a [char]: the end of the input is -1 as well. *)
Definition as_char (c : ascii) : Z :=
  if code c <? 128 then code c else code c - 256.
Definition getchar (stdin : bytes) : Z * bytes :=
  match stdin with
  | [] => (-1, [])
  | c :: stdin => (as_char c, stdin)
  end.

(** The rest of the line is dropped. *)
Fixpoint discard_line (stdin : bytes) : bytes :=
  match stdin with
  | [] => []
  | c :: stdin => if (as_char c =? 10) || (as_char c =? -1) then stdin else discard_line stdin
  end.

(** What an exchange meets: the servers, their answers, the descriptors that
    are ready, bounds on the lines of a reply and on the calls of [poll], and the
    stack under a modification. *)
Record exchange_env := {
  ee_servers : list net_step;
  ee_resp : Z -> list rd_event;
  ee_ready : nat -> Z -> bool;
  ee_lines : nat;
  ee_fuel : nat;
  ee_junk : message_modify
}.

(** The globals and the standard input between two choices. *)
Record session := {
  se_stdin : bytes;
  se_request_no : Z;
  se_response_no : Z;
  se_exchanges : nat
}.

Section Menu.
Variable args : client_args.
Variable env : nat -> exchange_env.

Definition send (s : session) (buf : bytes) (r : message_response) : outcome (Z * exchange) :=
  let e := env (se_exchanges s) in
  send_and_get_response (cl_id args) (ztake (cl_count args) (ee_servers e)) (ee_resp e) (ee_ready e)
    (ee_lines e) (ee_fuel e) r (se_response_no s).

Definition after_exchange (s : session) (o : outcome (Z * exchange * Z * bytes)) : outcome (option session) :=
  '(_, x, rn, stdin) ← o;
  Ret (Some {| se_stdin := stdin; se_request_no := rn; se_response_no := response_no_g x;
               se_exchanges := S (se_exchanges s) |}).

(** One turn of the loop; [None]: [exit(0)]. *)
Definition menu_step (s : session) : outcome (option session) :=
  let '(temp_choice, stdin) := getchar (se_stdin s) in
  let choice := temp_choice - 48 in
  let stdin := discard_line stdin in
  let rn := se_request_no s in
  if choice =? 1 then after_exchange s (handle_new_task (cl_id args) (send s) rn stdin)
  else if choice =? 2 then after_exchange s (handle_remove_task (cl_id args) (send s) rn stdin)
  else if choice =? 3 then
    after_exchange s (handle_mod_task (cl_id args) (send s) (ee_junk (env (se_exchanges s))) rn stdin)
  else if choice =? 4 then Ret None
  else Ret (Some {| se_stdin := stdin; se_request_no := rn; se_response_no := se_response_no s;
                    se_exchanges := se_exchanges s |}).

Fixpoint menu_loop (fuel : nat) (s : session) : outcome unit :=
  match fuel with
  | O => NoFuel
  | S f => o ← menu_step s; match o with Some s => menu_loop f s | None => Ret tt end
  end.
End Menu.

(** [main]. *)
Definition client_main (files : bytes -> option bytes) (env : nat -> exchange_env) (fuel : nat)
    (opts : list client_opt) (stdin : bytes) : outcome unit :=
  '(status, args) ← parse_input_arguments files (zeros 1024) opts client_args_zero;
  if status <? 0 then Exit
  else menu_loop args env fuel
         {| se_stdin := stdin; se_request_no := 0; se_response_no := 0; se_exchanges := O |}.

(** * Sessions *)

Lemma discard_line_length stdin : (length (discard_line stdin) <= length stdin)%nat.
Proof. induction stdin as [|c l IH]; simpl; [done|]. case_if; simpl; lia. Qed.

(** ** Lines

    What [scanf] takes of a line, and the input after it: an empty line is
    neither taken nor passed. *)
Definition entered (stdin : bytes) : bytes := ztake 8191 (fst (span (not_in [LF]) stdin)).
Definition next_line (stdin : bytes) : bytes :=
  match entered stdin with
  | [] => stdin
  | v => drop (S (length v)) stdin
  end.
Definition fits (n : Z) (stdin : bytes) : bool := zlen (entered stdin) <? n.

Lemma next_line_length stdin : (length (next_line stdin) <= length stdin)%nat.
Proof. unfold next_line. destruct (entered stdin); [done|]. rewrite length_drop. lia. Qed.

Lemma scan_line_eq dst stdin : scan_line dst stdin
  = match entered stdin with
    | [] => Ret (dst, stdin)
    | v => if zlen dst <=? zlen v then Undef else Ret (overwrite (v ++ [NUL]) dst, next_line stdin)
    end.
Proof.
  unfold scan_line, next_line, entered, scan_not. pose proof (span_app (not_in [LF]) stdin) as Hs.
  destruct (span (not_in [LF]) stdin) as [a b]. cbn [fst snd] in *.
  destruct (ztake 8191 a) as [|x v] eqn:E; [done|]. case_if; [done|]. do 2 f_equal.
  assert (drop (length (x :: v)) stdin = zdrop 8191 a ++ b) as Hd.
  { rewrite <- Hs, <- E. unfold ztake, zdrop. rewrite <- (take_drop (Z.to_nat 8191) a) at 2.
    rewrite <- app_assoc. apply drop_app_length. }
  rewrite <- Hd. rewrite <- Nat.add_1_r, <- drop_drop. by destruct (drop (length (x :: v)) stdin).
Qed.

(** An array of [n] bytes that holds a string. *)
Definition holds_string (n : Z) (b : bytes) : Prop := zlen b = n /\ has_nul b = true.

Lemma holds_zeros n : 0 < n -> holds_string n (zeros n).
Proof.
  intros Hn. split; [unfold zeros, zlen; rewrite length_replicate; lia|].
  unfold zeros. by destruct (Z.to_nat n) eqn:E; [lia|].
Qed.

Lemma scan_line_ok n dst stdin : zlen dst = n -> 0 < n ->
  if fits n stdin then exists t, scan_line dst stdin = Ret (t, next_line stdin) /\ zlen t = n
    /\ (if bool_decide (entered stdin = []) then t = dst else has_nul t = true)
  else scan_line dst stdin = Undef.
Proof.
  intros Hd Hn. rewrite scan_line_eq. unfold fits, next_line. destruct (entered stdin) as [|x v] eqn:E.
  - change (zlen (@nil ascii)) with 0. rewrite (proj2 (Z.ltb_lt 0 n)) by done. by exists dst.
  - rewrite Hd. destruct (zlen (x :: v) <? n) eqn:El; zbool.
    + rewrite (proj2 (Z.leb_gt _ _)) by done. eexists. split; [done|]. split.
      * unfold zlen in *. rewrite length_overwrite; [done|]. rewrite length_app. simpl in *. lia.
      * unfold overwrite. rewrite <- app_assoc. apply has_nul_app_nul.
    + by rewrite (proj2 (Z.leb_le _ _)).
Qed.

Lemma scan_string n dst stdin : holds_string n dst -> 0 < n ->
  if fits n stdin then exists t, scan_line dst stdin = Ret (t, next_line stdin) /\ holds_string n t
  else scan_line dst stdin = Undef.
Proof.
  intros [Hd Hz] Hn. pose proof (scan_line_ok n dst stdin Hd Hn) as H. destruct (fits n stdin); [|done].
  destruct H as (t & E & Hl & Ht). exists t. split; [done|]. split; [done|]. case_bool_decide; by subst.
Qed.

Lemma string_read n b : holds_string n b -> exists t, c_string b = Ret t /\ zlen t <= n.
Proof. intros [<- Hz]. unfold c_string. rewrite Hz. eexists. split; [done|]. apply cstr_length. Qed.

Lemma sprintf_fits s : zlen s < MAX_LENGTH -> sprintf_zero s = Ret (zero_buf s).
Proof. intros H. unfold sprintf_zero. by rewrite (proj2 (Z.ltb_lt _ _)). Qed.

(** The texts of the three messages fit the buffer of a message. *)
Ltac text_width :=
  rewrite !zlen_app;
  repeat match goal with |- context [fmt_d ?n] =>
    let H := fresh in pose proof (fmt_d_length n) as H; revert H; generalize (fmt_d n); intros ? H end;
  change (zlen CRLF) with 2; change (zlen ⟦"Request No: "⟧) with 12; change (zlen ⟦"Client ID: "⟧) with 11;
  change (zlen ⟦"Message Type: "⟧) with 14; change (zlen ⟦"Task: "⟧) with 6;
  change (zlen ⟦"Task status: "⟧) with 13; change (zlen ⟦"Due date: "⟧) with 10;
  change (zlen ⟦"Key: "⟧) with 5; change (zlen ⟦"Flags: "⟧) with 7;
  change (zlen ⟦"New Task: "⟧) with 10; change (zlen ⟦"New Date: "⟧) with 10; change (zlen ⟦"New status: "⟧) with 12;
  unfold MAX_LENGTH, TASK_LENGTH, DATE_LENGTH in *; lia.

Lemma add_text_ok rn m id : holds_string TASK_LENGTH (ma_task m) -> holds_string DATE_LENGTH (ma_task_date m) ->
  exists buf, (text ← create_add_message_to_server rn m id; sprintf_zero text) = Ret buf.
Proof.
  intros Ht Hd. unfold create_add_message_to_server.
  destruct (string_read _ _ Ht) as (t & -> & Lt), (string_read _ _ Hd) as (d & -> & Ld). rewrite !bind_ret_l.
  eexists. apply sprintf_fits. text_width.
Qed.

Lemma remove_text_ok rn m id : holds_string TASK_LENGTH (mr_task m) ->
  exists buf, (text ← create_remove_message_to_server rn m id; sprintf_zero text) = Ret buf.
Proof.
  intros Ht. unfold create_remove_message_to_server. destruct (string_read _ _ Ht) as (t & -> & Lt).
  rewrite !bind_ret_l. eexists. apply sprintf_fits. text_width.
Qed.

Lemma modify_text_ok rn m id : holds_string TASK_LENGTH (mm_task m) -> holds_string TASK_LENGTH (mm_new_task m) ->
  holds_string DATE_LENGTH (mm_new_date m) ->
  exists buf, (text ← create_modify_message_to_server rn m id; sprintf_zero text) = Ret buf.
Proof.
  intros Ht Hn Hd. unfold create_modify_message_to_server.
  destruct (string_read _ _ Ht) as (t & -> & Lt), (string_read _ _ Hn) as (n & -> & Ln), (string_read _ _ Hd) as (d & -> & Ld).
  rewrite !bind_ret_l. eexists. apply sprintf_fits. text_width.
Qed.

(** Lines that do not fit their arrays; the date of a modification is read into
    memory that was not cleared, and an empty line leaves it as it was. *)
Definition overruns (junk : message_modify) (choice : ascii) (l : bytes) : bool :=
  if Ascii.eqb choice "1" then negb (fits TASK_LENGTH l && fits DATE_LENGTH (next_line l))
  else if Ascii.eqb choice "2" then negb (fits TASK_LENGTH l)
  else if Ascii.eqb choice "3" then
    negb (fits TASK_LENGTH l && fits TASK_LENGTH (next_line l) && fits DATE_LENGTH (next_line (next_line l))
          && (has_nul (mm_new_date junk) || negb (bool_decide (entered (next_line (next_line l)) = []))))
  else false.

Section Session.
Variable args : client_args.
Variable env : nat -> exchange_env.
(** Every exchange ends (see [exchange_succeeds] and [exchange_hangs] of
    [Client.v] for when it does). *)
Hypothesis exchanges_end : forall s buf r, exists st x, send args env s buf r = Ret (st, x).
(** What lies on the stack has the size of the arrays. *)
Hypothesis stack_sizes : forall k, zlen (mm_new_task (ee_junk (env k))) = TASK_LENGTH
  /\ zlen (mm_new_date (ee_junk (env k))) = DATE_LENGTH.

(** The handler goes on after its input, or the input overruns an array. *)
Definition handled (ok : bool) (rest : bytes) (o : outcome (Z * exchange * Z * bytes)) : Prop :=
  if ok then exists st x rn, o = Ret (st, x, rn, rest) else o = Undef.

Lemma exchange_handled s o buf rn rest : (text ← o; sprintf_zero text) = Ret buf ->
  handled true rest (text ← o; buf ← sprintf_zero text;
    '(st, x) ← send args env s buf response_zero; Ret (st, x, rn, rest)).
Proof using exchanges_end.
  intros H. apply bind_Ret_inv in H as (text & -> & H). rewrite bind_ret_l, H, bind_ret_l.
  destruct (exchanges_end s buf response_zero) as (st & x & ->). by exists st, x, rn.
Qed.

Lemma new_task_handled s rn l :
  handled (fits TASK_LENGTH l && fits DATE_LENGTH (next_line l)) (next_line (next_line l))
    (handle_new_task (cl_id args) (send args env s) rn l).
Proof using exchanges_end.
  unfold handle_new_task, get_inputs_for_message_add.
  pose proof (scan_string TASK_LENGTH (ma_task ma_zero) l (holds_zeros TASK_LENGTH ltac:(done)) ltac:(done)) as H1.
  destruct (fits TASK_LENGTH l); cbn [andb]; [|by rewrite H1]. destruct H1 as (t & -> & Ht).
  pose proof (scan_string DATE_LENGTH (ma_task_date ma_zero) (next_line l) (holds_zeros DATE_LENGTH ltac:(done)) ltac:(done)) as H2.
  rewrite bind_ret_l. destruct (fits DATE_LENGTH (next_line l)); [|by rewrite H2]. destruct H2 as (d & -> & Hd).
  rewrite !bind_ret_l. cbv zeta. match goal with |- context [create_add_message_to_server ?r ?m ?i] =>
    destruct (add_text_ok r m i Ht Hd) as [buf Hb] end.
  exact (exchange_handled s _ buf _ _ Hb).
Qed.

Lemma remove_task_handled s rn l :
  handled (fits TASK_LENGTH l) (next_line l) (handle_remove_task (cl_id args) (send args env s) rn l).
Proof using exchanges_end.
  unfold handle_remove_task, get_inputs_for_message_remove.
  pose proof (scan_string TASK_LENGTH (mr_task mr_zero) l (holds_zeros TASK_LENGTH ltac:(done)) ltac:(done)) as H1.
  destruct (fits TASK_LENGTH l); [|by rewrite H1]. destruct H1 as (t & -> & Ht).
  rewrite !bind_ret_l. cbv zeta. match goal with |- context [create_remove_message_to_server ?r ?m ?i] =>
    destruct (remove_text_ok r m i Ht) as [buf Hb] end.
  exact (exchange_handled s _ buf _ _ Hb).
Qed.

Lemma mod_task_handled s k rn l : let l2 := next_line (next_line l) in
  handled (fits TASK_LENGTH l && fits TASK_LENGTH (next_line l) && fits DATE_LENGTH l2
           && (has_nul (mm_new_date (ee_junk (env k))) || negb (bool_decide (entered l2 = []))))
    (next_line (next_line l2)) (handle_mod_task (cl_id args) (send args env s) (ee_junk (env k)) rn l).
Proof using exchanges_end stack_sizes.
  cbv zeta. destruct (stack_sizes k) as [Sn Sd]. set (junk := ee_junk (env k)) in *.
  unfold handle_mod_task, get_inputs_for_message_modify. cbv zeta. cbn [mm_task mm_new_task mm_new_date mm_partly_zero].
  pose proof (scan_string TASK_LENGTH (zeros TASK_LENGTH) l (holds_zeros TASK_LENGTH ltac:(done)) ltac:(done)) as H1.
  destruct (fits TASK_LENGTH l); cbn [andb]; [|by rewrite H1]. destruct H1 as (t & -> & Ht). rewrite bind_ret_l.
  assert (holds_string TASK_LENGTH (overwrite (zeros 4) (mm_new_task junk))) as Hn0.
  { split; [|done]. unfold zlen in *. rewrite length_overwrite; [done|].
    unfold TASK_LENGTH in *. change (length (zeros 4)) with 4%nat. lia. }
  pose proof (scan_string TASK_LENGTH _ (next_line l) Hn0 ltac:(done)) as H2.
  destruct (fits TASK_LENGTH (next_line l)); cbn [andb]; [|by rewrite H2]. destruct H2 as (n & -> & Hn).
  rewrite bind_ret_l. set (l2 := next_line (next_line l)).
  pose proof (scan_line_ok DATE_LENGTH _ l2 Sd ltac:(done)) as H3.
  destruct (fits DATE_LENGTH l2); cbn [andb]; [|by rewrite H3]. destruct H3 as (d & -> & Ld & Hd). rewrite bind_ret_l.
  pose proof (scan_string MAX_LENGTH (zeros MAX_LENGTH) (next_line l2) (holds_zeros MAX_LENGTH ltac:(done)) ltac:(done)) as H4.
  assert (fits MAX_LENGTH (next_line l2) = true) as Hfit.
  { unfold fits, entered, ztake, zlen, MAX_LENGTH. apply Z.ltb_lt. rewrite length_take. lia. }
  rewrite Hfit in H4. destruct H4 as (temp & -> & _). rewrite bind_ret_l. cbv beta iota.
  assert (forall flags st, handled (has_nul (mm_new_date junk) || negb (bool_decide (entered l2 = [])))
    (next_line (next_line l2))
    (text ← create_modify_message_to_server (i32 (rn + 1))
       {| mm_task := t; mm_new_task := n; mm_new_date := d; mm_new_task_status := st; mm_mod_flags := flags |} (cl_id args);
     buf ← sprintf_zero text; '(status, x) ← send args env s buf response_zero;
     Ret (status, x, i32 (rn + 1), next_line (next_line l2)))) as Hsend.
  { intros flags st.
    assert (has_nul (mm_new_date junk) || negb (bool_decide (entered l2 = [])) = has_nul d) as ->.
    { case_bool_decide; [subst d; by rewrite orb_false_r|by rewrite Hd, orb_true_r]. }
    destruct (has_nul d) eqn:Ed.
    - match goal with |- context [create_modify_message_to_server ?r ?m ?i] =>
        destruct (modify_text_ok r m i Ht Hn (conj Ld Ed)) as [buf Hb] end.
      exact (exchange_handled s _ buf _ _ Hb).
    - unfold create_modify_message_to_server. cbn [mm_task mm_new_task mm_new_date handled].
      destruct (string_read _ _ Ht) as (t' & -> & _), (string_read _ _ Hn) as (n' & -> & _). rewrite !bind_ret_l.
      unfold c_string. by rewrite Ed. }
  destruct (starts_with ⟦"NA"⟧ temp); rewrite bind_ret_l; apply Hsend.
Qed.

Lemma choice_digit c : (as_char c - 48 =? 1) = Ascii.eqb c "1" /\ (as_char c - 48 =? 2) = Ascii.eqb c "2"
  /\ (as_char c - 48 =? 3) = Ascii.eqb c "3" /\ (as_char c - 48 =? 4) = Ascii.eqb c "4".
Proof. by destruct c as [[] [] [] [] [] [] [] []]. Qed.

(** One choice: the client exits, an array is overrun, or input was consumed. *)
Lemma menu_step_cases s c line : se_stdin s = c :: line ->
  if Ascii.eqb c "4" then menu_step args env s = Ret None
  else if overruns (ee_junk (env (se_exchanges s))) c (discard_line line) then menu_step args env s = Undef
  else exists s', menu_step args env s = Ret (Some s') /\ (length (se_stdin s') < length (se_stdin s))%nat.
Proof using exchanges_end stack_sizes.
  intros E. unfold menu_step, overruns. rewrite E. cbn [getchar]. cbv zeta.
  destruct (choice_digit c) as (-> & -> & -> & ->).
  pose proof (discard_line_length line) as Hl. set (l := discard_line line) in *.
  assert (forall l', (length (next_line l') <= length l')%nat) as Hnl by apply next_line_length.
  assert (forall ok rest o, handled ok rest o -> (length rest <= length line)%nat ->
    if negb ok then after_exchange s o = Undef
    else exists s', after_exchange s o = Ret (Some s') /\ (length (se_stdin s') < length (c :: line))%nat) as Hafter.
  { intros ok rest o Ho Hrest. destruct ok; cbn [negb handled] in *; [|by rewrite Ho].
    destruct Ho as (st & x & rn & ->). eexists. split; [done|]. simpl. lia. }
  destruct (Ascii.eqb_spec c "1") as [->|_]; [|destruct (Ascii.eqb_spec c "2") as [->|_]; [|destruct (Ascii.eqb_spec c "3") as [->|_]]];
    cbn [Ascii.eqb Bool.eqb].
  - eapply Hafter; [apply new_task_handled|]. pose proof (Hnl l). pose proof (Hnl (next_line l)). lia.
  - eapply Hafter; [apply remove_task_handled|]. pose proof (Hnl l). lia.
  - eapply Hafter; [apply mod_task_handled|]. pose proof (Hnl l). pose proof (Hnl (next_line l)).
    pose proof (Hnl (next_line (next_line l))). pose proof (Hnl (next_line (next_line (next_line l)))). lia.
  - case_if; [done|]. eexists. split; [done|]. simpl. lia.
Qed.

Lemma menu_eof s : se_stdin s = [] -> menu_step args env s = Ret (Some s).
Proof. intros E. unfold menu_step. rewrite E. cbn. by destruct s; simpl in *; subst. Qed.

Lemma menu_loop_step fuel s s' : menu_step args env s = Ret (Some s') ->
  menu_loop args env (S fuel) s = menu_loop args env fuel s'.
Proof. intros E. cbn [menu_loop]. by rewrite E, bind_ret_l. Qed.

Lemma menu_loop_eof fuel s : se_stdin s = [] -> menu_loop args env fuel s = NoFuel.
Proof.
  intros E. induction fuel as [|f IH]; [done|]. by rewrite (menu_loop_step f s s) by by apply menu_eof.
Qed.
End Session.

(** The states between the choices. *)
Fixpoint menu_after (args : client_args) (env : nat -> exchange_env) (n : nat) (s : session) : option session :=
  match n with
  | O => Some s
  | S n => match menu_step args env s with Ret (Some s) => menu_after args env n s | _ => None end
  end.

(** What is next at the menu: the choice to exit, a choice whose lines overrun
    an array, the end of the input, or another choice. *)
Inductive next_choice := Quits | Overruns | Ends | GoesOn.

#[global] Instance next_choice_eq_dec : EqDecision next_choice.
Proof. solve_decision. Defined.

Definition next_of (env : nat -> exchange_env) (s : session) : next_choice :=
  match se_stdin s with
  | [] => Ends
  | c :: line =>
      if Ascii.eqb c "4" then Quits
      else if overruns (ee_junk (env (se_exchanges s))) c (discard_line line) then Overruns
      else GoesOn
  end.

(** C34: how a client session ends. Let the exchanges with the servers end, and
    let what lies on the stack where a modification is read have the size of its
    arrays. Each choice consumes input, so after some number of choices, at most the bytes on
    standard input, and not before, the user types 4, types lines that do not
    fit the arrays of the chosen command (a task or key of 1024 bytes or more, a
    date of 32 or more, or an empty line for the date of a modification where
    the stack holds no end of string), or the input is exhausted. In the first
    case, and only then, the client exits; in the second the behaviour is
    undefined; in the third the client prints its menu for ever. *)
Theorem session_ends args env s :
  (forall s buf r, exists st x, send args env s buf r = Ret (st, x)) ->
  (forall k, zlen (mm_new_task (ee_junk (env k))) = TASK_LENGTH /\ zlen (mm_new_date (ee_junk (env k))) = DATE_LENGTH) ->
  exists n s', (n <= length (se_stdin s))%nat /\ menu_after args env n s = Some s'
    /\ (forall m s'', (m < n)%nat -> menu_after args env m s = Some s'' -> next_of env s'' = GoesOn)
    /\ match next_of env s' with
       | Quits => menu_loop args env (S (length (se_stdin s))) s = Ret tt
       | Overruns => menu_loop args env (S (length (se_stdin s))) s = Undef
       | Ends => forall fuel, menu_loop args env fuel s = NoFuel
       | GoesOn => False
       end.
Proof.
  intros Hx Hj. remember (length (se_stdin s)) as k eqn:Ek.
  assert (length (se_stdin s) <= k)%nat as Hk by lia. clear Ek. revert s Hk.
  induction k as [k IH] using lt_wf_ind. intros s Hk.
  destruct (se_stdin s) as [|c line] eqn:E.
  { exists O, s. split; [lia|]. split; [done|]. split; [lia|]. unfold next_of. rewrite E. intros fuel. by apply menu_loop_eof. }
  pose proof (menu_step_cases args env Hx Hj s c line E) as Hs.
  destruct (Ascii.eqb c "4") eqn:E4; [|destruct (overruns _ c (discard_line line)) eqn:Eo].
  1-2: exists O, s; split; [lia|]; split; [done|]; split; [lia|]; unfold next_of; rewrite E, E4, ?Eo;
    cbn [menu_loop]; by rewrite Hs.
  destruct Hs as (s1 & Hs & Hl). rewrite E in Hl. destruct k as [|k]; [simpl in *; lia|].
  destruct (IH k ltac:(lia) s1 ltac:(simpl in *; lia)) as (n & s' & Hn & Ha & Hbefore & Hend).
  exists (S n), s'. split; [lia|]. split; [cbn; by rewrite Hs|]. split.
  - intros [|m] s'' Hm; cbn [menu_after]; [intros [= <-]; unfold next_of; by rewrite E, E4, Eo|].
    rewrite Hs. apply Hbefore. lia.
  - destruct (next_of env s'); [by rewrite (menu_loop_step args env _ s s1 Hs)..| |done].
    intros [|fuel]; [done|]. by rewrite (menu_loop_step args env fuel s s1 Hs).
Qed.

(** A client without a reachable server: a user who adds a task and quits, and
    one who types a date that is too long. *)
Definition offline (n : nat) : exchange_env :=
  {| ee_servers := [{| socket_ret := 3; connect_ret := -1; write_ret := -1 |}]; ee_resp := fun _ => [];
     ee_ready := fun _ _ => false; ee_lines := O; ee_fuel := 1%nat;
     ee_junk := {| mm_task := zeros TASK_LENGTH; mm_new_task := zeros TASK_LENGTH; mm_new_date := zeros DATE_LENGTH;
                   mm_new_task_status := 0; mm_mod_flags := 0 |} |}.
Definition one_server : client_args := {| cl_id := 5; cl_count := 1; cl_servers := [SERVER_INFO_INITIALISER] |}.
Definition typed (t : bytes) : session :=
  {| se_stdin := t; se_request_no := 0; se_response_no := 0; se_exchanges := O |}.
Definition add_and_quit : bytes := [Ascii.ascii_of_nat 49; LF] ++ ⟦"milk"⟧ ++ [LF] ++ ⟦"today"⟧ ++ [LF] ++ ⟦"4"⟧.

Lemma offline_ends s buf r : exists st x, send one_server offline s buf r = Ret (st, x).
Proof. eexists _, _. reflexivity. Qed.

Lemma offline_stack k : zlen (mm_new_task (ee_junk (offline k))) = TASK_LENGTH
  /\ zlen (mm_new_date (ee_junk (offline k))) = DATE_LENGTH.
Proof. done. Qed.

Lemma add_and_quit_starts : next_of offline (typed add_and_quit) = GoesOn.
Proof. by vm_compute. Qed.

Lemma add_and_quit_next : exists s', menu_after one_server offline 1 (typed add_and_quit) = Some s'
  /\ se_stdin s' = ⟦"4"⟧ /\ next_of offline s' = Quits.
Proof.
  assert (forall o, option_map (fun s => (se_stdin s, next_of offline s)) o = Some (⟦"4"⟧, Quits) ->
    exists s', o = Some s' /\ se_stdin s' = ⟦"4"⟧ /\ next_of offline s' = Quits) as H.
  { intros [s|]; [|done]. cbn [option_map]. intros [= Hi Hn]. by exists s. }
  apply H. by vm_compute.
Qed.

Lemma session_ends_witness : exists s',
  menu_after one_server offline 1 (typed add_and_quit) = Some s' /\ se_stdin s' = ⟦"4"⟧
  /\ menu_loop one_server offline (S (length add_and_quit)) (typed add_and_quit) = Ret tt.
Proof.
  destruct (session_ends one_server offline (typed add_and_quit) offline_ends offline_stack) as (n & s' & _ & Ha & Hb & He).
  destruct add_and_quit_next as (x & Ex & Hi & Hq). destruct n as [|[|n]].
  - cbn [menu_after] in Ha. injection Ha as <-. rewrite add_and_quit_starts in He. destruct He.
  - rewrite Ex in Ha. injection Ha as <-. rewrite Hq in He. exists x. split; [exact Ex|]. split; [exact Hi|exact He].
  - specialize (Hb 1%nat x ltac:(lia) Ex). rewrite Hq in Hb. discriminate Hb.
Defined.

(** * The configuration file *)

Definition config_block (s : bytes * Z) : bytes :=
  (⟦"Server: "⟧ ++ s.1) ++ LF :: (⟦"Port: "⟧ ++ fmt_d s.2) ++ LF :: ⟦"##"⟧ ++ [LF].
Definition config_text (l : list (bytes * Z)) : bytes := concat (map config_block l).

(** An address [%s] reads whole. *)
Definition address_ok (s : bytes * Z) : Prop :=
  text_ok s.1 /\ Forall (fun c => is_space c = false) s.1 /\ zlen s.1 <= 1000 /\ is_i32 s.2.

Definition config_server (s : bytes * Z) : server_info :=
  {| server_ip := overwrite s.1 (zeros 1024); port := s.2 |}.
Definition config_servers (l : list (bytes * Z)) : list server_info :=
  map config_server l ++ replicate (3 - length l) SERVER_INFO_INITIALISER.

Lemma text_ok_nonempty v : text_ok v -> v <> [].
Proof. by intros [_ H] ->. Qed.

(** A line of the file has no line feed and no NUL. *)
Definition line_char (c : ascii) : Prop := not_in [LF] c = true /\ not_nul c = true.

Lemma text_ok_line v : text_ok v -> Forall line_char v.
Proof.
  intros [H _]. eapply Forall_impl; [exact H|]. intros c Hc. unfold text_char in Hc.
  apply andb_true_iff in Hc as [Hi Hn]. split; [|done]. unfold not_in in *. simpl in *.
  destruct (Ascii.eqb c CR), (Ascii.eqb c LF); done.
Qed.

Lemma scan_word pre v : v <> [] -> Forall (fun c => is_space c = false) v ->
  (forall f s, sscanf (lit pre ++ f) (pre ++ s) = sscanf f s) ->
  sscanf (lit (pre ++ ⟦" "⟧) ++ [DStr]) (pre ++ ⟦" "⟧ ++ v ++ [LF]) = [VStr v].
Proof.
  intros Hne Hf Hpre. unfold lit. rewrite map_app, <- app_assoc. rewrite Hpre. cbn [app map is_space sscanf].
  assert (skip_spaces (⟦" "⟧ ++ v ++ [LF]) = v ++ [LF]) as E.
  { destruct Hf as [|c v Hc _]; [done|]. simpl. by rewrite Hc. }
  change (sscanf [DStr] (skip_spaces (⟦" "⟧ ++ v ++ [LF])) = [VStr v]). rewrite E. by rewrite sscanf_DStr.
Qed.

Abbreviation locals i t c l := {| cf_i := i; cf_temp := t; cf_count := c; cf_servers := l |}.

(** The three lines of a block. *)
Section Lines.
Variables (i count : Z) (temp : bytes) (l : list server_info).

Lemma config_line_server ip : ip <> [] -> Forall (fun c => is_space c = false) ip ->
  config_line (⟦"Server: "⟧ ++ ip ++ [LF]) (locals i temp count l)
  = l ← upd_server i (fun x => set_server_ip (overwrite ip (server_ip x)) x) l; Ret (locals i ip count l).
Proof.
  intros Hne Hf. unfold config_line.
  assert (sscanf (lit ⟦"Server: "⟧ ++ [DStr]) (⟦"Server: "⟧ ++ ip ++ [LF]) = [VStr ip]) as ->
    by by apply (scan_word ⟦"Server:"⟧).
  cbn [app starts_with Ascii.eqb Bool.eqb cf_i cf_temp cf_count cf_servers].
  destruct (upd_server _ _ _) as [l'| | |]; done.
Qed.

Lemma config_line_port p : is_i32 p ->
  config_line (⟦"Port: "⟧ ++ fmt_d p ++ [LF]) (locals i temp count l)
  = l ← upd_server i (set_port p) l; Ret (locals i (fmt_d p) count l).
Proof.
  intros Hp. unfold config_line.
  assert (sscanf (lit ⟦"Port: "⟧ ++ [DStr]) (⟦"Port: "⟧ ++ fmt_d p ++ [LF]) = [VStr (fmt_d p)]) as ->.
  { apply (scan_word ⟦"Port:"⟧); [by apply text_ok_nonempty, fmt_d_text; int_lia|apply fmt_d_no_space; int_lia|done]. }
  cbn [app starts_with Ascii.eqb Bool.eqb cf_i cf_temp cf_count cf_servers].
  by rewrite atoi_fmt_d.
Qed.

Lemma config_line_end : config_line (⟦"##"⟧ ++ [LF]) (locals i temp count l) = Ret (locals (i + 1) [] (i + 1) l).
Proof. done. Qed.
End Lines.

Lemma config_loop_line fuel t rest v : Forall line_char t ->
  (length t < 1023)%nat ->
  config_loop (S fuel) (t ++ LF :: rest) v = v ← config_line (t ++ [LF]) v; config_loop fuel rest v.
Proof.
  intros Ht Hl. cbn [config_loop]. rewrite line_of_text; [|by eapply Forall_impl; [exact Ht|intros ? []]|done].
  assert (cstr (t ++ [LF]) = t ++ [LF]) as E.
  { rewrite cstr_app; [done|]. eapply Forall_impl; [exact Ht|by intros ? []]. }
  assert (drop (length (t ++ [LF])) (t ++ LF :: rest) = rest) as E'.
  { change (LF :: rest) with ([LF] ++ rest). rewrite app_assoc. apply drop_app_length. }
  destruct (t ++ [LF]) eqn:Et; [by destruct t|]. rewrite <- Et in *. by rewrite E, E'.
Qed.

Lemma config_servers_length l : (length l <= 3)%nat -> length (config_servers l) = 3%nat.
Proof. intros. unfold config_servers. rewrite length_app, length_map, length_replicate. lia. Qed.

Lemma alter_middle {A} (f : A -> A) l1 x l2 : alter f (length l1) (l1 ++ x :: l2) = l1 ++ f x :: l2.
Proof. induction l1 as [|y l1 IH]; simpl; [done|]. f_equal. exact IH. Qed.

Lemma upd_server_at i f l : (i < length l)%nat -> upd_server (Z.of_nat i) f l = Ret (alter f i l).
Proof.
  intros Hi. unfold upd_server, zlen. rewrite (proj2 (Z.leb_le 0 _)), (proj2 (Z.ltb_lt _ _)) by lia.
  cbn [andb]. by rewrite Nat2Z.id.
Qed.

(** Filling in the next server. *)
Lemma config_servers_next l s : (length l < 3)%nat ->
  (l1 ← upd_server (zlen l) (fun x => set_server_ip (overwrite s.1 (server_ip x)) x) (config_servers l);
   upd_server (zlen l) (set_port s.2) l1) = Ret (config_servers (l ++ [s])).
Proof.
  intros Hl. unfold zlen. rewrite upd_server_at, bind_ret_l by (rewrite config_servers_length; lia).
  rewrite upd_server_at by (rewrite length_alter, config_servers_length; lia).
  unfold config_servers. rewrite map_app, length_app. cbn [map length]. rewrite <- app_assoc.
  replace (3 - length l)%nat with (S (3 - (length l + 1))) by lia. cbn [replicate].
  rewrite <- (length_map config_server l). rewrite !alter_middle. done.
Qed.

Lemma config_servers_full l f : zlen l = 3 -> upd_server (zlen l) f (config_servers l) = Undef.
Proof.
  intros Hl. unfold upd_server. rewrite Hl. unfold zlen in *. by rewrite config_servers_length by lia.
Qed.

(** Constant text. *)
Ltac line_literal := repeat (apply Forall_cons_2; [by split|]); apply Forall_nil_2.

Lemma address_lines s : address_ok s ->
  Forall line_char (⟦"Server: "⟧ ++ s.1) /\ (length (⟦"Server: "⟧ ++ s.1) < 1023)%nat
  /\ Forall line_char (⟦"Port: "⟧ ++ fmt_d s.2) /\ (length (⟦"Port: "⟧ ++ fmt_d s.2) < 1023)%nat.
Proof.
  intros (Ht & _ & Hl & Hp). unfold zlen in Hl. pose proof (fmt_d_length s.2) as Hf. unfold zlen in Hf.
  rewrite !length_app. split; [|split; [simpl; lia|split; [|simpl; lia]]]; apply Forall_app.
  - split; [line_literal|by apply text_ok_line].
  - split; [line_literal|apply text_ok_line, fmt_d_text; int_lia].
Qed.

Lemma config_block_step fuel k s rest temp : address_ok s -> (length k <= 3)%nat ->
  config_loop (S (S (S fuel))) (config_block s ++ rest) (locals (zlen k) temp (zlen k) (config_servers k))
  = if (length k <? 3)%nat
    then config_loop fuel rest (locals (zlen (k ++ [s])) [] (zlen (k ++ [s])) (config_servers (k ++ [s])))
    else Undef.
Proof.
  intros Hs Hk. destruct (address_lines s Hs) as (L1 & L1' & L2 & L2'). destruct Hs as (Ht & Hw & _ & Hp).
  assert (config_block s ++ rest = (⟦"Server: "⟧ ++ s.1) ++ LF :: (⟦"Port: "⟧ ++ fmt_d s.2) ++ LF :: ⟦"##"⟧ ++ LF :: rest) as ->.
  { unfold config_block. repeat (cbn [app]; rewrite <- ?app_assoc). reflexivity. }
  rewrite config_loop_line, <- (app_assoc ⟦"Server: "⟧) by done.
  rewrite config_line_server by (done || by apply text_ok_nonempty).
  destruct (Nat.ltb_spec (length k) 3) as [Hlt|Hge].
  - pose proof (config_servers_next k s Hlt) as Hnext. apply bind_Ret_inv in Hnext as (l1 & E1 & E2).
    rewrite E1, !bind_ret_l. rewrite config_loop_line, <- (app_assoc ⟦"Port: "⟧) by done.
    rewrite config_line_port, E2, !bind_ret_l by done.
    rewrite (config_loop_line fuel ⟦"##"⟧); [|line_literal|simpl; lia].
    rewrite config_line_end, bind_ret_l, zlen_snoc. done.
  - rewrite config_servers_full; [done|]. unfold zlen. lia.
Qed.

Lemma config_text_loop l : Forall address_ok l -> forall fuel k temp, (3 * length l < fuel)%nat -> (length k <= 3)%nat ->
  exists t, config_loop fuel (config_text l) (locals (zlen k) temp (zlen k) (config_servers k))
  = if (length (k ++ l) <=? 3)%nat
    then Ret (locals (zlen (k ++ l)) t (zlen (k ++ l)) (config_servers (k ++ l))) else Undef.
Proof.
  induction 1 as [|s l Hs Hl IH]; intros fuel k temp Hf Hk.
  - exists temp. rewrite app_nil_r, (proj2 (Nat.leb_le _ _)) by done. by destruct fuel; [lia|].
  - destruct fuel as [|[|[|fuel]]]; simpl in Hf; try lia.
    change (config_text (s :: l)) with (config_block s ++ config_text l).
    rewrite (config_block_step fuel k s (config_text l) temp Hs Hk).
    destruct (Nat.ltb_spec (length k) 3) as [Hlt|Hge].
    + destruct (IH fuel (k ++ [s]) [] ltac:(lia)) as [t E]; [rewrite length_app; simpl; lia|].
      exists t. rewrite E. by rewrite <- app_assoc.
    + exists []. rewrite length_app. cbn [length]. rewrite (proj2 (Nat.leb_gt _ _)) by lia. done.
Qed.

(** C33: the configuration file of the client is read back. For a file with one
    block for each server, in the format of [config/client_config], the client
    knows exactly those servers, in that order, when there are at most three; a
    fourth block writes behind the array. *)
Theorem config_roundtrip l : Forall address_ok l ->
  parse_and_prepare_server_array (Some (config_text l)) 0 (replicate 3 SERVER_INFO_INITIALISER)
  = if (length l <=? 3)%nat then Ret (zlen l, config_servers l) else Undef.
Proof.
  intros Hl. unfold parse_and_prepare_server_array. cbn [deref]. rewrite bind_ret_l.
  assert (3 * length l <= length (config_text l))%nat as Hlen.
  { induction Hl as [|s l _ _ IH]; [done|]. unfold config_text in *. cbn [map concat]. rewrite length_app.
    assert (3 <= length (config_block s))%nat; [|cbn [length]; lia].
    unfold config_block. repeat (rewrite ?length_app, ?length_cons). lia. }
  destruct (config_text_loop l Hl (S (length (config_text l))) [] [] ltac:(lia) ltac:(simpl; lia)) as [t E].
  change (config_servers []) with (replicate 3 SERVER_INFO_INITIALISER) in E. change (zlen (@nil (bytes * Z))) with 0 in E.
  rewrite E. cbn [app]. by destruct (length l <=? 3)%nat.
Qed.

Definition demo_servers : list (bytes * Z) :=
  [(⟦"127.0.0.1"⟧, 23456); (⟦"127.0.0.1"⟧, 23457); (⟦"10.0.0.7"⟧, 23458)].

Lemma demo_servers_ok : Forall address_ok demo_servers.
Proof. apply (bool_decide_eq_true_1 _). by vm_compute. Qed.

Lemma config_roundtrip_witness :
  parse_and_prepare_server_array (Some (config_text demo_servers)) 0 (replicate 3 SERVER_INFO_INITIALISER)
  = Ret (3, config_servers demo_servers).
Proof. exact (config_roundtrip demo_servers demo_servers_ok). Defined.
