(* ===== verification/Reply.v ===== *)
(** The replies of a server as its clients and its fault detector read them:
    [write_client_responce] of [src/server.c] against [get_response_from_server]
    of [src/util.c]. *)
From S2P Require Import Prelude CLib Iface Util Db Replica.

(** * One line *)

Definition reply_line (name v : bytes) : bytes := name ++ ⟦": "⟧ ++ v ++ CRLF.

(** A word [%s] reads whole. *)
Record word_ok (v : bytes) : Prop := {
  wd_nonempty : v <> [];
  wd_chars : Forall (fun c => is_space c = false) v;
  wd_nul : Forall (fun c => not_nul c = true) v;
  wd_len : zlen v < TASK_LENGTH
}.

Lemma digits_word v : Forall (fun c => is_space c = false) v -> text_ok v ->
  zlen v <= 21 -> word_ok v.
Proof.
  intros Hs Ht Hl. split; [|done|by apply text_ok_nul_free|unfold TASK_LENGTH; lia].
  by destruct v, Ht.
Qed.

Lemma fmt_d_word n : LONG_MIN <= n <= LONG_MAX -> word_ok (fmt_d n).
Proof.
  intros Hn. pose proof (fmt_d_text n Hn) as Ht.
  apply digits_word; [by apply fmt_d_no_space|done|apply fmt_d_length].
Qed.

Lemma fmt_u_word n : is_u64 n -> word_ok (fmt_u n).
Proof.
  intros Hn. pose proof (fmt_u_text n Hn) as Ht. pose proof (fmt_u_length n).
  apply digits_word; [by apply fmt_u_no_space|done|lia].
Qed.

Lemma word_sscanf v rest : word_ok v -> sscanf [DWs; DStr] (⟦" "⟧ ++ v ++ CRLF ++ rest) = [VStr v].
Proof.
  intros [Hn Hs _ _]. cbn [sscanf].
  assert (skip_spaces (⟦" "⟧ ++ v ++ CRLF ++ rest) = v ++ CRLF ++ rest) as ->.
  { destruct Hs as [|c v Hc _]; [done|]. simpl. by rewrite Hc. }
  change (match span (fun c => negb (is_space c)) (skip_spaces (v ++ CRLF ++ rest)) with
          | ([], _) => [] | (a, r) => VStr a :: [] end) with (sscanf [DStr] (v ++ CRLF ++ rest)).
  by rewrite sscanf_DStr.
Qed.

(** The line as it lies in the zeroed buffer. *)
Definition in_buf (line z : bytes) : bytes := line ++ NUL :: z.

Lemma line_c_string name v z : Forall (fun c => not_nul c = true) name -> word_ok v ->
  c_string (in_buf (reply_line name v) z) = Ret (reply_line name v).
Proof.
  intros Hn [_ _ Hv _]. apply c_string_app_nul. unfold reply_line.
  repeat (apply Forall_app; split); try done; repeat constructor.
Qed.

(** Reads the line of one of the known names. *)
Ltac reply_name Hv := unfold scan_str; rewrite line_c_string by first [done | repeat constructor];
  rewrite bind_ret_l; unfold reply_line;
  match goal with |- context [sscanf ?f ?s] =>
    let f' := eval vm_compute in f in change f with f' end;
  match goal with |- context [sscanf ?f (?n ++ ⟦": "⟧ ++ ?v ++ CRLF)] =>
    change (sscanf f (n ++ ⟦": "⟧ ++ v ++ CRLF)) with (sscanf [DWs; DStr] (⟦" "⟧ ++ v ++ CRLF ++ [])) end;
  rewrite word_sscanf by done;
  cbv iota; rewrite (proj2 (Z.ltb_lt _ _)) by (exact (wd_len _ Hv)).

Section Lines.
Variable v : bytes.
Hypothesis Hv : word_ok v.

Lemma scan_status z dst :
  scan_str ⟦"Status"⟧ (in_buf (reply_line ⟦"Status"⟧ v) z) TASK_LENGTH dst = Ret v.
Proof using Hv. reply_name Hv. done. Qed.
Lemma scan_req z dst :
  scan_str ⟦"Request No"⟧ (in_buf (reply_line ⟦"Request No"⟧ v) z) TASK_LENGTH dst = Ret v.
Proof using Hv. reply_name Hv. done. Qed.
Lemma scan_client z dst :
  scan_str ⟦"Client ID"⟧ (in_buf (reply_line ⟦"Client ID"⟧ v) z) TASK_LENGTH dst = Ret v.
Proof using Hv. reply_name Hv. done. Qed.
Lemma scan_key z dst :
  scan_str ⟦"Key"⟧ (in_buf (reply_line ⟦"Key"⟧ v) z) TASK_LENGTH dst = Ret v.
Proof using Hv. reply_name Hv. done. Qed.
Lemma scan_state z dst :
  scan_str ⟦"State"⟧ (in_buf (reply_line ⟦"State"⟧ v) z) TASK_LENGTH dst = Ret v.
Proof using Hv. reply_name Hv. done. Qed.
End Lines.

(** Decides which names a line starts with. *)
Ltac starts := repeat match goal with |- context [starts_with ?p (in_buf (reply_line ?n ?v) ?z)] =>
    change (starts_with p (in_buf (reply_line n v) z)) with (starts_with p n) end;
  repeat match goal with |- context [starts_with ?p ?n] =>
    let b := eval vm_compute in (starts_with p n) in change (starts_with p n) with b end;
  cbv iota; rewrite ?bind_ret_l; cbv beta iota zeta; rewrite ?bind_ret_l; cbv beta iota zeta.

Section LineEffects.
Variable v : bytes.
Hypothesis Hv : word_ok v.
Variable z : bytes.
Variable r : message_response.

Lemma line_status : response_line (in_buf (reply_line ⟦"Status"⟧ v) z) r = Ret (set_resp_status r v).
Proof using Hv. unfold response_line. starts. rewrite scan_status by done. by starts. Qed.
Lemma line_req : response_line (in_buf (reply_line ⟦"Request No"⟧ v) z) r
  = Ret (set_resp_req_no r (atoi v)).
Proof using Hv. unfold response_line. starts. rewrite scan_req by done. by starts. Qed.
Lemma line_client : response_line (in_buf (reply_line ⟦"Client ID"⟧ v) z) r
  = Ret (set_resp_client_id r (atoi v)).
Proof using Hv. unfold response_line. starts. rewrite scan_client by done. by starts. Qed.
Lemma line_key : response_line (in_buf (reply_line ⟦"Key"⟧ v) z) r
  = Ret (set_resp_hash_key r (strtoul 10 v).1).
Proof using Hv. unfold response_line. starts. rewrite scan_key by done. by starts. Qed.
Lemma line_state : response_line (in_buf (reply_line ⟦"State"⟧ v) z) r
  = Ret (set_resp_state r (atoi v)).
Proof using Hv. unfold response_line. starts. rewrite scan_state by done. by starts. Qed.
End LineEffects.

(** The message line is skipped. *)
Lemma line_msg v z r : response_line (in_buf (reply_line ⟦"Msg"⟧ v) z) r = Ret r.
Proof. unfold response_line. by starts. Qed.

(** * The loop *)

(** A line the reader takes whole. *)
Definition line_ok (line : bytes) : Prop :=
  exists t, line = t ++ [LF] /\ Forall (fun c => not_in [LF] c = true) t /\ zlen line < MAX_LENGTH.

Lemma reply_line_ok name v : Forall (fun c => not_in [LF] c = true) name ->
  Forall (fun c => not_in [LF] c = true) v -> zlen name + zlen v < 8000 -> line_ok (reply_line name v).
Proof.
  intros Hn Hv Hl. exists (name ++ ⟦": "⟧ ++ v ++ [CR]). split; [|split].
  - unfold reply_line. by rewrite <- !app_assoc.
  - repeat (apply Forall_app; split); try done; repeat constructor.
  - unfold reply_line, MAX_LENGTH. rewrite !zlen_app. change (zlen ⟦": "⟧) with 2.
    change (zlen CRLF) with 2. lia.
Qed.

Lemma overwrite_in_buf line : zlen line < MAX_LENGTH ->
  overwrite line (zeros MAX_LENGTH) = in_buf line (zeros (MAX_LENGTH - 1 - zlen line)).
Proof.
  intros Hl. unfold overwrite, in_buf, zeros, MAX_LENGTH, zlen in *.
  rewrite drop_replicate. do 1 f_equal.
  replace (Z.to_nat 8192 - length line)%nat with (S (Z.to_nat (8192 - 1 - Z.of_nat (length line))))
    by lia. done.
Qed.

Lemma response_step f sb r line rest r' : sb_wf sb -> pending sb = line ++ rest -> line_ok line ->
  starts_with CRLF line = false -> (length line > 1)%nat ->
  (forall z, response_line (in_buf line z) r = Ret r') ->
  exists sb', sb_wf sb' /\ pending sb' = rest
    /\ get_response_loop (S f) sb r = get_response_loop f sb' r'.
Proof.
  intros Hw Hp (t & -> & Ht & Hlen) Hs Hl Hr.
  assert (line_of (Z.to_nat MAX_LENGTH) (pending sb) = t ++ [LF]) as Hline.
  { rewrite Hp, <- app_assoc. simpl app. apply line_of_text; [done|].
    unfold zlen in Hlen. rewrite length_app in Hlen. simpl in Hlen. lia. }
  destruct (sock_readline_loop_spec (Z.to_nat MAX_LENGTH) sb [] Hw) as (sb' & E & Hw' & Hp').
  rewrite Hline in *. rewrite Hp in Hp'. rewrite drop_app_length in Hp'.
  exists sb'. split; [done|]. split; [done|]. cbn [get_response_loop].
  unfold sock_readline. rewrite E, bind_ret_l, app_nil_l. cbv beta iota zeta.
  rewrite overwrite_in_buf by done.
  assert ((zlen (t ++ [LF]) =? 0) = false) as -> by (rewrite zlen_snoc; pose proof (zlen_nonneg t); lia).
  assert (starts_with CRLF (in_buf (t ++ [LF]) (zeros (MAX_LENGTH - 1 - zlen (t ++ [LF])))) = false) as ->.
  { unfold in_buf. clear -Hs Hl. rewrite length_app in Hl. simpl in Hl.
    destruct t as [|a [|b t]]; simpl in *; [lia| |done]. done. }
  by rewrite Hr, bind_ret_l.
Qed.

Lemma response_blank f sb r rest : sb_wf sb -> pending sb = CRLF ++ rest ->
  get_response_loop (S f) sb r = Ret (0, r).
Proof.
  intros Hw Hp.
  assert (line_of (Z.to_nat MAX_LENGTH) (pending sb) = CRLF) as Hline.
  { rewrite Hp. change (CRLF ++ rest) with ([CR] ++ LF :: rest). apply line_of_text; [by repeat constructor|].
    unfold MAX_LENGTH. simpl. lia. }
  destruct (sock_readline_loop_spec (Z.to_nat MAX_LENGTH) sb [] Hw) as (sb' & E & _).
  rewrite Hline in *. cbn [get_response_loop]. unfold sock_readline.
  rewrite E, bind_ret_l, app_nil_l. cbv beta iota zeta. by rewrite overwrite_in_buf by done.
Qed.

Lemma response_eof f sb r : sb_wf sb -> pending sb = [] -> get_response_loop (S f) sb r = Ret (-1, r).
Proof.
  intros Hw Hp. destruct (sock_readline_loop_spec (Z.to_nat MAX_LENGTH) sb [] Hw) as (sb' & E & _).
  rewrite Hp in E. cbn [get_response_loop]. unfold sock_readline. rewrite E, bind_ret_l.
  by destruct (Z.to_nat MAX_LENGTH).
Qed.

(** * The reply *)

Lemma atoi_fmt_u n : 0 <= n <= LONG_MAX -> atoi (fmt_u n) = i32 n.
Proof.
  intros Hn. assert (fmt_u n = fmt_d n) as ->.
  { unfold fmt_d. by rewrite (proj2 (Z.ltb_ge n 0)) by lia. }
  unfold atoi. rewrite strtol_fmt_d by (auto || int_lia). done.
Qed.

Lemma space_free_lf v : Forall (fun c => is_space c = false) v -> Forall (fun c => not_in [LF] c = true) v.
Proof.
  intros H. eapply Forall_impl; [done|]. intros c Hc. unfold not_in. simpl.
  destruct (Ascii.eqb_spec c LF) as [->|_]; done.
Qed.

Definition reply_lines (c : client_ctx_t) (status msg : bytes) (st : Z) : list (bytes * bytes) :=
  [(⟦"Status"⟧, status); (⟦"Client ID"⟧, fmt_d (client_id c)); (⟦"Request No"⟧, fmt_u (req_no (req c)));
   (⟦"Msg"⟧, msg)]
  ++ (if msg_type (req c) =? MSG_ADD then [(⟦"Key"⟧, fmt_u (hash_key (req c)))]
      else if msg_type (req c) =? MSG_HEARTBEAT then [(⟦"State"⟧, fmt_d st)] else []).

Lemma response_text_eq c status msg st : response_text c status msg st
  = concat (map (fun '(n, v) => reply_line n v) (reply_lines c status msg st))
    ++ (if msg_type (req c) =? MSG_HEARTBEAT then [] else CRLF).
Proof.
  unfold response_text, reply_lines, header.
  destruct (msg_type (req c) =? MSG_ADD) eqn:E1; zbool.
  - rewrite E1. unfold reply_line. cbn [map concat app]. rewrite <- !app_assoc, ?app_nil_l. done.
  - destruct (msg_type (req c) =? MSG_HEARTBEAT); unfold reply_line; cbn [map concat app];
      rewrite ?app_nil_r, <- !app_assoc; done.
Qed.

(** What the reader keeps of one line. *)
Definition line_effect (l : bytes * bytes) (r : message_response) : message_response :=
  let '(n, v) := l in
  if bytes_eqb n ⟦"Status"⟧ then set_resp_status r v
  else if bytes_eqb n ⟦"Client ID"⟧ then set_resp_client_id r (atoi v)
  else if bytes_eqb n ⟦"Request No"⟧ then set_resp_req_no r (atoi v)
  else if bytes_eqb n ⟦"Key"⟧ then set_resp_hash_key r (strtoul 10 v).1
  else if bytes_eqb n ⟦"State"⟧ then set_resp_state r (atoi v)
  else r.

(** A line of a reply that is read without loss. *)
Definition known_line (l : bytes * bytes) : Prop :=
  line_ok (reply_line l.1 l.2) /\ starts_with CRLF (reply_line l.1 l.2) = false
  /\ forall z r, response_line (in_buf (reply_line l.1 l.2) z) r = Ret (line_effect l r).

Lemma known_lines ls : forall f sb r rest, sb_wf sb -> Forall known_line ls ->
  pending sb = concat (map (fun '(n, v) => reply_line n v) ls) ++ rest ->
  exists sb', sb_wf sb' /\ pending sb' = rest
    /\ get_response_loop (length ls + f) sb r
       = get_response_loop f sb' (fold_left (fun r l => line_effect l r) ls r).
Proof.
  induction ls as [|[n v] ls IH]; intros f sb r rest Hw Hk Hp; [by exists sb|].
  apply Forall_cons in Hk as [(Hok & Hs & He) Hk]. simpl in Hp. rewrite <- app_assoc in Hp.
  destruct (response_step (length ls + f) sb r _ _ (line_effect (n, v) r) Hw Hp Hok Hs)
    as (sb1 & Hw1 & Hp1 & E); [|by intros z; apply He|].
  - unfold reply_line. rewrite !length_app. simpl. lia.
  - destruct (IH f sb1 (line_effect (n, v) r) rest Hw1 Hk Hp1) as (sb2 & Hw2 & Hp2 & E2).
    exists sb2. split; [done|]. split; [done|]. simpl length. simpl Nat.add. by rewrite E, E2.
Qed.

Lemma known_word n v : word_ok v -> Forall (fun c => not_in [LF] c = true) n -> zlen n < 100 ->
  starts_with CRLF (reply_line n v) = false ->
  (forall z r, response_line (in_buf (reply_line n v) z) r = Ret (line_effect (n, v) r)) ->
  known_line (n, v).
Proof.
  intros Hv Hn Hl Hs He. split; [|done]. apply reply_line_ok; [done| |].
  - apply space_free_lf, Hv.
  - destruct Hv. unfold TASK_LENGTH in *. simpl. lia.
Qed.

Record reply_ok (c : client_ctx_t) (status msg : bytes) (st : Z) : Prop := {
  rp_status : word_ok status;
  rp_msg : Forall (fun ch => not_in [LF] ch = true) msg;
  rp_msg_len : zlen msg <= 1000;
  rp_client : is_i32 (client_id c);
  rp_req : 0 <= req_no (req c) < 2 ^ 32;
  rp_key : is_u64 (hash_key (req c));
  rp_state : is_i32 st
}.

Lemma reply_known c status msg st : reply_ok c status msg st ->
  Forall known_line (reply_lines c status msg st).
Proof.
  intros [Hs Hm Hml Hc Hr Hk Hst].
  assert (word_ok (fmt_d (client_id c))) by (apply fmt_d_word; int_lia).
  assert (word_ok (fmt_u (req_no (req c)))) by (apply fmt_u_word; int_lia).
  apply Forall_app; split; [repeat (apply Forall_cons; split); [..|by apply Forall_nil]|].
  1-3: apply known_word; [assumption|by repeat constructor|done|done|intros].
  - by apply line_status.
  - by apply line_client.
  - by apply line_req.
  - split; [|split; [done|intros; apply line_msg]].
    apply reply_line_ok; [by repeat constructor|done|]. change (3 + zlen msg < 8000). lia.
  - destruct (_ =? MSG_ADD); [|destruct (_ =? _)];
      [apply Forall_cons; split; [|by apply Forall_nil]..|by apply Forall_nil].
    + apply known_word; [by apply fmt_u_word|by repeat constructor|done|done|].
      intros. apply line_key. by apply fmt_u_word.
    + apply known_word; [apply fmt_d_word; int_lia|by repeat constructor|done|done|].
      intros. apply line_state. apply fmt_d_word. int_lia.
Qed.

(** What the client keeps of the whole reply. *)
Definition reply_read (c : client_ctx_t) (status : bytes) (st : Z) (r : message_response)
  : message_response :=
  {| resp_hash_key := if msg_type (req c) =? MSG_ADD then hash_key (req c) else resp_hash_key r;
     resp_client_id := client_id c; resp_status := status; resp_req_no := i32 (req_no (req c));
     resp_state := if msg_type (req c) =? MSG_HEARTBEAT then st else resp_state r |}.

Lemma reply_lines_read c status msg st r : reply_ok c status msg st ->
  fold_left (fun r l => line_effect l r) (reply_lines c status msg st) r = reply_read c status st r.
Proof.
  intros [Hs Hm Hml Hc Hr Hk Hst]. unfold reply_lines. rewrite fold_left_app.
  match goal with |- context [fold_left ?f (_ :: _) r] =>
    change (fold_left f _ r) with (set_resp_req_no (set_resp_client_id (set_resp_status r status)
      (atoi (fmt_d (client_id c)))) (atoi (fmt_u (req_no (req c))))) end.
  rewrite atoi_fmt_d by done. rewrite atoi_fmt_u by int_lia. unfold reply_read.
  destruct (msg_type (req c) =? MSG_ADD) eqn:E.
  - match goal with |- fold_left ?f ?l ?x = _ =>
      change (fold_left f l x) with (set_resp_hash_key x (strtoul 10 (fmt_u (hash_key (req c)))).1) end.
    rewrite strtoul_fmt_u by auto. zbool. by rewrite E.
  - destruct (msg_type (req c) =? MSG_HEARTBEAT); [|done].
    match goal with |- fold_left ?f ?l ?x = _ =>
      change (fold_left f l x) with (set_resp_state x (atoi (fmt_d st))) end.
    by rewrite atoi_fmt_d.
Qed.

Lemma zlen_reply_line n v : zlen (reply_line n v) = zlen n + zlen v + 4.
Proof.
  unfold reply_line. rewrite !zlen_app. change (zlen ⟦": "⟧) with 2. change (zlen CRLF) with 2. lia.
Qed.

Lemma response_text_short c status msg st : reply_ok c status msg st ->
  zlen (response_text c status msg st) < MAX_LENGTH.
Proof.
  intros [[_ _ _ Hs] _ Hml _ _ _ _]. rewrite response_text_eq, zlen_app.
  pose proof (fmt_d_length (client_id c)). pose proof (fmt_u_length (req_no (req c))).
  pose proof (fmt_u_length (hash_key (req c))). pose proof (fmt_d_length st).
  unfold reply_lines. rewrite map_app, concat_app, zlen_app. cbn [map concat].
  rewrite !zlen_app, !zlen_reply_line. change (zlen ⟦"Status"⟧) with 6.
  change (zlen ⟦"Client ID"⟧) with 9. change (zlen ⟦"Request No"⟧) with 10. change (zlen ⟦"Msg"⟧) with 3.
  unfold MAX_LENGTH, TASK_LENGTH in *. change (@zlen ascii []) with 0.
  destruct (_ =? MSG_ADD), (_ =? MSG_HEARTBEAT); cbn [map concat];
    rewrite ?zlen_app, ?zlen_reply_line; change (zlen ⟦"Key"⟧) with 3;
    change (zlen ⟦"State"⟧) with 5; change (zlen CRLF) with 2; change (@zlen ascii []) with 0; lia.
Qed.

Lemma write_response_ok c status msg st : reply_ok c status msg st ->
  write_client_responce c status msg st = Some (response_text c status msg st).
Proof.
  intros H. pose proof (response_text_short c status msg st H) as Hl. unfold write_client_responce.
  cbv zeta. rewrite (proj2 (Z.ltb_ge _ _)) by lia. f_equal. unfold snprintf.
  rewrite ztake_app_le by (rewrite zlen_ztake by done; unfold MAX_LENGTH in *; lia).
  unfold ztake. rewrite take_take, take_ge; [done|]. unfold zlen, MAX_LENGTH in *. lia.
Qed.

(** The reader on the bytes of a reply. *)
Lemma response_read c status msg st f input rest r : reply_ok c status msg st -> clean input ->
  stream input = response_text c status msg st ++ rest ->
  (msg_type (req c) = MSG_HEARTBEAT -> rest = []) ->
  get_response_from_server (6 + f) input r
  = Ret (if msg_type (req c) =? MSG_HEARTBEAT then -1 else 0, reply_read c status st r).
Proof.
  intros H Hc Hs Hrest. rewrite response_text_eq, <- app_assoc in Hs.
  unfold get_response_from_server. rewrite <- (init_buf_fd_pending input) in Hs.
  set (ls := reply_lines c status msg st) in *.
  assert (exists g, (6 + f = length ls + S g)%nat) as (g & Hg).
  { clear. unfold ls, reply_lines. destruct (_ =? MSG_ADD); [|destruct (_ =? _)].
    - exists f. reflexivity. - exists f. reflexivity. - exists (S f). reflexivity. }
  destruct (known_lines ls (S g) (init_buf_fd input) r _ (init_buf_fd_wf _ Hc)
    (reply_known c status msg st H) Hs) as (sb & Hw & Hp & E'). rewrite Hg, E'.
  unfold ls. rewrite reply_lines_read by done.
  destruct (msg_type (req c) =? MSG_HEARTBEAT) eqn:E; zbool.
  - rewrite Hrest in Hp by done. by apply response_eof.
  - by eapply response_blank.
Qed.

Lemma parse_ok_reply c status st r :
  parse_response_from_server (reply_read c status st r) (client_id c)
  = if starts_with ⟦"OK"⟧ status then 0 else if starts_with ⟦"FAIL"⟧ status then -1 else 0.
Proof. unfold parse_response_from_server. cbn [resp_client_id reply_read resp_status]. by rewrite Z.eqb_refl. Qed.

(** C30: the reply protocol. Every reply fits its buffer, and whatever way the
    network cuts its bytes the reader of the clients recovers the status, the
    client id, the request number and, for an addition, the key of the task;
    the verdict of the client is then that of the status.  The reply to a
    heartbeat carries the state, but has no empty line at its end, so that the
    reader stores the fields and still reports a failure. *)
Theorem reply_roundtrip c status msg st f input rest r :
  reply_ok c status msg st -> clean input ->
  (msg_type (req c) = MSG_HEARTBEAT -> rest = []) ->
  option_map (fun b => b ++ rest) (write_client_responce c status msg st) = Some (stream input) ->
  exists r', get_response_from_server (6 + f) input r
             = Ret (if msg_type (req c) =? MSG_HEARTBEAT then -1 else 0, r')
    /\ resp_status r' = status /\ resp_client_id r' = client_id c
    /\ resp_req_no r' = i32 (req_no (req c))
    /\ (msg_type (req c) = MSG_ADD -> resp_hash_key r' = hash_key (req c))
    /\ (msg_type (req c) = MSG_HEARTBEAT -> resp_state r' = st)
    /\ parse_response_from_server r' (client_id c)
       = (if starts_with ⟦"OK"⟧ status then 0 else if starts_with ⟦"FAIL"⟧ status then -1 else 0).
Proof.
  intros H Hc Hrest Hw. rewrite write_response_ok in Hw by done. injection Hw as Hw.
  exists (reply_read c status st r). rewrite (response_read c status msg st f input rest r) by done.
  do 4 (split; [done|]). split; [|split].
  - cbn [reply_read resp_hash_key]. by intros ->.
  - cbn [reply_read resp_state]. by intros ->.
  - apply parse_ok_reply.
Qed.

(** The reply to an addition, in two chunks with an interrupt between them. *)
Definition added_ctx : client_ctx_t :=
  {| cc_fd := 5; client_id := 3; is_backlog := false;
     req := set_req_no 7 (set_hash_key 99 (set_msg_type MSG_ADD CLIENT_REQUEST_INITIALISER)) |}.
Definition added_text : bytes := response_text added_ctx ⟦"OK"⟧ ⟦"Success"⟧ 0.

Lemma ok_word : word_ok ⟦"OK"⟧.
Proof. by split; [|repeat constructor..|]. Qed.

Lemma added_ok : reply_ok added_ctx ⟦"OK"⟧ ⟦"Success"⟧ 0.
Proof. split; [apply ok_word|by repeat constructor|done|done|done|done|done]. Qed.

Lemma reply_roundtrip_witness :
  exists r', get_response_from_server 6 [Chunk (take 9 added_text); Eintr; Chunk (drop 9 added_text)]
    {| resp_hash_key := 0; resp_client_id := 0; resp_status := []; resp_req_no := 0; resp_state := 0 |}
    = Ret (0, r') /\ resp_hash_key r' = 99 /\ resp_req_no r' = 7.
Proof.
  destruct (reply_roundtrip added_ctx ⟦"OK"⟧ ⟦"Success"⟧ 0 0
    [Chunk (take 9 added_text); Eintr; Chunk (drop 9 added_text)] []
    {| resp_hash_key := 0; resp_client_id := 0; resp_status := []; resp_req_no := 0; resp_state := 0 |})
    as (r' & E & _ & _ & H1 & H2 & _ & _).
  - exact added_ok.
  - by repeat constructor.
  - done.
  - by vm_compute.
  - exists r'. split; [exact E|]. split; [by apply H2|exact H1].
Defined.
