(* ===== verification/RepMgr.v ===== *)
(** [src/replication_manager.c]: the membership of the replicas, the election of
    the primary and the recovery of a replica, driven by the reports of the
    local fault detectors. *)
From S2P Require Import Prelude CLib Iface Util Request.

(** [replica_node] and [struct membership_data], one record per replica. *)
Record replica_node := {
  nd_state : Z;              (* enum replica_state *)
  nd_server_state : Z;
  nd_last_heartbeat : Z;
  nd_factory : server_info;
  nd_server : server_info;
  server_status : Z;
  needs_checkpoint : Z
}.

(** The globals of the process; [lock_held]: the mutex [lock] is taken. *)
Record rep_manager := {
  node : list replica_node;
  num_replicas : Z;
  checkpoint_freq : Z;
  mode : Z;
  primary_replica_id : Z;
  num_servers : Z;
  lock_held : bool;
  rm_net : net
}.

Definition set_nd_state (v : Z) (n : replica_node) : replica_node :=
  {| nd_state := v; nd_server_state := nd_server_state n; nd_last_heartbeat := nd_last_heartbeat n;
     nd_factory := nd_factory n; nd_server := nd_server n; server_status := server_status n;
     needs_checkpoint := needs_checkpoint n |}.
Definition set_nd_report (hb st : Z) (n : replica_node) : replica_node :=
  {| nd_state := nd_state n; nd_server_state := st; nd_last_heartbeat := hb;
     nd_factory := nd_factory n; nd_server := nd_server n; server_status := server_status n;
     needs_checkpoint := needs_checkpoint n |}.
Definition set_nd_status (v : Z) (n : replica_node) : replica_node :=
  {| nd_state := nd_state n; nd_server_state := nd_server_state n;
     nd_last_heartbeat := nd_last_heartbeat n; nd_factory := nd_factory n;
     nd_server := nd_server n; server_status := v; needs_checkpoint := needs_checkpoint n |}.
Definition set_nd_chkpt (v : Z) (n : replica_node) : replica_node :=
  {| nd_state := nd_state n; nd_server_state := nd_server_state n;
     nd_last_heartbeat := nd_last_heartbeat n; nd_factory := nd_factory n;
     nd_server := nd_server n; server_status := server_status n; needs_checkpoint := v |}.
Definition set_nd_addr (f s : server_info) (n : replica_node) : replica_node :=
  {| nd_state := nd_state n; nd_server_state := nd_server_state n;
     nd_last_heartbeat := nd_last_heartbeat n; nd_factory := f;
     nd_server := s; server_status := server_status n; needs_checkpoint := needs_checkpoint n |}.

Definition set_node_list (l : list replica_node) (d : rep_manager) : rep_manager :=
  {| node := l; num_replicas := num_replicas d; checkpoint_freq := checkpoint_freq d;
     mode := mode d; primary_replica_id := primary_replica_id d; num_servers := num_servers d;
     lock_held := lock_held d; rm_net := rm_net d |}.
Definition set_mode_int (v : Z) (d : rep_manager) : rep_manager :=
  {| node := node d; num_replicas := num_replicas d; checkpoint_freq := checkpoint_freq d;
     mode := v; primary_replica_id := primary_replica_id d; num_servers := num_servers d;
     lock_held := lock_held d; rm_net := rm_net d |}.
Definition set_primary (v : Z) (d : rep_manager) : rep_manager :=
  {| node := node d; num_replicas := num_replicas d; checkpoint_freq := checkpoint_freq d;
     mode := mode d; primary_replica_id := v; num_servers := num_servers d;
     lock_held := lock_held d; rm_net := rm_net d |}.
Definition set_num_servers (v : Z) (d : rep_manager) : rep_manager :=
  {| node := node d; num_replicas := num_replicas d; checkpoint_freq := checkpoint_freq d;
     mode := mode d; primary_replica_id := primary_replica_id d; num_servers := v;
     lock_held := lock_held d; rm_net := rm_net d |}.
Definition set_lock (v : bool) (d : rep_manager) : rep_manager :=
  {| node := node d; num_replicas := num_replicas d; checkpoint_freq := checkpoint_freq d;
     mode := mode d; primary_replica_id := primary_replica_id d; num_servers := num_servers d;
     lock_held := v; rm_net := rm_net d |}.
Definition set_rm_net (v : net) (d : rep_manager) : rep_manager :=
  {| node := node d; num_replicas := num_replicas d; checkpoint_freq := checkpoint_freq d;
     mode := mode d; primary_replica_id := primary_replica_id d; num_servers := num_servers d;
     lock_held := lock_held d; rm_net := v |}.

(** [data.node[i]]: defined for an index inside the array. *)
Definition node_at (i : Z) (d : rep_manager) : outcome replica_node :=
  if 0 <=? i then deref (node d !! Z.to_nat i) else Undef.
Definition upd_node (i : Z) (f : replica_node -> replica_node) (d : rep_manager)
  : outcome rep_manager :=
  _ ← node_at i d; Ret (set_node_list (alter f (Z.to_nat i) (node d)) d).

Section RepMgr.
(** The results of the network calls, by attempt. *)
Variable env : nat -> net_step.
(** What the stack holds in the buffer of [restart_server], which is not
    cleared. *)
Variable junk : bytes.

(** * Messages *)

(** The other two replicas, as the loop finds them. *)
Definition other_replicas (replica_id : Z) : Z * Z :=
  fold_left (fun '(a, b) i =>
    if i =? replica_id then (a, b)
    else if a =? -1 then (i, b)
    else if b =? -1 then (a, i) else (a, b)) [0; 1; 2] (-1, -1).

Definition fill_message_for_primary_election (replica_id : Z) (d : rep_manager) : outcome bytes :=
  let '(mode_rep, st) :=
    if mode d =? 0 then (PASSIVE_REP, PASSIVE_PREPRIMARY)
    else if mode d =? 1 then (ACTIVE_REP, ACTIVE_RUNNING)
    else (UNKNOWN_REP, UNKNOWN_STATE) in
  let '(id_1, id_2) := other_replicas replica_id in
  n1 ← node_at id_1 d;
  n2 ← node_at id_2 d;
  ip1 ← c_string (server_ip (nd_server n1));
  ip2 ← c_string (server_ip (nd_server n2));
  Ret (⟦"Replica ID: "⟧ ++ fmt_d replica_id ++ CRLF
       ++ ⟦"Factory Req: "⟧ ++ fmt_d CHANGE_STATE ++ CRLF
       ++ ⟦"REP MODE: "⟧ ++ fmt_d mode_rep ++ CRLF
       ++ ⟦"Server State: "⟧ ++ fmt_d st ++ CRLF
       ++ ⟦"Checkpoint freq: "⟧ ++ fmt_d (checkpoint_freq d) ++ CRLF
       ++ ⟦"Replica 1 ID: "⟧ ++ fmt_d id_1 ++ CRLF
       ++ ⟦"Replica 1 IP: "⟧ ++ ip1 ++ CRLF
       ++ ⟦"Replica 1 Port: "⟧ ++ fmt_d (port (nd_server n1)) ++ CRLF
       ++ ⟦"Replica 2 ID: "⟧ ++ fmt_d id_2 ++ CRLF
       ++ ⟦"Replica 2 IP: "⟧ ++ ip2 ++ CRLF
       ++ ⟦"Replica 2 Port: "⟧ ++ fmt_d (port (nd_server n2)) ++ CRLF ++ CRLF).

Definition change_state_text (replica_id mode_rep server_state : Z) : bytes :=
  ⟦"Replica ID: "⟧ ++ fmt_d replica_id ++ CRLF
  ++ ⟦"Factory Req: "⟧ ++ fmt_d CHANGE_STATE ++ CRLF
  ++ ⟦"REP MODE: "⟧ ++ fmt_d mode_rep ++ CRLF
  ++ ⟦"Server State: "⟧ ++ fmt_d server_state ++ CRLF ++ CRLF.

Definition factory_req_text (replica_id req : Z) : bytes :=
  ⟦"Replica ID: "⟧ ++ fmt_d replica_id ++ CRLF
  ++ ⟦"Factory Req: "⟧ ++ fmt_d req ++ CRLF ++ CRLF.

(** Connect to the factory of a replica, write the buffer, close. *)
Definition send_factory (replica_id : Z) (buf : bytes) (d : rep_manager)
  : outcome (Z * rep_manager) :=
  n ← node_at replica_id d;
  let '(r, w) := send_buf env (nd_factory n) buf (rm_net d) in
  Ret (r, set_rm_net w d).

Definition elect_new_primary (replica_id : Z) (d : rep_manager) : outcome (Z * rep_manager) :=
  text ← fill_message_for_primary_election replica_id d;
  buf ← sprintf_zero text;
  '(r, d) ← send_factory replica_id buf d;
  if r <? 0 then Ret (-1, d) else Ret (0, set_primary replica_id d).

Definition send_change_status_to_server (replica_id mode_rep server_state : Z) (d : rep_manager)
  : outcome (Z * rep_manager) :=
  text ← (if (mode_rep =? ACTIVE_REP) && (server_state =? ACTIVE_RUNNING)
          then fill_message_for_primary_election replica_id d
          else Ret (change_state_text replica_id mode_rep server_state));
  buf ← sprintf_zero text;
  send_factory replica_id buf d.

Definition instruct_primary_to_send_chkpt (replica_id : Z) (d : rep_manager)
  : outcome (Z * rep_manager) :=
  buf ← sprintf_zero (factory_req_text replica_id SEND_CHKPT);
  send_factory replica_id buf d.

Definition quiesce_message (replica_id : Z) (d : rep_manager) : outcome (Z * rep_manager) :=
  buf ← sprintf_zero (factory_req_text replica_id QUIESCE_BEGIN);
  send_factory replica_id buf d.

Definition quiesce_stop_message (replica_id : Z) (d : rep_manager) : outcome (Z * rep_manager) :=
  buf ← sprintf_zero (factory_req_text replica_id QUIESCE_STOP);
  send_factory replica_id buf d.

(** The loops of [quiesce_all] and [stop_quiesce_all] over the running
    replicas. *)
Fixpoint for_running (f : Z -> rep_manager -> outcome (Z * rep_manager)) (ids : list Z) (ret : Z)
    (d : rep_manager) : outcome (Z * rep_manager) :=
  match ids with
  | [] => Ret (ret, d)
  | i :: ids =>
      n ← node_at i d;
      if nd_state n =? RUNNING then '(r, d) ← f i d; for_running f ids (ret + r) d
      else for_running f ids ret d
  end.

Definition quiesce_all (d : rep_manager) : outcome (Z * rep_manager) :=
  for_running quiesce_message [0; 1; 2] 0 d.
Definition stop_quiesce_all (d : rep_manager) : outcome (Z * rep_manager) :=
  for_running quiesce_stop_message [0; 1; 2] 0 d.

Definition restart_server (replica_id : Z) (d : rep_manager) : outcome (Z * rep_manager) :=
  n ← node_at replica_id d;
  ip ← c_string (server_ip (nd_server n));
  buf ← sprintf_junk junk
    (⟦"Replica ID: "⟧ ++ fmt_d replica_id ++ CRLF
     ++ ⟦"Factory Req: "⟧ ++ fmt_d STARTUP ++ CRLF
     ++ ⟦"Server IP: "⟧ ++ ip ++ CRLF
     ++ ⟦"Server Port: "⟧ ++ fmt_d (port (nd_server n)) ++ CRLF ++ CRLF);
  '(r, d) ← send_factory replica_id buf d;
  if r <? 0 then Ret (-1, d)
  else d ← upd_node replica_id (set_nd_state SENT_STARTUP_REQ) d; Ret (0, d).

(** * Membership *)

(** The updates of [print_current_state_info]; the rest of it prints. *)
Definition print_current_state_info (m : replication_manager_message) (d : rep_manager)
  : outcome rep_manager :=
  let id := rmm_replica_id m in
  n ← node_at id d;
  if (server_status n =? 0) && (rmm_state m =? RUNNING) then
    d ← upd_node id (set_nd_status 1) d;
    let k := num_servers d + 1 in
    Ret (set_num_servers (if MAX_REPLICAS <? k then MAX_REPLICAS else k) d)
  else if (server_status n =? 1) && (rmm_state m =? FAULTED) then
    d ← upd_node id (set_nd_status 0) d;
    Ret (set_num_servers (num_servers d - 1) d)
  else Ret d.

(** Counts the states and forgets the counts; it reads [num_replicas] nodes. *)
Definition handle_current_state (d : rep_manager) : outcome (Z * Z * Z) :=
  if MAX_REPLICAS <? num_replicas d then Undef
  else Ret (fold_left (fun '(a, i, s) n =>
    if nd_state n =? RUNNING then (a + 1, i, s)
    else if nd_state n =? FAULTED then (a, i + 1, s)
    else if nd_state n =? SENT_STARTUP_REQ then (a, i + 1, s + 1) else (a, i, s))
    (ztake (num_replicas d) (node d)) (0, 0, 0)).

(** * handle_state *)

(** [if (status < 0) ret = -1]. *)
Definition fail_if (status ret : Z) : Z := if status <? 0 then -1 else ret.

(** A replica reported running while it was marked faulted, in passive mode.
    The flag is the [return -1] in the middle, which skips the rest of
    [handle_state], the unlock included. *)
Definition passive_running (replica_id : Z) (d : rep_manager) : outcome (Z * bool * rep_manager) :=
  '(ret, d) ←
    (if negb (replica_id =? primary_replica_id d) then
       '(status, d) ← send_change_status_to_server replica_id PASSIVE_REP PASSIVE_BACKUP d;
       Ret (fail_if status 0, d)
     else
       '(status, d) ← elect_new_primary (primary_replica_id d) d;
       Ret (fail_if status 0, d));
  n ← node_at replica_id d;
  if needs_checkpoint n =? 1 then
    '(status, d) ← instruct_primary_to_send_chkpt (primary_replica_id d) d;
    if status <? 0 then Ret (-1, true, d) else Ret (ret, false, d)
  else Ret (ret, false, d).

(** The same in active mode: the first replica just runs; a later one is put
    in recovery, everyone is quiesced around a checkpoint of the primary, and
    it runs. *)
Definition active_running (replica_id st : Z) (d : rep_manager) : outcome (Z * rep_manager) :=
  if primary_replica_id d =? -1 then
    let d := set_primary replica_id d in
    '(status, d) ← send_change_status_to_server replica_id ACTIVE_REP ACTIVE_RUNNING d;
    Ret (fail_if status 0, d)
  else
    d ← upd_node replica_id (set_nd_state st) d;
    '(status, d) ← send_change_status_to_server replica_id ACTIVE_REP ACTIVE_RECOVER d;
    let ret := fail_if status 0 in
    '(_, d) ← quiesce_all d;
    '(status, d) ← instruct_primary_to_send_chkpt (primary_replica_id d) d;
    let ret := fail_if status ret in
    '(_, d) ← stop_quiesce_all d;
    '(status, d) ← send_change_status_to_server replica_id ACTIVE_REP ACTIVE_RUNNING d;
    Ret (fail_if status ret, d).

(** [primary_replica_id] moves on by one and the new primary is told. *)
Definition move_primary (replica_id : Z) (d : rep_manager) : outcome (Z * rep_manager) :=
  let p := Z.rem (replica_id + 1) MAX_REPLICAS in
  '(status, d) ← elect_new_primary p (set_primary p d);
  Ret (fail_if status 0, d).

Definition passive_faulted (replica_id : Z) (d : rep_manager) : outcome (Z * rep_manager) :=
  if primary_replica_id d =? -1 then
    '(_, d) ← restart_server replica_id d;
    Ret (0, set_primary replica_id d)
  else if replica_id =? primary_replica_id d then
    '(_, d) ← restart_server replica_id d;
    '(ret, d) ← move_primary replica_id d;
    d ← upd_node replica_id (set_nd_chkpt 1) d;
    Ret (ret, d)
  else
    '(_, d) ← restart_server replica_id d;
    d ← upd_node replica_id (set_nd_chkpt 1) d;
    Ret (0, d).

Definition active_faulted (replica_id : Z) (d : rep_manager) : outcome (Z * rep_manager) :=
  '(_, d) ← restart_server replica_id d;
  if replica_id =? primary_replica_id d then move_primary replica_id d else Ret (0, d).

(** The part of [handle_state] under its two tests of the reported state. *)
Definition react (m : replication_manager_message) (d : rep_manager)
  : outcome (Z * bool * rep_manager) :=
  let id := rmm_replica_id m in
  n ← node_at id d;
  if rmm_state m =? RUNNING then
    '(ret, early, d) ←
      (if nd_state n =? FAULTED then
         if mode d =? 0 then passive_running id d
         else if mode d =? 1 then '(r, d) ← active_running id (rmm_state m) d; Ret (r, false, d)
         else Ret (0, false, d)
       else Ret (0, false, d));
    if (early : bool) then Ret (ret, true, d)
    else d ← upd_node id (set_nd_state (rmm_state m)) d; Ret (ret, false, d)
  else if rmm_state m =? FAULTED then
    if negb (nd_state n =? SENT_STARTUP_REQ) then
      '(ret, d) ← (if mode d =? 0 then passive_faulted id d
                   else if mode d =? 1 then active_faulted id d else Ret (0, d));
      d ← upd_node id (set_nd_state FAULTED) d;
      Ret (ret, false, d)
    else Ret (0, false, d)
  else Ret (0, false, d).

Definition handle_state (m : replication_manager_message) (d : rep_manager)
  : outcome (Z * rep_manager) :=
  if lock_held d then NoFuel
  else
    let d := set_lock true d in
    d ← upd_node (rmm_replica_id m) (set_nd_report 1 (rmm_server_state m)) d;
    '(ret, early, d) ← react m d;
    if (early : bool) then Ret (ret, d)
    else
      d ← print_current_state_info m d;
      _ ← handle_current_state d;
      Ret (ret, set_lock false d).

(** * The message of a fault detector *)

Definition parse_fault_detector_kv (m : replication_manager_message) (key_buf value_buf : bytes)
  : outcome (bool * replication_manager_message) :=
  key ← c_string key_buf;
  value ← c_string value_buf;
  if bytes_eqb key ⟦"Replica ID"⟧ then
    match str_to_int value with
    | Some z => Ret (true, {| rmm_replica_id := z; rmm_state := rmm_state m;
                              rmm_server_state := rmm_server_state m |})
    | None => Ret (false, m)
    end
  else if bytes_eqb key ⟦"Message Type"⟧ then
    match str_to_int value with
    | Some z => Ret (true, {| rmm_replica_id := rmm_replica_id m; rmm_state := z;
                              rmm_server_state := rmm_server_state m |})
    | None => Ret (false, m)
    end
  else if bytes_eqb key ⟦"Server state"⟧ then
    match str_to_int value with
    | Some z => Ret (true, {| rmm_replica_id := rmm_replica_id m; rmm_state := rmm_state m;
                              rmm_server_state := z |})
    | None => Ret (false, m)
    end
  else Ret (true, m).

(** [uninit]: the contents of the local [fault_detector_ctx], which is not
    initialised. *)
Definition handle_fault_detector_message (uninit : replication_manager_message)
    (input : list rd_event) (d : rep_manager) : outcome (Z * rep_manager) :=
  '(e, m, _, _) ← read_fields parse_fault_detector_kv false (init_buf_fd input) uninit;
  match e with
  | FLDone => handle_state m d
  | _ => Ret (-1, d)
  end.
End RepMgr.

(** * The heartbeat thread *)

Definition gfd_node (n : replica_node) : replica_node :=
  let n := if nd_last_heartbeat n =? 0 then set_nd_status 0 n else n in
  set_nd_report 0 (nd_server_state n) n.

(** One round of [gfd_hbt]. *)
Definition gfd_hbt (d : rep_manager) : outcome rep_manager :=
  if lock_held d then NoFuel
  else if MAX_REPLICAS <? num_replicas d then Undef
  else
    let k := num_replicas d in
    Ret (set_node_list (map gfd_node (ztake k (node d)) ++ zdrop k (node d)) d).

(** * Start-up *)

Definition init_server_state (d : rep_manager) : rep_manager :=
  set_node_list (map (set_nd_state FAULTED) (node d)) d.

(** What the configuration parser (libconfuse) reads; a string that the file
    does not set stays a null pointer. *)
Record node_config := {
  factory_ip : option bytes;
  factory_port : option bytes;
  cfg_server_ip : option bytes;
  cfg_server_port : option bytes
}.
Record rm_config := {
  cfg_mode : option bytes;
  cfg_ip : option bytes;
  cfg_port : option bytes;
  cfg_num_replicas : Z;
  cfg_checkpoint_freq : Z;
  cfg_node0 : node_config;
  cfg_node1 : node_config;
  cfg_node2 : node_config
}.

(** The globals before the start. *)
Definition zero_node : replica_node :=
  {| nd_state := 0; nd_server_state := 0; nd_last_heartbeat := 0;
     nd_factory := SERVER_INFO_INITIALISER; nd_server := SERVER_INFO_INITIALISER;
     server_status := 0; needs_checkpoint := 0 |}.
Definition rm_globals : rep_manager :=
  {| node := replicate 3 zero_node; num_replicas := 0; checkpoint_freq := 0; mode := 0;
     primary_replica_id := -1; num_servers := 0; lock_held := false;
     rm_net := {| attempts := O; delivered := [] |} |}.
Definition set_config (k f : Z) (d : rep_manager) : rep_manager :=
  {| node := node d; num_replicas := k; checkpoint_freq := f; mode := mode d;
     primary_replica_id := primary_replica_id d; num_servers := num_servers d;
     lock_held := lock_held d; rm_net := rm_net d |}.

(** [strncpy(dst, src, 20)] into a zeroed address, and [atoi]. *)
Definition config_addr (ip port_str : option bytes) : outcome server_info :=
  ip ← deref ip; port_str ← deref port_str;
  Ret {| server_ip := overwrite (strncpy 20 ip) (zeros 1024); port := atoi port_str |}.

(** The two addresses of one replica. *)
Definition config_node (c : node_config) (n : replica_node) : outcome replica_node :=
  f ← config_addr (factory_ip c) (factory_port c);
  s ← config_addr (cfg_server_ip c) (cfg_server_port c);
  Ret (set_nd_addr f s n).

(** [None]: the file is missing or cannot be parsed. *)
Definition read_config_file (cfg : option rm_config) (d : rep_manager) : outcome (Z * rep_manager) :=
  match cfg with
  | None => Ret (-1, d)
  | Some c =>
      n0 ← config_node (cfg_node0 c) zero_node;
      n1 ← config_node (cfg_node1 c) zero_node;
      n2 ← config_node (cfg_node2 c) zero_node;
      let d := set_node_list [n0; n1; n2] (set_config (cfg_num_replicas c) (cfg_checkpoint_freq c) d) in
      m ← deref (cfg_mode c);
      if starts_with ⟦"passive"⟧ m then Ret (0, set_mode_int 0 d)
      else if starts_with ⟦"active"⟧ m then Ret (0, set_mode_int 1 d)
      else Ret (0, d)
  end.

(** * Lemmas: nodes *)

(** Three nodes; no node is waiting for a start-up. *)
Record rm_ok (d : rep_manager) : Prop := {
  ro_nodes : length (node d) = 3%nat;
  ro_state : forall i s, nd_state <$> node d !! i = Some s -> s = RUNNING \/ s = FAULTED
}.

Lemma ro_unsent d i s : rm_ok d -> nd_state <$> node d !! i = Some s -> s <> SENT_STARTUP_REQ.
Proof. intros [_ Hs] H. by destruct (Hs i s H) as [->| ->]. Qed.

Lemma node_at_Ret i d n : node_at i d = Ret n -> 0 <= i /\ node d !! Z.to_nat i = Some n.
Proof.
  unfold node_at. intros H. destruct (0 <=? i) eqn:E; zbool; [|done].
  by apply deref_Ret_inv in H.
Qed.

Lemma node_at_range i d n : length (node d) = 3%nat -> node_at i d = Ret n -> 0 <= i < 3.
Proof. intros Hl H. apply node_at_Ret in H as [? H]. apply lookup_lt_Some in H. lia. Qed.

Lemma upd_node_Ret i f d d' : upd_node i f d = Ret d' ->
  d' = set_node_list (alter f (Z.to_nat i) (node d)) d /\ exists n, node_at i d = Ret n.
Proof. unfold upd_node. intros H. apply bind_Ret_inv in H as (n & Hn & [= <-]). eauto. Qed.

Lemma send_buf_attempts env s b w : attempts (send_buf env s b w).2 = S (attempts w).
Proof. unfold send_buf. by repeat case_if. Qed.

(** The frame of an operation: nodes, lock and mode stay, the network is only
    used more. *)
Definition framed (d d' : rep_manager) : Prop :=
  node d' = node d /\ lock_held d' = lock_held d /\ mode d' = mode d
  /\ num_replicas d' = num_replicas d /\ (attempts (rm_net d) <= attempts (rm_net d'))%nat.

#[global] Instance framed_preorder : PreOrder framed.
Proof.
  split; [by intros d|]. intros d1 d2 d3 (?&?&?&?&?) (?&?&?&?&?).
  repeat split; congruence || lia.
Qed.

Section Frames.
Variable env : nat -> net_step.

Lemma send_factory_framed i b d r d' : send_factory env i b d = Ret (r, d') ->
  framed d d' /\ (attempts (rm_net d) < attempts (rm_net d'))%nat /\ (r = 0 \/ r = -1)
  /\ primary_replica_id d' = primary_replica_id d.
Proof.
  unfold send_factory. intros H. apply bind_Ret_inv in H as (n & _ & H).
  pose proof (send_buf_attempts env (nd_factory n) b (rm_net d)) as Ha.
  destruct (send_buf env (nd_factory n) b (rm_net d)) as [r0 w] eqn:E. injection H as <- <-.
  simpl in Ha. assert (r0 = 0 \/ r0 = -1) as Hr
    by (unfold send_buf in E; repeat case_if; simplify_eq; auto).
  unfold framed. simpl. rewrite Ha. split; [|split; [lia|done]].
  do 4 (split; [done|]). lia.
Qed.

Lemma elect_framed i d r d' : elect_new_primary env i d = Ret (r, d') ->
  framed d d' /\ (r = 0 \/ r = -1).
Proof.
  unfold elect_new_primary. intros H. apply bind_Ret_inv in H as (t & _ & H).
  apply bind_Ret_inv in H as (b & _ & H). apply bind_Ret_inv in H as ([s d1] & H1 & H).
  destruct (send_factory_framed _ _ _ _ _ H1) as (Hf & _ & _).
  destruct Hf as (?&?&?&?&?). case_if; injection H as <- <-; (split; [by repeat split|auto]).
Qed.

Lemma change_framed i m s d r d' : send_change_status_to_server env i m s d = Ret (r, d') ->
  framed d d' /\ (r = 0 \/ r = -1).
Proof.
  unfold send_change_status_to_server. intros H. apply bind_Ret_inv in H as (t & _ & H).
  apply bind_Ret_inv in H as (b & _ & H). by destruct (send_factory_framed _ _ _ _ _ H) as (? & _ & ? & _).
Qed.

Lemma factory_req_framed i q d r d' :
  (b ← sprintf_zero (factory_req_text i q); send_factory env i b d) = Ret (r, d') ->
  framed d d' /\ (r = 0 \/ r = -1).
Proof.
  intros H. apply bind_Ret_inv in H as (b & _ & H).
  by destruct (send_factory_framed _ _ _ _ _ H) as (? & _ & ? & _).
Qed.

Lemma for_running_framed f ids : (forall i d r d', f i d = Ret (r, d') -> framed d d') ->
  forall ret d r d', for_running f ids ret d = Ret (r, d') -> framed d d'.
Proof.
  intros Hf. induction ids as [|i ids IH]; intros ret d r d' H; simpl in H.
  { by injection H as <- <-. }
  apply bind_Ret_inv in H as (n & _ & H). case_if.
  - apply bind_Ret_inv in H as ([r1 d1] & H1 & H). etrans; [by eapply Hf|by eapply IH].
  - by eapply IH.
Qed.

Lemma quiesce_all_framed d r d' : quiesce_all env d = Ret (r, d') -> framed d d'.
Proof. apply for_running_framed. intros i d1 r1 d1' H. exact (proj1 (factory_req_framed _ _ _ _ _ H)). Qed.
Lemma stop_quiesce_all_framed d r d' : stop_quiesce_all env d = Ret (r, d') -> framed d d'.
Proof. apply for_running_framed. intros i d1 r1 d1' H. exact (proj1 (factory_req_framed _ _ _ _ _ H)). Qed.
End Frames.

(** * What a report changes *)

Section React.
Variable env : nat -> net_step.
Variable junk : bytes.

(** The nodes other than [id] keep their state, and the lock and the size of
    the table stay. *)
Definition local_to (id : Z) (d d' : rep_manager) : Prop :=
  length (node d') = length (node d) /\ lock_held d' = lock_held d
  /\ num_replicas d' = num_replicas d
  /\ (attempts (rm_net d) <= attempts (rm_net d'))%nat
  /\ forall i, Z.of_nat i <> id -> nd_state <$> node d' !! i = nd_state <$> node d !! i.

#[local] Instance local_to_preorder id : PreOrder (local_to id).
Proof.
  split; [by intros d; repeat split|]. intros d1 d2 d3 (?&?&?&?&Hi1) (?&?&?&?&Hi2).
  do 4 (split; [congruence || lia|]). intros i Hi. by rewrite Hi2, Hi1.
Qed.

Lemma framed_local id d d' : framed d d' -> local_to id d d'.
Proof. intros (H1&?&?&?&?). unfold local_to. by rewrite H1. Qed.

Lemma upd_node_local id f d d' : upd_node id f d = Ret d' -> local_to id d d'.
Proof.
  intros H. apply upd_node_Ret in H as [-> (n & Hn)]. apply node_at_Ret in Hn as [Hid _].
  split; [simpl; by rewrite length_alter|]. do 3 (split; [done|]).
  intros i Hi. simpl. rewrite list_lookup_alter_ne by lia. done.
Qed.

Lemma restart_local id d r d' : restart_server env junk id d = Ret (r, d') ->
  local_to id d d' /\ (attempts (rm_net d) < attempts (rm_net d'))%nat.
Proof.
  unfold restart_server. intros H. apply bind_Ret_inv in H as (n & _ & H).
  apply bind_Ret_inv in H as (ip & _ & H). apply bind_Ret_inv in H as (b & _ & H).
  apply bind_Ret_inv in H as ([s d1] & H1 & H).
  destruct (send_factory_framed _ _ _ _ _ _ H1) as (Hf & Ha & _).
  case_if; [injection H as <- <-; split; [by apply framed_local|done]|].
  apply bind_Ret_inv in H as (d2 & H2 & [= <- <-]).
  pose proof (upd_node_local _ _ _ _ H2) as Hl. split.
  - etrans; [by apply framed_local|done].
  - destruct Hl as (_&_&_&?&_). lia.
Qed.

(** Chains the steps of a handler. *)
Ltac local_chain :=
  repeat match goal with
  | H : (_ ≫= _) = Ret _ |- _ =>
      let x := fresh "x" in let Hx := fresh "Hx" in
      apply bind_Ret_inv in H as (x & Hx & H)
  | x : (_ * _)%type |- _ => destruct x
  | H : Ret _ = Ret _ |- _ => injection H; clear H; intros; subst
  end.

Ltac local_trans :=
  repeat match goal with
  | H1 : local_to ?id ?a ?b, H2 : local_to ?id ?b ?c |- _ =>
      let H := fresh "Hl" in
      assert (local_to id a c) as H by (etrans; [exact H1|exact H2]); clear H1 H2
  end; done.

Lemma set_primary_local id p d : local_to id d (set_primary p d).
Proof. by repeat split. Qed.

Lemma move_primary_local id i d r d' : move_primary env i d = Ret (r, d') -> local_to id d d'.
Proof.
  unfold move_primary. intros H. local_chain.
  match goal with H : elect_new_primary _ _ _ = _ |- _ => apply elect_framed in H as [Hf _] end.
  etrans; [apply set_primary_local|by apply framed_local].
Qed.

Lemma passive_faulted_local id d r d' : passive_faulted env junk id d = Ret (r, d') ->
  local_to id d d' /\ (attempts (rm_net d) < attempts (rm_net d'))%nat.
Proof.
  unfold passive_faulted. intros H.
  assert (forall d1 d2, local_to id d d1 /\ (attempts (rm_net d) < attempts (rm_net d1))%nat ->
    local_to id d1 d2 -> local_to id d d2 /\ (attempts (rm_net d) < attempts (rm_net d2))%nat) as Htrans.
  { intros d1 d2 [H1 Ha] H2. split; [by etrans|]. destruct H2 as (_&_&_&?&_). lia. }
  repeat case_if; local_chain;
    repeat match goal with
    | H : restart_server _ _ _ _ = _ |- _ => apply restart_local in H
    | H : move_primary _ _ _ = _ |- _ => apply (move_primary_local id) in H
    | H : upd_node _ _ _ = _ |- _ => apply upd_node_local in H
    end; eauto using set_primary_local.
Qed.

Lemma active_faulted_local id d r d' : active_faulted env junk id d = Ret (r, d') ->
  local_to id d d' /\ (attempts (rm_net d) < attempts (rm_net d'))%nat.
Proof.
  unfold active_faulted. intros H. local_chain. apply restart_local in Hx as [Hl Ha].
  case_if; local_chain; [|done]. apply (move_primary_local id) in H as Hm.
  split; [by etrans|]. destruct Hm as (_&_&_&?&_). lia.
Qed.

Lemma passive_running_framed id d r e d' : passive_running env id d = Ret (r, e, d') ->
  framed d d'.
Proof.
  unfold passive_running. intros H.
  repeat first [case_if | progress local_chain];
    repeat match goal with
    | H : send_change_status_to_server _ _ _ _ _ = _ |- _ => apply change_framed in H as [H _]
    | H : elect_new_primary _ _ _ = _ |- _ => apply elect_framed in H as [H _]
    | H : instruct_primary_to_send_chkpt _ _ _ = _ |- _ => apply factory_req_framed in H as [H _]
    end; solve [done | etrans; [eassumption|eassumption]].
Qed.

Lemma active_running_local id st d r d' : active_running env id st d = Ret (r, d') ->
  local_to id d d'.
Proof.
  unfold active_running. intros H. repeat first [case_if | progress local_chain];
    repeat match goal with
    | H : send_change_status_to_server _ _ _ _ _ = _ |- _ =>
        apply change_framed in H as [H _]; apply (framed_local id) in H
    | H : instruct_primary_to_send_chkpt _ _ _ = _ |- _ =>
        apply factory_req_framed in H as [H _]; apply (framed_local id) in H
    | H : quiesce_all _ _ = _ |- _ => apply quiesce_all_framed, (framed_local id) in H
    | H : stop_quiesce_all _ _ = _ |- _ => apply stop_quiesce_all_framed, (framed_local id) in H
    | H : upd_node _ _ _ = _ |- _ => apply upd_node_local in H
    end.
  - etrans; [apply set_primary_local|done].
  - local_trans.
Qed.

(** What the reaction to a report does to the states of the nodes. *)
Lemma react_states m d ret e d' : react env junk m d = Ret (ret, e, d') ->
  local_to (rmm_replica_id m) d d'
  /\ exists n n', node_at (rmm_replica_id m) d = Ret n /\ node_at (rmm_replica_id m) d' = Ret n'
    /\ (if rmm_state m =? RUNNING then
          if (e : bool) then nd_state n' = nd_state n else nd_state n' = RUNNING
        else e = false /\
          if (rmm_state m =? FAULTED) && negb (nd_state n =? SENT_STARTUP_REQ)
          then nd_state n' = FAULTED
               /\ (mode d = 0 \/ mode d = 1 -> (attempts (rm_net d) < attempts (rm_net d'))%nat)
          else d' = d).
Proof.
  assert (forall f d1 d2, upd_node (rmm_replica_id m) f d1 = Ret d2 ->
    exists n, node_at (rmm_replica_id m) d2 = Ret (f n)) as Hupd.
  { intros f d1 d2 H. apply upd_node_Ret in H as [-> (n & Hn)]. exists n.
    apply node_at_Ret in Hn as [Hid Hn]. unfold node_at. simpl.
    rewrite (proj2 (Z.leb_le 0 _)) by done. by rewrite list_lookup_alter_eq, Hn. }
  unfold react. intros H. apply bind_Ret_inv in H as (n & Hn & H).
  destruct (rmm_state m =? RUNNING) eqn:ER.
  - apply bind_Ret_inv in H as ([[r1 e1] d1] & H1 & H).
    assert (local_to (rmm_replica_id m) d d1 /\ (e1 = true -> node d1 = node d)) as [Hl He1].
    { destruct (nd_state n =? FAULTED); [|by injection H1 as <- <- <-; split].
      destruct (mode d =? 0).
      { pose proof (passive_running_framed _ _ _ _ _ H1) as Hf. split; [by apply framed_local|].
        intros _. apply Hf. }
      destruct (mode d =? 1); [|by injection H1 as <- <- <-; split].
      apply bind_Ret_inv in H1 as ([r2 d2] & H2 & [= <- <- <-]).
      split; [by eapply active_running_local|done]. }
    destruct e1.
    + injection H as <- <- <-. split; [done|]. exists n, n. split; [done|].
      unfold node_at in *. by rewrite He1.
    + apply bind_Ret_inv in H as (d2 & H2 & [= <- <- <-]).
      split; [etrans; [done|by eapply upd_node_local]|].
      destruct (Hupd _ _ _ H2) as [n' Hn']. exists n, (set_nd_state (rmm_state m) n').
      split; [done|]. split; [done|]. apply Z.eqb_eq in ER. done.
  - destruct (rmm_state m =? FAULTED) eqn:EF; cbn [andb];
      [|injection H as <- <- <-; split; [done|by exists n, n]].
    destruct (negb (nd_state n =? SENT_STARTUP_REQ)) eqn:ES;
      [|injection H as <- <- <-; split; [done|exists n, n; by rewrite ES]].
    apply bind_Ret_inv in H as ([r1 d1] & H1 & H). apply bind_Ret_inv in H as (d2 & H2 & [= <- <- <-]).
    pose proof (upd_node_local _ _ _ _ H2) as Hl2. destruct (Hupd _ _ _ H2) as [n' Hn'].
    assert (local_to (rmm_replica_id m) d d1
            /\ (mode d = 0 \/ mode d = 1 -> (attempts (rm_net d) < attempts (rm_net d1))%nat))
      as [Hl1 Ha].
    { destruct (mode d =? 0) eqn:E0; [apply passive_faulted_local in H1 as [? ?]; auto|].
      destruct (mode d =? 1) eqn:E1; [apply active_faulted_local in H1 as [? ?]; auto|].
      zbool. injection H1 as <- <-. split; [done|lia]. }
    split; [by etrans|]. exists n, (set_nd_state FAULTED n'). rewrite ES. do 4 (split; [done|]).
    intros Hm. specialize (Ha Hm). destruct Hl2 as (_&_&_&?&_). lia.
Qed.

Lemma upd_status_states id f d d' : (forall n, nd_state (f n) = nd_state n) ->
  upd_node id f d = Ret d' -> map nd_state (node d') = map nd_state (node d)
  /\ mode d' = mode d /\ rm_net d' = rm_net d /\ lock_held d' = lock_held d /\ primary_replica_id d' = primary_replica_id d.
Proof.
  intros Hf H. apply upd_node_Ret in H as [-> _]. split; [|done]. simpl.
  apply list_eq. intros i. rewrite !list_lookup_fmap.
  destruct (decide (i = Z.to_nat id)) as [->|Hne].
  - rewrite list_lookup_alter_eq. destruct (node d !! Z.to_nat id); simpl; by rewrite ?Hf.
  - by rewrite list_lookup_alter_ne.
Qed.

Lemma print_states m d d' : print_current_state_info m d = Ret d' ->
  map nd_state (node d') = map nd_state (node d) /\ mode d' = mode d /\ rm_net d' = rm_net d
  /\ lock_held d' = lock_held d /\ primary_replica_id d' = primary_replica_id d.
Proof.
  unfold print_current_state_info. intros H. apply bind_Ret_inv in H as (n & _ & H).
  repeat case_if; local_chain;
    repeat match goal with H : upd_node _ _ _ = _ |- _ => apply upd_status_states in H; [|done] end;
    done.
Qed.
End React.

Lemma states_lookup (l l' : list replica_node) i : map nd_state l' = map nd_state l ->
  nd_state <$> l' !! i = nd_state <$> l !! i.
Proof. intros H. rewrite <- !list_lookup_fmap. change (nd_state <$> l') with (map nd_state l'). by rewrite H. Qed.

Lemma rm_ok_states d d' : map nd_state (node d') = map nd_state (node d) -> rm_ok d -> rm_ok d'.
Proof.
  intros H [Hl Hs]. split.
  - by rewrite <- (length_map nd_state (node d')), H, length_map.
  - intros i s. rewrite (states_lookup _ _ i H). apply Hs.
Qed.

Lemma react_rm_ok env junk m d ret e d' : rm_ok d -> react env junk m d = Ret (ret, e, d') ->
  rm_ok d'.
Proof.
  intros Hok H. destruct (react_states _ _ _ _ _ _ _ H) as [Hl (n & n' & Hn & Hn' & Hs)].
  destruct Hl as (Hlen & _ & _ & _ & Hother). pose proof Hok as [Ho1 Ho2]. split; [congruence|].
  intros i s Hi. destruct (decide (Z.of_nat i = rmm_replica_id m)) as [E|E];
    [|rewrite Hother in Hi by done; by eapply Ho2].
  apply node_at_Ret in Hn as [_ Hn]. apply node_at_Ret in Hn' as [_ Hn'].
  rewrite <- E, Nat2Z.id in Hn, Hn'. rewrite Hn' in Hi. injection Hi as <-.
  assert (nd_state n = RUNNING \/ nd_state n = FAULTED) as Hold by (apply (Ho2 i); by rewrite Hn).
  destruct (rmm_state m =? RUNNING); [destruct e; [congruence|by left]|].
  destruct Hs as [_ Hs]. destruct ((rmm_state m =? FAULTED) && _); [destruct Hs as [-> _]; by right|].
  subst d'. congruence.
Qed.

(** Takes [handle_state] apart. *)
Lemma handle_state_inv env junk m d r d' : handle_state env junk m d = Ret (r, d') ->
  lock_held d = false /\ exists d1 e d2,
    upd_node (rmm_replica_id m) (set_nd_report 1 (rmm_server_state m)) (set_lock true d) = Ret d1
    /\ react env junk m d1 = Ret (r, e, d2)
    /\ (if (e : bool) then d' = d2
        else exists d3, print_current_state_info m d2 = Ret d3 /\ d' = set_lock false d3).
Proof.
  unfold handle_state. destruct (lock_held d); [done|]. intros H. split; [done|].
  apply bind_Ret_inv in H as (d1 & H1 & H). apply bind_Ret_inv in H as ([[r1 e] d2] & H2 & H).
  destruct e.
  - injection H as <- <-. by exists d1, true, d2.
  - apply bind_Ret_inv in H as (d3 & H3 & H). apply bind_Ret_inv in H as (? & _ & [= <- <-]).
    exists d1, false, d2. eauto.
Qed.

Lemma handle_state_rm_ok env junk m d r d' : rm_ok d -> handle_state env junk m d = Ret (r, d') -> rm_ok d'.
Proof.
  intros Hok H. destruct (handle_state_inv _ _ _ _ _ _ H) as (_ & d1 & e & d2 & H1 & H2 & H3).
  apply upd_status_states in H1 as (Hs1 & _); [|done].
  assert (rm_ok d1) as Hok1 by (apply (rm_ok_states (set_lock true d)); [done|by destruct Hok]).
  pose proof (react_rm_ok _ _ _ _ _ _ _ Hok1 H2) as Hok2.
  destruct e; [by subst|]. destruct H3 as (d3 & H3 & ->).
  apply print_states in H3 as (E1 & _). by apply (rm_ok_states d2).
Qed.

(** The replication manager forgets that it sent a start-up request. Between
    two reports no replica is ever in [SENT_STARTUP_REQ] (the state is set by
    [restart_server] and overwritten with [FAULTED] before the report is done),
    so the test that should suppress a second start-up never does: every report
    of a fault, that is every missed heartbeat, sends another start-up. *)
Theorem startup_request_forgotten env junk m d r d' :
  rm_ok d -> handle_state env junk m d = Ret (r, d') ->
  rm_ok d'
  /\ (rmm_state m = FAULTED -> mode d = 0 \/ mode d = 1 ->
      (attempts (rm_net d) < attempts (rm_net d'))%nat).
Proof.
  intros Hok H. destruct (handle_state_inv _ _ _ _ _ _ H) as (_ & d1 & e & d2 & H1 & H2 & H3).
  apply upd_status_states in H1 as (Hs1 & Hm1 & Hn1 & _); [|done].
  assert (rm_ok d1) as Hok1 by (apply (rm_ok_states (set_lock true d)); [done|by destruct Hok]).
  destruct (react_states _ _ _ _ _ _ _ H2) as [_ (n & n' & Hn & _ & Hs)].
  assert (rm_net d' = rm_net d2) as Hn'.
  { destruct e; [by subst|]. destruct H3 as (d3 & H3 & ->).
    apply print_states in H3 as (_ & _ & E2 & _). by rewrite <- E2. }
  split; [exact (handle_state_rm_ok env junk m d r d' Hok H)|]. intros HF Hmode.
  assert (nd_state n <> SENT_STARTUP_REQ) as Hold.
  { apply node_at_Ret in Hn as [_ Hn]. apply (ro_unsent d1 (Z.to_nat (rmm_replica_id m)) _ Hok1).
    by rewrite Hn. }
  rewrite HF in Hs. cbn in Hs. rewrite (proj2 (Z.eqb_neq _ _)) in Hs by done.
  destruct Hs as (_ & _ & Ha). rewrite Hn'. change (rm_net (set_lock true d)) with (rm_net d) in Hn1. rewrite <- Hn1.
  apply Ha. by rewrite Hm1.
Qed.

(** Three replicas, all marked faulted, on consecutive ports. *)
Definition demo_addr (p : Z) : server_info :=
  {| server_ip := overwrite ⟦"127.0.0.1"⟧ (zeros 1024); port := p |}.
Definition demo_node (st i : Z) : replica_node :=
  {| nd_state := st; nd_server_state := 0; nd_last_heartbeat := 1;
     nd_factory := demo_addr (100 + i); nd_server := demo_addr (200 + i);
     server_status := 0; needs_checkpoint := 0 |}.
Definition demo_manager (m p : Z) (st : Z) : rep_manager :=
  {| node := [demo_node st 0; demo_node st 1; demo_node st 2]; num_replicas := 3;
     checkpoint_freq := 30; mode := m; primary_replica_id := p; num_servers := 0;
     lock_held := false; rm_net := {| attempts := O; delivered := [] |} |}.
Definition net_up (n : nat) : net_step := {| socket_ret := 5; connect_ret := 0; write_ret := 8192 |}.
Definition net_down (n : nat) : net_step := {| socket_ret := 5; connect_ret := -1; write_ret := 0 |}.
Definition report (id st : Z) : replication_manager_message :=
  {| rmm_replica_id := id; rmm_state := st; rmm_server_state := 0 |}.

Lemma demo_manager_ok m p : rm_ok (demo_manager m p FAULTED).
Proof. split; [done|]. intros [|[|[|i]]] s [= <-]; by right. Qed.

Lemma startup_request_forgotten_witness :
  exists r d1 r' d2, handle_state net_up [] (report 1 FAULTED) (demo_manager 0 0 FAULTED) = Ret (r, d1)
    /\ handle_state net_up [] (report 1 FAULTED) d1 = Ret (r', d2)
    /\ rm_ok d2 /\ (attempts (rm_net d1) < attempts (rm_net d2))%nat.
Proof.
  destruct (handle_state net_up [] (report 1 FAULTED) (demo_manager 0 0 FAULTED))
    as [[r d1]| | |] eqn:E1; [|by vm_compute in E1..].
  destruct (handle_state net_up [] (report 1 FAULTED) d1) as [[r' d2]| | |] eqn:E2.
  - exists r, d1, r', d2. split; [done|]. split; [done|].
    destruct (startup_request_forgotten _ _ _ _ _ _ (demo_manager_ok 0 0) E1) as [Hok1 _].
    destruct (startup_request_forgotten _ _ _ _ _ _ Hok1 E2) as [Hok2 Ha].
    split; [done|]. apply Ha; [done|]. left.
    vm_compute in E1. injection E1 as <- <-. done.
  - exfalso. vm_compute in E1. injection E1 as <- <-. by vm_compute in E2.
  - exfalso. vm_compute in E1. injection E1 as <- <-. by vm_compute in E2.
  - exfalso. vm_compute in E1. injection E1 as <- <-. by vm_compute in E2.
Defined.

(** * With the factories reachable *)

(** Every connection and every write succeeds. *)
Definition reach (env : nat -> net_step) : Prop := forall n,
  connect_ret (env n) = 0 /\ 0 <= socket_ret (env n) /\ 0 <= write_ret (env n).

Definition log_sends (l : list (server_info * bytes)) (d : rep_manager) : rep_manager :=
  set_rm_net {| attempts := length l + attempts (rm_net d);
                delivered := delivered (rm_net d) ++ l |} d.

(** The factory of a replica. *)
Definition fac (d : rep_manager) (i : Z) : server_info :=
  default SERVER_INFO_INITIALISER (nd_factory <$> node d !! Z.to_nat i).

(** Addresses that are C strings in their arrays. *)
Definition addr_ok (s : server_info) : Prop :=
  has_nul (server_ip s) = true /\ zlen (server_ip s) = 1024.

Record rm_addr_ok (d : rep_manager) : Prop := {
  ra_nodes : length (node d) = 3%nat;
  ra_addr : Forall (fun n => addr_ok (nd_server n)) (node d);
  ra_count : num_replicas d <= MAX_REPLICAS
}.

Lemma log_sends_app l1 l2 d : log_sends l2 (log_sends l1 d) = log_sends (l1 ++ l2) d.
Proof.
  unfold log_sends. simpl. unfold set_rm_net. simpl. f_equal.
  rewrite length_app, <- app_assoc. f_equal. lia.
Qed.

Lemma node_at_lookup d i : length (node d) = 3%nat -> 0 <= i < 3 ->
  exists n, node_at i d = Ret n /\ node d !! Z.to_nat i = Some n.
Proof.
  intros Hl Hi. destruct (lookup_lt_is_Some_2 (node d) (Z.to_nat i)) as [n Hn]; [lia|].
  exists n. split; [|done]. unfold node_at. rewrite (proj2 (Z.leb_le 0 i)) by lia. by rewrite Hn.
Qed.

Section Reach.
Variable env : nat -> net_step.
Variable junk : bytes.
Hypothesis Henv : reach env.

Lemma send_buf_up s b w :
  send_buf env s b w = (0, {| attempts := S (attempts w); delivered := delivered w ++ [(s, b)] |}).
Proof using Henv.
  destruct (Henv (attempts w)) as (H1 & H2 & H3). unfold send_buf, connect_to_server.
  rewrite H1. simpl. rewrite (proj2 (Z.ltb_ge _ 0)), (proj2 (Z.ltb_ge _ 0)) by done. done.
Qed.

Lemma send_factory_up i b d : length (node d) = 3%nat -> 0 <= i < 3 ->
  send_factory env i b d = Ret (0, log_sends [(fac d i, b)] d).
Proof using Henv.
  intros Hl Hi. destruct (node_at_lookup d i Hl Hi) as (n & Hn & Hn'). unfold send_factory.
  rewrite Hn, bind_ret_l, send_buf_up. unfold fac. by rewrite Hn'.
Qed.

(** Texts of small numbers fit the buffer. *)
Lemma sprintf_small s : zlen s < MAX_LENGTH -> sprintf_zero s = Ret (zero_buf s).
Proof. intros H. unfold sprintf_zero. by rewrite (proj2 (Z.ltb_lt _ _)). Qed.

Lemma factory_req_fits i q : zlen (factory_req_text i q) < MAX_LENGTH.
Proof.
  unfold factory_req_text. rewrite !zlen_app. pose proof (fmt_d_length i).
  pose proof (fmt_d_length q). change (zlen CRLF) with 2.
  change (zlen ⟦"Replica ID: "⟧) with 12. change (zlen ⟦"Factory Req: "⟧) with 13.
  unfold MAX_LENGTH. lia.
Qed.

Lemma change_state_fits i m s : zlen (change_state_text i m s) < MAX_LENGTH.
Proof.
  unfold change_state_text. rewrite !zlen_app. pose proof (fmt_d_length i).
  pose proof (fmt_d_length m). pose proof (fmt_d_length s). pose proof (fmt_d_length CHANGE_STATE).
  change (zlen CRLF) with 2. change (zlen ⟦"Replica ID: "⟧) with 12.
  change (zlen ⟦"Factory Req: "⟧) with 13. change (zlen ⟦"REP MODE: "⟧) with 10.
  change (zlen ⟦"Server State: "⟧) with 14. unfold MAX_LENGTH. lia.
Qed.

(** The other two replicas. *)
Lemma other_replicas_spec i : 0 <= i < 3 ->
  exists a b, other_replicas i = (a, b) /\ 0 <= a < 3 /\ 0 <= b < 3 /\ a <> i /\ b <> i /\ a <> b.
Proof.
  intros H. assert (i = 0 \/ i = 1 \/ i = 2) as [->|[->| ->]] by lia;
    eexists _, _; (split; [reflexivity|lia]).
Qed.

(** The election message can always be built, and fits its buffer. *)
Lemma fill_election_ok i d : rm_addr_ok d -> 0 <= i < 3 ->
  exists text, fill_message_for_primary_election i d = Ret text /\ zlen text < MAX_LENGTH.
Proof.
  intros [Hl Ha _] Hi. unfold fill_message_for_primary_election.
  destruct (other_replicas_spec i Hi) as (a & b & -> & Hra & Hrb & _).
  destruct (node_at_lookup d a Hl Hra) as (na & Ena & Hna).
  destruct (node_at_lookup d b Hl Hrb) as (nb & Enb & Hnb).
  rewrite Forall_lookup in Ha. destruct (Ha _ _ Hna) as [Ha1 Ha2].
  destruct (Ha _ _ Hnb) as [Hb1 Hb2].
  assert (forall b, has_nul b = true -> c_string b = Ret (cstr b)) as Hc
    by (intros x Hx; unfold c_string; by rewrite Hx).
  destruct (if mode d =? 0 then _ else _) as [mr st].
  rewrite Ena, Enb, !bind_ret_l, (Hc _ Ha1), (Hc _ Hb1), !bind_ret_l.
  eexists. split; [done|].
  pose proof (cstr_length (server_ip (nd_server na))). pose proof (cstr_length (server_ip (nd_server nb))).
  rewrite !zlen_app.
  repeat match goal with |- context [zlen (fmt_d ?z)] =>
    pose proof (fmt_d_length z); generalize dependent (zlen (fmt_d z)); intros end.
  change (zlen CRLF) with 2. change (zlen ⟦"Replica ID: "⟧) with 12.
  change (zlen ⟦"Factory Req: "⟧) with 13. change (zlen ⟦"REP MODE: "⟧) with 10.
  change (zlen ⟦"Server State: "⟧) with 14. change (zlen ⟦"Checkpoint freq: "⟧) with 17.
  change (zlen ⟦"Replica 1 ID: "⟧) with 14. change (zlen ⟦"Replica 2 ID: "⟧) with 14.
  change (zlen ⟦"Replica 1 IP: "⟧) with 14. change (zlen ⟦"Replica 2 IP: "⟧) with 14.
  change (zlen ⟦"Replica 1 Port: "⟧) with 16. change (zlen ⟦"Replica 2 Port: "⟧) with 16.
  unfold MAX_LENGTH. lia.
Qed.

Lemma fac_log_sends l d i : fac (log_sends l d) i = fac d i.
Proof. done. Qed.

Definition state_at (d : rep_manager) (i : Z) : option Z := nd_state <$> node d !! Z.to_nat i.
Definition running (d : rep_manager) (ids : list Z) : list Z :=
  filter (fun i => state_at d i = Some RUNNING) ids.

(** A loop over the running replicas sends one message to each. *)
Lemma for_running_up (f : Z -> rep_manager -> outcome (Z * rep_manager)) (txt : Z -> bytes) ids :
  (forall i d, length (node d) = 3%nat -> 0 <= i < 3 ->
     f i d = Ret (0, log_sends [(fac d i, txt i)] d)) ->
  Forall (fun i => 0 <= i < 3) ids -> forall ret d, length (node d) = 3%nat ->
  for_running f ids ret d
  = Ret (ret, log_sends (map (fun i => (fac d i, txt i)) (running d ids)) d).
Proof.
  intros Hf Hids. induction Hids as [|i ids Hi Hids IH]; intros ret d Hl; simpl.
  { do 2 f_equal. unfold log_sends. simpl. rewrite app_nil_r. by destruct d as [? ? ? ? ? ? ? []]. }
  destruct (node_at_lookup d i Hl Hi) as (n & -> & Hn). rewrite bind_ret_l.
  unfold running. rewrite filter_cons. unfold state_at. rewrite Hn. simpl.
  destruct (nd_state n =? RUNNING) eqn:E; zbool.
  - rewrite decide_True by (by rewrite E). rewrite Hf, bind_ret_l by done.
    rewrite IH by done. rewrite Z.add_0_r, log_sends_app. done.
  - rewrite decide_False by (intros [=]; done). by rewrite IH.
Qed.

Lemma factory_req_up q i d : length (node d) = 3%nat -> 0 <= i < 3 ->
  (b ← sprintf_zero (factory_req_text i q); send_factory env i b d)
  = Ret (0, log_sends [(fac d i, zero_buf (factory_req_text i q))] d).
Proof using Henv.
  intros Hl Hi. rewrite sprintf_small, bind_ret_l by apply factory_req_fits. by apply send_factory_up.
Qed.

Lemma change_up i m s d text : length (node d) = 3%nat -> 0 <= i < 3 ->
  (if (m =? ACTIVE_REP) && (s =? ACTIVE_RUNNING) then fill_message_for_primary_election i d = Ret text
   else text = change_state_text i m s) -> zlen text < MAX_LENGTH ->
  send_change_status_to_server env i m s d = Ret (0, log_sends [(fac d i, zero_buf text)] d).
Proof using Henv.
  intros Hl Hi Ht Hz. unfold send_change_status_to_server.
  destruct ((m =? ACTIVE_REP) && (s =? ACTIVE_RUNNING)); [rewrite Ht|subst text];
    rewrite bind_ret_l, sprintf_small, bind_ret_l by done; by apply send_factory_up.
Qed.

(** The election message only looks at addresses, mode and frequency. *)
Lemma fill_ext i d d' : map nd_server (node d') = map nd_server (node d) -> mode d' = mode d ->
  checkpoint_freq d' = checkpoint_freq d ->
  fill_message_for_primary_election i d' = fill_message_for_primary_election i d.
Proof.
  intros Hn Hm Hf. unfold fill_message_for_primary_election. rewrite Hm, Hf.
  destruct (if mode d =? 0 then _ else _) as [mr st].
  destruct (other_replicas i) as [a b].
  assert (forall k : Z, nd_server <$> node d' !! Z.to_nat k = nd_server <$> node d !! Z.to_nat k) as Hk.
  { intros k. rewrite <- !list_lookup_fmap. change (nd_server <$> node d') with (map nd_server (node d')).
    by rewrite Hn. }
  unfold node_at.
  pose proof (Hk a) as Ha. pose proof (Hk b) as Hb.
  destruct (0 <=? a); [|done]. destruct (0 <=? b); [|by destruct (node d' !! Z.to_nat a), (node d !! Z.to_nat a)].
  destruct (node d' !! Z.to_nat a), (node d !! Z.to_nat a), (node d' !! Z.to_nat b), (node d !! Z.to_nat b);
    simpl in *; try done.
  injection Ha as Ha. injection Hb as Hb. by rewrite Ha, Hb.
Qed.

Definition recover_sends (d : rep_manager) (id : Z) (election : bytes) : list (server_info * bytes) :=
  let run := filter (fun i => i = id \/ state_at d i = Some RUNNING) [0; 1; 2] in
  [(fac d id, zero_buf (change_state_text id ACTIVE_REP ACTIVE_RECOVER))]
  ++ map (fun i => (fac d i, zero_buf (factory_req_text i QUIESCE_BEGIN))) run
  ++ [(fac d (primary_replica_id d), zero_buf (factory_req_text (primary_replica_id d) SEND_CHKPT))]
  ++ map (fun i => (fac d i, zero_buf (factory_req_text i QUIESCE_STOP))) run
  ++ [(fac d id, zero_buf election)].

(** A node that is marked running: nothing else is read differently. *)
Lemma marked_running id d : rm_addr_ok d -> 0 <= id < 3 ->
  let d1 := set_node_list (alter (set_nd_state RUNNING) (Z.to_nat id) (node d)) d in
  upd_node id (set_nd_state RUNNING) d = Ret d1 /\ length (node d1) = 3%nat /\ (forall i, fac d1 i = fac d i)
  /\ fill_message_for_primary_election id d1 = fill_message_for_primary_election id d
  /\ running d1 [0; 1; 2] = filter (fun i => i = id \/ state_at d i = Some RUNNING) [0; 1; 2].
Proof.
  intros Hok Hid. pose proof (ra_nodes d Hok) as Hl. destruct (node_at_lookup d id Hl Hid) as (n & Hn & Hn').
  intros d1. split; [unfold upd_node; by rewrite Hn|]. split; [by cbn; rewrite length_alter|]. split; [|split].
  - intros i. unfold fac. simpl. destruct (decide (Z.to_nat i = Z.to_nat id)) as [->|Hne].
    + by rewrite list_lookup_alter_eq, Hn'.
    + by rewrite list_lookup_alter_ne.
  - apply fill_ext; [|done|done]. apply list_eq. intros i. simpl.
    rewrite !list_lookup_fmap. destruct (decide (i = Z.to_nat id)) as [->|Hne];
      [by rewrite list_lookup_alter_eq, Hn'|by rewrite list_lookup_alter_ne].
  - apply filter_ext_Forall, Forall_forall. intros i Hi.
    assert (0 <= i) as Hi0 by (set_unfold in Hi; lia).
    unfold state_at. simpl. destruct (decide (i = id)) as [->|Hne].
    + rewrite list_lookup_alter_eq, Hn'. simpl. tauto.
    + rewrite list_lookup_alter_ne by lia. tauto.
Qed.

Lemma active_running_up id d : rm_addr_ok d -> 0 <= id < 3 -> 0 <= primary_replica_id d < 3 ->
  exists election d',
    fill_message_for_primary_election id d = Ret election
    /\ upd_node id (set_nd_state RUNNING) d = Ret d'
    /\ active_running env id RUNNING d = Ret (0, log_sends (recover_sends d id election) d').
Proof using Henv.
  intros Hok Hid Hp. pose proof (ra_nodes d Hok) as Hl.
  destruct (fill_election_ok id d Hok Hid) as (election & He & Hz).
  destruct (marked_running id d Hok Hid) as (Hu & Hl1 & Hfac & He1 & Hrun). rewrite He in He1.
  set (d1 := set_node_list _ d) in *.
  exists election, d1. split; [done|]. split; [done|].
  assert (Forall (fun i => 0 <= i < 3) [0; 1; 2]) as Hids by (repeat constructor; lia).
  unfold active_running. rewrite (proj2 (Z.eqb_neq _ (-1))) by lia. rewrite Hu, bind_ret_l.
  rewrite (change_up _ _ _ d1 (change_state_text id ACTIVE_REP ACTIVE_RECOVER)), bind_ret_l
    by (done || apply change_state_fits). cbv beta iota.
  unfold quiesce_all.
  rewrite (for_running_up _ (fun i => zero_buf (factory_req_text i QUIESCE_BEGIN))), bind_ret_l;
    [|intros i k Hk Hi; by apply factory_req_up|done|done]. cbv beta iota.
  unfold instruct_primary_to_send_chkpt.
  rewrite factory_req_up, bind_ret_l by done. cbv beta iota. unfold stop_quiesce_all.
  rewrite (for_running_up _ (fun i => zero_buf (factory_req_text i QUIESCE_STOP))), bind_ret_l;
    [|intros i k Hk Hi; by apply factory_req_up|done|done]. cbv beta iota.
  rewrite (change_up _ _ _ _ election), bind_ret_l by done. cbv beta iota.
  rewrite !log_sends_app. unfold recover_sends, fail_if. simpl Z.ltb. cbv iota.
  assert (forall (txt : Z -> bytes) l,
    map (fun i => (fac d i, txt i)) l = map (fun i => (fac d1 i, txt i)) l) as Hmap
    by (intros; apply map_ext; intros; by rewrite Hfac).
  do 3 f_equal. rewrite <- !app_assoc, <- Hrun.
  rewrite (Hmap (fun i => zero_buf (factory_req_text i QUIESCE_BEGIN))),
    (Hmap (fun i => zero_buf (factory_req_text i QUIESCE_STOP))),
    <- (Hfac id), <- (Hfac (primary_replica_id d)). reflexivity.
Qed.
End Reach.

(** Two managers that differ in nothing a recovery looks at. *)
Definition same_view (d d' : rep_manager) : Prop :=
  map nd_state (node d') = map nd_state (node d)
  /\ map nd_factory (node d') = map nd_factory (node d)
  /\ map nd_server (node d') = map nd_server (node d)
  /\ primary_replica_id d' = primary_replica_id d /\ mode d' = mode d
  /\ checkpoint_freq d' = checkpoint_freq d /\ num_replicas d' = num_replicas d
  /\ rm_net d' = rm_net d.

Lemma map_alter_same {A B} (g : A -> B) (f : A -> A) i (l : list A) :
  (forall x, g (f x) = g x) -> map g (alter f i l) = map g l.
Proof.
  intros H. revert i. induction l as [|x l IH]; intros [|i]; simpl; [done..|by rewrite H|].
  f_equal. apply IH.
Qed.

Lemma upd_report_view m d : length (node d) = 3%nat -> 0 <= rmm_replica_id m < 3 ->
  exists d', upd_node (rmm_replica_id m) (set_nd_report 1 (rmm_server_state m)) d = Ret d'
             /\ same_view d d' /\ lock_held d' = lock_held d.
Proof.
  intros Hl Hi. destruct (node_at_lookup d _ Hl Hi) as (n & Hn & _).
  unfold upd_node. rewrite Hn, bind_ret_l. eexists. split; [done|]. split; [|done].
  unfold same_view. simpl. rewrite !map_alter_same by done. done.
Qed.

Lemma same_view_ok d d' : same_view d d' -> rm_addr_ok d -> rm_addr_ok d'.
Proof.
  intros (H1 & _ & H3 & _ & _ & _ & H7 & _) [Hl Ha Hc]. split; [|rewrite Forall_lookup in *|by rewrite H7].
  - by rewrite <- (length_map nd_state), H1, length_map.
  - intros i n Hn. assert (nd_server <$> node d !! i = Some (nd_server n)) as Hi.
    { rewrite <- list_lookup_fmap. change (nd_server <$> node d) with (map nd_server (node d)).
      rewrite <- H3. change (map nd_server (node d')) with (nd_server <$> node d').
      by rewrite list_lookup_fmap, Hn. }
    apply fmap_Some in Hi as (n' & Hn' & ->). by eapply Ha.
Qed.

Lemma same_view_sends d d' id e : same_view d d' -> recover_sends d' id e = recover_sends d id e.
Proof.
  intros (H1 & H2 & _ & H4 & _).
  assert (forall i, fac d' i = fac d i) as Hfac.
  { intros i. unfold fac. f_equal. rewrite <- !list_lookup_fmap.
    change (nd_factory <$> node d') with (map nd_factory (node d')). by rewrite H2. }
  assert (forall i, state_at d' i = state_at d i) as Hst.
  { intros i. unfold state_at. by apply states_lookup. }
  unfold recover_sends. rewrite H4, !Hfac.
  assert (filter (fun i => i = id \/ state_at d' i = Some RUNNING) [0; 1; 2]
          = filter (fun i => i = id \/ state_at d i = Some RUNNING) [0; 1; 2]) as ->
    by (apply filter_ext_Forall, Forall_forall; intros; by rewrite Hst).
  assert (forall (txt : Z -> bytes) l,
    map (fun i => (fac d' i, txt i)) l = map (fun i => (fac d i, txt i)) l) as Hmap
    by (intros; apply map_ext; intros; by rewrite Hfac).
  by rewrite (Hmap (fun i => zero_buf (factory_req_text i QUIESCE_BEGIN))),
    (Hmap (fun i => zero_buf (factory_req_text i QUIESCE_STOP))).
Qed.

Lemma print_ok m d : length (node d) = 3%nat -> 0 <= rmm_replica_id m < 3 ->
  exists d', print_current_state_info m d = Ret d' /\ num_replicas d' = num_replicas d
             /\ length (node d') = 3%nat.
Proof.
  intros Hl Hi. destruct (node_at_lookup d _ Hl Hi) as (n & Hn & _).
  unfold print_current_state_info, upd_node. rewrite Hn, !bind_ret_l. cbv zeta.
  repeat case_if; rewrite ?bind_ret_l; eexists; (split; [done|]); simpl; by rewrite ?length_alter.
Qed.

(** The end of [handle_state] after a reaction that did not leave early. *)
Lemma handle_state_end env junk m d d1 ret d2 :
  lock_held d = false -> 0 <= rmm_replica_id m < 3 ->
  upd_node (rmm_replica_id m) (set_nd_report 1 (rmm_server_state m)) (set_lock true d) = Ret d1 ->
  react env junk m d1 = Ret (ret, false, d2) -> length (node d2) = 3%nat ->
  num_replicas d2 <= MAX_REPLICAS ->
  exists d', handle_state env junk m d = Ret (ret, d') /\ lock_held d' = false
    /\ rm_net d' = rm_net d2 /\ map nd_state (node d') = map nd_state (node d2)
    /\ primary_replica_id d' = primary_replica_id d2.
Proof.
  intros Hlock Hi Hu Hr Hl Hc. unfold handle_state. rewrite Hlock, Hu, bind_ret_l, Hr, bind_ret_l.
  cbv beta iota. destruct (print_ok m d2 Hl Hi) as (d3 & Hp & Hn & _). rewrite Hp, bind_ret_l.
  apply print_states in Hp as (H1 & _ & H3 & _ & H5).
  unfold handle_current_state. rewrite Hn, (proj2 (Z.ltb_ge _ _)) by done.
  eexists. split; [done|]. done.
Qed.

(** The recovery of a replica in active mode. When a replica that was marked
    faulted reports running and the factories are reachable, the manager sends,
    in this order: the state RECOVER to the replica, a quiesce to every running
    replica (the recovering one included), the request for a checkpoint to the
    primary, the end of the quiesce to the same replicas, and the state RUNNING
    to the replica with the addresses of the other two; then the replica is
    marked running and the lock is free. *)
Theorem active_recovery_order env junk m d :
  reach env -> rm_addr_ok d -> lock_held d = false -> mode d = 1 ->
  0 <= rmm_replica_id m < 3 -> 0 <= primary_replica_id d < 3 ->
  state_at d (rmm_replica_id m) = Some FAULTED -> rmm_state m = RUNNING ->
  exists election d', fill_message_for_primary_election (rmm_replica_id m) d = Ret election
    /\ handle_state env junk m d = Ret (0, d')
    /\ delivered (rm_net d') = delivered (rm_net d) ++ recover_sends d (rmm_replica_id m) election
    /\ state_at d' (rmm_replica_id m) = Some RUNNING /\ lock_held d' = false.
Proof.
  intros Henv Hok Hlock Hmode Hid Hp Hst Hm. pose proof (ra_nodes d Hok) as Hl.
  destruct (upd_report_view m (set_lock true d) Hl Hid) as (d1 & Hu & Hv & _).
  assert (same_view d d1) as Hv' by exact Hv. clear Hv. pose proof Hv' as (V1 & _ & V3 & V4 & V5 & V6 & V7 & V8).
  pose proof (same_view_ok _ _ Hv' Hok) as Hok1.
  destruct (active_running_up env Henv (rmm_replica_id m) d1 Hok1 Hid) as (e & d2 & He & Hu2 & Ha);
    [by rewrite V4|].
  destruct (node_at_lookup d1 _ (ra_nodes d1 Hok1) Hid) as (n & Hn & Hn').
  assert (nd_state n = FAULTED) as Hnst.
  { pose proof (states_lookup _ _ (Z.to_nat (rmm_replica_id m)) V1) as H. unfold state_at in Hst.
    rewrite Hst, Hn' in H. by injection H. }
  set (d3 := log_sends (recover_sends d1 (rmm_replica_id m) e) d2) in *.
  apply upd_node_Ret in Hu2 as [-> _].
  assert (length (node d3) = 3%nat) as Hl3 by (simpl; rewrite length_alter; apply Hok1).
  destruct (node_at_lookup d3 _ Hl3 Hid) as (n3 & Hn3 & _).
  set (d4 := set_node_list (alter (set_nd_state RUNNING) (Z.to_nat (rmm_replica_id m)) (node d3)) d3).
  assert (react env junk m d1 = Ret (0, false, d4)) as Hr.
  { unfold react. rewrite Hn, bind_ret_l, Hm. cbn [Z.eqb]. rewrite Hnst.
    change (FAULTED =? FAULTED) with true. change (RUNNING =? RUNNING) with true. cbv iota.
    rewrite V5, Hmode. cbn [Z.eqb Pos.eqb]. rewrite Ha. cbn [mbind outcome_bind].
    unfold upd_node. by rewrite Hn3. }
  destruct (handle_state_end env junk m d d1 0 d4 Hlock Hid Hu Hr) as (d' & Hh & Hlk & Hnet & Hs & _).
  { simpl. by rewrite !length_alter, (ra_nodes d1 Hok1). }
  { apply Hok1. }
  exists e, d'. split; [by rewrite <- He; symmetry; apply fill_ext|]. split; [done|].
  split; [|split; [|done]].
  - rewrite Hnet. simpl. by rewrite V8, (same_view_sends d d1).
  - unfold state_at. rewrite (states_lookup _ _ _ Hs). unfold d4. simpl.
    rewrite list_lookup_alter_eq, list_lookup_alter_eq, Hn'. done.
Qed.

(** Replica 0 is the running primary, 1 runs, 2 comes back. *)
Definition recovering : rep_manager :=
  let d := demo_manager 1 0 RUNNING in
  set_node_list (alter (set_nd_state FAULTED) 2%nat (node d)) d.

Lemma demo_addr_ok p : addr_ok (demo_addr p).
Proof. by split. Qed.

Lemma active_recovery_order_witness :
  exists election d', handle_state net_up [] (report 2 RUNNING) recovering = Ret (0, d')
    /\ delivered (rm_net d') = recover_sends recovering 2 election
    /\ length (recover_sends recovering 2 election) = 9%nat.
Proof.
  destruct (active_recovery_order net_up [] (report 2 RUNNING) recovering) as (e & d' & _ & H & Hd & _).
  - intros n. by simpl.
  - constructor; [done| |done]. repeat (constructor; [apply demo_addr_ok|]). constructor.
  - reflexivity.
  - reflexivity.
  - by simpl.
  - by simpl.
  - reflexivity.
  - reflexivity.
  - exists e, d'. split; [exact H|]. split; [exact Hd|reflexivity].
Defined.

(** * The early return *)

Section Unreachable.
Variable env : nat -> net_step.
Hypothesis Henv : forall n, connect_ret (env n) <> 0.

Lemma send_factory_down i b d : length (node d) = 3%nat -> 0 <= i < 3 ->
  exists w, send_factory env i b d = Ret (-1, set_rm_net w d).
Proof using Henv.
  intros Hl Hi. destruct (node_at_lookup d i Hl Hi) as (n & Hn & _).
  unfold send_factory, send_buf, connect_to_server.
  rewrite Hn, bind_ret_l, (proj2 (Z.eqb_neq _ 0)) by apply Henv. by eexists.
Qed.

(** A backup that needs a checkpoint: neither message goes out. *)
Lemma passive_running_down id d n : length (node d) = 3%nat -> 0 <= id < 3 ->
  0 <= primary_replica_id d < 3 -> id <> primary_replica_id d ->
  node_at id d = Ret n -> needs_checkpoint n = 1 ->
  exists w, passive_running env id d = Ret (-1, true, set_rm_net w d).
Proof using Henv.
  intros Hl Hid Hp Hne Hn Hck. unfold passive_running. rewrite (proj2 (Z.eqb_neq _ _)) by done.
  cbn [negb]. unfold send_change_status_to_server.
  change ((PASSIVE_REP =? ACTIVE_REP) && (PASSIVE_BACKUP =? ACTIVE_RUNNING)) with false. cbv iota.
  rewrite bind_ret_l, sprintf_small, bind_ret_l by apply change_state_fits.
  edestruct (send_factory_down id) as [w1 ->]; [exact Hl|done|]. cbn [mbind outcome_bind].
  change (node_at id (set_rm_net w1 d)) with (node_at id d).
  rewrite Hn, bind_ret_l, Hck. change (1 =? 1) with true. cbv iota.
  unfold instruct_primary_to_send_chkpt.
  rewrite sprintf_small, bind_ret_l by apply factory_req_fits.
  change (primary_replica_id (set_rm_net w1 d)) with (primary_replica_id d).
  edestruct (send_factory_down (primary_replica_id d)) as [w2 ->]; [exact Hl|done|].
  exists w2. done.
Qed.
End Unreachable.

(** The mutex leaks. In passive mode, when a backup that needs a checkpoint
    comes back and the manager cannot reach the primary's factory, the
    [return -1] in the middle of [handle_state] leaves the mutex locked, and from
    then on every report of a fault detector and the heartbeat thread wait for
    ever. *)
Theorem early_return_keeps_lock env junk m d :
  (forall n, connect_ret (env n) <> 0) -> rm_addr_ok d -> lock_held d = false -> mode d = 0 ->
  0 <= rmm_replica_id m < 3 -> 0 <= primary_replica_id d < 3 ->
  rmm_replica_id m <> primary_replica_id d ->
  state_at d (rmm_replica_id m) = Some FAULTED -> rmm_state m = RUNNING ->
  needs_checkpoint <$> node d !! Z.to_nat (rmm_replica_id m) = Some 1 ->
  exists d', handle_state env junk m d = Ret (-1, d') /\ lock_held d' = true
    /\ (forall env' junk' m', handle_state env' junk' m' d' = NoFuel) /\ gfd_hbt d' = NoFuel.
Proof.
  intros Henv Hok Hlock Hmode Hid Hp Hne Hst Hm Hck.
  destruct (upd_report_view m (set_lock true d) (ra_nodes d Hok) Hid) as (d1 & Hu & Hv & Hlk).
  assert (length (node d1) = 3%nat) as Hl1 by (apply (same_view_ok d d1 Hv Hok)).
  destruct Hv as (V1 & _ & _ & V4 & V5 & _). simpl in V1, V4, V5, Hlk.
  destruct (node_at_lookup d1 _ Hl1 Hid) as (n & Hn & Hn').
  assert (nd_state n = FAULTED /\ needs_checkpoint n = 1) as [Hnst Hnck].
  { pose proof (states_lookup _ _ (Z.to_nat (rmm_replica_id m)) V1) as H. unfold state_at in Hst.
    rewrite Hst, Hn' in H. split; [by injection H|].
    apply upd_node_Ret in Hu as [-> _]. simpl in Hn'. rewrite list_lookup_alter_eq in Hn'.
    destruct (node d !! Z.to_nat (rmm_replica_id m)) as [n0|]; [|done].
    injection Hn' as <-. by injection Hck. }
  destruct (passive_running_down env Henv (rmm_replica_id m) d1 n) as [w Hr]; rewrite ?V4; try done.
  exists (set_rm_net w d1). unfold handle_state at 1, gfd_hbt, react.
  rewrite Hlock, Hu, bind_ret_l, Hn, bind_ret_l, Hm, Hnst, V5, Hmode.
  change (RUNNING =? RUNNING) with true. change (FAULTED =? FAULTED) with true.
  change (0 =? 0) with true. cbv iota. rewrite Hr. simpl. rewrite Hlk.
  split; [done|]. split; [done|]. split; [|done]. intros env' junk' m'. unfold handle_state. simpl.
  by rewrite Hlk.
Qed.

(** Replica 1 comes back as a backup that missed updates. *)
Definition rejoining : rep_manager :=
  let d := demo_manager 0 0 RUNNING in
  set_node_list (alter (fun n => set_nd_chkpt 1 (set_nd_state FAULTED n)) 1%nat (node d)) d.

Lemma early_return_keeps_lock_witness :
  exists d', handle_state net_down [] (report 1 RUNNING) rejoining = Ret (-1, d')
    /\ lock_held d' = true /\ gfd_hbt d' = NoFuel.
Proof.
  destruct (early_return_keeps_lock net_down [] (report 1 RUNNING) rejoining) as (d' & H & Hl & _ & Hg).
  - intros n. by simpl.
  - constructor; [done| |done]. repeat (constructor; [apply demo_addr_ok|]). constructor.
  - reflexivity.
  - reflexivity.
  - by simpl.
  - by simpl.
  - by simpl.
  - reflexivity.
  - reflexivity.
  - reflexivity.
  - exists d'. split; [exact H|]. by split.
Defined.

(** * Losing the primary *)

Section Restart.
Variable env : nat -> net_step.
Variable junk : bytes.
Hypothesis Henv : reach env.

Definition startup_text (id : Z) (n : replica_node) : bytes :=
  ⟦"Replica ID: "⟧ ++ fmt_d id ++ CRLF
  ++ ⟦"Factory Req: "⟧ ++ fmt_d STARTUP ++ CRLF
  ++ ⟦"Server IP: "⟧ ++ cstr (server_ip (nd_server n)) ++ CRLF
  ++ ⟦"Server Port: "⟧ ++ fmt_d (port (nd_server n)) ++ CRLF ++ CRLF.

Lemma startup_fits id n : addr_ok (nd_server n) -> zlen (startup_text id n) < MAX_LENGTH.
Proof.
  intros [_ Hl]. unfold startup_text. rewrite !zlen_app. pose proof (fmt_d_length id).
  pose proof (fmt_d_length STARTUP). pose proof (fmt_d_length (port (nd_server n))).
  pose proof (cstr_length (server_ip (nd_server n))).
  change (zlen CRLF) with 2. change (zlen ⟦"Replica ID: "⟧) with 12.
  change (zlen ⟦"Factory Req: "⟧) with 13. change (zlen ⟦"Server IP: "⟧) with 11.
  change (zlen ⟦"Server Port: "⟧) with 13. unfold MAX_LENGTH. lia.
Qed.

(** The start-up message goes out and the node is marked, for a moment. *)
Lemma restart_up id d n : rm_addr_ok d -> 0 <= id < 3 -> node d !! Z.to_nat id = Some n ->
  restart_server env junk id d
  = Ret (0, set_node_list (alter (set_nd_state SENT_STARTUP_REQ) (Z.to_nat id) (node d))
              (log_sends [(fac d id, junk_buf junk (startup_text id n))] d)).
Proof using Henv.
  intros Hok Hid Hn. pose proof (ra_nodes d Hok) as Hl. unfold restart_server.
  assert (node_at id d = Ret n) as Hat
    by (unfold node_at; rewrite (proj2 (Z.leb_le 0 id)) by lia; by rewrite Hn).
  pose proof (ra_addr d Hok) as Ha. rewrite Forall_lookup in Ha. specialize (Ha _ _ Hn) as Haddr.
  rewrite Hat, bind_ret_l. unfold c_string. rewrite (proj1 Haddr), bind_ret_l.
  fold (startup_text id n). unfold sprintf_junk.
  rewrite (proj2 (Z.ltb_lt _ _)) by (by apply startup_fits). rewrite bind_ret_l.
  rewrite (send_factory_up env Henv) by done. cbn [mbind outcome_bind]. simpl Z.ltb. cbv iota.
  unfold upd_node. change (node_at id (log_sends _ d)) with (node_at id d). by rewrite Hat.
Qed.

Lemma elect_up i d text : length (node d) = 3%nat -> 0 <= i < 3 ->
  fill_message_for_primary_election i d = Ret text -> zlen text < MAX_LENGTH ->
  elect_new_primary env i d = Ret (0, set_primary i (log_sends [(fac d i, zero_buf text)] d)).
Proof using Henv.
  intros Hl Hi Ht Hz. unfold elect_new_primary. rewrite Ht, bind_ret_l, sprintf_small, bind_ret_l by done.
  rewrite (send_factory_up env Henv) by done. done.
Qed.
End Restart.

(** Losing the primary in passive mode. When the primary is reported faulted
    and the factories are reachable, the manager sends its factory a start-up
    and then tells the factory of the next replica, (id + 1) mod 3, to make it
    the new primary, with the addresses of the other two; that replica becomes
    the primary whatever its own state is, a faulted one included, and the old
    primary is marked as needing a checkpoint. *)
Theorem primary_failover env junk d id n :
  reach env -> rm_addr_ok d -> 0 <= id < 3 -> primary_replica_id d = id ->
  node d !! Z.to_nat id = Some n ->
  let p := (id + 1) mod 3 in
  exists election d', fill_message_for_primary_election p d = Ret election
    /\ passive_faulted env junk id d = Ret (0, d')
    /\ delivered (rm_net d') = delivered (rm_net d)
         ++ [(fac d id, junk_buf junk (startup_text id n)); (fac d p, zero_buf election)]
    /\ primary_replica_id d' = p
    /\ needs_checkpoint <$> node d' !! Z.to_nat id = Some 1
    /\ forall i, i <> Z.to_nat id -> node d' !! i = node d !! i.
Proof.
  intros Henv Hok Hid Hp Hn p. pose proof (ra_nodes d Hok) as Hl.
  assert (0 <= p < 3) as Hpr by (apply Z.mod_pos_bound; lia).
  destruct (fill_election_ok p d Hok Hpr) as (e & He & Hz).
  unfold passive_faulted. rewrite Hp, (proj2 (Z.eqb_neq id (-1))), Z.eqb_refl by lia.
  rewrite (restart_up env junk Henv id d n), bind_ret_l by done. cbv beta iota.
  set (d1 := set_node_list _ _). unfold move_primary.
  assert (Z.rem (id + 1) MAX_REPLICAS = p) as ->.
  { unfold p, MAX_REPLICAS. apply Z.rem_mod_nonneg; lia. }
  assert (fill_message_for_primary_election p (set_primary p d1) = Ret e) as He1.
  { rewrite <- He. apply fill_ext; [|done|done]. simpl. by rewrite map_alter_same. }
  assert (length (node (set_primary p d1)) = 3%nat) as Hl1 by (simpl; by rewrite length_alter).
  rewrite (elect_up env Henv p (set_primary p d1) e), bind_ret_l by done. cbv beta iota.
  set (d2 := set_primary p (log_sends _ _)).
  change (fail_if 0 0) with 0. rewrite bind_ret_l. cbv beta iota.
  assert (node d2 = alter (set_nd_state SENT_STARTUP_REQ) (Z.to_nat id) (node d)) as Hd2 by done.
  destruct (node_at_lookup d2 id) as (n2 & Hn2 & Hn2'); [by rewrite Hd2, length_alter|done|].
  unfold upd_node. rewrite Hn2, !bind_ret_l. exists e. eexists. split; [done|]. split; [done|].
  assert (fac (set_primary p d1) p = fac d p) as Hfac.
  { unfold fac. f_equal. simpl. rewrite <- !list_lookup_fmap.
    change (nd_factory <$> ?l) with (map nd_factory l). by rewrite map_alter_same. }
  split; [|split; [done|split]].
  - simpl. rewrite Hfac. by rewrite <- app_assoc.
  - simpl. rewrite list_lookup_alter_eq, list_lookup_alter_eq, Hn. done.
  - intros i Hi. simpl. by rewrite !list_lookup_alter_ne.
Qed.

(** All three are marked faulted; the primary 2 fails and 0 is elected. *)
Lemma primary_failover_witness :
  exists election d', passive_faulted net_up [] 2 (demo_manager 0 2 FAULTED) = Ret (0, d')
    /\ delivered (rm_net d')
       = [(demo_addr 102, junk_buf [] (startup_text 2 (demo_node FAULTED 2)));
          (demo_addr 100, zero_buf election)]
    /\ primary_replica_id d' = 0 /\ state_at d' 0 = Some FAULTED.
Proof.
  destruct (primary_failover net_up [] (demo_manager 0 2 FAULTED) 2 (demo_node FAULTED 2))
    as (e & d' & _ & H & Hd & Hp & _ & Ho).
  - intros n. by simpl.
  - constructor; [done| |done]. repeat (constructor; [apply demo_addr_ok|]). constructor.
  - by simpl.
  - reflexivity.
  - reflexivity.
  - exists e, d'. split; [exact H|]. split; [exact Hd|]. split; [exact Hp|].
    unfold state_at. rewrite (Ho (Z.to_nat 0)) by (simpl; lia). reflexivity.
Defined.
