(* ===== verification/Daemon.v ===== *)
(** What the daemons ([src/server.c], [src/factory.c],
    [src/replication_manager.c]) share in their [main]: the listening socket and
    the loop around [accept]. The results of the system calls are parameters. *)
From S2P Require Import Prelude CLib.

(** The results of [inet_pton], [socket], [bind] and [listen]. *)
Record os_listen := { pton_ret : Z; lsocket_ret : Z; bind_ret : Z; listen_ret : Z }.

(** The listening descriptor; every failure ends the process. [ip] and [port]
    are null pointers when the configuration does not set them. *)
Definition set_up_listener (ip port_str : option bytes) (o : os_listen) : outcome Z :=
  _ ← deref ip;
  if negb (pton_ret o =? 1) then Exit
  else _ ← deref port_str;
  if lsocket_ret o <? 0 then Exit
  else if negb (bind_ret o =? 0) then Exit
  else if listen_ret o <? 0 then Exit
  else Ret (lsocket_ret o).

(** [argv[n]]; a null pointer behind the last argument. *)
Definition arg (n : nat) (argv : list bytes) : outcome bytes := deref (argv !! n).

(** What [accept] returns: a connection, or an [errno]. *)
Inductive accept_event (A : Type) :=
  | Accepted (a : A)
  | ConnAborted
  | Interrupted
  | AcceptFailed.
Arguments Accepted {A} a.
Arguments ConnAborted {A}.
Arguments Interrupted {A}.
Arguments AcceptFailed {A}.

Section Accept.
Context {A S : Type}.
(** Does the loop go on after [EINTR]? *)
Variable tolerates_eintr : bool.
(** What is done with a connection. *)
Variable serve : A -> S -> outcome S.

Definition accept_step (e : accept_event A) (s : S) : outcome S :=
  match e with
  | Accepted a => serve a s
  | ConnAborted => Ret s
  | Interrupted => if tolerates_eintr then Ret s else Exit
  | AcceptFailed => Exit
  end.

(** The [while (1)] over the events so far. *)
Fixpoint accept_loop (l : list (accept_event A)) (s : S) : outcome S :=
  match l with
  | [] => Ret s
  | e :: l => s ← accept_step e s; accept_loop l s
  end.

(** What each connection keeps, the loop keeps. *)
Lemma accept_loop_keeps (P : S -> Prop) l : forall s s',
  (forall a s s', P s -> serve a s = Ret s' -> P s') -> P s -> accept_loop l s = Ret s' -> P s'.
Proof.
  induction l as [|e l IH]; intros s s' Hs Hp E; cbn [accept_loop] in E; [by injection E as <-|].
  apply bind_Ret_inv in E as (s1 & E1 & E). eapply IH; [done| |exact E].
  destruct e; cbn [accept_step] in E1; [by eapply Hs|by injection E1 as <-| |done].
  case_if; [by injection E1 as <-|done].
Qed.
End Accept.
