(* ===== verification/Manager.v ===== *)
(** The replication manager as a process: its reports and the rounds of its
    heartbeat thread as steps, what every reachable state satisfies, and that
    every report about one of the three replicas is handled to its end. *)
From S2P Require Import Prelude CLib Iface Util Request RepMgr Daemon.

(** * The invariant *)

(** What the configuration fixes. *)
Definition config_of (d : rep_manager) : list (server_info * server_info) * Z * Z * Z :=
  (map (fun n => (nd_factory n, nd_server n)) (node d), num_replicas d, checkpoint_freq d, mode d).

(** The replicas marked as up. *)
Definition ups (l : list replica_node) : Z := foldr (fun n k => server_status n + k) 0 l.

(** The marks of a replica; [p]: a primary was chosen. *)
Definition marks_ok (p : Z) (n : replica_node) : Prop :=
  (server_status n = 0 \/ server_status n = 1)
  /\ (needs_checkpoint n = 0 \/ needs_checkpoint n = 1 /\ p <> -1).

(** [exact]: the heartbeat thread has not run yet. *)
Record rm_inv (exact : bool) (d0 d : rep_manager) : Prop := {
  ri_cfg : config_of d = config_of d0;
  ri_addr : rm_addr_ok d;
  ri_primary : -1 <= primary_replica_id d < 3;
  ri_marks : Forall (marks_ok (primary_replica_id d)) (node d);
  ri_count : if exact then num_servers d = ups (node d) else ups (node d) <= num_servers d <= 3
}.

Lemma ups_cons n l : ups (n :: l) = server_status n + ups l.
Proof. done. Qed.

Lemma ups_range p l : Forall (marks_ok p) l -> 0 <= ups l <= Z.of_nat (length l).
Proof. induction 1 as [|n l [Hn _] Hl IH]; simpl in *; lia. Qed.

Lemma ups_room p l i n : Forall (marks_ok p) l -> l !! i = Some n -> server_status n = 0 ->
  ups l < Z.of_nat (length l).
Proof.
  intros Hl. revert i. induction Hl as [|x l [Hx _] Hl IH]; intros [|i] H Hs; simpl in *; simplify_eq.
  - pose proof (ups_range p l Hl). lia.
  - specialize (IH i H Hs). lia.
Qed.

Lemma ups_alter f l i n : l !! i = Some n ->
  ups (alter f i l) = ups l - server_status n + server_status (f n).
Proof.
  revert i. induction l as [|x l IH]; intros [|i] H; simpl in *; simplify_eq; [lia|].
  change (list_alter f i l) with (alter f i l). rewrite (IH i) by done. lia.
Qed.

Lemma Forall_alter_at {A} (P : A -> Prop) f l i : Forall P l ->
  (forall x, l !! i = Some x -> P x -> P (f x)) -> Forall P (alter f i l).
Proof.
  intros Hl Hf. apply Forall_lookup. intros j y Hy. destruct (decide (i = j)) as [<-|Hne].
  - rewrite list_lookup_alter_eq in Hy. destruct (l !! i) as [x|] eqn:E; [|done].
    injection Hy as <-. apply Hf; [done|]. by eapply (proj1 (Forall_lookup P l)).
  - rewrite list_lookup_alter_ne in Hy by done. by eapply (proj1 (Forall_lookup P l)).
Qed.

Section Invariant.
Context (exact : bool) (d0 : rep_manager).
Abbreviation inv := (rm_inv exact d0).

(** The parts that may change freely. *)
Lemma inv_net n d : inv d -> inv (set_rm_net n d).
Proof. intros [H1 [? ? ?] H3 H4 H5]. by constructor. Qed.

Lemma inv_lock b d : inv d -> inv (set_lock b d).
Proof. intros [H1 [? ? ?] H3 H4 H5]. by constructor. Qed.

Lemma inv_primary p d : inv d -> 0 <= p < 3 -> inv (set_primary p d).
Proof.
  intros [H1 [? ? ?] H3 H4 H5] Hp. constructor; simpl; try done; [lia|].
  eapply Forall_impl; [exact H4|]. intros n [Hs Hc]. split; [done|].
  destruct Hc as [?|[? _]]; [by left|right; split; [done|lia]].
Qed.

Lemma node_at_3 d i : inv d -> 0 <= i < 3 ->
  exists n, node_at i d = Ret n /\ node d !! Z.to_nat i = Some n /\ addr_ok (nd_server n)
    /\ marks_ok (primary_replica_id d) n.
Proof.
  intros [_ [Hl Ha _] _ Hm _] Hi. destruct (node_at_lookup d i Hl Hi) as (n & En & Hn).
  exists n. split; [done|]. split; [done|]. split.
  - by eapply (proj1 (Forall_lookup _ _) Ha).
  - by eapply (proj1 (Forall_lookup _ _) Hm).
Qed.

(** Updating a node, with the count that goes with it. *)
Lemma inv_upd i f k d : inv d -> 0 <= i < 3 ->
  (forall n, nd_factory (f n) = nd_factory n /\ nd_server (f n) = nd_server n) ->
  (forall n, node d !! Z.to_nat i = Some n -> marks_ok (primary_replica_id d) n ->
     marks_ok (primary_replica_id d) (f n)
     /\ (if exact then k - num_servers d = server_status (f n) - server_status n
         else server_status (f n) - server_status n <= k - num_servers d
              \/ k = 3) /\ (exact = false -> k <= 3)) ->
  exists d', upd_node i f d = Ret d' /\ inv (set_num_servers k d')
    /\ primary_replica_id d' = primary_replica_id d.
Proof.
  intros Hd Hi Hcfg Hmarks. destruct (node_at_3 d i Hd Hi) as (n & En & Hn & _ & Hm).
  destruct (Hmarks n Hn Hm) as (Hm' & Hk & Hk3). destruct Hd as [H1 [Hl Ha Hc] H3 H4 H5].
  unfold upd_node. rewrite En, bind_ret_l. eexists. split; [done|]. split; [|done].
  assert (map (fun n => (nd_factory n, nd_server n)) (alter f (Z.to_nat i) (node d))
          = map (fun n => (nd_factory n, nd_server n)) (node d)) as Hmap.
  { apply map_alter_same. intros x. by destruct (Hcfg x) as [-> ->]. }
  assert (Forall (marks_ok (primary_replica_id d)) (alter f (Z.to_nat i) (node d))) as Hall.
  { apply Forall_alter_at; [done|]. intros x Hx _. rewrite Hn in Hx. by injection Hx as <-. }
  constructor.
  - rewrite <- H1. unfold config_of. simpl. by rewrite Hmap.
  - constructor; simpl; [by rewrite length_alter| |done].
    apply Forall_alter_at; [done|]. intros x _. by destruct (Hcfg x) as [_ ->].
  - exact H3.
  - exact Hall.
  - simpl. pose proof (ups_range _ _ Hall) as Hr. rewrite length_alter, Hl in Hr.
    rewrite (ups_alter f _ _ n Hn) in Hr |- *. destruct exact; [lia|]. specialize (Hk3 eq_refl). lia.
Qed.

(** Updating a node without touching its mark. *)
Lemma inv_upd_same i f d : inv d -> 0 <= i < 3 ->
  (forall n, nd_factory (f n) = nd_factory n /\ nd_server (f n) = nd_server n
     /\ server_status (f n) = server_status n
     /\ (needs_checkpoint (f n) = needs_checkpoint n
         \/ needs_checkpoint (f n) = 1 /\ primary_replica_id d <> -1)) ->
  exists d', upd_node i f d = Ret d' /\ inv d' /\ primary_replica_id d' = primary_replica_id d.
Proof.
  intros Hd Hi Hf.
  destruct (inv_upd i f (num_servers d) d Hd Hi) as (d' & E & H & Hp).
  - intros n. by destruct (Hf n) as (? & ? & _).
  - intros n _ [Hs Hc]. destruct (Hf n) as (_ & _ & Hst & Hn). unfold marks_ok. rewrite Hst.
    split; [split; [done|]|]; [destruct Hn as [-> | Hn]; auto|].
    split; [destruct exact; lia|]. intros ->. apply (ri_count _ _ _ Hd).
  - exists d'. split; [done|]. split; [|done].
    assert (set_num_servers (num_servers d) d' = d') as <-; [|done].
    apply upd_node_Ret in E as [-> _]. by destruct d.
Qed.
End Invariant.

(** * The report that keeps the lock *)

(** The report after which the lock stays taken: in passive mode, a replica that
    was faulted and waits for a checkpoint runs again. *)
Definition leaves_lock (m : replication_manager_message) (d : rep_manager) : Prop :=
  mode d = 0 /\ rmm_state m = RUNNING
  /\ exists n, node d !! Z.to_nat (rmm_replica_id m) = Some n /\ nd_state n = FAULTED /\ needs_checkpoint n = 1.

Lemma passive_running_early env i d r d' : passive_running env i d = Ret (r, true, d') ->
  r = -1 /\ ~ reach env /\ exists n, node_at i d = Ret n /\ needs_checkpoint n = 1.
Proof.
  unfold passive_running. intros H. apply bind_Ret_inv in H as ([r1 d1] & H1 & H).
  assert (node d1 = node d) as Hn.
  { case_if; apply bind_Ret_inv in H1 as ([st d2] & H1 & [= _ <-]);
      [apply change_framed in H1|apply elect_framed in H1]; apply H1. }
  apply bind_Ret_inv in H as (n & En & H). case_if; [|done]. zbool.
  apply bind_Ret_inv in H as ([st d2] & Hs & H). case_if; [|done]. injection H as <- _. zbool. split; [done|].
  split.
  { intros Henv. apply bind_Ret_inv in Hs as (b & _ & Hs). apply bind_Ret_inv in Hs as (n' & _ & Hs).
    rewrite send_buf_up in Hs by done. injection Hs as <- _. lia. }
  exists n. split; [|done]. unfold node_at in *. by rewrite <- Hn.
Qed.

Lemma react_early env junk m d r d' : react env junk m d = Ret (r, true, d') ->
  r = -1 /\ ~ reach env /\ leaves_lock m d.
Proof.
  unfold react, leaves_lock. intros H. apply bind_Ret_inv in H as (n & En & H). case_if.
  - apply bind_Ret_inv in H as ([[r1 e] d1] & H1 & H). destruct e; [|apply bind_Ret_inv in H as (? & _ & [=])].
    injection H as <- _. case_if; [|done]. case_if.
    + apply passive_running_early in H1 as (-> & Hr & n' & En' & Hc). rewrite En in En'. injection En' as <-.
      apply node_at_Ret in En as [_ En]. zbool. split; [done|]. split; [done|]. split; [done|]. split; [done|]. by exists n.
    + case_if; [|done]. apply bind_Ret_inv in H1 as ([? ?] & _ & [=]).
  - case_if; [|done]. case_if; [|done]. apply bind_Ret_inv in H as ([? ?] & _ & H).
    apply bind_Ret_inv in H as (? & _ & [=]).
Qed.

Lemma handle_state_lock env junk m d r d' : handle_state env junk m d = Ret (r, d') -> lock_held d' = true ->
  r = -1 /\ ~ reach env /\ leaves_lock m d.
Proof.
  unfold handle_state. case_if; [done|]. intros H Hl. apply bind_Ret_inv in H as (d1 & H1 & H).
  apply bind_Ret_inv in H as ([[r1 e] d2] & H2 & H). destruct e.
  - injection H as -> ->. apply react_early in H2 as (-> & Hr & Hm & Hs & n & En & Hn & Hc).
    split; [done|]. split; [done|].
    apply upd_node_Ret in H1 as [-> _]. cbn [node set_node_list set_lock mode] in *.
    rewrite list_lookup_alter_eq in En. destruct (node d !! Z.to_nat (rmm_replica_id m)) as [n0|] eqn:E0; [|done].
    injection En as <-. split; [exact Hm|]. split; [exact Hs|].
    exists n0. exact (conj E0 (conj Hn Hc)).
  - apply bind_Ret_inv in H as (? & _ & H). apply bind_Ret_inv in H as (? & _ & [= _ <-]). by simpl in Hl.
Qed.

(** * Every operation returns and keeps the invariant *)

Section Total.
Context (exact : bool) (d0 : rep_manager).
Abbreviation inv := (rm_inv exact d0).
Variable env : nat -> net_step.
Variable junk : bytes.

(** The operation is defined, and a primary is never forgotten. *)
Definition good (d : rep_manager) (o : outcome (Z * rep_manager)) : Prop :=
  exists r d', o = Ret (r, d') /\ inv d'
    /\ (primary_replica_id d <> -1 -> primary_replica_id d' <> -1).

Lemma good_bind d o k : good d o ->
  (forall r d1, inv d1 -> (primary_replica_id d <> -1 -> primary_replica_id d1 <> -1) -> good d1 (k (r, d1))) ->
  good d (o ≫= k).
Proof.
  intros (r & d1 & -> & H1 & Hp1) Hk. rewrite bind_ret_l.
  destruct (Hk r d1 H1 Hp1) as (r2 & d2 & E & H2 & Hp2). exists r2, d2. auto.
Qed.

Lemma good_ret d r d' : inv d' -> (primary_replica_id d <> -1 -> primary_replica_id d' <> -1) ->
  good d (Ret (r, d')).
Proof. intros. by exists r, d'. Qed.

Lemma good_send i b d : inv d -> 0 <= i < 3 -> good d (send_factory env i b d).
Proof.
  intros Hd Hi. destruct (node_at_3 exact d0 d i Hd Hi) as (n & En & _).
  unfold send_factory. rewrite En, bind_ret_l. destruct (send_buf _ _ _ _) as [r w].
  apply good_ret; [by apply inv_net|done].
Qed.

Lemma good_request i q d : inv d -> 0 <= i < 3 ->
  good d (b ← sprintf_zero (factory_req_text i q); send_factory env i b d).
Proof. intros Hd Hi. rewrite sprintf_small, bind_ret_l by apply factory_req_fits. by apply good_send. Qed.

Lemma good_elect i d : inv d -> 0 <= i < 3 -> good d (elect_new_primary env i d).
Proof.
  intros Hd Hi. destruct (fill_election_ok i d (ri_addr _ _ _ Hd) Hi) as (text & E & Ht).
  unfold elect_new_primary. rewrite E, bind_ret_l, sprintf_small, bind_ret_l by done.
  eapply good_bind; [by apply good_send|]. intros r d1 H1 Hp. cbv beta iota.
  case_if; apply good_ret; try done; [by apply inv_primary|simpl; lia].
Qed.

Lemma good_change i m s d : inv d -> 0 <= i < 3 -> good d (send_change_status_to_server env i m s d).
Proof.
  intros Hd Hi. unfold send_change_status_to_server.
  destruct (fill_election_ok i d (ri_addr _ _ _ Hd) Hi) as (text & E & Ht).
  case_if; [rewrite E|]; rewrite bind_ret_l, sprintf_small, bind_ret_l
    by first [done | apply change_state_fits]; by apply good_send.
Qed.

Lemma good_upd i f d : inv d -> 0 <= i < 3 ->
  (forall n, nd_factory (f n) = nd_factory n /\ nd_server (f n) = nd_server n
     /\ server_status (f n) = server_status n
     /\ (needs_checkpoint (f n) = needs_checkpoint n
         \/ needs_checkpoint (f n) = 1 /\ primary_replica_id d <> -1)) ->
  forall r, good d (d ← upd_node i f d; Ret (r, d)).
Proof.
  intros Hd Hi Hf r. destruct (inv_upd_same exact d0 i f d Hd Hi Hf) as (d' & -> & H & Hp).
  rewrite bind_ret_l. apply good_ret; [done|by rewrite Hp].
Qed.

Lemma good_for_running f ids : Forall (fun i => 0 <= i < 3) ids ->
  (forall i d, inv d -> 0 <= i < 3 -> good d (f i d)) ->
  forall ret d, inv d -> good d (for_running f ids ret d).
Proof.
  intros Hids Hf. induction Hids as [|i ids Hi Hids IH]; intros ret d Hd; cbn [for_running];
    [by apply good_ret|].
  destruct (node_at_3 exact d0 d i Hd Hi) as (n & En & _). rewrite En, bind_ret_l. case_if; [|by apply IH].
  eapply good_bind; [by apply Hf|]. intros r d1 H1 _. by apply IH.
Qed.

Lemma good_quiesce_all d : inv d -> good d (quiesce_all env d).
Proof.
  intros Hd. apply good_for_running; [repeat constructor; lia| |done]. intros i d1 H1 Hi. by apply good_request.
Qed.

Lemma good_stop_quiesce_all d : inv d -> good d (stop_quiesce_all env d).
Proof.
  intros Hd. apply good_for_running; [repeat constructor; lia| |done]. intros i d1 H1 Hi. by apply good_request.
Qed.

Lemma good_restart i d : inv d -> 0 <= i < 3 -> good d (restart_server env junk i d).
Proof.
  intros Hd Hi. destruct (node_at_3 exact d0 d i Hd Hi) as (n & En & _ & Haddr & _).
  unfold restart_server. rewrite En, bind_ret_l. unfold c_string. rewrite (proj1 Haddr), bind_ret_l.
  fold (startup_text i n). unfold sprintf_junk.
  rewrite (proj2 (Z.ltb_lt _ _)), bind_ret_l by by apply startup_fits.
  eapply good_bind; [by apply good_send|]. intros r d1 H1 Hp. cbv beta iota.
  case_if; [by apply good_ret|]. apply good_upd; [done|done|]. intros x. repeat split. by left.
Qed.

(** ** The reactions to a report *)

Lemma rem_3 i : 0 <= i < 3 -> 0 <= Z.rem (i + 1) MAX_REPLICAS < 3.
Proof. intros Hi. apply Z.rem_bound_pos; unfold MAX_REPLICAS; lia. Qed.

Lemma good_move_primary i d : inv d -> 0 <= i < 3 -> good d (move_primary env i d).
Proof.
  intros Hd Hi. pose proof (rem_3 i Hi) as Hp. unfold move_primary.
  destruct (good_elect _ _ (inv_primary exact d0 _ d Hd Hp) Hp) as (r & d1 & -> & H1 & Hp1).
  rewrite bind_ret_l. apply good_ret; [done|]. intros _. apply Hp1. simpl. lia.
Qed.

Lemma good_mark i d r : inv d -> 0 <= i < 3 -> primary_replica_id d <> -1 ->
  good d (d ← upd_node i (set_nd_chkpt 1) d; Ret (r, d)).
Proof. intros Hd Hi Hp. apply good_upd; [done|done|]. intros n. repeat split. by right. Qed.

Lemma good_passive_faulted i d : inv d -> 0 <= i < 3 -> good d (passive_faulted env junk i d).
Proof.
  intros Hd Hi. unfold passive_faulted. case_if; [|case_if]; zbool.
  - eapply good_bind; [by apply good_restart|]. intros r d1 H1 _.
    apply good_ret; [by apply inv_primary|simpl; lia].
  - eapply good_bind; [by apply good_restart|]. intros r d1 H1 Hp1. specialize (Hp1 Hif).
    destruct (good_move_primary i d1 H1 Hi) as (r2 & d2 & -> & H2 & Hp2). rewrite bind_ret_l.
    destruct (good_mark i d2 r2 H2 Hi (Hp2 Hp1)) as (r3 & d3 & E & H3 & Hp3). exists r3, d3. auto.
  - eapply good_bind; [by apply good_restart|]. intros r d1 H1 Hp1. apply good_mark; auto.
Qed.

Lemma good_active_faulted i d : inv d -> 0 <= i < 3 -> good d (active_faulted env junk i d).
Proof.
  intros Hd Hi. unfold active_faulted. eapply good_bind; [by apply good_restart|].
  intros r d1 H1 _. cbv beta iota. case_if; [by apply good_move_primary|by apply good_ret].
Qed.

Lemma good_active_running i st d : inv d -> 0 <= i < 3 -> good d (active_running env i st d).
Proof.
  intros Hd Hi. unfold active_running. case_if; zbool.
  - destruct (good_change i ACTIVE_REP ACTIVE_RUNNING _ (inv_primary exact d0 i d Hd Hi) Hi)
      as (r & d1 & E & H1 & Hp). cbv zeta. rewrite E, bind_ret_l. apply good_ret; [done|]. intros _. apply Hp. simpl. lia.
  - destruct (inv_upd_same exact d0 i (set_nd_state st) d Hd Hi) as (d1 & -> & H1 & Hp1);
      [intros n; repeat split; by left|]. rewrite bind_ret_l.
    assert (primary_replica_id d1 <> -1) as Hpr by by rewrite Hp1.
    assert (good d1 (
      '(status, d) ← send_change_status_to_server env i ACTIVE_REP ACTIVE_RECOVER d1;
      let ret := fail_if status 0 in
      '(_, d) ← quiesce_all env d;
      '(status, d) ← instruct_primary_to_send_chkpt env (primary_replica_id d) d;
      let ret := fail_if status ret in
      '(_, d) ← stop_quiesce_all env d;
      '(status, d) ← send_change_status_to_server env i ACTIVE_REP ACTIVE_RUNNING d;
      Ret (fail_if status ret, d))) as (r & d2 & E & H2 & Hp2).
    { eapply good_bind; [by apply good_change|]. intros r2 d2 H2 Hp2. cbv beta iota zeta.
      eapply good_bind; [by apply good_quiesce_all|]. intros r3 d3 H3 Hp3. cbv beta iota zeta.
      eapply good_bind.
      { apply good_request; [done|]. pose proof (ri_primary _ _ _ H3). specialize (Hp3 (Hp2 Hpr)). lia. }
      intros r4 d4 H4 _. cbv beta iota zeta.
      eapply good_bind; [by apply good_stop_quiesce_all|]. intros r5 d5 H5 _. cbv beta iota zeta.
      eapply good_bind; [by apply good_change|]. intros r6 d6 H6 _. by apply good_ret. }
    exists r, d2. split; [exact E|]. split; [done|]. auto.
Qed.

(** With the flag that says that the lock stays taken. *)
Lemma good_passive_running i d : inv d -> 0 <= i < 3 ->
  exists r e d', passive_running env i d = Ret (r, e, d') /\ inv d'.
Proof.
  intros Hd Hi. unfold passive_running.
  assert (good d (if negb (i =? primary_replica_id d)
     then '(status, d) ← send_change_status_to_server env i PASSIVE_REP PASSIVE_BACKUP d; Ret (fail_if status 0, d)
     else '(status, d) ← elect_new_primary env (primary_replica_id d) d; Ret (fail_if status 0, d)))
    as (r & d1 & -> & H1 & Hp).
  { case_if; zbool; (eapply good_bind; [|intros r d1 H1 _; by apply good_ret]); [by apply good_change|].
    rewrite <- Hif. by apply good_elect. }
  rewrite bind_ret_l. cbv beta iota. destruct (node_at_3 exact d0 d1 i H1 Hi) as (n & En & _ & _ & [_ Hm]).
  rewrite En, bind_ret_l. case_if; [|by exists r, false, d1]. zbool.
  destruct Hm as [?|[_ Hm]]; [lia|].
  destruct (good_request (primary_replica_id d1) SEND_CHKPT d1 H1) as (r2 & d2 & E & H2 & _).
  { pose proof (ri_primary _ _ _ H1). lia. }
  unfold instruct_primary_to_send_chkpt. rewrite E, bind_ret_l. cbv beta iota.
  case_if; [by exists (-1), true, d2|by exists r, false, d2].
Qed.

Lemma react_total m d : inv d -> 0 <= rmm_replica_id m < 3 ->
  exists r e d', react env junk m d = Ret (r, e, d') /\ inv d'.
Proof.
  intros Hd Hi. unfold react.
  destruct (node_at_3 exact d0 d _ Hd Hi) as (n & En & _). rewrite En, bind_ret_l.
  case_if.
  - assert (exists r e d1, (if nd_state n =? FAULTED then
         if mode d =? 0 then passive_running env (rmm_replica_id m) d
         else if mode d =? 1 then '(r, d) ← active_running env (rmm_replica_id m) (rmm_state m) d; Ret (r, false, d)
         else Ret (0, false, d)
       else Ret (0, false, d)) = Ret (r, e, d1) /\ inv d1) as (r & e & d1 & -> & H1).
    { case_if; [|by exists 0, false, d]. case_if; [by apply good_passive_running|].
      case_if; [|by exists 0, false, d].
      destruct (good_active_running (rmm_replica_id m) (rmm_state m) d Hd Hi) as (r & d1 & -> & H1 & _).
      by exists r, false, d1. }
    rewrite bind_ret_l. destruct e; [by exists r, true, d1|].
    destruct (inv_upd_same exact d0 _ (set_nd_state (rmm_state m)) d1 H1 Hi) as (d2 & -> & H2 & _);
      [intros x; repeat split; by left|]. by exists r, false, d2.
  - case_if; [|by exists 0, false, d]. case_if; [|by exists 0, false, d].
    assert (good d (if mode d =? 0 then passive_faulted env junk (rmm_replica_id m) d
      else if mode d =? 1 then active_faulted env junk (rmm_replica_id m) d else Ret (0, d)))
      as (r & d1 & -> & H1 & _).
    { case_if; [by apply good_passive_faulted|]. case_if; [by apply good_active_faulted|by apply good_ret]. }
    rewrite bind_ret_l.
    destruct (inv_upd_same exact d0 _ (set_nd_state FAULTED) d1 H1 Hi) as (d2 & -> & H2 & _);
      [intros x; repeat split; by left|]. by exists r, false, d2.
Qed.

Lemma print_total m d : inv d -> 0 <= rmm_replica_id m < 3 ->
  exists d', print_current_state_info m d = Ret d' /\ inv d'.
Proof.
  intros Hd Hi. unfold print_current_state_info.
  destruct (node_at_3 exact d0 d _ Hd Hi) as (n & En & Hn & _). rewrite En, bind_ret_l.
  pose proof (ri_count _ _ _ Hd) as Hc. pose proof (ups_range _ _ (ri_marks _ _ _ Hd)) as Hu.
  rewrite (ra_nodes d (ri_addr _ _ _ Hd)) in Hu. change (Z.of_nat 3) with 3 in Hu.
  destruct ((server_status n =? 0) && (rmm_state m =? RUNNING)) eqn:Eup;
    [apply andb_true_iff in Eup as [Est _]|case_if; [|by exists d]]; zbool.
  - destruct (inv_upd exact d0 (rmm_replica_id m) (set_nd_status 1)
      (if MAX_REPLICAS <? num_servers d + 1 then MAX_REPLICAS else num_servers d + 1) d Hd Hi)
      as (d1 & E & H1 & Hp); [done| |].
    + intros x Hx [Hs Hm]. rewrite Hn in Hx. injection Hx as <-. split; [split; [by right|done]|].
      pose proof (ups_room _ _ _ _ (ri_marks _ _ _ Hd) Hn Est) as Hroom.
      rewrite (ra_nodes d (ri_addr _ _ _ Hd)) in Hroom. simpl. unfold MAX_REPLICAS in *.
      destruct exact, (3 <? num_servers d + 1) eqn:E3; zbool; lia.
    + rewrite E, bind_ret_l. apply upd_node_Ret in E as [E _].
      assert (num_servers d1 = num_servers d) as -> by (by rewrite E). by eexists.
  - destruct (inv_upd exact d0 (rmm_replica_id m) (set_nd_status 0) (num_servers d - 1) d Hd Hi)
      as (d1 & E & H1 & Hp); [done| |].
    + intros x Hx [Hs Hm]. rewrite Hn in Hx. injection Hx as <-. split; [split; [by left|done]|].
      simpl. destruct exact; lia.
    + rewrite E, bind_ret_l. apply upd_node_Ret in E as [E _].
      assert (num_servers d1 = num_servers d) as -> by (by rewrite E). by eexists.
Qed.

(** A report about one of the three replicas, with the lock free. *)
Lemma handle_state_total m d : inv d -> lock_held d = false -> 0 <= rmm_replica_id m < 3 ->
  exists r d', handle_state env junk m d = Ret (r, d') /\ inv d'.
Proof.
  intros Hd Hl Hi. unfold handle_state. rewrite Hl.
  destruct (inv_upd_same exact d0 _ (set_nd_report 1 (rmm_server_state m)) (set_lock true d)
    (inv_lock exact d0 true d Hd) Hi) as (d1 & -> & H1 & _); [intros x; repeat split; by left|].
  rewrite bind_ret_l. destruct (react_total m d1 H1 Hi) as (r & e & d2 & -> & H2). rewrite bind_ret_l.
  destruct e; [by exists r, d2|]. destruct (print_total m d2 H2 Hi) as (d3 & -> & H3).
  rewrite bind_ret_l. unfold handle_current_state.
  pose proof (ra_count d3 (ri_addr _ _ _ H3)). rewrite (proj2 (Z.ltb_ge _ _)) by lia. rewrite bind_ret_l.
  exists r, (set_lock false d3). split; [done|]. by apply inv_lock.
Qed.
End Total.

(** * The process *)

(** The loop over [num_replicas] nodes, before the lock and the thread are
    made; [now]: what [time] returns. *)
Definition init_gfd_hbt (now : Z) (d : rep_manager) : outcome rep_manager :=
  if MAX_REPLICAS <? num_replicas d then Undef
  else
    let k := num_replicas d in
    Ret (set_node_list (map (fun n => set_nd_report now (nd_server_state n) n) (ztake k (node d))
                        ++ zdrop k (node d)) d).

(** [main] up to its loop. *)
Definition rm_start (parsed : option rm_config) (o : os_listen) (now : Z) : outcome rep_manager :=
  '(status, d) ← read_config_file parsed rm_globals;
  if negb (status =? 0) then Exit
  else
    _ ← set_up_listener (parsed ≫= cfg_ip) (parsed ≫= cfg_port) o;
    d ← init_gfd_hbt now d;
    Ret (init_server_state d).

(** A connection: its bytes, the uninitialised message it is read into and the
    uninitialised buffer of [restart_server]. *)
Record report_conn := {
  rc_input : list rd_event;
  rc_uninit : replication_manager_message;
  rc_junk : bytes
}.

(** What happens to the process: [accept] returns, or the heartbeat thread runs
    a round. *)
Inductive rm_event :=
  | RmAccept (e : accept_event report_conn)
  | RmRound.

Section Process.
Variable env : nat -> net_step.

Definition rm_serve (c : report_conn) (d : rep_manager) : outcome rep_manager :=
  '(_, d) ← handle_fault_detector_message env (rc_junk c) (rc_uninit c) (rc_input c) d; Ret d.

Definition rm_event_step (e : rm_event) (d : rep_manager) : outcome rep_manager :=
  match e with
  | RmAccept e => accept_step false rm_serve e d
  | RmRound => gfd_hbt d
  end.

(** To be unfolded last by the conversion test. *)
#[local] Strategy 100 [read_fields handle_state handle_fault_detector_message rm_serve gfd_hbt].

Fixpoint rm_loop (l : list rm_event) (d : rep_manager) : outcome rep_manager :=
  match l with
  | [] => Ret d
  | e :: l => d ← rm_event_step e d; rm_loop l d
  end.

Definition rm_main (parsed : option rm_config) (o : os_listen) (now : Z) (l : list rm_event)
  : outcome rep_manager :=
  d ← rm_start parsed o now; rm_loop l d.

(** ** The invariant along the loop *)

Lemma fault_message_inv junk uninit input d r d' :
  handle_fault_detector_message env junk uninit input d = Ret (r, d') ->
  d' = d \/ exists m, handle_state env junk m d = Ret (r, d').
Proof.
  unfold handle_fault_detector_message. intros E. apply bind_Ret_inv in E as ([[[e m] sb] b] & _ & E).
  destruct e; try (left; by injection E as _ <-). right. by exists m.
Qed.

Lemma serve_inv exact d0 c d d' : rm_inv exact d0 d -> rm_ok d -> rm_serve c d = Ret d' ->
  rm_inv exact d0 d' /\ rm_ok d'.
Proof.
  unfold rm_serve. intros Hd Hok E. apply bind_Ret_inv in E as ([r d1] & E & Er). injection Er as <-.
  destruct (fault_message_inv _ _ _ _ _ _ E) as [->|(m & E1)]; [done|]. clear E.
  split; [|exact (handle_state_rm_ok env (rc_junk c) m d r d1 Hok E1)]. rename E1 into E.
  destruct (handle_state_inv _ _ _ _ _ _ E) as (Hl & d2 & _ & _ & H2 & _).
  apply upd_node_Ret in H2 as [_ (n & Hn)].
  apply node_at_range in Hn; [|exact (ra_nodes d (ri_addr _ _ _ Hd))].
  destruct (handle_state_total exact d0 env (rc_junk c) m d Hd Hl Hn) as (r' & d3 & E3 & H3).
  rewrite E in E3. by injection E3 as _ ->.
Qed.

Lemma gfd_node_marks p n : marks_ok p n -> marks_ok p (gfd_node n) /\ server_status (gfd_node n) <= server_status n.
Proof. intros [Hs Hc]. unfold gfd_node. case_if; simpl; (split; [split; simpl; auto|lia]). Qed.

Lemma gfd_map l k : map (fun n => (nd_factory n, nd_server n)) (map gfd_node (ztake k l) ++ zdrop k l)
    = map (fun n => (nd_factory n, nd_server n)) l
  /\ map nd_state (map gfd_node (ztake k l) ++ zdrop k l) = map nd_state l.
Proof.
  rewrite !map_app, !map_map. unfold ztake, zdrop.
  rewrite <- (take_drop (Z.to_nat k) l) at 3 6. rewrite !map_app.
  split; f_equal; apply map_ext; intros n; unfold gfd_node; by case_if.
Qed.

Lemma ups_app l1 l2 : ups (l1 ++ l2) = ups l1 + ups l2.
Proof. induction l1 as [|n l IH]; simpl; [done|]. rewrite IH. lia. Qed.

Lemma gfd_ups p l k : Forall (marks_ok p) l ->
  Forall (marks_ok p) (map gfd_node (ztake k l) ++ zdrop k l)
  /\ ups (map gfd_node (ztake k l) ++ zdrop k l) <= ups l.
Proof.
  intros Hl. unfold ztake, zdrop. rewrite ups_app.
  rewrite <- (take_drop (Z.to_nat k) l) in Hl. apply Forall_app in Hl as [Ht Hd].
  rewrite <- (take_drop (Z.to_nat k) l) at 5. rewrite ups_app.
  assert (Forall (marks_ok p) (map gfd_node (take (Z.to_nat k) l))
          /\ ups (map gfd_node (take (Z.to_nat k) l)) <= ups (take (Z.to_nat k) l)) as [H1 H2].
  { clear Hd. induction Ht as [|n t Hn Ht [IH1 IH2]]; [done|]. cbn [map].
    destruct (gfd_node_marks p n Hn) as [Hg Hle].
    split; [by constructor|]. rewrite !ups_cons. lia. }
  split; [by apply Forall_app|lia].
Qed.

Lemma round_inv d0 d d' : rm_inv false d0 d -> rm_ok d -> gfd_hbt d = Ret d' ->
  rm_inv false d0 d' /\ rm_ok d'.
Proof.
  intros [H1 [Hl Ha Hc] H3 H4 H5] Hok E. unfold gfd_hbt in E.
  destruct (lock_held d); [done|]. case_if; [done|]. injection E as <-.
  destruct (gfd_map (node d) (num_replicas d)) as [Hmap Hst].
  destruct (gfd_ups _ _ (num_replicas d) H4) as [Hm Hu].
  assert (length (map gfd_node (ztake (num_replicas d) (node d)) ++ zdrop (num_replicas d) (node d)) = 3%nat) as Hlen.
  { apply (f_equal length) in Hst. by rewrite !length_map in Hst; rewrite Hst. }
  split; [constructor|].
  - rewrite <- H1. unfold config_of. simpl. by rewrite Hmap.
  - constructor; simpl; [done| |done].
    apply (f_equal (map snd)) in Hmap. rewrite !map_map in Hmap. cbn [snd] in Hmap.
    apply (Forall_map nd_server addr_ok) in Ha. apply (Forall_map nd_server addr_ok).
    change (map nd_server ?l) with (map (fun x => nd_server x) l). by rewrite Hmap.
  - exact H3.
  - exact Hm.
  - simpl. lia.
  - by apply (rm_ok_states d).
Qed.

Lemma weaken_inv d0 d : rm_inv true d0 d -> rm_inv false d0 d.
Proof.
  intros [H1 H2 H3 H4 H5]. constructor; try done.
  pose proof (ups_range _ _ H4) as Hu. rewrite (ra_nodes d H2) in Hu. lia.
Qed.

Lemma event_inv e d d' : rm_event_step e d = Ret d' ->
  match e with
  | RmAccept (Accepted c) => rm_serve c d = Ret d'
  | RmRound => gfd_hbt d = Ret d'
  | _ => d' = d
  end.
Proof.
  destruct e as [[c| | |]|]; intros E; [exact E|injection E as <-; reflexivity|discriminate E..|exact E].
Qed.

Lemma loop_cons e l d d' : rm_loop (e :: l) d = Ret d' ->
  exists d1, rm_event_step e d = Ret d1 /\ rm_loop l d1 = Ret d'.
Proof. intros E. apply bind_Ret_inv in E as (d1 & E1 & E). eauto. Qed.

Lemma loop_inv d0 l : forall d d', rm_inv false d0 d -> rm_ok d -> rm_loop l d = Ret d' ->
  rm_inv false d0 d' /\ rm_ok d'.
Proof.
  induction l as [|e l IH]; intros d d' Hd Hok E; [by injection E as <-|].
  apply loop_cons in E as (d1 & E1 & E). apply event_inv in E1.
  assert (rm_inv false d0 d1 /\ rm_ok d1) as [H1 H2]; [|exact (IH d1 d' H1 H2 E)].
  destruct e as [[c| | |]|];
    [exact (serve_inv false d0 c d d1 Hd Hok E1)|by subst d1..|exact (round_inv d0 d d1 Hd Hok E1)].
Qed.

Definition no_round (e : rm_event) : Prop := match e with RmRound => False | _ => True end.

Lemma loop_exact d0 l : Forall no_round l -> forall d d', rm_inv true d0 d -> rm_ok d ->
  rm_loop l d = Ret d' -> rm_inv true d0 d'.
Proof.
  induction 1 as [|e l He Hl IH]; intros d d' Hd Hok E; [by injection E as <-|].
  apply loop_cons in E as (d1 & E1 & E). apply event_inv in E1.
  assert (rm_inv true d0 d1 /\ rm_ok d1) as [H1 H2]; [|exact (IH d1 d' H1 H2 E)].
  destruct e as [[c| | |]|];
    [exact (serve_inv true d0 c d d1 Hd Hok E1)|by subst d1..|done].
Qed.
End Process.

(** ** The start *)

Lemma config_addr_ok ip p a : config_addr ip p = Ret a -> addr_ok a.
Proof.
  unfold config_addr. intros H. apply bind_Ret_inv in H as (i & _ & H).
  apply bind_Ret_inv in H as (j & _ & [= <-]).
  assert (length (strncpy 20 i) = 20%nat) as Hl.
  { unfold strncpy, ztake, zeros, zlen. rewrite length_app, length_take, length_replicate. lia. }
  split; cbn [server_ip].
  - apply has_nul_last, last_overwrite; [rewrite Hl; apply Nat.ltb_lt; by vm_compute|by vm_compute].
  - unfold zlen. rewrite length_overwrite; [by vm_compute|]. rewrite Hl. apply Nat.leb_le. by vm_compute.
Qed.

Lemma config_node_ok c n : config_node c zero_node = Ret n ->
  addr_ok (nd_server n) /\ marks_ok (-1) n /\ server_status n = 0.
Proof.
  unfold config_node. intros H. apply bind_Ret_inv in H as (f & _ & H).
  apply bind_Ret_inv in H as (s & Hs & H). injection H as <-.
  split; [by eapply config_addr_ok|]. by repeat split; left.
Qed.

Lemma read_config_ok c d : read_config_file (Some c) rm_globals = Ret (0, d) ->
  exists n0 n1 n2, node d = [n0; n1; n2] /\ Forall (fun n => addr_ok (nd_server n)
    /\ marks_ok (-1) n /\ server_status n = 0) (node d)
  /\ primary_replica_id d = -1 /\ num_servers d = 0 /\ lock_held d = false.
Proof.
  cbn [read_config_file]. intros H.
  apply bind_Ret_inv in H as (n0 & H0 & H). apply bind_Ret_inv in H as (n1 & H1 & H).
  apply bind_Ret_inv in H as (n2 & H2 & H). cbv zeta in H. apply bind_Ret_inv in H as (m & _ & H).
  apply config_node_ok in H0, H1, H2. exists n0, n1, n2.
  assert (forall k f v, (set_mode_int v (set_node_list [n0; n1; n2] (set_config k f rm_globals)) = d
      \/ set_node_list [n0; n1; n2] (set_config k f rm_globals) = d) ->
    node d = [n0; n1; n2] /\ primary_replica_id d = -1 /\ num_servers d = 0 /\ lock_held d = false)
    as Hd by (by intros k f v [<-|<-]).
  assert (node d = [n0; n1; n2] /\ primary_replica_id d = -1 /\ num_servers d = 0 /\ lock_held d = false)
    as (-> & -> & -> & ->).
  { eapply (Hd _ _ (if starts_with ⟦"passive"⟧ m then 0 else 1)).
    destruct (starts_with ⟦"passive"⟧ m); [left; by injection H|].
    destruct (starts_with ⟦"active"⟧ m); [left; by injection H|right; by injection H]. }
  split; [done|]. split; [|done]. repeat (apply Forall_cons_2; [done|]). apply Forall_nil_2.
Qed.

(** What a start leaves: the invariant, and the lock free. *)
Lemma rm_start_inv parsed o now d : rm_start parsed o now = Ret d ->
  rm_inv true d d /\ rm_ok d /\ lock_held d = false.
Proof.
  unfold rm_start. intros H. apply bind_Ret_inv in H as ([st d1] & E1 & H).
  destruct (st =? 0) eqn:Est; [|done]. apply Z.eqb_eq in Est as ->. cbn [negb] in H.
  apply bind_Ret_inv in H as (fd & _ & H). apply bind_Ret_inv in H as (d2 & E2 & H).
  injection H as <-. destruct parsed as [c|]; [|done].
  apply read_config_ok in E1 as (n0 & n1 & n2 & En & Hall & Ep & Es & El).
  unfold init_gfd_hbt in E2. destruct (MAX_REPLICAS <? num_replicas d1) eqn:Ek; [done|].
  apply Z.ltb_ge in Ek. injection E2 as <-. cbv zeta.
  set (P := fun n => addr_ok (nd_server n) /\ marks_ok (-1) n /\ server_status n = 0) in *.
  set (f := fun n => set_nd_report now (nd_server_state n) n).
  set (l := map (set_nd_state FAULTED) (map f (ztake (num_replicas d1) (node d1)) ++ zdrop (num_replicas d1) (node d1))).
  assert (Forall P (ztake (num_replicas d1) (node d1)) /\ Forall P (zdrop (num_replicas d1) (node d1))) as [Ht Hd].
  { apply Forall_app. unfold ztake, zdrop. by rewrite take_drop. }
  assert (Forall P l) as Hl.
  { apply Forall_map. eapply (Forall_impl P); [|done]. apply Forall_app. split; [|done].
    by apply Forall_map. }
  assert (length l = 3%nat) as Hlen.
  { unfold l. rewrite length_map, length_app, length_map, <- length_app. unfold ztake, zdrop.
    by rewrite take_drop, En. }
  assert (rm_ok (init_server_state (set_node_list (map f (ztake (num_replicas d1) (node d1))
    ++ zdrop (num_replicas d1) (node d1)) d1))) as Hok.
  { split; [exact Hlen|]. intros i s Hs. right. change (nd_state <$> l !! i = Some s) in Hs. unfold l in Hs.
    rewrite list_lookup_fmap in Hs. destruct (_ !! i) as [n|]; [by injection Hs|done]. }
  split; [|done]. constructor; [done|constructor; [exact Hlen| |exact Ek]| | |].
  - eapply (Forall_impl P); [exact Hl|]. by intros n [? _].
  - simpl. rewrite Ep. lia.
  - simpl. rewrite Ep. eapply (Forall_impl P); [exact Hl|]. by intros n (_ & ? & _).
  - change (num_servers d1 = ups l). rewrite Es. clear -Hl. induction Hl as [|n l (_ & _ & Hn) Hl IH]; [done|].
    rewrite ups_cons. lia.
Qed.

(** * The properties *)

(** C20: what holds in every state the replication manager reaches, for every
    configuration, every sequence of connections with any contents and any
    failures to send, and the heartbeat rounds between them. The configuration
    (addresses, count, mode) never changes; the primary is one of the three
    replicas or not chosen yet; a replica waits for a checkpoint only once a
    primary was chosen; a replica is running or faulted; the displayed number of
    members is the number of members as long as the heartbeat thread did not
    run, and stays between that number and three afterwards. While the lock is
    free, every report about one of the three replicas is handled to its end,
    without an access out of bounds, and leaves the lock free, except a report
    that a faulted replica that waits for a checkpoint is running again, in
    passive mode, when something cannot be sent: that one may return -1 with the
    lock taken. While the lock is taken, every report and the heartbeat round
    wait for ever. *)
Theorem manager_invariant env parsed o now l d :
  rm_main env parsed o now l = Ret d ->
  exists d0, rm_start parsed o now = Ret d0
    /\ config_of d = config_of d0
    /\ length (node d) = 3%nat
    /\ -1 <= primary_replica_id d < 3
    /\ Forall (fun n => (nd_state n = RUNNING \/ nd_state n = FAULTED)
         /\ (server_status n = 0 \/ server_status n = 1)
         /\ (needs_checkpoint n = 0 \/ needs_checkpoint n = 1 /\ primary_replica_id d <> -1)) (node d)
    /\ ups (node d) <= num_servers d <= 3
    /\ (Forall no_round l -> num_servers d = ups (node d))
    /\ (if lock_held d
        then gfd_hbt d = NoFuel /\ forall junk m, handle_state env junk m d = NoFuel
        else forall junk m, 0 <= rmm_replica_id m < 3 ->
          exists r d', handle_state env junk m d = Ret (r, d')
            /\ (lock_held d' = true -> r = -1 /\ ~ reach env /\ leaves_lock m d)).
Proof.
  intros H. apply bind_Ret_inv in H as (d0 & H0 & H). exists d0. split; [exact H0|].
  apply rm_start_inv in H0 as (Hi & Hok & _).
  destruct (loop_inv env d0 l d0 d (weaken_inv d0 d0 Hi) Hok H) as [Hd Hok'].
  split; [apply (ri_cfg _ _ _ Hd)|]. split; [apply (ra_nodes d (ri_addr _ _ _ Hd))|].
  split; [apply (ri_primary _ _ _ Hd)|]. split.
  { pose proof (ri_marks _ _ _ Hd) as Hm. apply Forall_lookup. intros i n Hn. split.
    - apply (ro_state d Hok' i). by rewrite Hn.
    - by apply (proj1 (Forall_lookup _ _) Hm i). }
  split; [apply (ri_count _ _ _ Hd)|]. split.
  - intros Hl. exact (ri_count _ _ _ (loop_exact env d0 l Hl d0 d Hi Hok H)).
  - destruct (lock_held d) eqn:Hlock.
    + unfold gfd_hbt, handle_state. by rewrite Hlock.
    + intros junk m Hm. destruct (handle_state_total false d0 env junk m d Hd Hlock Hm) as (r & d' & E & _).
      exists r, d'. split; [exact E|]. by apply (handle_state_lock env junk m d r d').
Qed.

Definition demo_node_config : node_config :=
  {| factory_ip := Some ⟦"127.0.0.1"⟧; factory_port := Some ⟦"100"⟧;
     cfg_server_ip := Some ⟦"127.0.0.1"⟧; cfg_server_port := Some ⟦"200"⟧ |}.
Definition demo_config : rm_config :=
  {| cfg_mode := Some ⟦"passive"⟧; cfg_ip := Some ⟦"127.0.0.1"⟧; cfg_port := Some ⟦"23"⟧;
     cfg_num_replicas := 3; cfg_checkpoint_freq := 30;
     cfg_node0 := demo_node_config; cfg_node1 := demo_node_config; cfg_node2 := demo_node_config |}.
Definition demo_listen : os_listen := {| pton_ret := 1; lsocket_ret := 3; bind_ret := 0; listen_ret := 0 |}.
(** A report as a fault detector writes it. *)
Definition demo_report (id st : Z) : rm_event :=
  RmAccept (Accepted {|
    rc_input := [Chunk (⟦"Replica ID: "⟧ ++ fmt_d id ++ CRLF ++ ⟦"Message Type: "⟧ ++ fmt_d st ++ CRLF
      ++ ⟦"Server state: 3"⟧ ++ CRLF ++ CRLF)];
    rc_uninit := {| rmm_replica_id := 7; rmm_state := 7; rmm_server_state := 7 |}; rc_junk := [] |}).

(** Replica 0 is missed, which makes it the primary, and comes up; replica 1
    comes up and dies again. *)
Definition demo_events : list rm_event :=
  [demo_report 0 FAULTED; demo_report 0 RUNNING; RmAccept ConnAborted; demo_report 1 RUNNING; demo_report 1 FAULTED].

(** Three replicas whose marks are cleared by the heartbeat thread. *)
Definition silent_events : list rm_event :=
  [demo_report 0 RUNNING; demo_report 1 RUNNING; RmRound; RmRound].

(** What is looked at after a run. *)
Definition demo_run (l : list rm_event) : option (bool * Z * Z * Z) :=
  match rm_main net_up (Some demo_config) demo_listen 1000 l with
  | Ret d => Some (lock_held d, primary_replica_id d, num_servers d, ups (node d))
  | _ => None
  end.

Lemma demo_run_Some l b p k u : demo_run l = Some (b, p, k, u) ->
  exists d, rm_main net_up (Some demo_config) demo_listen 1000 l = Ret d
    /\ lock_held d = b /\ primary_replica_id d = p /\ num_servers d = k /\ ups (node d) = u.
Proof. unfold demo_run. destruct (rm_main _ _ _ _ _) as [d| | |]; [|done..]. intros [= <- <- <- <-]. by exists d. Qed.

(** The heartbeat thread clears the marks and leaves the count, so the count
    of members that is displayed is no longer the number of members. *)
Example timeout_keeps_count : exists d, rm_main net_up (Some demo_config) demo_listen 1000 silent_events = Ret d
  /\ ups (node d) = 0 /\ num_servers d = 2.
Proof.
  destruct (demo_run_Some silent_events false (-1) 2 0) as (d & E & _ & _ & Hk & Hu); [by vm_compute|].
  exists d. split; [exact E|split; [exact Hu|exact Hk]].
Qed.

Lemma manager_invariant_witness : exists d d',
  rm_main net_up (Some demo_config) demo_listen 1000 demo_events = Ret d
  /\ num_servers d = ups (node d) /\ primary_replica_id d = 0
  /\ exists r, handle_state net_up [] (report 1 RUNNING) d = Ret (r, d').
Proof.
  destruct (demo_run_Some demo_events false 0 1 1) as (d & E & Hlock & Hp & _); [by vm_compute|].
  destruct (manager_invariant net_up _ _ _ _ d E) as (d0 & _ & _ & _ & _ & _ & _ & Hc & Ht).
  assert (0 <= rmm_replica_id (report 1 RUNNING) < 3) as Hr by (cbn; lia).
  rewrite Hlock in Ht. destruct (Ht [] (report 1 RUNNING) Hr) as (r & d' & Ed & _).
  exists d, d'. split; [exact E|]. split; [apply Hc|split; [exact Hp|exists r; exact Ed]].
  repeat (apply Forall_cons_2; [exact I|]). apply Forall_nil_2.
Defined.
