(* ===== verification/Policy.v ===== *)
(** What the replication manager promises, as a small machine: a leader, the set
    of replicas that are up, the set that missed updates, and the orders that
    each report gives rise to. The manager of [RepMgr] and [Manager], whose
    messages are bytes and whose state is an array of records behind a mutex,
    refines it. *)
From stdpp Require Import sets.
From S2P Require Import Prelude CLib Iface Util Request RepMgr Daemon Manager.

(** * The policy *)

(** What the fault detector of a replica says. *)
Inductive event :=
  | Up (i : Z)
  | Down (i : Z)
  | Other.

(** What the manager demands from a factory: start the server, make it the
    leader, make it a backup, let it wait for the others' tasks, hold its
    requests, let them go, send a checkpoint. *)
Inductive order :=
  | Start (i : Z)
  | Lead (i : Z)
  | Backup (i : Z)
  | Recover (i : Z)
  | Hold (i : Z)
  | Resume (i : Z)
  | Checkpoint (i : Z).

#[export] Instance order_eq_dec : EqDecision order.
Proof. solve_decision. Defined.

Record policy := { leader : option Z; up : gset Z; missed : gset Z }.

Definition set_leader (i : Z) (s : policy) : policy := {| leader := Some i; up := up s; missed := missed s |}.
Definition set_up (X : gset Z) (s : policy) : policy := {| leader := leader s; up := X; missed := missed s |}.
Definition set_missed (X : gset Z) (s : policy) : policy := {| leader := leader s; up := up s; missed := X |}.

Definition start : policy := {| leader := None; up := ∅; missed := ∅ |}.

(** The replica after [i]. *)
Definition next (i : Z) : Z := (i + 1) mod 3.

(** The members of a set of replicas, in the order of the manager's loops. *)
Definition ids (X : gset Z) : list Z := filter (fun i => i ∈ X) [0; 1; 2].

(** Passive mode: a leader and its backups. *)
Definition passive (e : event) (s : policy) : list order * policy :=
  match e with
  | Up i =>
      if decide (i ∈ up s) then ([], s)
      else
        ((if decide (leader s = Some i) then [Lead i] else [Backup i])
         ++ (if decide (i ∈ missed s) then Checkpoint <$> option_list (leader s) else []),
         set_up ({[i]} ∪ up s) s)
  | Down i =>
      let s := set_up (up s ∖ {[i]}) s in
      match leader s with
      | None => ([Start i], set_leader i s)
      | Some p =>
          let s := set_missed ({[i]} ∪ missed s) s in
          if decide (i = p) then ([Start i; Lead (next i)], set_leader (next i) s) else ([Start i], s)
      end
  | Other => ([], s)
  end.

(** Active mode: a replica that comes up later than the first one recovers
    between a quiescence of all that are up. *)
Definition active (e : event) (s : policy) : list order * policy :=
  match e with
  | Up i =>
      if decide (i ∈ up s) then ([], s)
      else
        let s := set_up ({[i]} ∪ up s) s in
        match leader s with
        | None => ([Lead i], set_leader i s)
        | Some p =>
            ([Recover i] ++ map Hold (ids (up s)) ++ [Checkpoint p] ++ map Resume (ids (up s)) ++ [Lead i], s)
        end
  | Down i =>
      let s := set_up (up s ∖ {[i]}) s in
      if decide (leader s = Some i) then ([Start i; Lead (next i)], set_leader (next i) s)
      else ([Start i], s)
  | Other => ([], s)
  end.

Definition policy_step (m : Z) (e : event) (s : policy) : list order * policy :=
  if m =? 0 then passive e s else active e s.

(** The orders of each event, and the state after all of them. *)
Fixpoint policy_run (m : Z) (l : list event) (s : policy) : list (list order) * policy :=
  match l with
  | [] => ([], s)
  | e :: l =>
      let '(o, s) := policy_step m e s in
      let '(os, s) := policy_run m l s in
      (o :: os, s)
  end.

(** * The manager's view *)

(** The text of an order and where it goes. *)
Definition encode (junk : bytes) (d : rep_manager) (o : order) : server_info * bytes :=
  match o with
  | Start i => (fac d i, junk_buf junk (startup_text i (default zero_node (node d !! Z.to_nat i))))
  | Lead i => (fac d i, zero_buf (answer [] (fill_message_for_primary_election i d)))
  | Backup i => (fac d i, zero_buf (change_state_text i PASSIVE_REP PASSIVE_BACKUP))
  | Recover i => (fac d i, zero_buf (change_state_text i ACTIVE_REP ACTIVE_RECOVER))
  | Hold i => (fac d i, zero_buf (factory_req_text i QUIESCE_BEGIN))
  | Resume i => (fac d i, zero_buf (factory_req_text i QUIESCE_STOP))
  | Checkpoint i => (fac d i, zero_buf (factory_req_text i SEND_CHKPT))
  end.

(** What does not change: the addresses, their count, the frequency, the mode. *)
Lemma config_parts d d' : config_of d' = config_of d ->
  map nd_factory (node d') = map nd_factory (node d) /\ map nd_server (node d') = map nd_server (node d)
  /\ num_replicas d' = num_replicas d /\ checkpoint_freq d' = checkpoint_freq d /\ mode d' = mode d.
Proof.
  unfold config_of. intros [= Hn H1 H2 H3].
  split; [apply (f_equal (map fst)) in Hn; by rewrite !map_map in Hn|].
  split; [apply (f_equal (map snd)) in Hn; by rewrite !map_map in Hn|done].
Qed.

Lemma encode_ext junk d d' o : config_of d' = config_of d -> encode junk d' o = encode junk d o.
Proof.
  intros Hc. destruct (config_parts d d' Hc) as (Hf & Hs & _ & Hq & Hm).
  assert (forall i, fac d' i = fac d i) as Hfac.
  { intros i. unfold fac. f_equal. rewrite <- !list_lookup_fmap. change (nd_factory <$> ?l) with (map nd_factory l).
    by rewrite Hf. }
  destruct o; cbn [encode]; rewrite Hfac; try done.
  - pose proof (f_equal (fun l => l !! Z.to_nat i) Hs) as Hx. cbv beta in Hx.
    change (map nd_server ?l) with (nd_server <$> l) in Hx. rewrite !list_lookup_fmap in Hx.
    unfold startup_text. destruct (node d' !! Z.to_nat i), (node d !! Z.to_nat i); cbn in *; congruence.
  - by rewrite (fill_ext i d d' Hs Hm Hq).
Qed.

(** The manager [d] is in the state [s] of the policy; [d0]: its configuration. *)
Definition node_tracks (s : policy) (i : Z) (n : replica_node) : Prop :=
  nd_state n = (if decide (i ∈ up s) then RUNNING else FAULTED)
  /\ needs_checkpoint n = (if decide (i ∈ missed s) then 1 else 0).

Record policy_ok (s : policy) : Prop := {
  po_range : forall p, leader s = Some p -> 0 <= p < 3;
  po_missed : leader s = None -> missed s = ∅
}.

Record tracks (d0 d : rep_manager) (s : policy) : Prop := {
  tk_cfg : config_of d = config_of d0;
  tk_addr : rm_addr_ok d;
  tk_leader : primary_replica_id d = default (-1) (leader s);
  tk_policy : policy_ok s;
  tk_nodes : forall i n, node d !! i = Some n -> node_tracks s (Z.of_nat i) n
}.

(** What a report does to the manager: a node changes, a leader is chosen,
    messages go out. *)
Definition became (id : Z) (f : replica_node -> replica_node) (p : Z) (l : list (server_info * bytes))
    (d : rep_manager) : rep_manager :=
  set_node_list (alter f (Z.to_nat id) (node d)) (set_primary p (log_sends l d)).

(** A function that leaves the addresses of a node alone. *)
Definition keeps_addr (f : replica_node -> replica_node) : Prop :=
  forall n, nd_factory (f n) = nd_factory n /\ nd_server (f n) = nd_server n.

Lemma config_alter f i d d' : keeps_addr f -> node d' = alter f i (node d) ->
  num_replicas d' = num_replicas d -> checkpoint_freq d' = checkpoint_freq d -> mode d' = mode d ->
  config_of d' = config_of d.
Proof.
  intros Hf Hn H1 H2 H3. unfold config_of. rewrite Hn, H1, H2, H3. rewrite map_alter_same; [done|].
  intros x. by destruct (Hf x) as [-> ->].
Qed.

Lemma addr_alter f i d d' : keeps_addr f -> node d' = alter f i (node d) ->
  num_replicas d' = num_replicas d -> rm_addr_ok d -> rm_addr_ok d'.
Proof.
  intros Hf Hn H1 [Hl Ha Hc]. constructor; rewrite ?Hn, ?H1; [by rewrite length_alter| |done].
  apply Forall_alter_at; [done|]. intros x _. by destruct (Hf x) as [_ ->].
Qed.

Lemma tracks_alter d0 d d' s s' id f : keeps_addr f -> 0 <= id -> node d' = alter f (Z.to_nat id) (node d) ->
  num_replicas d' = num_replicas d -> checkpoint_freq d' = checkpoint_freq d -> mode d' = mode d ->
  primary_replica_id d' = default (-1) (leader s') -> policy_ok s' ->
  (forall n, node_tracks s id n -> node_tracks s' id (f n)) ->
  (forall i n, i <> id -> node_tracks s i n -> node_tracks s' i n) ->
  tracks d0 d s -> tracks d0 d' s'.
Proof.
  intros Hf Hid Hn H1 H2 H3 Hp Hr Hself Hother [Hc Ha _ _ Ht]. constructor; [|by eapply addr_alter|done|done|].
  - rewrite <- Hc. by eapply config_alter.
  - intros i n Hi. rewrite Hn in Hi. destruct (decide (i = Z.to_nat id)) as [->|Hne].
    + rewrite list_lookup_alter_eq in Hi. destruct (node d !! Z.to_nat id) as [x|] eqn:Ex; [|done].
      injection Hi as <-. apply Ht in Ex. rewrite Z2Nat.id in * by done. by apply Hself.
    + rewrite list_lookup_alter_ne in Hi by done. apply Hother; [lia|by apply Ht].
Qed.

Lemma addr_sends l d : rm_addr_ok d -> rm_addr_ok (log_sends l d).
Proof. intros [? ? ?]. by constructor. Qed.

Lemma tracks_at d0 d s i : tracks d0 d s -> 0 <= i < 3 ->
  exists n, node_at i d = Ret n /\ node d !! Z.to_nat i = Some n /\ node_tracks s i n.
Proof.
  intros [_ [Hl _ _] _ _ Ht] Hi. destruct (node_at_lookup d i Hl Hi) as (n & En & Hn).
  exists n. split; [done|]. split; [done|]. apply Ht in Hn. by rewrite Z2Nat.id in Hn by lia.
Qed.

Lemma tracks_running d0 d s : tracks d0 d s -> running d [0; 1; 2] = ids (up s).
Proof.
  intros Ht. apply filter_ext_Forall. apply Forall_forall. intros i Hi.
  assert (0 <= i < 3) as Hr by (set_unfold in Hi; lia).
  destruct (tracks_at d0 d s i Ht Hr) as (n & _ & Hn & Hs & _). unfold state_at. rewrite Hn. cbn. rewrite Hs.
  destruct (decide (i ∈ up s)); split; by intros.
Qed.

Lemma set_primary_same p d : primary_replica_id d = p -> set_primary p d = d.
Proof. intros <-. by destruct d. Qed.

(** Nothing changes but what was sent. *)
Lemma became_sends i l d : log_sends l d = became i id (primary_replica_id d) l d.
Proof. unfold became. by rewrite list_alter_id, set_primary_same. Qed.

Lemma sends_nothing d : log_sends [] d = d.
Proof. unfold log_sends. cbn. rewrite app_nil_r. by destruct d as [? ? ? ? ? ? ? []]. Qed.

(** Two changes after each other. *)
Lemma became_send i f p k l d : log_sends l (became i f p k d) = became i f p (k ++ l) d.
Proof.
  unfold became, set_node_list, set_primary, log_sends, set_rm_net. cbn. rewrite length_app, <- app_assoc.
  do 2 f_equal. lia.
Qed.

Lemma became_upd f i g p l d : length (node d) = 3%nat -> 0 <= i < 3 ->
  upd_node i f (became i g p l d) = Ret (became i (f ∘ g) p l d).
Proof.
  intros Hl Hi. unfold upd_node. destruct (node_at_lookup (became i g p l d) i) as (n & -> & _); [|done|].
  - cbn. by rewrite length_alter.
  - unfold became, set_node_list. cbn. by rewrite list_alter_alter_eq.
Qed.

Lemma upd_became f i d : length (node d) = 3%nat -> 0 <= i < 3 ->
  upd_node i f d = Ret (became i f (primary_replica_id d) [] d).
Proof.
  intros Hl Hi. rewrite <- (sends_nothing d) at 1. rewrite (became_sends i), became_upd by done. done.
Qed.

Lemma became_ok i f p l d : keeps_addr f -> rm_addr_ok d ->
  config_of (became i f p l d) = config_of d /\ rm_addr_ok (became i f p l d).
Proof. intros Hf Hok. split; [by eapply config_alter|by eapply addr_alter]. Qed.

(** * The operations of the manager *)

Section Operations.
Variable env : nat -> net_step.
Variable junk : bytes.
Variable d0 : rep_manager.
Hypothesis Henv : reach env.

Abbreviation sent_as d os := (log_sends (map (encode junk d) os) d).

(** The state after the start-up order. *)
Definition started (i : Z) (d : rep_manager) : rep_manager :=
  became i (set_nd_state SENT_STARTUP_REQ) (primary_replica_id d) [encode junk d (Start i)] d.

Lemma start_sent i d : rm_addr_ok d -> 0 <= i < 3 -> restart_server env junk i d = Ret (0, started i d).
Proof using Henv.
  intros Hok Hi. destruct (node_at_lookup d i (ra_nodes d Hok) Hi) as (n & _ & Hn).
  rewrite (restart_up env junk Henv i d n Hok Hi Hn). unfold started, became.
  rewrite set_primary_same by done. cbn [encode]. by rewrite Hn.
Qed.

Lemma lead_sent i d : rm_addr_ok d -> 0 <= i < 3 ->
  elect_new_primary env i d = Ret (0, set_primary i (sent_as d [Lead i])).
Proof using Henv.
  intros Hok Hi. destruct (fill_election_ok i d Hok Hi) as (text & Ht & Hz).
  rewrite (elect_up env Henv i d text (ra_nodes d Hok) Hi Ht Hz). cbn [map encode]. by rewrite Ht.
Qed.

(** The messages of a change of state. *)
Definition state_order (i m s : Z) : option order :=
  if (m =? ACTIVE_REP) && (s =? ACTIVE_RUNNING) then Some (Lead i)
  else if (m =? ACTIVE_REP) && (s =? ACTIVE_RECOVER) then Some (Recover i)
  else if (m =? PASSIVE_REP) && (s =? PASSIVE_BACKUP) then Some (Backup i) else None.

Lemma change_sent i m s o d : rm_addr_ok d -> 0 <= i < 3 -> state_order i m s = Some o ->
  send_change_status_to_server env i m s d = Ret (0, sent_as d [o]).
Proof using Henv.
  intros Hok Hi Ho. destruct (fill_election_ok i d Hok Hi) as (text & Ht & Hz).
  destruct ((m =? ACTIVE_REP) && (s =? ACTIVE_RUNNING)) eqn:E; unfold state_order in Ho; rewrite E in Ho.
  - injection Ho as <-. rewrite (change_up env Henv i m s d text (ra_nodes d Hok) Hi); [|by rewrite E|done].
    cbn [map encode]. by rewrite Ht.
  - rewrite (change_up env Henv i m s d (change_state_text i m s) (ra_nodes d Hok) Hi);
      [|by rewrite E|apply change_state_fits].
    cbn [map]. repeat case_if; try done; injection Ho as <-; zbool; by subst.
Qed.

Lemma checkpoint_sent i d : rm_addr_ok d -> 0 <= i < 3 ->
  instruct_primary_to_send_chkpt env i d = Ret (0, sent_as d [Checkpoint i]).
Proof using Henv. intros Hok Hi. by apply (factory_req_up env Henv); [apply Hok|]. Qed.

(** ** Passive mode *)

Lemma passive_up i d s : tracks d0 d s -> 0 <= i < 3 -> i ∉ up s ->
  passive_running env i d = Ret (0, false, sent_as d (passive (Up i) s).1).
Proof using Henv.
  intros Ht Hi Hu. pose proof (tk_addr _ _ _ Ht) as Hok. pose proof (tk_leader _ _ _ Ht) as Hl.
  unfold passive_running. cbn [passive]. rewrite (decide_False (P := i ∈ up s)) by done. cbn [fst].
  set (l := if decide (leader s = Some i) then [Lead i] else [Backup i]).
  assert ((if negb (i =? primary_replica_id d)
     then '(status, d) ← send_change_status_to_server env i PASSIVE_REP PASSIVE_BACKUP d; Ret (fail_if status 0, d)
     else '(status, d) ← elect_new_primary env (primary_replica_id d) d; Ret (fail_if status 0, d))
     = Ret (0, sent_as d l)) as ->.
  { rewrite Hl. unfold l. destruct (decide (leader s = Some i)) as [E|E].
    - rewrite E in *. cbn [from_option id]. rewrite Z.eqb_refl. cbn [negb]. rewrite lead_sent, bind_ret_l by done.
      cbv beta iota. by rewrite set_primary_same.
    - assert ((i =? default (-1) (leader s)) = false) as ->.
      { apply Z.eqb_neq. destruct (leader s) as [p|] eqn:El; cbn [from_option id]; [congruence|lia]. }
      cbn [negb]. by rewrite (change_sent i _ _ (Backup i)). }
  rewrite bind_ret_l. cbv beta iota. destruct (tracks_at d0 d s i Ht Hi) as (n & En & _ & _ & Hm).
  change (node_at i (log_sends ?k d)) with (node_at i d). rewrite En, bind_ret_l, Hm.
  destruct (decide (i ∈ missed s)); cbn [Z.eqb]; [|by rewrite app_nil_r].
  change (1 =? 1) with true. cbv iota. destruct (leader s) as [p|] eqn:El.
  - change (primary_replica_id (log_sends ?k d)) with (primary_replica_id d). rewrite Hl. cbn [from_option id].
    rewrite (checkpoint_sent p (sent_as d l)), bind_ret_l by first [by apply addr_sends|exact (po_range s (tk_policy _ _ _ Ht) p El)].
    cbv beta iota. change (0 <? 0) with false. cbv iota. by rewrite log_sends_app, map_app.
  - exfalso. pose proof (po_missed s (tk_policy _ _ _ Ht) El) as Hx. set_solver.
Qed.

(** A fault: the server is started again, and where the leader is lost the next
    one is chosen. [chk]: the replica has missed updates from now on. *)
Definition faulted_node (chk : bool) (n : replica_node) : replica_node :=
  (if chk then set_nd_chkpt 1 else id) (set_nd_state SENT_STARTUP_REQ n).

Lemma moved i d : rm_addr_ok d -> 0 <= i < 3 -> move_primary env i (started i d)
  = Ret (0, became i (set_nd_state SENT_STARTUP_REQ) (next i) (map (encode junk d) [Start i; Lead (next i)]) d).
Proof using Henv.
  intros Hok Hi. destruct (became_ok i (set_nd_state SENT_STARTUP_REQ) (next i) [encode junk d (Start i)] d) as [Hc Hok1];
    [done..|]. unfold move_primary.
  assert (Z.rem (i + 1) MAX_REPLICAS = next i) as -> by (unfold next, MAX_REPLICAS; apply Z.rem_mod_nonneg; lia).
  assert (0 <= next i < 3) by (apply Z.mod_pos_bound; lia). cbv zeta.
  change (set_primary (next i) (started i d))
    with (became i (set_nd_state SENT_STARTUP_REQ) (next i) [encode junk d (Start i)] d).
  rewrite lead_sent, bind_ret_l by done. cbv beta iota. cbn [map]. rewrite (encode_ext junk d) by done.
  by rewrite became_send.
Qed.

Lemma passive_down i d s : tracks d0 d s -> 0 <= i < 3 ->
  exists chk, passive_faulted env junk i d
    = Ret (0, became i (faulted_node chk) (default (-1) (leader (passive (Down i) s).2))
                (map (encode junk d) (passive (Down i) s).1) d)
    /\ missed (passive (Down i) s).2 = (if (chk : bool) then {[i]} ∪ missed s else missed s).
Proof using Henv.
  intros Ht Hi. pose proof (tk_addr _ _ _ Ht) as Hok. pose proof (tk_leader _ _ _ Ht) as Hl.
  unfold passive_faulted. rewrite Hl, start_sent, !bind_ret_l by done. cbv beta iota.
  cbn [passive leader set_up].
  destruct (leader s) as [p|] eqn:El; cbn [from_option id]; [|by exists false].
  pose proof (po_range s (tk_policy _ _ _ Ht) p El) as Hp. rewrite (proj2 (Z.eqb_neq p (-1))) by lia.
  exists true. pose proof (ra_nodes d Hok) as Hlen. case_decide as E.
  - subst p. rewrite Z.eqb_refl, moved, bind_ret_l by done. cbv beta iota. by rewrite became_upd, bind_ret_l.
  - rewrite (proj2 (Z.eqb_neq i p)) by done. unfold started. rewrite became_upd, bind_ret_l, Hl by done.
    cbn [fst snd leader set_missed set_up]. by rewrite El.
Qed.

(** ** Active mode *)

Lemma recovery_orders i d s e p : tracks d0 d s -> 0 <= i < 3 -> leader s = Some p ->
  fill_message_for_primary_election i d = Ret e ->
  recover_sends d i e = map (encode junk d)
    ([Recover i] ++ map Hold (ids ({[i]} ∪ up s)) ++ [Checkpoint p] ++ map Resume (ids ({[i]} ∪ up s)) ++ [Lead i]).
Proof.
  clear Henv. intros Ht Hi Hp He. unfold recover_sends. rewrite (tk_leader _ _ _ Ht), Hp. cbn [from_option id].
  assert (filter (fun j => j = i \/ state_at d j = Some RUNNING) [0; 1; 2] = ids ({[i]} ∪ up s)) as ->.
  { apply filter_ext_Forall, Forall_forall. intros j Hj. assert (0 <= j < 3) as Hr by (set_unfold in Hj; lia).
    destruct (tracks_at d0 d s j Ht Hr) as (n & _ & Hn & Hs & _). unfold state_at. rewrite Hn. cbn. rewrite Hs.
    destruct (decide (j ∈ up s)); set_solver. }
  rewrite !map_app, !map_map. cbn [map encode app]. by rewrite He.
Qed.

(** What the report changes: the leader and, in a recovery, the mark of the node. *)
Lemma active_up i d s : tracks d0 d s -> 0 <= i < 3 -> i ∉ up s ->
  exists f, active_running env i RUNNING d
    = Ret (0, became i f (default (-1) (leader (active (Up i) s).2)) (map (encode junk d) (active (Up i) s).1) d)
    /\ (forall n, set_nd_state RUNNING (f n) = set_nd_state RUNNING n).
Proof using Henv.
  intros Ht Hi Hu. pose proof (tk_addr _ _ _ Ht) as Hok. pose proof (tk_leader _ _ _ Ht) as Hl.
  cbn [active]. rewrite (decide_False (P := i ∈ up s)) by done. cbn [leader set_up].
  destruct (leader s) as [p|] eqn:El; cbn [from_option id fst snd leader set_leader set_up up] in *.
  - pose proof (po_range s (tk_policy _ _ _ Ht) p El) as Hp.
    destruct (active_running_up env Henv i d Hok Hi) as (e & d' & He & Hd' & E); [by rewrite Hl|].
    apply upd_node_Ret in Hd' as [-> _]. exists (set_nd_state RUNNING).
    split; [|done]. rewrite E, (recovery_orders i d s e p Ht Hi El He), El. unfold became. cbn [from_option id].
    by rewrite set_primary_same.
  - exists id. unfold active_running. rewrite Hl. change (-1 =? -1) with true. cbv iota zeta.
    rewrite (change_sent i _ _ (Lead i)), bind_ret_l by first [done|destruct Hok; by constructor].
    cbn [map]. rewrite (encode_ext junk d) by done. split; [|done]. unfold became. by rewrite list_alter_id.
Qed.

Lemma active_down i d s : tracks d0 d s -> 0 <= i < 3 ->
  active_faulted env junk i d
  = Ret (0, became i (faulted_node false) (default (-1) (leader (active (Down i) s).2))
              (map (encode junk d) (active (Down i) s).1) d).
Proof using Henv.
  intros Ht Hi. pose proof (tk_addr _ _ _ Ht) as Hok. pose proof (tk_leader _ _ _ Ht) as Hl.
  unfold active_faulted. rewrite start_sent, !bind_ret_l by done. cbv beta iota.
  change (primary_replica_id (started i d)) with (primary_replica_id d). rewrite Hl. cbn [active leader set_up].
  case_decide as E.
  - rewrite E. cbn [from_option id]. by rewrite Z.eqb_refl, moved.
  - assert ((i =? default (-1) (leader s)) = false) as ->.
    { apply Z.eqb_neq. destruct (leader s) as [p|] eqn:El; cbn [from_option id]; [congruence|lia]. }
    unfold started. cbn [fst snd leader set_up]. by rewrite Hl.
Qed.

End Operations.

(** * A report *)

Definition event_of (m : replication_manager_message) : event :=
  if rmm_state m =? RUNNING then Up (rmm_replica_id m)
  else if rmm_state m =? FAULTED then Down (rmm_replica_id m) else Other.

Section Effects.
Variable d0 : rep_manager.

Lemma became_up i f p l d s s' : keeps_addr f -> 0 <= i -> tracks d0 d s -> p = default (-1) (leader s') ->
  policy_ok s' -> (forall n, nd_state (f n) = RUNNING /\ needs_checkpoint (f n) = needs_checkpoint n) ->
  up s' = {[i]} ∪ up s -> missed s' = missed s -> tracks d0 (became i f p l d) s'.
Proof.
  intros Hf Hi Ht -> Hok Hn Hu Hm. eapply (tracks_alter d0 d _ s s'); try done.
  - intros n [_ Hc]. destruct (Hn n) as [H1 H2]. split; [by rewrite H1, Hu, decide_True by set_solver|by rewrite H2, Hm].
  - intros j n Hj [H1 H2]. split; [|by rewrite H2, Hm]. rewrite H1, Hu. apply decide_ext. set_solver.
Qed.

Lemma became_down i f chk p l d s s' : keeps_addr f -> 0 <= i -> tracks d0 d s -> p = default (-1) (leader s') ->
  policy_ok s' ->
  (forall n, nd_state (f n) = FAULTED /\ needs_checkpoint (f n) = if chk : bool then 1 else needs_checkpoint n) ->
  up s' = up s ∖ {[i]} -> missed s' = (if chk then {[i]} ∪ missed s else missed s) ->
  tracks d0 (became i f p l d) s'.
Proof.
  intros Hf Hi Ht -> Hok Hn Hu Hm. eapply (tracks_alter d0 d _ s s'); try done.
  - intros n [_ Hc]. destruct (Hn n) as [H1 H2]. split; [by rewrite H1, Hu, decide_False by set_solver|].
    rewrite H2, Hm. destruct chk; [by rewrite decide_True by set_solver|done].
  - intros j n Hj [H1 H2]. split; [rewrite H1, Hu; apply decide_ext; set_solver|]. rewrite H2, Hm.
    destruct chk; [apply decide_ext; set_solver|done].
Qed.
End Effects.

(** The policy keeps its own invariant. *)
Lemma next_range i : 0 <= next i < 3.
Proof. apply Z.mod_pos_bound. lia. Qed.

Definition event_ok (e : event) : Prop := match e with Up i | Down i => 0 <= i < 3 | Other => True end.

Lemma policy_step_ok m e s : event_ok e -> policy_ok s -> policy_ok (policy_step m e s).2.
Proof.
  intros He [Hr Hm]. unfold policy_step. destruct e as [i|i|]; cbn [event_ok] in He; case_if; cbn [passive active];
    repeat first [case_decide | case_match]; constructor; cbn; intros; simplify_eq;
    solve [done | apply next_range | by apply Hr | by apply Hm | naive_solver].
Qed.

Section Report.
Variable env : nat -> net_step.
Variable d0 : rep_manager.
Hypothesis Henv : reach env.

(** The state of the manager after a report that the policy answers with the
    orders [os]. *)
Definition answers_with (junk : bytes) (d : rep_manager) (os : list order) (s : policy) (d' : rep_manager) : Prop :=
  tracks d0 d' s /\ lock_held d' = lock_held d
  /\ delivered (rm_net d') = delivered (rm_net d) ++ map (encode junk d) os.

Lemma policy_up m i s : (policy_step m (Up i) s).2 = s /\ (i ∈ up s)
  \/ (i ∉ up s) /\ up (policy_step m (Up i) s).2 = {[i]} ∪ up s /\ missed (policy_step m (Up i) s).2 = missed s.
Proof.
  clear d0. unfold policy_step. cbn [passive active]. destruct (decide (i ∈ up s)); [left|right]; case_if; try done.
  cbn [leader set_up]. by destruct (leader s).
Qed.

Lemma policy_down m i s : up (policy_step m (Down i) s).2 = up s ∖ {[i]}.
Proof. clear d0. unfold policy_step. cbn [passive active]. repeat first [case_if | case_decide | case_match]; done. Qed.

Lemma react_up junk m d s : tracks d0 d s -> rmm_state m = RUNNING -> 0 <= rmm_replica_id m < 3 ->
  mode d = 0 \/ mode d = 1 ->
  exists d', react env junk m d = Ret (0, false, d')
    /\ answers_with junk d (policy_step (mode d) (Up (rmm_replica_id m)) s).1
         (policy_step (mode d) (Up (rmm_replica_id m)) s).2 d'.
Proof using Henv.
  intros Ht Hm Hi Hmode. pose proof (tk_addr _ _ _ Ht) as [Hlen _ _].
  destruct (tracks_at d0 d s _ Ht Hi) as (n & En & _ & Hs & _).
  unfold react. rewrite En, bind_ret_l, Hm, Hs. change (RUNNING =? RUNNING) with true. cbv iota zeta.
  pose proof (policy_step_ok (mode d) (Up (rmm_replica_id m)) s Hi (tk_policy _ _ _ Ht)) as Hpo.
  set (i := rmm_replica_id m) in *.
  destruct (policy_up (mode d) i s) as [[E Hu]|(Hu & E1 & E2)].
  - rewrite (decide_True (P := i ∈ up s)) by done. change (RUNNING =? FAULTED) with false. cbv iota.
    rewrite bind_ret_l. cbv beta iota. rewrite upd_became, bind_ret_l by done.
    eexists. split; [done|]. rewrite E. split; [|split; [done|]].
    + eapply (became_up d0 i _ _ _ d s); [done|lia|done|apply Ht|apply Ht|done|set_solver|done].
    + unfold policy_step. cbn [passive active]. rewrite !(decide_True (P := i ∈ up s)) by done. by case_if.
  - rewrite (decide_False (P := i ∈ up s)) by done. change (FAULTED =? FAULTED) with true. cbv iota.
    assert (exists f, (if mode d =? 0 then passive_running env i d
        else if mode d =? 1 then '(r, d) ← active_running env i RUNNING d; Ret (r, false, d) else Ret (0, false, d))
      = Ret (0, false, became i f (default (-1) (leader (policy_step (mode d) (Up i) s).2))
           (map (encode junk d) (policy_step (mode d) (Up i) s).1) d)
      /\ forall n, set_nd_state RUNNING (f n) = set_nd_state RUNNING n) as (f & -> & Hf).
    { unfold policy_step. destruct Hmode as [-> | ->].
      - exists id. split; [|done]. change (0 =? 0) with true. cbv iota.
        rewrite (passive_up env junk d0 Henv i d s Ht Hi Hu), (became_sends i), (tk_leader _ _ _ Ht).
        cbn [passive]. by rewrite (decide_False (P := i ∈ up s)).
      - change (1 =? 0) with false. change (1 =? 1) with true. cbv iota.
        destruct (active_up env junk d0 Henv i d s Ht Hi Hu) as (f & -> & Hf). by exists f. }
    rewrite bind_ret_l. cbv beta iota. rewrite became_upd, bind_ret_l by done.
    eexists. split; [done|]. split; [|done].
    eapply (became_up d0 i _ _ _ d s); [intros x; unfold compose; rewrite Hf; done|lia|done..| |done|done].
    intros x. unfold compose. by rewrite Hf.
Qed.

Lemma react_down junk m d s : tracks d0 d s -> rmm_state m = FAULTED -> 0 <= rmm_replica_id m < 3 ->
  mode d = 0 \/ mode d = 1 ->
  exists d', react env junk m d = Ret (0, false, d')
    /\ answers_with junk d (policy_step (mode d) (Down (rmm_replica_id m)) s).1
         (policy_step (mode d) (Down (rmm_replica_id m)) s).2 d'.
Proof using Henv.
  intros Ht Hm Hi Hmode. pose proof (tk_addr _ _ _ Ht) as [Hlen _ _].
  destruct (tracks_at d0 d s _ Ht Hi) as (n & En & _ & Hs & _).
  unfold react. rewrite En, bind_ret_l, Hm, Hs. change (FAULTED =? RUNNING) with false.
  change (FAULTED =? FAULTED) with true. cbv iota zeta.
  pose proof (policy_step_ok (mode d) (Down (rmm_replica_id m)) s Hi (tk_policy _ _ _ Ht)) as Hpo.
  set (i := rmm_replica_id m) in *.
  assert (((if decide (i ∈ up s) then RUNNING else FAULTED) =? SENT_STARTUP_REQ) = false) as -> by by case_decide.
  cbn [negb].
  assert (exists chk, (if mode d =? 0 then passive_faulted env junk i d
      else if mode d =? 1 then active_faulted env junk i d else Ret (0, d))
    = Ret (0, became i (faulted_node chk) (default (-1) (leader (policy_step (mode d) (Down i) s).2))
           (map (encode junk d) (policy_step (mode d) (Down i) s).1) d)
    /\ missed (policy_step (mode d) (Down i) s).2 = (if (chk : bool) then {[i]} ∪ missed s else missed s))
    as (chk & -> & Hc).
  { unfold policy_step. destruct Hmode as [-> | ->].
    - exact (passive_down env junk d0 Henv i d s Ht Hi).
    - exists false. split; [exact (active_down env junk d0 Henv i d s Ht Hi)|]. change (1 =? 0) with false. cbv iota. cbn [active leader set_up]. by destruct (decide (leader s = Some i)). }
  rewrite bind_ret_l. cbv beta iota. rewrite became_upd, bind_ret_l by done.
  eexists. split; [done|]. split; [|done].
  eapply (became_down d0 i _ chk _ _ d s); [by destruct chk|lia|done..|intros x; by destruct chk|apply policy_down|done].
Qed.

(** The parts the policy does not see. *)
Lemma tracks_ext d d' s : config_of d' = config_of d -> node d' = node d ->
  primary_replica_id d' = primary_replica_id d -> tracks d0 d s -> tracks d0 d' s.
Proof.
  intros Hc Hn Hp [H1 [Hl Ha Hk] H3 H4 H5]. pose proof (config_parts d d' Hc) as (_ & _ & Hr & _).
  constructor; try congruence.
  - constructor; congruence.
  - by rewrite Hn.
Qed.

Lemma tracks_became i f l d s : keeps_addr f -> 0 <= i -> tracks d0 d s ->
  (forall n, nd_state (f n) = nd_state n /\ needs_checkpoint (f n) = needs_checkpoint n) ->
  tracks d0 (became i f (primary_replica_id d) l d) s.
Proof.
  intros Hf Hi Ht Hn. eapply (tracks_alter d0 d _ s s); try done; [apply Ht|apply Ht|].
  intros n [H1 H2]. destruct (Hn n) as [E1 E2]. split; [by rewrite E1|by rewrite E2].
Qed.

Lemma print_tracks m d s : tracks d0 d s -> 0 <= rmm_replica_id m < 3 ->
  exists d', print_current_state_info m d = Ret d' /\ tracks d0 d' s /\ rm_net d' = rm_net d.
Proof.
  intros Ht Hi. pose proof (tk_addr _ _ _ Ht) as [Hlen _ _]. destruct (tracks_at d0 d s _ Ht Hi) as (n & En & _).
  unfold print_current_state_info. rewrite En, bind_ret_l. cbv zeta.
  assert (forall v k, exists d', (d ← upd_node (rmm_replica_id m) (set_nd_status v) d; Ret (set_num_servers (k d) d)) = Ret d'
    /\ tracks d0 d' s /\ rm_net d' = rm_net d) as Hupd.
  { intros v k. rewrite upd_became, bind_ret_l by done. eexists. split; [done|]. split.
    - eapply tracks_ext; [| | |exact (tracks_became (rmm_replica_id m) (set_nd_status v) [] d s ltac:(done) ltac:(lia) Ht ltac:(done))]; done.
    - cbn. rewrite app_nil_r. by destruct (rm_net d). }
  case_if; [apply (Hupd 1 (fun d => if MAX_REPLICAS <? num_servers d + 1 then MAX_REPLICAS else num_servers d + 1))|].
  case_if; [apply (Hupd 0 (fun d => num_servers d - 1))|by exists d].
Qed.

(** A report about one of the three replicas, as the policy has it. *)
Lemma report_refines junk m d s : tracks d0 d s -> lock_held d = false -> 0 <= rmm_replica_id m < 3 ->
  mode d0 = 0 \/ mode d0 = 1 ->
  exists d', handle_state env junk m d = Ret (0, d')
    /\ answers_with junk d (policy_step (mode d0) (event_of m) s).1 (policy_step (mode d0) (event_of m) s).2 d'.
Proof using Henv.
  intros Ht Hlock Hi Hmode.
  destruct (config_parts d0 d (tk_cfg _ _ _ Ht)) as (_ & _ & _ & _ & Hm). rewrite <- Hm in *.
  set (f := set_nd_report 1 (rmm_server_state m)). set (d1 := became (rmm_replica_id m) f (primary_replica_id d) [] (set_lock true d)).
  assert (tracks d0 d1 s) as Ht1.
  { apply (tracks_became _ f [] (set_lock true d)); [done|lia|by eapply (tracks_ext d)|done]. }
  assert (exists d2, react env junk m d1 = Ret (0, false, d2)
    /\ answers_with junk d1 (policy_step (mode d) (event_of m) s).1 (policy_step (mode d) (event_of m) s).2 d2)
    as (d2 & Hr & Ht2 & Hlk & Hd2).
  { unfold event_of. change (mode d) with (mode d1). destruct (rmm_state m =? RUNNING) eqn:E1; [zbool; by apply react_up|].
    destruct (rmm_state m =? FAULTED) eqn:E2; [zbool; by apply react_down|]. exists d1. split.
    - unfold react. destruct (tracks_at d0 d1 s _ Ht1 Hi) as (n & -> & _). by rewrite bind_ret_l, E1, E2.
    - unfold policy_step. case_if; (split; [done|split; [done|by rewrite app_nil_r]]). }
  destruct (print_tracks m d2 _ Ht2 Hi) as (d3 & Hp & Ht3 & Hn).
  exists (set_lock false d3). unfold handle_state. rewrite Hlock, upd_became, bind_ret_l by first [exact (ra_nodes d (tk_addr _ _ _ Ht))|done].
  change (became _ _ _ _ _) with d1. rewrite Hr, bind_ret_l. cbv beta iota. rewrite Hp, bind_ret_l.
  unfold handle_current_state. rewrite (proj2 (Z.ltb_ge _ _)), bind_ret_l by exact (ra_count d3 (tk_addr _ _ _ Ht3)). split; [done|].
  split; [by eapply (tracks_ext d3)|]. split; [done|]. cbn [rm_net set_lock]. rewrite Hn, Hd2.
  f_equal; [cbn; apply app_nil_r|]. apply map_ext. intros o. apply encode_ext.
  by eapply (config_alter f).
Qed.
End Report.

(** * The process *)

(** What a connection says, where its message has an end. *)
Definition heard (c : report_conn) : outcome (list (bytes * replication_manager_message)) :=
  '(e, m, _, _) ← read_fields parse_fault_detector_kv false (init_buf_fd (rc_input c)) (rc_uninit c);
  Ret (match e with FLDone => [(rc_junk c, m)] | _ => [] end).

(** The reports among the events of the process. *)
Fixpoint reports (l : list rm_event) : outcome (list (bytes * replication_manager_message)) :=
  match l with
  | [] => Ret []
  | RmAccept (Accepted c) :: l => m ← heard c; ms ← reports l; Ret (m ++ ms)
  | RmAccept ConnAborted :: l | RmRound :: l => reports l
  | RmAccept _ :: l => Exit
  end.

(** The messages of the policy's orders, report by report. *)
Definition messages (d : rep_manager) (ms : list (bytes * replication_manager_message)) (os : list (list order))
  : list (server_info * bytes) :=
  concat (zip_with (fun x o => map (encode x.1 d) o) ms os).

Lemma run_app m l1 l2 s : policy_run m (l1 ++ l2) s
  = ((policy_run m l1 s).1 ++ (policy_run m l2 (policy_run m l1 s).2).1, (policy_run m l2 (policy_run m l1 s).2).2).
Proof.
  revert s. induction l1 as [|e l1 IH]; intros s; cbn [policy_run app]; [by cbn; destruct (policy_run m l2 s)|].
  destruct (policy_step m e s) as [o s1]. rewrite IH. by destruct (policy_run m l1 s1).
Qed.

Lemma run_length m l s : length (policy_run m l s).1 = length l.
Proof.
  revert s. induction l as [|e l IH]; intros s; cbn [policy_run]; [done|].
  destruct (policy_step m e s) as [o s1]. specialize (IH s1). destruct (policy_run m l s1). cbn in *. by f_equal.
Qed.

Lemma messages_app d ms ms' os os' : length os = length ms ->
  messages d (ms ++ ms') (os ++ os') = messages d ms os ++ messages d ms' os'.
Proof. intros H. unfold messages. by rewrite zip_with_app, concat_app. Qed.

Section Loop.
Variable env : nat -> net_step.
Variable d0 : rep_manager.
Hypothesis Henv : reach env.
Hypothesis Hmode : mode d0 = 0 \/ mode d0 = 1.

#[local] Strategy 100 [read_fields handle_state handle_fault_detector_message rm_serve gfd_hbt].

Lemma round_node l k i n : (map gfd_node (ztake k l) ++ zdrop k l) !! i = Some n ->
  exists n0, l !! i = Some n0 /\ nd_state n = nd_state n0 /\ needs_checkpoint n = needs_checkpoint n0.
Proof.
  intros H. destruct (gfd_map l k) as [_ Hs].
  assert (map needs_checkpoint (map gfd_node (ztake k l) ++ zdrop k l) = map needs_checkpoint l) as Hc.
  { rewrite map_app, map_map. unfold ztake, zdrop. rewrite <- (take_drop (Z.to_nat k) l) at 3. rewrite map_app.
    f_equal. apply map_ext. intros x. unfold gfd_node. by case_if. }
  apply (f_equal (fun l => l !! i)) in Hs, Hc. change (map ?f ?l) with (f <$> l) in Hs, Hc.
  rewrite !list_lookup_fmap, H in Hs, Hc. destruct (l !! i) as [n0|]; [|done]. exists n0.
  injection Hs as Hs. by injection Hc as Hc.
Qed.

Lemma round_tracks d s : tracks d0 d s -> lock_held d = false ->
  exists d', gfd_hbt d = Ret d' /\ tracks d0 d' s /\ lock_held d' = false /\ rm_net d' = rm_net d.
Proof.
  intros [Hc [Hl Ha Hk] Hp Ho Hn] Hlock. unfold gfd_hbt. rewrite Hlock, (proj2 (Z.ltb_ge _ _)) by done.
  eexists. split; [done|]. split; [|done]. destruct (gfd_map (node d) (num_replicas d)) as [Hm Hs].
  constructor; try done.
  - rewrite <- Hc. unfold config_of. cbn [node num_replicas checkpoint_freq mode set_node_list]. by rewrite Hm.
  - constructor; [|apply Forall_lookup; intros i n Hi|done].
    + apply (f_equal length) in Hs. rewrite !length_map in Hs. by rewrite <- Hl, <- Hs.
    + cbn [node set_node_list] in Hi. apply (f_equal (fun l => l !! i)) in Hm. change (map ?f ?l) with (f <$> l) in Hm.
      rewrite !list_lookup_fmap in Hm. change (gfd_node <$> ?l) with (map gfd_node l) in Hm. rewrite Hi in Hm.
      destruct (node d !! i) as [n0|] eqn:E; [|done]. injection Hm as _ Hm. rewrite Hm.
      by eapply (proj1 (Forall_lookup _ _) Ha).
  - intros i n Hi. destruct (round_node _ _ _ _ Hi) as (n0 & E & E1 & E2). destruct (Hn i n0 E) as [H1 H2].
    split; [by rewrite E1|by rewrite E2].
Qed.

Lemma serve_refines c ms d s : heard c = Ret ms -> Forall (fun x => 0 <= rmm_replica_id x.2 < 3) ms ->
  tracks d0 d s -> lock_held d = false ->
  let r := policy_run (mode d0) (map (fun x => event_of x.2) ms) s in
  exists d', rm_serve env c d = Ret d' /\ tracks d0 d' r.2 /\ lock_held d' = false
    /\ delivered (rm_net d') = delivered (rm_net d) ++ messages d0 ms r.1.
Proof using Henv Hmode.
  intros Hh Hms Ht Hlock. unfold heard in Hh. apply bind_Ret_inv in Hh as ([[[e m] sb] b] & Hf & Hh). injection Hh as <-.
  unfold rm_serve, handle_fault_detector_message. rewrite Hf, bind_ret_l.
  destruct e; try (exists d; split; [done|]; split; [done|]; split; [done|]; by rewrite app_nil_r).
  apply Forall_inv in Hms. cbn [map policy_run snd].
  destruct (report_refines env d0 Henv (rc_junk c) m d s Ht Hlock Hms Hmode) as (d' & E & Ht' & Hl' & Hd').
  rewrite E. destruct (policy_step (mode d0) (event_of m) s) as [o s']. exists d'. split; [done|]. split; [done|].
  split; [by rewrite Hl'|]. rewrite Hd'. unfold messages. cbn. rewrite app_nil_r. f_equal.
  apply map_ext. intros x. apply encode_ext. apply Ht.
Qed.

Lemma loop_refines l : forall ms d s, reports l = Ret ms -> Forall (fun x => 0 <= rmm_replica_id x.2 < 3) ms ->
  tracks d0 d s -> lock_held d = false ->
  exists d', rm_loop env l d = Ret d'
    /\ tracks d0 d' (policy_run (mode d0) (map (fun x => event_of x.2) ms) s).2 /\ lock_held d' = false
    /\ delivered (rm_net d')
       = delivered (rm_net d) ++ messages d0 ms (policy_run (mode d0) (map (fun x => event_of x.2) ms) s).1.
Proof using Henv Hmode.
  induction l as [|e l IH]; intros ms d s Hr Hms Ht Hlock; cbn [rm_loop].
  { injection Hr as <-. exists d. split; [done|]. split; [done|]. split; [done|]. by rewrite app_nil_r. }
  destruct e as [[c| | |]|]; cbn [reports] in Hr; [|by apply IH|done|done|].
  - apply bind_Ret_inv in Hr as (m & Hm & Hr). apply bind_Ret_inv in Hr as (ms' & Hr & Hx). injection Hx as <-.
    apply Forall_app in Hms as [Hm3 Hms]. rewrite map_app.
    destruct (serve_refines c m d s Hm Hm3 Ht Hlock) as (d1 & E1 & Ht1 & Hl1 & Hd1).
    destruct (IH ms' d1 _ Hr Hms Ht1 Hl1) as (d' & E & Ht' & Hl' & Hd'). exists d'.
    rewrite run_app. cbn [rm_event_step accept_step fst snd]. rewrite E1, bind_ret_l. split; [exact E|].
    split; [exact Ht'|]. split; [exact Hl'|]. rewrite Hd', Hd1, messages_app, app_assoc; [done|].
    by rewrite run_length, length_map.
  - destruct (round_tracks d s Ht Hlock) as (d1 & E1 & Ht1 & Hl1 & Hn). cbn [rm_event_step]. rewrite E1, bind_ret_l, <- Hn.
    by apply IH.
Qed.
End Loop.

(** ** The start *)

Lemma config_node_zero c n : config_node c zero_node = Ret n -> needs_checkpoint n = 0.
Proof.
  unfold config_node. intros H. apply bind_Ret_inv in H as (f & _ & H). apply bind_Ret_inv in H as (s & _ & H).
  by injection H as <-.
Qed.

Lemma read_config_zero c d : read_config_file (Some c) rm_globals = Ret (0, d) ->
  (mode d = 0 \/ mode d = 1) /\ delivered (rm_net d) = []
  /\ Forall (fun n => needs_checkpoint n = 0) (node d).
Proof.
  cbn [read_config_file]. intros H. apply bind_Ret_inv in H as (n0 & H0 & H).
  apply bind_Ret_inv in H as (n1 & H1 & H). apply bind_Ret_inv in H as (n2 & H2 & H). cbv zeta in H.
  apply bind_Ret_inv in H as (m & _ & H). apply config_node_zero in H0, H1, H2.
  assert (Forall (fun n => needs_checkpoint n = 0) [n0; n1; n2]) as Hall by (by repeat constructor).
  destruct (starts_with ⟦"passive"⟧ m); [injection H as <-; by split; [left|]|].
  destruct (starts_with ⟦"active"⟧ m); injection H as <-; (split; [|done]); [by right|by left].
Qed.

Lemma start_tracks parsed o now d0 : rm_start parsed o now = Ret d0 ->
  tracks d0 d0 start /\ lock_held d0 = false /\ (mode d0 = 0 \/ mode d0 = 1) /\ delivered (rm_net d0) = [].
Proof.
  intros H. destruct (rm_start_inv parsed o now d0 H) as (Hinv & _ & Hlock). unfold rm_start in H.
  apply bind_Ret_inv in H as ([st d1] & E1 & H). destruct (st =? 0) eqn:Est; [|done]. apply Z.eqb_eq in Est as ->.
  cbn [negb] in H. apply bind_Ret_inv in H as (fd & _ & H). apply bind_Ret_inv in H as (d2 & E2 & H). injection H as <-.
  destruct parsed as [c|]; [|done].
  destruct (read_config_zero c d1 E1) as (Hm & Hn & Hz). destruct (read_config_ok c d1 E1) as (_ & _ & _ & _ & _ & Hp & _).
  unfold init_gfd_hbt in E2. destruct (MAX_REPLICAS <? num_replicas d1) eqn:Ek; [done|].
  injection E2 as <-. split; [|done]. constructor; [done|apply Hinv|exact Hp|by split|].
  intros i n Hi. cbn [node init_server_state set_node_list] in Hi. change (map ?f ?l) with (f <$> l) in Hi at 1.
  rewrite list_lookup_fmap in Hi.
  destruct (_ !! i) as [n1|] eqn:E in Hi; [|done]. injection Hi as <-. split; [done|].
  assert (Forall (fun n => needs_checkpoint n = 0) (map (fun n => set_nd_report now (nd_server_state n) n)
    (ztake (num_replicas d1) (node d1)) ++ zdrop (num_replicas d1) (node d1))) as Hall.
  { rewrite <- (take_drop (Z.to_nat (num_replicas d1)) (node d1)) in Hz. apply Forall_app in Hz as [H1 H2].
    apply Forall_app. split; [|done]. by apply Forall_map. }
  exact (proj1 (Forall_lookup _ _) Hall i n1 E).
Qed.

(** * What the policy guarantees *)

(** The replica an order gives a role to, and the last role it was given. *)
Definition role_of (o : order) : option Z :=
  match o with Lead i | Backup i | Recover i => Some i | _ => None end.
Definition told (i : Z) (h : list order) : option order := last (filter (fun o => role_of o = Some i) h).

(** The role a replica that is up should have. *)
Definition role (m : Z) (s : policy) (i : Z) : order :=
  if m =? 0 then if decide (leader s = Some i) then Lead i else Backup i else Lead i.

Definition roles (m : Z) (h : list order) (s : policy) : Prop :=
  forall i, i ∈ up s -> told i h = Some (role m s i).

Lemma told_app i h h' : told i (h ++ h') = match told i h' with Some o => Some o | None => told i h end.
Proof. unfold told. by rewrite filter_app, last_app. Qed.

Lemma told_none i h : Forall (fun o => role_of o <> Some i) h -> told i h = None.
Proof.
  unfold told. induction 1 as [|o h Ho Hh IH]; [done|]. by rewrite filter_cons_False.
Qed.

Lemma told_cons_ne i o h : role_of o <> Some i -> told i (o :: h) = told i h.
Proof. intros H. unfold told. by rewrite filter_cons_False. Qed.

Lemma told_one i o : role_of o = Some i -> told i [o] = Some o.
Proof. intros H. unfold told. by rewrite filter_cons_True. Qed.

(** The orders of a recovery give the new replica its role, and nobody else. *)
Lemma told_recovery i j p X : told j ([Recover i] ++ map Hold X ++ [Checkpoint p] ++ map Resume X ++ [Lead i])
  = if decide (i = j) then Some (Lead i) else None.
Proof.
  assert (told j (map Hold X) = None /\ told j (map Resume X) = None) as [H1 H2].
  { split; apply told_none, Forall_map, Forall_forall; by intros. }
  rewrite !told_app, H1, H2, (told_none j [Checkpoint p]) by (by repeat constructor).
  case_decide as E; [subst; by rewrite told_one|]. rewrite !told_none; [done|by constructor; [cbn; congruence|]..].
Qed.

Lemma told_start j i : told j [Start i] = None.
Proof. by apply told_none; repeat constructor. Qed.

Lemma told_start_lead j i k : told j [Start i; Lead k] = if decide (k = j) then Some (Lead k) else None.
Proof.
  rewrite told_cons_ne by done. case_decide; [subst; by apply told_one|].
  apply told_none. repeat constructor. cbn. congruence.
Qed.

Lemma roles_passive e h s : event_ok e -> policy_ok s -> roles 0 h s -> roles 0 (h ++ (passive e s).1) (passive e s).2.
Proof.
  unfold roles, role. change (0 =? 0) with true. cbv iota. intros He Hok H j.
  destruct e as [i|i|]; cbn [passive]; [| |rewrite app_nil_r; apply H].
  - destruct (decide (i ∈ up s)) as [Hi|Hi]; cbn [fst snd up leader set_up]; [rewrite app_nil_r; apply H|].
    intros Hj. set (x := if decide (leader s = Some i) then [Lead i] else [Backup i]).
    rewrite !told_app, (told_none j (if decide (i ∈ missed s) then _ else _))
      by (case_decide; [destruct (leader s); repeat constructor; done|constructor]).
    destruct (decide (i = j)) as [->|Hne].
    + unfold x. case_decide; by rewrite told_one.
    + rewrite (told_none j x); [apply H; set_solver|]. unfold x. case_decide; repeat constructor; cbn; congruence.
  - cbn [leader set_up up missed]. destruct (leader s) as [p|] eqn:El.
    + destruct (decide (i = p)) as [<-|Hne]; cbn [fst snd up leader set_up set_leader set_missed]; intros Hj.
      * rewrite told_app, told_start_lead. destruct (decide (next i = j)) as [->|Hn]; [by rewrite decide_True|].
        rewrite H by set_solver. rewrite !decide_False; [done|congruence|]. intros [= ->]. set_solver.
      * rewrite told_app, told_start, H, El by set_solver. done.
    + cbn [fst snd up leader set_up set_leader]. intros Hj. rewrite told_app, told_start, H by set_solver.
      rewrite !decide_False; [done| |done]. intros [= ->]. set_solver.
Qed.

Lemma roles_active e h s : event_ok e -> policy_ok s -> roles 1 h s -> roles 1 (h ++ (active e s).1) (active e s).2.
Proof.
  unfold roles, role. change (1 =? 0) with false. cbv iota. intros He Hok H j.
  destruct e as [i|i|]; cbn [active]; [| |rewrite app_nil_r; apply H].
  - destruct (decide (i ∈ up s)) as [Hi|Hi]; cbn [fst snd up leader set_up]; [rewrite app_nil_r; apply H|].
    destruct (leader s) as [p|]; cbn [fst snd up leader set_up set_leader]; intros Hj; rewrite told_app.
    + rewrite told_recovery. destruct (decide (i = j)) as [->|Hne]; [done|]. apply H. set_solver.
    + destruct (decide (i = j)) as [->|Hne]; [by rewrite told_one|].
      rewrite (told_none j [Lead i]) by (repeat constructor; cbn; congruence). apply H. set_solver.
  - cbn [leader set_up]. case_decide; cbn [fst snd up leader set_up set_leader]; intros Hj; rewrite told_app.
    + rewrite told_start_lead. case_decide as E; [by rewrite E|]. apply H. set_solver.
    + rewrite told_start. apply H. set_solver.
Qed.

Lemma roles_run m l : m = 0 \/ m = 1 -> Forall event_ok l -> forall h s, policy_ok s -> roles m h s ->
  roles m (h ++ concat (policy_run m l s).1) (policy_run m l s).2.
Proof.
  intros Hm. induction 1 as [|e l He Hl IH]; intros h s Hok H; cbn [policy_run concat fst snd]; [by rewrite app_nil_r|].
  pose proof (policy_step_ok m e s He Hok) as Hok'.
  assert (roles m (h ++ (policy_step m e s).1) (policy_step m e s).2) as H'.
  { destruct Hm as [-> | ->]; [by apply roles_passive|by apply roles_active]. }
  destruct (policy_step m e s) as [o s1]. specialize (IH (h ++ o) s1 Hok' H').
  destruct (policy_run m l s1) as [os s2]. cbn [concat fst snd] in *. by rewrite app_assoc.
Qed.

(** Without a fault, the passive mode has no leader and only backups. *)
Lemma no_fault_run l s : leader s = None -> missed s = ∅ -> Forall (fun e => forall i, e <> Down i) l ->
  leader (policy_run 0 l s).2 = None /\ Forall (Forall (fun o => exists i, o = Backup i)) (policy_run 0 l s).1.
Proof.
  intros Hl Hm He. revert s Hl Hm. induction He as [|e l He Hl IH]; intros s Hs Hm; cbn [policy_run]; [done|].
  assert (leader (policy_step 0 e s).2 = None /\ missed (policy_step 0 e s).2 = ∅
    /\ Forall (fun o => exists i, o = Backup i) (policy_step 0 e s).1) as (H1 & H2 & H3).
  { unfold policy_step. change (0 =? 0) with true. cbv iota. destruct e as [i|i|]; [|by destruct (He i)|done].
    cbn [passive]. case_decide; [done|]. rewrite Hs, decide_False, decide_False by first [done|rewrite Hm; set_solver].
    do 2 (split; [done|]). constructor; [by eexists|constructor]. }
  destruct (policy_step 0 e s) as [o s1]. destruct (IH s1 H1 H2) as [H4 H5].
  destruct (policy_run 0 l s1) as [os s2]. cbn [fst snd] in *. split; [done|]. by constructor.
Qed.

(** A replica that waits to come back when the leader is lost becomes the leader
    and, once it is up, is asked for a checkpoint. *)
Lemma double_fault s p : leader s = Some p -> 0 <= p < 3 ->
  exists s1 s2 s3, policy_step 0 (Down (next p)) s = ([Start (next p)], s1)
    /\ policy_step 0 (Down p) s1 = ([Start p; Lead (next p)], s2)
    /\ policy_step 0 (Up (next p)) s2 = ([Lead (next p); Checkpoint (next p)], s3)
    /\ leader s3 = Some (next p).
Proof.
  intros Hs Hp. assert (next p <> p) as Hne.
  { assert (p = 0 \/ p = 1 \/ p = 2) as [->|[->| ->]] by lia; done. }
  unfold policy_step. change (0 =? 0) with true. cbv iota. eexists _, _, _.
  split; [cbn [passive leader set_up]; rewrite Hs, (decide_False (P := next p = p)) by done; reflexivity|].
  split; [cbn [passive leader set_up set_missed up missed]; rewrite Hs, (decide_True (P := p = p)) by done; reflexivity|].
  cbn [passive leader set_up set_missed set_leader up missed].
  rewrite decide_False by set_solver. rewrite decide_True by done. rewrite decide_True by set_solver. by split.
Qed.

(** * Properties *)

(** C8: the manager refines the policy. For every configuration, every sequence
    of connections whose messages name one of the three replicas, with any bytes,
    cuts and uninitialised memory, and the heartbeat rounds between them: if the
    factories can be reached, the manager handles every report to its end; the
    messages it has sent are, in this order, the texts of the orders that the
    policy gives for the reports, each to the factory of the replica it is about;
    its primary, the states of its nodes and their need for a checkpoint are
    those of the policy; and its lock is free. *)
Theorem manager_refines_policy env parsed o now l d0 ms :
  reach env -> rm_start parsed o now = Ret d0 -> reports l = Ret ms ->
  Forall (fun x => 0 <= rmm_replica_id x.2 < 3) ms ->
  let r := policy_run (mode d0) (map (fun x => event_of x.2) ms) start in
  exists d, rm_main env parsed o now l = Ret d /\ tracks d0 d r.2 /\ lock_held d = false
    /\ delivered (rm_net d) = messages d0 ms r.1.
Proof.
  intros Henv H0 Hr Hms. destruct (start_tracks parsed o now d0 H0) as (Ht & Hl & Hm & Hn).
  destruct (loop_refines env d0 Henv Hm l ms d0 start Hr Hms Ht Hl) as (d & E & Htd & Hld & Hd).
  exists d. unfold rm_main. rewrite H0, bind_ret_l. rewrite Hn in Hd. done.
Qed.

(** The manager of [Manager], started in passive mode with what it is told. *)
Definition demo_started_manager : rep_manager := answer rm_globals (rm_start (Some demo_config) demo_listen 1000).
Definition demo_heard (l : list rm_event) : list (bytes * replication_manager_message) := answer [] (reports l).

Lemma demo_manager_starts : rm_start (Some demo_config) demo_listen 1000 = Ret demo_started_manager.
Proof. by vm_compute. Qed.

Lemma net_up_reach : reach net_up.
Proof. by repeat split. Qed.

Lemma manager_refines_policy_witness : exists d,
  rm_main net_up (Some demo_config) demo_listen 1000 demo_events = Ret d
  /\ lock_held d = false
  /\ policy_run 0 [Down 0; Up 0; Up 1; Down 1] start
     = ([[Start 0]; [Lead 0]; [Backup 1]; [Start 1]], {| leader := Some 0; up := {[0]}; missed := {[1]} |})
  /\ delivered (rm_net d)
     = messages demo_started_manager (demo_heard demo_events) [[Start 0]; [Lead 0]; [Backup 1]; [Start 1]].
Proof.
  assert (policy_run 0 [Down 0; Up 0; Up 1; Down 1] start
     = ([[Start 0]; [Lead 0]; [Backup 1]; [Start 1]], {| leader := Some 0; up := {[0]}; missed := {[1]} |})) as Hr
    by (by vm_compute).
  destruct (manager_refines_policy net_up (Some demo_config) demo_listen 1000 demo_events demo_started_manager
    (demo_heard demo_events)) as (d & E & _ & Hl & Hd).
  - exact net_up_reach.
  - exact demo_manager_starts.
  - by vm_compute.
  - apply (bool_decide_unpack _). by vm_compute.
  - exists d. split; [exact E|]. split; [exact Hl|]. split; [exact Hr|]. rewrite Hd.
    change (mode demo_started_manager) with 0.
    assert (map (fun x => event_of x.2) (demo_heard demo_events) = [Down 0; Up 0; Up 1; Down 1]) as -> by (by vm_compute).
    by rewrite Hr.
Defined.

(** C15: every replica that is up was told its role. After any run of the manager
    whose factories can be reached: the last role that the orders of the manager
    gave to a replica it counts as running is that of the leader, if it is the
    primary or the mode is active, and that of a backup otherwise. So in passive
    mode at most one of the running replicas was told last to lead. *)
Theorem roles_told env parsed o now l d0 ms :
  reach env -> rm_start parsed o now = Ret d0 -> reports l = Ret ms ->
  Forall (fun x => 0 <= rmm_replica_id x.2 < 3) ms ->
  let h := (policy_run (mode d0) (map (fun x => event_of x.2) ms) start).1 in
  exists d, rm_main env parsed o now l = Ret d /\ delivered (rm_net d) = messages d0 ms h
    /\ (forall i, 0 <= i < 3 -> state_at d i = Some RUNNING ->
        told i (concat h) = Some (if (mode d0 =? 1) || (i =? primary_replica_id d) then Lead i else Backup i))
    /\ (mode d0 = 0 -> forall i j, 0 <= i < 3 -> 0 <= j < 3 ->
        state_at d i = Some RUNNING -> state_at d j = Some RUNNING ->
        told i (concat h) = Some (Lead i) -> told j (concat h) = Some (Lead j) -> i = j).
Proof.
  intros Henv H0 Hr Hms h. destruct (start_tracks parsed o now d0 H0) as (Ht & Hl & Hm & Hn).
  destruct (loop_refines env d0 Henv Hm l ms d0 start Hr Hms Ht Hl) as (d & E & Htd & _ & Hd).
  exists d. unfold rm_main. rewrite H0, bind_ret_l. rewrite Hn in Hd. split; [done|]. split; [done|].
  assert (forall i, 0 <= i < 3 -> state_at d i = Some RUNNING ->
    told i (concat h) = Some (if (mode d0 =? 1) || (i =? primary_replica_id d) then Lead i else Backup i)) as Hroles.
  { intros i Hi Hs. destruct (tracks_at d0 d _ i Htd Hi) as (n & _ & En & Hst & _). unfold state_at in Hs.
    rewrite En in Hs. injection Hs as Hs. rewrite Hst in Hs. case_decide as Hu; [|done].
    assert (Forall event_ok (map (fun x => event_of x.2) ms)) as Hev.
    { apply Forall_map. eapply Forall_impl; [exact Hms|]. intros [b m] Hx. unfold event_of. cbn in *. by repeat case_if. }
    pose proof (roles_run (mode d0) _ Hm Hev [] start (tk_policy _ _ _ Ht)) as Hro.
    cbn [app] in Hro. rewrite Hro, (tk_leader _ _ _ Htd); [|by intros ? ?|exact Hu]. unfold role.
    destruct Hm as [-> | ->]; cbn [Z.eqb orb Pos.eqb]; [|done]. f_equal.
    destruct (leader _) as [p|]; cbn [from_option id]; repeat case_decide; repeat case_if; zbool; congruence || lia. }
  split; [exact Hroles|]. intros Hz i j Hi Hj Hsi Hsj Hti Htj. rewrite Hroles in Hti, Htj by done. rewrite Hz in *.
  cbn [Z.eqb orb] in *. change (0 =? 1) with false in *. cbn [orb] in *. repeat case_if; zbool; simplify_eq; congruence.
Qed.

(** The states of the nodes after a run. *)
Definition demo_states (l : list rm_event) : option (list Z) :=
  match rm_main net_up (Some demo_config) demo_listen 1000 l with
  | Ret d => Some (map nd_state (node d))
  | _ => None
  end.

Lemma demo_state_at l d i st : rm_main net_up (Some demo_config) demo_listen 1000 l = Ret d ->
  demo_states l = Some st -> state_at d i = st !! Z.to_nat i.
Proof.
  unfold demo_states. intros -> [= <-]. unfold state_at. rewrite <- list_lookup_fmap. reflexivity.
Qed.

Lemma roles_told_witness : exists d,
  rm_main net_up (Some demo_config) demo_listen 1000 demo_events = Ret d
  /\ state_at d 0 = Some RUNNING /\ primary_replica_id d = 0.
Proof.
  destruct (roles_told net_up (Some demo_config) demo_listen 1000 demo_events demo_started_manager
    (demo_heard demo_events)) as (d & E & _ & Hro & _).
  - exact net_up_reach.
  - exact demo_manager_starts.
  - by vm_compute.
  - apply (bool_decide_unpack _). by vm_compute.
  - exists d. split; [exact E|].
    assert (demo_states demo_events = Some [RUNNING; FAULTED; FAULTED]) as Hst by (by vm_compute).
    assert (state_at d 0 = Some RUNNING) as H0 by exact (demo_state_at _ _ 0 _ E Hst).
    split; [exact H0|].
    assert ((policy_run (mode demo_started_manager) (map (fun x => event_of x.2) (demo_heard demo_events)) start).1
      = [[Start 0]; [Lead 0]; [Backup 1]; [Start 1]]) as Hr by (by vm_compute).
    rewrite Hr in Hro. specialize (Hro 0 (conj (Z.le_refl 0) eq_refl) H0).
    assert (told 0 (concat [[Start 0]; [Lead 0]; [Backup 1]; [Start 1]]) = Some (Lead 0)) as Ht by (by vm_compute).
    assert ((mode demo_started_manager =? 1) = false) as Hm by (by vm_compute).
    rewrite Ht, Hm, orb_false_l in Hro. destruct (0 =? primary_replica_id d) eqn:Ep; [|discriminate Hro].
    symmetry. by apply Z.eqb_eq.
Defined.

(** C25: no primary without a fault. In passive mode, as long as no detector has
    reported a fault, the manager has no primary, and every message it has sent
    makes a replica a backup: a group of servers that all run when their
    detectors first look, as after a restart of the manager, or when they were
    started by hand, stays without a primary. *)
Theorem no_primary_without_fault env parsed o now l d0 ms :
  reach env -> rm_start parsed o now = Ret d0 -> mode d0 = 0 -> reports l = Ret ms ->
  Forall (fun x => 0 <= rmm_replica_id x.2 < 3) ms -> Forall (fun x => rmm_state x.2 <> FAULTED) ms ->
  exists d, rm_main env parsed o now l = Ret d /\ primary_replica_id d = -1
    /\ Forall (fun x => exists i, x = (fac d0 i, zero_buf (change_state_text i PASSIVE_REP PASSIVE_BACKUP)))
         (delivered (rm_net d)).
Proof.
  intros Henv H0 Hm0 Hr Hms Hf. destruct (start_tracks parsed o now d0 H0) as (Ht & Hl & Hm & Hn).
  destruct (loop_refines env d0 Henv Hm l ms d0 start Hr Hms Ht Hl) as (d & E & Htd & _ & Hd).
  exists d. unfold rm_main. rewrite H0, bind_ret_l. split; [done|]. rewrite Hn, Hm0 in Hd. cbn [app] in Hd.
  assert (Forall (fun e => forall i, e <> Down i) (map (fun x => event_of x.2) ms)) as Hev.
  { apply Forall_map. eapply Forall_impl; [exact Hf|]. intros [b m] Hx i. unfold event_of. cbn in *.
    repeat case_if; zbool; done. }
  destruct (no_fault_run _ start eq_refl eq_refl Hev) as [Hlead Hos].
  split; [by rewrite (tk_leader _ _ _ Htd), Hm0, Hlead|]. rewrite Hd. unfold messages. clear -Hos.
  set (os := (policy_run 0 _ _).1) in *. clearbody os. revert ms. induction Hos as [|o os Ho Hos IH]; intros [|x ms]; try done.
  cbn. apply Forall_app. split; [|apply IH]. apply Forall_map. eapply Forall_impl; [exact Ho|]. intros y [i ->]. by exists i.
Qed.

Lemma no_primary_without_fault_witness : exists d,
  rm_main net_up (Some demo_config) demo_listen 1000 silent_events = Ret d
  /\ primary_replica_id d = -1 /\ state_at d 0 = Some RUNNING /\ state_at d 1 = Some RUNNING.
Proof.
  destruct (no_primary_without_fault net_up (Some demo_config) demo_listen 1000 silent_events demo_started_manager
    (demo_heard silent_events)) as (d & E & Hp & _).
  - exact net_up_reach.
  - exact demo_manager_starts.
  - reflexivity.
  - by vm_compute.
  - apply (bool_decide_unpack _). by vm_compute.
  - apply (bool_decide_unpack _). by vm_compute.
  - exists d. assert (demo_states silent_events = Some [RUNNING; RUNNING; FAULTED]) as Hst by (by vm_compute).
    split; [exact E|]. split; [exact Hp|]. split; [exact (demo_state_at _ _ 0 _ E Hst)|exact (demo_state_at _ _ 1 _ E Hst)].
Defined.
