(* ===== verification/Factory.v ===== *)
(** [src/factory.c]: the factory of a replica, which turns the commands of the
    replication manager into messages for its server and starts the server and
    its fault detector. *)
From S2P Require Import Prelude CLib Iface Util Request.

Definition SERVER_PATH : bytes := ⟦"bin/server"⟧.
Definition FAULT_DETECTOR_PATH : bytes := ⟦"bin/local_f_detector"⟧.

(** [factory_data], as the configuration parser filled it. *)
Record factory_data := {
  f_replica_id : Z;
  spawned_server_ip : bytes;
  spawned_server_port : bytes;
  lfd_heartbeat : bytes;
  replication_manager_ip : bytes;
  replication_manager_port : bytes
}.

(** What the factory does to the world: messages sent and processes started
    (the argument vector of each [execve]). *)
Record factory := {
  fa_net : net;
  fa_spawned : list (list bytes)
}.

(** * The command of the replication manager *)

(** The two addresses are copied whole from the value buffer. *)
Definition parse_rep_manager_kv (m : factory_message) (key_buf value_buf : bytes)
  : outcome (bool * factory_message) :=
  key ← c_string key_buf;
  value ← c_string value_buf;
  let int_field (upd : Z -> factory_message -> factory_message) : outcome (bool * factory_message) :=
    match str_to_int value with
    | Some z => Ret (true, upd z m)
    | None => Ret (false, m)
    end in
  if bytes_eqb key ⟦"Replica ID"⟧ then int_field set_fm_replica_id
  else if bytes_eqb key ⟦"Factory Req"⟧ then int_field set_fm_req
  else if bytes_eqb key ⟦"REP MODE"⟧ then int_field set_fm_mode_rep
  else if bytes_eqb key ⟦"Server State"⟧ then int_field set_fm_server_state
  else if bytes_eqb key ⟦"Replica 1 ID"⟧ then int_field set_fm_bkp_replica_id_1
  else if bytes_eqb key ⟦"Replica 1 IP"⟧ then
    Ret (true, set_fm_server_arr_0 (set_server_ip (ztake 1024 value_buf) (fm_server_arr_0 m)) m)
  else if bytes_eqb key ⟦"Replica 1 Port"⟧ then
    int_field (fun z m => set_fm_server_arr_0 (set_port z (fm_server_arr_0 m)) m)
  else if bytes_eqb key ⟦"Replica 2 ID"⟧ then int_field set_fm_bkp_replica_id_2
  else if bytes_eqb key ⟦"Replica 2 IP"⟧ then
    Ret (true, set_fm_server_arr_1 (set_server_ip (ztake 1024 value_buf) (fm_server_arr_1 m)) m)
  else if bytes_eqb key ⟦"Replica 2 Port"⟧ then
    int_field (fun z m => set_fm_server_arr_1 (set_port z (fm_server_arr_1 m)) m)
  else if bytes_eqb key ⟦"Checkpoint freq"⟧ then int_field set_fm_checkpoint_freq
  else Ret (true, m).

(** * Messages to the server *)

(** The three lines every message starts with. *)
Definition request_head (t : Z) : bytes :=
  ⟦"Client ID: "⟧ ++ fmt_d 0 ++ CRLF ++ ⟦"Request No: "⟧ ++ fmt_d 0 ++ CRLF
  ++ ⟦"Message Type: "⟧ ++ fmt_d t ++ CRLF.

(** The pre-primary and the active branch of the source print the same text. *)
Definition fill_change_state_buf (m : factory_message) : outcome bytes :=
  if (fm_server_state m =? PASSIVE_PREPRIMARY) || (fm_server_state m =? ACTIVE_RUNNING) then
    ip0 ← c_string (server_ip (fm_server_arr_0 m));
    ip1 ← c_string (server_ip (fm_server_arr_1 m));
    Ret (request_head MSG_REP_MGR
         ++ ⟦"REP MODE: "⟧ ++ fmt_d (fm_mode_rep m) ++ CRLF
         ++ ⟦"Server State: "⟧ ++ fmt_d (fm_server_state m) ++ CRLF
         ++ ⟦"Checkpoint freq: "⟧ ++ fmt_d (fm_checkpoint_freq m) ++ CRLF
         ++ ⟦"Replica 1 ID: "⟧ ++ fmt_d (fm_bkp_replica_id_1 m) ++ CRLF
         ++ ⟦"Replica 1 IP: "⟧ ++ ip0 ++ CRLF
         ++ ⟦"Replica 1 Port: "⟧ ++ fmt_d (port (fm_server_arr_0 m)) ++ CRLF
         ++ ⟦"Replica 2 ID: "⟧ ++ fmt_d (fm_bkp_replica_id_2 m) ++ CRLF
         ++ ⟦"Replica 2 IP: "⟧ ++ ip1 ++ CRLF
         ++ ⟦"Replica 2 Port: "⟧ ++ fmt_d (port (fm_server_arr_1 m)) ++ CRLF ++ CRLF)
  else
    Ret (request_head MSG_REP_MGR
         ++ ⟦"REP MODE: "⟧ ++ fmt_d (fm_mode_rep m) ++ CRLF
         ++ ⟦"Server State: "⟧ ++ fmt_d (fm_server_state m) ++ CRLF ++ CRLF).

Section Factory.
Variable f_data : factory_data.
(** The 1024 bytes the [memcpy] of the server's address reads from where
    [spawned_server_ip] points. *)
Variable spawned_ip_mem : bytes.
Variable env : nat -> net_step.
(** The result of [fork] in the parent. *)
Variable fork_ok : bool.

Definition spawned_server : server_info :=
  {| server_ip := spawned_ip_mem; port := atoi (spawned_server_port f_data) |}.

(** Connect to the server, write the buffer, close. *)
Definition send_server (text : bytes) (w : factory) : outcome (Z * factory) :=
  buf ← sprintf_zero text;
  let '(r, n) := send_buf env spawned_server buf (fa_net w) in
  Ret (r, {| fa_net := n; fa_spawned := fa_spawned w |}).

Definition send_change_state_message (m : factory_message) (w : factory) : outcome (Z * factory) :=
  text ← fill_change_state_buf m; send_server text w.
Definition send_checkpoint_to_bkps (w : factory) : outcome (Z * factory) :=
  send_server (request_head MSG_SEND_CHKPT ++ CRLF) w.
Definition send_start_quiesce (w : factory) : outcome (Z * factory) :=
  send_server (request_head MSG_QUIESCE_START ++ CRLF) w.
Definition send_stop_quiesce (w : factory) : outcome (Z * factory) :=
  send_server (request_head MSG_QUIESCE_STOP ++ CRLF) w.

(** The child's [execve] is recorded; the parent goes on. *)
Definition spawn (argv : list bytes) (w : factory) : Z * factory :=
  if fork_ok then (0, {| fa_net := fa_net w; fa_spawned := fa_spawned w ++ [argv] |})
  else (-1, w).

Definition spawn_server (path : bytes) (w : factory) : Z * factory :=
  spawn [path; spawned_server_ip f_data; spawned_server_port f_data;
         ztake 9 (fmt_u (u64 (f_replica_id f_data)))] w.

(** The replica id is printed into ten bytes without a bound. *)
Definition spawn_fault_detector (path : bytes) (w : factory) : outcome (Z * factory) :=
  let id := fmt_d (f_replica_id f_data) in
  if 10 <=? zlen id then Undef
  else Ret (spawn [path; spawned_server_ip f_data; spawned_server_port f_data;
                   lfd_heartbeat f_data; replication_manager_ip f_data;
                   replication_manager_port f_data; id] w).

(** [factory_init]: only the fault detector is started. *)
Definition factory_init (server_path : option bytes) (fault_detector_path : bytes) (w : factory)
  : outcome (Z * factory) :=
  match server_path with
  | None => Ret (-1, w)
  | Some _ =>
      '(r, w) ← spawn_fault_detector fault_detector_path w;
      if negb (r =? 0) then Ret (-1, w) else Ret (0, w)
  end.

Definition handle_rep_man_command (m : factory_message) (w : factory) : outcome (Z * factory) :=
  if fm_replica_id m =? f_replica_id f_data then
    '(_, w) ←
      (if fm_req m =? STARTUP then Ret (spawn_server SERVER_PATH w)
       else if fm_req m =? CHANGE_STATE then send_change_state_message m w
       else if fm_req m =? SEND_CHKPT then send_checkpoint_to_bkps w
       else if fm_req m =? QUIESCE_BEGIN then send_start_quiesce w
       else if fm_req m =? QUIESCE_STOP then send_stop_quiesce w
       else Ret (0, w));
    Ret (0, w)
  else Ret (0, w).

(** [uninit]: the contents of the local [message], which is not
    initialised. *)
Definition handle_replication_manager_message (uninit : factory_message)
    (input : list rd_event) (w : factory) : outcome (Z * factory) :=
  '(e, m, _, _) ← read_fields parse_rep_manager_kv true (init_buf_fd input) uninit;
  match e with
  | FLDone => handle_rep_man_command m w
  | _ => Ret (-1, w)
  end.
End Factory.
