(* ===== verification/Lfd.v ===== *)
(** [src/local_f_detector.c]: the local fault detector of a replica, which sends
    heartbeats to its server and reports to the replication manager. *)
From S2P Require Import Prelude CLib Iface Util Request Reply Replica.

(** The globals and the locals of [heartbeat_signal] that survive a round. *)
Record lfd := {
  heartbeat_count_g : Z;
  heartbeat_received_g : Z;
  connection : Z;
  first_time : Z;
  lf_buf : bytes;
  lf_response : message_response;
  lf_server_state : Z;
  lf_net : net
}.

Definition lfd_init : lfd :=
  {| heartbeat_count_g := 0; heartbeat_received_g := 0; connection := 0; first_time := 1;
     lf_buf := zeros MAX_LENGTH;
     lf_response := {| resp_hash_key := 0; resp_client_id := 0; resp_status := [];
                       resp_req_no := 0; resp_state := 0 |};
     lf_server_state := UNKNOWN_STATE; lf_net := {| attempts := O; delivered := [] |} |}.

Definition set_lf_net (n : net) (w : lfd) : lfd :=
  {| heartbeat_count_g := heartbeat_count_g w; heartbeat_received_g := heartbeat_received_g w;
     connection := connection w; first_time := first_time w; lf_buf := lf_buf w;
     lf_response := lf_response w; lf_server_state := lf_server_state w; lf_net := n |}.
Definition set_lf_flags (c f : Z) (w : lfd) : lfd :=
  {| heartbeat_count_g := heartbeat_count_g w; heartbeat_received_g := heartbeat_received_g w;
     connection := c; first_time := f; lf_buf := lf_buf w;
     lf_response := lf_response w; lf_server_state := lf_server_state w; lf_net := lf_net w |}.
Definition set_lf_state (s : Z) (w : lfd) : lfd :=
  {| heartbeat_count_g := heartbeat_count_g w; heartbeat_received_g := heartbeat_received_g w;
     connection := connection w; first_time := first_time w; lf_buf := lf_buf w;
     lf_response := lf_response w; lf_server_state := s; lf_net := lf_net w |}.
Definition set_lf_exchange (b : bytes) (r : message_response) (w : lfd) : lfd :=
  {| heartbeat_count_g := heartbeat_count_g w; heartbeat_received_g := heartbeat_received_g w;
     connection := connection w; first_time := first_time w; lf_buf := b;
     lf_response := r; lf_server_state := lf_server_state w; lf_net := lf_net w |}.
Definition set_lf_counts (c r : Z) (w : lfd) : lfd :=
  {| heartbeat_count_g := c; heartbeat_received_g := r;
     connection := connection w; first_time := first_time w; lf_buf := lf_buf w;
     lf_response := lf_response w; lf_server_state := lf_server_state w; lf_net := lf_net w |}.

Section Lfd.
Variable client_id : Z.
Variable server : server_info.
Variable rep_manager_addr : server_info.
Variable replica_id : Z.
(** The network, by attempt; what the server answers in this round; a bound on
    its lines; the stack under the report's buffer, which is not cleared. *)
Variable env : nat -> net_step.
Variable answer : list rd_event.
Variable lines : nat.
Variable junk : bytes.

Definition create_heartbeat_message_to_server (count : Z) : bytes :=
  ⟦"Client ID: "⟧ ++ fmt_d client_id ++ CRLF
  ++ ⟦"Request No: "⟧ ++ fmt_d count ++ CRLF
  ++ ⟦"Message Type: "⟧ ++ fmt_d MSG_HEARTBEAT ++ CRLF ++ CRLF.

Definition report_text (st server_state : Z) : bytes :=
  ⟦"Replica ID: "⟧ ++ fmt_d replica_id ++ CRLF
  ++ ⟦"Message Type: "⟧ ++ fmt_d st ++ CRLF
  ++ ⟦"Server state: "⟧ ++ fmt_d server_state ++ CRLF ++ CRLF.

Definition send_rep_manager (buf : bytes) (w : lfd) : Z * lfd :=
  let '(r, n) := send_buf env rep_manager_addr buf (lf_net w) in (r, set_lf_net n w).

(** The callers drop its result. *)
Definition inform_rep_manager (st : Z) (w : lfd) : outcome lfd :=
  buf ← sprintf_junk junk (report_text st (lf_server_state w));
  Ret (snd (send_rep_manager buf w)).

(** The reports of a first and of a restored contact. *)
Definition contact (w : lfd) : outcome lfd :=
  w ← (if first_time w =? 1
       then inform_rep_manager RUNNING (set_lf_flags (connection w) 0 w) else Ret w);
  if connection w =? 1
  then inform_rep_manager RUNNING (set_lf_flags 0 (first_time w) w) else Ret w.

(** The heartbeat over the connection [e], the reading of the reply and the
    verdict; the result of the reader is dropped. *)
Definition beat (e : net_step) (w : lfd) : outcome lfd :=
  let text := create_heartbeat_message_to_server (heartbeat_count_g w) in
  if MAX_LENGTH <=? zlen text then Undef else
  let buf := junk_buf (lf_buf w) text in
  let n := lf_net w in
  let w := if write_ret e <? 0 then w
           else set_lf_net {| attempts := attempts n; delivered := delivered n ++ [(server, buf)] |} w in
  '(_, r) ← get_response_from_server lines answer (lf_response w);
  let w := set_lf_state (resp_state r) (set_lf_exchange buf r w) in
  w ← (if parse_response_from_server r client_id <? 0
       then inform_rep_manager FAULTED (set_lf_state UNKNOWN_STATE (set_lf_flags 1 (first_time w) w))
       else inform_rep_manager RUNNING w);
  Ret (set_lf_counts (heartbeat_count_g w) (i32 (heartbeat_received_g w + 1)) w).

(** One round of [heartbeat_signal] after its sleep. *)
Definition heartbeat_signal (w : lfd) : outcome lfd :=
  let w := set_lf_counts (i32 (heartbeat_count_g w + 1)) (heartbeat_received_g w) w in
  let e := env (attempts (lf_net w)) in
  let clientfd := connect_to_server e server in
  let w := set_lf_net {| attempts := S (attempts (lf_net w)); delivered := delivered (lf_net w) |} w in
  if clientfd <? 0 then
    inform_rep_manager FAULTED (set_lf_state UNKNOWN_STATE (set_lf_flags 1 (first_time w) w))
  else w ← contact w; beat e w.
End Lfd.

(** * One round *)

Section Round.
Variable client_id : Z.
Variables server rm : server_info.
Variable replica_id : Z.
Variable env : nat -> net_step.
Variable junk : bytes.

Definition report_buf (st sst : Z) : bytes := junk_buf junk (report_text replica_id st sst).

(** A peer that takes what it is sent. *)
Definition takes (i : nat) : Prop :=
  connect_ret (env i) = 0 /\ 0 <= socket_ret (env i) /\ 0 <= write_ret (env i).

Lemma report_text_short st sst : zlen (report_text replica_id st sst) < MAX_LENGTH.
Proof.
  unfold report_text. rewrite !zlen_app. pose proof (fmt_d_length replica_id).
  pose proof (fmt_d_length st). pose proof (fmt_d_length sst).
  change (zlen ⟦"Replica ID: "⟧) with 12. change (zlen ⟦"Message Type: "⟧) with 14.
  change (zlen ⟦"Server state: "⟧) with 14. change (zlen CRLF) with 2. unfold MAX_LENGTH. lia.
Qed.

(** The report is handed over when the manager takes it, and lost otherwise;
    nothing else changes. *)
Lemma inform_eq st w : inform_rep_manager rm replica_id env junk st w
  = Ret (set_lf_net (snd (send_buf env rm (report_buf st (lf_server_state w)) (lf_net w))) w).
Proof.
  unfold inform_rep_manager, sprintf_junk. rewrite (proj2 (Z.ltb_lt _ _)) by apply report_text_short.
  rewrite bind_ret_l. unfold send_rep_manager, report_buf. by destruct (send_buf _ _ _ _).
Qed.

Lemma send_takes dst b n : takes (attempts n) ->
  snd (send_buf env dst b n) = {| attempts := S (attempts n); delivered := delivered n ++ [(dst, b)] |}.
Proof.
  intros (Hc & Hs & Hw). unfold send_buf, connect_to_server. rewrite Hc. cbn [Z.eqb negb].
  by rewrite (proj2 (Z.ltb_ge _ _) Hs), (proj2 (Z.ltb_ge _ _) Hw).
Qed.

Definition said (st : Z) (w : lfd) : lfd :=
  set_lf_net {| attempts := S (attempts (lf_net w));
                delivered := delivered (lf_net w) ++ [(rm, report_buf st (lf_server_state w))] |} w.

Lemma inform_ok st w : takes (attempts (lf_net w)) ->
  inform_rep_manager rm replica_id env junk st w = Ret (said st w).
Proof. intros H. by rewrite inform_eq, send_takes. Qed.

(** The state known to the detector does not change on contact. *)
Definition contact_sends (w : lfd) : list (server_info * bytes) :=
  (if first_time w =? 1 then [(rm, report_buf RUNNING (lf_server_state w))] else [])
  ++ (if connection w =? 1 then [(rm, report_buf RUNNING (lf_server_state w))] else []).

Lemma contact_spec w : (forall i, (attempts (lf_net w) <= i)%nat -> takes i) ->
  exists w', contact rm replica_id env junk w = Ret w'
    /\ delivered (lf_net w') = delivered (lf_net w) ++ contact_sends w
    /\ (attempts (lf_net w) <= attempts (lf_net w'))%nat
    /\ first_time w' = (if first_time w =? 1 then 0 else first_time w)
    /\ connection w' = (if connection w =? 1 then 0 else connection w)
    /\ lf_response w' = lf_response w /\ lf_buf w' = lf_buf w
    /\ heartbeat_count_g w' = heartbeat_count_g w /\ heartbeat_received_g w' = heartbeat_received_g w.
Proof.
  intros Ht. unfold contact, contact_sends.
  destruct (first_time w =? 1) eqn:Ef, (connection w =? 1) eqn:Ec;
    repeat (rewrite inform_ok by (apply Ht; cbn; lia)); rewrite ?bind_ret_l;
    cbn [connection said set_lf_net set_lf_flags]; rewrite ?Ec;
    repeat (rewrite inform_ok by (apply Ht; cbn; lia)); (eexists; split; [done|]); cbn;
    rewrite ?app_nil_r, <- ?app_assoc; repeat (split; [done || lia|]); done.
Qed.

Lemma heartbeat_text_short n : zlen (create_heartbeat_message_to_server client_id n) < MAX_LENGTH.
Proof.
  unfold create_heartbeat_message_to_server. rewrite !zlen_app. pose proof (fmt_d_length client_id).
  pose proof (fmt_d_length n). pose proof (fmt_d_length MSG_HEARTBEAT).
  change (zlen ⟦"Client ID: "⟧) with 11. change (zlen ⟦"Request No: "⟧) with 12.
  change (zlen ⟦"Message Type: "⟧) with 14. change (zlen CRLF) with 2. unfold MAX_LENGTH. lia.
Qed.

Lemma beat_spec e answer lines w s r :
  (forall i, (attempts (lf_net w) <= i)%nat -> takes i) -> 
  get_response_from_server lines answer (lf_response w) = Ret (s, r) ->
  exists w', beat client_id server rm replica_id env answer lines junk e w = Ret w'
    /\ delivered (lf_net w') = delivered (lf_net w)
         ++ (if write_ret e <? 0 then [] else
             [(server, junk_buf (lf_buf w)
                 (create_heartbeat_message_to_server client_id (heartbeat_count_g w)))])
         ++ [(rm, if parse_response_from_server r client_id <? 0
                  then report_buf FAULTED UNKNOWN_STATE else report_buf RUNNING (resp_state r))]
    /\ first_time w' = first_time w
    /\ connection w' = (if parse_response_from_server r client_id <? 0 then 1 else connection w)
    /\ lf_response w' = r /\ heartbeat_count_g w' = heartbeat_count_g w
    /\ heartbeat_received_g w' = i32 (heartbeat_received_g w + 1).
Proof.
  intros Ht Hr. unfold beat. rewrite (proj2 (Z.leb_gt _ _)) by apply heartbeat_text_short. cbv zeta.
  assert (forall b : bool, lf_response (if b then w else set_lf_net {| attempts := attempts (lf_net w);
    delivered := delivered (lf_net w) ++ [(server, junk_buf (lf_buf w)
      (create_heartbeat_message_to_server client_id (heartbeat_count_g w)))] |} w) = lf_response w)
    as -> by by intros []. rewrite Hr, bind_ret_l.
  destruct (write_ret e <? 0), (parse_response_from_server r client_id <? 0);
    rewrite inform_ok by (apply Ht; cbn; lia); rewrite bind_ret_l; (eexists; split; [done|]); cbn;
    rewrite <- ?app_assoc; done.
Qed.
End Round.

(** C31: a round of the fault detector. A server that cannot be reached is
    reported FAULTED with an unknown state and will be announced as restored.
    Over a working network the round sends, in this order, a RUNNING report for
    a first and for a restored contact, the heartbeat with the next number, and
    the verdict on the response structure after reading.  What the reader
    returned ([s]) plays no part in that verdict: a server that accepts the
    connection and says nothing is reported as RUNNING with the state of an
    older reply. *)
Theorem heartbeat_round client_id server rm replica_id env answer lines junk w s r :
  (forall i, (attempts (lf_net w) < i)%nat -> takes env i) ->
  get_response_from_server lines answer (lf_response w) = Ret (s, r) ->
  exists w', heartbeat_signal client_id server rm replica_id env answer lines junk w = Ret w'
    /\ heartbeat_count_g w' = i32 (heartbeat_count_g w + 1)
    /\ (connect_ret (env (attempts (lf_net w))) <> 0 ->
        delivered (lf_net w') = delivered (lf_net w)
          ++ [(rm, report_buf replica_id junk FAULTED UNKNOWN_STATE)]
        /\ connection w' = 1 /\ heartbeat_received_g w' = heartbeat_received_g w)
    /\ (takes env (attempts (lf_net w)) ->
        delivered (lf_net w') = delivered (lf_net w)
          ++ contact_sends rm replica_id junk w
          ++ [(server, junk_buf (lf_buf w)
                 (create_heartbeat_message_to_server client_id (i32 (heartbeat_count_g w + 1))))]
          ++ [(rm, if parse_response_from_server r client_id <? 0
                   then report_buf replica_id junk FAULTED UNKNOWN_STATE
                   else report_buf replica_id junk RUNNING (resp_state r))]
        /\ first_time w' = (if first_time w =? 1 then 0 else first_time w)
        /\ connection w' = (if parse_response_from_server r client_id <? 0 then 1
                            else if connection w =? 1 then 0 else connection w)
        /\ lf_response w' = r /\ heartbeat_received_g w' = i32 (heartbeat_received_g w + 1)).
Proof.
  intros Htake Hresp. unfold heartbeat_signal. cbv zeta.
  cbn [lf_net set_lf_counts set_lf_net attempts delivered]. set (n := lf_net w) in *.
  destruct (connect_to_server (env (attempts n)) server <? 0) eqn:Ec.
  - rewrite inform_ok by (apply Htake; cbn; lia). eexists. split; [done|]. split; [done|]. split; [done|].
    intros (Hc & Hs & _). unfold connect_to_server in Ec. rewrite Hc in Ec. cbn in Ec. zbool. lia.
  - set (w1 := set_lf_net _ (set_lf_counts _ _ w)).
    destruct (contact_spec rm replica_id env junk w1) as (w2 & -> & D2 & A2 & F2 & C2 & R2 & B2 & N2 & V2).
    { intros i Hi. apply Htake. cbn in Hi. lia. }
    rewrite bind_ret_l.
    destruct (beat_spec client_id server rm replica_id env junk (env (attempts n)) answer lines w2 s r)
      as (w3 & -> & D3 & F3 & C3 & R3 & N3 & V3).
    { intros i Hi. apply Htake. cbn in A2. lia. }
    { by rewrite R2. }
    exists w3. split; [done|]. split; [by rewrite N3, N2|]. split.
    + intros Hc. unfold connect_to_server in Ec. rewrite (proj2 (Z.eqb_neq _ _) Hc) in Ec. done.
    + intros (_ & _ & Hw). rewrite D3, F3, C3, R3, V3, D2, F2, C2, B2, N2, V2.
      rewrite (proj2 (Z.ltb_ge _ _) Hw), <- app_assoc. done.
Qed.

(** A server that was running and now hangs up on every connection. *)
Definition net_good (i : nat) : net_step := {| socket_ret := 5; connect_ret := 0; write_ret := MAX_LENGTH |}.
Definition lfd_seen : lfd :=
  set_lf_exchange (zeros MAX_LENGTH)
    {| resp_hash_key := 0; resp_client_id := 8; resp_status := ⟦"OK"⟧; resp_req_no := 4;
       resp_state := PASSIVE_PRIMARY |} (set_lf_flags 0 0 lfd_init).

Lemma heartbeat_round_witness :
  exists w', heartbeat_signal 8 SERVER_INFO_INITIALISER SERVER_INFO_INITIALISER 1 net_good [] 3
               (zeros MAX_LENGTH) lfd_seen = Ret w'
    /\ delivered (lf_net w')
       = [(SERVER_INFO_INITIALISER, junk_buf (zeros MAX_LENGTH) (create_heartbeat_message_to_server 8 1));
          (SERVER_INFO_INITIALISER, report_buf 1 (zeros MAX_LENGTH) RUNNING PASSIVE_PRIMARY)].
Proof.
  destruct (heartbeat_round 8 SERVER_INFO_INITIALISER SERVER_INFO_INITIALISER 1 net_good [] 3
    (zeros MAX_LENGTH) lfd_seen (-1) (lf_response lfd_seen)) as (w' & E & _ & _ & H).
  - intros i _. by repeat split.
  - by vm_compute.
  - exists w'. split; [exact E|]. destruct H as [H _]; [by repeat split|]. exact H.
Defined.
