(* ===== verification/Tables.v ===== *)
(** What the user sees: the tables that [src/client.c] prints for the requests
    and replies and [src/local_f_detector.c] for the heartbeats. The console is
    the list of bytes written to it. *)
From S2P Require Import Prelude CLib Iface Util Console Client Lfd.

(** * Rows *)

Definition table_rule : bytes := replicate 39 "-"%char ++ [LF].
(** A label in its column, the value and the blanks behind it. *)
Definition table_row (name value : bytes) (blanks : Z) : bytes :=
  ⟦"|  "⟧ ++ pad_right 17 name ++ ⟦"| "⟧ ++ TAB :: ⟦"    "⟧ ++ value ++ spaces blanks ++ [LF].
Definition table (rows : list bytes) : bytes := table_rule ++ concat rows ++ table_rule.

(** * src/client.c *)

Section Tables.
Variable client_id : Z.

Definition head_rows (request_no_g : Z) (kind : bytes) : list bytes :=
  [table_row ⟦"Direction"⟧ ⟦"Request"⟧ 4; table_row ⟦"Request No"⟧ (fmt_d request_no_g) 7;
   table_row ⟦"Client ID"⟧ (fmt_d client_id) 6; table_row ⟦"Message type"⟧ kind 2].

Definition print_add_request_to_console (request_no_g : Z) (message : message_add) : outcome bytes :=
  t ← c_string (ma_task message);
  d ← c_string (ma_task_date message);
  Ret (table (head_rows request_no_g ⟦"MSG_ADD"⟧
    ++ [table_row ⟦"Task"⟧ t 1; table_row ⟦"Due date"⟧ d 1;
        table_row ⟦"Status"⟧ (get_task_status_str (ma_task_status message)) 1])).

Definition print_remove_request_to_console (request_no_g : Z) (message : message_remove) : outcome bytes :=
  t ← c_string (mr_task message);
  Ret (table (head_rows request_no_g ⟦"MSG_REMOVE"⟧ ++ [table_row ⟦"Key"⟧ t 1])).

Definition print_modify_request_to_console (request_no_g : Z) (message : message_modify) : outcome bytes :=
  t ← c_string (mm_task message);
  n ← c_string (mm_new_task message);
  d ← c_string (mm_new_date message);
  Ret (table (head_rows request_no_g ⟦"MSG_MODIFY"⟧
    ++ [table_row ⟦"Key"⟧ t 1; table_row ⟦"New Task"⟧ n 1; table_row ⟦"New date"⟧ d 1;
        table_row ⟦"New status"⟧ (get_task_status_str (mm_new_task_status message)) 1])).
End Tables.

Definition reply_rows (response : message_response) : list bytes :=
  [table_row ⟦"Direction"⟧ ⟦"Reply"⟧ 4; table_row ⟦"Request No"⟧ (fmt_d (resp_req_no response)) 7;
   table_row ⟦"Client ID"⟧ (fmt_d (resp_client_id response)) 6;
   table_row ⟦"Status"⟧ (resp_status response) 6].

Definition print_add_response_to_console (response : message_response) : bytes :=
  table (reply_rows response ++ [table_row ⟦"Key"⟧ (fmt_u (resp_hash_key response)) 6]).
Definition print_remove_response_to_console (response : message_response) : bytes :=
  table (reply_rows response).
Definition print_modify_response_to_console (response : message_response) : bytes :=
  table (reply_rows response).

Definition display_initial_text : bytes :=
  LF :: replicate 33 "*"%char ++ LF :: LF :: ⟦"Hello, Welcome to To Do List"⟧ ++ [LF]
  ++ ⟦"Select one option from the below list"⟧ ++ [LF; LF] ++ ⟦"1. Add new task"⟧ ++ [LF]
  ++ ⟦"2. Remove task"⟧ ++ [LF] ++ ⟦"3. Modify task"⟧ ++ [LF] ++ ⟦"4. Quit"⟧ ++ [LF; LF].

(** Never called: its only call is commented out. *)
Definition stars : bytes := LF :: replicate 43 "*"%char ++ [LF].
Definition print_task_details (task date : bytes) (status : Z) (response : message_response) : outcome bytes :=
  t ← c_string task;
  d ← c_string date;
  Ret (stars ++ ⟦"Task: "⟧ ++ t ++ [LF] ++ ⟦"Due date: "⟧ ++ d ++ [LF]
       ++ (if status =? TASK_DONE then ⟦"Task status: DONE"⟧ ++ [LF]
           else if status =? TASK_NOT_DONE then ⟦"Task status: NOT DONE"⟧ ++ [LF] else [])
       ++ ⟦"Task Key: "⟧ ++ fmt_u (resp_hash_key response) ++ [LF] ++ stars).

(** What a request of the user puts on the console, besides the prompts:
    [status] is the result of [send_and_get_response]. *)
Definition verdict (status : Z) (bad good : bytes) : bytes :=
  LF :: (if status <? 0 then bad else good) ++ [LF].
Definition handle_new_task_shows (client_id no : Z) (m : message_add) (status : Z) (r : message_response) : outcome bytes :=
  t ← print_add_request_to_console client_id no m;
  Ret (t ++ verdict status ⟦"Task not added successfully"⟧ ⟦"Task added successfully"⟧
       ++ print_add_response_to_console r).
Definition handle_remove_task_shows (client_id no : Z) (m : message_remove) (status : Z) (r : message_response) : outcome bytes :=
  t ← print_remove_request_to_console client_id no m;
  Ret (t ++ verdict status ⟦"Task not removed successfully"⟧ ⟦"Task removed successfully"⟧
       ++ print_remove_response_to_console r).
Definition handle_mod_task_shows (client_id no : Z) (m : message_modify) (status : Z) (r : message_response) : outcome bytes :=
  t ← print_modify_request_to_console client_id no m;
  Ret (t ++ verdict status ⟦"Task modify failed"⟧ ⟦"Task modified successfully"⟧
       ++ print_modify_response_to_console r).

(** * src/local_f_detector.c *)

Definition print_heartbeat_request_to_console (client_id : Z) (w : lfd) : bytes :=
  table (head_rows client_id (heartbeat_count_g w) ⟦"MSG_HEARTBEAT"⟧).

Definition print_heartbeat_response_to_console (response : message_response) (w : lfd) : bytes :=
  table (reply_rows response ++ [table_row ⟦"Server state"⟧ (get_server_state_str (resp_state response)) 6])
  ++ LF :: ⟦"Heatbeats received: "⟧ ++ fmt_d (heartbeat_received_g w) ++ ⟦"/"⟧ ++ fmt_d (heartbeat_count_g w) ++ [LF].

(** * The tables of a user's request *)

(** A handler that gets to its end has printed its tables: its request text reads
    the same strings. *)
Lemma new_task_shown client_id send no stdin status x no' rest :
  handle_new_task client_id send no stdin = Ret (status, x, no', rest) ->
  exists m text, get_inputs_for_message_add ma_zero stdin = Ret (m, rest)
    /\ handle_new_task_shows client_id no' m status (response x) = Ret text.
Proof.
  unfold handle_new_task. destruct (get_inputs_for_message_add _ _) as [[m rest']| | |] eqn:E; [|done..].
  rewrite bind_ret_l. intros Hn. apply bind_Ret_inv in Hn as (text & Et & Hn).
  apply bind_Ret_inv in Hn as (b & _ & Hn). apply bind_Ret_inv in Hn as ([s y] & _ & [= <- <- <- <-]).
  unfold create_add_message_to_server in Et. apply bind_Ret_inv in Et as (t & Et & Ed).
  apply bind_Ret_inv in Ed as (d & Ed & _). exists m. eexists. split; [done|].
  unfold handle_new_task_shows, print_add_request_to_console. rewrite Et, Ed. reflexivity.
Qed.

Lemma remove_task_shown client_id send no stdin status x no' rest :
  handle_remove_task client_id send no stdin = Ret (status, x, no', rest) ->
  exists m text, get_inputs_for_message_remove mr_zero stdin = Ret (m, rest)
    /\ handle_remove_task_shows client_id no' m status (response x) = Ret text.
Proof.
  unfold handle_remove_task. destruct (get_inputs_for_message_remove _ _) as [[m rest']| | |] eqn:E; [|done..].
  rewrite bind_ret_l. intros Hn. apply bind_Ret_inv in Hn as (text & Et & Hn).
  apply bind_Ret_inv in Hn as (b & _ & Hn). apply bind_Ret_inv in Hn as ([s y] & _ & [= <- <- <- <-]).
  unfold create_remove_message_to_server in Et. apply bind_Ret_inv in Et as (t & Et & _).
  exists m. eexists. split; [done|]. unfold handle_remove_task_shows, print_remove_request_to_console. by rewrite Et.
Qed.

Lemma mod_task_shown client_id send junk no stdin status x no' rest :
  handle_mod_task client_id send junk no stdin = Ret (status, x, no', rest) ->
  exists m text, get_inputs_for_message_modify (mm_partly_zero junk) stdin = Ret (m, rest)
    /\ handle_mod_task_shows client_id no' m status (response x) = Ret text.
Proof.
  unfold handle_mod_task. destruct (get_inputs_for_message_modify _ _) as [[m rest']| | |] eqn:E; [|done..].
  rewrite bind_ret_l. intros Hn. apply bind_Ret_inv in Hn as (text & Et & Hn).
  apply bind_Ret_inv in Hn as (b & _ & Hn). apply bind_Ret_inv in Hn as ([s y] & _ & [= <- <- <- <-]).
  unfold create_modify_message_to_server in Et. apply bind_Ret_inv in Et as (t & Et & En).
  apply bind_Ret_inv in En as (n & En & Ed). apply bind_Ret_inv in Ed as (d & Ed & _).
  exists m. eexists. split; [done|]. unfold handle_mod_task_shows, print_modify_request_to_console.
  rewrite Et, En, Ed. reflexivity.
Qed.
