(* ===== verification/Wire.v ===== *)
(** The messages of the system as lists of fields: what each sender prints, and
    what each field means to the server that reads it. *)
From S2P Require Import Prelude CLib Iface Util Request Fifo Control Db Storage Replica Server Client.
From S2P Require Import RepMgr Factory Lfd.

(** * What is printed *)

Definition head_fields (rn id : Z) (t : Z) : list (bytes * bytes) :=
  [(⟦"Request No"⟧, fmt_d rn); (⟦"Client ID"⟧, fmt_d id); (⟦"Message Type"⟧, fmt_d t)].

(** Turns a message of fields into the text its sender prints. *)
Create HintDb wire.
Ltac wire_text := unfold message, wire; autounfold with wire;
  cbn [map concat fst snd app]; unfold field_text; cbn [fst snd];
  rewrite ?app_nil_r, <- ?app_assoc; reflexivity.
#[export] Hint Unfold head_fields : wire.

Definition add_fields (rn id : Z) (task date : bytes) (st : Z) : list (bytes * bytes) :=
  head_fields rn id MSG_ADD
  ++ [(⟦"Task"⟧, task); (⟦"Task status"⟧, fmt_d st); (⟦"Due date"⟧, date)].
#[export] Hint Unfold add_fields : wire.

Lemma add_text rn m id t d : c_string (ma_task m) = Ret t -> c_string (ma_task_date m) = Ret d ->
  create_add_message_to_server rn m id = Ret (message (add_fields rn id t d (ma_task_status m))).
Proof.
  intros Ht Hd. unfold create_add_message_to_server. rewrite Ht, Hd, !bind_ret_l. f_equal. wire_text.
Qed.

Definition remove_fields (rn id : Z) (k : bytes) : list (bytes * bytes) :=
  head_fields rn id MSG_REMOVE ++ [(⟦"Key"⟧, k)].
#[export] Hint Unfold remove_fields : wire.

Lemma remove_text rn m id t : c_string (mr_task m) = Ret t ->
  create_remove_message_to_server rn m id = Ret (message (remove_fields rn id t)).
Proof. intros Ht. unfold create_remove_message_to_server. rewrite Ht, bind_ret_l. f_equal. wire_text. Qed.

Definition modify_fields (rn id flags : Z) (k n d : bytes) (st : Z) : list (bytes * bytes) :=
  head_fields rn id MSG_MODIFY
  ++ [(⟦"Flags"⟧, fmt_d flags); (⟦"Key"⟧, k); (⟦"New Task"⟧, n); (⟦"New Date"⟧, d);
      (⟦"New status"⟧, fmt_d st)].
#[export] Hint Unfold modify_fields : wire.

Lemma modify_text rn m id k n d : c_string (mm_task m) = Ret k -> c_string (mm_new_task m) = Ret n ->
  c_string (mm_new_date m) = Ret d ->
  create_modify_message_to_server rn m id
  = Ret (message (modify_fields rn id (mm_mod_flags m) k n d (mm_new_task_status m))).
Proof.
  intros Hk Hn Hd. unfold create_modify_message_to_server. rewrite Hk, Hn, Hd, !bind_ret_l.
  f_equal. wire_text.
Qed.

(** The factory's and the fault detector's messages to the server. *)
Definition server_head (id rn t : Z) : list (bytes * bytes) :=
  [(⟦"Client ID"⟧, fmt_d id); (⟦"Request No"⟧, fmt_d rn); (⟦"Message Type"⟧, fmt_d t)].
#[export] Hint Unfold server_head : wire.

Lemma head_text t : request_head t ++ CRLF = message (server_head 0 0 t).
Proof. unfold request_head. wire_text. Qed.

Lemma heartbeat_text id n :
  create_heartbeat_message_to_server id n = message (server_head id n MSG_HEARTBEAT).
Proof. unfold create_heartbeat_message_to_server. wire_text. Qed.

Definition chkpt_fields (id num size : Z) : list (bytes * bytes) :=
  [(⟦"Client ID"⟧, fmt_d id); (⟦"Request No"⟧, fmt_u num); (⟦"Message Type"⟧, fmt_d MSG_CHK_PT);
   (⟦"Data Length"⟧, fmt_u size)].
#[export] Hint Unfold chkpt_fields : wire.

Lemma chkpt_text id num size : chkpt_header id num size = message (chkpt_fields id num size).
Proof. unfold chkpt_header. wire_text. Qed.

(** The fields that describe a change of state with the two other replicas. *)
Definition state_fields (mode st freq id1 : Z) (ip1 : bytes) (port1 id2 : Z) (ip2 : bytes) (port2 : Z)
  : list (bytes * bytes) :=
  [(⟦"REP MODE"⟧, fmt_d mode); (⟦"Server State"⟧, fmt_d st); (⟦"Checkpoint freq"⟧, fmt_d freq);
   (⟦"Replica 1 ID"⟧, fmt_d id1); (⟦"Replica 1 IP"⟧, ip1); (⟦"Replica 1 Port"⟧, fmt_d port1);
   (⟦"Replica 2 ID"⟧, fmt_d id2); (⟦"Replica 2 IP"⟧, ip2); (⟦"Replica 2 Port"⟧, fmt_d port2)].
#[export] Hint Unfold state_fields : wire.

Definition factory_head (id req : Z) : list (bytes * bytes) :=
  [(⟦"Replica ID"⟧, fmt_d id); (⟦"Factory Req"⟧, fmt_d req)].
#[export] Hint Unfold factory_head : wire.

Lemma factory_req_msg id q : factory_req_text id q = message (factory_head id q).
Proof. unfold factory_req_text. wire_text. Qed.

Lemma change_state_msg id m s : change_state_text id m s
  = message (factory_head id CHANGE_STATE ++ [(⟦"REP MODE"⟧, fmt_d m); (⟦"Server State"⟧, fmt_d s)]).
Proof. unfold change_state_text. wire_text. Qed.

Definition report_fields (id st sst : Z) : list (bytes * bytes) :=
  [(⟦"Replica ID"⟧, fmt_d id); (⟦"Message Type"⟧, fmt_d st); (⟦"Server state"⟧, fmt_d sst)].
#[export] Hint Unfold report_fields : wire.

Lemma report_msg id st sst : report_text id st sst = message (report_fields id st sst).
Proof. unfold report_text. wire_text. Qed.

(** The buffers they are written in. *)
Lemma zero_buf_app s : exists rest, zero_buf s = s ++ rest.
Proof. by eexists. Qed.

(** A zeroed buffer as one piece of input. *)
Lemma zero_buf_clean s : clean [Chunk (zero_buf s)].
Proof. constructor; [|constructor]. cbn. unfold zero_buf. by destruct s. Qed.

Lemma junk_buf_app junk s : exists rest, junk_buf junk s = s ++ NUL :: rest.
Proof. exists (drop (length (s ++ [NUL])) junk). unfold junk_buf, overwrite. by rewrite <- app_assoc. Qed.

(** * Fields that survive *)

Definition num_field (k : bytes) (n : Z) : bytes * bytes := (k, fmt_d n).

(** A key of the protocol. *)
Definition key_okb (k : bytes) : bool :=
  negb (bool_decide (k = [])) && forallb key_char k && (zlen k <? 30).

Lemma field_ok_text k v : key_okb k = true -> text_ok v -> zlen v <= 2000 -> field_ok (k, v).
Proof.
  unfold key_okb. intros H Hv Hl. zbool. split; [|split; [|split]]; simpl.
  - by apply bool_decide_eq_false in H.
  - by apply forallb_Forall.
  - done.
  - unfold field_text. rewrite !zlen_app. simpl fst. simpl snd.
    change (zlen ⟦": "⟧) with 2. change (zlen CRLF) with 2.
    unfold MAXMSGSIZE, TASK_LENGTH, DATE_LENGTH. lia.
Qed.

Lemma field_ok_d k n : key_okb k = true -> LONG_MIN <= n <= LONG_MAX -> field_ok (k, fmt_d n).
Proof.
  intros H Hn. apply field_ok_text; [done|by apply fmt_d_text|]. pose proof (fmt_d_length n). lia.
Qed.

Lemma field_ok_u k n : key_okb k = true -> is_u64 n -> field_ok (k, fmt_u n).
Proof.
  intros H Hn. apply field_ok_text; [done|by apply fmt_u_text|]. pose proof (fmt_u_length n). lia.
Qed.

Lemma i32_long n : is_i32 n -> LONG_MIN <= n <= LONG_MAX.
Proof. int_lia. Qed.

(** * What the server makes of a field *)

(** Proves the meaning of one key by following the chain of comparisons. *)
Ltac kv_key := unfold kv_step, parse_pair, int_field; cbn [fst snd cn_ctx];
  repeat match goal with |- context [bytes_eqb ?a ?b] =>
    let r := eval vm_compute in (bytes_eqb a b) in change (bytes_eqb a b) with r end;
  cbv iota.

Section KvInt.
Variable c : client_ctx_t.
Variable n : Z.
Hypothesis Hn : is_i32 n.

Lemma kv_client_id : kv_step c (⟦"Client ID"⟧, fmt_d n) = Some (set_client_id n c).
Proof using Hn. kv_key. by rewrite str_to_int_fmt_d. Qed.

(** The integer fields of the request. *)
Lemma kv_int k upd :
  (forall v, kv_step c (k, v) = match str_to_int v with
             | Some z => Some (set_req (upd z (req c)) c) | None => None end) ->
  kv_step c (k, fmt_d n) = Some (set_req (upd n (req c)) c).
Proof using Hn. intros H. by rewrite H, str_to_int_fmt_d. Qed.

Ltac kv_int_key := apply kv_int; intros v; kv_key; by destruct (str_to_int v).

Lemma kv_msg_type : kv_step c (⟦"Message Type"⟧, fmt_d n) = Some (set_req (set_msg_type n (req c)) c).
Proof using Hn. kv_int_key. Qed.
Lemma kv_task_status : kv_step c (⟦"Task status"⟧, fmt_d n) = Some (set_req (set_task_status n (req c)) c).
Proof using Hn. kv_int_key. Qed.
Lemma kv_new_status : kv_step c (⟦"New status"⟧, fmt_d n) = Some (set_req (set_task_status n (req c)) c).
Proof using Hn. kv_int_key. Qed.
Lemma kv_req_no : kv_step c (⟦"Request No"⟧, fmt_d n)
  = Some (set_req (set_req_no (store_low32 (req_no (req c)) n) (req c)) c).
Proof using Hn. apply (kv_int _ (fun z r => set_req_no (store_low32 (req_no r) z) r)).
  intros v; kv_key; by destruct (str_to_int v). Qed.
Lemma kv_data_length : kv_step c (⟦"Data Length"⟧, fmt_d n)
  = Some (set_req (set_payload_size (i64 (store_low32 (payload_size (req c)) n)) (req c)) c).
Proof using Hn. apply (kv_int _ (fun z r => set_payload_size (i64 (store_low32 (payload_size r) z)) r)).
  intros v; kv_key; by destruct (str_to_int v). Qed.

Lemma kv_rm k upd :
  (forall v, kv_step c (k, v) = match str_to_int v with
             | Some z => Some (set_req (upd_rm (upd z) (req c)) c) | None => None end) ->
  kv_step c (k, fmt_d n) = Some (set_req (upd_rm (upd n) (req c)) c).
Proof using Hn. intros H. by rewrite H, str_to_int_fmt_d. Qed.

Ltac kv_rm_key u := apply (kv_rm _ u); intros v; kv_key; by destruct (str_to_int v).

Lemma kv_rep_mode : kv_step c (⟦"REP MODE"⟧, fmt_d n) = Some (set_req (upd_rm (set_rm_rep_mode n) (req c)) c).
Proof using Hn. kv_rm_key set_rm_rep_mode. Qed.
Lemma kv_server_state : kv_step c (⟦"Server State"⟧, fmt_d n)
  = Some (set_req (upd_rm (set_rm_server_state n) (req c)) c).
Proof using Hn. kv_rm_key set_rm_server_state. Qed.
Lemma kv_freq : kv_step c (⟦"Checkpoint freq"⟧, fmt_d n)
  = Some (set_req (upd_rm (set_rm_checkpoint_freq n) (req c)) c).
Proof using Hn. kv_rm_key set_rm_checkpoint_freq. Qed.
Lemma kv_id1 : kv_step c (⟦"Replica 1 ID"⟧, fmt_d n)
  = Some (set_req (upd_rm (upd_b0 (set_bs_server_id (u32 n))) (req c)) c).
Proof using Hn. kv_rm_key (fun z => upd_b0 (set_bs_server_id (u32 z))). Qed.
Lemma kv_port1 : kv_step c (⟦"Replica 1 Port"⟧, fmt_d n)
  = Some (set_req (upd_rm (upd_b0 (upd_info (set_port n))) (req c)) c).
Proof using Hn. kv_rm_key (fun z => upd_b0 (upd_info (set_port z))). Qed.
Lemma kv_id2 : kv_step c (⟦"Replica 2 ID"⟧, fmt_d n)
  = Some (set_req (upd_rm (upd_b1 (set_bs_server_id (u32 n))) (req c)) c).
Proof using Hn. kv_rm_key (fun z => upd_b1 (set_bs_server_id (u32 z))). Qed.
Lemma kv_port2 : kv_step c (⟦"Replica 2 Port"⟧, fmt_d n)
  = Some (set_req (upd_rm (upd_b1 (upd_info (set_port n))) (req c)) c).
Proof using Hn. kv_rm_key (fun z => upd_b1 (upd_info (set_port z))). Qed.
End KvInt.

Lemma kv_ip1 c v : kv_step c (⟦"Replica 1 IP"⟧, v)
  = Some (set_req (upd_rm (upd_b0 (upd_info (set_server_ip (strncpy 1024 v)))) (req c)) c).
Proof. by kv_key. Qed.
Lemma kv_ip2 c v : kv_step c (⟦"Replica 2 IP"⟧, v)
  = Some (set_req (upd_rm (upd_b1 (upd_info (set_server_ip (strncpy 1024 v)))) (req c)) c).
Proof. by kv_key. Qed.
Lemma kv_due_date c v : kv_step c (⟦"Due date"⟧, v) = Some (set_req (set_date (strncpy 32 v) (req c)) c).
Proof. by kv_key. Qed.
Lemma kv_new_date c v : kv_step c (⟦"New Date"⟧, v) = Some (set_req (set_date (strncpy 32 v) (req c)) c).
Proof. by kv_key. Qed.
Lemma kv_key_field c v : kv_step c (⟦"Key"⟧, v) = Some (set_req (set_hash_key (strtoul 10 v).1 (req c)) c).
Proof. by kv_key. Qed.
(** The server has no case for the client's flags. *)
Lemma kv_flags c v : kv_step c (⟦"Flags"⟧, v) = Some c.
Proof. by kv_key. Qed.

(** A text that fits its array is stored with zeros behind it. *)
Lemma strncpy_fits n v : zlen v <= n -> strncpy n v = v ++ zeros (n - zlen v).
Proof. intros H. unfold strncpy, ztake. rewrite take_ge; [done|]. unfold zlen in H. lia. Qed.

Lemma c_string_strncpy n v : text_ok v -> zlen v < n -> c_string (strncpy n v) = Ret v.
Proof.
  intros Hv Hl. rewrite strncpy_fits by lia. unfold zeros.
  destruct (Z.to_nat (n - zlen v)) as [|k] eqn:E; [lia|]. simpl.
  apply c_string_app_nul. by apply text_ok_nul_free.
Qed.

Definition set_task_text (v : bytes) (r : client_request_t) : client_request_t :=
  set_task_len (zlen v) (set_task (strncpy 1024 v) r).

Lemma store_task_ok v r : text_ok v -> zlen v < 1024 -> store_task v r = Ret (set_task_text v r).
Proof. intros Hv Hl. unfold store_task. by rewrite c_string_strncpy. Qed.

Lemma kv_task c v : text_ok v -> zlen v < 1024 ->
  kv_step c (⟦"Task"⟧, v) = Some (set_req (set_task_text v (req c)) c).
Proof.
  intros Hv Hl. kv_key. by rewrite store_task_ok.
Qed.
Lemma kv_new_task c v : text_ok v -> zlen v < 1024 ->
  kv_step c (⟦"New Task"⟧, v) = Some (set_req (set_task_text v (req c)) c).
Proof.
  intros Hv Hl. kv_key. by rewrite store_task_ok.
Qed.

(** Runs the fields of a message through the server. *)
Ltac kv_run := autounfold with wire; cbn [app fold_fields];
  repeat (first
    [ rewrite kv_client_id by (done || int_lia) | rewrite kv_msg_type by (done || int_lia)
    | rewrite kv_task_status by (done || int_lia) | rewrite kv_new_status by (done || int_lia)
    | rewrite kv_req_no by (done || int_lia) | rewrite kv_data_length by (done || int_lia)
    | rewrite kv_rep_mode by (done || int_lia) | rewrite kv_server_state by (done || int_lia)
    | rewrite kv_freq by (done || int_lia)
    | rewrite kv_id1 by (done || int_lia) | rewrite kv_port1 by (done || int_lia)
    | rewrite kv_id2 by (done || int_lia) | rewrite kv_port2 by (done || int_lia)
    | rewrite kv_ip1 | rewrite kv_ip2 | rewrite kv_due_date | rewrite kv_new_date
    | rewrite kv_key_field | rewrite kv_flags
    | rewrite kv_task by done | rewrite kv_new_task by done ]; cbv iota; cbn [fold_fields]).

(** * Requests of the client *)

Record field_text_ok (n : Z) (v : bytes) : Prop := {
  ft_text : text_ok v;
  ft_len : zlen v < n
}.

(** What a request becomes in the server: everything a message does not name
    keeps its initial value. *)
Definition request_ctx (fd id : Z) (r : client_request_t) : client_ctx_t :=
  {| cc_fd := fd; client_id := id; req := r; is_backlog := false |}.

Definition add_req (rn : Z) (t d : bytes) (st : Z) : client_request_t :=
  {| msg_type := MSG_ADD; task := strncpy 1024 t; date := strncpy 32 d; task_status := st;
     mod_flags := 0; task_len := zlen t; hash_key := 0; req_no := store_low32 0 rn;
     payload_data := []; payload_size := 0; filename := zeros 1024;
     rep_mgr_msg := REP_MGR_MSG_INITIALISER |}.
Definition remove_req (rn : Z) (k : bytes) : client_request_t :=
  {| msg_type := MSG_REMOVE; task := zeros 1024; date := zeros 32; task_status := 0;
     mod_flags := 0; task_len := 0; hash_key := (strtoul 10 k).1; req_no := store_low32 0 rn;
     payload_data := []; payload_size := 0; filename := zeros 1024;
     rep_mgr_msg := REP_MGR_MSG_INITIALISER |}.
Definition modify_req (rn : Z) (k n d : bytes) (st : Z) : client_request_t :=
  {| msg_type := MSG_MODIFY; task := strncpy 1024 n; date := strncpy 32 d; task_status := st;
     mod_flags := 0; task_len := zlen n; hash_key := (strtoul 10 k).1; req_no := store_low32 0 rn;
     payload_data := []; payload_size := 0; filename := zeros 1024;
     rep_mgr_msg := REP_MGR_MSG_INITIALISER |}.

Section Requests.
Variables fd rn id : Z.
Hypothesis Hrn : is_i32 rn.
Hypothesis Hid : is_i32 id.

Lemma add_fold t d st : field_text_ok 1024 t -> is_i32 st ->
  fold_fields kv_step (set_cc_fd fd init_client_ctx) (add_fields rn id t d st)
  = Some (request_ctx fd id (add_req rn t d st)).
Proof using Hrn Hid. intros [Ht Htl] Hst. kv_run. done. Qed.

Lemma remove_fold k :
  fold_fields kv_step (set_cc_fd fd init_client_ctx) (remove_fields rn id k)
  = Some (request_ctx fd id (remove_req rn k)).
Proof using Hrn Hid. kv_run. done. Qed.

Lemma modify_fold fl k n d st : field_text_ok 1024 n -> is_i32 st ->
  fold_fields kv_step (set_cc_fd fd init_client_ctx) (modify_fields rn id fl k n d st)
  = Some (request_ctx fd id (modify_req rn k n d st)).
Proof using Hrn Hid. intros [Hn Hnl] Hst. kv_run. done. Qed.
End Requests.

(** ** Through the buffer and the connection *)

Definition fields_len (l : list (bytes * bytes)) : Z :=
  foldr (fun kv n => zlen kv.1 + zlen kv.2 + 4 + n) 2 l.

Lemma message_len l : zlen (message l) = fields_len l.
Proof.
  unfold message. rewrite zlen_app. change (zlen CRLF) with 2. induction l as [|kv l IH]; [done|].
  unfold wire in *. cbn [map concat fields_len foldr]. rewrite zlen_app. fold (fields_len l).
  unfold field_text at 1. rewrite !zlen_app. change (zlen ⟦": "⟧) with 2. change (zlen CRLF) with 2. lia.
Qed.

(** Bounds the length of a message whose values are bounded. *)
Ltac fields_short := rewrite message_len; autounfold with wire; cbn [app fields_len foldr fst snd];
  repeat match goal with |- context [zlen (String.list_ascii_of_string ?s)] =>
    let n := eval vm_compute in (zlen (String.list_ascii_of_string s)) in
    change (zlen (String.list_ascii_of_string s)) with n end;
  repeat match goal with |- context [zlen (fmt_d ?n)] =>
    let H := fresh in pose proof (fmt_d_length n) as H; revert H; generalize (zlen (fmt_d n)) end;
  repeat match goal with |- context [zlen (fmt_u ?n)] =>
    let H := fresh in pose proof (fmt_u_length n) as H; revert H; generalize (zlen (fmt_u n)) end;
  intros; unfold MAX_LENGTH; lia.

Ltac fields_ok := autounfold with wire; cbn [app]; repeat apply Forall_cons_2; try apply Forall_nil_2;
  first [ apply field_ok_d; [done|first [by split | int_lia]] | apply field_ok_u; [done|int_lia]
        | apply field_ok_text; [done|assumption|lia] | idtac ].

Lemma sprintf_message l : zlen (message l) < MAX_LENGTH ->
  sprintf_zero (message l) = Ret (zero_buf (message l)).
Proof. intros H. unfold sprintf_zero. by rewrite (proj2 (Z.ltb_lt _ _) H). Qed.

Section Logged.
Context {Q : Type} `{FifoLog Q client_ctx_t}.
Variables server_id rand : Z.
Variable malloc_bytes : Z -> bool.
Variable can_create : bytes -> bool.

(** The connection thread on a whole message without payload: the request is
    logged, and closed only in the states that answer nobody. *)
Lemma message_taken fuel fd input fields rest c (w : replica Q) a :
  clean input -> stream input = message fields ++ rest -> Forall field_ok fields ->
  zlen fields <= MAX_REQ_FIELDS -> 
  fold_fields kv_step (set_cc_fd fd init_client_ctx) fields = Some c -> payload_size (req c) = 0 ->
  is_quiesce (msg_type (req c)) = false -> lq_rep (r_log w) a -> has_room c a = true ->
  exists w', handle_connection server_id rand malloc_bytes can_create fuel fd input w = Ret (0, w')
    /\ lq_rep (r_log w') (logged (r_ctl w) c a)
    /\ r_ctl w' = r_ctl w /\ r_db w' = r_db w /\ sent w' = sent w
    /\ is_prune w' = (if prunes (r_ctl w) c then 1 else is_prune w)
    /\ closed w' = closed w ++ (if closes_early (r_ctl w) (msg_type (req c)) then [cc_fd c] else []).
Proof.
  intros Hc Hs Hf Hn Hfold Hp Hq Hr Hroom.
  destruct (handle_connection_fields server_id rand malloc_bytes can_create fuel fd input fields rest c w)
    as (cfg & sb & _ & _ & E); try done.
  rewrite E, read_payload_none, bind_ret_l by done. cbv beta iota.
  destruct (dispatch_spec c (set_config_done cfg w) a Hr Hq) as (w' & Hd & H1 & H2 & H3 & H4 & H5 & H6).
  rewrite Hroom in *. by exists w'.
Qed.

Lemma message_logged fuel fd input fields rest c (w : replica Q) a :
  clean input -> stream input = message fields ++ rest -> Forall field_ok fields ->
  zlen fields <= MAX_REQ_FIELDS -> 
  fold_fields kv_step (set_cc_fd fd init_client_ctx) fields = Some c -> payload_size (req c) = 0 ->
  is_quiesce (msg_type (req c)) = false -> lq_rep (r_log w) a -> has_room c a = true ->
  exists w', handle_connection server_id rand malloc_bytes can_create fuel fd input w = Ret (0, w')
    /\ lq_rep (r_log w') (logged (r_ctl w) c a)
    /\ r_ctl w' = r_ctl w /\ r_db w' = r_db w /\ sent w' = sent w.
Proof.
  intros Hc Hs Hf Hn Hfold Hp Hq Hr Hroom.
  destruct (message_taken fuel fd input fields rest c w a) as (w' & H1 & H2 & H3 & H4 & H5 & _); try done.
  by exists w'.
Qed.
End Logged.

(** The three kinds of request, what the client prints for them, and the
    request their texts stand for. *)
Inductive client_msg :=
  | CAdd (m : message_add)
  | CRemove (m : message_remove)
  | CModify (m : message_modify).

Definition client_text (rn id : Z) (cm : client_msg) : outcome bytes :=
  match cm with
  | CAdd m => create_add_message_to_server rn m id
  | CRemove m => create_remove_message_to_server rn m id
  | CModify m => create_modify_message_to_server rn m id
  end.

Inductive says (rn : Z) : client_msg -> client_request_t -> Prop :=
  | says_add m t d : c_string (ma_task m) = Ret t -> c_string (ma_task_date m) = Ret d ->
      field_text_ok 1024 t -> field_text_ok 32 d -> is_i32 (ma_task_status m) ->
      says rn (CAdd m) (add_req rn t d (ma_task_status m))
  | says_remove m k : c_string (mr_task m) = Ret k -> field_text_ok 1024 k ->
      says rn (CRemove m) (remove_req rn k)
  | says_modify m k n d : c_string (mm_task m) = Ret k -> c_string (mm_new_task m) = Ret n ->
      c_string (mm_new_date m) = Ret d -> field_text_ok 1024 k -> field_text_ok 1024 n ->
      field_text_ok 32 d -> is_i32 (mm_new_task_status m) -> is_i32 (mm_mod_flags m) ->
      says rn (CModify m) (modify_req rn k n d (mm_new_task_status m)).

Lemma says_fields rn id cm r fd : says rn cm r -> is_i32 rn -> is_i32 id ->
  exists fields, client_text rn id cm = Ret (message fields) /\ Forall field_ok fields
    /\ zlen fields <= MAX_REQ_FIELDS /\ zlen (message fields) < MAX_LENGTH
    /\ fold_fields kv_step (set_cc_fd fd init_client_ctx) fields = Some (request_ctx fd id r).
Proof.
  intros [m t d Et Ed Ht Hd Hst|m k Ek Hk|m k n d Ek En Ed Hk Hn Hd Hst Hfl] Hrn Hid.
  - exists (add_fields rn id t d (ma_task_status m)). split; [by apply add_text|].
    split; [|split; [done|split; [|by apply add_fold]]].
    + destruct Ht, Hd. fields_ok.
    + destruct Ht, Hd. fields_short.
  - exists (remove_fields rn id k). split; [by apply remove_text|].
    split; [|split; [done|split; [|by apply remove_fold]]].
    + destruct Hk. fields_ok.
    + destruct Hk. fields_short.
  - exists (modify_fields rn id (mm_mod_flags m) k n d (mm_new_task_status m)).
    split; [by apply modify_text|]. split; [|split; [done|split; [|by apply modify_fold]]].
    + destruct Hk, Hn, Hd. fields_ok.
    + destruct Hk, Hn, Hd. fields_short.
Qed.

(** A request of a client reaches the log of a replica as the user made it.
    The client's text fits its buffer; whatever way the network cuts the 8192
    bytes of that buffer, the replica logs one request with the client's id,
    the request number, the type, and the task, date, status and key the user
    gave, with nothing else set; the flags of a modification are not
    transmitted into the request. *)
Theorem client_request_logged {Q} `{FifoLog Q client_ctx_t} server_id rand mb cc fuel fd rn id cm r
    (w : replica Q) a :
  says rn cm r -> is_i32 rn -> is_i32 id -> lq_rep (r_log w) a ->
  has_room (request_ctx fd id r) a = true ->
  exists buf, (text ← client_text rn id cm; sprintf_zero text) = Ret buf
    /\ forall input, clean input -> stream input = buf ->
       exists w', handle_connection server_id rand mb cc fuel fd input w = Ret (0, w')
         /\ lq_rep (r_log w') (logged (r_ctl w) (request_ctx fd id r) a)
         /\ r_ctl w' = r_ctl w /\ r_db w' = r_db w /\ sent w' = sent w.
Proof.
  intros Hs Hrn Hid Ha Hroom.
  destruct (says_fields rn id cm r fd Hs Hrn Hid) as (fields & -> & Hf & Hn & Hl & Hfold).
  rewrite bind_ret_l, sprintf_message by done. eexists. split; [done|]. intros input Hc Hst.
  destruct (zero_buf_app (message fields)) as [rest Hrest]. rewrite Hrest in Hst.
  eapply message_logged; try done; by destruct Hs.
Qed.

Definition demo_add : message_add :=
  {| ma_task := overwrite ⟦"buy: milk"⟧ (zeros 1024); ma_task_date := overwrite ⟦"monday"⟧ (zeros 32);
     ma_task_status := TASK_NOT_DONE |}.

Lemma demo_says : says 7 (CAdd demo_add) (add_req 7 ⟦"buy: milk"⟧ ⟦"monday"⟧ TASK_NOT_DONE).
Proof. by apply (says_add 7 demo_add); [..|split; [apply (bool_decide_unpack _)|]|split; [apply (bool_decide_unpack _)|]|]. Qed.

Lemma client_request_logged_witness :
  exists buf, (text ← create_add_message_to_server 7 demo_add 3; sprintf_zero text) = Ret buf
    /\ exists w', handle_connection 1 0 (fun _ => true) (fun _ => true) 1 9 [Chunk buf]
                    (replica_init demo_log) = Ret (0, w').
Proof.
  destruct (client_request_logged 1 0 (fun _ => true) (fun _ => true) 1 9 7 3 (CAdd demo_add)
    (add_req 7 ⟦"buy: milk"⟧ ⟦"monday"⟧ TASK_NOT_DONE) (replica_init demo_log) (abs_init 50 50))
    as (buf & E & H).
  - exact demo_says.
  - done.
  - done.
  - apply MsgLog.log_rep_init.
  - done.
  - exists buf. split; [exact E|]. destruct (H [Chunk buf]) as (w' & E' & _).
    + apply Forall_cons_2; [|apply Forall_nil_2]. intros ->. vm_compute in E. discriminate E.
    + apply app_nil_r.
    + by exists w'.
Defined.
