(* ===== verification/Transfer.v ===== *)
(** A checkpoint on its way: from the table of the primary through
    [send_checkpoint_ondemand] and the connection thread of a backup into the
    backup's table. *)
From stdpp Require Import strings.
From S2P Require Import Prelude CLib Iface Util Request Fifo Control Db Storage Replica Server RepMgr Wire.

(** * The sender *)

Section Sender.
Context {Q : Type}.
Variable status_ptr : Z -> Z.
Variable pid : Z.
Variable can_create : bytes -> bool.
Variable server_id : Z.
Variable env : nat -> net_step.
Variable junk : bytes.
Hypothesis Henv : reach env.

(** All blocks of the file are written. *)
Lemma copy_all fuel : forall content acc calls, (length content < fuel)%nat ->
  exists calls', copy_loop env fuel content acc calls = Ret (acc ++ content, calls').
Proof using Henv.
  induction fuel as [|f IH]; intros content acc calls Hl; [lia|]. cbn [copy_loop].
  destruct content as [|x t] eqn:E; [exists calls; by rewrite app_nil_r|].
  rewrite <- E in *. assert (content <> []) as Hne by by rewrite E.
  assert (0 < length (ztake MAX_LENGTH content))%nat as Hpos.
  { assert (0 < length content)%nat by (rewrite E; cbn [length]; lia).
    unfold ztake, MAX_LENGTH. rewrite length_take. lia. }
  destruct (ztake MAX_LENGTH content) as [|y b] eqn:Eb; [cbn [length] in Hpos; lia|].
  rewrite <- Eb in *. clear E Eb.
  destruct (Henv calls) as (_ & _ & Hw). rewrite (proj2 (Z.ltb_ge _ _) Hw).
  destruct (IH (zdrop MAX_LENGTH content) (acc ++ ztake MAX_LENGTH content) (S calls)) as (c' & E').
  { unfold ztake, zdrop, MAX_LENGTH in *. rewrite length_drop, length_take in *. lia. }
  exists c'. rewrite E', <- app_assoc. unfold ztake, zdrop. by rewrite take_drop.
Qed.

(** The bytes a backup receives. *)
Definition chkpt_bytes (num : Z) (content : bytes) : bytes :=
  chkpt_header server_id num (zlen content) ++ content.

Lemma write_check_point_up b name content (w : replica Q) text :
  files (r_db w) !! name = Some content -> print_state_internal (r_db w) = Ret text ->
  exists n, write_check_point server_id env b name w = Ret (0, set_net_out
    {| attempts := n;
       delivered := delivered (net_out w) ++ [(bs_info b, chkpt_bytes (chk_point_num w) content)] |} w).
Proof using Henv.
  intros Hf Hp. unfold write_check_point. rewrite Hf, Hp, bind_ret_l. cbv zeta.
  destruct (Henv (attempts (net_out w))) as (_ & _ & Hw). rewrite (proj2 (Z.ltb_ge _ _) Hw).
  destruct (copy_all (S (length content)) content
    (chkpt_header server_id (chk_point_num w) (get_file_size (Some content))) (S (attempts (net_out w))))
    as (n & ->); [lia|]. rewrite bind_ret_l. by exists n.
Qed.

Lemma send_to_up b name content (w : replica Q) text :
  0 <= bs_fd b -> files (r_db w) !! name = Some content -> print_state_internal (r_db w) = Ret text ->
  exists w', send_to server_id env b name w = Ret w' /\ r_ctl w' = r_ctl w /\ r_db w' = r_db w
    /\ r_log w' = r_log w /\ chk_point_num w' = chk_point_num w /\ is_prune w' = is_prune w /\ closed w' = closed w ++ [bs_fd b]
    /\ delivered (net_out w') = delivered (net_out w) ++ [(bs_info b, chkpt_bytes (chk_point_num w) content)].
Proof using Henv.
  intros Hfd Hf Hp. unfold send_to. rewrite (proj2 (Z.leb_le _ _) Hfd).
  destruct (write_check_point_up b name content w text Hf Hp) as (n & ->). rewrite bind_ret_l.
  by eexists.
Qed.
End Sender.

Lemma print_state_data s s' : data s = data s' -> print_state_internal s = print_state_internal s'.
Proof. unfold print_state_internal. by intros ->. Qed.

Lemma node_text_nul l : Forall node_text l -> Forall (fun d => has_nul (raw_data d) = true) l.
Proof. intros H. eapply Forall_impl; [exact H|]. by intros d [_ ? _ _]. Qed.

Lemma print_state_total s : Forall (fun d => has_nul (raw_data d) = true) (concat (data s)) ->
  exists t, print_state_internal s = Ret t.
Proof.
  intros H. destruct (print_nodes_total _ H) as (t & E). unfold print_state_internal. rewrite E, bind_ret_l.
  by eexists.
Qed.

(** A round of the sender over a working network. *)
Lemma send_checkpoint_up {Q} status_ptr pid can_create server_id env junk (p : replica Q) text :
  reach env -> can_create (export_name pid (r_db p)) = true ->
  export_nodes status_ptr (concat (data (r_db p))) = Ret text ->
  Forall node_text (concat (data (r_db p))) ->
  let content := text ++ ⟦"FILE_END"⟧ ++ [LF] in
  exists p', send_checkpoint_ondemand status_ptr pid can_create server_id env junk p = Ret p'
    /\ data (r_db p') = data (r_db p) /\ r_log p' = r_log p
    /\ chk_point_num p' = u64 (chk_point_num p + 1)
    /\ (exists b0 b1, r_ctl p' = set_bckup_servers b0 b1 (r_ctl p)) /\ is_prune p' = is_prune p
    /\ (db_wf (r_db p) -> db_wf (r_db p'))
    /\ (exists f0 f1, 0 <= f0 /\ 0 <= f1 /\ closed p' = closed p ++ [f0; f1])
    /\ delivered (net_out p') = delivered (net_out p)
         ++ [(bs_info (bckup_svr_0 (r_ctl p)), chkpt_bytes server_id (chk_point_num p) content);
             (bs_info (bckup_svr_1 (r_ctl p)), chkpt_bytes server_id (chk_point_num p) content)].
Proof.
  intros Henv Hcan Hexp Hnt content. unfold send_checkpoint_ondemand.
  set (p1 := open_ports_secondary env p).
  assert (r_db p1 = r_db p /\ r_log p1 = r_log p /\ chk_point_num p1 = chk_point_num p
    /\ closed p1 = closed p /\ delivered (net_out p1) = delivered (net_out p)
    /\ bs_info (bckup_svr_0 (r_ctl p1)) = bs_info (bckup_svr_0 (r_ctl p))
    /\ bs_info (bckup_svr_1 (r_ctl p1)) = bs_info (bckup_svr_1 (r_ctl p))
    /\ (exists b0 b1, r_ctl p1 = set_bckup_servers b0 b1 (r_ctl p)) /\ is_prune p1 = is_prune p
    /\ 0 <= bs_fd (bckup_svr_0 (r_ctl p1)) /\ 0 <= bs_fd (bckup_svr_1 (r_ctl p1)))
    as (P1 & P2 & P3 & P4 & P5 & P6 & P7 & P8 & P9 & F0 & F1).
  { unfold p1, open_ports_secondary, open_port. cbn. do 7 (split; [done|]). split; [by eexists _, _|].
    split; [done|]. unfold connect_to_server.
    destruct (Henv (attempts (net_out p))) as (-> & ? & _).
    by destruct (Henv (S (attempts (net_out p)))) as (-> & ? & _). }
  clearbody p1. unfold export_db, export_db_internal. rewrite P1, Hcan, Hexp. cbn [negb].
  rewrite !bind_ret_l. cbv beta iota zeta. rewrite ?bind_ret_l.
  set (name := export_name pid (r_db p)). set (d := upd_files _ _ _).
  assert (files d !! name = Some content) as Hf by apply lookup_insert_eq.
  assert (exists t, print_state_internal d = Ret t) as (t & Ht)
    by (apply print_state_total, node_text_nul; exact Hnt).
  set (p2 := set_r_db d p1).
  destruct (send_to_up server_id env Henv (bckup_svr_0 (r_ctl p2)) name content p2 t)
    as (p3 & E3 & K3 & D3 & L3 & C3 & R3 & X3 & N3); [exact F0|exact Hf|exact Ht|].
  rewrite E3, bind_ret_l, K3.
  destruct (send_to_up server_id env Henv (bckup_svr_1 (r_ctl p2)) name content p3 t)
    as (p4 & E4 & K4 & D4 & L4 & C4 & R4 & X4 & N4); [exact F1|by rewrite D3|by rewrite D3|].
  rewrite E4, bind_ret_l. eexists. split; [done|]. cbn [r_db r_log chk_point_num r_ctl closed net_out is_prune set_chk_point_num].
  rewrite D4, L4, K4, C4, R4, X4, N4, D3, L3, K3, C3, R3, X3, N3. unfold p2.
  cbn [r_db r_log chk_point_num r_ctl closed net_out is_prune set_r_db data upd_files d].
  rewrite P2, P3, P4, P5, P6, P7, P9. do 3 (split; [done|]). split; [exact P8|]. split; [done|].
  split; [by intros [H1 H2 H3]|].
  rewrite <- !app_assoc.
  split; [|done]. eexists _, _. split; [exact F0|]. split; [exact F1|done].
Qed.

(** * The receiver *)

Lemma fmt_u_d n : 0 <= n -> fmt_u n = fmt_d n.
Proof. intros H. unfold fmt_d. by rewrite (proj2 (Z.ltb_ge n 0)) by lia. Qed.

Definition chkpt_req (num size : Z) : client_request_t :=
  set_payload_size size (set_req_no (store_low32 0 num) (set_msg_type MSG_CHK_PT CLIENT_REQUEST_INITIALISER)).

Lemma chkpt_fold fd server_id num size : is_i32 server_id -> 0 <= num <= INT_MAX -> 0 <= size <= INT_MAX ->
  fold_fields kv_step (set_cc_fd fd init_client_ctx) (chkpt_fields server_id num size)
  = Some (request_ctx fd server_id (chkpt_req num size)).
Proof.
  intros Hid Hn Hs. unfold chkpt_fields. rewrite !fmt_u_d by lia. kv_run.
  assert (i64 (store_low32 0 size) = size) as E by (rewrite store_low32_small by done; int_lia).
  exact (f_equal (fun z => Some (request_ctx fd server_id (set_payload_size z
    (set_req_no (store_low32 0 num) (set_msg_type MSG_CHK_PT CLIENT_REQUEST_INITIALISER))))) E).
Qed.

Lemma payload_name_text rand server_id : text_ok (payload_name rand server_id)
  /\ zlen (payload_name rand server_id) < 1024.
Proof.
  unfold payload_name. set (n := u32 (rand * server_id)). assert (is_u64 n) as Hn by (unfold n; int_lia).
  pose proof (fmt_u_length n) as Hl. destruct (fmt_u_text n Hn) as [Ht _].
  assert (ztake 63 (⟦"tmp-"⟧ ++ fmt_u n) = ⟦"tmp-"⟧ ++ fmt_u n) as ->.
  { unfold ztake. apply take_ge. rewrite length_app. unfold zlen in Hl. cbn [length list_ascii_of_string]. lia. }
  split; [|rewrite zlen_app; change (zlen ⟦"tmp-"⟧) with 4; lia].
  split; [|done]. apply Forall_app. split; [by repeat constructor|done].
Qed.

Section Receiver.
Variable malloc : nat -> option data_point.
Variable sha1 : bytes -> option bytes.
Hypothesis malloc_zero : forall n, exists d, malloc n = Some d /\ zlen (raw_data d) = MAX_DATA_LEN
  /\ last (raw_data d) = Some NUL.

Lemma malloc_sized n : exists d, malloc n = Some d /\ zlen (raw_data d) = MAX_DATA_LEN.
Proof using malloc_zero. destruct (malloc_zero n) as (d & H1 & H2 & _). by exists d. Qed.

(** The imported table can be printed. *)
Lemma imported_prints s r : s ≡ r -> Forall node_text (concat (data s)) ->
  Forall (Forall ends_zero) (data r) -> exists t, print_state_internal r = Ret t.
Proof.
  intros Heq Hnt Hez. apply print_state_total. apply Forall_concat in Hnt. apply Forall_concat.
  apply Forall_lookup. intros i l Hl. rewrite Forall_lookup in Hez. specialize (Hez i l Hl).
  unfold equiv, db_equiv in Heq. destruct (Forall2_lookup_r _ _ _ _ _ Heq Hl) as (k & Hk & Hkl).
  rewrite Forall_lookup in Hnt. specialize (Hnt i k Hk). apply Forall_lookup. intros j d Hd.
  destruct (Forall2_lookup_r _ _ _ _ _ Hkl Hd) as (e & He & (_ & Hlen & _)).
  rewrite Forall_lookup in Hnt. destruct (Hnt j e He) as [_ _ Hs Hle].
  rewrite Forall_lookup in Hez. destruct (Hez j d Hd) as [_ Hlast].
  apply has_nul_last, Hlast. unfold MAX_DATA_LEN. lia.
Qed.

(** Executing the logged checkpoint. *)
Lemma apply_checkpoint status_ptr fuel s fd id num rand server_id text b (d : db) :
  (forall z, is_i32 (status_ptr z)) -> db_wf s -> Forall node_text (concat (data s)) ->
  export_nodes status_ptr (concat (data s)) = Ret text ->
  let content := text ++ ⟦"FILE_END"⟧ ++ [LF] in
  let name := payload_name rand server_id in
  files d !! name = Some content ->
  exists d', handle_storage malloc sha1 fuel
      (set_is_backlog b (with_payload name content (request_ctx fd id (chkpt_req num (zlen content))))) d
    = Ret (0, set_is_backlog b (with_payload name content (request_ctx fd id (chkpt_req num (zlen content)))), d')
    /\ db_wf d' /\ s ≡ d' /\ data_size d' = data_size s /\ files d' !! name = None.
Proof using malloc_zero.
  intros Hst Hw Hnt Hexp content name Hf.
  destruct (import_file malloc status_ptr s malloc_sized Hst Hw Hnt) as (text' & Et & Hi).
  assert (text' = text) as -> by congruence.
  destruct (Hi d name Hf) as (r & Er & Hwr & Heq & Hsz & f & Eloop).
  set (c := set_is_backlog b _). unfold handle_storage. cbv zeta.
  assert (msg_type (req c) = MSG_CHK_PT) as -> by done.
  change (MSG_CHK_PT =? MSG_ADD) with false. change (MSG_CHK_PT =? MSG_MODIFY) with false.
  change (MSG_CHK_PT =? MSG_REMOVE) with false. change (MSG_CHK_PT =? MSG_GET_ALL) with false.
  change ((MSG_CHK_PT =? INVALID) || (MSG_CHK_PT =? MSG_HEARTBEAT)) with false.
  change (MSG_CHK_PT =? MSG_CHK_PT) with true. cbv iota.
  assert (c_string (filename (req c)) = Ret name) as ->.
  { unfold c, with_payload. cbn [req set_is_backlog set_req filename set_filename].
    destruct (payload_name_text rand server_id). by apply c_string_strncpy. }
  rewrite bind_ret_l. unfold import_db. rewrite Er, !bind_ret_l. cbv beta iota zeta.
  rewrite ?bind_ret_l. destruct (imported_prints s r Heq Hnt) as (t & Ht).
  { eapply (import_ends_zero malloc malloc_zero); [| |exact Eloop]; [done|].
    cbn. unfold empty_table. by apply Forall_replicate. }
  assert (print_state_internal (remove_file name r) = Ret t) as -> by by rewrite <- Ht.
  rewrite bind_ret_l. eexists. split; [done|]. split; [|split; [exact Heq|split; [exact Hsz|]]].
  - by destruct Hwr.
  - apply lookup_delete_eq.
Qed.
End Receiver.

(** The request a checkpoint is logged as. *)
Definition chkpt_ctx (fd id num bid rand : Z) (content : bytes) : client_ctx_t :=
  with_payload (payload_name rand bid) content (request_ctx fd id (chkpt_req num (zlen content))).

(** A checkpoint arrives: its file is stored and it is logged. *)
Lemma checkpoint_logged {Q} `{FifoLog Q client_ctx_t} id num content bid rand mb cc fuel fd input (w : replica Q) a :
  is_i32 id -> 0 <= num <= INT_MAX -> 0 < zlen content <= INT_MAX ->
  clean input -> stream input = chkpt_bytes id num content -> zlen (chkpt_bytes id num content) <= Z.of_nat fuel ->
  (forall n, mb n = true) -> cc (payload_name rand bid) = true ->
  lq_rep (r_log w) a -> zlen (msgs NORMAL a) < limit NORMAL a ->
  exists w', handle_connection bid rand mb cc fuel fd input w = Ret (0, w')
    /\ lq_rep (r_log w') (set_msgs NORMAL (msgs NORMAL a
         ++ [set_is_backlog (arrives_as_backlog (r_ctl w)) (chkpt_ctx fd id num bid rand content)]) a)
    /\ is_prune w' = (if arrives_as_backlog (r_ctl w) then 1 else is_prune w)
    /\ r_ctl w' = r_ctl w /\ r_db w' = store_file (payload_name rand bid) content (r_db w).
Proof.
  intros Hid Hnum Hlen Hcl Hs Hf Hmb Hcc Ha Hroom. unfold chkpt_bytes in Hs, Hf. rewrite chkpt_text in Hs, Hf.
  assert (zlen content <= Z.of_nat fuel) as Hfuel.
  { rewrite zlen_app in Hf. pose proof (zlen_nonneg (message (chkpt_fields id num (zlen content)))). lia. }
  set (c0 := request_ctx fd id (chkpt_req num (zlen content))).
  destruct (handle_connection_fields bid rand mb cc fuel fd input (chkpt_fields id num (zlen content)) content c0 w)
    as (cfg & sb & Hsb & Hp & E1).
  { done. } { done. } { fields_ok. } { done. } { apply chkpt_fold; [done|done|lia]. }
  rewrite E1, (read_payload_ok bid rand mb cc fuel sb c0 content []), bind_ret_l
    by first [done | by rewrite app_nil_r | apply Hmb].
  cbv beta iota. set (w1 := set_r_db _ _).
  destruct (dispatch_spec (chkpt_ctx fd id num bid rand content) w1 a Ha eq_refl) as (w' & Hd & L & K & B & _ & P & _).
  assert (has_room (chkpt_ctx fd id num bid rand content) a = true) as Hr1 by by apply Z.ltb_lt. rewrite Hr1 in *.
  exists w'. split; [exact Hd|]. split; [exact L|]. split; [exact P|]. split; [exact K|exact B].
Qed.

(** C11: a checkpoint moves the table of the primary to a backup. Over a working
    network the primary exports its table, without changing it, and hands the
    same bytes to both backups under the next checkpoint number. Whatever way
    the network cuts these bytes, the connection thread of a backup with room in
    its log returns 0 and appends one request to its normal queue; a passive
    backup raises the pruning flag; and executing that request turns any table
    of the backup into one equivalent to the primary's, of the same total size.
    (Provided the last byte of the memory [malloc] hands out is zero: the
    printing that follows the import reads the strings up to their NUL, which
    the import does not write.) *)
Theorem checkpoint_transfer {Q Q'} `{FifoLog Q' client_ctx_t} status_ptr pid can_create server_id env junk
    (p : replica Q) malloc sha1 :
  reach env -> can_create (export_name pid (r_db p)) = true -> (forall z, is_i32 (status_ptr z)) ->
  (forall n, exists d, malloc n = Some d /\ zlen (raw_data d) = MAX_DATA_LEN /\ last (raw_data d) = Some NUL) ->
  db_wf (r_db p) -> Forall node_text (concat (data (r_db p))) ->
  0 <= chk_point_num p <= INT_MAX -> is_i32 server_id ->
  (forall text, export_nodes status_ptr (concat (data (r_db p))) = Ret text -> zlen text + 9 <= INT_MAX) ->
  exists bytes p', send_checkpoint_ondemand status_ptr pid can_create server_id env junk p = Ret p'
    /\ delivered (net_out p') = delivered (net_out p)
         ++ [(bs_info (bckup_svr_0 (r_ctl p)), bytes); (bs_info (bckup_svr_1 (r_ctl p)), bytes)]
    /\ data (r_db p') = data (r_db p) /\ chk_point_num p' = chk_point_num p + 1
    /\ forall bid rand mb cc fuel fd input (w : replica Q') a,
       clean input -> stream input = bytes -> zlen bytes <= Z.of_nat fuel -> (forall n, mb n = true) ->
       cc (payload_name rand bid) = true -> lq_rep (r_log w) a -> zlen (msgs NORMAL a) < limit NORMAL a ->
       exists w' c, handle_connection bid rand mb cc fuel fd input w = Ret (0, w')
         /\ lq_rep (r_log w') (set_msgs NORMAL (msgs NORMAL a ++ [c]) a)
         /\ is_prune w' = (if arrives_as_backlog (r_ctl w) then 1 else is_prune w)
         /\ forall sfuel, exists d, handle_storage malloc sha1 sfuel c (r_db w') = Ret (0, c, d)
            /\ db_wf d /\ r_db p ≡ d /\ data_size d = data_size (r_db p).
Proof.
  intros Henv Hcan Hst Hm Hw Hnt Hnum Hid Hsize.
  destruct (import_file malloc status_ptr (r_db p) (malloc_sized malloc Hm) Hst Hw Hnt) as (text & Et & _).
  destruct (send_checkpoint_up status_ptr pid can_create server_id env junk p text Henv Hcan Et Hnt)
    as (p' & E & D1 & _ & D2 & _ & _ & _ & _ & D3).
  set (content := text ++ ⟦"FILE_END"⟧ ++ [LF]) in *.
  exists (chkpt_bytes server_id (chk_point_num p) content), p'. split; [exact E|]. split; [exact D3|].
  split; [exact D1|]. split; [rewrite D2; int_lia|].
  intros bid rand mb cc fuel fd input w a Hcl Hs Hf Hmb Hcc Ha Hroom.
  assert (0 < zlen content <= INT_MAX) as Hlen.
  { unfold content. rewrite !zlen_app. change (zlen ⟦"FILE_END"⟧) with 8. change (zlen [LF]) with 1.
    pose proof (zlen_nonneg text). specialize (Hsize text Et). lia. }
  destruct (checkpoint_logged server_id (chk_point_num p) content bid rand mb cc fuel fd input w a)
    as (w' & E1 & L & P & _ & B); try done.
  exists w', (set_is_backlog (arrives_as_backlog (r_ctl w)) (chkpt_ctx fd server_id (chk_point_num p) bid rand content)).
  split; [exact E1|]. split; [exact L|]. split; [exact P|]. intros sfuel.
  destruct (apply_checkpoint malloc sha1 Hm status_ptr sfuel (r_db p) fd server_id (chk_point_num p) rand bid
    text (arrives_as_backlog (r_ctl w)) (r_db w')) as (d & Hs1 & Hw1 & Heq & Hsz & _); try done.
  - rewrite B. apply lookup_insert_eq.
  - exists d. split; [exact Hs1|]. split; [done|]. by split.
Qed.

(** Three tasks, sent to a passive backup whose file is cut into pieces. *)
Definition zero_malloc (n : nat) : option data_point :=
  Some {| key := 0; raw_data := zeros MAX_DATA_LEN; data_len := 0; dp_status := 0 |}.
Definition demo_primary : replica unit := set_r_db demo_db (replica_init tt).

Lemma chunks_of b : exists input, clean input /\ stream input = b.
Proof.
  destruct b as [|x b]; [by exists []|]. exists [Eintr; Chunk (x :: b)]. split; [|apply app_nil_r].
  apply Forall_cons_2; [done|]. by apply Forall_cons_2; [|apply Forall_nil_2].
Qed.

Lemma checkpoint_transfer_witness :
  exists bytes p', send_checkpoint_ondemand (fun _ => 42) 100 (fun _ => true) 1 net_up [] demo_primary = Ret p'
    /\ map snd (delivered (net_out p')) = [bytes; bytes]
    /\ exists fuel input w' c, handle_connection 2 5 (fun _ => true) (fun _ => true) fuel 9 input
         (set_r_ctl backup_ctl (replica_init demo_log)) = Ret (0, w') /\ is_prune w' = 1
    /\ exists d, handle_storage zero_malloc (fun _ => None) 1 c (r_db w') = Ret (0, c, d)
         /\ demo_db ≡ d /\ data_size d = 13.
Proof.
  destruct (checkpoint_transfer (fun _ => 42) 100 (fun _ => true) 1 net_up [] demo_primary zero_malloc
    (fun _ => None)) as (bytes & p' & E & D & _ & _ & H).
  - intros n. by repeat split.
  - done.
  - intros _. int_lia.
  - intros n. eexists. split; [reflexivity|]. by split.
  - apply db_wfb_ok. by vm_compute.
  - apply node_textb_ok. by vm_compute.
  - done.
  - done.
  - intros text Ht. vm_compute in Ht. injection Ht as <-. by vm_compute.
  - exists bytes, p'. split; [exact E|]. split; [by rewrite D|].
    destruct (chunks_of bytes) as (input & Hc & Hs).
    destruct (H 2 5 (fun _ => true) (fun _ => true) (length bytes) 9 input
      (set_r_ctl backup_ctl (replica_init demo_log)) (abs_init 50 50)) as (w' & c & E1 & _ & P & H1).
    + exact Hc.
    + exact Hs.
    + done.
    + done.
    + done.
    + apply MsgLog.log_rep_init.
    + done.
    + exists (length bytes), input, w', c. split; [exact E1|]. split; [exact P|].
      destruct (H1 1%nat) as (d & E2 & _ & Heq & Hsz). exists d. split; [exact E2|]. split; [exact Heq|].
      rewrite Hsz. by vm_compute.
Defined.
