(* ===== verification/Protocol.v ===== *)
(** The control messages across processes: from the replication manager through
    the factory of a replica into the log of its server, and from a fault
    detector to the manager. *)
From S2P Require Import Prelude CLib Iface Util Request Fifo Control Db Storage Replica Server.
From S2P Require Import Reply RepMgr Factory Lfd Wire.

(** * What the factory makes of a field *)

Definition ip_text (s : server_info) : option bytes :=
  match c_string (server_ip s) with Ret b => Some b | _ => None end.

(** A factory message up to what lies behind the NUL of its two addresses. *)
Definition fm_blank (m : factory_message) : factory_message :=
  set_fm_server_arr_0 (set_server_ip [] (fm_server_arr_0 m))
    (set_fm_server_arr_1 (set_server_ip [] (fm_server_arr_1 m)) m).

Definition fm_view : Type := factory_message * option bytes * option bytes.
Definition fm_abs (m : factory_message) : fm_view :=
  (fm_blank m, ip_text (fm_server_arr_0 m), ip_text (fm_server_arr_1 m)).

Definition fm_step (a : fm_view) (kv : bytes * bytes) : option fm_view :=
  let '(m, ip0, ip1) := a in
  let '(k, v) := kv in
  let int_field (upd : Z -> factory_message -> factory_message) : option fm_view :=
    match str_to_int v with Some z => Some (upd z m, ip0, ip1) | None => None end in
  if bytes_eqb k ⟦"Replica ID"⟧ then int_field set_fm_replica_id
  else if bytes_eqb k ⟦"Factory Req"⟧ then int_field set_fm_req
  else if bytes_eqb k ⟦"REP MODE"⟧ then int_field set_fm_mode_rep
  else if bytes_eqb k ⟦"Server State"⟧ then int_field set_fm_server_state
  else if bytes_eqb k ⟦"Replica 1 ID"⟧ then int_field set_fm_bkp_replica_id_1
  else if bytes_eqb k ⟦"Replica 1 IP"⟧ then
    if zlen v <? 1024 then Some (m, Some v, ip1) else None
  else if bytes_eqb k ⟦"Replica 1 Port"⟧ then
    int_field (fun z m => set_fm_server_arr_0 (set_port z (fm_server_arr_0 m)) m)
  else if bytes_eqb k ⟦"Replica 2 ID"⟧ then int_field set_fm_bkp_replica_id_2
  else if bytes_eqb k ⟦"Replica 2 IP"⟧ then
    if zlen v <? 1024 then Some (m, ip0, Some v) else None
  else if bytes_eqb k ⟦"Replica 2 Port"⟧ then
    int_field (fun z m => set_fm_server_arr_1 (set_port z (fm_server_arr_1 m)) m)
  else if bytes_eqb k ⟦"Checkpoint freq"⟧ then int_field set_fm_checkpoint_freq
  else Some a.

(** The address copied out of the value buffer reads as the value. *)
Lemma ip_copied v vj : text_ok v -> zlen v < 1024 ->
  c_string (ztake 1024 (v ++ NUL :: vj)) = Ret v.
Proof.
  intros Hv Hl. unfold ztake. rewrite take_app_ge by (unfold zlen in *; lia).
  destruct (Z.to_nat 1024 - length v)%nat as [|k] eqn:E; [unfold zlen in *; lia|].
  cbn [take]. apply c_string_app_nul. by apply text_ok_nul_free.
Qed.

Lemma parse_rep_manager_implements : parse_implements parse_rep_manager_kv fm_abs fm_step.
Proof.
  intros m k v kj vj a' (_ & Hk & Hv & _) Hs. cbn [fst snd] in Hk, Hv.
  destruct (key_ok_colon k Hk) as (_ & Hk' & _).
  unfold parse_rep_manager_kv. rewrite (c_string_app_nul k), bind_ret_l by done.
  rewrite (c_string_app_nul v), bind_ret_l by (by apply text_ok_nul_free).
  unfold fm_step, fm_abs in Hs.
  repeat (destruct (bytes_eqb k _); [first
    [ destruct (str_to_int v); [injection Hs as <-; by eexists|done]
    | destruct (zlen v <? 1024) eqn:El; [|done]; zbool; injection Hs as <-; eexists; split; [done|];
      unfold fm_abs, ip_text; cbn [fm_server_arr_0 fm_server_arr_1 set_fm_server_arr_0
        set_fm_server_arr_1 server_ip set_server_ip]; by rewrite ip_copied ]|]).
  injection Hs as <-. by eexists.
Qed.

(** * Orders to a replica *)

(** A change of state, with the two other replicas when it makes the receiver
    send checkpoints. *)
Record peer := { pr_id : Z; pr_ip : bytes; pr_port : Z }.
Record change := {
  ch_mode : Z;
  ch_state : Z;
  ch_peers : option (Z * peer * peer)     (* checkpoint frequency and peers *)
}.

Record peer_ok (p : peer) : Prop := {
  pk_id : is_i32 (pr_id p);
  pk_ip : field_text_ok 1024 (pr_ip p);
  pk_port : is_i32 (pr_port p)
}.

(** The factory forwards the peers exactly for these two states. *)
Definition sends_peers (st : Z) : bool := (st =? PASSIVE_PREPRIMARY) || (st =? ACTIVE_RUNNING).

Record change_ok (c : change) : Prop := {
  ck_mode : is_i32 (ch_mode c);
  ck_state : is_i32 (ch_state c);
  ck_peers : match ch_peers c with
             | None => sends_peers (ch_state c) = false
             | Some (f, p, q) => sends_peers (ch_state c) = true /\ is_i32 f /\ peer_ok p /\ peer_ok q
             end
}.

Definition change_fields (c : change) : list (bytes * bytes) :=
  match ch_peers c with
  | None => [(⟦"REP MODE"⟧, fmt_d (ch_mode c)); (⟦"Server State"⟧, fmt_d (ch_state c))]
  | Some (f, p, q) => state_fields (ch_mode c) (ch_state c) f (pr_id p) (pr_ip p) (pr_port p)
                        (pr_id q) (pr_ip q) (pr_port q)
  end.

(** What the manager prints and what the server is told. *)
Definition order_text (id : Z) (c : change) : bytes :=
  message (factory_head id CHANGE_STATE ++ change_fields c).
Definition relayed_text (c : change) : bytes :=
  message (server_head 0 0 MSG_REP_MGR ++ change_fields c).

(** ** In the factory *)

Definition fm_order (id : Z) (c : change) (a : fm_view) : fm_view :=
  let '(m, ip0, ip1) := a in
  let m := set_fm_server_state (ch_state c) (set_fm_mode_rep (ch_mode c)
             (set_fm_req CHANGE_STATE (set_fm_replica_id id m))) in
  match ch_peers c with
  | None => (m, ip0, ip1)
  | Some (f, p, q) =>
      ({| fm_replica_id := id; fm_bkp_replica_id_1 := pr_id p; fm_bkp_replica_id_2 := pr_id q;
          fm_req := CHANGE_STATE; fm_mode_rep := ch_mode c; fm_checkpoint_freq := f;
          fm_server_state := ch_state c;
          fm_server_arr_0 := set_port (pr_port p) (fm_server_arr_0 m);
          fm_server_arr_1 := set_port (pr_port q) (fm_server_arr_1 m) |},
       Some (pr_ip p), Some (pr_ip q))
  end.

(** One field of an order. *)
Ltac fm_key := unfold fm_step at 1;
  repeat match goal with |- context [bytes_eqb ?a ?b] =>
    let r := eval vm_compute in (bytes_eqb a b) in change (bytes_eqb a b) with r end;
  cbv iota; first
  [ rewrite str_to_int_fmt_d by first [done | int_lia | by split]
  | rewrite (proj2 (Z.ltb_lt _ _)) by assumption ]; cbv iota beta zeta.

Lemma order_fold id c a : is_i32 id -> change_ok c ->
  fold_fields fm_step a (factory_head id CHANGE_STATE ++ change_fields c) = Some (fm_order id c a).
Proof.
  intros Hid [Hm Hs Hp]. destruct a as [[m ip0] ip1]. unfold fm_order, change_fields.
  destruct (ch_peers c) as [[[f p] q]|].
  - destruct Hp as (_ & Hf & [Hpi [_ Hpl] Hpp] & [Hqi [_ Hql] Hqp]).
    unfold factory_head, state_fields. cbn [app fold_fields]. do 11 fm_key. done.
  - unfold factory_head. cbn [app fold_fields]. do 4 fm_key. done.
Qed.

(** What the factory prints for a message that reads as the order. *)
Lemma fill_relayed id c a m : change_ok c -> fm_abs m = fm_order id c a ->
  fm_replica_id m = id /\ fm_req m = CHANGE_STATE /\ fill_change_state_buf m = Ret (relayed_text c).
Proof.
  intros [Hm Hs Hp] Habs. destruct a as [[m0 ip0] ip1].
  unfold fm_order, fm_abs, fm_blank, ip_text, set_fm_server_arr_0, set_fm_server_arr_1, set_server_ip,
    set_port, set_fm_server_state, set_fm_mode_rep, set_fm_req, set_fm_replica_id in Habs.
  unfold relayed_text, change_fields, fill_change_state_buf.
  destruct m as [rid b1 b2 rq md fq st [ipa pa] [ipb pb]].
  destruct (ch_peers c) as [[[f p] q]|].
  - cbn in Habs.
    destruct (c_string ipa) as [ta| | |] eqn:Ea, (c_string ipb) as [tb| | |] eqn:Eb; simplify_eq.
    injection H; intros; subst. destruct Hp as (Hsp & _). unfold sends_peers in Hsp. cbn [fm_server_state].
    split; [done|]. split; [done|]. rewrite Hsp.
    cbn [fm_server_arr_0 fm_server_arr_1 server_ip]. rewrite Ea, Eb, !bind_ret_l. f_equal.
    cbn [fm_mode_rep fm_checkpoint_freq fm_bkp_replica_id_1 fm_bkp_replica_id_2 port]. wire_text.
  - cbn in Habs. injection Habs; intros; subst. unfold sends_peers in Hp.
    cbn [fm_server_state]. split; [done|]. split; [done|]. rewrite Hp. f_equal. cbn [fm_mode_rep]. wire_text.
Qed.

Lemma change_fields_ok c : change_ok c -> Forall field_ok (change_fields c) /\ zlen (change_fields c) <= 9.
Proof.
  intros [Hm Hs Hp]. unfold change_fields. destruct (ch_peers c) as [[[f p] q]|]; [|split; [fields_ok|done]].
  destruct Hp as (_ & Hf & [Hpi [Hpt Hpl] Hpp] & [Hqi [Hqt Hql] Hqp]). split; [fields_ok|done].
Qed.

Lemma relayed_short c : change_ok c -> zlen (relayed_text c) < MAX_LENGTH.
Proof.
  intros [Hm Hs Hp]. unfold relayed_text, change_fields.
  destruct (ch_peers c) as [[[f p] q]|]; [|fields_short].
  destruct Hp as (_ & Hf & [Hpi [Hpt Hpl] Hpp] & [Hqi [Hqt Hql] Hqp]). fields_short.
Qed.

(** The factory relays an order to its server. *)
Lemma factory_relays fd_data ipmem env fork_ok uninit input w c rest :
  is_i32 (f_replica_id fd_data) -> change_ok c -> clean input ->
  stream input = order_text (f_replica_id fd_data) c ++ rest ->
  handle_replication_manager_message fd_data ipmem env fork_ok uninit input w
  = Ret (0, {| fa_net := snd (send_buf env (spawned_server fd_data ipmem) (zero_buf (relayed_text c)) (fa_net w));
               fa_spawned := fa_spawned w |}).
Proof.
  intros Hid Hc Hcl Hst. unfold handle_replication_manager_message.
  destruct (change_fields_ok c Hc) as [Hf Hn].
  destruct (read_fields_ok parse_rep_manager_kv true fm_abs fm_step
    (factory_head (f_replica_id fd_data) CHANGE_STATE ++ change_fields c) (init_buf_fd input) uninit rest
    (fm_order (f_replica_id fd_data) c (fm_abs uninit))) as (m & sb & b & -> & Ha & _).
  - apply parse_rep_manager_implements.
  - apply Forall_app. split; [|done]. fields_ok.
  - by apply init_buf_fd_wf.
  - rewrite zlen_app. change (zlen (factory_head _ _)) with 2. unfold MAX_REQ_FIELDS. lia.
  - by rewrite init_buf_fd_pending.
  - by apply order_fold.
  - rewrite bind_ret_l. cbv beta iota. destruct (fill_relayed _ _ _ _ Hc Ha) as (H1 & H2 & H3).
    unfold handle_rep_man_command. rewrite H1, Z.eqb_refl, H2.
    change (CHANGE_STATE =? STARTUP) with false. change (CHANGE_STATE =? CHANGE_STATE) with true. cbv iota.
    unfold send_change_state_message, send_server. rewrite H3, bind_ret_l.
    unfold sprintf_zero. rewrite (proj2 (Z.ltb_lt _ _)) by by apply relayed_short. rewrite bind_ret_l.
    by destruct (send_buf _ _ _ _).
Qed.

(** ** In the server *)

Definition peer_ctx (fd : Z) (p : peer) : bsvr_ctx :=
  {| bs_fd := fd; bs_info := {| server_ip := strncpy 1024 (pr_ip p); port := pr_port p |};
     bs_server_id := u32 (pr_id p) |}.

(** The descriptors are those of the initialiser. *)
Definition change_msg (c : change) : rep_mgr_msg_t :=
  match ch_peers c with
  | None => {| rm_rep_mode := ch_mode c; rm_server_state := ch_state c; rm_checkpoint_freq := 10;
               rm_bckup_svr_0 := BSVR_CTX_INITIALISER; rm_bckup_svr_1 := BSVR_CTX_ZERO |}
  | Some (f, p, q) =>
      {| rm_rep_mode := ch_mode c; rm_server_state := ch_state c; rm_checkpoint_freq := f;
         rm_bckup_svr_0 := peer_ctx (-1) p; rm_bckup_svr_1 := peer_ctx 0 q |}
  end.

Definition change_req (c : change) : client_request_t :=
  set_rep_mgr_msg (change_msg c) (set_msg_type MSG_REP_MGR CLIENT_REQUEST_INITIALISER).

Lemma relayed_fold fd c : change_ok c ->
  fold_fields kv_step (set_cc_fd fd init_client_ctx) (server_head 0 0 MSG_REP_MGR ++ change_fields c)
  = Some (request_ctx fd 0 (change_req c)).
Proof.
  intros [Hm Hs Hp]. unfold change_fields. destruct (ch_peers c) as [[[f p] q]|] eqn:E.
  - destruct Hp as (_ & Hf & [Hpi _ Hpp] & [Hqi _ Hqp]). kv_run. unfold change_req, change_msg. by rewrite E.
  - kv_run. unfold change_req, change_msg. by rewrite E.
Qed.

(** ** From the manager *)

(** What the manager prints for a replica, as an order. *)
Inductive manager_prints (d : rep_manager) (i : Z) : outcome bytes -> change -> Prop :=
  | prints_election a b na nb ipa ipb :
      other_replicas i = (a, b) -> RepMgr.node_at a d = Ret na -> RepMgr.node_at b d = Ret nb ->
      c_string (server_ip (nd_server na)) = Ret ipa -> c_string (server_ip (nd_server nb)) = Ret ipb ->
      mode d = 0 \/ mode d = 1 ->
      manager_prints d i (fill_message_for_primary_election i d)
        {| ch_mode := if mode d =? 0 then PASSIVE_REP else ACTIVE_REP;
           ch_state := if mode d =? 0 then PASSIVE_PREPRIMARY else ACTIVE_RUNNING;
           ch_peers := Some (checkpoint_freq d,
             {| pr_id := a; pr_ip := ipa; pr_port := port (nd_server na) |},
             {| pr_id := b; pr_ip := ipb; pr_port := port (nd_server nb) |}) |}
  | prints_change m st :
      manager_prints d i (Ret (change_state_text i m st))
        {| ch_mode := m; ch_state := st; ch_peers := None |}.

Lemma manager_prints_order d i o c : manager_prints d i o c -> o = Ret (order_text i c).
Proof.
  intros [a b na nb ipa ipb E1 E2 E3 E4 E5 Hm|m st].
  - unfold fill_message_for_primary_election. rewrite E1, E2, E3.
    assert ((if mode d =? 0 then (PASSIVE_REP, PASSIVE_PREPRIMARY)
             else if mode d =? 1 then (ACTIVE_REP, ACTIVE_RUNNING) else (UNKNOWN_REP, UNKNOWN_STATE))
      = (if mode d =? 0 then PASSIVE_REP else ACTIVE_REP,
         if mode d =? 0 then PASSIVE_PREPRIMARY else ACTIVE_RUNNING)) as -> by (destruct Hm as [E | E]; rewrite E; reflexivity).
    rewrite !bind_ret_l, E4, E5, !bind_ret_l. f_equal. unfold order_text, change_fields.
    cbn [ch_peers ch_mode ch_state pr_id pr_ip pr_port]. wire_text.
  - f_equal. unfold order_text, change_fields. cbn [ch_peers ch_mode ch_state]. apply change_state_msg.
Qed.

Lemma order_short i c : change_ok c -> zlen (order_text i c) < MAX_LENGTH.
Proof.
  intros [Hm Hs Hp]. unfold order_text, change_fields.
  destruct (ch_peers c) as [[[f p] q]|]; [|fields_short].
  destruct Hp as (_ & Hf & [Hpi [Hpt Hpl] Hpp] & [Hqi [Hqt Hql] Hqp]). fields_short.
Qed.

(** ** On the way *)

(** The factory [fd_data] turns the text [t] of the manager into the message [b]
    for its server, whatever its uninitialised message holds and however the
    bytes arrive. *)
Definition relays (fd_data : factory_data) (ipmem : bytes) (env : nat -> net_step) (fork_ok : bool) (t b : bytes) : Prop :=
  forall uninit input fw, takes env (attempts (fa_net fw)) -> clean input -> stream input = zero_buf t ->
  exists fw', handle_replication_manager_message fd_data ipmem env fork_ok uninit input fw = Ret (0, fw')
    /\ delivered (fa_net fw') = delivered (fa_net fw) ++ [(spawned_server fd_data ipmem, b)].

Lemma relays_change fd_data ipmem env fork_ok c : change_ok c -> is_i32 (f_replica_id fd_data) ->
  relays fd_data ipmem env fork_ok (order_text (f_replica_id fd_data) c) (zero_buf (relayed_text c)).
Proof.
  intros Hc Hi uninit input fw Henv Hcl Hst.
  destruct (zero_buf_app (order_text (f_replica_id fd_data) c)) as [rest Hrest]. rewrite Hrest in Hst.
  rewrite (factory_relays fd_data ipmem env fork_ok uninit input fw c rest) by done.
  eexists. split; [done|]. cbn [fa_net]. by rewrite send_takes.
Qed.

(** The server logs a relayed order. *)
Lemma change_logged {Q} `{FifoLog Q client_ctx_t} server_id rand mb cc fuel fd input c (w : replica Q) a :
  change_ok c -> clean input -> stream input = zero_buf (relayed_text c) -> lq_rep (r_log w) a ->
  has_room (request_ctx fd 0 (change_req c)) a = true ->
  exists w', handle_connection server_id rand mb cc fuel fd input w = Ret (0, w')
    /\ lq_rep (r_log w') (logged (r_ctl w) (request_ctx fd 0 (change_req c)) a)
    /\ r_ctl w' = r_ctl w /\ r_db w' = r_db w /\ sent w' = sent w /\ is_prune w' = is_prune w.
Proof.
  intros Hc Hcl Hst Ha Hroom. destruct (zero_buf_app (relayed_text c)) as [rest Hrest].
  rewrite Hrest in Hst. unfold relayed_text in Hst. destruct (change_fields_ok c Hc) as [Hf Hn].
  destruct (message_taken server_id rand mb cc fuel fd input
    (server_head 0 0 MSG_REP_MGR ++ change_fields c) rest (request_ctx fd 0 (change_req c)) w a)
    as (w' & E & Hl & H1 & H2 & H3 & H4 & _); try done.
  - apply Forall_app. split; [|done]. fields_ok.
  - rewrite zlen_app. change (zlen (server_head _ _ _)) with 3. unfold MAX_REQ_FIELDS. lia.
  - by apply relayed_fold.
  - by exists w'.
Qed.

(** An order of the replication manager reaches the replica. What the
    manager prints for the election of a primary (with the addresses of the two
    other replicas) or for a plain change of state fits its buffer; the factory
    of that replica, whatever its uninitialised message holds and however the
    bytes arrive, sends its server one message; and the server logs it as one
    control request with exactly the ordered mode and state and, for an
    election, the checkpoint frequency and the identity, address and port of
    the two peers. *)
Theorem order_reaches_replica {Q} `{FifoLog Q client_ctx_t} d i o c fd_data ipmem env fork_ok uninit fw
    server_id rand mb cc fuel fd (w : replica Q) a :
  manager_prints d i o c -> change_ok c -> is_i32 i -> f_replica_id fd_data = i ->
  takes env (attempts (fa_net fw)) -> lq_rep (r_log w) a ->
  has_room (request_ctx fd 0 (change_req c)) a = true ->
  exists text buf, o = Ret text /\ sprintf_zero text = Ret (zero_buf text) /\ buf = zero_buf (relayed_text c) /\
    forall input, clean input -> stream input = zero_buf text ->
    exists fw', handle_replication_manager_message fd_data ipmem env fork_ok uninit input fw = Ret (0, fw')
      /\ delivered (fa_net fw') = delivered (fa_net fw) ++ [(spawned_server fd_data ipmem, buf)]
      /\ forall input', clean input' -> stream input' = buf ->
         exists w', handle_connection server_id rand mb cc fuel fd input' w = Ret (0, w')
           /\ lq_rep (r_log w') (logged (r_ctl w) (request_ctx fd 0 (change_req c)) a)
           /\ r_ctl w' = r_ctl w /\ r_db w' = r_db w /\ sent w' = sent w /\ is_prune w' = is_prune w.
Proof.
  intros Hm Hc Hi Hid Henv Ha Hroom. subst i. exists (order_text (f_replica_id fd_data) c), (zero_buf (relayed_text c)).
  split; [by eapply manager_prints_order|].
  split; [apply sprintf_message; by apply order_short|]. split; [done|]. intros input Hcl Hst.
  destruct (relays_change fd_data ipmem env fork_ok c Hc Hi uninit input fw Henv Hcl Hst) as (fw' & E & D).
  exists fw'. split; [exact E|]. split; [exact D|]. intros input' Hcl' Hst'. by apply change_logged.
Qed.

(** Replica 1 of three is elected in passive mode; the factory's message holds
    other bytes before. *)
Definition demo_peer (i : Z) : peer := {| pr_id := i; pr_ip := ⟦"127.0.0.1"⟧; pr_port := 200 + i |}.
Definition demo_change : change :=
  {| ch_mode := PASSIVE_REP; ch_state := PASSIVE_PREPRIMARY;
     ch_peers := Some (30, demo_peer 0, demo_peer 2) |}.
Definition demo_factory : factory_data :=
  {| f_replica_id := 1; spawned_server_ip := ⟦"127.0.0.1"⟧; spawned_server_port := ⟦"201"⟧;
     lfd_heartbeat := ⟦"2"⟧; replication_manager_ip := ⟦"127.0.0.1"⟧; replication_manager_port := ⟦"300"⟧ |}.
Definition dirty_info : server_info := {| server_ip := replicate 1024 CR; port := -3 |}.
Definition dirty_message : factory_message :=
  {| fm_replica_id := 1; fm_bkp_replica_id_1 := 9; fm_bkp_replica_id_2 := 9; fm_req := STARTUP;
     fm_mode_rep := 9; fm_checkpoint_freq := 9; fm_server_state := 9;
     fm_server_arr_0 := dirty_info; fm_server_arr_1 := dirty_info |}.
Definition quiet_factory : factory :=
  {| fa_net := {| attempts := O; delivered := [] |}; fa_spawned := [] |}.

Lemma demo_change_ok : change_ok demo_change.
Proof.
  assert (forall i, is_i32 i -> is_i32 (200 + i) -> peer_ok (demo_peer i)) as Hp.
  { intros i Hi Hi'. split; [done| |done]. split; [apply (bool_decide_unpack _)|]; done. }
  split; [done|done|]. split; [done|]. split; [done|]. split; apply Hp; done.
Qed.

(** * The reports of a fault detector *)

Definition rmm_step (m : replication_manager_message) (kv : bytes * bytes)
  : option replication_manager_message :=
  let '(k, v) := kv in
  let int_field (upd : Z -> replication_manager_message) :=
    match str_to_int v with Some z => Some (upd z) | None => None end in
  if bytes_eqb k ⟦"Replica ID"⟧ then int_field (fun z => set_rmm_replica_id z m)
  else if bytes_eqb k ⟦"Message Type"⟧ then int_field (fun z => set_rmm_state z m)
  else if bytes_eqb k ⟦"Server state"⟧ then int_field (fun z => set_rmm_server_state z m)
  else Some m.

Lemma parse_fault_detector_implements : parse_implements parse_fault_detector_kv id rmm_step.
Proof.
  intros m k v kj vj a' (_ & Hk & Hv & _) Hs. cbn [fst snd] in Hk, Hv.
  destruct (key_ok_colon k Hk) as (_ & Hk' & _).
  unfold parse_fault_detector_kv. rewrite (c_string_app_nul k), bind_ret_l by done.
  rewrite (c_string_app_nul v), bind_ret_l by (by apply text_ok_nul_free).
  unfold rmm_step, id in *.
  repeat (destruct (bytes_eqb k _);
    [destruct (str_to_int v); [injection Hs as <-; by eexists|done]|]).
  injection Hs as <-. by eexists.
Qed.

(** What a fault detector reports is what the manager acts on, whatever the
    stack holds behind the report in the 8192 bytes sent and in the manager's
    uninitialised message. *)
Theorem report_reaches_manager env env' jm jd rm replica_id st (w w' : lfd) dst uninit input d :
  is_i32 replica_id -> is_i32 st -> is_i32 (lf_server_state w) -> takes env (attempts (lf_net w)) ->
  inform_rep_manager rm replica_id env jd st w = Ret w' -> clean input ->
  last (delivered (lf_net w')) = Some (dst, stream input) ->
  handle_fault_detector_message env' jm uninit input d
  = handle_state env' jm {| rmm_replica_id := replica_id; rmm_state := st;
                            rmm_server_state := lf_server_state w |} d.
Proof.
  intros Hid Hst Hss Henv Hw Hcl Hlast.
  rewrite inform_ok in Hw by done. injection Hw as <-. cbn [delivered lf_net said set_lf_net] in Hlast. rewrite last_snoc in Hlast.
  injection Hlast as _ Hs. unfold report_buf in Hs.
  destruct (junk_buf_app jd (report_text replica_id st (lf_server_state w))) as [rest Hrest].
  rewrite Hrest, report_msg in Hs. unfold handle_fault_detector_message.
  destruct (read_fields_ok parse_fault_detector_kv false id rmm_step
    (report_fields replica_id st (lf_server_state w)) (init_buf_fd input) uninit (NUL :: rest)
    {| rmm_replica_id := replica_id; rmm_state := st; rmm_server_state := lf_server_state w |})
    as (m & sb & b & -> & Ha & _).
  - apply parse_fault_detector_implements.
  - fields_ok.
  - by apply init_buf_fd_wf.
  - done.
  - by rewrite init_buf_fd_pending.
  - unfold report_fields, rmm_step. cbn [fold_fields].
    repeat match goal with |- context [bytes_eqb ?a ?b] =>
      let r := eval vm_compute in (bytes_eqb a b) in change (bytes_eqb a b) with r end.
    cbv iota beta zeta. by do 3 (rewrite str_to_int_fmt_d by done; cbv iota beta zeta).
  - unfold id in Ha. by rewrite Ha.
Qed.

Definition seen_buf : bytes := report_buf 1 (zeros MAX_LENGTH) FAULTED UNKNOWN_STATE.

Lemma report_reaches_manager_witness :
  handle_fault_detector_message net_up [] {| rmm_replica_id := 7; rmm_state := 7; rmm_server_state := 7 |}
    [Chunk (take 30 seen_buf); Eintr; Chunk (drop 30 seen_buf)] (demo_manager 0 0 RUNNING)
  = handle_state net_up [] (report 1 FAULTED) (demo_manager 0 0 RUNNING).
Proof.
  apply (report_reaches_manager net_good net_up [] (zeros MAX_LENGTH) SERVER_INFO_INITIALISER 1 FAULTED
    lfd_init (said SERVER_INFO_INITIALISER 1 (zeros MAX_LENGTH) FAULTED lfd_init) SERVER_INFO_INITIALISER).
  - done.
  - done.
  - done.
  - by repeat split.
  - apply inform_ok. by repeat split.
  - repeat (apply Forall_cons_2; [first [vm_compute; discriminate | exact I]|]). apply Forall_nil_2.
  - reflexivity.
Defined.
