(* ===== verification/Orders.v ===== *)
(** What the orders of the replication manager do to a replica: from the text the
    manager prints, through the factory and the server's connection thread, to
    the state in which the replica goes on. *)
From S2P Require Import Prelude CLib Iface Util Request Fifo Control Db Storage Replica Server Worker.
From S2P Require Import Failover RepMgr Factory Lfd Wire Protocol.
From S2P Require MsgLog.

(** * Orders without contents *)

(** What the factory tells its server for them. *)
Inductive relays_as : Z -> Z -> Prop :=
  | relays_chkpt : relays_as SEND_CHKPT MSG_SEND_CHKPT
  | relays_begin : relays_as QUIESCE_BEGIN MSG_QUIESCE_START
  | relays_stop : relays_as QUIESCE_STOP MSG_QUIESCE_STOP.

Definition order_buf (t : Z) : bytes := zero_buf (message (server_head 0 0 t)).

Lemma factory_relays_command fd_data ipmem env fork_ok uninit input fw i q t rest :
  relays_as q t -> is_i32 i -> f_replica_id fd_data = i -> clean input ->
  stream input = factory_req_text i q ++ rest ->
  handle_replication_manager_message fd_data ipmem env fork_ok uninit input fw
  = Ret (0, {| fa_net := snd (send_buf env (spawned_server fd_data ipmem) (order_buf t) (fa_net fw));
               fa_spawned := fa_spawned fw |}).
Proof.
  intros Hq Hi Hid Hcl Hst. unfold handle_replication_manager_message.
  assert (is_i32 q) as Hq32 by (by destruct Hq).
  destruct (read_fields_ok parse_rep_manager_kv true fm_abs fm_step (factory_head i q)
    (init_buf_fd input) uninit rest
    (let '(m, ip0, ip1) := fm_abs uninit in (set_fm_req q (set_fm_replica_id i m), ip0, ip1)))
    as (m & sb & b & -> & Ha & _).
  - apply parse_rep_manager_implements.
  - fields_ok.
  - by apply init_buf_fd_wf.
  - done.
  - by rewrite init_buf_fd_pending, Hst, factory_req_msg.
  - unfold factory_head, fm_abs. cbn [fold_fields]. do 2 fm_key. done.
  - rewrite bind_ret_l. cbv beta iota. 
    apply (f_equal (fun x => (fm_replica_id x.1.1, fm_req x.1.1))) in Ha.
    injection Ha as H1 H2.
    unfold handle_rep_man_command. rewrite H1, Hid, Z.eqb_refl, H2.
    destruct Hq; cbv [SEND_CHKPT QUIESCE_BEGIN QUIESCE_STOP STARTUP CHANGE_STATE];
      cbn [Z.eqb Pos.eqb]; unfold send_checkpoint_to_bkps, send_start_quiesce, send_stop_quiesce, send_server;
      rewrite head_text, sprintf_message by fields_short; rewrite bind_ret_l;
      unfold order_buf; by destruct (send_buf _ _ _ _).
Qed.

Lemma relays_command fd_data ipmem env fork_ok q t : relays_as q t -> is_i32 (f_replica_id fd_data) ->
  relays fd_data ipmem env fork_ok (factory_req_text (f_replica_id fd_data) q) (order_buf t).
Proof.
  intros Hq Hi uninit input fw Henv Hcl Hst.
  destruct (zero_buf_app (factory_req_text (f_replica_id fd_data) q)) as [rest Hrest]. rewrite Hrest in Hst.
  rewrite (factory_relays_command fd_data ipmem env fork_ok uninit input fw _ q t rest) by done.
  eexists. split; [done|]. cbn [fa_net]. by rewrite send_takes.
Qed.

(** * The replica *)

Section Receive.
Context {Q : Type} `{FifoLog Q client_ctx_t}.
Variables server_id rand : Z.
Variable malloc_bytes : Z -> bool.
Variable can_create : bytes -> bool.

Definition command_ctx (fd t : Z) : client_ctx_t :=
  request_ctx fd 0 (set_msg_type t CLIENT_REQUEST_INITIALISER).

(** A quiesce command acts at once; nothing is logged or answered. *)
Lemma quiesce_received fuel fd input t (w : replica Q) k :
  t = MSG_QUIESCE_START \/ t = MSG_QUIESCE_STOP -> clean input -> stream input = order_buf t ->
  handle_quiesce_command t (r_ctl w) = Ret (0, k) ->
  exists w', handle_connection server_id rand malloc_bytes can_create fuel fd input w = Ret (0, w')
    /\ r_ctl w' = k /\ r_log w' = r_log w /\ r_db w' = r_db w /\ is_prune w' = is_prune w
    /\ sent w' = sent w.
Proof.
  intros Ht Hcl Hst Hk. destruct (zero_buf_app (message (server_head 0 0 t))) as [rest Hrest].
  unfold order_buf in Hst. rewrite Hrest in Hst.
  assert (is_i32 t) as Ht32 by (by destruct Ht as [->| ->]).
  destruct (handle_connection_fields server_id rand malloc_bytes can_create fuel fd input
    (server_head 0 0 t) rest (command_ctx fd t) w) as (cfg & sb & _ & _ & E); try done.
  - fields_ok.
  - by kv_run.
  - rewrite E, read_payload_none, bind_ret_l by done. cbv beta iota. unfold dispatch_request.
    change (msg_type (req (command_ctx fd t))) with t.
    assert ((t =? MSG_QUIESCE_STOP) || (t =? MSG_QUIESCE_START) = true) as ->
      by (by destruct Ht as [->| ->]).
    change (r_ctl (set_config_done cfg w)) with (r_ctl w). rewrite Hk, bind_ret_l. cbv beta iota zeta.
    change (negb (0 =? 0)) with false. cbv iota. eexists. split; [done|].
    unfold close_fd. change (cc_fd (command_ctx fd t)) with fd. by destruct (0 <=? fd).
Qed.
End Receive.

Section Held.
Context {Q : Type} `{FifoLog Q client_ctx_t}.
Variables hn hc : client_ctx_t -> replica Q -> outcome (replica Q).
Variable fuel : nat.

(** A quiesced active replica executes nothing, for as long as it stays so. *)
Lemma run_held n : forall (w : replica Q) a, awake w -> rep_mode (r_ctl w) = ACTIVE_REP ->
  state (r_ctl w) = QUIESCE -> lq_rep (r_log w) a ->
  exists q, lq_rep q a /\ run_n hn hc fuel NORMAL n w = Ret (set_r_log q w).
Proof.
  induction n as [|n IH]; intros w a Hw Hm Hs Hr; cbn [run_n]; [exists (r_log w); by destruct w|].
  assert (exists q, lq_rep q a /\ run hn hc fuel NORMAL w = Ret (set_r_log q w)) as (q & Hq & E).
  { destruct (normal_msgs a) as [|c l] eqn:Em; [|by eapply run_quiesced].
    destruct (run_idle hn hc fuel w a Hr Hw Em) as (q & Hq & E). exists q. split; [done|].
    rewrite E. unfold is_preprimary, get_mode. by rewrite Hm. }
  destruct (IH (set_r_log q w) a) as (q' & Hq' & E'); [by destruct Hw; constructor|done..|].
  exists q'. rewrite E, bind_ret_l, E'. done.
Qed.
End Held.

(** * What a connection leaves alone *)

(** What was sent to the backups: the state a connection thread does not touch. *)
Definition outbox {Q} (w : replica Q) : net * Z := (net_out w, chk_point_num w).

Section Outbox.
Context {Q : Type} `{FifoLog Q client_ctx_t}.
Variables server_id rand : Z.
Variable malloc_bytes : Z -> bool.
Variable can_create : bytes -> bool.

Lemma close_outbox fd (w : replica Q) : outbox (close_fd fd w) = outbox w.
Proof. unfold close_fd. by destruct (0 <=? fd). Qed.

Lemma enqueue_outbox c (w w' : replica Q) r : enqueue_client_req c w = Ret (r, w') -> outbox w' = outbox w.
Proof.
  unfold enqueue_client_req. cbv zeta. destruct (lq_put _ _ _) as [[ret q]| | |]; [|done..].
  rewrite bind_ret_l. intros [= _ <-]. by case_if.
Qed.

Lemma dispatch_outbox c (w w' : replica Q) r : dispatch_request c w = Ret (r, w') -> outbox w' = outbox w.
Proof.
  unfold dispatch_request, exit_connection. cbv zeta. case_if.
  - destruct (handle_quiesce_command _ _) as [[ret k]| | |]; [|done..]. rewrite bind_ret_l.
    case_if; intros [= _ <-]; by rewrite close_outbox.
  - destruct (enqueue_client_req c w) as [[ret w1]| | |] eqn:E; [|done..]. apply enqueue_outbox in E.
    rewrite bind_ret_l. repeat case_if; intros [= _ <-]; by rewrite ?close_outbox.
Qed.

Lemma payload_outbox fuel sb c c' (w w' : replica Q) :
  read_payload server_id rand malloc_bytes can_create fuel sb c w = Ret (c', w') -> outbox w' = outbox w.
Proof.
  unfold read_payload. cbv zeta. case_if; [|by intros [= _ <-]].
  destruct (payload_loop _ _ _ _ _) as [[d sb']| | |]; [|done..]. rewrite bind_ret_l.
  intros [= _ <-]. by case_if.
Qed.

Lemma connection_outbox fuel fd input (w w' : replica Q) r :
  handle_connection server_id rand malloc_bytes can_create fuel fd input w = Ret (r, w') -> outbox w' = outbox w.
Proof.
  unfold handle_connection. cbv zeta. destruct (read_fields _ _ _ _) as [[[[e n] sb] b]| | |]; [|done..].
  rewrite bind_ret_l. cbv beta iota. set (w0 := set_config_done _ _).
  assert (outbox w0 = outbox w) as <- by done. unfold exit_connection, reply.
  destruct e; try (intros [= _ <-]; rewrite close_outbox; repeat case_match; done).
  destruct (read_payload _ _ _ _ _ _ _ _) as [[c1 w1]| | |] eqn:E; [|done..].
  apply payload_outbox in E as <-. rewrite bind_ret_l. apply dispatch_outbox.
Qed.
End Outbox.

(** * Changes of state *)

(** A change of state, obeyed in the next iteration of the control worker. *)
Lemma change_obeyed {Q} `{FifoLog Q client_ctx_t} server_id rand mb cc fuel fd input c (w : replica Q) a k
    hn status_ptr pid nenv junk wfuel :
  change_ok c -> clean input -> stream input = zero_buf (relayed_text c) ->
  ctl_ok (r_ctl w) -> 0 < checkpoint_freq_g (r_ctl w) -> rep_msg_spec (change_msg c) (r_ctl w) = Ret k ->
  lq_rep (r_log w) a -> control_msgs a = [] -> 0 < control_max a ->
  exists w' w'', handle_connection server_id rand mb cc fuel fd input w = Ret (0, w')
    /\ run hn (execute_msg_ctrl status_ptr pid cc server_id nenv junk) wfuel CONTROL w' = Ret w''
    /\ r_ctl w'' = k /\ state k = ch_state c /\ ctl_ok k
    /\ r_db w'' = r_db w /\ is_prune w'' = is_prune w /\ lq_rep (r_log w'') a
    /\ sent w'' = sent w ++ replies (request_ctx fd 0 (change_req c)) ⟦"OK"⟧ ⟦"Success"⟧ (state k)
    /\ outbox w'' = outbox w.
Proof.
  intros Hc Hcl Hst Hk Hfreq Hspec Ha Hempty Hmax.
  assert (queue_of (request_ctx fd 0 (change_req c)) = CONTROL) as Hctl by done.
  destruct (change_logged server_id rand mb cc fuel fd input c w a Hc Hcl Hst Ha) as (w' & E' & Hl & Kw & Dw & Sw & Pw).
  { unfold has_room. rewrite Hctl. cbn [msgs limit]. rewrite Hempty. by apply Z.ltb_lt. }
  pose proof (rep_msg_spec_ok _ _ _ Hk Hspec) as Hkk. pose proof (rep_msg_spec_state _ _ _ Hspec) as Hst2.
  set (c' := set_is_backlog (arrives_as_backlog (r_ctl w)) (request_ctx fd 0 (change_req c))).
  destruct (run_control hn (execute_msg_ctrl status_ptr pid cc server_id nenv junk) wfuel w'
    (logged (r_ctl w) (request_ctx fd 0 (change_req c)) a) c' []) as (q & Hq & E2); [done| |].
  { unfold logged. rewrite Hctl. cbn [msgs set_msgs control_msgs]. by rewrite Hempty. }
  assert (handle_rep_msg (rep_mgr_msg (req c')) (r_ctl (set_r_log q w')) = Ret k) as Hh.
  { simpl. rewrite Kw. change (rep_mgr_msg (change_req c)) with (change_msg c).
    destruct (handle_rep_msg_cases (change_msg c) (r_ctl w) Hk) as [->|(_ & ? & _)]; [done|lia]. }
  rewrite (ctrl_rep_msg status_ptr pid cc server_id nenv junk c' _ k eq_refl Hh), reply_eq in E2.
  eexists w', _. split; [exact E'|]. split; [exact E2|].
  destruct (close_fd_frame (cc_fd c')
    (set_sent (sent (set_r_ctl k (set_r_log q w')) ++ replies c' ⟦"OK"⟧ ⟦"Success"⟧ (state k))
       (set_r_ctl k (set_r_log q w')))) as (F1 & F2 & F3 & F4 & F5).
  split; [exact F1|]. split; [by rewrite Hst2; unfold change_msg; destruct (ch_peers c) as [[[]]|]|]. split; [exact Hkk|]. split; [etransitivity; [exact F2|exact Dw]|].
  split; [etransitivity; [exact F4|exact Pw]|].
  split; [|split; [etransitivity; [exact F5|]; cbn [sent set_sent set_r_ctl set_r_log]; by rewrite Sw|]].
  2: { rewrite close_outbox. exact (connection_outbox server_id rand mb cc fuel fd input w w' 0 E'). }
  assert (set_msgs CONTROL [] (logged (r_ctl w) (request_ctx fd 0 (change_req c)) a) = a) as Hset.
  { unfold logged. rewrite Hctl. cbn [msgs set_msgs control_msgs normal_msgs normal_max control_max].
    rewrite <- Hempty. by destruct a. }
  rewrite Hset in Hq. exact (eq_ind_r (fun x => lq_rep x a) Hq F3).
Qed.

(** * Properties *)

(** An order of the replication manager takes effect. What the manager prints
    for an election or a change of state fits its buffer; the factory of the
    replica, whatever its uninitialised message holds and however the bytes
    arrive, sends its server one message; the server logs it; and the next
    iteration of its control worker puts the replica into the ordered mode,
    state, checkpoint frequency and backups (the mode only if it had none),
    starting or stopping the checkpoint thread accordingly, leaves the table
    alone, answers "OK" once and leaves the control queue empty. *)
Theorem order_takes_effect {Q} `{FifoLog Q client_ctx_t} d i o c fd_data ipmem env fork_ok uninit fw
    server_id rand mb cc fuel fd (w : replica Q) a k hn status_ptr pid nenv junk wfuel :
  manager_prints d i o c -> change_ok c -> is_i32 i -> f_replica_id fd_data = i ->
  takes env (attempts (fa_net fw)) ->
  ctl_ok (r_ctl w) -> 0 < checkpoint_freq_g (r_ctl w) -> rep_msg_spec (change_msg c) (r_ctl w) = Ret k ->
  lq_rep (r_log w) a -> control_msgs a = [] -> 0 < control_max a ->
  exists text buf, o = Ret text /\ sprintf_zero text = Ret (zero_buf text) /\ buf = zero_buf (relayed_text c) /\
    forall input, clean input -> stream input = zero_buf text ->
    exists fw', handle_replication_manager_message fd_data ipmem env fork_ok uninit input fw = Ret (0, fw')
      /\ delivered (fa_net fw') = delivered (fa_net fw) ++ [(spawned_server fd_data ipmem, buf)]
      /\ forall input', clean input' -> stream input' = buf ->
         exists w' w'', handle_connection server_id rand mb cc fuel fd input' w = Ret (0, w')
           /\ run hn (execute_msg_ctrl status_ptr pid cc server_id nenv junk) wfuel CONTROL w' = Ret w''
           /\ r_ctl w'' = k /\ state k = ch_state c /\ ctl_ok k
           /\ r_db w'' = r_db w /\ is_prune w'' = is_prune w /\ lq_rep (r_log w'') a
           /\ sent w'' = sent w ++ replies (request_ctx fd 0 (change_req c)) ⟦"OK"⟧ ⟦"Success"⟧ (state k)
           /\ outbox w'' = outbox w.
Proof.
  intros Hm Hc Hi Hid Henv Hk Hfreq Hspec Ha Hempty Hmax. subst i.
  exists (order_text (f_replica_id fd_data) c), (zero_buf (relayed_text c)).
  split; [by eapply manager_prints_order|].
  split; [apply sprintf_message; by apply order_short|]. split; [done|]. intros input Hcl Hst.
  destruct (relays_change fd_data ipmem env fork_ok c Hc Hi uninit input fw Henv Hcl Hst) as (fw' & E & D).
  exists fw'. split; [exact E|]. split; [exact D|]. intros input' Hcl' Hst'. by eapply change_obeyed.
Qed.

Lemma order_takes_effect_witness :
  exists text buf, fill_message_for_primary_election 1 (demo_manager 0 0 FAULTED) = Ret text
    /\ exists fw', handle_replication_manager_message demo_factory (server_ip (demo_addr 0)) net_up true
         dirty_message [Chunk (zero_buf text)] quiet_factory = Ret (0, fw')
    /\ map snd (delivered (fa_net fw')) = [buf]
    /\ exists w' w'', handle_connection 1 0 (fun _ => true) (fun _ => true) 1 9
         [Chunk (take 100 buf); Chunk (drop 100 buf)] (replica_init demo_log) = Ret (0, w')
       /\ run (fun _ => Ret) (execute_msg_ctrl (fun _ => 0) 0 (fun _ => true) 1 net_up []) 1 CONTROL w' = Ret w''
       /\ state (r_ctl w'') = PASSIVE_PREPRIMARY.
Proof.
  destruct (order_takes_effect (demo_manager 0 0 FAULTED) 1
    (fill_message_for_primary_election 1 (demo_manager 0 0 FAULTED)) demo_change demo_factory
    (server_ip (demo_addr 0)) net_up true dirty_message quiet_factory 1 0 (fun _ => true) (fun _ => true)
    1 9 (replica_init demo_log) (abs_init 50 50) (answer ctl_init (rep_msg_spec (change_msg demo_change) ctl_init))
    (fun _ => Ret) (fun _ => 0) 0 net_up [] 1%nat) as (text & buf & E & _ & -> & H).
  - apply (prints_election (demo_manager 0 0 FAULTED) 1 0 2 (demo_node FAULTED 0) (demo_node FAULTED 2)
      ⟦"127.0.0.1"⟧ ⟦"127.0.0.1"⟧); try reflexivity. by left.
  - exact demo_change_ok.
  - done.
  - done.
  - by repeat split.
  - apply ctl_init_ok.
  - done.
  - by vm_compute.
  - apply MsgLog.log_rep_init.
  - done.
  - done.
  - exists text, (zero_buf (relayed_text demo_change)). split; [exact E|].
    assert (zero_buf text <> []) as Hne.
    { vm_compute in E. injection E as <-. vm_compute. discriminate. }
    destruct (H [Chunk (zero_buf text)]) as (fw' & E1 & D & H').
    + apply Forall_cons_2; [exact Hne|apply Forall_nil_2].
    + apply app_nil_r.
    + exists fw'. split; [exact E1|]. rewrite D. split; [reflexivity|].
      destruct (H' [Chunk (take 100 (zero_buf (relayed_text demo_change)));
                    Chunk (drop 100 (zero_buf (relayed_text demo_change)))])
        as (w' & w'' & E2 & E3 & K & S & _).
      * repeat (apply Forall_cons_2; [vm_compute; discriminate|]). apply Forall_nil_2.
      * cbn [stream map event_bytes concat]. unfold stream. cbn [map concat event_bytes].
        rewrite app_nil_r. apply take_drop.
      * exists w', w''. split; [exact E2|]. split; [exact E3|]. rewrite K. exact S.
Defined.
