(* ===== verification/Session.v ===== *)
(** A client and a replica together: the text of a request, the connection
    thread that logs it, the worker that executes it and the reply that the
    client reads back. *)
From S2P Require Import Prelude CLib Iface Util Request Fifo Control Db Storage Replica Server Worker.
From S2P Require Import Client Reply Wire.
From S2P Require MsgLog.

(** A replica that answers clients: active and running, or the primary. *)
Definition serving (k : ctl) : Prop :=
  ctl_ok k /\ (rep_mode k = ACTIVE_REP /\ state k = ACTIVE_RUNNING
               \/ rep_mode k = PASSIVE_REP /\ state k = PASSIVE_PRIMARY).

(** An idle one: nothing to prune, nothing to execute. *)
Record idle {Q} `{FifoLog Q client_ctx_t} (w : replica Q) : Prop := {
  id_serving : serving (r_ctl w);
  id_prune : is_prune w = 0;
  id_db : db_wf (r_db w);
  id_log : exists a, lq_rep (r_log w) a /\ normal_msgs a = [] /\ 0 < normal_max a
}.

(** The bytes [b], however cut and whatever follows, read as the reply to the
    request [rn] of the client [id]; [P]: what else is known of the reply. *)
Definition client_reads (id rn : Z) (ok : bool) (P : message_response -> Prop) (b : bytes) : Prop :=
  forall input rest f r, clean input -> stream input = b ++ rest ->
    exists r', get_response_from_server (6 + f) input r = Ret (0, r')
      /\ resp_req_no r' = rn /\ parse_response_from_server r' id = (if ok then 0 else -1) /\ P r'.

Lemma serving_facts k : serving k ->
  should_nrl_thrd_sleep k = false /\ get_state k <> QUIESCE /\ is_preprimary k = false
  /\ arrives_as_backlog k = false /\ closes_early k MSG_ADD = false /\ is_i32 (state k).
Proof.
  unfold should_nrl_thrd_sleep, is_preprimary, arrives_as_backlog, closes_early, get_mode, get_state.
  by intros [_ [[-> ->]|[-> ->]]].
Qed.

Lemma fail_word : word_ok ⟦"FAIL"⟧.
Proof. by split; [|repeat constructor..|]. Qed.

Lemma served_reply_ok c ok st : is_i32 (client_id c) -> 0 <= req_no (req c) < 2 ^ 32 -> is_u64 (hash_key (req c)) ->
  is_i32 st -> reply_ok c (if ok : bool then ⟦"OK"⟧ else ⟦"FAIL"⟧) (if ok then ⟦"Success"⟧ else ⟦"Check inputs"⟧) st.
Proof.
  intros Hc Hr Hk Hst. constructor; try done; destruct ok; try done;
    first [apply ok_word | apply fail_word | by repeat constructor].
Qed.

Section Served.
Context {Q : Type} `{FifoLog Q client_ctx_t}.
Variables server_id rand : Z.
Variable malloc_bytes : Z -> bool.
Variable can_create : bytes -> bool.
Variable cfuel : nat.
Variable malloc : nat -> option data_point.
Variable sha1 : bytes -> option bytes.
Variable sfuel : nat.
Variable hc : client_ctx_t -> replica Q -> outcome (replica Q).
Variable wfuel : nat.

(** The request travels, is logged and is executed by the next iteration of the
    worker; [res], [c'] and [d]: what the storage makes of it. *)
Lemma request_served rn id cm r fd (w : replica Q) res c' d :
  says rn cm r -> is_i32 rn -> is_i32 id -> idle w ->
  handle_storage malloc sha1 sfuel (request_ctx fd id r) (r_db w) = Ret (res, c', d) -> db_wf d ->
  exists buf, (text ← client_text rn id cm; sprintf_zero text) = Ret buf
    /\ forall input, clean input -> stream input = buf ->
       exists w1 w2, handle_connection server_id rand malloc_bytes can_create cfuel fd input w = Ret (0, w1)
         /\ run (execute_msg malloc sha1 sfuel) hc wfuel NORMAL w1 = Ret w2
         /\ idle w2 /\ r_ctl w2 = r_ctl w /\ r_db w2 = d
         /\ sent w2 = sent w
            ++ (if res =? 0 then [] else replies c' ⟦"FAIL"⟧ ⟦"Check inputs"⟧ (state (r_ctl w)))
            ++ replies c' ⟦"OK"⟧ ⟦"Success"⟧ (state (r_ctl w)).
Proof.
  intros Hs Hrn Hid [Hk Hp Hw (a & Ha & Hn & Hmax)] Hstore Hd.
  destruct (serving_facts _ Hk) as (F1 & F2 & F3 & F4 & _ & _).
  destruct (says_fields rn id cm r fd Hs Hrn Hid) as (fields & -> & Hf & Hlen & Hl & Hfold).
  rewrite bind_ret_l, sprintf_message by done. eexists. split; [done|]. intros input Hc Hst.
  destruct (zero_buf_app (message fields)) as [rest Hrest]. rewrite Hrest in Hst.
  set (c := request_ctx fd id r) in *.
  assert (queue_of c = NORMAL) as Hq by by destruct Hs.
  assert (has_room c a = true) as Hroom.
  { unfold has_room. rewrite Hq. simpl msgs. rewrite Hn. by apply Z.ltb_lt. }
  destruct (message_taken server_id rand malloc_bytes can_create cfuel fd input fields rest c w a)
    as (w1 & E1 & Hl1 & K1 & D1 & S1 & P1 & _); try done; [by destruct Hs..|].
  unfold logged in Hl1. cbv zeta in Hl1. rewrite Hq, F4 in Hl1. cbn [msgs] in Hl1. rewrite Hn in Hl1. cbn [app] in Hl1.
  change (set_is_backlog false c) with c in Hl1.
  assert (awake w1) as Haw.
  { constructor; rewrite ?K1; [apply Hk| |exact F1]. rewrite P1. unfold prunes. by rewrite F4, andb_false_r. }
  assert (get_state (r_ctl w1) <> QUIESCE) as Hq1 by by rewrite K1.
  destruct (run_take (execute_msg malloc sha1 sfuel) hc wfuel w1 _ c [] Hl1 Haw eq_refl Hq1) as (q & Hq' & E2).
  destruct (execute_msg_eq malloc sha1 sfuel c (set_r_log q w1) res c' d) as (w2 & E3 & K2 & D2 & L2 & P2 & S2 & _).
  { apply Haw. }
  { cbn [r_db set_r_log]. by rewrite D1. }
  cbn [r_ctl set_r_log sent is_prune r_log] in *. rewrite K1 in *.
  assert (exec_ctl c (r_ctl w) = r_ctl w) as Hx by (unfold exec_ctl; by rewrite F3). rewrite Hx in *.
  exists w1, w2. split; [exact E1|]. split; [by rewrite E2|]. split; [|by rewrite K2, D2, S2, S1].
  constructor; [by rewrite K2|by rewrite P2; apply Haw|by rewrite D2|].
  exists (set_msgs NORMAL [] (set_msgs NORMAL [c] a)). rewrite L2. split; [exact Hq'|]. by destruct a.
Qed.

(** ** What the client makes of the replies *)

Lemma ok_read c ok st (P : message_response -> Prop) : reply_ok c (if ok : bool then ⟦"OK"⟧ else ⟦"FAIL"⟧)
    (if ok then ⟦"Success"⟧ else ⟦"Check inputs"⟧) st ->
  msg_type (req c) <> MSG_HEARTBEAT ->
  (forall r, P (reply_read c (if ok then ⟦"OK"⟧ else ⟦"FAIL"⟧) st r)) ->
  exists b, replies c (if ok then ⟦"OK"⟧ else ⟦"FAIL"⟧) (if ok then ⟦"Success"⟧ else ⟦"Check inputs"⟧) st = [(cc_fd c, b)]
    /\ client_reads (client_id c) (i32 (req_no (req c))) ok P b.
Proof.
  intros Hr Ht HP. unfold replies. rewrite write_response_ok by done. cbn [option_list map].
  eexists. split; [done|]. intros input rest f r Hc Hs. eexists. split.
  - rewrite (response_read c _ _ st f input rest r Hr Hc Hs); [|done].
    by rewrite (proj2 (Z.eqb_neq _ _) Ht).
  - split; [done|]. split; [|apply HP]. rewrite parse_ok_reply. by destruct ok.
Qed.

(** An addition, from the typed task to the reply with its key. *)
Lemma add_served rn id m t d k fd (w : replica Q) :
  malloc_ok malloc -> idle w -> 0 <= rn <= INT_MAX -> is_i32 id ->
  c_string (ma_task m) = Ret t -> c_string (ma_task_date m) = Ret d -> field_text_ok 1024 t ->
  field_text_ok 32 d -> is_i32 (ma_task_status m) ->
  add_ok malloc sha1 (request_ctx fd id (add_req rn t d (ma_task_status m))) (r_db w) k ->
  exists buf, (text ← create_add_message_to_server rn m id; sprintf_zero text) = Ret buf
    /\ forall input, clean input -> stream input = buf ->
       exists w1 w2 b st, handle_connection server_id rand malloc_bytes can_create cfuel fd input w = Ret (0, w1)
         /\ run (execute_msg malloc sha1 sfuel) hc wfuel NORMAL w1 = Ret w2
         /\ idle w2 /\ view (r_db w2) ≡ abs_set k (view (r_db w) k ++ [(t, st)]) (view (r_db w))
         /\ sent w2 = sent w ++ [(fd, b)] /\ client_reads id rn true (fun r => resp_hash_key r = k) b.
Proof.
  intros Hm Hw Hrn Hid Et Ed Ht Hd Hts Hadd.
  pose proof (says_add rn m t d Et Ed Ht Hd Hts) as Hsay.
  set (c := request_ctx fd id (add_req rn t d (ma_task_status m))) in *.
  assert (is_u64 k) as Hk by exact (generate_key_range _ _ _ _ _ (ao_key _ _ _ _ _ Hadd)).
  destruct (serving_facts _ (id_serving _ Hw)) as (_ & _ & _ & _ & _ & Hst).
  destruct (handle_add malloc sha1 sfuel c (r_db w) k Hm (id_db _ Hw) Hadd) as (s1 & st & E1 & Hw1 & _ & Hv1).
  destruct (request_served rn id _ _ fd w 0 _ s1 Hsay ltac:(int_lia) Hid Hw E1 Hw1) as (buf & B & Hserve).
  exists buf. split; [exact B|]. intros input Hc Hs.
  destruct (Hserve input Hc Hs) as (w1 & w2 & C1 & R1 & Hw2 & _ & D2 & S2).
  destruct (ok_read (set_req (set_hash_key k (req c)) c) true (state (r_ctl w)) (fun r => resp_hash_key r = k))
    as (b & P1 & Q1); [|done|done|].
  { apply (served_reply_ok _ true); [done| |done|done].
    change (0 <= store_low32 0 rn < 2 ^ 32). rewrite store_low32_small by int_lia. int_lia. }
  change (i32 (req_no (req (set_req (set_hash_key k (req c)) c)))) with (i32 (store_low32 0 rn)) in Q1.
  rewrite store_low32_small, i32_small in Q1 by int_lia.
  exists w1, w2, b, st. split; [exact C1|]. split; [exact R1|]. split; [done|]. rewrite D2.
  split; [|split; [rewrite S2; exact (f_equal (app _) P1)|exact Q1]].
  assert (ztake (zlen t) (strncpy 1024 t) = t) as <-; [|exact Hv1].
  destruct Ht as [_ Hlen]. rewrite strncpy_fits by lia. unfold ztake, zlen. rewrite Nat2Z.id.
  apply take_app_length.
Qed.

(** A removal by the printed key. *)
Lemma remove_served rn id mr k e l fd (w : replica Q) :
  idle w -> 0 <= rn <= INT_MAX -> is_i32 id -> is_u64 k ->
  c_string (mr_task mr) = Ret (fmt_u k) -> view (r_db w) k = e :: l ->
  exists buf, (text ← create_remove_message_to_server rn mr id; sprintf_zero text) = Ret buf
    /\ forall input, clean input -> stream input = buf ->
       exists w1 w2 b, handle_connection server_id rand malloc_bytes can_create cfuel fd input w = Ret (0, w1)
         /\ run (execute_msg malloc sha1 sfuel) hc wfuel NORMAL w1 = Ret w2
         /\ idle w2 /\ view (r_db w2) ≡ abs_set k l (view (r_db w))
         /\ sent w2 = sent w ++ [(fd, b)] /\ client_reads id rn true (fun _ => True) b.
Proof.
  intros Hw Hrn Hid Hk Hmr Hv.
  assert (says rn (CRemove mr) (remove_req rn (fmt_u k))) as Hsay.
  { apply says_remove; [exact Hmr|]. split; [by apply fmt_u_text|]. pose proof (fmt_u_length k). lia. }
  set (c := request_ctx fd id (remove_req rn (fmt_u k))) in *.
  assert (hash_key (req c) = k) as Hkc.
  { change ((strtoul 10 (fmt_u k)).1 = k). by rewrite strtoul_fmt_u by auto. }
  destruct (serving_facts _ (id_serving _ Hw)) as (_ & _ & _ & _ & _ & Hst).
  destruct (handle_remove malloc sha1 sfuel c (r_db w) (id_db _ Hw) eq_refl) as (s1 & E1 & Hw1 & Hv1).
  rewrite Hkc, Hv in E1. rewrite Hkc, Hv in Hv1.
  destruct (request_served rn id _ _ fd w 0 _ s1 Hsay ltac:(int_lia) Hid Hw E1 Hw1) as (buf & B & Hserve).
  exists buf. split; [exact B|]. intros input Hc Hs.
  destruct (Hserve input Hc Hs) as (w1 & w2 & C1 & R1 & Hw2 & _ & D2 & S2).
  destruct (ok_read c true (state (r_ctl w)) (fun _ => True)) as (b & P1 & Q1); [|done|done|].
  { apply (served_reply_ok _ true); [done| |by rewrite Hkc|done].
    change (0 <= store_low32 0 rn < 2 ^ 32). rewrite store_low32_small by int_lia. int_lia. }
  change (i32 (req_no (req c))) with (i32 (store_low32 0 rn)) in Q1.
  rewrite store_low32_small, i32_small in Q1 by int_lia.
  exists w1, w2, b. split; [exact C1|]. split; [exact R1|]. split; [done|]. rewrite D2.
  split; [exact Hv1|]. split; [rewrite S2; exact (f_equal (app _) P1)|exact Q1].
Qed.
End Served.

(** C6: a task from the user to the table and back. A client adds a task that
    is not in the table of an idle replica and that the storage has room for.
    However the network cuts the request and the reply, the request is logged,
    the next iteration of the worker puts exactly the typed task under its key,
    and the client reads a success with its request number and that key. When
    it then removes the task by the key it was given, it reads a success again
    and the table is what it was. *)
Theorem add_remove_session {Q} `{FifoLog Q client_ctx_t} server_id rand mb cc cfuel malloc sha1 sfuel hc wfuel
    rn id m t d mr k fd1 fd2 (w : replica Q) :
  malloc_ok malloc -> idle w -> 0 <= rn < INT_MAX -> is_i32 id ->
  c_string (ma_task m) = Ret t -> c_string (ma_task_date m) = Ret d -> field_text_ok 1024 t ->
  field_text_ok 32 d -> is_i32 (ma_task_status m) -> c_string (mr_task mr) = Ret (fmt_u k) ->
  add_ok malloc sha1 (request_ctx fd1 id (add_req rn t d (ma_task_status m))) (r_db w) k ->
  view (r_db w) k = [] ->
  exists buf1, (text ← create_add_message_to_server rn m id; sprintf_zero text) = Ret buf1
  /\ forall input1, clean input1 -> stream input1 = buf1 ->
     exists w1 w2 b1, handle_connection server_id rand mb cc cfuel fd1 input1 w = Ret (0, w1)
       /\ run (execute_msg malloc sha1 sfuel) hc wfuel NORMAL w1 = Ret w2
       /\ map fst (view (r_db w2) k) = [t] /\ sent w2 = sent w ++ [(fd1, b1)]
       /\ client_reads id rn true (fun r => resp_hash_key r = k) b1
       /\ exists buf2, (text ← create_remove_message_to_server (rn + 1) mr id; sprintf_zero text) = Ret buf2
          /\ forall input2, clean input2 -> stream input2 = buf2 ->
             exists w3 w4 b2, handle_connection server_id rand mb cc cfuel fd2 input2 w2 = Ret (0, w3)
               /\ run (execute_msg malloc sha1 sfuel) hc wfuel NORMAL w3 = Ret w4
               /\ view (r_db w4) ≡ view (r_db w) /\ sent w4 = sent w2 ++ [(fd2, b2)]
               /\ client_reads id (rn + 1) true (fun _ => True) b2.
Proof.
  intros Hm Hw Hrn Hid Et Ed Ht Hd Hts Hmr Hadd Hv.
  assert (is_u64 k) as Hk by exact (generate_key_range _ _ _ _ _ (ao_key _ _ _ _ _ Hadd)).
  destruct (add_served server_id rand mb cc cfuel malloc sha1 sfuel hc wfuel rn id m t d k fd1 w Hm Hw
    ltac:(lia) Hid Et Ed Ht Hd Hts Hadd) as (buf1 & B1 & Hserve1).
  exists buf1. split; [exact B1|]. intros input1 Hc1 Hs1.
  destruct (Hserve1 input1 Hc1 Hs1) as (w1 & w2 & b1 & st & C1 & R1 & Hw2 & Hv2 & S2 & Q1).
  rewrite Hv in Hv2. pose proof (Hv2 k) as Hvk. rewrite abs_set_at in Hvk.
  exists w1, w2, b1. do 2 (split; [done|]). split; [by rewrite Hvk|]. do 2 (split; [done|]).
  destruct (remove_served server_id rand mb cc cfuel malloc sha1 sfuel hc wfuel (rn + 1) id mr k _ _ fd2 w2 Hw2
    ltac:(lia) Hid Hk Hmr Hvk) as (buf2 & B2 & Hserve2).
  exists buf2. split; [exact B2|]. intros input2 Hc2 Hs2.
  destruct (Hserve2 input2 Hc2 Hs2) as (w3 & w4 & b2 & C3 & R3 & _ & Hv4 & S4 & Q2).
  exists w3, w4, b2. do 2 (split; [done|]). split; [|done].
  rewrite Hv4, Hv2, abs_set_twice. intros k'. unfold abs_set. case_if; zbool; [by rewrite Hif|done].
Qed.

(** A new replica that was told to be active, and its first client. *)
Definition active_replica : replica (MsgLog.log_mem (V := client_ctx_t)) :=
  set_r_ctl (active_ctl ACTIVE_RUNNING 0) (replica_init demo_log).
Definition demo_remove : message_remove :=
  {| mr_task := overwrite (fmt_u bread_key) (zeros 1024); mr_req_no := 0 |}.
Definition bread_message : message_add :=
  {| ma_task := overwrite ⟦"bread"⟧ (zeros 1024); ma_task_date := overwrite ⟦"today"⟧ (zeros 32);
     ma_task_status := TASK_NOT_DONE |}.

Lemma active_idle : idle active_replica.
Proof.
  constructor; [split; [apply active_ctl_ok; [by right; left|by left]|by left]|done|apply hash_table_init_wf|].
  exists (abs_init 50 50). split; [apply MsgLog.log_rep_init|done].
Qed.

Lemma bread_session_ok fd :
  add_ok dirty_malloc demo_sha1 (request_ctx fd 5 (add_req 0 ⟦"bread"⟧ ⟦"today"⟧ TASK_NOT_DONE)) (r_db active_replica) bread_key.
Proof. by constructor. Qed.

Lemma add_remove_session_witness : exists buf1 buf2 w1 w2 w3 w4,
  handle_connection 0 0 (fun _ => true) (fun _ => true) 5 9 [Chunk buf1] active_replica = Ret (0, w1)
  /\ run (execute_msg dirty_malloc demo_sha1 1) (fun _ => Ret) 5 NORMAL w1 = Ret w2
  /\ handle_connection 0 0 (fun _ => true) (fun _ => true) 5 10 [Chunk buf2] w2 = Ret (0, w3)
  /\ run (execute_msg dirty_malloc demo_sha1 1) (fun _ => Ret) 5 NORMAL w3 = Ret w4
  /\ view (r_db w4) ≡ view (r_db active_replica).
Proof.
  assert (forall b : bytes, b <> [] -> clean [Chunk b]) as Hclean
    by (intros b Hb; apply Forall_cons_2; [exact Hb|apply Forall_nil_2]).
  destruct (add_remove_session 0 0 (fun _ => true) (fun _ => true) 5 dirty_malloc demo_sha1 1 (fun _ => Ret) 5
    0 5 bread_message ⟦"bread"⟧ ⟦"today"⟧ demo_remove bread_key 9 10 active_replica)
    as (buf1 & B1 & H1).
  - apply dirty_malloc_ok.
  - apply active_idle.
  - int_lia.
  - done.
  - by vm_compute.
  - by vm_compute.
  - split; [apply (bool_decide_unpack _); exact I|done].
  - split; [apply (bool_decide_unpack _); exact I|done].
  - done.
  - by vm_compute.
  - apply bread_session_ok.
  - by vm_compute.
  - destruct (H1 [Chunk buf1]) as (w1 & w2 & b1 & C1 & R1 & _ & _ & _ & buf2 & B2 & H2).
    + apply Hclean. intros ->. vm_compute in B1. discriminate B1.
    + apply app_nil_r.
    + destruct (H2 [Chunk buf2]) as (w3 & w4 & b2 & C3 & R3 & V & _).
      * apply Hclean. intros ->. vm_compute in B2. discriminate B2.
      * apply app_nil_r.
      * exists buf1, buf2, w1, w2, w3, w4. repeat (split; [assumption|]). exact V.
Defined.
