(* ===== verification/Cluster.v ===== *)
(** A client and all replicas of the active mode: one request sent to every
    server, executed by each, and the answers collected by [poll]. *)
From S2P Require Import Prelude CLib Iface Util Request Fifo Control Db Storage Replica Server Worker.
From S2P Require Import Client Reply Wire Session.
From S2P Require MsgLog.

(** A server as the client and the network see it: the client's connection to
    it, its own descriptor of that connection, its id, memory and state, and the
    pieces in which the request arrives. *)
Record member (Q : Type) := {
  mb_net : net_step;
  mb_fd : Z;
  mb_id : Z;
  mb_malloc : nat -> option data_point;
  mb_replica : replica Q;
  mb_input : list rd_event
}.
Arguments mb_net {Q} _.
Arguments mb_fd {Q} _.
Arguments mb_id {Q} _.
Arguments mb_malloc {Q} _.
Arguments mb_replica {Q} _.
Arguments mb_input {Q} _.

Section Cluster.
Context {Q : Type} `{FifoLog Q client_ctx_t}.
Variable rand : Z.
Variable malloc_bytes : Z -> bool.
Variable can_create : bytes -> bool.
Variable cfuel : nat.
Variable sha1 : bytes -> option bytes.
Variable sfuel : nat.
Variable hc : client_ctx_t -> replica Q -> outcome (replica Q).
Variable wfuel : nat.
(** The client's request: an addition. *)
Variables rn id : Z.
Variable m : message_add.
Variables t d : bytes.
Variable k : Z.

(** A member that is ready for the request. *)
Record ready_for (x : member Q) : Prop := {
  rf_idle : idle (mb_replica x);
  rf_malloc : malloc_ok (mb_malloc x);
  rf_add : add_ok (mb_malloc x) sha1 (request_ctx (mb_fd x) id (add_req rn t d (ma_task_status m)))
             (r_db (mb_replica x)) k
}.

(** What the member does with it: [p] is its state afterwards and the bytes it
    has written to the client. *)
Definition takes_part (x : member Q) (p : replica Q * bytes) : Prop :=
  exists w1 st, handle_connection (mb_id x) rand malloc_bytes can_create cfuel (mb_fd x) (mb_input x) (mb_replica x)
      = Ret (0, w1)
    /\ run (execute_msg (mb_malloc x) sha1 sfuel) hc wfuel NORMAL w1 = Ret p.1
    /\ idle p.1
    /\ view (r_db p.1) ≡ abs_set k (view (r_db (mb_replica x)) k ++ [(t, st)]) (view (r_db (mb_replica x)))
    /\ sent p.1 = sent (mb_replica x) ++ [(mb_fd x, p.2)]
    /\ client_reads id rn true (fun r => resp_hash_key r = k) p.2.

Hypothesis rn_range : 0 <= rn <= INT_MAX.
Hypothesis id_range : is_i32 id.
Hypothesis task_text : c_string (ma_task m) = Ret t.
Hypothesis date_text : c_string (ma_task_date m) = Ret d.
Hypothesis task_fits : field_text_ok 1024 t.
Hypothesis date_fits : field_text_ok 32 d.
Hypothesis status_range : is_i32 (ma_task_status m).

Lemma member_served buf x : (text ← create_add_message_to_server rn m id; sprintf_zero text) = Ret buf ->
  ready_for x -> clean (mb_input x) -> stream (mb_input x) = buf -> exists p, takes_part x p.
Proof using All.
  intros Hb [Hi Hm Ha] Hc Hs.
  destruct (add_served (mb_id x) rand malloc_bytes can_create cfuel (mb_malloc x) sha1 sfuel hc wfuel rn id m t d k
    (mb_fd x) (mb_replica x) Hm Hi rn_range id_range task_text date_text task_fits date_fits status_range Ha)
    as (buf' & Hb' & Hserve).
  rewrite Hb in Hb'. injection Hb' as <-.
  destruct (Hserve (mb_input x) Hc Hs) as (w1 & w2 & b & st & E).
  exists (w2, b), w1, st. exact E.
Qed.

Lemma members_served buf l : (text ← create_add_message_to_server rn m id; sprintf_zero text) = Ret buf ->
  Forall ready_for l -> Forall (fun x => clean (mb_input x) /\ stream (mb_input x) = buf) l ->
  exists ps, Forall2 takes_part l ps.
Proof using All.
  intros Hb Hl. induction Hl as [|x l Hx Hl IH]; intros Hin; [by exists []|].
  apply Forall_cons_1 in Hin as [[Hc Hs] Hin]. destruct (IH Hin) as [ps Hps].
  destruct (member_served buf x Hb Hx Hc Hs) as [p Hp]. exists (p :: ps). by constructor.
Qed.

End Cluster.

(** The reply of a member, in the pieces in which the client gets it. *)
Definition replied {Q} (resp : Z -> list rd_event) (x : member Q) (p : replica Q * bytes) : Prop :=
  clean (resp (socket_ret (mb_net x))) /\ stream (resp (socket_ret (mb_net x))) = p.2.

(** The replies are the answers the client waits for. *)
Lemma members_answer {Q} id rn P resp f (l : list (member Q)) ps : Forall reachable (map mb_net l) ->
  Forall (fun p => client_reads id rn true P p.2) ps -> Forall2 (replied resp) l ps ->
  Forall (fun e => answers id resp (6 + f) rn (socket_ret e)) (map mb_net l).
Proof.
  intros Hr Hp Hs. revert Hr Hp. induction Hs as [|x p l ps [Hc Hst] Hs IH]; intros Hr Hp; [done|].
  apply Forall_cons_1 in Hp as [Hread Hp]. apply Forall_cons_1 in Hr as [Hr1 Hr].
  constructor; [|by apply IH]. destruct Hr1 as (_ & Hfd & _). split; [done|]. intros r.
  destruct (Hread (resp (socket_ret (mb_net x))) [] f r Hc) as (r' & E & E1 & E2 & _); [by rewrite app_nil_r|].
  by exists r'.
Qed.

(** The client's side of a round: however the replies are cut and in whatever
    order and rounds they arrive, it ends with a success, counts one response
    and closes every connection exactly once. *)
Definition client_succeeds {Q} (id rn : Z) (l : list (member Q)) (ps : list (replica Q * bytes)) : Prop :=
  forall resp ready f fuel n r, Forall2 (replied resp) l ps ->
    (forall i e, (i < n)%nat -> e ∈ map mb_net l -> ready i (socket_ret e) = false) ->
    Exists (fun e => ready n (socket_ret e) = true) (map mb_net l) -> (n + 2 <= fuel)%nat ->
    exists x, send_and_get_response id (map mb_net l) resp ready (6 + f) fuel r (rn - 1) = Ret (0, x)
      /\ response_no_g x = rn /\ ex_closed x ≡ₚ map socket_ret (map mb_net l) /\ num_open_fds x = 0.

Lemma answered {Q} id rn P (l : list (member Q)) ps : l <> [] -> Forall reachable (map mb_net l) ->
  NoDup (map socket_ret (map mb_net l)) -> Forall (fun p => client_reads id rn true P p.2) ps ->
  client_succeeds id rn l ps.
Proof.
  intros Hne Hre Hnd Hp resp ready f fuel n r Hrep Hwait Hex Hf.
  destruct (exchange_succeeds id resp ready (6 + f) (map mb_net l) [] fuel r (rn - 1) n)
    as (x & E & E1 & E2 & E3); try done; try rewrite app_nil_r in E.
  - by destruct l.
  - replace (rn - 1 + 1) with rn by lia. eapply Forall_impl; [by eapply members_answer|]. intros e He i _; exact He.
  - exists x. split; [exact E|]. split; [lia|done].
Qed.

(** What a table holds under a key, without the statuses, which are not
    stored. *)
Definition tasks_at (k : Z) (s : db) : list bytes := map fst (view s k).

Lemma takes_part_tasks {Q} `{FifoLog Q client_ctx_t} rand mb cc cfuel sha1 sfuel hc wfuel rn id t k
    (x : member Q) p : takes_part rand mb cc cfuel sha1 sfuel hc wfuel rn id t k x p ->
  forall k', tasks_at k' (r_db p.1)
    = tasks_at k' (r_db (mb_replica x)) ++ (if k' =? k then [t] else []).
Proof.
  intros (w1 & st & _ & _ & _ & Hv & _) k'. unfold tasks_at. rewrite (Hv k'). unfold abs_set.
  destruct (k' =? k) eqn:E; zbool; [|by rewrite app_nil_r]. subst. by rewrite map_app.
Qed.

(** Active replication, from the user to the tables of all replicas and
    back. A client adds a task on any number of idle replicas, each of which has
    room for it; every replica gets the bytes of the request in pieces of its
    own and executes it in the next iteration of its worker. Afterwards every
    replica holds what it held before and the task under the same key, so
    replicas that agreed on their tasks agree again; each has written one reply;
    and however the replies are cut and in whatever order and rounds they
    arrive, the client ends the exchange with a success, counts one response and
    closes every connection exactly once. *)
Theorem replicated_add {Q} `{FifoLog Q client_ctx_t} rand mb cc cfuel sha1 sfuel hc wfuel rn id m t d k
    (l : list (member Q)) :
  0 <= rn <= INT_MAX -> is_i32 id ->
  c_string (ma_task m) = Ret t -> c_string (ma_task_date m) = Ret d -> field_text_ok 1024 t ->
  field_text_ok 32 d -> is_i32 (ma_task_status m) ->
  l <> [] -> Forall reachable (map mb_net l) -> NoDup (map socket_ret (map mb_net l)) ->
  Forall (ready_for sha1 rn id m t d k) l ->
  exists buf, (text ← create_add_message_to_server rn m id; sprintf_zero text) = Ret buf
  /\ (Forall (fun x => clean (mb_input x) /\ stream (mb_input x) = buf) l ->
      exists ps, Forall2 (takes_part rand mb cc cfuel sha1 sfuel hc wfuel rn id t k) l ps
      /\ (forall k' v, Forall (fun x => tasks_at k' (r_db (mb_replica x)) = v) l ->
          Forall (fun p => tasks_at k' (r_db p.1) = v ++ (if k' =? k then [t] else [])) ps)
      /\ client_succeeds id rn l ps).
Proof.
  intros Hrn Hid Et Ed Ht Hd Hst Hne Hre Hnd Hready.
  destruct (says_fields rn id _ _ 0 (says_add rn m t d Et Ed Ht Hd Hst) ltac:(int_lia) Hid)
    as (fields & Etext & _ & _ & Hlen & _). cbn [client_text] in Etext.
  rewrite Etext, bind_ret_l, sprintf_message by done.
  eexists. split; [reflexivity|]. intros Hin.
  destruct (members_served rand mb cc cfuel sha1 sfuel hc wfuel rn id m t d k Hrn Hid Et Ed Ht Hd Hst
    (zero_buf (message fields)) l) as [ps Hps]; [|exact Hready|exact Hin|].
  { by rewrite Etext, bind_ret_l, sprintf_message. }
  exists ps. split; [exact Hps|]. split.
  - intros k' v Hv. clear -Hps Hv. induction Hps as [|x p l ps Hx _ IH]; [constructor|].
    apply Forall_cons_1 in Hv as [<- Hv]. constructor; [|by apply IH].
    by apply (takes_part_tasks _ _ _ _ _ _ _ _ _ _ _ _ x p Hx).
  - apply (answered id rn (fun r => resp_hash_key r = k)); [done..|]. clear -Hps.
    induction Hps as [|x p l ps (w1 & st & _ & _ & _ & _ & _ & Hx) _ IH]; by constructor.
Qed.

(** Two replicas with memory of their own, and the request in one piece for one
    of them and in two pieces for the other. *)
Definition bread_buf : bytes :=
  answer [] (text ← create_add_message_to_server 1 bread_message 5; sprintf_zero text).
Definition demo_member (fd : Z) (malloc : nat -> option data_point) (input : list rd_event)
  : member (MsgLog.log_mem (V := client_ctx_t)) :=
  {| mb_net := net_ok fd; mb_fd := 9; mb_id := fd; mb_malloc := malloc; mb_replica := active_replica;
     mb_input := input |}.
Definition demo_members : list (member (MsgLog.log_mem (V := client_ctx_t))) :=
  [demo_member 4 dirty_malloc [Chunk bread_buf];
   demo_member 5 dirty_malloc [Chunk (take 9 bread_buf); Eintr; Chunk (drop 9 bread_buf)]].

Lemma demo_member_ready fd input :
  ready_for demo_sha1 1 5 bread_message ⟦"bread"⟧ ⟦"today"⟧ bread_key (demo_member fd dirty_malloc input).
Proof. constructor; [apply active_idle|apply dirty_malloc_ok|by constructor]. Qed.

(** The bytes of a reply in one piece. *)
Definition one_piece (b : bytes) : list rd_event := match b with [] => [] | _ => [Chunk b] end.

Lemma one_piece_ok b : clean (one_piece b) /\ stream (one_piece b) = b.
Proof.
  destruct b; [by split; [apply Forall_nil_2|]|].
  split; [apply Forall_cons_2; [discriminate|apply Forall_nil_2]|apply app_nil_r].
Qed.

Lemma replicated_add_witness : exists p1 p2 x,
  Forall2 (takes_part 0 (fun _ => true) (fun _ => true) 5 demo_sha1 1 (fun _ => Ret) 5 1 5 ⟦"bread"⟧ bread_key)
    demo_members [p1; p2]
  /\ tasks_at bread_key (r_db p1.1) = [⟦"bread"⟧] /\ tasks_at bread_key (r_db p2.1) = [⟦"bread"⟧]
  /\ send_and_get_response 5 [net_ok 4; net_ok 5]
       (fun fd => one_piece (if fd =? 4 then p1.2 else p2.2)) (fun _ _ => true) 6 2 response_zero 0 = Ret (0, x).
Proof.
  destruct (replicated_add 0 (fun _ => true) (fun _ => true) 5 demo_sha1 1 (fun _ => Ret) 5 1 5
    bread_message ⟦"bread"⟧ ⟦"today"⟧ bread_key demo_members) as (buf & B & H).
  - int_lia.
  - done.
  - by vm_compute.
  - by vm_compute.
  - split; [apply (bool_decide_unpack _); exact I|done].
  - split; [apply (bool_decide_unpack _); exact I|done].
  - done.
  - done.
  - repeat apply Forall_cons_2; try apply Forall_nil_2; by repeat split.
  - by apply (bool_decide_unpack _).
  - repeat apply Forall_cons_2; try apply Forall_nil_2; apply demo_member_ready.
  - assert (buf = bread_buf) as -> by (unfold bread_buf; by rewrite B).
    destruct H as (ps & Hps & Hv & Hx).
    { repeat apply Forall_cons_2; try apply Forall_nil_2; (split; [|by vm_compute]);
        repeat (apply Forall_cons_2; [by vm_compute|]); apply Forall_nil_2. }
    assert (exists p1 p2, ps = [p1; p2]) as (p1 & p2 & ->).
    { apply Forall2_length in Hps. destruct ps as [|p1 [|p2 [|]]]; try discriminate Hps. by exists p1, p2. }
    specialize (Hv bread_key []). rewrite Z.eqb_refl in Hv.
    assert (Forall (fun p => tasks_at bread_key (r_db p.1) = [⟦"bread"⟧]) [p1; p2]) as Hvs.
    { apply Hv. repeat apply Forall_cons_2; try apply Forall_nil_2; by vm_compute. }
    apply Forall_cons_1 in Hvs as [V1 Hvs]. apply Forall_cons_1 in Hvs as [V2 _].
    destruct (Hx (fun fd => one_piece (if fd =? 4 then p1.2 else p2.2)) (fun _ _ => true) 0%nat 2%nat 0%nat response_zero)
      as (x & E & _).
    + repeat apply Forall2_cons_2; try apply Forall2_nil_2; apply one_piece_ok.
    + intros i e Hi. lia.
    + by apply Exists_cons_hd.
    + lia.
    + exists p1, p2, x. split; [exact Hps|]. split; [exact V1|]. split; [exact V2|exact E].
Defined.
