(* ===== verification/Service.v ===== *)
(** The service as its users see it: clients that add and remove tasks, on any
    number of active replicas, against a list of tasks. *)
From S2P Require Import Prelude CLib Iface Util Request Fifo Control Db Storage Replica Server Worker.
From S2P Require Import Client Reply Wire Session Cluster.
From S2P Require MsgLog.

(** * The abstract list of tasks *)

Definition todo : Type := Z -> list bytes.

(** A request of a user: the id of the client, its message, its key and what it
    does to the tasks under that key. *)
Record user_op := {
  uo_client : Z;
  uo_msg : client_msg;
  uo_key : Z;
  uo_effect : list bytes -> list bytes
}.

Definition apply_op (o : user_op) (T : todo) : todo :=
  fun k => if k =? uo_key o then uo_effect o (T k) else T k.

(** The request numbers of the clients, which count for themselves. *)
Definition count_op (o : user_op) (rns : Z -> Z) : Z -> Z :=
  fun i => if i =? uo_client o then rns i + 1 else rns i.

Section Ops.
Variable sha1 : bytes -> option bytes.

(** Additions of a task whose key is not zero, and removals of a task that is
    there, by the key that the reply to its addition showed, maybe to another
    client. *)
Inductive op_ok (T : todo) : user_op -> Prop :=
  | op_add id m t d k : is_i32 id -> c_string (ma_task m) = Ret t -> c_string (ma_task_date m) = Ret d ->
      field_text_ok 1024 t -> field_text_ok 32 d -> is_i32 (ma_task_status m) ->
      generate_key sha1 (strncpy 1024 t) id (zlen t) = Ret k -> k <> 0 ->
      op_ok T {| uo_client := id; uo_msg := CAdd m; uo_key := k; uo_effect := fun l => l ++ [t] |}
  | op_remove id m k : is_i32 id -> c_string (mr_task m) = Ret (fmt_u k) -> is_u64 k -> T k <> [] ->
      op_ok T {| uo_client := id; uo_msg := CRemove m; uo_key := k; uo_effect := @tail bytes |}.

Fixpoint ops_ok (ops : list user_op) (T : todo) : Prop :=
  match ops with
  | [] => True
  | o :: ops => op_ok T o /\ ops_ok ops (apply_op o T)
  end.
End Ops.

(** * The replicas *)

Section Service.
Context {Q : Type} `{FifoLog Q client_ctx_t}.
Variable rand : Z.
Variable malloc_bytes : Z -> bool.
Variable can_create : bytes -> bool.
Variable cfuel : nat.
Variable sha1 : bytes -> option bytes.
Variable sfuel : nat.
Variable hc : client_ctx_t -> replica Q -> outcome (replica Q).
Variable wfuel : nat.

(** A replica that is idle, has memory and holds the tasks [T]. *)
Record holds (T : todo) (x : member Q) : Prop := {
  ho_idle : idle (mb_replica x);
  ho_malloc : malloc_ok (mb_malloc x);
  ho_memory : forall n, is_Some (mb_malloc x n);
  ho_tasks : forall k, tasks_at k (r_db (mb_replica x)) = T k
}.

(** What the reply shows: the key of a new task. *)
Definition shows (o : user_op) (r : message_response) : Prop :=
  match uo_msg o with CAdd _ => resp_hash_key r = uo_key o | _ => True end.

(** The member [x] does the request and replies: [p] is its state afterwards and
    the bytes it has written to the client. *)
Definition serves_op (rn : Z) (o : user_op) (x : member Q) (p : replica Q * bytes) : Prop :=
  exists w1, handle_connection (mb_id x) rand malloc_bytes can_create cfuel (mb_fd x) (mb_input x) (mb_replica x)
      = Ret (0, w1)
    /\ run (execute_msg (mb_malloc x) sha1 sfuel) hc wfuel NORMAL w1 = Ret p.1
    /\ idle p.1
    /\ (forall k, tasks_at k (r_db p.1) = apply_op o (fun k => tasks_at k (r_db (mb_replica x))) k)
    /\ sent p.1 = sent (mb_replica x) ++ [(mb_fd x, p.2)]
    /\ client_reads (uo_client o) rn true (shows o) p.2.

(** The same server, with another connection and what arrives on it; and with
    another state. *)
Definition same_server (x y : member Q) : Prop :=
  mb_id y = mb_id x /\ mb_malloc y = mb_malloc x /\ mb_replica y = mb_replica x.
Definition moved_on (x : member Q) (p : replica Q * bytes) : member Q :=
  {| mb_net := mb_net x; mb_fd := mb_fd x; mb_id := mb_id x; mb_malloc := mb_malloc x;
     mb_replica := p.1; mb_input := mb_input x |}.

(** The servers [l] serve the requests [ops], numbered by each client from [rns]
    on, one after the other, as the tasks [T] would: before each request all hold
    the tasks; however its bytes arrive at each of them, every server does it, the
    client succeeds, and the servers serve the other requests. *)
Fixpoint serve (ops : list user_op) (rns : Z -> Z) (T : todo) (l : list (member Q)) : Prop :=
  Forall (holds T) l /\
  match ops with
  | [] => True
  | o :: ops =>
      let id := uo_client o in
      let rn := rns id in
      exists buf, (text ← client_text rn id (uo_msg o); sprintf_zero text) = Ret buf /\
      forall l', Forall2 same_server l l' -> Forall reachable (map mb_net l') ->
        NoDup (map socket_ret (map mb_net l')) ->
        Forall (fun x => clean (mb_input x) /\ stream (mb_input x) = buf) l' ->
      exists ps, Forall2 (serves_op rn o) l' ps /\ client_succeeds id rn l' ps
        /\ serve ops (count_op o rns) (apply_op o T) (zip_with moved_on l' ps)
  end.

Lemma op_client T o : op_ok sha1 T o -> is_i32 (uo_client o).
Proof. by intros []. Qed.

Lemma op_says T o rn : op_ok sha1 T o -> exists r, says rn (uo_msg o) r.
Proof.
  intros [id m t d k _ Et Ed Ht Hd Hst _ _|id m k _ Ek Hk _]; cbn [uo_msg].
  - eexists. by eapply says_add.
  - eexists. apply says_remove; [exact Ek|]. split; [by apply fmt_u_text|]. pose proof (fmt_u_length k). lia.
Qed.

Lemma op_buf T o rn : op_ok sha1 T o -> is_i32 rn ->
  exists buf, (text ← client_text rn (uo_client o) (uo_msg o); sprintf_zero text) = Ret buf.
Proof.
  intros Ho Hrn. pose proof (op_client T o Ho) as Hid. destruct (op_says T o rn Ho) as [r Hr].
  destruct (says_fields rn (uo_client o) _ _ 0 Hr Hrn Hid) as (fields & -> & _ & _ & Hlen & _).
  rewrite bind_ret_l, sprintf_message by done. by eexists.
Qed.

(** One member and one request. *)
Lemma op_served T o rn buf x : op_ok sha1 T o -> 0 <= rn <= INT_MAX -> holds T x ->
  (text ← client_text rn (uo_client o) (uo_msg o); sprintf_zero text) = Ret buf ->
  clean (mb_input x) -> stream (mb_input x) = buf -> exists p, serves_op rn o x p.
Proof.
  intros Ho Hrn [Hi Hm Hs HT] Hb Hc Hst.
  destruct Ho as [id m t d k id_range Et Ed Ht Hd Hts Hk Hnz|id m k id_range Ek Hk Hne]; cbn [uo_client uo_msg client_text] in Hb.
  - destruct (add_served (mb_id x) rand malloc_bytes can_create cfuel (mb_malloc x) sha1 sfuel hc wfuel rn id m t d k
      (mb_fd x) (mb_replica x) Hm Hi Hrn id_range Et Ed Ht Hd Hts) as (buf' & Hb' & Hserve).
    { constructor; try done; [apply zlen_nonneg|]. cbn. destruct Ht as [_ Hl]. rewrite strncpy_fits by lia.
      rewrite zlen_app. unfold zeros, zlen. rewrite length_replicate. unfold zlen in Hl. lia. }
    rewrite Hb in Hb'. injection Hb' as <-.
    destruct (Hserve (mb_input x) Hc Hst) as (w1 & w2 & b & st & E1 & E2 & I2 & V & S2 & R).
    exists (w2, b), w1. do 3 (split; [done|]). split; [|by split].
    intros k'. unfold tasks_at, apply_op. cbn [uo_key uo_effect fst]. rewrite (V k'). unfold abs_set.
    destruct (k' =? k) eqn:E; zbool; [|done]. subst. by rewrite map_app.
  - unfold tasks_at in HT. specialize (HT k) as Hv. destruct (view (r_db (mb_replica x)) k) as [|e lv] eqn:Ev; [by destruct Hne|].
    destruct (remove_served (mb_id x) rand malloc_bytes can_create cfuel (mb_malloc x) sha1 sfuel hc wfuel rn id m k e lv
      (mb_fd x) (mb_replica x) Hi Hrn id_range Hk Ek Ev) as (buf' & Hb' & Hserve).
    rewrite Hb in Hb'. injection Hb' as <-.
    destruct (Hserve (mb_input x) Hc Hst) as (w1 & w2 & b & E1 & E2 & I2 & V & S2 & R).
    exists (w2, b), w1. do 3 (split; [done|]). split; [|by split].
    intros k'. unfold tasks_at, apply_op. cbn [uo_key uo_effect fst]. rewrite (V k'). unfold abs_set.
    destruct (k' =? k) eqn:E; zbool; [|done]. subst. by rewrite Ev.
Qed.

Lemma ops_served T o rn buf l : op_ok sha1 T o -> 0 <= rn <= INT_MAX -> Forall (holds T) l ->
  (text ← client_text rn (uo_client o) (uo_msg o); sprintf_zero text) = Ret buf ->
  Forall (fun x => clean (mb_input x) /\ stream (mb_input x) = buf) l ->
  exists ps, Forall2 (serves_op rn o) l ps.
Proof.
  intros Ho Hrn Hl Hb. induction Hl as [|x l Hx Hl IH]; intros Hin; [by exists []|].
  apply Forall_cons_1 in Hin as [[Hc Hs] Hin]. destruct (IH Hin) as [ps Hps].
  destruct (op_served T o rn buf x Ho Hrn Hx Hb Hc Hs) as [p Hp]. exists (p :: ps). by constructor.
Qed.

Lemma holds_same T l l' : Forall2 same_server l l' -> Forall (holds T) l -> Forall (holds T) l'.
Proof.
  intros Hl. induction Hl as [|x y l l' (H1 & H2 & H3) Hl IH]; [done|]. intros HT.
  apply Forall_cons_1 in HT as [[Hi Hm Hs Ht] HT]. constructor; [|by apply IH].
  constructor; rewrite ?H2, ?H3; done.
Qed.

Lemma holds_next T rn o l ps : Forall (holds T) l -> Forall2 (serves_op rn o) l ps ->
  Forall (holds (apply_op o T)) (zip_with moved_on l ps).
Proof.
  intros HT Hps. revert HT. induction Hps as [|x p l ps (w1 & _ & _ & Hi & Ht & _) Hps IH]; [done|]. intros HT.
  apply Forall_cons_1 in HT as [[_ Hm Hs Htx] HT]. constructor; [|by apply IH].
  constructor; cbn [moved_on mb_replica mb_malloc]; try done. intros k. rewrite (Ht k). unfold apply_op. by rewrite Htx.
Qed.

End Service.

(** * Properties *)

(** C1: the service refines a list of tasks. Any number of idle active replicas
    that hold the same tasks serve any sequence of additions and removals of any
    number of clients, one request after the other, as the list of tasks does. For
    each request: its text fits the client's buffer; however the bytes are cut on
    the way to each replica, every replica logs the request, executes it in the
    next iteration of its worker and writes one reply, which shows the key of an
    added task; the client collects the replies, in whatever order and rounds and
    however cut they arrive, ends with a success and closes every connection
    exactly once; and all replicas are idle and hold the tasks of the list after
    the request. Each client numbers its own requests. *)
Theorem service_refines_todo {Q} `{FifoLog Q client_ctx_t} rand mb cc cfuel sha1 sfuel hc wfuel ops rns T
    (l : list (member Q)) :
  l <> [] -> (forall i, 0 <= rns i /\ rns i + zlen ops <= INT_MAX) ->
  Forall (holds T) l -> ops_ok sha1 ops T ->
  serve rand mb cc cfuel sha1 sfuel hc wfuel ops rns T l.
Proof.
  revert rns T l. induction ops as [|o ops IH]; intros rns T l Hne Hrns HT Hops; [by split|].
  destruct Hops as [Ho Hops]. setoid_rewrite zlen_cons in Hrns. pose proof (zlen_nonneg ops). split; [done|].
  destruct (Hrns (uo_client o)) as [Hrn Hmax].
  destruct (op_buf sha1 T o (rns (uo_client o)) Ho) as [buf Hbuf]; [int_lia|]. exists buf. split; [done|].
  intros l' Hs Hre Hnd Hin. pose proof (holds_same T l l' Hs HT) as HT'.
  destruct (ops_served rand mb cc cfuel sha1 sfuel hc wfuel T o (rns (uo_client o)) buf l' Ho ltac:(lia) HT' Hbuf Hin)
    as [ps Hps].
  assert (l' <> []) as Hne' by (intros ->; by apply Forall2_nil_inv_r in Hs).
  exists ps. split; [exact Hps|]. split.
  - apply (answered (uo_client o) (rns (uo_client o)) (shows o)); [done..|]. clear -Hps.
    induction Hps as [|x p l ps (w1 & _ & _ & _ & _ & _ & Hx) _ IH]; by constructor.
  - apply IH; [|intros i; unfold count_op; specialize (Hrns i); case_if; lia|by eapply holds_next|done].
    destruct Hps; [done|discriminate].
Qed.

(** Two replicas; a client puts the bread on the list and another one takes it off. *)
Definition buy_bread : user_op :=
  {| uo_client := 5; uo_msg := CAdd bread_message; uo_key := bread_key; uo_effect := fun l => l ++ [⟦"bread"⟧] |}.
Definition bread_done : user_op :=
  {| uo_client := 6; uo_msg := CRemove demo_remove; uo_key := bread_key; uo_effect := @tail bytes |}.
Definition nothing : todo := fun _ => [].

Lemma buy_bread_ok T : op_ok demo_sha1 T buy_bread.
Proof.
  apply (op_add demo_sha1 T 5 bread_message ⟦"bread"⟧ ⟦"today"⟧ bread_key); try done; try by vm_compute.
  - split; [apply (bool_decide_unpack _); exact I|done].
  - split; [apply (bool_decide_unpack _); exact I|done].
Qed.

Lemma same_server_refl {Q} (x : member Q) : same_server x x.
Proof. by repeat split. Qed.

Lemma demo_holds fd input : holds nothing (demo_member fd dirty_malloc input).
Proof.
  constructor; [apply active_idle|apply dirty_malloc_ok|intros n; by eexists|].
  intros k. unfold tasks_at, view. change (r_db (mb_replica _)) with (hash_table_init {| data := []; data_size := 0; allocs := O; file_counter := 0; files := ∅ |}).
  by rewrite bucket_empty.
Qed.

Lemma service_refines_todo_witness : exists p1 p2 x,
  Forall2 (serves_op 0 (fun _ => true) (fun _ => true) 5 demo_sha1 1 (fun _ => Ret) 5 1 buy_bread) demo_members [p1; p2]
  /\ send_and_get_response 5 [net_ok 4; net_ok 5]
       (fun fd => one_piece (if fd =? 4 then p1.2 else p2.2)) (fun _ _ => true) 6 2 response_zero 0 = Ret (0, x)
  /\ serve 0 (fun _ => true) (fun _ => true) 5 demo_sha1 1 (fun _ => Ret) 5 [bread_done] (count_op buy_bread (fun _ => 1))
       (apply_op buy_bread nothing) (zip_with moved_on demo_members [p1; p2]).
Proof.
  destruct (service_refines_todo 0 (fun _ => true) (fun _ => true) 5 demo_sha1 1 (fun _ => Ret) 5
    [buy_bread; bread_done] (fun _ => 1) nothing demo_members) as [_ (buf & B & Hr)].
  - done.
  - intros _. by vm_compute.
  - repeat (apply Forall_cons_2; [apply demo_holds|]). apply Forall_nil_2.
  - split.
    { apply buy_bread_ok. }
    split; [|done]. apply op_remove; [done|by vm_compute|by vm_compute|by vm_compute].
  - change (client_text _ _ (uo_msg buy_bread)) with (create_add_message_to_server 1 bread_message 5) in B.
    assert (buf = bread_buf) as -> by (unfold bread_buf; by rewrite B).
    destruct (Hr demo_members) as (ps & Hps & Hx & Hs).
    { repeat (apply Forall2_cons_2; [apply same_server_refl|]). apply Forall2_nil_2. }
    { repeat (apply Forall_cons_2; [by repeat split|]). apply Forall_nil_2. }
    { by apply (bool_decide_unpack _). }
    { repeat apply Forall_cons_2; try apply Forall_nil_2; (split; [|by vm_compute]);
        repeat (apply Forall_cons_2; [by vm_compute|]); apply Forall_nil_2. }
    assert (exists p1 p2, ps = [p1; p2]) as (p1 & p2 & ->).
    { apply Forall2_length in Hps. destruct ps as [|p1 [|p2 [|]]]; try discriminate Hps. by exists p1, p2. }
    destruct (Hx (fun fd => one_piece (if fd =? 4 then p1.2 else p2.2)) (fun _ _ => true) 0%nat 2%nat 0%nat response_zero)
      as (x & E & _).
    + repeat apply Forall2_cons_2; try apply Forall2_nil_2; apply one_piece_ok.
    + intros i e Hi. lia.
    + by apply Exists_cons_hd.
    + lia.
    + exists p1, p2, x. split; [exact Hps|]. split; [exact E|exact Hs].
Defined.
