(* ===== verification/Takeover.v ===== *)
(** The loss of the primary in passive mode, across all programs: from the report
    of a fault detector through the replication manager and the factory of the
    next replica to that replica as the new primary. *)
From S2P Require Import Prelude CLib Iface Util Request Fifo Control Db Storage Replica Server Worker.
From S2P Require Import Failover Reply RepMgr Factory Lfd Wire Protocol Orders Session.
From S2P Require MsgLog.

(** * The election *)

(** The manager's addresses are printable, as those of its configuration file
    are. *)
Record rm_printable (d : rep_manager) : Prop := {
  rp_nodes : Forall (fun n => field_text_ok 1024 (cstr (server_ip (nd_server n))) /\ is_i32 (port (nd_server n))) (node d);
  rp_freq : is_i32 (checkpoint_freq d)
}.

(** What the manager tells the replica [p] it makes the primary. *)
Definition node_peer (d : rep_manager) (i : Z) : peer :=
  let s := default SERVER_INFO_INITIALISER (nd_server <$> node d !! Z.to_nat i) in
  {| pr_id := i; pr_ip := cstr (server_ip s); pr_port := port s |}.
Definition election (d : rep_manager) (p : Z) : change :=
  {| ch_mode := if mode d =? 0 then PASSIVE_REP else ACTIVE_REP;
     ch_state := if mode d =? 0 then PASSIVE_PREPRIMARY else ACTIVE_RUNNING;
     ch_peers := Some (checkpoint_freq d, node_peer d (other_replicas p).1, node_peer d (other_replicas p).2) |}.

Lemma node_peer_ok d i : rm_addr_ok d -> rm_printable d -> 0 <= i < 3 ->
  exists n, RepMgr.node_at i d = Ret n /\ c_string (server_ip (nd_server n)) = Ret (pr_ip (node_peer d i))
    /\ pr_port (node_peer d i) = port (nd_server n) /\ peer_ok (node_peer d i).
Proof.
  intros [Hl Ha _] [Hp _] Hi. destruct (node_at_lookup d i Hl Hi) as (n & E & Hn). exists n. split; [done|].
  rewrite Forall_lookup in Ha, Hp. destruct (Ha _ _ Hn) as [Hnul _]. destruct (Hp _ _ Hn) as [Hf Hport].
  unfold node_peer. rewrite Hn. cbn [fmap option_fmap option_map default pr_ip pr_port].
  split; [unfold c_string; by rewrite Hnul|]. split; [done|].
  constructor; cbn [pr_id pr_ip pr_port]; [int_lia|done|done].
Qed.

Lemma election_printed d p : rm_addr_ok d -> rm_printable d -> mode d = 0 \/ mode d = 1 -> 0 <= p < 3 ->
  manager_prints d p (fill_message_for_primary_election p d) (election d p) /\ change_ok (election d p).
Proof.
  intros Ha Hp Hm Hr. destruct (other_replicas_spec p Hr) as (a & b & Eo & Hra & Hrb & _).
  destruct (node_peer_ok d a Ha Hp Hra) as (na & Ea & Ca & Pa & Oa).
  destruct (node_peer_ok d b Ha Hp Hrb) as (nb & Eb & Cb & Pb & Ob).
  unfold election. rewrite Eo. cbn [fst snd]. split.
  - pose proof (prints_election d p a b na nb _ _ Eo Ea Eb Ca Cb Hm) as H.
    rewrite <- Pa, <- Pb in H. exact H.
  - constructor; cbn [ch_mode ch_state ch_peers]; [by destruct (mode d =? 0)..|].
    split; [by destruct (mode d =? 0)|]. split; [apply Hp|done].
Qed.

(** * The manager *)

Section Manager.
Variable env : nat -> net_step.
Variable junk : bytes.
Hypothesis Henv : reach env.

(** A report that the primary is faulted, handled to its end. *)
Lemma manager_moves_on d m id n text : rm_addr_ok d -> lock_held d = false -> mode d = 0 ->
  rmm_replica_id m = id -> rmm_state m = FAULTED -> 0 <= id < 3 -> primary_replica_id d = id ->
  node d !! Z.to_nat id = Some n -> nd_state n <> SENT_STARTUP_REQ ->
  fill_message_for_primary_election ((id + 1) mod 3) d = Ret text ->
  exists d', handle_state env junk m d = Ret (0, d') /\ lock_held d' = false
    /\ primary_replica_id d' = (id + 1) mod 3
    /\ delivered (rm_net d') = delivered (rm_net d)
         ++ [(fac d id, junk_buf junk (startup_text id n)); (fac d ((id + 1) mod 3), zero_buf text)].
Proof using Henv.
  intros Hok Hlock Hmode Hid Hst Hr Hp Hn Hns Ht. pose proof (ra_nodes d Hok) as Hl.
  rewrite <- Hid in Hr. destruct (upd_report_view m (set_lock true d) Hl Hr) as (d1 & Hu & Hv & _).
  assert (same_view d d1) as Hv' by exact Hv. clear Hv. pose proof Hv' as (V1 & V2 & V3 & V4 & V5 & V6 & V7 & V8).
  pose proof (same_view_ok _ _ Hv' Hok) as Hok1. rewrite Hid in Hr.
  destruct (node_at_lookup d1 id (ra_nodes d1 Hok1) Hr) as (n1 & En1 & Hn1).
  assert (nd_state n1 = nd_state n /\ startup_text id n1 = startup_text id n) as [Hs1 Htxt].
  { pose proof (states_lookup _ _ (Z.to_nat id) V1) as Hx. rewrite Hn1, Hn in Hx. injection Hx as Hx.
    split; [done|]. pose proof (f_equal (fun l => l !! Z.to_nat id) V3) as Hy. cbv beta in Hy.
    change (map nd_server ?l) with (nd_server <$> l) in Hy. rewrite !list_lookup_fmap, Hn1, Hn in Hy.
    injection Hy as Hy. unfold startup_text. by rewrite Hy. }
  destruct (primary_failover env junk d1 id n1 Henv Hok1 Hr) as (e & d2 & He & Hf & Hd & Hp2 & _ & _);
    [by rewrite V4|done|].
  assert (e = text) as ->.
  { rewrite (fill_ext _ d d1 V3 V5 V6), Ht in He. by injection He. }
  assert (length (node d2) = 3%nat /\ num_replicas d2 = num_replicas d1) as [Hl2 Hc2].
  { destruct (passive_faulted_local _ _ _ _ _ _ Hf) as [(H1 & _ & H3 & _) _]. rewrite H1. split; [apply Hok1|done]. }
  destruct (node_at_lookup d2 id Hl2 Hr) as (n2 & En2 & _).
  set (d3 := set_node_list (alter (set_nd_state FAULTED) (Z.to_nat id) (node d2)) d2).
  assert (react env junk m d1 = Ret (0, false, d3)) as Hre.
  { unfold react. rewrite Hid, En1, bind_ret_l, Hst. change (FAULTED =? RUNNING) with false.
    change (FAULTED =? FAULTED) with true. cbv iota. rewrite Hs1, (proj2 (Z.eqb_neq _ _) Hns). cbn [negb].
    rewrite V5, Hmode. cbn [Z.eqb]. rewrite Hf, bind_ret_l. unfold upd_node. by rewrite En2. }
  destruct (handle_state_end env junk m d d1 0 d3 Hlock) as (d' & Hh & Hlk & Hnet & _ & Hpr); [by rewrite Hid|exact Hu|exact Hre| | |].
  { simpl. by rewrite length_alter. }
  { simpl. rewrite Hc2. apply Hok1. }
  exists d'. split; [done|]. split; [done|].
  rewrite Hpr, Hnet. split; [exact Hp2|]. cbn [rm_net set_node_list d3]. rewrite Hd, V8, Htxt.
  assert (forall i, fac d1 i = fac d i) as Hfac.
  { intros i. unfold fac. f_equal. rewrite <- !list_lookup_fmap. change (nd_factory <$> ?l) with (map nd_factory l).
    by rewrite V2. }
  by rewrite !Hfac.
Qed.
End Manager.

(** * The new primary *)

(** A backup that holds nothing but requests that change the table. *)
Record backup_with {Q} `{FifoLog Q client_ctx_t} (l : list client_ctx_t) (w : replica Q) (a : log_abs client_ctx_t)
  : Prop := {
  bw_ctl : ctl_ok (r_ctl w);
  bw_mode : rep_mode (r_ctl w) = PASSIVE_REP;
  bw_state : state (r_ctl w) = PASSIVE_BACKUP;
  bw_freq : 0 < checkpoint_freq_g (r_ctl w);
  bw_db : db_wf (r_db w);
  bw_prune : is_prune w = 0;
  bw_log : lq_rep (r_log w) a;
  bw_normal : normal_msgs a = l;
  bw_control : control_msgs a = [];
  bw_limits : 0 < normal_max a /\ 0 < control_max a;
  bw_changes : Forall task_change l;
  bw_backlog : Forall (fun c => is_backlog c = true) l
}.

(** The control state after the election. *)
Definition elected (d : rep_manager) (p : Z) (k : ctl) : ctl :=
  {| rep_mode := PASSIVE_REP; state := PASSIVE_PREPRIMARY; prev_state := prev_state k;
     signal_exit_checkpt_thread := 0; is_chkpt_thrd_running := 0; checkpoint_freq_g := checkpoint_freq d;
     bckup_svr_0 := peer_ctx (-1) (node_peer d (other_replicas p).1);
     bckup_svr_1 := peer_ctx 0 (node_peer d (other_replicas p).2); chk_thread := None |}.

(** The elected backup works off its backlog and becomes the primary. *)
Lemma backlog_executed {Q} `{FifoLog Q client_ctx_t} d p malloc sha1 sfuel hc wfuel (w w2 : replica Q) a l :
  malloc_ok malloc -> (forall k, is_Some (malloc k)) -> backup_with l w a ->
  r_ctl w2 = elected d p (r_ctl w) -> ctl_ok (elected d p (r_ctl w)) -> r_db w2 = r_db w -> is_prune w2 = is_prune w ->
  lq_rep (r_log w2) a ->
  let hn := execute_msg malloc sha1 sfuel in
  exists w3 w4, exec_all hn l w2 = Ret w3 /\ run_n hn hc wfuel NORMAL (length l + 1) w2 = Ret w4
    /\ r_db w4 = r_db w3 /\ r_ctl w4 = promoted (elected d p (r_ctl w)) /\ idle w4.
Proof.
  intros Hm Hsome Hw K2 Hk2 D2 P2 L2 hn.
  destruct (failover_drains_backlog malloc sha1 sfuel hc wfuel w2 a l Hm Hsome)
    as (w3 & q & q' & E3 & _ & Hq' & _ & _ & Hd3 & P3 & E4 & _); rewrite ?D2, ?P2; try apply Hw; try done.
  1-2: by rewrite K2.
  exists w3, (set_r_log q' (set_r_ctl (promoted (r_ctl w2)) w3)). rewrite K2 in E4 |- *.
  split; [done|]. split; [exact E4|]. split; [done|]. split; [done|]. constructor; [|done|done|].
  - split; [by apply promote_eq|]. by right.
  - exists (set_msgs NORMAL [] a). split; [exact Hq'|]. split; [done|]. apply Hw.
Qed.

(** C3: the loss of the primary, from the fault detector to the new primary. In
    passive mode the fault detector of the primary reports it faulted. However
    the network cuts the bytes, and whatever the uninitialised buffers and
    messages on the way hold:
    - the manager handles the report to its end, sends a start-up order to the
      factory of the lost replica and an election to that of the next one,
      (id + 1) mod 3, and takes that one for the primary;
    - this factory sends its server one message;
    - the server, a backup with the requests [l] in its log, obeys it in the next
      iteration of its control worker, and then has the two other replicas as
      its backups;
    - [length l + 1] iterations of its normal worker execute exactly [l], in
      order, and make it the primary, with the checkpoint thread running, an
      empty log and a well-formed table: it is ready to serve clients. *)
Theorem takeover {Q} `{FifoLog Q client_ctx_t} env junk lenv fenv jd rm d id n (lf lf' : lfd) fd_data ipmem fork_ok fw
    server_id rand mb cc cfuel fd malloc sha1 sfuel status_ptr pid nenv sjunk wfuel (w : replica Q) a l :
  reach env -> rm_addr_ok d -> rm_printable d -> lock_held d = false -> mode d = 0 -> 0 <= id < 3 ->
  primary_replica_id d = id -> node d !! Z.to_nat id = Some n -> nd_state n <> SENT_STARTUP_REQ ->
  takes lenv (attempts (lf_net lf)) -> is_i32 (lf_server_state lf) ->
  inform_rep_manager rm id lenv jd FAULTED lf = Ret lf' ->
  f_replica_id fd_data = (id + 1) mod 3 -> takes fenv (attempts (fa_net fw)) ->
  malloc_ok malloc -> (forall k, is_Some (malloc k)) -> backup_with l w a ->
  let p := (id + 1) mod 3 in
  let hn := execute_msg malloc sha1 sfuel in
  let hc := execute_msg_ctrl status_ptr pid cc server_id nenv sjunk in
  let order := zero_buf (order_text p (election d p)) in
  let relayed := zero_buf (relayed_text (election d p)) in
  exists report, last (delivered (lf_net lf')) = Some (rm, report) /\
  forall uninit input, clean input -> stream input = report ->
  exists d', handle_fault_detector_message env junk uninit input d = Ret (0, d')
    /\ lock_held d' = false /\ primary_replica_id d' = p
    /\ delivered (rm_net d') = delivered (rm_net d)
         ++ [(fac d id, junk_buf junk (startup_text id n)); (fac d p, order)] /\
  forall funinit finput, clean finput -> stream finput = order ->
  exists fw', handle_replication_manager_message fd_data ipmem fenv fork_ok funinit finput fw = Ret (0, fw')
    /\ delivered (fa_net fw') = delivered (fa_net fw) ++ [(spawned_server fd_data ipmem, relayed)] /\
  forall sinput, clean sinput -> stream sinput = relayed ->
  exists w1 w2 w3 w4, handle_connection server_id rand mb cc cfuel fd sinput w = Ret (0, w1)
    /\ run hn hc wfuel CONTROL w1 = Ret w2 /\ r_ctl w2 = elected d p (r_ctl w) /\ r_db w2 = r_db w
    /\ exec_all hn l w2 = Ret w3
    /\ run_n hn hc wfuel NORMAL (length l + 1) w2 = Ret w4
    /\ r_db w4 = r_db w3 /\ r_ctl w4 = promoted (elected d p (r_ctl w)) /\ idle w4.
Proof.
  intros Henv Hok Hpr Hlock Hmode Hid Hp Hn Hns Hlenv Hss Hinf Hfid Hfenv Hm Hsome Hw p hn hc order relayed.
  assert (0 <= p < 3) as Hpp by (apply Z.mod_pos_bound; lia).
  destruct (election_printed d p Hok Hpr (or_introl Hmode) Hpp) as [Hprints Hchange].
  assert (exists report, last (delivered (lf_net lf')) = Some (rm, report)) as [report Hrep].
  { rewrite inform_ok in Hinf by done. injection Hinf as <-. cbn [delivered lf_net said set_lf_net].
    rewrite last_snoc. by eexists. }
  assert (rep_msg_spec (change_msg (election d p)) (r_ctl w) = Ret (elected d p (r_ctl w))) as Hspec.
  { unfold rep_msg_spec, election. by rewrite (bw_mode _ _ _ Hw), Hmode. }
  pose proof (manager_prints_order _ _ _ _ Hprints) as Htext.
  exists report. split; [exact Hrep|]. intros uninit input Hcl Hst. rewrite <- Hst in Hrep.
  destruct (manager_moves_on env junk Henv d
    {| rmm_replica_id := id; rmm_state := FAULTED; rmm_server_state := lf_server_state lf |} id n _
    Hok Hlock Hmode eq_refl eq_refl Hid Hp Hn Hns Htext) as (d' & Hh & Hlk & Hprim & Hdel).
  exists d'. split.
  { rewrite (report_reaches_manager lenv env junk jd rm id FAULTED lf lf' rm uninit input d);
      [exact Hh|int_lia|done|done|done|exact Hinf|done|exact Hrep]. }
  split; [done|]. split; [exact Hprim|]. split; [exact Hdel|]. intros funinit finput Hfcl Hfst.
  destruct (order_takes_effect d p _ (election d p) fd_data ipmem fenv fork_ok funinit fw
    server_id rand mb cc cfuel fd w a (elected d p (r_ctl w)) hn status_ptr pid nenv sjunk wfuel Hprints Hchange)
    as (text & buf & Ht & _ & -> & Horder).
  1-9: first [int_lia | exact Hspec | apply Hw | done].
  rewrite Htext in Ht. injection Ht as <-. destruct (Horder finput Hfcl Hfst) as (fw' & Hf & Hfd & Hsrv).
  exists fw'. split; [exact Hf|]. split; [exact Hfd|]. intros sinput Hscl Hsst.
  destruct (Hsrv sinput Hscl Hsst) as (w1 & w2 & E1 & E2 & K2 & _ & Hk2 & D2 & P2 & L2 & _).
  destruct (backlog_executed d p malloc sha1 sfuel hc wfuel w w2 a l) as (w3 & w4 & E3 & E4 & Hd4 & K4 & Hi); try done.
  exists w1, w2, w3, w4. split; [exact E1|]. split; [exact E2|]. do 3 (split; [done|]). by split.
Qed.

(** Replica 1 takes over from replica 0. *)
Definition backup_replica q : replica (MsgLog.log_mem (V := client_ctx_t)) :=
  set_r_ctl backup_ctl (set_r_log q (replica_init demo_log)).
Definition lost_primary : rep_manager := demo_manager 0 0 RUNNING.
Definition lost_buf : bytes := report_buf 0 (zeros MAX_LENGTH) FAULTED UNKNOWN_STATE.

Lemma lost_primary_addr : rm_addr_ok lost_primary.
Proof. constructor; [done| |done]. repeat (constructor; [apply demo_addr_ok|]). constructor. Qed.

Lemma lost_primary_printable : rm_printable lost_primary.
Proof.
  constructor; [|done]. repeat (constructor; [split; [split; [apply (bool_decide_unpack _)|]|]; by vm_compute|]).
  constructor.
Qed.

Lemma demo_backup_with s q a : db_wf s -> lq_rep q a -> normal_msgs a = demo_backlog -> control_msgs a = [] ->
  0 < normal_max a /\ 0 < control_max a -> backup_with demo_backlog (set_r_db s (backup_replica q)) a.
Proof.
  intros Hs Hq Hn Hc Hmax. constructor; try done.
  - apply ctl_reachable_ok. eapply rtc_l; [|apply rtc_refl].
    by eapply (step_rep_msg {| rm_rep_mode := PASSIVE_REP; rm_server_state := PASSIVE_BACKUP;
      rm_checkpoint_freq := 10; rm_bckup_svr_0 := BSVR_CTX_ZERO; rm_bckup_svr_1 := BSVR_CTX_ZERO |}).
  - constructor; [left; split; [done|split; [by vm_compute|by vm_compute]]|].
    constructor; [by right|constructor].
  - by repeat constructor.
Qed.

Lemma takeover_witness :
  exists q d' order fw' buf w1 w2 w4,
    handle_fault_detector_message net_up [] (report 7 7)
      [Chunk (take 30 lost_buf); Eintr; Chunk (drop 30 lost_buf)] lost_primary = Ret (0, d')
    /\ primary_replica_id d' = 1 /\ last (delivered (rm_net d')) = Some (demo_addr 101, order)
    /\ handle_replication_manager_message demo_factory (server_ip (demo_addr 0)) net_up true dirty_message
         [Chunk order] quiet_factory = Ret (0, fw')
    /\ map snd (delivered (fa_net fw')) = [buf]
    /\ handle_connection 1 0 (fun _ => true) (fun _ => true) 1 9 [Chunk buf] (backup_replica q) = Ret (0, w1)
    /\ run (execute_msg dirty_malloc demo_sha1 1) (execute_msg_ctrl (fun _ => 0) 0 (fun _ => true) 1 net_up []) 9
         CONTROL w1 = Ret w2
    /\ run_n (execute_msg dirty_malloc demo_sha1 1) (execute_msg_ctrl (fun _ => 0) 0 (fun _ => true) 1 net_up []) 9
         NORMAL 3 w2 = Ret w4
    /\ idle w4.
Proof.
  destruct (impl_run_spec (map put_normal demo_backlog) demo_log (abs_init 50 50)) as (q & _ & Hq);
    [apply MsgLog.log_rep_init|].
  destruct (takeover net_up [] net_good net_up (zeros MAX_LENGTH) SERVER_INFO_INITIALISER lost_primary 0 (demo_node RUNNING 0)
    lfd_init (said SERVER_INFO_INITIALISER 0 (zeros MAX_LENGTH) FAULTED lfd_init) demo_factory (server_ip (demo_addr 0))
    true quiet_factory 1 0 (fun _ => true) (fun _ => true) 1 9 dirty_malloc demo_sha1 1 (fun _ => 0) 0 net_up [] 9
    (backup_replica q) (spec_run (map put_normal demo_backlog) (abs_init 50 50)).2 demo_backlog)
    as (rep & Hrep & H1).
  - intros n. by simpl.
  - exact lost_primary_addr.
  - exact lost_primary_printable.
  - reflexivity.
  - reflexivity.
  - done.
  - reflexivity.
  - reflexivity.
  - done.
  - by repeat split.
  - done.
  - apply inform_ok. by repeat split.
  - reflexivity.
  - by repeat split.
  - apply dirty_malloc_ok.
  - intros n. by eexists.
  - by apply (demo_backup_with (r_db (backup_replica q))); [apply hash_table_init_wf|..].
  - assert (rep = lost_buf) as -> by (by injection Hrep).
    destruct (H1 (report 7 7) [Chunk (take 30 lost_buf); Eintr; Chunk (drop 30 lost_buf)])
      as (d' & E1 & _ & P1 & D1 & H2).
    + repeat (apply Forall_cons_2; [first [vm_compute; discriminate | exact I]|]). apply Forall_nil_2.
    + reflexivity.
    + destruct (H2 dirty_message [Chunk (zero_buf (order_text 1 (election lost_primary 1)))]) as (fw' & E2 & D2 & H3).
      * apply zero_buf_clean.
      * apply app_nil_r.
      * destruct (H3 [Chunk (zero_buf (relayed_text (election lost_primary 1)))])
          as (w1 & w2 & w3 & w4 & E3 & E4 & _ & _ & _ & E5 & _ & _ & Hi).
        -- apply zero_buf_clean.
        -- apply app_nil_r.
        -- eexists q, d', _, fw', _, w1, w2, w4. split; [exact E1|]. split; [exact P1|].
           split; [by rewrite D1|]. split; [exact E2|]. split; [by rewrite D2|]. split; [exact E3|].
           split; [exact E4|]. split; [exact E5|exact Hi].
Defined.
