(* ===== verification/Recovery.v ===== *)
(** The return of a replica in active mode: the quiescence of the running
    replicas, the checkpoint of the primary and the way back, and what becomes
    of the requests that are in the logs meanwhile. *)
From S2P Require Import Prelude CLib Iface Util Request Fifo Control Db Storage Replica Server Worker.
From S2P Require Import Failover Agreement RepMgr Factory Lfd Wire Transfer Orders.
From S2P Require MsgLog.

(** * What the steps leave alone *)

(** Additions and removals touch no file. *)
Lemma change_files malloc sha1 sfuel c s r c' s' : task_change c ->
  handle_storage malloc sha1 sfuel c s = Ret (r, c', s') -> files s' = files s.
Proof.
  intros Hc. unfold handle_storage. cbv zeta. destruct Hc as [(Ht & _)|Ht]; rewrite Ht; simpl Z.eqb; cbv iota.
  - destruct (generate_key _ _ _ _); [|done..]. rewrite bind_ret_l. unfold hash_table_insert.
    repeat (case_match; try done); intros [= _ _ <-]; done.
  - unfold hash_table_delete. destruct (delete_loop _ _) as [[d l]|]; by intros [= _ _ <-].
Qed.

(** * Executing what the log holds *)

Section Execute.
Context {Q : Type} `{FifoLog Q client_ctx_t}.
Variable malloc : nat -> option data_point.
Hypothesis malloc_zero : forall n, exists d, malloc n = Some d /\ zlen (raw_data d) = MAX_DATA_LEN
  /\ last (raw_data d) = Some NUL.
Variable sha1 : bytes -> option bytes.
Variable sfuel : nat.

Lemma zero_ok : malloc_ok malloc.
Proof using malloc_zero.
  intros n d Hd. destruct (malloc_zero n) as (d' & E & Hz & _). rewrite E in Hd. by injection Hd as <-.
Qed.

Lemma zero_some n : is_Some (malloc n).
Proof using malloc_zero. destruct (malloc_zero n) as (d & E & _). by exists d. Qed.

(** Requests that change the table leave everything else. *)
Lemma exec_changes l : forall (w : replica Q), ctl_ok (r_ctl w) -> is_preprimary (r_ctl w) = false ->
  db_wf (r_db w) -> Forall task_change l ->
  exists w', exec_all (execute_msg malloc sha1 sfuel) l w = Ret w' /\ r_ctl w' = r_ctl w
    /\ db_wf (r_db w') /\ files (r_db w') = files (r_db w).
Proof using malloc_zero.
  induction l as [|c l IH]; intros w Hk Hp Hw Hc; cbn [exec_all]; [by exists w|].
  apply Forall_cons_1 in Hc as [Hc Hl].
  destruct (task_change_returns malloc zero_ok zero_some sha1 sfuel c (r_db w) Hc Hw) as (r & c' & d & Ed & Hd).
  pose proof (change_files malloc sha1 sfuel _ _ _ _ _ Hc Ed) as Hf.
  destruct (execute_msg_eq malloc sha1 sfuel c w r c' d Hk Ed) as (w1 & -> & K & D & _).
  unfold exec_ctl in K. rewrite Hp in K. cbn [andb] in K. rewrite bind_ret_l.
  destruct (IH w1) as (w' & E & K' & Hw' & F'); [by rewrite K|by rewrite K|by rewrite D|done|].
  exists w'. split; [exact E|]. split; [by rewrite K', K|]. split; [done|]. by rewrite F', D.
Qed.

(** Whatever was executed before the checkpoint, the table after it is the
    sender's. *)
Lemma exec_checkpoint status_ptr s fd id num rand bid text b l (w : replica Q) :
  (forall z, is_i32 (status_ptr z)) -> db_wf s -> Forall node_text (concat (data s)) ->
  export_nodes status_ptr (concat (data s)) = Ret text ->
  ctl_ok (r_ctl w) -> is_preprimary (r_ctl w) = false -> db_wf (r_db w) -> Forall task_change l ->
  let content := text ++ ⟦"FILE_END"⟧ ++ [LF] in
  files (r_db w) !! payload_name rand bid = Some content ->
  exists w', exec_all (execute_msg malloc sha1 sfuel)
      (l ++ [set_is_backlog b (chkpt_ctx fd id num bid rand content)]) w = Ret w'
    /\ r_ctl w' = r_ctl w /\ db_wf (r_db w') /\ tbl_same s (r_db w').
Proof using malloc_zero.
  intros Hst Hw Hnt Hexp Hk Hp Hd Hl content Hf.
  destruct (exec_changes l w Hk Hp Hd Hl) as (w1 & E1 & K1 & D1 & F1).
  destruct (apply_checkpoint malloc sha1 malloc_zero status_ptr sfuel s fd id num rand bid text b (r_db w1))
    as (d & E2 & Hwd & Heq & _ & _); try done; [by rewrite F1|].
  fold content in E2. fold (chkpt_ctx fd id num bid rand content) in E2.
  destruct (execute_msg_eq malloc sha1 sfuel _ w1 _ _ d ltac:(by rewrite K1) E2) as (w2 & E3 & K2 & D2 & _).
  exists w2. rewrite exec_all_app, E1, bind_ret_l. cbn [exec_all]. rewrite E3, bind_ret_l.
  split; [done|]. split; [rewrite K2; unfold exec_ctl; by rewrite K1, Hp|].
  rewrite D2. split; [done|]. exact Heq.
Qed.
End Execute.

(** * The primary *)

(** A running replica that can send its table. *)
Record sender_ok {Q} `{FifoLog Q client_ctx_t} (status_ptr : Z -> Z) (pid : Z) (can_create : bytes -> bool) (p : replica Q)
    (a : log_abs client_ctx_t) : Prop := {
  so_ctl : ctl_ok (r_ctl p);
  so_mode : rep_mode (r_ctl p) = ACTIVE_REP;
  so_state : state (r_ctl p) = ACTIVE_RUNNING;
  so_prune : is_prune p = 0;
  so_db : db_wf (r_db p);
  so_text : Forall node_text (concat (data (r_db p)));
  so_file : can_create (export_name pid (r_db p)) = true;
  so_num : 0 <= chk_point_num p <= INT_MAX;
  so_size : forall text, export_nodes status_ptr (concat (data (r_db p))) = Ret text -> zlen text + 9 <= INT_MAX;
  so_control : control_msgs a = [];
  so_limit : 0 < control_max a
}.

Section Primary.
Context {Q : Type} `{FifoLog Q client_ctx_t}.
Variable status_ptr : Z -> Z.
Variable pid : Z.
Variable can_create : bytes -> bool.
Variables server_id rand : Z.
Variable malloc_bytes : Z -> bool.
Variable env : nat -> net_step.
Variable junk : bytes.
Hypothesis Henv : reach env.
Variable hn : client_ctx_t -> replica Q -> outcome (replica Q).
Variables cfuel wfuel : nat.

Let hc : client_ctx_t -> replica Q -> outcome (replica Q) :=
  execute_msg_ctrl status_ptr pid can_create server_id env junk.

(** The command to send a checkpoint, from its bytes to the two messages. *)
Lemma chkpt_command fd input (w : replica Q) a text :
  clean input -> stream input = order_buf MSG_SEND_CHKPT -> lq_rep (r_log w) a -> control_msgs a = [] ->
  0 < control_max a -> prev_state (r_ctl w) <> ACTIVE_RECOVER ->
  can_create (export_name pid (r_db w)) = true -> Forall node_text (concat (data (r_db w))) ->
  export_nodes status_ptr (concat (data (r_db w))) = Ret text ->
  let bytes := chkpt_bytes server_id (chk_point_num w) (text ++ ⟦"FILE_END"⟧ ++ [LF]) in
  exists w1 w2, handle_connection server_id rand malloc_bytes can_create cfuel fd input w = Ret (0, w1)
    /\ run hn hc wfuel CONTROL w1 = Ret w2
    /\ lq_rep (r_log w2) a /\ data (r_db w2) = data (r_db w)
    /\ (exists b0 b1, r_ctl w2 = set_bckup_servers b0 b1 (r_ctl w)) /\ is_prune w2 = is_prune w
    /\ (db_wf (r_db w) -> db_wf (r_db w2))
    /\ delivered (net_out w2) = delivered (net_out w)
         ++ [(bs_info (bckup_svr_0 (r_ctl w)), bytes); (bs_info (bckup_svr_1 (r_ctl w)), bytes)].
Proof using Henv.
  intros Hcl Hst Ha Hempty Hmax Hprev Hcan Hnt Hexp bytes.
  destruct (zero_buf_app (message (server_head 0 0 MSG_SEND_CHKPT))) as [rest Hrest].
  unfold order_buf in Hst. rewrite Hrest in Hst.
  destruct (message_taken server_id rand malloc_bytes can_create cfuel fd input (server_head 0 0 MSG_SEND_CHKPT)
    rest (command_ctx fd MSG_SEND_CHKPT) w a) as (w1 & E1 & L1 & K1 & D1 & S1 & P1 & _); try done.
  { fields_ok. }
  { unfold has_room. change (queue_of (command_ctx fd MSG_SEND_CHKPT)) with CONTROL. cbn [msgs limit].
    rewrite Hempty. by apply Z.ltb_lt. }
  pose proof (connection_outbox server_id rand malloc_bytes can_create cfuel fd input w w1 0 E1) as O1.
  injection O1 as N1 C1. set (c := set_is_backlog (arrives_as_backlog (r_ctl w)) (command_ctx fd MSG_SEND_CHKPT)).
  destruct (run_control hn hc wfuel w1 _ c [] L1) as (q & Hq & E2).
  { unfold logged. change (queue_of (command_ctx fd MSG_SEND_CHKPT)) with CONTROL. cbn [msgs set_msgs control_msgs].
    by rewrite Hempty. }
  destruct (send_checkpoint_up status_ptr pid can_create server_id env junk (set_r_log q w1) text Henv)
    as (p' & E3 & D3 & L3 & _ & (b0 & b1 & K3) & P3 & W3 & _ & N3); try (cbn [r_db set_r_log]; by rewrite D1).
  cbn [r_db r_ctl r_log net_out chk_point_num is_prune set_r_log] in *.
  assert (hc c (set_r_log q w1) = Ret (close_fd (cc_fd c) (reply c ⟦"OK"⟧ ⟦"Success"⟧ p'))) as E4.
  { unfold hc, execute_msg_ctrl. cbv zeta. change (msg_type (req c)) with MSG_SEND_CHKPT.
    change (MSG_SEND_CHKPT =? MSG_REP_MGR) with false. change (MSG_SEND_CHKPT =? MSG_HEARTBEAT) with false.
    change (MSG_SEND_CHKPT =? MSG_SEND_CHKPT) with true. cbv iota. cbn [r_ctl set_r_log].
    rewrite K1, (proj2 (Z.eqb_neq _ _) Hprev). cbn [negb]. by rewrite E3. }
  rewrite E4, reply_eq in E2. set (w2 := set_sent _ p') in E2.
  destruct (close_fd_frame (cc_fd c) w2) as (F1 & F2 & F3 & F4 & _).
  assert (net_out (close_fd (cc_fd c) w2) = net_out w2) as F5 by exact (f_equal fst (close_outbox (cc_fd c) w2)).
  exists w1, (close_fd (cc_fd c) w2). split; [exact E1|]. split; [exact E2|].
  rewrite F1, F2, F3, F4, F5. cbn [w2 set_sent r_ctl r_db r_log is_prune net_out].
  rewrite L3, D3, D1, P3, P1, N3, N1, C1, K1.
  assert (set_msgs CONTROL [] (logged (r_ctl w) (command_ctx fd MSG_SEND_CHKPT) a) = a) as Hset.
  { unfold logged. change (queue_of (command_ctx fd MSG_SEND_CHKPT)) with CONTROL.
    cbn [msgs set_msgs control_msgs normal_msgs normal_max control_max]. rewrite <- Hempty. by destruct a. }
  rewrite Hset in Hq. split; [exact Hq|]. split; [done|]. split; [exists b0, b1; by rewrite K3, K1|].
  split; [by unfold prunes|]. rewrite D1 in W3. by split.
Qed.
End Primary.

(** * The two replicas *)

(** The replica that comes back. *)
Record joiner_ok {Q} `{FifoLog Q client_ctx_t} (w : replica Q) : Prop := {
  jo_ctl : ctl_ok (r_ctl w);
  jo_mode : rep_mode (r_ctl w) = ACTIVE_REP;
  jo_state : state (r_ctl w) = ACTIVE_RECOVER;
  jo_prune : is_prune w = 0;
  jo_db : db_wf (r_db w)
}.

Lemma active_worker {Q} (w : replica Q) : ctl_ok (r_ctl w) -> rep_mode (r_ctl w) = ACTIVE_REP ->
  state (r_ctl w) <> QUIESCE -> is_prune w = 0 -> steady w.
Proof.
  intros Hk Hm Hs Hp. split; [constructor; [done|done|]|done].
  unfold should_nrl_thrd_sleep, get_mode. by rewrite Hm.
Qed.

Section Rejoin.
Context {Q : Type} `{FifoLog Q client_ctx_t}.
Variable status_ptr : Z -> Z.
Variable pid : Z.
Variable can_create : bytes -> bool.
Variables server_id bid rand : Z.
Variable malloc_bytes : Z -> bool.
Variable env : nat -> net_step.
Variable junk : bytes.
Variables cfuel wfuel : nat.
Variables malloc malloc' : nat -> option data_point.
Variable sha1 : bytes -> option bytes.
Variable sfuel : nat.
Variable hc : client_ctx_t -> replica Q -> outcome (replica Q).

Let hp : client_ctx_t -> replica Q -> outcome (replica Q) := execute_msg malloc sha1 sfuel.
Let hw : client_ctx_t -> replica Q -> outcome (replica Q) := execute_msg malloc' sha1 sfuel.
Let hcp : client_ctx_t -> replica Q -> outcome (replica Q) :=
  execute_msg_ctrl status_ptr pid can_create server_id env junk.

(** The pieces in which a server gets an order without contents. *)
Definition gets (t : Z) (input : list rd_event) : Prop := clean input /\ stream input = order_buf t.

(** The recovery, however the network cuts its messages, ends in two states with
    [P]: both replicas are quiesced; the primary is told to send its table, and
    its control worker does; the checkpoint arrives at the replica that joins,
    behind the requests [l]; and both are told to go on, the primary with the
    requests [lp] in its log and the other with [l], the checkpoint and [lw]. In
    between requests only pile up: [lp0] are those at the primary when it is
    told to send. *)
Definition recovers (lp0 lp l lw : list client_ctx_t) (ap aw : log_abs client_ctx_t) (p w : replica Q)
    (P : replica Q -> replica Q -> Prop) : Prop :=
  forall fd1 i1 fd2 i2, gets MSG_QUIESCE_START i1 -> gets MSG_QUIESCE_START i2 ->
  exists p1 w1, handle_connection server_id rand malloc_bytes can_create cfuel fd1 i1 p = Ret (0, p1)
    /\ handle_connection bid rand malloc_bytes can_create cfuel fd2 i2 w = Ret (0, w1) /\
  forall q1 fd3 i3, lq_rep q1 (set_msgs NORMAL lp0 ap) -> gets MSG_SEND_CHKPT i3 ->
  exists p2 p3 bytes, handle_connection server_id rand malloc_bytes can_create cfuel fd3 i3 (set_r_log q1 p1) = Ret (0, p2)
    /\ run hp hcp wfuel CONTROL p2 = Ret p3 /\ lq_rep (r_log p3) (set_msgs NORMAL lp0 ap)
    /\ delivered (net_out p3) = delivered (net_out p)
         ++ [(bs_info (bckup_svr_0 (r_ctl p)), bytes); (bs_info (bckup_svr_1 (r_ctl p)), bytes)] /\
  forall q2 fuel fd4 i4, lq_rep q2 (set_msgs NORMAL l aw) -> clean i4 -> stream i4 = bytes -> zlen bytes <= Z.of_nat fuel ->
  exists w2 c, handle_connection bid rand malloc_bytes can_create fuel fd4 i4 (set_r_log q2 w1) = Ret (0, w2)
    /\ msg_type (req c) = MSG_CHK_PT /\ lq_rep (r_log w2) (set_msgs NORMAL (l ++ [c]) aw) /\
  forall qp qw fd5 i5 fd6 i6, lq_rep qp (set_msgs NORMAL lp ap) -> lq_rep qw (set_msgs NORMAL (l ++ c :: lw) aw) ->
    gets MSG_QUIESCE_STOP i5 -> gets MSG_QUIESCE_STOP i6 ->
  exists p4 w3, handle_connection server_id rand malloc_bytes can_create cfuel fd5 i5 (set_r_log qp p3) = Ret (0, p4)
    /\ handle_connection bid rand malloc_bytes can_create cfuel fd6 i6 (set_r_log qw w2) = Ret (0, w3)
    /\ P p4 w3.

Hypothesis Henv : reach env.
Hypothesis malloc_zero : forall n, exists d, malloc' n = Some d /\ zlen (raw_data d) = MAX_DATA_LEN
  /\ last (raw_data d) = Some NUL.
Hypothesis status_range : forall z, is_i32 (status_ptr z).
Hypothesis id_range : is_i32 server_id.
Hypothesis bytes_ok : forall n, malloc_bytes n = true.
Hypothesis files_ok : can_create (payload_name rand bid) = true.

(** The checkpoint of [p] in the log of [w], between [l] and [lw], with its file. *)
Definition holds_checkpoint (l lw : list client_ctx_t) (aw : log_abs client_ctx_t) (p w : replica Q) : Prop :=
  exists fd num text, let content := text ++ ⟦"FILE_END"⟧ ++ [LF] in
  export_nodes status_ptr (concat (data (r_db p))) = Ret text
  /\ files (r_db w) !! payload_name rand bid = Some content
  /\ lq_rep (r_log w) (set_msgs NORMAL (l ++ set_is_backlog false (chkpt_ctx fd server_id num bid rand content) :: lw) aw).

(** How it ends: the primary with its table and its requests, the other with its
    own table and the checkpoint. *)
Record rejoined (l lp lw : list client_ctx_t) (ap aw : log_abs client_ctx_t) (p w p4 w3 : replica Q) : Prop := {
  rj_primary : state (r_ctl p4) = ACTIVE_RUNNING /\ steady p4 /\ data (r_db p4) = data (r_db p)
               /\ db_wf (r_db p4) /\ lq_rep (r_log p4) (set_msgs NORMAL lp ap);
  rj_ctl : r_ctl w3 = upd_prev (state (r_ctl w)) (r_ctl w) /\ ctl_ok (r_ctl w3) /\ steady w3;
  rj_table : data (r_db w3) = data (r_db w) /\ db_wf (r_db w3);
  rj_log : holds_checkpoint l lw aw p w3
}.

Lemma quiesce_start id fd input (w : replica Q) : gets MSG_QUIESCE_START input -> ctl_ok (r_ctl w) ->
  rep_mode (r_ctl w) = ACTIVE_REP ->
  exists w1, handle_connection id rand malloc_bytes can_create cfuel fd input w = Ret (0, w1)
    /\ r_ctl w1 = upd_state QUIESCE (upd_prev (state (r_ctl w)) (r_ctl w)) /\ r_log w1 = r_log w
    /\ r_db w1 = r_db w /\ is_prune w1 = is_prune w /\ outbox w1 = outbox w.
Proof.
  intros [Hc Hs] Hk Hm. destruct (quiesce_start_active _ Hk Hm) as [Hq _].
  destruct (quiesce_received id rand malloc_bytes can_create cfuel fd input MSG_QUIESCE_START w _ (or_introl eq_refl)
    Hc Hs Hq) as (w1 & E & K & L & D & P & _).
  exists w1. split; [exact E|]. do 4 (split; [done|]). by eapply connection_outbox.
Qed.

Lemma quiesce_stop id fd input (w : replica Q) k : gets MSG_QUIESCE_STOP input -> ctl_ok k ->
  rep_mode k = ACTIVE_REP -> state k <> UNKNOWN_STATE -> r_ctl w = upd_state QUIESCE (upd_prev (state k) k) ->
  exists w1, handle_connection id rand malloc_bytes can_create cfuel fd input w = Ret (0, w1)
    /\ r_ctl w1 = upd_prev (state k) k /\ r_log w1 = r_log w /\ r_db w1 = r_db w /\ is_prune w1 = is_prune w
    /\ ctl_ok (r_ctl w1).
Proof.
  intros [Hc Hs] Hk Hm Hst Hw. pose proof (proj2 (quiesce_start_active k Hk Hm)) as Hk1.
  pose proof (quiesce_stop_active k Hk Hm Hst) as Hq. rewrite <- Hw in Hq.
  destruct (quiesce_received id rand malloc_bytes can_create cfuel fd input MSG_QUIESCE_STOP w _ (or_intror eq_refl)
    Hc Hs Hq) as (w1 & E & K & L & D & P & _).
  exists w1. do 5 (split; [done|]). rewrite K. rewrite <- Hw in Hk1. eapply ctl_step_ok; [exact Hk1|].
  by eapply step_quiesce.
Qed.

Lemma recovery lp0 lp l lw ap aw (p w : replica Q) :
  sender_ok status_ptr pid can_create p ap -> joiner_ok w ->
  Forall task_change l -> zlen l < normal_max aw ->
  recovers lp0 lp l lw ap aw p w (rejoined l lp lw ap aw p w).
Proof using Henv malloc_zero status_range id_range bytes_ok files_ok.
  intros Hp Hw Hl Hroom fd1 i1 fd2 i2 G1 G2. destruct Hp as [Kp Mp Sp Pp Dp Tp Fp Np Zp Cp Lp].
  destruct Hw as [Kw Mw Sw Pw Dw].
  destruct (quiesce_start server_id fd1 i1 p G1 Kp Mp) as (p1 & E1 & K1 & _ & D1 & P1 & O1).
  destruct (quiesce_start bid fd2 i2 w G2 Kw Mw) as (w1 & E2 & K2 & _ & D2 & P2 & _).
  injection O1 as N1 C1. exists p1, w1. split; [exact E1|]. split; [exact E2|]. intros q1 fd3 i3 Hq1 [Hc3 Hs3].
  destruct (import_file malloc' status_ptr (r_db p) (malloc_sized malloc' malloc_zero) status_range Dp Tp)
    as (text & Et & _).
  destruct (chkpt_command status_ptr pid can_create server_id rand malloc_bytes env junk Henv hp cfuel wfuel fd3 i3
    (set_r_log q1 p1) (set_msgs NORMAL lp0 ap) text Hc3 Hs3 Hq1) as (p2 & p3 & E3 & E4 & L3 & D3 & (b0 & b1 & K3) & P3 & W3 & N3);
    cbn [r_ctl r_db set_r_log]; rewrite ?K1, ?D1; try done; [by rewrite Sp|].
  cbn [r_ctl r_db r_log net_out chk_point_num is_prune set_r_log] in *. rewrite K1 in K3. rewrite N1, C1, K1 in N3. rewrite D1 in D3, W3.
  eexists p2, p3, _. split; [exact E3|]. split; [exact E4|]. split; [exact L3|]. split; [exact N3|].
  set (content := text ++ ⟦"FILE_END"⟧ ++ [LF]). intros q2 fuel fd4 i4 Hq2 Hc4 Hs4 Hf4.
  assert (0 < zlen content <= INT_MAX) as Hlen.
  { unfold content. rewrite !zlen_app. change (zlen ⟦"FILE_END"⟧) with 8. change (zlen [LF]) with 1.
    pose proof (zlen_nonneg text). specialize (Zp text Et). lia. }
  destruct (checkpoint_logged server_id (chk_point_num p) content bid rand malloc_bytes can_create fuel fd4 i4
    (set_r_log q2 w1) (set_msgs NORMAL l aw)) as (w2 & E5 & L5 & P5 & K5 & D5); try done.
  cbn [r_ctl r_db r_log is_prune set_r_log msgs set_msgs normal_msgs] in *.
  assert (arrives_as_backlog (r_ctl w1) = false) as Hb.
  { unfold arrives_as_backlog, get_mode. rewrite K2. cbn [rep_mode upd_state upd_prev]. by rewrite Mw. }
  rewrite Hb in *. exists w2, (set_is_backlog false (chkpt_ctx fd4 server_id (chk_point_num p) bid rand content)).
  split; [exact E5|]. split; [done|]. split; [exact L5|].
  intros qp qw fd5 i5 fd6 i6 Hqp Hqw G5 G6.
  destruct (quiesce_stop server_id fd5 i5 (set_r_log qp p3) (set_bckup_servers b0 b1 (r_ctl p)) G5)
    as (p4 & E6 & K6 & L6 & D6 & P6 & Kp4); [by destruct Kp|done|by rewrite (Sp : state (set_bckup_servers b0 b1 (r_ctl p)) = _)|done|].
  destruct (quiesce_stop bid fd6 i6 (set_r_log qw w2) (r_ctl w) G6 Kw Mw) as (w3 & E7 & K7 & L7 & D7 & P7 & Kw3);
    [by rewrite Sw|by cbn [r_ctl set_r_log]; rewrite K5|].
  exists p4, w3. split; [exact E6|]. split; [exact E7|]. cbn [r_ctl r_db r_log is_prune set_r_log] in *.
  assert (steady w3) as Hst3 by (apply active_worker; [done|by rewrite K7|by rewrite K7; cbn; rewrite Sw|by rewrite P7, P5, P2]).
  constructor.
  - rewrite K6, L6, D6, D3. split; [exact Sp|]. split; [|split; [done|]; split; [by apply W3|done]].
    apply active_worker; [done|by rewrite K6|by rewrite K6; cbn; rewrite Sp|by rewrite P6, P3, P1].
  - by split.
  - rewrite D7, D5. cbn. rewrite D2. split; [done|]. by destruct Dw.
  - exists fd4, (chk_point_num p), text. rewrite L7, D7, D5. split; [exact Et|]. split; [apply lookup_insert_eq|exact Hqw].
Qed.

(** Working off [l] and the checkpoint gives the table of [p], whatever [l] is. *)
Lemma joiner_drains l lw aw (p w : replica Q) :
  db_wf (r_db p) -> Forall node_text (concat (data (r_db p))) -> steady w -> rep_mode (r_ctl w) = ACTIVE_REP ->
  db_wf (r_db w) -> Forall task_change l -> holds_checkpoint l lw aw p w ->
  exists w4, run_n hw hc wfuel NORMAL (length l + 1) w = Ret w4 /\ steady w4 /\ r_ctl w4 = r_ctl w
    /\ db_wf (r_db w4) /\ tbl_same (r_db p) (r_db w4) /\ lq_rep (r_log w4) (set_msgs NORMAL lw aw).
Proof using malloc_zero status_range.
  intros Dp Tp Hst Hm Dw Hl (fd & num & text & Et & Hf & Hq).
  set (content := text ++ ⟦"FILE_END"⟧ ++ [LF]) in *.
  set (c := set_is_backlog false (chkpt_ctx fd server_id num bid rand content)) in *.
  destruct (drain_prefix hw hc wfuel (execute_msg_frame malloc' sha1 sfuel) (execute_steady malloc' sha1 sfuel)
    (l ++ [c]) lw w _ Hq Hst) as (q & Hq' & E); [by rewrite <- app_assoc|].
  destruct (exec_checkpoint malloc' malloc_zero sha1 sfuel status_ptr (r_db p) fd server_id num rand bid text false l w)
    as (w4 & E4 & K4 & D4 & T4); try done; [apply Hst|by unfold is_preprimary, get_mode; rewrite Hm|].
  fold content in E4. fold c in E4. unfold hw in E. rewrite E4, bind_ret_l, length_app in E. exists (set_r_log q w4). split; [exact E|].
  split; [apply steady_log; eapply (exec_all_steady hw); [apply execute_steady|exact Hst|exact E4]|].
  split; [exact K4|]. split; [exact D4|]. by split.
Qed.

Lemma recovers_impl lp0 lp l lw ap aw p w (P P' : replica Q -> replica Q -> Prop) :
  (forall p4 w3, P p4 w3 -> P' p4 w3) ->
  recovers lp0 lp l lw ap aw p w P -> recovers lp0 lp l lw ap aw p w P'.
Proof.
  intros HP HR fd1 i1 fd2 i2 G1 G2. destruct (HR fd1 i1 fd2 i2 G1 G2) as (p1 & w1 & E1 & E2 & H1).
  exists p1, w1. split; [exact E1|]. split; [exact E2|]. intros q1 fd3 i3 Hq1 G3.
  destruct (H1 q1 fd3 i3 Hq1 G3) as (p2 & p3 & b & E3 & E4 & L3 & N3 & H2).
  exists p2, p3, b. do 4 (split; [done|]). intros q2 fuel fd4 i4 Hq2 C4 S4 F4.
  destruct (H2 q2 fuel fd4 i4 Hq2 C4 S4 F4) as (w2 & c & E5 & T5 & L5 & H3).
  exists w2, c. do 3 (split; [done|]). intros qp qw fd5 i5 fd6 i6 Hqp Hqw G5 G6.
  destruct (H3 qp qw fd5 i5 fd6 i6 Hqp Hqw G5 G6) as (p4 & w3 & E6 & E7 & HPP).
  exists p4, w3. split; [exact E6|]. split; [exact E7|]. by apply HP.
Qed.
End Rejoin.

(** ** One addition *)

Lemma view_data k s s' : data s = data s' -> view s k = view s' k.
Proof. intros E. unfold view, with_key, bucket. by rewrite E. Qed.

(** The next iteration of a worker adds the task of the addition [c'] that comes
    first in its log. Its key is that of the same request [c], on a table [s] of
    another replica. *)
Lemma addition_taken {Q} `{FifoLog Q client_ctx_t} malloc : malloc_ok malloc -> (forall n, is_Some (malloc n)) ->
  forall malloc' sha1 sfuel hc wfuel c c' (w : replica Q) a l k s,
  lq_rep (r_log w) a -> steady w -> db_wf (r_db w) -> normal_msgs a = c' :: l -> same_req c c' ->
  add_ok malloc' sha1 c s k ->
  exists w', run_n (execute_msg malloc sha1 sfuel) hc wfuel NORMAL 1 w = Ret w'
    /\ map fst (view (r_db w') k) = map fst (view (r_db w) k) ++ [ztake (task_len (req c)) (task (req c))].
Proof.
  intros Hm Hs malloc' sha1 sfuel hc wfuel c c' w a l k s L Y W El [Hi Hr] [H1 H2 H3 H4 H5 _].
  destruct (drain_prefix (execute_msg malloc sha1 sfuel) hc wfuel (execute_msg_frame malloc sha1 sfuel)
    (execute_steady malloc sha1 sfuel) [c'] l w a L Y El) as (q & _ & E).
  destruct (execute_add malloc Hm sha1 sfuel c' w k Y W) as (w' & st & E1 & _ & _ & V).
  { rewrite Hr in H1, H2, H3, H4. rewrite Hi in H4. by constructor. }
  cbn [exec_all length] in E. rewrite E1, !bind_ret_l in E. exists (set_r_log q w'). split; [exact E|].
  change (r_db (set_r_log q w')) with (r_db w'). by rewrite (V k), abs_set_at, map_app, Hr.
Qed.

(** * Properties *)

(** A replica comes back in active mode. However the messages of the recovery
    are cut: the start of the quiescence holds the primary and the replica that
    joins; the primary, told to, exports its table and sends it to its two
    backups; the checkpoint is logged by the joining replica behind whatever
    requests [l] it has; and the stop messages bring both back to the states
    they were in. When both then work off their logs, and the requests behind
    the checkpoint are those that wait at the primary, they end alike: both
    return with tables of the same tasks, or both are stuck in the same way.
    Nothing of what the joining replica held or executed before is left. *)
Theorem recovered_replica_agrees {Q} `{FifoLog Q client_ctx_t} status_ptr pid can_create server_id bid rand mb env junk
    cfuel wfuel malloc malloc' sha1 sfuel hc lp0 lp l lw ap aw (p w : replica Q) :
  reach env -> malloc_ok malloc -> (forall n, is_Some (malloc n)) ->
  (forall n, exists d, malloc' n = Some d /\ zlen (raw_data d) = MAX_DATA_LEN /\ last (raw_data d) = Some NUL) ->
  (forall z, is_i32 (status_ptr z)) -> is_i32 server_id -> (forall n, mb n = true) ->
  can_create (payload_name rand bid) = true ->
  sender_ok status_ptr pid can_create p ap -> joiner_ok w -> Forall task_change l -> zlen l < normal_max aw ->
  Forall2 same_req lp lw -> Forall table_request lp ->
  recovers status_ptr pid can_create server_id bid rand mb env junk cfuel wfuel malloc sha1 sfuel
    lp0 lp l lw ap aw p w
    (fun p4 w3 => state (r_ctl p4) = ACTIVE_RUNNING /\ state (r_ctl w3) = ACTIVE_RECOVER
     /\ outcome_rel (fun x y => tbl_same (r_db x) (r_db y))
          (run_n (execute_msg malloc sha1 sfuel) hc wfuel NORMAL (length lp) p4)
          (run_n (execute_msg malloc' sha1 sfuel) hc wfuel NORMAL (length l + 1 + length lw) w3)).
Proof.
  intros Henv Hm Hs Hz Hst Hid Hmb Hcc Hp Hw Hl Hroom Hsame Hreq.
  eapply recovers_impl;
    [|by apply (recovery _ _ _ _ _ _ _ _ _ _ _ _ malloc' _ _ Henv Hz Hst Hid Hmb Hcc lp0 lp l lw ap aw p w Hp Hw Hl)].
  intros p4 w3 [(S4 & Y4 & D4 & _ & L4) (K3 & Kw3 & Y3) [_ W3] HL].
  destruct (joiner_drains status_ptr server_id bid rand wfuel malloc' sha1 sfuel hc Hz Hst l lw aw p w3)
    as (w4 & E4 & Y & _ & _ & T & L); [apply Hp|apply Hp|done|by rewrite K3; apply Hw|done..|].
  split; [exact S4|]. split; [rewrite K3; apply Hw|]. rewrite run_n_app, E4, bind_ret_l.
  destruct (drain (execute_msg malloc sha1 sfuel) hc wfuel (execute_msg_frame malloc sha1 sfuel)
    (execute_steady malloc sha1 sfuel) lp p4 _ L4 Y4 eq_refl) as (q & _ & ->).
  destruct (drain (execute_msg malloc' sha1 sfuel) hc wfuel (execute_msg_frame malloc' sha1 sfuel)
    (execute_steady malloc' sha1 sfuel) lw w4 _ L Y eq_refl) as (q' & _ & ->).
  eapply outcome_rel_bind.
  - apply (exec_all_same malloc malloc' Hm (zero_ok malloc' Hz) Hs (zero_some malloc' Hz) sha1 sfuel lp lw Hsame Hreq);
      [|apply Y4|apply Y]. unfold tbl_same in *. by rewrite D4.
  - intros x y (Hxy & _). exact Hxy.
Qed.

(** A running primary with a table, and a replica that comes back empty. *)
Abbreviation demo_replica := (replica (MsgLog.log_mem (V := client_ctx_t))).
Definition demo_sender : demo_replica :=
  set_r_ctl (active_ctl ACTIVE_RUNNING 0) (set_r_db demo_db (replica_init demo_log)).
Definition demo_joiner : demo_replica := set_r_ctl (active_ctl ACTIVE_RECOVER 0) (replica_init demo_log).
Definition filled (l : list client_ctx_t) : log_abs client_ctx_t := set_msgs NORMAL l (abs_init 50 50).
Definition demo_malloc (n : nat) : option data_point := Transfer.zero_malloc n.

Lemma demo_malloc_zero n : exists d, demo_malloc n = Some d /\ zlen (raw_data d) = MAX_DATA_LEN /\ last (raw_data d) = Some NUL.
Proof. eexists. split; [reflexivity|]. by split. Qed.

Lemma demo_sender_ok : sender_ok (fun _ => 42) 100 (fun _ => true) demo_sender (abs_init 50 50).
Proof.
  constructor; try done.
  - apply active_ctl_ok; [by right; left|by left].
  - apply db_wfb_ok. by vm_compute.
  - apply node_textb_ok. by vm_compute.
  - intros text Ht. vm_compute in Ht. injection Ht as <-. by vm_compute.
Qed.

Lemma demo_joiner_ok : joiner_ok demo_joiner.
Proof.
  constructor; try done; [|apply hash_table_init_wf].
  apply active_ctl_ok; [by right; right; left|by left].
Qed.

Lemma filled_log l : (spec_run (map put_normal l) (abs_init 50 50)).2 = filled l ->
  exists q : MsgLog.log_mem (V := client_ctx_t), lq_rep q (filled l).
Proof.
  intros <-. destruct (impl_run_spec (map put_normal l) demo_log (abs_init 50 50)) as (q & _ & Hq);
    [apply MsgLog.log_rep_init|]. by exists q.
Qed.

Lemma gets_order t : gets t [Chunk (order_buf t)].
Proof. split; [apply zero_buf_clean|apply app_nil_r]. Qed.

(** A recovery of the two that ends with [P], with at most two requests in each
    of the lists, does end. *)
Lemma demo_recovery w lp l lw P :
  recovers (fun _ => 42) 100 (fun _ => true) 1 2 5 (fun _ => true) net_up [] 9 9 dirty_malloc demo_sha1 1
    [] lp l lw (abs_init 50 50) (abs_init 50 50) demo_sender w P ->
  (length lp <= 2)%nat -> (length l <= 2)%nat -> (length lw <= 2)%nat -> exists p4 w3, P p4 w3.
Proof.
  intros HR Hlp Hl Hlw.
  assert (forall l : list client_ctx_t, (length l <= 5)%nat ->
    exists q : MsgLog.log_mem (V := client_ctx_t), lq_rep q (filled l)) as Hlog.
  { intros l' H5. apply filled_log. do 6 (destruct l' as [|? l']; [done|]). cbn [length] in H5. lia. }
  destruct (HR 9 [Chunk (order_buf MSG_QUIESCE_START)] 9 [Chunk (order_buf MSG_QUIESCE_START)])
    as (p1 & w1 & _ & _ & H1); [apply gets_order..|].
  destruct (Hlog []) as [q1 Hq1]; [cbn [length]; lia|].
  destruct (H1 q1 9 [Chunk (order_buf MSG_SEND_CHKPT)] Hq1 (gets_order _)) as (p2 & p3 & b & _ & _ & _ & _ & H2).
  destruct (Hlog l) as [q2 Hq2]; [lia|]. destruct (chunks_of b) as (i4 & C4 & S4).
  destruct (H2 q2 (length b) 9 i4 Hq2 C4 S4) as (w2 & c & _ & _ & _ & H3); [done|].
  destruct (Hlog lp) as [qp Hqp]; [lia|].
  destruct (Hlog (l ++ c :: lw)) as [qw Hqw]; [rewrite length_app; cbn [length]; lia|].
  destruct (H3 qp qw 9 [Chunk (order_buf MSG_QUIESCE_STOP)] 9 [Chunk (order_buf MSG_QUIESCE_STOP)] Hqp Hqw)
    as (p4 & w3 & _ & _ & HP); [apply gets_order..|].
  by exists p4, w3.
Qed.

Lemma demo_reach : reach net_up.
Proof. intros n. by repeat split. Qed.

Lemma bread_change id : task_change (bread_add id).
Proof. left. split; [done|]. split; by vm_compute. Qed.

(** One addition before the checkpoint, one behind it. *)
Lemma recovered_replica_agrees_witness : exists p4 w3 : demo_replica,
  outcome_rel (fun x y => tbl_same (r_db x) (r_db y))
    (run_n (execute_msg dirty_malloc demo_sha1 1) (fun _ => Ret) 9 NORMAL 1 p4)
    (run_n (execute_msg demo_malloc demo_sha1 1) (fun _ => Ret) 9 NORMAL 3 w3).
Proof.
  destruct (demo_recovery demo_joiner [bread_add 3] [bread_add 4] [bread_add 3] (fun p4 w3 =>
    state (r_ctl p4) = ACTIVE_RUNNING /\ state (r_ctl w3) = ACTIVE_RECOVER
    /\ outcome_rel (fun x y => tbl_same (r_db x) (r_db y))
         (run_n (execute_msg dirty_malloc demo_sha1 1) (fun _ => Ret) 9 NORMAL 1 p4)
         (run_n (execute_msg demo_malloc demo_sha1 1) (fun _ => Ret) 9 NORMAL 3 w3))) as (p4 & w3 & _ & _ & HP).
  - apply (recovered_replica_agrees (fun _ => 42) 100 (fun _ => true) 1 2 5 (fun _ => true) net_up [] 9 9
      dirty_malloc demo_malloc demo_sha1 1 (fun _ => Ret)).
    + exact demo_reach.
    + apply dirty_malloc_ok.
    + intros n. by eexists.
    + apply demo_malloc_zero.
    + intros _. int_lia.
    + done.
    + done.
    + done.
    + apply demo_sender_ok.
    + apply demo_joiner_ok.
    + constructor; [apply bread_change|constructor].
    + done.
    + by repeat constructor.
    + apply (bool_decide_eq_true_1 _). by vm_compute.
  - cbn [length]. lia.
  - cbn [length]. lia.
  - cbn [length]. lia.
  - exists p4, w3. exact HP.
Defined.

(** C13: a request that arrives during the quiescence is lost. Let a client's
    addition reach both replicas while they are quiesced, and the joining one
    before the checkpoint. The primary exports its table without the task and
    adds the task when it goes on. The joining replica adds it too in the first
    iteration of its worker, which answers the client, and imports the table
    without it in the second. From then on the two tables differ. *)
Theorem recovery_loses_request {Q} `{FifoLog Q client_ctx_t} status_ptr pid can_create server_id bid rand mb env junk
    cfuel wfuel malloc malloc' sha1 sfuel hc lp0 c c' k ap aw (p w : replica Q) :
  reach env -> malloc_ok malloc -> (forall n, is_Some (malloc n)) ->
  (forall n, exists d, malloc' n = Some d /\ zlen (raw_data d) = MAX_DATA_LEN /\ last (raw_data d) = Some NUL) ->
  (forall z, is_i32 (status_ptr z)) -> is_i32 server_id -> (forall n, mb n = true) ->
  can_create (payload_name rand bid) = true ->
  sender_ok status_ptr pid can_create p ap -> joiner_ok w -> 1 < normal_max aw ->
  same_req c c' -> add_ok malloc sha1 c (r_db p) k -> task_change c ->
  let added s := map fst (view s k) ++ [ztake (task_len (req c)) (task (req c))] in
  recovers status_ptr pid can_create server_id bid rand mb env junk cfuel wfuel malloc sha1 sfuel
    lp0 [c] [c'] [] ap aw p w
    (fun p4 w3 => exists p5 w4 w5,
       run_n (execute_msg malloc sha1 sfuel) hc wfuel NORMAL 1 p4 = Ret p5
       /\ map fst (view (r_db p5) k) = added (r_db p)
       /\ run_n (execute_msg malloc' sha1 sfuel) hc wfuel NORMAL 1 w3 = Ret w4
       /\ map fst (view (r_db w4) k) = added (r_db w)
       /\ run_n (execute_msg malloc' sha1 sfuel) hc wfuel NORMAL 2 w3 = Ret w5
       /\ map fst (view (r_db w5) k) = map fst (view (r_db p) k)
       /\ ~ tbl_same (r_db p5) (r_db w5)).
Proof.
  intros Henv Hm Hs Hz Hst Hid Hmb Hcc Hp Hw Hroom Hsame Ha Hc added.
  assert (task_change c') as Hc' by (unfold task_change; by rewrite <- (proj2 Hsame)).
  eapply recovers_impl;
    [|by apply (recovery _ _ _ _ _ _ _ _ _ _ _ _ malloc' _ _ Henv Hz Hst Hid Hmb Hcc lp0 [c] [c'] [] ap aw p w Hp Hw);
      [by constructor|]].
  intros p4 w3 [(_ & Y4 & D4 & W4 & L4) (K3 & Kw3 & Y3) [D3 W3] HL].
  destruct (joiner_drains status_ptr server_id bid rand wfuel malloc' sha1 sfuel hc Hz Hst [c'] [] aw p w3)
    as (w5 & E5 & _ & _ & _ & T & _); [apply Hp|apply Hp|done|by rewrite K3; apply Hw|done|by constructor|done|].
  destruct HL as (fd & num & text & _ & _ & L3). set (d := set_is_backlog false _) in L3.
  destruct (addition_taken malloc Hm Hs malloc sha1 sfuel hc wfuel c c p4 _ [] k (r_db p) L4 Y4 W4) as (p5 & E4 & V4); try done.
  destruct (addition_taken malloc' (zero_ok malloc' Hz) (zero_some malloc' Hz) malloc sha1 sfuel hc wfuel c c' w3 _ [d] k (r_db p) L3 Y3 W3)
    as (w4 & E6 & V6); try done.
  exists p5, w4, w5. split; [exact E4|]. unfold added. rewrite <- (view_data k _ _ D4), <- (view_data k _ _ D3).
  split; [exact V4|]. split; [exact E6|]. split; [exact V6|]. split; [exact E5|].
  assert (map fst (view (r_db w5) k) = map fst (view (r_db p) k)) as V by (symmetry; by apply view_same).
  rewrite (view_data k _ _ D4). split; [exact V|].
  intros Ht. apply (view_same k) in Ht. rewrite V, V4, (view_data k _ _ D4) in Ht.
  apply (f_equal length) in Ht. rewrite length_app in Ht. cbn [length] in Ht. lia.
Qed.

Lemma recovery_loses_request_witness : exists p4 w3 p5 w5 : demo_replica,
  run_n (execute_msg dirty_malloc demo_sha1 1) (fun _ => Ret) 9 NORMAL 1 p4 = Ret p5
  /\ run_n (execute_msg demo_malloc demo_sha1 1) (fun _ => Ret) 9 NORMAL 2 w3 = Ret w5
  /\ ~ tbl_same (r_db p5) (r_db w5).
Proof.
  pose (added := fun s => map fst (view s bread_key) ++ [ztake (task_len (req (bread_add 3))) (task (req (bread_add 3)))]).
  destruct (demo_recovery demo_joiner [bread_add 3] [bread_add 3] [] (fun p4 w3 => exists p5 w4 w5,
       run_n (execute_msg dirty_malloc demo_sha1 1) (fun _ => Ret) 9 NORMAL 1 p4 = Ret p5
       /\ map fst (view (r_db p5) bread_key) = added (r_db demo_sender)
       /\ run_n (execute_msg demo_malloc demo_sha1 1) (fun _ => Ret) 9 NORMAL 1 w3 = Ret w4
       /\ map fst (view (r_db w4) bread_key) = added (r_db demo_joiner)
       /\ run_n (execute_msg demo_malloc demo_sha1 1) (fun _ => Ret) 9 NORMAL 2 w3 = Ret w5
       /\ map fst (view (r_db w5) bread_key) = map fst (view (r_db demo_sender) bread_key)
       /\ ~ tbl_same (r_db p5) (r_db w5))) as (p4 & w3 & p5 & w4 & w5 & E1 & _ & _ & _ & E2 & _ & Hn).
  - apply (recovery_loses_request (fun _ => 42) 100 (fun _ => true) 1 2 5 (fun _ => true) net_up [] 9 9
      dirty_malloc demo_malloc demo_sha1 1 (fun _ => Ret) [] (bread_add 3) (bread_add 3) bread_key).
    + exact demo_reach.
    + apply dirty_malloc_ok.
    + intros n. by eexists.
    + apply demo_malloc_zero.
    + intros _. int_lia.
    + done.
    + done.
    + done.
    + apply demo_sender_ok.
    + apply demo_joiner_ok.
    + done.
    + done.
    + apply bread_add_ok.
    + apply bread_change.
  - cbn [length]. lia.
  - cbn [length]. lia.
  - cbn [length]. lia.
  - exists p4, w3, p5, w5. split; [exact E1|]. split; [exact E2|exact Hn].
Defined.
