(* ===== verification/Rejoin.v ===== *)
(** The return of a replica in active mode across all programs: the report of its
    fault detector, the messages of the manager, what the factories make of them,
    and the servers of the replica and of the primary. *)
From S2P Require Import Prelude CLib Iface Util Request Fifo Control Db Storage Replica Server Worker.
From S2P Require Import Failover Agreement RepMgr Factory Lfd Wire Transfer Protocol Orders Session Takeover Recovery.
From S2P Require MsgLog.

(** * The orders *)

(** The order to recover. *)
Definition recover_change : change := {| ch_mode := ACTIVE_REP; ch_state := ACTIVE_RECOVER; ch_peers := None |}.

Lemma recover_change_ok : change_ok recover_change.
Proof. by constructor. Qed.

(** The control state of a server that was told to recover. *)
Definition recovering_ctl : ctl :=
  {| rep_mode := ACTIVE_REP; state := ACTIVE_RECOVER; prev_state := prev_state ctl_init;
     signal_exit_checkpt_thread := 0; is_chkpt_thrd_running := 0; checkpoint_freq_g := 10;
     bckup_svr_0 := BSVR_CTX_INITIALISER; bckup_svr_1 := BSVR_CTX_ZERO; chk_thread := None |}.

Lemma recovering_spec : rep_msg_spec (change_msg recover_change) ctl_init = Ret recovering_ctl.
Proof. reflexivity. Qed.

(** Afterwards, and with its peers. *)
Definition recovered_ctl (d : rep_manager) (id : Z) : ctl :=
  {| rep_mode := ACTIVE_REP; state := ACTIVE_RUNNING; prev_state := ACTIVE_RECOVER;
     signal_exit_checkpt_thread := 0; is_chkpt_thrd_running := 0; checkpoint_freq_g := checkpoint_freq d;
     bckup_svr_0 := peer_ctx (-1) (node_peer d (other_replicas id).1);
     bckup_svr_1 := peer_ctx 0 (node_peer d (other_replicas id).2); chk_thread := None |}.

Lemma recovered_spec d id : mode d = 1 ->
  rep_msg_spec (change_msg (election d id)) (upd_prev ACTIVE_RECOVER recovering_ctl) = Ret (recovered_ctl d id).
Proof. intros Hm. unfold rep_msg_spec, election. by rewrite Hm. Qed.

(** * The manager *)

(** What the report does at the manager. *)
Lemma manager_recovers env junk jd rm lenv (lf lf' : lfd) d id uninit input :
  reach env -> rm_addr_ok d -> rm_printable d -> lock_held d = false -> mode d = 1 -> 0 <= id < 3 ->
  0 <= primary_replica_id d < 3 -> state_at d id = Some FAULTED ->
  takes lenv (attempts (lf_net lf)) -> is_i32 (lf_server_state lf) ->
  inform_rep_manager rm id lenv jd RUNNING lf = Ret lf' -> clean input ->
  last (delivered (lf_net lf')) = Some (rm, stream input) ->
  exists d', handle_fault_detector_message env junk uninit input d = Ret (0, d') /\ lock_held d' = false
    /\ state_at d' id = Some RUNNING
    /\ delivered (rm_net d') = delivered (rm_net d) ++ recover_sends d id (order_text id (election d id)).
Proof.
  intros Henv Hok Hpr Hlock Hmode Hid Hp Hst Hlenv Hss Hinf Hcl Hrep.
  destruct (active_recovery_order env junk
    {| rmm_replica_id := id; rmm_state := RUNNING; rmm_server_state := lf_server_state lf |} d)
    as (text & d' & Ht & Hh & Hd & Hs & Hl); try done.
  destruct (election_printed d id Hok Hpr (or_intror Hmode) Hid) as [Hprints _].
  apply manager_prints_order in Hprints. cbn [rmm_replica_id] in *. rewrite Hprints in Ht. injection Ht as <-.
  exists d'. rewrite (report_reaches_manager lenv env junk jd rm id RUNNING lf lf' rm uninit input d);
    [by split|int_lia|done..].
Qed.

(** * The replica *)

Section Served.
Context {Q : Type} `{FifoLog Q client_ctx_t}.
Variables malloc malloc' : nat -> option data_point.
Hypothesis malloc_sized : malloc_ok malloc.
Hypothesis malloc_some : forall n, is_Some (malloc n).
Hypothesis malloc_zero : forall n, exists d, malloc' n = Some d /\ zlen (raw_data d) = MAX_DATA_LEN
  /\ last (raw_data d) = Some NUL.
Variable sha1 : bytes -> option bytes.
Variable sfuel : nat.
Variables hc hc' : client_ctx_t -> replica Q -> outcome (replica Q).
Variables wfuel : nat.

(** Two replicas with the same tasks work off the same changes. *)
Lemma both_drain lp lw ap aw (p w : replica Q) :
  Forall2 same_req lp lw -> Forall table_request lp -> Forall task_change lw ->
  steady p -> steady w -> is_preprimary (r_ctl w) = false -> db_wf (r_db w) -> tbl_same (r_db p) (r_db w) ->
  lq_rep (r_log p) (set_msgs NORMAL lp ap) -> lq_rep (r_log w) (set_msgs NORMAL lw aw) ->
  exists p' w', run_n (execute_msg malloc sha1 sfuel) hc wfuel NORMAL (length lp) p = Ret p'
    /\ run_n (execute_msg malloc' sha1 sfuel) hc' wfuel NORMAL (length lw) w = Ret w'
    /\ tbl_same (r_db p') (r_db w') /\ r_ctl w' = r_ctl w /\ db_wf (r_db w') /\ steady w'
    /\ lq_rep (r_log w') (set_msgs NORMAL [] aw).
Proof using malloc_sized malloc_some malloc_zero.
  intros Hsame Hreq Hc Yp Yw Hpre Hd Ht Lp Lw.
  destruct (drain (execute_msg malloc sha1 sfuel) hc wfuel (execute_msg_frame malloc sha1 sfuel)
    (execute_steady malloc sha1 sfuel) lp p _ Lp Yp eq_refl) as (q & _ & ->).
  destruct (drain (execute_msg malloc' sha1 sfuel) hc' wfuel (execute_msg_frame malloc' sha1 sfuel)
    (execute_steady malloc' sha1 sfuel) lw w _ Lw Yw eq_refl) as (q' & Hq' & ->).
  destruct (exec_changes malloc' malloc_zero sha1 sfuel lw w (aw_ctl w (proj1 Yw)) Hpre Hd Hc)
    as (w' & E & K & Hd' & _).
  pose proof (exec_all_same malloc malloc' malloc_sized (zero_ok malloc' malloc_zero) malloc_some
    (zero_some malloc' malloc_zero) sha1 sfuel lp lw Hsame Hreq p w Ht (aw_ctl p (proj1 Yp)) (aw_ctl w (proj1 Yw))) as Hr.
  rewrite E in Hr |- *. destruct (exec_all _ lp p) as [p'| | |]; try done. destruct Hr as (Ht' & _).
  exists (set_r_log q p'), (set_r_log q' w'). rewrite !bind_ret_l. do 5 (split; [done|]).
  split; [|exact Hq']. apply steady_log. by eapply (exec_all_steady (execute_msg malloc' sha1 sfuel));
    [apply execute_steady|exact Yw|exact E].
Qed.
End Served.

(** The end at the replica: the last order, then the requests. *)
Lemma joiner_runs {Q} `{FifoLog Q client_ctx_t} d id malloc malloc' sha1 sfuel status_ptr pid can_create bid server_id rand
    mb cfuel wfuel nenv sjunk fd input l lp lw ap aw (p w p4 w3 : replica Q) :
  rm_addr_ok d -> rm_printable d -> mode d = 1 -> 0 <= id < 3 ->
  malloc_ok malloc -> (forall n, is_Some (malloc n)) ->
  (forall n, exists g, malloc' n = Some g /\ zlen (raw_data g) = MAX_DATA_LEN /\ last (raw_data g) = Some NUL) ->
  (forall z, is_i32 (status_ptr z)) -> sender_ok status_ptr pid can_create p ap ->
  r_ctl w = recovering_ctl -> control_msgs aw = [] -> 0 < control_max aw -> zlen l < normal_max aw ->
  Forall task_change l -> Forall task_change lw -> Forall2 same_req lp lw -> Forall table_request lp ->
  rejoined status_ptr server_id bid rand l lp lw ap aw p w p4 w3 ->
  clean input -> stream input = zero_buf (relayed_text (election d id)) ->
  let hp := execute_msg malloc sha1 sfuel in
  let hw := execute_msg malloc' sha1 sfuel in
  let hc := execute_msg_ctrl status_ptr pid can_create bid nenv sjunk in
  exists p5 w4 w5 w6, run_n hp hc wfuel NORMAL (length lp) p4 = Ret p5
    /\ handle_connection bid rand mb can_create cfuel fd input w3 = Ret (0, w4)
    /\ run hw hc wfuel CONTROL w4 = Ret w5 /\ state (r_ctl w5) = ACTIVE_RUNNING
    /\ run_n hw hc wfuel NORMAL (length l + 1 + length lw) w5 = Ret w6
    /\ tbl_same (r_db p5) (r_db w6) /\ r_ctl w6 = recovered_ctl d id /\ idle w6.
Proof.
  intros Hok Hpr Hmode Hid Hm Hs Hz Hsp Hp Kw Hempty Hmax Hroom Hl Hlw Hsame Hreq
    [(_ & Y4 & D4 & _ & L4) (K3 & Kw3 & Y3) [_ W3] HL] Hcl Hst hp hw hc.
  destruct (election_printed d id Hok Hpr (or_intror Hmode) Hid) as [_ Hce].
  rewrite Kw in K3. change (state recovering_ctl) with ACTIVE_RECOVER in K3.
  pose proof HL as (cfd & num & text & Et & Hf & Hq). set (a3 := set_msgs NORMAL _ aw) in Hq.
  destruct (change_obeyed bid rand mb can_create cfuel fd input (election d id) w3 a3 (recovered_ctl d id)
    hw status_ptr pid nenv sjunk wfuel Hce Hcl Hst Kw3) as (w4 & w5 & E4 & E5 & K5 & _ & Hk5 & D5 & P5 & L5 & _);
    [by rewrite K3|rewrite K3; by apply recovered_spec|exact Hq|exact Hempty|exact Hmax|].
  assert (steady w5) as Y5.
  { apply active_worker; [by rewrite K5|by rewrite K5|by rewrite K5|rewrite P5; apply Y3]. }
  destruct (joiner_drains status_ptr server_id bid rand wfuel malloc' sha1 sfuel hc Hz Hsp l lw aw p w5)
    as (w6 & E6 & Y6 & K6 & D6 & T6 & L6); try done; [apply Hp|apply Hp|by rewrite K5|by rewrite D5| |].
  { exists cfd, num, text. rewrite D5. by split. }
  destruct (both_drain malloc malloc' Hm Hs Hz sha1 sfuel hc hc wfuel lp lw ap aw p4 w6)
    as (p5 & w7 & E7 & E8 & T8 & K8 & D8 & Y8 & L8); try done; [by rewrite K6, K5| |].
  { unfold tbl_same in *. by rewrite D4. }
  exists p5, w4, w5, w7. split; [exact E7|]. split; [exact E4|]. split; [exact E5|]. rewrite K5. split; [done|].
  split; [unfold hw; by rewrite run_n_app, E6, bind_ret_l|]. split; [exact T8|]. rewrite K8, K6, K5. split; [done|].
  constructor; [rewrite K8, K6, K5; split; [done|by left]|apply Y8|done|].
  exists (set_msgs NORMAL [] aw). split; [exact L8|]. split; [done|]. pose proof (zlen_nonneg l). cbn. lia.
Qed.

(** * The whole way *)

(** A server that was just started, or that no order reached yet. *)
Record fresh {Q} `{FifoLog Q client_ctx_t} (w : replica Q) (a : log_abs client_ctx_t) : Prop := {
  fr_ctl : r_ctl w = ctl_init;
  fr_prune : is_prune w = 0;
  fr_db : db_wf (r_db w);
  fr_log : lq_rep (r_log w) a;
  fr_control : control_msgs a = [];
  fr_limit : 0 < control_max a
}.

(** C4: a replica comes back in active mode, across all programs. The fault
    detector of a replica that was marked faulted reports it running. However the
    network cuts the bytes, and whatever the uninitialised messages hold:
    - the manager sends, in this order, the state RECOVER to the factory of the
      replica, the start of the quiescence to all running replicas, the demand
      for a checkpoint to the primary, the end of the quiescence, and the state
      RUNNING with the addresses of the other two replicas; it marks the replica
      running and frees its lock;
    - the factories of the replica and of the primary make each of these texts
      one message for their server;
    - the server of the replica obeys the first one and is ready to join;
    - then the quiescence and the checkpoint go as [recovers] says, with requests
      [l] before and [lw] behind the checkpoint in the log of the replica and
      [lp] in that of the primary;
    - the last message makes the replica active; and when both have worked off
      their logs, [lp] and [lw] being the same requests, their tables hold the
      same tasks and the replica is ready to serve clients. *)
Theorem return_of_a_replica {Q} `{FifoLog Q client_ctx_t} env junk lenv jd rm d id (lf lf' : lfd) fj fp ipmem fork_ok fenv
    bid server_id rand mb can_create cfuel wfuel malloc malloc' sha1 sfuel status_ptr pid nenv sjunk
    lp0 lp l lw ap aw (p w0 : replica Q) :
  reach env -> rm_addr_ok d -> rm_printable d -> lock_held d = false -> mode d = 1 -> 0 <= id < 3 ->
  0 <= primary_replica_id d < 3 -> state_at d id = Some FAULTED ->
  takes lenv (attempts (lf_net lf)) -> is_i32 (lf_server_state lf) ->
  inform_rep_manager rm id lenv jd RUNNING lf = Ret lf' ->
  f_replica_id fj = id -> f_replica_id fp = primary_replica_id d ->
  reach nenv -> malloc_ok malloc -> (forall n, is_Some (malloc n)) ->
  (forall n, exists g, malloc' n = Some g /\ zlen (raw_data g) = MAX_DATA_LEN /\ last (raw_data g) = Some NUL) ->
  (forall z, is_i32 (status_ptr z)) -> is_i32 server_id -> (forall n, mb n = true) ->
  can_create (payload_name rand bid) = true ->
  sender_ok status_ptr pid can_create p ap -> fresh w0 aw -> zlen l < normal_max aw ->
  Forall task_change l -> Forall task_change lw -> Forall2 same_req lp lw -> Forall table_request lp ->
  let hp := execute_msg malloc sha1 sfuel in
  let hw := execute_msg malloc' sha1 sfuel in
  let hc := execute_msg_ctrl status_ptr pid can_create bid nenv sjunk in
  exists report, last (delivered (lf_net lf')) = Some (rm, report) /\
  forall uninit input, clean input -> stream input = report ->
  exists d', handle_fault_detector_message env junk uninit input d = Ret (0, d')
    /\ lock_held d' = false /\ state_at d' id = Some RUNNING
    /\ delivered (rm_net d') = delivered (rm_net d) ++ recover_sends d id (order_text id (election d id))
    /\ relays fj ipmem fenv fork_ok (change_state_text id ACTIVE_REP ACTIVE_RECOVER) (zero_buf (relayed_text recover_change))
    /\ (forall q t, relays_as q t -> relays fj ipmem fenv fork_ok (factory_req_text id q) (order_buf t)
         /\ relays fp ipmem fenv fork_ok (factory_req_text (primary_replica_id d) q) (order_buf t))
    /\ relays fj ipmem fenv fork_ok (order_text id (election d id)) (zero_buf (relayed_text (election d id))) /\
  forall fd sinput, clean sinput -> stream sinput = zero_buf (relayed_text recover_change) ->
  exists w1 w, handle_connection bid rand mb can_create cfuel fd sinput w0 = Ret (0, w1)
    /\ run hw hc wfuel CONTROL w1 = Ret w /\ joiner_ok w /\ r_db w = r_db w0
    /\ recovers status_ptr pid can_create server_id bid rand mb nenv sjunk cfuel wfuel malloc sha1 sfuel
         lp0 lp l lw ap aw p w (fun p4 w3 =>
  forall fd' sinput', clean sinput' -> stream sinput' = zero_buf (relayed_text (election d id)) ->
  exists p5 w4 w5 w6, run_n hp hc wfuel NORMAL (length lp) p4 = Ret p5
    /\ handle_connection bid rand mb can_create cfuel fd' sinput' w3 = Ret (0, w4)
    /\ run hw hc wfuel CONTROL w4 = Ret w5 /\ state (r_ctl w5) = ACTIVE_RUNNING
    /\ run_n hw hc wfuel NORMAL (length l + 1 + length lw) w5 = Ret w6
    /\ tbl_same (r_db p5) (r_db w6) /\ r_ctl w6 = recovered_ctl d id /\ idle w6).
Proof.
  intros Henv Hok Hpr Hlock Hmode Hid Hp Hst Hlenv Hss Hinf Hfj Hfp Hnenv Hm Hsome Hz Hsp Hsid Hmb Hcc Hsend Hfr
    Hroom Hl Hlw Hsame Hreq hp hw hc.
  assert (exists report, last (delivered (lf_net lf')) = Some (rm, report)) as [report Hrep].
  { rewrite inform_ok in Hinf by first [int_lia|done]. injection Hinf as <-. cbn [delivered lf_net said set_lf_net].
    rewrite last_snoc. by eexists. }
  exists report. split; [exact Hrep|]. intros uninit input Hcl Hs. rewrite <- Hs in Hrep.
  destruct (manager_recovers env junk jd rm lenv lf lf' d id uninit input) as (d' & E & Hlk & Hrun & Hd); try done.
  destruct (election_printed d id Hok Hpr (or_intror Hmode) Hid) as [_ Hce].
  exists d'. do 4 (split; [done|]).
  split; [rewrite change_state_msg, <- Hfj; apply (relays_change fj ipmem fenv fork_ok recover_change); [apply recover_change_ok|rewrite Hfj; int_lia]|].
  split; [intros q t Hq; rewrite <- Hfj, <- Hfp; split; apply relays_command; [done|rewrite Hfj; int_lia|done|rewrite Hfp; int_lia]|].
  split; [rewrite <- Hfj; rewrite <- Hfj in Hce; apply relays_change; [done|rewrite Hfj; int_lia]|].
  intros fd sinput Hscl Hsst. destruct Hfr as [Kf Pf Df Lf Cf Mf].
  destruct (change_obeyed bid rand mb can_create cfuel fd sinput recover_change w0 aw recovering_ctl
    hw status_ptr pid nenv sjunk wfuel recover_change_ok Hscl Hsst) as (w1 & w & E1 & E2 & K2 & _ & Hk2 & D2 & P2 & _);
    [rewrite Kf; apply ctl_init_ok|by rewrite Kf|rewrite Kf; apply recovering_spec|done..|].
  exists w1, w. split; [exact E1|]. split; [exact E2|].
  assert (joiner_ok w) as Hj by (constructor; rewrite ?K2, ?D2, ?P2; done).
  split; [exact Hj|]. split; [exact D2|]. eapply recovers_impl;
    [|by apply (recovery _ _ _ _ _ _ _ _ _ _ _ _ malloc' _ _ Hnenv Hz Hsp Hsid Hmb Hcc lp0 lp l lw ap aw p w Hsend Hj Hl)].
  intros p4 w3 Hrj fd' sinput' Hscl' Hsst'.
  by eapply (joiner_runs d id malloc malloc' sha1 sfuel status_ptr pid can_create bid server_id rand mb cfuel wfuel).
Qed.

(** Replica 2 comes back to the primary 0. *)
Definition factory_of (i : Z) : factory_data :=
  {| f_replica_id := i; spawned_server_ip := ⟦"127.0.0.1"⟧; spawned_server_port := ⟦"201"⟧;
     lfd_heartbeat := ⟦"2"⟧; replication_manager_ip := ⟦"127.0.0.1"⟧; replication_manager_port := ⟦"300"⟧ |}.
Definition back_buf : bytes := report_buf 2 (zeros MAX_LENGTH) RUNNING UNKNOWN_STATE.

Lemma recovering_printable : rm_printable recovering.
Proof.
  constructor; [|done]. repeat (constructor; [split; [split; [apply (bool_decide_unpack _)|]|]; by vm_compute|]).
  constructor.
Qed.

Lemma return_of_a_replica_witness : exists d' w1 w p4 p5 w5 w6,
  handle_fault_detector_message net_up [] (RepMgr.report 7 7)
    [Chunk (take 30 back_buf); Eintr; Chunk (drop 30 back_buf)] recovering = Ret (0, d')
  /\ state_at d' 2 = Some RUNNING
  /\ handle_connection 2 5 (fun _ => true) (fun _ => true) 9 9
       [Chunk (zero_buf (relayed_text recover_change))] (replica_init demo_log) = Ret (0, w1)
  /\ run (execute_msg demo_malloc demo_sha1 1) (execute_msg_ctrl (fun _ => 42) 100 (fun _ => true) 2 net_up []) 9
       CONTROL w1 = Ret w /\ joiner_ok w
  /\ run_n (execute_msg dirty_malloc demo_sha1 1) (execute_msg_ctrl (fun _ => 42) 100 (fun _ => true) 2 net_up []) 9
       NORMAL 1 p4 = Ret p5
  /\ run_n (execute_msg demo_malloc demo_sha1 1) (execute_msg_ctrl (fun _ => 42) 100 (fun _ => true) 2 net_up []) 9
       NORMAL 3 w5 = Ret w6
  /\ tbl_same (r_db p5) (r_db w6) /\ idle w6.
Proof.
  destruct (return_of_a_replica net_up [] net_good (zeros MAX_LENGTH) SERVER_INFO_INITIALISER recovering 2
    lfd_init (said SERVER_INFO_INITIALISER 2 (zeros MAX_LENGTH) RUNNING lfd_init) (factory_of 2) (factory_of 0)
    (server_ip (demo_addr 0)) true net_up 2 1 5 (fun _ => true) (fun _ => true) 9 9 dirty_malloc demo_malloc demo_sha1 1
    (fun _ => 42) 100 net_up [] [] [bread_add 3] [bread_add 4] [bread_add 3] (abs_init 50 50) (abs_init 50 50)
    demo_sender (replica_init demo_log)) as (rep & Hrep & H1).
  - exact demo_reach.
  - constructor; [done| |done]. repeat (constructor; [apply demo_addr_ok|]). constructor.
  - exact recovering_printable.
  - reflexivity.
  - reflexivity.
  - done.
  - done.
  - reflexivity.
  - by repeat split.
  - done.
  - apply inform_ok. by repeat split.
  - reflexivity.
  - reflexivity.
  - exact demo_reach.
  - apply dirty_malloc_ok.
  - intros n. by eexists.
  - apply demo_malloc_zero.
  - intros _. int_lia.
  - done.
  - done.
  - done.
  - apply demo_sender_ok.
  - constructor; try done; [apply hash_table_init_wf|apply MsgLog.log_rep_init].
  - done.
  - constructor; [apply bread_change|constructor].
  - constructor; [apply bread_change|constructor].
  - by repeat constructor.
  - apply (bool_decide_eq_true_1 _). by vm_compute.
  - assert (rep = back_buf) as -> by (by injection Hrep).
    destruct (H1 (RepMgr.report 7 7) [Chunk (take 30 back_buf); Eintr; Chunk (drop 30 back_buf)])
      as (d' & E1 & _ & S1 & _ & _ & _ & _ & H2).
    + repeat (apply Forall_cons_2; [first [vm_compute; discriminate | exact I]|]). apply Forall_nil_2.
    + reflexivity.
    + destruct (H2 9 [Chunk (zero_buf (relayed_text recover_change))]) as (w1 & w & E2 & E3 & Hj & _ & HR).
      * apply zero_buf_clean.
      * apply app_nil_r.
      * destruct (demo_recovery w [bread_add 3] [bread_add 4] [bread_add 3] _ HR) as (p4 & w3 & HP); [cbn [length]; lia..|].
        destruct (HP 9 [Chunk (zero_buf (relayed_text (election recovering 2)))])
          as (p5 & w4 & w5 & w6 & E4 & _ & _ & _ & E5 & T & _ & Hi); [apply zero_buf_clean|apply app_nil_r|].
        exists d', w1, w, p4, p5, w5, w6. split; [exact E1|]. split; [exact S1|]. split; [exact E2|].
        split; [exact E3|]. split; [exact Hj|]. split; [exact E4|]. split; [exact E5|]. split; [exact T|exact Hi].
Defined.
