(* ===== verification/System.v ===== *)
(** A whole replica: the steps its threads take on the shared state, and the
    invariant every reachable state satisfies, whatever bytes its peers send.

    A step is one connection handled to its end, one iteration of a worker, or
    one step of the checkpoint thread; within a step nothing else moves
    ([Grain] says how these steps arise from single memory accesses). *)
From S2P Require Import Prelude CLib Iface Util Request Fifo Control Db Storage Replica Server Worker.
From S2P Require MsgLog.

(** * Reading fields keeps what every parse keeps *)

Section FieldInvariant.
Context {C : Type}.
Variable parse : C -> bytes -> bytes -> outcome (bool * C).
Variable clear : bool.
Variable P : C -> Prop.
Hypothesis parse_keeps : forall c k v ok c', P c -> parse c k v = Ret (ok, c') -> P c'.

Lemma field_loop_keeps fuel : forall fd b n c e c' fd' b', P c ->
  field_loop parse clear fuel fd b n c = Ret (e, c', fd', b') -> P c'.
Proof using parse_keeps.
  induction fuel as [|f IH]; intros fd b n c e c' fd' b' Hc; [done|]. cbn [field_loop].
  intros Hl. apply bind_Ret_inv in Hl as ([line fd1] & _ & Hl). cbv beta iota zeta in Hl.
  case_if; [by injection Hl as <- <- <- <-|]. case_if; [by injection Hl as <- <- <- <-|].
  case_if; [by injection Hl as <- <- <- <-|]. apply bind_Ret_inv in Hl as (s & _ & Hl).
  destruct (sscanf kv_format s) as [|[k|] [|[v|] [|]]]; try (by injection Hl as <- <- <- <-).
  apply bind_Ret_inv in Hl as ([ok c1] & Hp & Hl). cbv beta iota zeta in Hl.
  pose proof (parse_keeps _ _ _ _ _ Hc Hp) as Hc1.
  destruct ok; [by eapply IH|by injection Hl as <- <- <- <-].
Qed.

Lemma read_fields_keeps fd c e c' fd' b' : P c ->
  read_fields parse clear fd c = Ret (e, c', fd', b') -> P c'.
Proof using parse_keeps. unfold read_fields. apply field_loop_keeps. Qed.
End FieldInvariant.

Definition ctx_ok (c : client_ctx_t) : Prop := req_ok (req c).

Lemma store_task_ok_len v r r' : store_task v r = Ret r' -> req_ok r'.
Proof.
  unfold store_task. intros H. apply bind_Ret_inv in H as (s & _ & [= <-]). apply zlen_nonneg.
Qed.

Lemma parse_kv_keeps st n k v ok n' : ctx_ok (cn_ctx n) -> parse_kv st n k v = Ret (ok, n') ->
  ctx_ok (cn_ctx n').
Proof.
  intros Hn H. unfold parse_kv in H. apply bind_Ret_inv in H as (key & _ & H).
  apply bind_Ret_inv in H as (value & _ & H). unfold parse_pair, int_field in H.
  repeat (destruct (bytes_eqb key _); [first
    [ destruct (str_to_int value); by injection H as <- <-
    | apply bind_Ret_inv in H as (r & Hr & [= <- <-]); by eapply store_task_ok_len
    | by injection H as <- <- ]|]).
  by injection H as <- <-.
Qed.

(** * The invariant *)

Section System.
Context {Q : Type} `{FifoLog Q client_ctx_t}.
(** The limits the log was created with. *)
Variables nmax cmax : Z.

Record replica_ok (w : replica Q) (a : log_abs client_ctx_t) : Prop := {
  rk_ctl : ctl_ok (r_ctl w);
  rk_db : db_wf (r_db w);
  rk_log : lq_rep (r_log w) a;
  rk_ctxs : Forall ctx_ok (normal_msgs a ++ control_msgs a);
  rk_nmax : normal_max a = nmax;
  rk_cmax : control_max a = cmax;
  rk_normal : zlen (normal_msgs a) <= Z.max 0 nmax;
  rk_control : zlen (control_msgs a) <= Z.max 0 cmax
}.

(** Only the parts the invariant speaks of matter. *)
Lemma replica_ok_ext w w' a : replica_ok w a -> r_ctl w' = r_ctl w -> r_db w' = r_db w ->
  r_log w' = r_log w -> replica_ok w' a.
Proof. intros [H1 H2 H3 H4 H5 H6 H7 H8] E1 E2 E3. constructor; rewrite ?E1, ?E2, ?E3; done. Qed.

Lemma replica_ok_ctl k w a : replica_ok w a -> ctl_ok k -> replica_ok (set_r_ctl k w) a.
Proof. intros [H1 H2 H3 H4 H5 H6 H7 H8] Hk. by constructor. Qed.

Lemma replica_ok_db d w a : replica_ok w a -> db_wf d -> replica_ok (set_r_db d w) a.
Proof. intros [H1 H2 H3 H4 H5 H6 H7 H8] Hk. by constructor. Qed.

Lemma set_bckup_ok b0 b1 k : ctl_ok k -> ctl_ok (set_bckup_servers b0 b1 k).
Proof. intros [H1 H2 H3 H4 H5]. by constructor. Qed.

(** ** The connection threads *)

Lemma put_ok c w a t q r : replica_ok w a -> ctx_ok c -> lq_put (r_log w) c t = Ret (r, q) ->
  exists a', replica_ok (set_r_log q w) a'.
Proof.
  intros [H1 H2 H3 H4 H5 H6 H7 H8] Hc E. destruct (lq_put_spec (r_log w) a c t H3) as (q' & E' & Hq).
  rewrite E in E'. injection E' as _ ->. exists (spec_put c t a).2. unfold spec_put in *.
  destruct (limit t a <=? zlen (msgs t a)) eqn:El; cbn [snd] in *; zbool.
  - by constructor.
  - apply Forall_app in H4 as [Hn Hk].
    destruct t; cbn [set_msgs msgs limit normal_msgs control_msgs normal_max control_max] in *;
      constructor; cbn [normal_msgs control_msgs normal_max control_max r_ctl r_db r_log set_r_log];
      rewrite ?zlen_snoc; try done; try lia; rewrite ?Forall_app; auto.
Qed.

Lemma enqueue_ok c w w' a r : replica_ok w a -> ctx_ok c -> enqueue_client_req c w = Ret (r, w') ->
  exists a', replica_ok w' a'.
Proof.
  intros Hw Hc E. unfold enqueue_client_req in E. cbv zeta in E.
  apply bind_Ret_inv in E as ([r' q] & Ep & [= <- <-]).
  match type of Ep with lq_put (r_log ?x) _ _ = _ => set (w1 := x) in * end.
  assert (replica_ok w1 a) as Hw1 by (eapply replica_ok_ext; [exact Hw|unfold w1; by case_if..]).
  eapply put_ok in Ep as (a' & Ha); [by exists a'|exact Hw1|exact Hc].
Qed.

Variables server_id rand : Z.
Variable malloc_bytes : Z -> bool.
Variable can_create : bytes -> bool.

Lemma dispatch_ok c w w' a r : replica_ok w a -> ctx_ok c -> dispatch_request c w = Ret (r, w') ->
  exists a', replica_ok w' a'.
Proof.
  intros Hw Hc E. unfold dispatch_request, exit_connection in E. cbv zeta in E. case_if.
  - apply bind_Ret_inv in E as ([r1 k] & Ek & E). cbv beta iota zeta in E.
    assert (ctl_ok k) as Hk by (eapply ctl_step_ok; [apply Hw|by eapply step_quiesce]).
    exists a. eapply replica_ok_ext; [by apply (replica_ok_ctl k)|..];
      case_if; injection E as <- <-; unfold close_fd; by case_if.
  - apply bind_Ret_inv in E as ([r1 w1] & Ee & E). cbv beta iota zeta in E.
    destruct (enqueue_ok c w w1 a r1 Hw Hc Ee) as (a' & Ha). exists a'.
    eapply replica_ok_ext; [exact Ha|..];
      (case_if; [injection E as <- <-; unfold close_fd; by case_if|]; case_if; by injection E as <- <-).
Qed.

Lemma read_payload_ok_inv fuel fd c w c' w' a : replica_ok w a -> ctx_ok c ->
  read_payload server_id rand malloc_bytes can_create fuel fd c w = Ret (c', w') ->
  replica_ok w' a /\ ctx_ok c'.
Proof.
  intros Hw Hc E. unfold read_payload in E. cbv zeta in E. case_if; [|by injection E as <- <-].
  apply bind_Ret_inv in E as ([data fd1] & _ & E). cbv beta iota zeta in E.
  injection E as <- <-. split; [|done]. case_if; [|done]. apply replica_ok_db; [done|].
  apply upd_files_wf, Hw.
Qed.

Lemma exit_ok c w1 w2 w' a r : replica_ok w1 a ->
  r_ctl w2 = r_ctl w1 -> r_db w2 = r_db w1 -> r_log w2 = r_log w1 ->
  exit_connection c w2 = Ret (r, w') -> exists a', replica_ok w' a'.
Proof.
  intros Hw E1 E2 E3 Ex. unfold exit_connection in Ex. injection Ex as _ <-. exists a.
  eapply replica_ok_ext; [exact Hw|unfold close_fd; by case_if..].
Qed.

Lemma reply_frame c status msg (w : replica Q) : r_ctl (reply c status msg w) = r_ctl w
  /\ r_db (reply c status msg w) = r_db w /\ r_log (reply c status msg w) = r_log w.
Proof. unfold reply. by destruct (write_client_responce _ _ _ _). Qed.

(** What follows the loop over the fields. *)
Lemma after_fields_ok fuel e c sb w w' a r : replica_ok w a -> ctx_ok c ->
  match e with
  | FLClosed | FLRejected => exit_connection c w
  | FLTooMany => exit_connection c (reply c ⟦"FAIL"⟧ ⟦"req had more than req num of fields"⟧ w)
  | FLMalformed => exit_connection c (reply c ⟦"FAIL"⟧ ⟦"Malformed Key-Value received in input"⟧ w)
  | FLDone => '(c, w) ← read_payload server_id rand malloc_bytes can_create fuel sb c w;
              dispatch_request c w
  end = Ret (r, w') -> exists a', replica_ok w' a'.
Proof.
  intros Hw Hc. destruct e; intros E.
  - apply bind_Ret_inv in E as ([c2 w2] & Ep & E).
    destruct (read_payload_ok_inv _ _ _ _ _ _ _ Hw Hc Ep) as [Hw2 Hc2]. by eapply dispatch_ok.
  - by eapply exit_ok.
  - eapply exit_ok; [exact Hw|apply reply_frame..|exact E].
  - eapply exit_ok; [exact Hw|apply reply_frame..|exact E].
  - by eapply exit_ok.
Qed.

(** Whatever the peer sends. *)
Lemma handle_connection_ok fuel fd input w w' a r : replica_ok w a ->
  handle_connection server_id rand malloc_bytes can_create fuel fd input w = Ret (r, w') ->
  exists a', replica_ok w' a'.
Proof.
  intros Hw. unfold handle_connection. set (c0 := Build_conn _ _ _). intros E.
  assert (ctx_ok (cn_ctx c0)) as H0 by exact (Z.le_refl 0). clearbody c0.
  apply bind_Ret_inv in E as ([[[e n] sb] b] & Ef & E).
  assert (ctx_ok (cn_ctx n)) as Hn.
  { revert Ef. generalize (init_buf_fd input). intros sb0 Ef.
    eapply (read_fields_keeps _ true (fun n => ctx_ok (cn_ctx n))); [|exact H0|exact Ef].
    intros ? ? ? ? ?. apply parse_kv_keeps. }
  clear Ef. eapply (after_fields_ok fuel e (cn_ctx n) sb); [|exact Hn|exact E].
  by eapply replica_ok_ext.
Qed.

(** ** Checkpoints *)

Variable malloc : nat -> option data_point.
Hypothesis malloc_sized : malloc_ok malloc.
Variable sha1 : bytes -> option bytes.
Variable sfuel : nat.
Variable status_ptr : Z -> Z.
Variable pid : Z.
Variable env : nat -> net_step.
Variable junk : bytes.

Lemma send_to_ok b name (w w' : replica Q) a : replica_ok w a ->
  send_to server_id env b name w = Ret w' -> replica_ok w' a.
Proof.
  intros Hw. unfold send_to, write_check_point. case_if; [|by intros [= <-]].
  destruct (files (r_db w) !! name) as [content|]; [|rewrite bind_ret_l; intros [= <-]; by eapply replica_ok_ext].
  intros E. apply bind_Ret_inv in E as ([x w1] & E1 & [= <-]).
  apply bind_Ret_inv in E1 as (t & _ & E1). cbv zeta in E1. case_if.
  - injection E1 as _ <-. by eapply replica_ok_ext.
  - apply bind_Ret_inv in E1 as ([y n] & _ & [= _ <-]). by eapply replica_ok_ext.
Qed.

Lemma export_ok name d (s : db) : db_wf s -> export_db status_ptr pid can_create s = Ret (name, d) -> db_wf d.
Proof.
  intros Hs. unfold export_db, export_db_internal. cbv zeta. case_if; [by intros [= <- <-]|].
  intros E. apply bind_Ret_inv in E as (b & _ & [= <- <-]). by apply upd_files_wf.
Qed.

Lemma ondemand_ok (w w' : replica Q) a : replica_ok w a ->
  send_checkpoint_ondemand status_ptr pid can_create server_id env junk w = Ret w' -> replica_ok w' a.
Proof.
  intros Hw. unfold send_checkpoint_ondemand.
  assert (replica_ok (open_ports_secondary env w) a) as H1.
  { unfold open_ports_secondary. destruct (open_port env (bckup_svr_0 (r_ctl w)) (net_out w)) as [b0 n0].
    destruct (open_port env (bckup_svr_1 (r_ctl w)) n0) as [b1 n1].
    eapply (replica_ok_ext (set_r_ctl (set_bckup_servers b0 b1 (r_ctl w)) w)); try done.
    apply replica_ok_ctl; [done|]. apply set_bckup_ok, Hw. }
  set (w1 := open_ports_secondary env w) in *. clearbody w1. cbv zeta. intros E.
  apply bind_Ret_inv in E as ([name d] & E1 & E).
  assert (replica_ok (set_r_db d w1) a) as H2.
  { apply replica_ok_db; [done|]. eapply export_ok; [apply H1|exact E1]. }
  apply bind_Ret_inv in E as (nm & _ & E). apply bind_Ret_inv in E as (w2 & E2 & E).
  apply bind_Ret_inv in E as (w3 & E3 & [= <-]).
  eapply send_to_ok in E2; [|exact H2]. eapply send_to_ok in E3; [|exact E2].
  by eapply replica_ok_ext.
Qed.

Lemma send_checkpoint_ok (w w' : replica Q) a : replica_ok w a ->
  send_checkpoint status_ptr pid can_create server_id env junk w = Ret w' -> replica_ok w' a.
Proof.
  intros Hw. unfold send_checkpoint. destruct (chk_thread (r_ctl w)) as [n|] eqn:En; [|by intros [= <-]].
  destruct (chk_thread_sleep n (r_ctl w)) as [k|] eqn:Ek.
  - intros [= <-]. apply replica_ok_ctl; [done|]. eapply ctl_step_ok; [apply Hw|by eapply step_sleep].
  - apply ondemand_ok, replica_ok_ctl; [done|]. eapply ctl_step_ok; [apply Hw|by eapply step_round].
Qed.

(** ** The handlers *)

Definition keeps_ok (h : client_ctx_t -> replica Q -> outcome (replica Q)) : Prop :=
  forall c w w' a, replica_ok w a -> ctx_ok c -> h c w = Ret w' -> replica_ok w' a.

Lemma execute_msg_ok : keeps_ok (execute_msg malloc sha1 sfuel).
Proof using malloc_sized.
  intros c w w' a Hw Hc E.
  destruct (execute_msg_storage _ _ _ _ _ _ E) as (r & c' & d & Es).
  destruct (execute_msg_eq malloc sha1 sfuel c w r c' d (rk_ctl _ _ Hw) Es)
    as (w2 & E2 & K & D & L & _). rewrite E in E2. injection E2 as <-.
  assert (ctl_ok (exec_ctl c (r_ctl w))) as Hk.
  { unfold exec_ctl. destruct (is_preprimary (r_ctl w)) eqn:Ep; [|apply Hw].
    destruct (is_backlog c); [apply Hw|]. by apply promote_eq; [apply Hw|]. }
  destruct (handle_storage_wf malloc sha1 sfuel c (r_db w) r c' d malloc_sized (rk_db _ _ Hw) Hc Es) as [Hd _].
  eapply (replica_ok_ext (set_r_db d (set_r_ctl (exec_ctl c (r_ctl w)) w))); [|done..].
  apply replica_ok_db; [|done]. by apply replica_ok_ctl.
Qed.

Lemma execute_ctrl_ok :
  keeps_ok (execute_msg_ctrl status_ptr pid can_create server_id env junk).
Proof.
  intros c w w' a Hw Hc. unfold execute_msg_ctrl. cbv zeta. intros E.
  apply bind_Ret_inv in E as (w1 & E1 & [= <-]).
  assert (replica_ok w1 a) as Hw1.
  { revert E1. case_if; [|case_if; [by intros [= <-]|case_if; [case_if|]]].
    - unfold on_ctl. intros E. apply bind_Ret_inv in E as (k & Ek & [= <-]).
      apply replica_ok_ctl; [done|]. eapply ctl_step_ok; [apply Hw|by eapply step_rep_msg].
    - by apply ondemand_ok.
    - by intros [= <-].
    - by intros [= <-]. }
  destruct (reply_frame c ⟦"OK"⟧ ⟦"Success"⟧ w1) as (F1 & F2 & F3).
  eapply replica_ok_ext; [exact Hw1|..]; unfold close_fd; by case_if.
Qed.
(** ** The workers *)

Lemma taken_ok q t (w : replica Q) a : replica_ok w a -> lq_rep q (spec_take t a).2 ->
  replica_ok (set_r_log q w) (spec_take t a).2
  /\ (forall c, (spec_take t a).1 = Some c -> ctx_ok c).
Proof.
  intros [H1 H2 H3 H4 H5 H6 H7 H8] Hq. apply Forall_app in H4 as [Hn Hk].
  unfold spec_take in *. destruct t; cbn [msgs] in *.
  - cbn [fst snd] in *. split; [|done]. constructor; try done. by apply Forall_app.
  - destruct (normal_msgs a) as [|c l] eqn:En; cbn [fst snd] in *.
    + split; [|done]. constructor; rewrite ?En; done.
    + apply Forall_cons_1 in Hn as [Hc Hl]. split; [|by intros ? [= <-]].
      rewrite zlen_cons in H7.
      constructor; cbn [set_msgs normal_msgs control_msgs normal_max control_max r_ctl r_db r_log set_r_log];
        [done..|by apply Forall_app|done|done|lia|done].
  - destruct (control_msgs a) as [|c l] eqn:En; cbn [fst snd] in *.
    + split; [|done]. constructor; rewrite ?En; try done. by apply Forall_app.
    + apply Forall_cons_1 in Hk as [Hc Hl]. split; [|by intros ? [= <-]].
      rewrite zlen_cons in H8.
      constructor; cbn [set_msgs normal_msgs control_msgs normal_max control_max r_ctl r_db r_log set_r_log];
        [done..|by apply Forall_app|done|done|done|lia].
Qed.

Lemma take_ok t o q (w : replica Q) a : replica_ok w a -> lq_take (r_log w) t = Ret (o, q) ->
  exists a', replica_ok (set_r_log q w) a' /\ (forall c, o = Some c -> ctx_ok c).
Proof.
  intros Hw E. destruct (lq_take_spec (r_log w) a t (rk_log _ _ Hw)) as (q' & E' & Hq).
  rewrite E in E'. injection E' as -> ->. exists (spec_take t a).2. by apply taken_ok.
Qed.

(** Taking a message and handling it. *)
Lemma serve_ok h t (w w' : replica Q) a : keeps_ok h -> replica_ok w a ->
  ('(o, q) ← lq_take (r_log w) t;
   let w := set_r_log q w in
   match o with Some c => h c w | None => Ret w end) = Ret w' ->
  exists a', replica_ok w' a'.
Proof.
  intros Hh Hw E. apply bind_Ret_inv in E as ([o q] & Et & E). cbv beta iota zeta in E.
  apply (take_ok t o q w a Hw) in Et as (a' & Ha & Ho). exists a'.
  destruct o as [c|]; [|by injection E as <-]. eapply Hh; [exact Ha|by apply Ho|exact E].
Qed.

Lemma count_ok t n q (w : replica Q) a : replica_ok w a -> t <> INVALID_LOG ->
  lq_count (r_log w) t = Ret (n, q) -> lq_rep q a.
Proof.
  intros Hw Ht E. destruct (lq_count_spec (r_log w) a t (rk_log _ _ Hw) Ht) as (q' & E' & Hq).
  rewrite E in E'. by injection E' as _ ->.
Qed.

Lemma replica_ok_log q (w : replica Q) a : replica_ok w a -> lq_rep q a -> replica_ok (set_r_log q w) a.
Proof. intros [H1 H2 H3 H4 H5 H6 H7 H8] Hq. by constructor. Qed.

Lemma free_msg_ok c (w : replica Q) a : replica_ok w a -> replica_ok (free_msg c w) a.
Proof. intros Hw. eapply replica_ok_ext; [exact Hw|unfold free_msg, close_fd; by case_if..]. Qed.

Lemma prune_loop_ok h fuel : forall (w w' : replica Q) a, keeps_ok h -> replica_ok w a ->
  prune_loop h fuel w = Ret w' -> exists a', replica_ok w' a'.
Proof.
  induction fuel as [|f IH]; intros w w' a Hh Hw E; [done|]. cbn [prune_loop] in E.
  apply bind_Ret_inv in E as ([o q] & Et & E). cbv beta iota zeta in E.
  apply (take_ok NORMAL o q w a Hw) in Et as (a1 & H1 & Ho).
  destruct o as [c|]; [|injection E as <-; by exists a1].
  destruct (negb (msg_type (req c) =? MSG_CHK_PT)).
  - eapply IH; [exact Hh|apply free_msg_ok, H1|exact E].
  - apply bind_Ret_inv in E as (w2 & E2 & E). eapply IH; [exact Hh| |exact E].
    eapply Hh; [|by apply Ho|exact E2]. by eapply replica_ok_ext.
Qed.

Lemma promote_ok (w w' : replica Q) a (b : bool) : replica_ok w a ->
  (if b && is_preprimary (r_ctl w) then on_ctl (set_state PASSIVE_PRIMARY) w else Ret w) = Ret w' ->
  replica_ok w' a.
Proof.
  intros Hw. destruct (b && is_preprimary (r_ctl w)) eqn:Hp; [|by intros [= <-]]. intros E.
  apply andb_true_iff in Hp as [_ Hp].
  unfold on_ctl in E. apply bind_Ret_inv in E as (k & Ek & [= <-]).
  apply replica_ok_ctl; [done|]. eapply ctl_step_ok; [apply Hw|]. by apply step_promote.
Qed.

Lemma run_ok hn hc fuel prio (w w' : replica Q) a : keeps_ok hn -> keeps_ok hc -> replica_ok w a ->
  run hn hc fuel prio w = Ret w' -> exists a', replica_ok w' a'.
Proof.
  intros Hn Hc Hw E. unfold run in E. cbv zeta in E. apply bind_Ret_inv in E as (w1 & E1 & E).
  assert (exists a1, replica_ok w1 a1) as (a1 & H1).
  { revert E1. case_if; [intros E1; by apply (prune_loop_ok hn fuel w w1 a)|]. intros [= <-]. by exists a. }
  clear E1 Hw. case_if; [injection E as <-; by exists a1|].
  apply bind_Ret_inv in E as ([n q] & E1 & E). apply bind_Ret_inv in E as ([m q'] & E2 & E).
  assert (lq_rep q a1) as Hq.
  { revert E1. case_if; [by apply count_ok|]. intros [= _ <-]. apply H1. }
  assert (replica_ok (set_r_log q w1) a1) as H2 by by apply replica_ok_log.
  assert (lq_rep q' a1) as Hq'.
  { revert E2. case_if; [|by intros [= _ <-]].
    by apply (count_ok CONTROL m q' (set_r_log q w1) a1). }
  clear E1 E2 Hq H2. apply bind_Ret_inv in E as (w2 & E2 & E).
  assert (replica_ok w2 a1) as H2.
  { revert E2. rewrite <- andb_assoc, (andb_comm (is_preprimary _)), andb_assoc.
    apply promote_ok. by apply replica_ok_log. }
  clear E2 Hq' H1. case_if; [injection E as <-; by exists a1|].
  apply bind_Ret_inv in E as (w3 & E3 & E).
  assert (exists a3, replica_ok w3 a3) as (a3 & H3).
  { revert E3. case_if; [intros E3; by apply (serve_ok hc CONTROL w2 w3 a1)|]. intros [= <-]. by exists a1. }
  revert E. case_if; [intros E; by apply (serve_ok hn NORMAL w3 w' a3)|]. intros [= <-]. by exists a3.
Qed.
End System.

(** * Reachable replicas *)

Section Reach.
Context {Q : Type} `{FifoLog Q client_ctx_t}.
Variable server_id : Z.

(** The steps of the threads of [src/server.c], [src/worker.c] and
    [src/chkpt.c]. What the system decides is chosen afresh at every step:
    the input of a connection, [rand], [malloc], [fopen], the network, SHA-1
    and the bytes left in buffers. *)
Inductive replica_step : replica Q -> replica Q -> Prop :=
| step_connection rand malloc_bytes can_create fuel fd input r w w' :
    handle_connection server_id rand malloc_bytes can_create fuel fd input w = Ret (r, w') ->
    replica_step w w'
| step_worker malloc sha1 sfuel status_ptr pid can_create env junk fuel prio w w' :
    malloc_ok malloc ->
    run (execute_msg malloc sha1 sfuel)
        (execute_msg_ctrl status_ptr pid can_create server_id env junk) fuel prio w = Ret w' ->
    replica_step w w'
| step_chkpt status_ptr pid can_create env junk w w' :
    send_checkpoint status_ptr pid can_create server_id env junk w = Ret w' ->
    replica_step w w'.

Lemma replica_step_ok nm cm w w' a : replica_ok nm cm w a -> replica_step w w' ->
  exists a', replica_ok nm cm w' a'.
Proof.
  intros Hw Hs. revert Hw.
  destruct Hs as [? ? ? ? ? ? ? w1 w2 E|? ? ? ? ? ? ? ? ? ? w1 w2 Hm E|? ? ? ? ? w1 w2 E]; intros Hw.
  - eapply handle_connection_ok; [exact Hw|exact E].
  - eapply run_ok; [by apply execute_msg_ok|apply execute_ctrl_ok|exact Hw|exact E].
  - exists a. eapply send_checkpoint_ok; [exact Hw|exact E].
Qed.

Lemma replica_init_ok q nm cm : lq_rep q (abs_init nm cm) ->
  replica_ok nm cm (replica_init q) (abs_init nm cm).
Proof. intros Hq. constructor; [apply ctl_init_ok|apply hash_table_init_wf|done..|apply Z.le_max_l|apply Z.le_max_l]. Qed.
End Reach.

(** Whatever bytes the peers send, however the threads are scheduled and
    whatever [malloc], [fopen], [rand] and the network answer, in every reachable
    state of a replica the mode and the state agree and the checkpoint thread is
    alive exactly while the replica is the passive primary; the hash table is
    well formed and its counter is the size of the data it holds; the message log
    is two queues within the limits they were created with; and every logged request
    has a length that is not negative. *)
Theorem replica_invariant {Q} `{FifoLog Q client_ctx_t} server_id q nm cm w :
  lq_rep q (abs_init nm cm) -> rtc (replica_step server_id) (replica_init q) w ->
  exists a,
    ctl_ok (r_ctl w)
    /\ (is_Some (chk_thread (r_ctl w)) <->
        rep_mode (r_ctl w) = PASSIVE_REP /\ state (r_ctl w) = PASSIVE_PRIMARY)
    /\ db_wf (r_db w)
    /\ lq_rep (r_log w) a
    /\ zlen (normal_msgs a) <= Z.max 0 nm /\ zlen (control_msgs a) <= Z.max 0 cm
    /\ Forall (fun c => req_ok (req c)) (normal_msgs a ++ control_msgs a).
Proof.
  intros Hq Hr. assert (exists a, replica_ok nm cm w a) as (a & Hw).
  { revert Hr. apply (rtc_ind_r (fun w => exists a, replica_ok nm cm w a)).
    - exists (abs_init nm cm). by apply replica_init_ok.
    - intros w1 w2 _ Hs [a Hw]. by eapply replica_step_ok. }
  exists a. destruct Hw as [Hk Hd Hl Hc _ _ Hn Hm]. split; [done|]. split; [|done].
  by apply thread_iff.
Qed.

(** A replica that logged an addition from a connection and executed it in one
    iteration of its worker. *)
Definition net_refused : net_step := {| socket_ret := 9; connect_ret := -1; write_ret := -1 |}.

Definition served_1 : replica (MsgLog.log_mem (V := client_ctx_t)) :=
  (answer (0, replica_init demo_log)
     (handle_connection 0 0 (fun _ => true) (fun _ => true) 5 9 demo_input (replica_init demo_log))).2.

Definition served_2 : replica (MsgLog.log_mem (V := client_ctx_t)) :=
  answer served_1
    (run (execute_msg dirty_malloc demo_sha1 1)
         (execute_msg_ctrl (fun _ => 0) 0 (fun _ => true) 0 (fun _ => net_refused) []) 5 NORMAL served_1).
