(* ===== verification/Handover.v ===== *)
(** Passive replication as a whole: the checkpoint of the primary, the requests
    that primary and backup log after it, the loss of the primary, and the backup
    that continues with the same tasks. *)
From S2P Require Import Prelude CLib Iface Util Request Fifo Control Db Storage Replica Server Worker.
From S2P Require Import Failover Agreement RepMgr Factory Lfd Wire Transfer Protocol Orders Session Cluster Takeover Recovery.
From S2P Require Import System.
From S2P Require MsgLog.

(** * The backup *)

Lemma change_not_chk c : task_change c -> not_chk c.
Proof. unfold not_chk. by intros [(-> & _)| ->]. Qed.

Lemma free_all_frame {Q} l : forall w : replica Q,
  r_ctl (free_all l w) = r_ctl w /\ r_db (free_all l w) = r_db w /\ is_prune (free_all l w) = is_prune w.
Proof.
  induction l as [|c l IH]; intros w; [done|]. unfold free_all in *. cbn [fold_left].
  destruct (IH (free_msg c w)) as (-> & -> & ->). unfold free_msg.
  destruct (close_fd_frame (cc_fd c) w) as (F1 & F2 & _ & F4 & _). by rewrite F1, F2, F4.
Qed.

Section Backup.
Context {Q : Type} `{FifoLog Q client_ctx_t}.
Variable malloc : nat -> option data_point.
Hypothesis malloc_zero : forall n, exists d, malloc n = Some d /\ zlen (raw_data d) = MAX_DATA_LEN
  /\ last (raw_data d) = Some NUL.
Variable sha1 : bytes -> option bytes.
Variable sfuel : nat.
Variable hc : client_ctx_t -> replica Q -> outcome (replica Q).

Lemma backup_arrival l (v : replica Q) a : backup_with l v a -> arrives_as_backlog (r_ctl v) = true.
Proof. clear. intros Hv. unfold arrives_as_backlog, get_mode, get_state. by rewrite (bw_mode _ _ _ Hv), (bw_state _ _ _ Hv). Qed.

(** Its worker finds the checkpoint behind the requests [l]: it drops them and
    executes the checkpoint. *)
Lemma backup_prunes l c (v v1 : replica Q) a wfuel d : backup_with l v a -> msg_type (req c) = MSG_CHK_PT ->
  r_ctl v1 = r_ctl v -> is_prune v1 = 1 -> lq_rep (r_log v1) (set_msgs NORMAL (l ++ [c]) a) ->
  (S (length l) < wfuel)%nat -> handle_storage malloc sha1 sfuel c (r_db v1) = Ret (0, c, d) ->
  exists v2, run (execute_msg malloc sha1 sfuel) hc wfuel NORMAL v1 = Ret v2
    /\ r_db v2 = d /\ r_ctl v2 = r_ctl v /\ is_prune v2 = 0 /\ lq_rep (r_log v2) (set_msgs NORMAL [] a).
Proof.
  clear malloc_zero. intros Hv Hc K1 P1 L1 Hw Es. pose proof (backup_arrival l v a Hv) as Hback.
  destruct (prune_loop_spec (execute_msg malloc sha1 sfuel) (l ++ [c]) wfuel v1 (r_log v1) _
    (execute_msg_frame malloc sha1 sfuel) L1 eq_refl) as (q & Hq & Ep);
    [rewrite length_app; cbn [length]; lia|].
  assert (set_r_log (r_log v1) v1 = v1) as Hsame by by destruct v1. rewrite Hsame in Ep.
  rewrite prune_msgs_chk in Ep;
    [|by eapply Forall_impl; [exact (bw_changes _ _ _ Hv)|intros ?; apply change_not_chk]|done|constructor].
  destruct (free_all_frame l v1) as (F1 & F2 & _). set (u := set_prune 0 (free_all l v1)) in Ep.
  assert (r_ctl u = r_ctl v) as Kv by (by cbn [u set_prune r_ctl]; rewrite F1, K1).
  destruct (execute_msg_eq malloc sha1 sfuel c u 0 c d) as (u' & Eu & Ku & Du & _ & Pu & _);
    [rewrite Kv; apply Hv|cbn [u set_prune r_db]; by rewrite F2|].
  rewrite Eu, !bind_ret_l in Ep. cbn [free_all fold_left] in Ep.
  assert (r_ctl u' = r_ctl v) as Ku'.
  { rewrite Ku. unfold exec_ctl, is_preprimary, get_mode, get_state. rewrite Kv, (bw_state _ _ _ Hv). by rewrite andb_false_r. }
  exists (set_r_log q u'). split; [|by cbn; rewrite Pu].
  unfold run. rewrite !bool_decide_true by done. rewrite P1. cbn [andb Z.eqb Pos.eqb]. rewrite Ep, bind_ret_l.
  cbn [is_prune r_ctl set_r_log]. rewrite Pu, Ku'. unfold should_nrl_thrd_sleep. unfold arrives_as_backlog in Hback.
  by rewrite Hback.
Qed.

(** The checkpoint of the table [s]: it arrives, and one iteration of the worker
    makes the backup's table this one. *)
Lemma backup_synced status_ptr s text id num bid rand mb cc fuel fd input (v : replica Q) a l wfuel :
  let content := text ++ ⟦"FILE_END"⟧ ++ [LF] in
  (forall z, is_i32 (status_ptr z)) -> db_wf s -> Forall node_text (concat (data s)) ->
  export_nodes status_ptr (concat (data s)) = Ret text -> zlen content <= INT_MAX ->
  is_i32 id -> 0 <= num <= INT_MAX ->
  clean input -> stream input = chkpt_bytes id num content -> zlen (chkpt_bytes id num content) <= Z.of_nat fuel ->
  (forall n, mb n = true) -> cc (payload_name rand bid) = true ->
  backup_with l v a -> zlen l < normal_max a -> (S (length l) < wfuel)%nat ->
  exists v1 v2, handle_connection bid rand mb cc fuel fd input v = Ret (0, v1)
    /\ run (execute_msg malloc sha1 sfuel) hc wfuel NORMAL v1 = Ret v2
    /\ s ≡ r_db v2 /\ r_ctl v2 = r_ctl v /\ backup_with [] v2 (set_msgs NORMAL [] a).
Proof using malloc_zero.
  intros content Hst Hs Hnt Hexp Hlen Hid Hnum Hcl Hstr Hf Hmb Hcc Hv Hroom Hw.
  assert (0 < zlen content) as Hpos.
  { unfold content. rewrite !zlen_app. change (zlen ⟦"FILE_END"⟧) with 8. pose proof (zlen_nonneg text).
    pose proof (zlen_nonneg [LF]). lia. }
  destruct (checkpoint_logged id num content bid rand mb cc fuel fd input v a) as (v1 & E1 & L1 & P1 & K1 & D1);
    try done; [apply Hv|cbn [msgs limit]; by rewrite (bw_normal _ _ _ Hv)|].
  rewrite (backup_arrival l v a Hv) in L1, P1. cbn [msgs] in L1. rewrite (bw_normal _ _ _ Hv) in L1.
  destruct (apply_checkpoint malloc sha1 malloc_zero status_ptr sfuel s fd id num rand bid text true (r_db v1))
    as (d & Es & Hd & Heq & _); try done; [rewrite D1; apply lookup_insert_eq|].
  destruct (backup_prunes l (set_is_backlog true (chkpt_ctx fd id num bid rand content)) v v1 a wfuel d Hv eq_refl K1 P1 L1 Hw Es) as (v2 & E2 & D2 & K2 & P2 & L2).
  exists v1, v2. split; [exact E1|]. split; [exact E2|]. rewrite D2. split; [done|]. split; [done|].
  destruct Hv. constructor; rewrite ?K2, ?D2; done.
Qed.
End Backup.

(** * The primary *)

(** A primary that can send its table. *)
Record passive_primary {Q} (status_ptr : Z -> Z) (pid : Z) (can_create : bytes -> bool) (p : replica Q) : Prop := {
  pp_ctl : ctl_ok (r_ctl p);
  pp_mode : rep_mode (r_ctl p) = PASSIVE_REP;
  pp_state : state (r_ctl p) = PASSIVE_PRIMARY;
  pp_prune : is_prune p = 0;
  pp_db : db_wf (r_db p);
  pp_text : Forall node_text (concat (data (r_db p)));
  pp_file : can_create (export_name pid (r_db p)) = true;
  pp_num : 0 <= chk_point_num p <= INT_MAX;
  pp_size : forall text, export_nodes status_ptr (concat (data (r_db p))) = Ret text -> zlen text + 9 <= INT_MAX
}.

(** A round of its checkpoint thread. *)
Lemma primary_sends {Q} status_ptr pid can_create server_id env junk (p : replica Q) :
  reach env -> (forall z, is_i32 (status_ptr z)) -> passive_primary status_ptr pid can_create p ->
  exists text p1, export_nodes status_ptr (concat (data (r_db p))) = Ret text
    /\ zlen (text ++ ⟦"FILE_END"⟧ ++ [LF]) <= INT_MAX
    /\ send_checkpoint_ondemand status_ptr pid can_create server_id env junk p = Ret p1
    /\ data (r_db p1) = data (r_db p) /\ db_wf (r_db p1) /\ steady p1
    /\ r_log p1 = r_log p /\ (exists b0 b1, r_ctl p1 = set_bckup_servers b0 b1 (r_ctl p)) /\ is_prune p1 = is_prune p
    /\ let bytes := chkpt_bytes server_id (chk_point_num p) (text ++ ⟦"FILE_END"⟧ ++ [LF]) in
       delivered (net_out p1) = delivered (net_out p)
         ++ [(bs_info (bckup_svr_0 (r_ctl p)), bytes); (bs_info (bckup_svr_1 (r_ctl p)), bytes)].
Proof.
  intros Henv Hst [Kp Mp Sp Pp Dp Tp Fp Np Zp].
  destruct (import_file demo_malloc status_ptr (r_db p) (malloc_sized demo_malloc demo_malloc_zero) Hst Dp Tp) as (text & Et & _).
  destruct (send_checkpoint_up status_ptr pid can_create server_id env junk p text Henv Fp Et Tp)
    as (p1 & E & D1 & L1 & _ & (b0 & b1 & K1) & P1 & W1 & _ & N1).
  exists text, p1. split; [done|]. split.
  { rewrite !zlen_app. change (zlen ⟦"FILE_END"⟧) with 8. change (zlen [LF]) with 1. specialize (Zp text Et). lia. }
  split; [exact E|]. split; [exact D1|]. split; [by apply W1|].
  split; [|split; [exact L1|split; [by exists b0, b1|split; [done|exact N1]]]].
  split; [constructor|]; rewrite ?P1, ?K1; [by apply set_bckup_ok|done| |].
  - unfold should_nrl_thrd_sleep, get_state. cbn [state set_bckup_servers]. by rewrite Sp, andb_false_r.
  - unfold get_state. cbn [state set_bckup_servers]. by rewrite Sp.
Qed.

(** * Both continue *)

Section Continue.
Context {Q : Type} `{FifoLog Q client_ctx_t}.
Variables malloc malloc' : nat -> option data_point.
Hypothesis malloc_fits : malloc_ok malloc.
Hypothesis malloc_some : forall n, is_Some (malloc n).
Hypothesis malloc_fits' : malloc_ok malloc'.
Hypothesis malloc_some' : forall n, is_Some (malloc' n).
Variable sha1 : bytes -> option bytes.
Variable sfuel : nat.
Variables hc hc' : client_ctx_t -> replica Q -> outcome (replica Q).
Variable wfuel : nat.

(** The primary executes its requests as they come, the elected backup the same
    ones from its backlog. *)
Lemma same_tasks d q lp lb ap a (p v w2 : replica Q) :
  Forall2 same_req lp lb -> Forall table_request lp -> steady p -> lq_rep (r_log p) ap -> normal_msgs ap = lp ->
  backup_with lb v a -> tbl_same (r_db p) (r_db v) ->
  r_ctl w2 = elected d q (r_ctl v) -> ctl_ok (elected d q (r_ctl v)) -> r_db w2 = r_db v -> is_prune w2 = is_prune v ->
  lq_rep (r_log w2) a ->
  exists p2 w4, run_n (execute_msg malloc sha1 sfuel) hc wfuel NORMAL (length lp) p = Ret p2
    /\ run_n (execute_msg malloc' sha1 sfuel) hc' wfuel NORMAL (length lb + 1) w2 = Ret w4
    /\ tbl_same (r_db p2) (r_db w4) /\ r_ctl w4 = promoted (elected d q (r_ctl v)) /\ idle w4.
Proof using malloc_fits malloc_some malloc_fits' malloc_some'.
  intros Hsame Hreq Yp Lp Np Hv Ht K2 Hk2 D2 P2 L2.
  destruct (backlog_executed d q malloc' sha1 sfuel hc' wfuel v w2 a lb malloc_fits' malloc_some' Hv K2 Hk2 D2 P2 L2)
    as (w3 & w4 & E3 & E4 & D4 & K4 & Hi).
  destruct (drain (execute_msg malloc sha1 sfuel) hc wfuel (execute_msg_frame malloc sha1 sfuel)
    (execute_steady malloc sha1 sfuel) lp p ap Lp Yp Np) as (q' & _ & E).
  pose proof (exec_all_same malloc malloc' malloc_fits malloc_fits' malloc_some malloc_some' sha1 sfuel lp lb Hsame Hreq
    p w2) as Hr. rewrite E3, D2, K2 in Hr. specialize (Hr Ht (aw_ctl p (proj1 Yp)) Hk2).
  destruct (exec_all _ lp p) as [p2| | |]; try done. destruct Hr as (Ht' & _).
  exists (set_r_log q' p2), w4. split; [by rewrite E|]. split; [exact E4|]. split; [by rewrite D4|done].
Qed.
End Continue.

Lemma backup_logs {Q} `{FifoLog Q client_ctx_t} l q (v : replica Q) a : backup_with [] v (set_msgs NORMAL [] a) ->
  lq_rep q (set_msgs NORMAL l a) -> Forall task_change l -> Forall (fun c => is_backlog c = true) l ->
  backup_with l (set_r_log q v) (set_msgs NORMAL l a).
Proof. intros [] Hq Hl Hb. by constructor. Qed.

(** * Property *)

(** Passive replication keeps the tasks. The primary sends a checkpoint of its
    table; however the network cuts the bytes, a backup, whatever its table held
    and whatever requests [l] were in its log, takes it over: one iteration of its
    worker drops the requests the checkpoint covers and makes its table that of
    the primary. From then on both log the same requests, [lp] and [lb]: the
    primary executes them, and the backup keeps them. When the primary is lost
    after that and the manager's order to lead reaches the backup, it obeys in the
    next iteration of its control worker, works off its log, and is then the
    primary, idle and serving clients, with exactly the tasks the lost primary
    had. *)
Theorem failover_keeps_tasks {Q} `{FifoLog Q client_ctx_t} status_ptr pid can_create server_id nenv junk
    bid rand mb cc cfuel wfuel malloc malloc' sha1 sfuel hc pid' nenv' junk' l a (p v : replica Q) :
  reach nenv -> (forall z, is_i32 (status_ptr z)) -> is_i32 server_id -> passive_primary status_ptr pid can_create p ->
  malloc_ok malloc -> (forall n, is_Some (malloc n)) ->
  (forall n, exists d, malloc' n = Some d /\ zlen (raw_data d) = MAX_DATA_LEN /\ last (raw_data d) = Some NUL) ->
  (forall n, mb n = true) -> cc (payload_name rand bid) = true ->
  backup_with l v a -> zlen l < normal_max a -> (S (length l) < wfuel)%nat ->
  let hp := execute_msg malloc sha1 sfuel in
  let hv := execute_msg malloc' sha1 sfuel in
  let hcv := execute_msg_ctrl status_ptr pid' cc bid nenv' junk' in
  exists bytes p1, send_checkpoint_ondemand status_ptr pid can_create server_id nenv junk p = Ret p1
    /\ delivered (net_out p1) = delivered (net_out p)
         ++ [(bs_info (bckup_svr_0 (r_ctl p)), bytes); (bs_info (bckup_svr_1 (r_ctl p)), bytes)]
    /\ data (r_db p1) = data (r_db p) /\
  forall fuel fd input, clean input -> stream input = bytes -> zlen bytes <= Z.of_nat fuel ->
  exists v1 v2, handle_connection bid rand mb cc fuel fd input v = Ret (0, v1)
    /\ run hv hcv wfuel NORMAL v1 = Ret v2 /\ r_db p ≡ r_db v2 /\ backup_with [] v2 (set_msgs NORMAL [] a) /\
  forall lp lb ap qp qv, lq_rep qp ap -> normal_msgs ap = lp -> lq_rep qv (set_msgs NORMAL lb a) ->
    Forall2 same_req lp lb -> Forall table_request lp -> Forall task_change lb -> Forall (fun c => is_backlog c = true) lb ->
  forall d fd' input', rm_addr_ok d -> rm_printable d -> mode d = 0 -> 0 <= bid < 3 ->
    clean input' -> stream input' = zero_buf (relayed_text (election d bid)) ->
  exists p2 w1 w2 w4, run_n hp hc wfuel NORMAL (length lp) (set_r_log qp p1) = Ret p2
    /\ handle_connection bid rand mb cc cfuel fd' input' (set_r_log qv v2) = Ret (0, w1)
    /\ run hv hcv wfuel CONTROL w1 = Ret w2
    /\ run_n hv hcv wfuel NORMAL (length lb + 1) w2 = Ret w4
    /\ tbl_same (r_db p2) (r_db w4) /\ state (r_ctl w4) = PASSIVE_PRIMARY /\ idle w4.
Proof.
  intros Henv Hst Hsid Hp Hm Hsome Hz Hmb Hcc Hv Hroom Hw hp hv hcv.
  destruct (primary_sends status_ptr pid can_create server_id nenv junk p Henv Hst Hp)
    as (text & p1 & Et & Hlen & E1 & D1 & W1 & Y1 & _ & _ & _ & N1).
  eexists _, p1. split; [exact E1|]. split; [exact N1|]. split; [exact D1|]. intros fuel fd input Hcl Hs Hf.
  destruct (backup_synced malloc' Hz sha1 sfuel hcv status_ptr (r_db p) text server_id (chk_point_num p) bid rand mb cc
    fuel fd input v a l wfuel Hst (pp_db _ _ _ _ Hp) (pp_text _ _ _ _ Hp) Et Hlen Hsid (pp_num _ _ _ _ Hp) Hcl Hs Hf Hmb Hcc
    Hv Hroom Hw) as (v1 & v2 & E2 & E3 & Heq & K2 & Hv2).
  exists v1, v2. split; [exact E2|]. split; [exact E3|]. split; [exact Heq|]. split; [exact Hv2|].
  intros lp lb ap qp qv Lp Np Lb Hsame Hreq Hlb Hbl d fd' input' Hok Hpr Hmode Hbid Hcl' Hs'.
  pose proof (backup_logs lb qv v2 a Hv2 Lb Hlb Hbl) as Hvb.
  destruct (election_printed d bid Hok Hpr (or_introl Hmode) Hbid) as [_ Hce].
  destruct (change_obeyed bid rand mb cc cfuel fd' input' (election d bid) (set_r_log qv v2) (set_msgs NORMAL lb a)
    (elected d bid (r_ctl v2)) hv status_ptr pid' nenv' junk' wfuel Hce Hcl' Hs' (bw_ctl _ _ _ Hvb) (bw_freq _ _ _ Hvb))
    as (w1 & w2 & F1 & F2 & F3 & _ & F4 & F5 & F6 & F7 & _).
  { unfold rep_msg_spec, election. cbn [r_ctl set_r_log]. by rewrite (bw_mode _ _ _ Hv2), Hmode. }
  { exact Lb. }
  { apply Hvb. }
  { apply Hvb. }
  destruct (same_tasks malloc malloc' Hm Hsome (zero_ok malloc' Hz) (zero_some malloc' Hz) sha1 sfuel hc hcv wfuel d bid
    lp lb ap (set_msgs NORMAL lb a) (set_r_log qp p1) (set_r_log qv v2) w2)
    as (p2 & w4 & G1 & G2 & G3 & G4 & G5); try done.
  { by apply steady_log. }
  { cbn [r_db set_r_log]. unfold tbl_same. rewrite D1. exact Heq. }
  exists p2, w1, w2, w4. split; [exact G1|]. split; [exact F1|]. split; [exact F2|]. split; [exact G2|].
  split; [exact G3|]. split; [by rewrite G4|exact G5].
Qed.

(** The primary holds three tasks, the backup two stale requests; then one more
    request comes, and replica 1 takes over. *)
Definition full_primary : demo_replica := set_r_ctl (promoted preprimary_ctl) (set_r_db demo_db (replica_init demo_log)).

Lemma full_primary_ok : passive_primary (fun _ => 42) 100 (fun _ => true) full_primary.
Proof.
  constructor; try done.
  - apply promote_eq; [|done]. apply ctl_reachable_ok. eapply rtc_l; [by eapply (step_rep_msg preprimary_msg)|apply rtc_refl].
  - apply db_wfb_ok. by vm_compute.
  - apply node_textb_ok. by vm_compute.
  - intros text Ht. vm_compute in Ht. injection Ht as <-. by vm_compute.
Qed.

Definition kept (c : client_ctx_t) : client_ctx_t := set_is_backlog true c.

Lemma failover_keeps_tasks_witness : exists p1 p2 v1 v2 w1 w2 w4 q qp qv bytes,
  send_checkpoint_ondemand (fun _ => 42) 100 (fun _ => true) 0 net_up [] full_primary = Ret p1
  /\ map snd (delivered (net_out p1)) = [bytes; bytes]
  /\ handle_connection 1 5 (fun _ => true) (fun _ => true) (length bytes) 9 (one_piece bytes) (backup_replica q) = Ret (0, v1)
  /\ run (execute_msg demo_malloc demo_sha1 1) (execute_msg_ctrl (fun _ => 42) 100 (fun _ => true) 1 net_up []) 9 NORMAL v1 = Ret v2
  /\ demo_db ≡ r_db v2
  /\ run_n (execute_msg dirty_malloc demo_sha1 1) (fun _ => Ret) 9 NORMAL 1 (set_r_log qp p1) = Ret p2
  /\ handle_connection 1 5 (fun _ => true) (fun _ => true) 1 9
       (one_piece (zero_buf (relayed_text (election lost_primary 1)))) (set_r_log qv v2) = Ret (0, w1)
  /\ run (execute_msg demo_malloc demo_sha1 1) (execute_msg_ctrl (fun _ => 42) 100 (fun _ => true) 1 net_up []) 9 CONTROL w1 = Ret w2
  /\ run_n (execute_msg demo_malloc demo_sha1 1) (execute_msg_ctrl (fun _ => 42) 100 (fun _ => true) 1 net_up []) 9 NORMAL 2 w2 = Ret w4
  /\ tbl_same (r_db p2) (r_db w4) /\ idle w4.
Proof.
  destruct (filled_log demo_backlog) as (q & Hq); [reflexivity|].
  destruct (filled_log [bread_add 3]) as (qp & Hqp); [reflexivity|].
  destruct (filled_log [kept (bread_add 3)]) as (qv & Hqv); [reflexivity|].
  destruct (failover_keeps_tasks (fun _ => 42) 100 (fun _ => true) 0 net_up [] 1 5 (fun _ => true) (fun _ => true) 1 9
    dirty_malloc demo_malloc demo_sha1 1 (fun _ => Ret) 100 net_up [] demo_backlog (filled demo_backlog) full_primary
    (set_r_db (r_db (backup_replica q)) (backup_replica q))) as (bytes & p1 & E1 & N1 & _ & H1).
  - exact demo_reach.
  - intros _. int_lia.
  - done.
  - exact full_primary_ok.
  - apply dirty_malloc_ok.
  - intros n. by eexists.
  - apply demo_malloc_zero.
  - done.
  - done.
  - refine (demo_backup_with (r_db (backup_replica q)) q (filled demo_backlog) (hash_table_init_wf _) Hq _ _ _);
      [reflexivity|reflexivity|by split].
  - by vm_compute.
  - by apply Nat.ltb_lt.
  - destruct (one_piece_ok bytes) as [Hc1 Hs1].
    destruct (H1 (length bytes) 9 (one_piece bytes) Hc1 Hs1 (Z.le_refl _)) as (v1 & v2 & E2 & E3 & Heq & _ & H2).
    destruct (one_piece_ok (zero_buf (relayed_text (election lost_primary 1)))) as [Hc2 Hs2].
    destruct (H2 [bread_add 3] [kept (bread_add 3)] (filled [bread_add 3]) qp qv Hqp eq_refl Hqv) with (d := lost_primary)
      (fd' := 9) (input' := one_piece (zero_buf (relayed_text (election lost_primary 1))))
      as (p2 & w1 & w2 & w4 & E4 & E5 & E6 & E7 & T & _ & Hi).
    + by repeat constructor.
    + apply (bool_decide_eq_true_1 _). by vm_compute.
    + constructor; [apply bread_change|constructor].
    + by repeat constructor.
    + exact lost_primary_addr.
    + exact lost_primary_printable.
    + reflexivity.
    + done.
    + exact Hc2.
    + exact Hs2.
    + exists p1, p2, v1, v2, w1, w2, w4, q, qp, qv, bytes. split; [exact E1|]. split; [exact (f_equal (map snd) N1)|].
      split; [exact E2|]. split; [exact E3|]. split; [exact Heq|]. split; [exact E4|]. split; [exact E5|]. split; [exact E6|].
      split; [exact E7|]. split; [exact T|exact Hi].
Defined.
