(* ===== verification/Passive.v ===== *)
(** The passive mode as its users see it: a primary and any number of backups,
    the requests of the clients, the checkpoints, the losses of primaries and the
    arrivals of backups, in any order, against a list of tasks. *)
From S2P Require Import Prelude CLib Iface Util Request Fifo Control Db Storage Replica Server Worker.
From S2P Require Import Failover Agreement Client RepMgr Factory Lfd Reply Wire Transfer Protocol Orders Session Cluster.
From S2P Require Import Service Takeover Recovery Rejoin System Handover.
From S2P Require MsgLog.

(** * A backlog *)

Section Backlog.
Variable malloc : nat -> option data_point.
Variable sha1 : bytes -> option bytes.
Variable sfuel : nat.

(** What the requests [l] of a log make of a table. *)
Fixpoint work_off (l : list client_ctx_t) (s : db) : outcome db :=
  match l with
  | [] => Ret s
  | c :: l => '(_, _, s) ← handle_storage malloc sha1 sfuel c s; work_off l s
  end.

Lemma work_off_app l1 l2 s : work_off (l1 ++ l2) s = (s' ← work_off l1 s; work_off l2 s').
Proof.
  revert s. induction l1 as [|c l1 IH]; intros s; [done|]. cbn [app work_off].
  destruct (handle_storage malloc sha1 sfuel c s) as [[[r c'] s1]| | |]; [|done..]. rewrite !bind_ret_l. apply IH.
Qed.

Lemma exec_all_works_off {Q} l : forall (w : replica Q) s, ctl_ok (r_ctl w) -> Forall (fun c => is_backlog c = true) l ->
  work_off l (r_db w) = Ret s -> exists w', exec_all (execute_msg malloc sha1 sfuel) l w = Ret w' /\ r_db w' = s.
Proof.
  induction l as [|c l IH]; intros w s Hk Hb; cbn [work_off exec_all]; [intros [= <-]; by exists w|].
  apply Forall_cons_1 in Hb as [Hb Hbl]. intros E. apply bind_Ret_inv in E as ([[r c'] d] & Ed & E).
  destruct (execute_msg_eq malloc sha1 sfuel c w r c' d Hk Ed) as (w1 & -> & K & D & _).
  unfold exec_ctl in K. rewrite Hb, andb_false_r in K. rewrite bind_ret_l.
  apply IH; [by rewrite K|done|by rewrite D].
Qed.

(** A request of a user, in the log of a replica, has its effect on the tasks. *)
Hypothesis malloc_fits : malloc_ok malloc.
Hypothesis malloc_some : forall n, is_Some (malloc n).

Lemma op_effect T o rn : op_ok sha1 T o -> 0 <= rn <= INT_MAX ->
  exists r, says rn (uo_msg o) r /\ forall fd b s, let c := set_is_backlog b (request_ctx fd (uo_client o) r) in
    task_change c /\ (db_wf s -> (forall k, tasks_at k s = T k) ->
    exists e c' s', handle_storage malloc sha1 sfuel c s = Ret (e, c', s') /\ db_wf s'
      /\ forall k, tasks_at k s' = apply_op o T k).
Proof using malloc_fits malloc_some.
  intros [id m t d k Hid Et Ed Ht Hd Hts Hk Hnz|id m k Hid Ek Hk Hne] Hrn; cbn [uo_msg uo_client].
  - exists (add_req rn t d (ma_task_status m)). split; [by apply says_add|]. intros fd b s. cbv zeta. set (c := set_is_backlog b _).
    assert (zlen (task (req c)) = TASK_LENGTH) as Hlen.
    { cbn. destruct Ht as [_ Hl]. rewrite strncpy_fits by lia. rewrite zlen_app. unfold zeros, zlen.
      rewrite length_replicate. unfold zlen in Hl. unfold TASK_LENGTH. lia. }
    assert (0 <= zlen t <= TASK_LENGTH - 5) as Ht5.
    { unfold generate_key in Hk. case_if; [done|]. zbool. pose proof (zlen_nonneg t). cbn in Hlen. lia. }
    split; [by left|]. intros Hs HT.
    assert (add_ok malloc sha1 c s k) as Ha by (constructor; [done|exact (proj1 Ht5)|exact Hlen|exact Hk|exact Hnz|done]).
    destruct (handle_add malloc sha1 sfuel c s k malloc_fits Hs Ha) as (s1 & st & E & Hs1 & _ & V).
    eexists _, _, s1. split; [exact E|]. split; [done|]. intros k'. unfold tasks_at, apply_op in *. rewrite (V k').
    unfold abs_set. cbn [uo_key uo_effect]. destruct (k' =? k) eqn:Ek'; [|apply HT]. rewrite map_app. zbool. subst k'.
    rewrite HT. f_equal. cbn. f_equal. destruct Ht as [_ Hl]. rewrite strncpy_fits by lia.
    unfold ztake, zlen. rewrite Nat2Z.id. apply take_app_length.
  - exists (remove_req rn (fmt_u k)). split.
    { apply says_remove; [exact Ek|]. split; [by apply fmt_u_text|]. pose proof (fmt_u_length k). lia. }
    intros fd b s. cbv zeta. set (c := set_is_backlog b _). split; [by right|]. intros Hs HT.
    assert (hash_key (req c) = k) as Hkc.
    { change ((strtoul 10 (fmt_u k)).1 = k). by rewrite strtoul_fmt_u by auto. }
    destruct (handle_remove malloc sha1 sfuel c s Hs eq_refl) as (s1 & E & Hs1 & V). rewrite Hkc in V.
    eexists _, _, s1. split; [exact E|]. split; [done|]. intros k'. unfold tasks_at, apply_op in *. rewrite (V k').
    unfold abs_set. cbn [uo_key uo_effect]. destruct (k' =? k) eqn:Ek'; [|apply HT]. zbool. subst k'.
    rewrite <- HT. by destruct (view s k).
Qed.
End Backlog.

(** * The group *)

(** What happens to it: a request of a client; a checkpoint of the primary; the
    loss of the primary, after which the first of the backups is told to lead; and
    the arrival of a server that was just started, which is told to be a backup,
    after which the primary sends a checkpoint. *)
Inductive action :=
  | Ask (o : user_op)
  | Sync
  | Fail
  | Join.

(** The order to be a backup. *)
Definition backup_change : change := {| ch_mode := PASSIVE_REP; ch_state := PASSIVE_BACKUP; ch_peers := None |}.

Definition at_state {Q} (x : member Q) (w : replica Q) : member Q :=
  {| mb_net := mb_net x; mb_fd := mb_fd x; mb_id := mb_id x; mb_malloc := mb_malloc x; mb_replica := w;
     mb_input := mb_input x |}.

(** The bytes [b] arrive at [x], cut in some way. *)
Definition receives {Q} (b : bytes) (x : member Q) : Prop := clean (mb_input x) /\ stream (mb_input x) = b.

(** The client's side of a request: [servers] take it, those of [down], which the
    client has last in its list, refuse the connection, and only the connection to
    the primary [x] brings a reply. *)
Definition primary_suffices {Q} (id rn : Z) (servers down : list net_step) (x : member Q) (p : replica Q * bytes) : Prop :=
  forall resp ready f fuel n r, replied resp x p ->
    (forall i fd, ready i fd = true -> fd = socket_ret (mb_net x)) ->
    (forall i, (i < n)%nat -> ready i (socket_ret (mb_net x)) = false) -> ready n (socket_ret (mb_net x)) = true ->
    (n + 2 <= fuel)%nat ->
    exists c, send_and_get_response id (servers ++ down) resp ready (6 + f) fuel r (rn - 1) = Ret (0, c)
      /\ response_no_g c = rn /\ ex_closed c ≡ₚ map socket_ret servers /\ num_open_fds c = 0.

Lemma suffices {Q} id rn P servers down (x : member Q) ys p : servers ≡ₚ map mb_net (x :: ys) ->
  Forall reachable servers -> Forall refuses down -> NoDup (map socket_ret servers) ->
  client_reads id rn true P p.2 -> primary_suffices id rn servers down x p.
Proof.
  intros Hs Hre Hdown Hnd Hread resp ready f fuel n r [Hc Hst] Honly Hwait Hn Hfuel.
  assert (mb_net x ∈ servers) as Hx by (rewrite Hs; by left).
  assert (0 <= socket_ret (mb_net x)) as Hfd by (rewrite Forall_forall in Hre; by destruct (Hre _ Hx) as (_ & ? & _)).
  destruct (exchange_succeeds id resp ready (6 + f) servers down fuel r (rn - 1) n) as (c & E & E1 & E2 & E3).
  - intros ->. by apply elem_of_nil in Hx.
  - done.
  - done.
  - done.
  - apply Forall_forall. intros e He i Hi. rewrite (Honly i _ Hi). split; [done|]. intros r0.
    replace (rn - 1 + 1) with rn by lia.
    destruct (Hread (resp (socket_ret (mb_net x))) [] f r0 Hc) as (r' & E & E1 & E2 & _); [by rewrite app_nil_r|].
    by exists r'.
  - intros i e Hi He. destruct (ready i (socket_ret e)) eqn:Er; [|done].
    rewrite (Honly i _ Er) in Er. by rewrite Hwait in Er.
  - apply Exists_exists. by exists (mb_net x).
  - done.
  - exists c. split; [exact E|]. split; [lia|done].
Qed.

Section Group.
Context {Q : Type} `{FifoLog Q client_ctx_t}.
Variable rand : Z.
Variable malloc_bytes : Z -> bool.
Variable can_create : bytes -> bool.
Variable cfuel : nat.
Variable sha1 : bytes -> option bytes.
Variable sfuel : nat.
Variable wfuel : nat.
Variable status_ptr : Z -> Z.
Variable pid : Z.
Variable env : nat -> net_step.
Variable junk : bytes.
(** The room for requests in a log. *)
Variable cap : nat.

Let hn (x : member Q) : client_ctx_t -> replica Q -> outcome (replica Q) := execute_msg (mb_malloc x) sha1 sfuel.
Let hc (x : member Q) : client_ctx_t -> replica Q -> outcome (replica Q) :=
  execute_msg_ctrl status_ptr pid can_create (mb_id x) env junk.

(** A backup that is [n] requests behind its last checkpoint: its table and the
    requests in its log together are the tasks [T]. *)
Record follows (n : nat) (T : todo) (y : member Q) : Prop := {
  fo_log : exists l a s, backup_with l (mb_replica y) a /\ length l = n /\ normal_max a = Z.of_nat cap
           /\ work_off (mb_malloc y) sha1 sfuel l (r_db (mb_replica y)) = Ret s
           /\ db_wf s /\ forall k, tasks_at k s = T k;
  fo_memory : forall i, exists d, mb_malloc y i = Some d /\ zlen (raw_data d) = MAX_DATA_LEN
              /\ last (raw_data d) = Some NUL
}.

(** A backup that takes part, whatever its table holds: no more than [n] requests
    are in its log. *)
Record backs (n : nat) (y : member Q) : Prop := {
  ba_log : exists l a, backup_with l (mb_replica y) a /\ (length l <= n)%nat /\ normal_max a = Z.of_nat cap;
  ba_memory : forall i, exists d, mb_malloc y i = Some d /\ zlen (raw_data d) = MAX_DATA_LEN
              /\ last (raw_data d) = Some NUL
}.

(** A server that was just started. *)
Record newcomer (y : member Q) : Prop := {
  ne_fresh : exists a, fresh (mb_replica y) a /\ normal_msgs a = [] /\ normal_max a = Z.of_nat cap;
  ne_memory : forall i, exists d, mb_malloc y i = Some d /\ zlen (raw_data d) = MAX_DATA_LEN
              /\ last (raw_data d) = Some NUL
}.

(** The backup [y] takes a request: [w] is its state afterwards, in which its
    worker does nothing; no reply is written. *)
Definition keeps (y : member Q) (w : replica Q) : Prop :=
  handle_connection (mb_id y) rand malloc_bytes can_create cfuel (mb_fd y) (mb_input y) (mb_replica y) = Ret (0, w)
  /\ run (hn y) (hc y) wfuel NORMAL w = Ret w /\ sent w = sent (mb_replica y).

(** It takes a checkpoint: after one iteration of its worker it is in the state [w]. *)
Definition imports (y : member Q) (w : replica Q) : Prop := exists w1,
  handle_connection (mb_id y) rand malloc_bytes can_create cfuel (mb_fd y) (mb_input y) (mb_replica y) = Ret (0, w1)
  /\ run (hn y) (hc y) wfuel NORMAL w1 = Ret w.

(** It obeys an order and goes on for [n] iterations of its worker. *)
Definition obeys (n : nat) (y : member Q) (w : replica Q) : Prop := exists w1 w2,
  handle_connection (mb_id y) rand malloc_bytes can_create cfuel (mb_fd y) (mb_input y) (mb_replica y) = Ret (0, w1)
  /\ run (hn y) (hc y) wfuel CONTROL w1 = Ret w2 /\ run_n (hn y) (hc y) wfuel NORMAL n w2 = Ret w.

(** The primary [x] sends a checkpoint to the backups [ys], and the group goes on
    with [K]. *)
Definition syncs (x : member Q) (ys : list (member Q)) (K : member Q -> list (member Q) -> Prop) : Prop :=
  passive_primary status_ptr pid can_create (mb_replica x) -> is_i32 (mb_id x) ->
  exists bytes p, send_checkpoint_ondemand status_ptr pid can_create (mb_id x) env junk (mb_replica x) = Ret p
    /\ delivered (net_out p) = delivered (net_out (mb_replica x))
         ++ [(bs_info (bckup_svr_0 (r_ctl (mb_replica x))), bytes);
             (bs_info (bckup_svr_1 (r_ctl (mb_replica x))), bytes)] /\
  forall ys', Forall2 same_server ys ys' -> Forall (receives bytes) ys' -> zlen bytes <= Z.of_nat cfuel ->
  exists qs, Forall2 imports ys' qs /\ K (at_state x p) (zip_with at_state ys' qs).

(** The group of the primary [x] and the backups [ys], [n] requests after the
    last checkpoint, carries out the actions as the tasks [T] would: the primary
    holds them and the backups follow; a request is executed by the primary alone
    and kept by the backups, and the client succeeds; a checkpoint makes the
    backups' tables that of the primary; when the primary is lost the first
    backup, told to lead by any manager [d], takes its place; and a new server,
    told to be a backup, follows after the next checkpoint. *)
Fixpoint carries (acts : list action) (rns : Z -> Z) (n : nat) (T : todo) (x : member Q) (ys : list (member Q)) : Prop :=
  holds T x /\ Forall (follows n T) ys /\
  match acts with
  | [] => True
  | Ask o :: acts =>
      let id := uo_client o in
      let rn := rns id in
      exists buf, (text ← client_text rn id (uo_msg o); sprintf_zero text) = Ret buf /\
      forall x' ys' servers down, same_server x x' -> Forall2 same_server ys ys' -> Forall (receives buf) (x' :: ys') ->
        servers ≡ₚ map mb_net (x' :: ys') -> Forall reachable servers -> Forall refuses down ->
        NoDup (map socket_ret servers) ->
      exists p qs, serves_op rand malloc_bytes can_create cfuel sha1 sfuel (hc x') wfuel rn o x' p
        /\ Forall2 keeps ys' qs /\ primary_suffices id rn servers down x' p
        /\ carries acts (count_op o rns) (S n) (apply_op o T) (at_state x' p.1) (zip_with at_state ys' qs)
  | Sync :: acts => syncs x ys (carries acts rns 0 T)
  | Fail :: acts =>
      match ys with
      | [] => False
      | y :: ys => forall d y', same_server y y' -> rm_addr_ok d -> rm_printable d -> mode d = 0 -> 0 <= mb_id y' < 3 ->
          receives (zero_buf (relayed_text (election d (mb_id y')))) y' ->
          exists w, obeys (n + 1) y' w /\ state (r_ctl w) = PASSIVE_PRIMARY /\ carries acts rns n T (at_state y' w) ys
      end
  | Join :: acts => forall y, newcomer y -> receives (zero_buf (relayed_text backup_change)) y ->
      exists w, obeys 0 y w /\ state (r_ctl w) = PASSIVE_BACKUP /\ syncs x (ys ++ [at_state y w]) (carries acts rns 0 T)
  end.

(** The actions that fit: requests of users while the logs have room, and no
    more losses than there are backups, of which there are [b]. *)
Fixpoint acts_ok (acts : list action) (n : nat) (T : todo) (b : nat) : Prop :=
  match acts with
  | [] => True
  | Ask o :: acts => op_ok sha1 T o /\ (n < cap)%nat /\ acts_ok acts (S n) (apply_op o T) b
  | Sync :: acts => (n < cap)%nat /\ acts_ok acts 0 T b
  | Fail :: acts => match b with O => False | S b => acts_ok acts n T b end
  | Join :: acts => (n < cap)%nat /\ acts_ok acts 0 T (S b)
  end.

(** ** The steps *)

Lemma follows_malloc n T y : follows n T y -> malloc_ok (mb_malloc y) /\ forall i, is_Some (mb_malloc y i).
Proof. intros [_ Hz]. split; [by apply zero_ok|by apply zero_some]. Qed.

Lemma follows_same n T y y' : same_server y y' -> follows n T y -> follows n T y'.
Proof. intros (_ & Hm & Hr) [Hl Hz]. constructor; by rewrite ?Hm, ?Hr. Qed.

Lemma follows_backs n T y : follows n T y -> backs n y.
Proof. intros [(l & a & s & Hv & Hl & Hcap & _) Hz]. constructor; [|done]. exists l, a. split; [done|]. split; [lia|done]. Qed.

Lemma backs_same n y y' : same_server y y' -> backs n y -> backs n y'.
Proof. intros (_ & Hm & Hr) [Hl Hz]. constructor; by rewrite ?Hm, ?Hr. Qed.

(** A backup takes a request. *)
Lemma op_kept n T o rn buf y : op_ok sha1 T o -> 0 <= rn <= INT_MAX -> (n < cap)%nat -> follows n T y ->
  (text ← client_text rn (uo_client o) (uo_msg o); sprintf_zero text) = Ret buf -> receives buf y ->
  exists w, keeps y w /\ follows (S n) (apply_op o T) (at_state y w).
Proof.
  intros Ho Hrn Hn Hy Hb [Hc Hst]. destruct (follows_malloc n T y Hy) as [Hm Hsome].
  destruct Hy as [(l & a & s & Hv & Hl & Hcap & Hw & Hs & HT) Hz].
  destruct (op_effect (mb_malloc y) sha1 sfuel Hm Hsome T o rn Ho Hrn) as (r & Hsay & Heff).
  destruct (says_fields rn (uo_client o) _ r (mb_fd y) Hsay ltac:(int_lia) (op_client sha1 T o Ho))
    as (fields & Et & Hf & Hlen & Hshort & Hfold).
  rewrite Et, bind_ret_l, sprintf_message in Hb by done. injection Hb as <-.
  destruct (zero_buf_app (message fields)) as [rest Hrest]. rewrite Hrest in Hst.
  set (c := request_ctx (mb_fd y) (uo_client o) r) in *.
  destruct (Heff (mb_fd y) true s) as [Hchange (e & c' & s' & Es & Hs' & HT')]; [done|done|]. fold c in Hchange, Es.
  assert (queue_of c = NORMAL) as Hq by (by destruct Hsay).
  destruct (message_taken (mb_id y) rand malloc_bytes can_create cfuel (mb_fd y) (mb_input y) fields rest c
    (mb_replica y) a Hc Hst Hf Hlen Hfold) as (w & E & Lw & Kw & Dw & Sw & Pw & _);
    [by destruct Hsay|by destruct Hsay|apply Hv| |].
  { unfold has_room. rewrite Hq. cbn [msgs limit]. rewrite (bw_normal _ _ _ Hv), Hcap. apply Z.ltb_lt. unfold zlen. lia. }
  unfold logged in Lw. rewrite Hq, (backup_arrival l (mb_replica y) a Hv) in Lw. cbn [msgs] in Lw.
  rewrite (bw_normal _ _ _ Hv) in Lw.
  assert (prunes (r_ctl (mb_replica y)) c = false) as Hp by (unfold prunes; by destruct Hsay).
  rewrite Hp, (bw_prune _ _ _ Hv) in Pw. exists w. split.
  - split; [exact E|]. split; [|exact Sw]. unfold run. rewrite !bool_decide_true by done. rewrite Pw.
    cbn [andb Z.eqb]. rewrite bind_ret_l, Pw, Kw. pose proof (backup_arrival l _ a Hv) as Hback.
    unfold should_nrl_thrd_sleep. unfold arrives_as_backlog in Hback. by rewrite Hback.
  - constructor; cbn [mb_malloc mb_replica at_state]; [|done].
    exists (l ++ [set_is_backlog true c]), (set_msgs NORMAL (l ++ [set_is_backlog true c]) a), s'. split.
    + destruct Hv. constructor; rewrite ?Kw, ?Dw; try done; by apply Forall_app_2; [|constructor].
    + split; [rewrite length_app; cbn [length]; lia|]. split; [done|]. split; [|done].
      by rewrite work_off_app, Dw, Hw, bind_ret_l; cbn [work_off]; rewrite Es.
Qed.

Hypothesis env_up : reach env.
Hypothesis status_range : forall z, is_i32 (status_ptr z).
Hypothesis bytes_ok : forall n, malloc_bytes n = true.
Hypothesis files_ok : forall i, can_create (payload_name rand i) = true.
Hypothesis fuel_enough : (S cap < wfuel)%nat.

(** A backup takes a checkpoint: its log is empty and its table is that of the sender. *)
Lemma sync_taken n T s text id num y : backs n y -> (n < cap)%nat -> db_wf s -> Forall node_text (concat (data s)) ->
  export_nodes status_ptr (concat (data s)) = Ret text -> zlen (text ++ ⟦"FILE_END"⟧ ++ [LF]) <= INT_MAX ->
  is_i32 id -> 0 <= num <= INT_MAX -> (forall k, tasks_at k s = T k) ->
  let bytes := chkpt_bytes id num (text ++ ⟦"FILE_END"⟧ ++ [LF]) in
  receives bytes y -> zlen bytes <= Z.of_nat cfuel ->
  exists w, imports y w /\ follows 0 T (at_state y w).
Proof using status_range bytes_ok files_ok fuel_enough.
  intros [(l & a & Hv & Hl & Hcap) Hz] Hn Hs Hnt Et Hlen Hid Hnum HT bytes [Hc Hst] Hfuel.
  destruct (backup_synced (mb_malloc y) Hz sha1 sfuel (hc y) status_ptr s text id num (mb_id y) rand malloc_bytes can_create
    cfuel (mb_fd y) (mb_input y) (mb_replica y) a l wfuel status_range Hs Hnt Et Hlen Hid Hnum Hc Hst Hfuel bytes_ok
    (files_ok _) Hv) as (v1 & v2 & E1 & E2 & Heq & _ & Hv2); [rewrite Hcap; unfold zlen; lia|lia|].
  exists v2. split; [by exists v1|]. constructor; cbn [mb_malloc mb_replica at_state]; [|done].
  exists [], (set_msgs NORMAL [] a), (r_db v2). split; [exact Hv2|]. do 3 (split; [done|]). split; [apply Hv2|].
  intros k. rewrite <- HT. unfold tasks_at. symmetry. by apply view_same.
Qed.

(** The first backup takes the place of the primary. *)
Lemma fail_survived n T d y : follows n T y -> rm_addr_ok d -> rm_printable d -> mode d = 0 -> 0 <= mb_id y < 3 ->
  receives (zero_buf (relayed_text (election d (mb_id y)))) y ->
  exists w, obeys (n + 1) y w /\ state (r_ctl w) = PASSIVE_PRIMARY /\ holds T (at_state y w).
Proof.
  intros Hy Hok Hpr Hm0 Hid [Hc Hst]. destruct (follows_malloc n T y Hy) as [Hm Hsome].
  destruct Hy as [(l & a & s & Hv & Hl & _ & Hw & _ & HT) _].
  destruct (election_printed d (mb_id y) Hok Hpr (or_introl Hm0) Hid) as [_ Hce].
  destruct (change_obeyed (mb_id y) rand malloc_bytes can_create cfuel (mb_fd y) (mb_input y) (election d (mb_id y))
    (mb_replica y) a (elected d (mb_id y) (r_ctl (mb_replica y))) (hn y) status_ptr pid env junk wfuel Hce Hc Hst
    (bw_ctl _ _ _ Hv) (bw_freq _ _ _ Hv)) as (w1 & w2 & F1 & F2 & K2 & _ & Hk2 & D2 & P2 & L2 & _).
  { unfold rep_msg_spec, election. by rewrite (bw_mode _ _ _ Hv), Hm0. }
  { apply Hv. }
  { apply Hv. }
  { apply Hv. }
  destruct (backlog_executed d (mb_id y) (mb_malloc y) sha1 sfuel (hc y) wfuel (mb_replica y) w2 a l Hm Hsome Hv K2 Hk2
    D2 P2 L2) as (w3 & w4 & E3 & E4 & D4 & K4 & Hi).
  destruct (exec_all_works_off (mb_malloc y) sha1 sfuel l w2 s) as (w3' & E3' & D3);
    [by rewrite K2|apply Hv|by rewrite D2|].
  rewrite E3 in E3'. injection E3' as <-. rewrite Hl in E4.
  exists w4. split; [by exists w1, w2|]. split; [by rewrite K4|].
  constructor; cbn [mb_malloc mb_replica at_state]; [done|done|done|]. intros k. by rewrite D4, D3.
Qed.

(** The primary sends a checkpoint and still holds the tasks. *)
Lemma sync_sent T x : holds T x -> passive_primary status_ptr pid can_create (mb_replica x) ->
  exists text p, export_nodes status_ptr (concat (data (r_db (mb_replica x)))) = Ret text
    /\ zlen (text ++ ⟦"FILE_END"⟧ ++ [LF]) <= INT_MAX
    /\ send_checkpoint_ondemand status_ptr pid can_create (mb_id x) env junk (mb_replica x) = Ret p
    /\ holds T (at_state x p)
    /\ let bytes := chkpt_bytes (mb_id x) (chk_point_num (mb_replica x)) (text ++ ⟦"FILE_END"⟧ ++ [LF]) in
       delivered (net_out p) = delivered (net_out (mb_replica x))
         ++ [(bs_info (bckup_svr_0 (r_ctl (mb_replica x))), bytes);
             (bs_info (bckup_svr_1 (r_ctl (mb_replica x))), bytes)].
Proof using env_up status_range.
  intros [[Hk Hpr Hd Hl] Hm Hs HT] Hp.
  destruct (primary_sends status_ptr pid can_create (mb_id x) env junk (mb_replica x) env_up status_range Hp)
    as (text & p & Et & Hlen & E & D & W & _ & L & (b0 & b1 & K) & P & N).
  exists text, p. split; [exact Et|]. split; [exact Hlen|]. split; [exact E|]. split; [|exact N].
  constructor; cbn [mb_malloc mb_replica at_state]; [|done|done|].
  - constructor; [|by rewrite P|exact W|by rewrite L]. destruct Hk as [Hk Hst]. rewrite K. split; [by apply set_bckup_ok|exact Hst].
  - intros k. unfold tasks_at. rewrite (view_data k _ _ D). apply HT.
Qed.

(** Every backup does its part. *)
Lemma each_does (P P' : member Q -> Prop) (R : member Q -> replica Q -> Prop) ys : Forall P ys ->
  (forall y, P y -> exists w, R y w /\ P' (at_state y w)) ->
  exists qs, Forall2 R ys qs /\ Forall P' (zip_with at_state ys qs).
Proof.
  intros HP HR. induction HP as [|y ys Hy _ (qs & H1 & H2)]; [by exists []|].
  destruct (HR y Hy) as (w & Hw & Hw'). exists (w :: qs). by split; constructor.
Qed.

Lemma all_same (P : member Q -> Prop) ys ys' : (forall y y', same_server y y' -> P y -> P y') ->
  Forall2 same_server ys ys' -> Forall P ys -> Forall P ys'.
Proof.
  intros HP Hs. induction Hs as [|y y' ys ys' H1 _ IH]; [done|]. intros HT. apply Forall_cons_1 in HT as [Hy HT].
  constructor; [by eapply HP|by apply IH].
Qed.

(** A checkpoint, sent and taken. *)
Lemma sync_step n T x ys (K : member Q -> list (member Q) -> Prop) : holds T x -> Forall (backs n) ys -> (n < cap)%nat ->
  (forall x' zs, holds T x' -> Forall (follows 0 T) zs -> length zs = length ys -> K x' zs) -> syncs x ys K.
Proof using env_up status_range bytes_ok files_ok fuel_enough.
  intros Hx Hys Hn HK Hp Hid. destruct (sync_sent T x Hx Hp) as (text & p & Et & Hlen & E & Hx' & N).
  eexists _, p. split; [exact E|]. split; [exact N|]. intros ys' Hsy Hin Hf.
  destruct (each_does (fun y => backs n y /\ receives (chkpt_bytes (mb_id x) (chk_point_num (mb_replica x))
    (text ++ ⟦"FILE_END"⟧ ++ [LF])) y) (follows 0 T) imports ys') as (qs & Hqs & Hfol).
  { apply Forall_and. split; [by eapply all_same; [apply backs_same|..]|done]. }
  { intros y [Hy Hr]. apply (sync_taken n T (r_db (mb_replica x)) text (mb_id x) (chk_point_num (mb_replica x)) y);
      try done; [apply Hp..|apply Hx]. }
  exists qs. split; [exact Hqs|]. apply HK; [exact Hx'|exact Hfol|].
  rewrite length_zip_with_l_eq by by apply Forall2_length in Hqs. by apply Forall2_length in Hsy as <-.
Qed.

(** A new server becomes a backup. *)
Lemma join_made y : newcomer y -> (0 < cap)%nat -> receives (zero_buf (relayed_text backup_change)) y ->
  exists w, obeys 0 y w /\ state (r_ctl w) = PASSIVE_BACKUP /\ forall n, backs n (at_state y w).
Proof.
  clear fuel_enough. intros [(a & [Kf Pf Df Lf Cf Mf] & Na & Hcap) Hz] Hpos [Hc Hs].
  set (k := {| rep_mode := PASSIVE_REP; state := PASSIVE_BACKUP; prev_state := prev_state ctl_init;
     signal_exit_checkpt_thread := 0; is_chkpt_thrd_running := 0; checkpoint_freq_g := 10;
     bckup_svr_0 := BSVR_CTX_INITIALISER; bckup_svr_1 := BSVR_CTX_ZERO; chk_thread := None |}).
  destruct (change_obeyed (mb_id y) rand malloc_bytes can_create cfuel (mb_fd y) (mb_input y) backup_change
    (mb_replica y) a k (hn y) status_ptr pid env junk wfuel) as (w1 & w2 & F1 & F2 & K2 & _ & Hk2 & D2 & P2 & L2 & _).
  { by constructor. }
  { exact Hc. }
  { exact Hs. }
  { rewrite Kf. apply ctl_init_ok. }
  { by rewrite Kf. }
  { rewrite Kf. reflexivity. }
  { exact Lf. }
  { exact Cf. }
  { exact Mf. }
  exists w2. split; [by exists w1, w2|]. rewrite K2. split; [done|]. intros n.
  constructor; cbn [mb_malloc mb_replica at_state]; [|done]. exists [], a. split; [|split; [cbn; lia|done]].
  constructor; rewrite ?K2, ?D2, ?P2; try done. split; [lia|done].
Qed.

Lemma ask_step T o rn n buf x ys : op_ok sha1 T o -> 0 <= rn <= INT_MAX -> (n < cap)%nat -> holds T x -> Forall (follows n T) ys ->
  (text ← client_text rn (uo_client o) (uo_msg o); sprintf_zero text) = Ret buf -> Forall (receives buf) (x :: ys) ->
  exists p qs, serves_op rand malloc_bytes can_create cfuel sha1 sfuel (hc x) wfuel rn o x p /\ Forall2 keeps ys qs
    /\ holds (apply_op o T) (at_state x p.1) /\ Forall (follows (S n) (apply_op o T)) (zip_with at_state ys qs).
Proof.
  intros Ho Hrn Hn Hx Hys Hb Hin. apply Forall_cons_1 in Hin as [[Hc Hs] Hin].
  destruct (op_served rand malloc_bytes can_create cfuel sha1 sfuel (hc x) wfuel T o rn buf x Ho Hrn Hx Hb Hc Hs) as (p & Hp).
  destruct (each_does (fun y => follows n T y /\ receives buf y) (follows (S n) (apply_op o T)) keeps ys)
    as (qs & Hqs & Hf).
  { by apply Forall_and. }
  { intros y [Hy Hr]. by eapply op_kept. }
  exists p, qs. split; [exact Hp|]. split; [exact Hqs|]. split; [|exact Hf].
  destruct Hp as (w1 & _ & _ & Hi & Ht & _). destruct Hx as [_ Hm Hsm HT].
  constructor; cbn [at_state mb_replica mb_malloc]; try done. intros k. rewrite (Ht k). unfold apply_op. by rewrite HT.
Qed.
End Group.

(** * Property *)

(** C2: the passive mode refines a list of tasks. A primary that holds the tasks
    and any number of backups, whose tables and logs together hold them too,
    carry out any sequence of requests of clients (additions and removals,
    while there is room in the logs), checkpoints of the primary, losses of
    the primary (as long as a backup is left) and arrivals of new backups as
    the list of tasks does. For each request: however the bytes are cut on the
    way to each server, the primary executes it and writes one reply, which
    shows the key of an added task; every backup logs it and writes nothing;
    and the client, to which only the primary answers, succeeds and closes
    every connection exactly once, whatever servers that are down it has at
    the end of its list. For each checkpoint: the bytes, cut anyhow, make the
    table of every backup that of the primary and empty its log. For each
    loss: the first backup, told to lead by a manager of any configuration,
    works off its log and becomes the primary, idle, with the tasks of the
    lost one. And a server that was just started and is told to be a backup
    has the tasks after the checkpoint that follows. So at every point the
    primary holds the tasks of the list. *)
Theorem passive_refines_todo {Q} `{FifoLog Q client_ctx_t} rand mb cc cfuel sha1 sfuel wfuel status_ptr pid env junk cap
    acts rns n T (x : member Q) ys :
  reach env -> (forall z, is_i32 (status_ptr z)) -> (forall i, mb i = true) ->
  (forall i, cc (payload_name rand i) = true) -> (S cap < wfuel)%nat ->
  (forall i, 0 <= rns i /\ rns i + zlen acts <= INT_MAX) ->
  holds T x -> Forall (follows sha1 sfuel cap n T) ys -> acts_ok sha1 cap acts n T (length ys) ->
  carries rand mb cc cfuel sha1 sfuel wfuel status_ptr pid env junk cap acts rns n T x ys.
Proof.
  intros Henv Hst Hmb Hcc Hfuel. revert rns n T x ys.
  induction acts as [|act acts IH]; intros rns n T x ys Hrns Hx Hys Hacts; [by split|].
  setoid_rewrite zlen_cons in Hrns. pose proof (zlen_nonneg acts). split; [done|]. split; [done|].
  destruct act as [o| | |]; cbn [acts_ok] in Hacts.
  - destruct Hacts as (Ho & Hn & Hacts). destruct (Hrns (uo_client o)) as [Hrn Hmax].
    destruct (op_buf sha1 T o (rns (uo_client o)) Ho) as [buf Hbuf]; [int_lia|]. exists buf. split; [exact Hbuf|].
    intros x' ys' servers down Hsx Hsy Hin Hserv Hre Hdown Hnd.
    pose proof (holds_same T [x] [x'] ltac:(by constructor) ltac:(by constructor)) as Hx'.
    apply Forall_inv in Hx'.
    destruct (ask_step rand mb cc cfuel sha1 sfuel wfuel status_ptr pid env junk cap T o (rns (uo_client o)) n buf x' ys' Ho
      ltac:(lia) Hn Hx'
      (all_same _ ys ys' (follows_same sha1 sfuel cap n T) Hsy Hys) Hbuf Hin) as (p & qs & Hp & Hqs & Hhold & Hfol).
    exists p, qs. split; [exact Hp|]. split; [exact Hqs|]. split.
    { destruct Hp as (_ & _ & _ & _ & _ & _ & Hread). by eapply suffices. }
    apply IH; [|exact Hhold|exact Hfol|].
    + intros i. unfold count_op. specialize (Hrns i). case_if; lia.
    + rewrite length_zip_with_l_eq by by apply Forall2_length in Hqs. by apply Forall2_length in Hsy as <-.
  - destruct Hacts as [Hn Hacts].
    apply (sync_step rand mb cc cfuel sha1 sfuel wfuel status_ptr pid env junk cap Henv Hst Hmb Hcc Hfuel n T); try done.
    { eapply Forall_impl; [exact Hys|]. intros y. apply follows_backs. }
    intros x' zs Hx' Hzs Hlen. apply IH; [intros i; specialize (Hrns i); lia|done|done|by rewrite Hlen].
  - destruct Hys as [|y ys Hy Hys]; [done|]. intros d y' Hsy Hok Hpr Hm Hid Hr.
    destruct (fail_survived rand mb cc cfuel sha1 sfuel wfuel status_ptr pid env junk cap n T d y') as (w & Hw & Hp & Hh);
      [by eapply follows_same|done..|].
    exists w. split; [exact Hw|]. split; [exact Hp|]. apply IH; [|exact Hh|exact Hys|exact Hacts].
    intros i. specialize (Hrns i). lia.
  - destruct Hacts as [Hn Hacts]. intros y Hy Hr.
    destruct (join_made rand mb cc cfuel sha1 sfuel wfuel status_ptr pid env junk cap y Hy ltac:(lia) Hr) as (w & Hw & Hb & Hba).
    exists w. split; [exact Hw|]. split; [exact Hb|].
    apply (sync_step rand mb cc cfuel sha1 sfuel wfuel status_ptr pid env junk cap Henv Hst Hmb Hcc Hfuel n T); try done.
    { apply Forall_app_2; [|by constructor]. eapply Forall_impl; [exact Hys|]. intros y'. apply follows_backs. }
    intros x' zs Hx' Hzs Hlen. apply IH; [intros i; specialize (Hrns i); lia|done|done|].
    rewrite Hlen, length_app. cbn [length]. by rewrite Nat.add_1_r.
Qed.

(** Primary 0 is alone and holds three tasks; server 1 joins it, the bread is put
    on the list, and the primary is lost. *)
Definition demo_lead : member MsgLog.log_mem :=
  {| mb_net := net_ok 4; mb_fd := 6; mb_id := 0; mb_malloc := demo_malloc; mb_replica := full_primary; mb_input := [] |}.
Definition demo_back : member MsgLog.log_mem :=
  {| mb_net := net_ok 5; mb_fd := 7; mb_id := 1; mb_malloc := demo_malloc;
     mb_replica := replica_init demo_log; mb_input := [] |}.
Definition with_input {Q} (b : bytes) (x : member Q) : member Q :=
  {| mb_net := mb_net x; mb_fd := mb_fd x; mb_id := mb_id x; mb_malloc := mb_malloc x; mb_replica := mb_replica x;
     mb_input := one_piece b |}.

Lemma demo_lead_holds : holds (fun k => tasks_at k demo_db) demo_lead.
Proof.
  constructor; [|by apply zero_ok, demo_malloc_zero|by apply zero_some, demo_malloc_zero|done].
  constructor; [|done|apply full_primary_ok|].
  - split; [apply full_primary_ok|]. by right.
  - exists (abs_init 50 50). split; [apply MsgLog.log_rep_init|done].
Qed.

Lemma demo_back_new b : newcomer 50 (with_input b demo_back).
Proof.
  constructor; [|apply demo_malloc_zero]. exists (abs_init 50 50). split; [|done].
  constructor; try done; [apply hash_table_init_wf|apply MsgLog.log_rep_init].
Qed.

Lemma receives_input {Q} b (x : member Q) : receives b (with_input b x).
Proof. exact (one_piece_ok b). Qed.

Lemma same_with_input {Q} b (x : member Q) : same_server x (with_input b x).
Proof. by repeat split. Qed.

(** The checkpoint of the demonstration is short. *)
Lemma demo_bytes_short p b i0 i1 : send_checkpoint_ondemand (fun _ => 42) 100 (fun _ => true) 0 net_up [] full_primary = Ret p ->
  delivered (net_out p) = delivered (net_out full_primary) ++ [(i0, b); (i1, b)] -> zlen b <= Z.of_nat 1000.
Proof.
  intros E N.
  assert (match send_checkpoint_ondemand (fun _ => 42) 100 (fun _ => true) 0 net_up [] full_primary with
          | Ret p => forallb (fun m => zlen m.2 <=? 1000) (delivered (net_out p)) | _ => false end = true) as Hb by (by vm_compute).
  rewrite E, N, forallb_app in Hb. apply andb_prop in Hb as [_ Hb]. cbn [forallb snd] in Hb.
  apply andb_prop in Hb as [Hb _]. apply Z.leb_le in Hb. lia.
Qed.

Lemma passive_refines_todo_witness : exists y0 bytes p y1 buf q y2 w,
  obeys 5 (fun _ => true) (fun _ => true) 1000 demo_sha1 1 60 (fun _ => 42) 100 net_up [] 0
    (with_input (zero_buf (relayed_text backup_change)) demo_back) y0
  /\ send_checkpoint_ondemand (fun _ => 42) 100 (fun _ => true) 0 net_up [] full_primary = Ret p
  /\ imports 5 (fun _ => true) (fun _ => true) 1000 demo_sha1 1 60 (fun _ => 42) 100 net_up []
       (with_input bytes (at_state demo_back y0)) y1
  /\ serves_op 5 (fun _ => true) (fun _ => true) 1000 demo_sha1 1
       (execute_msg_ctrl (fun _ => 42) 100 (fun _ => true) 0 net_up []) 60 1 buy_bread
       (with_input buf (at_state demo_lead p)) q
  /\ keeps 5 (fun _ => true) (fun _ => true) 1000 demo_sha1 1 60 (fun _ => 42) 100 net_up []
       (with_input buf (at_state demo_back y1)) y2
  /\ obeys 5 (fun _ => true) (fun _ => true) 1000 demo_sha1 1 60 (fun _ => 42) 100 net_up [] 2
       (with_input (zero_buf (relayed_text (election lost_primary 1))) (at_state demo_back y2)) w
  /\ state (r_ctl w) = PASSIVE_PRIMARY
  /\ tasks_at bread_key (r_db w) = tasks_at bread_key demo_db ++ [⟦"bread"⟧].
Proof.
  destruct (passive_refines_todo 5 (fun _ => true) (fun _ => true) 1000 demo_sha1 1 60 (fun _ => 42) 100 net_up [] 50
    [Join; Ask buy_bread; Fail] (fun _ => 1) 0 (fun k => tasks_at k demo_db) demo_lead []) as (_ & _ & H0).
  - exact demo_reach.
  - intros _. int_lia.
  - done.
  - done.
  - by apply Nat.ltb_lt.
  - intros _. by vm_compute.
  - exact demo_lead_holds.
  - exact (Forall_nil_2 _).
  - split; [by apply Nat.ltb_lt|]. split; [apply buy_bread_ok|]. split; [by apply Nat.ltb_lt|exact I].
  - destruct (H0 (with_input (zero_buf (relayed_text backup_change)) demo_back) (demo_back_new _)) as (y0 & O0 & _ & H1).
    { apply receives_input. }
    destruct (H1 full_primary_ok ltac:(done)) as (bytes & p & E1 & N1 & H2).
    destruct (H2 [with_input bytes (at_state demo_back y0)]) as (qs1 & Q1 & H3).
    { constructor; [exact (same_with_input bytes _)|constructor]. }
    { exact (Forall_cons_2 _ _ _ (receives_input bytes _) (Forall_nil_2 _)). }
    { exact (demo_bytes_short p bytes _ _ E1 N1). }
    apply Forall2_cons_inv_l in Q1 as (y1 & qs & I1 & Qn & ->). apply Forall2_nil_inv_l in Qn as ->.
    destruct H3 as (_ & _ & buf & _ & H4).
    destruct (H4 (with_input buf (at_state demo_lead p)) [with_input buf (at_state demo_back y1)]
      [net_ok 4; net_ok 5] [net_refused]) as (q & qs2 & S1 & Q2 & _ & H5).
    { exact (same_with_input buf (at_state demo_lead p)). }
    { constructor; [by repeat split|constructor]. }
    { exact (Forall_cons_2 _ _ _ (receives_input buf _) (Forall_cons_2 _ _ _ (receives_input buf _) (Forall_nil_2 _))). }
    { reflexivity. }
    { repeat apply Forall_cons_2; try apply Forall_nil_2; by repeat split. }
    { by apply Forall_cons_2; [|apply Forall_nil_2]. }
    { by apply (bool_decide_unpack _). }
    apply Forall2_cons_inv_l in Q2 as (y2 & qs & K2 & Qn & ->). apply Forall2_nil_inv_l in Qn as ->.
    destruct H5 as (_ & _ & H6).
    destruct (H6 lost_primary (with_input (zero_buf (relayed_text (election lost_primary 1))) (at_state demo_back y2)))
      as (w & O & Hp & Hw & _ & _).
    { by repeat split. }
    { exact lost_primary_addr. }
    { exact lost_primary_printable. }
    { reflexivity. }
    { done. }
    { apply receives_input. }
    exists y0, bytes, p, y1, buf, q, y2, w. split; [exact O0|]. split; [exact E1|]. split; [exact I1|]. split; [exact S1|].
    split; [exact K2|]. split; [exact O|]. split; [exact Hp|]. destruct Hw as [_ _ _ HT]. exact (HT bread_key).
Defined.
