(* ===== verification/Launch.v ===== *)
(** The processes of a replica and how they are started: [main] of
    [src/server.c] with [start_worker_threads], [main] of [src/factory.c] and
    [main] of [src/local_f_detector.c]. *)
From S2P Require Import Prelude CLib Iface Util Request Fifo Control Db Storage Replica Server Worker System Factory Lfd Daemon.
From S2P Require MsgLog.

(** * The server *)

Abbreviation log := (MsgLog.log_mem (V := client_ctx_t)).

(** The two results of [pthread_create]; the list of the workers that run. *)
Definition start_worker_threads (svr : option log) (created0 created1 : bool)
  : outcome (Z * list log_msg_type) :=
  match svr with
  | None => Ret (-1, [])
  | Some _ =>
      if negb created0 then Exit
      else if negb created1 then Exit
      else Ret (0, [NORMAL; CONTROL])
  end.

(** The process after its start: the shared state, its id, its workers and the
    descriptors whose connection thread has not finished. *)
Record server := {
  sv_replica : replica log;
  sv_id : Z;
  sv_workers : list log_msg_type;
  sv_connections : list Z
}.

Definition set_sv_replica (w : replica log) (s : server) : server :=
  {| sv_replica := w; sv_id := sv_id s; sv_workers := sv_workers s; sv_connections := sv_connections s |}.
Definition set_sv_connections (l : list Z) (s : server) : server :=
  {| sv_replica := sv_replica s; sv_id := sv_id s; sv_workers := sv_workers s; sv_connections := l |}.

(** [main] up to its loop. It asks for three arguments and reads a fourth. *)
Definition server_main (argv : list bytes) (o : os_listen) (created0 created1 : bool) : outcome server :=
  if zlen argv <? 3 then Exit
  else
    id ← arg 3 argv;
    _ ← set_up_listener (argv !! 1%nat) (argv !! 2%nat) o;
    let svr_log := MsgLog.log_mem_init 50 50 in
    '(status, workers) ← start_worker_threads (Some svr_log) created0 created1;
    if negb (status =? 0) then Exit
    else Ret {| sv_replica := replica_init svr_log; sv_id := atoi id; sv_workers := workers;
                sv_connections := [] |}.

(** A connection: its descriptor and the result of [pthread_create]. *)
Definition serve_connection (a : Z * bool) (s : server) : outcome server :=
  if a.2 then Ret (set_sv_connections (a.1 :: sv_connections s) s)
  else Ret (set_sv_replica (close_fd a.1 (sv_replica s)) s).

(** What the threads of the process do. *)
Inductive server_step : server -> server -> Prop :=
| sv_accept e s s' :
    accept_step false serve_connection e s = Ret s' -> server_step s s'
| sv_connection rand malloc_bytes can_create fuel fd input r l1 l2 w s :
    sv_connections s = l1 ++ fd :: l2 ->
    handle_connection (sv_id s) rand malloc_bytes can_create fuel fd input (sv_replica s) = Ret (r, w) ->
    server_step s (set_sv_connections (l1 ++ l2) (set_sv_replica w s))
| sv_worker malloc sha1 sfuel status_ptr pid can_create env junk fuel prio w s :
    malloc_ok malloc -> prio ∈ sv_workers s ->
    run (execute_msg malloc sha1 sfuel)
        (execute_msg_ctrl status_ptr pid can_create (sv_id s) env junk) fuel prio (sv_replica s) = Ret w ->
    server_step s (set_sv_replica w s)
| sv_chkpt status_ptr pid can_create env junk w s :
    send_checkpoint status_ptr pid can_create (sv_id s) env junk (sv_replica s) = Ret w ->
    server_step s (set_sv_replica w s).

Lemma server_main_Ret argv o c0 c1 s : server_main argv o c0 c1 = Ret s ->
  exists id, argv !! 3%nat = Some id /\ sv_id s = atoi id /\ sv_workers s = [NORMAL; CONTROL]
    /\ sv_connections s = [] /\ sv_replica s = replica_init (MsgLog.log_mem_init 50 50).
Proof.
  unfold server_main. case_if; [done|]. intros H. apply bind_Ret_inv in H as (id & Hid & H).
  apply bind_Ret_inv in H as (fd & _ & H). unfold start_worker_threads in H.
  destruct c0, c1; try done. exists id. apply deref_Ret_inv in Hid.
  split; [exact Hid|]. cbn in H. injection H as <-. done.
Qed.

(** Started with an address and a port only, it reads behind its arguments. *)
Lemma server_needs_id argv o c0 c1 : length argv = 3%nat -> server_main argv o c0 c1 = Undef.
Proof. by destruct argv as [|a [|b [|c [|]]]]. Qed.

(** A step of the process is a step of the replica or leaves it alone. *)
Lemma server_step_replica s s' a : replica_ok 50 50 (sv_replica s) a -> server_step s s' ->
  sv_id s' = sv_id s /\ sv_workers s' = sv_workers s /\ exists a', replica_ok 50 50 (sv_replica s') a'.
Proof.
  intros Hw Hs. destruct Hs as [e s s' E|? ? ? ? ? ? ? ? ? w s E1 E|? ? ? ? ? ? ? ? ? ? w s Hm Hp E|? ? ? ? ? w s E].
  - destruct e as [[fd created]| | |]; cbn in E.
    + unfold serve_connection in E. cbn in E.
      destruct created; injection E as <-; (split; [done|]; split; [done|]); exists a; [done|].
      eapply replica_ok_ext; [exact Hw|cbn; unfold close_fd; by case_if..].
    + injection E as <-. split; [done|]. split; [done|]. by exists a.
    + done.
    + done.
  - split; [done|]. split; [done|]. eapply replica_step_ok; [exact Hw|]. by eapply step_connection.
  - split; [done|]. split; [done|]. eapply replica_step_ok; [exact Hw|]. by eapply step_worker.
  - split; [done|]. split; [done|]. eapply replica_step_ok; [exact Hw|]. by eapply step_chkpt.
Qed.

(** A server process whose connections and iterations of the workers come one
    after the other, from its command line on: in every state between two of
    them the server has the id of its third argument and its two workers; the
    control invariant holds, and the checkpoint thread is alive exactly while
    the replica is the passive primary; the hash table is well formed; each
    queue of the message log holds at most fifty requests; and every logged
    request has a length that is not negative. ([Modes.process_invariant] is the
    statement for every schedule of the accesses.) *)
Theorem server_invariant argv o c0 c1 s0 s :
  server_main argv o c0 c1 = Ret s0 -> rtc server_step s0 s ->
  exists id a,
    argv !! 3%nat = Some id /\ sv_id s = atoi id /\ sv_workers s = [NORMAL; CONTROL]
    /\ ctl_ok (r_ctl (sv_replica s))
    /\ (is_Some (chk_thread (r_ctl (sv_replica s))) <->
        rep_mode (r_ctl (sv_replica s)) = PASSIVE_REP /\ state (r_ctl (sv_replica s)) = PASSIVE_PRIMARY)
    /\ db_wf (r_db (sv_replica s))
    /\ lq_rep (r_log (sv_replica s)) a
    /\ zlen (normal_msgs a) <= 50 /\ zlen (control_msgs a) <= 50
    /\ Forall (fun c => req_ok (req c)) (normal_msgs a ++ control_msgs a).
Proof.
  intros H0 Hr. apply server_main_Ret in H0 as (id & Hid & E1 & E2 & _ & E4).
  assert (sv_id s = atoi id /\ sv_workers s = [NORMAL; CONTROL] /\ exists a, replica_ok 50 50 (sv_replica s) a)
    as (Ei & Ew & a & Hw).
  { revert Hr. apply (rtc_ind_r (fun s => sv_id s = atoi id /\ sv_workers s = [NORMAL; CONTROL]
      /\ exists a, replica_ok 50 50 (sv_replica s) a)).
    - split; [done|]. split; [done|]. exists (abs_init 50 50). rewrite E4. apply replica_init_ok, MsgLog.log_rep_init.
    - intros s1 s2 _ Hs (H1 & H2 & a & Hw). destruct (server_step_replica s1 s2 a Hw Hs) as (-> & -> & H3). done. }
  exists id, a. destruct Hw as [Hk Hd Hl Hc _ _ Hn Hm].
  split; [done|]. split; [done|]. split; [done|]. split; [done|]. split; [by apply thread_iff|]. done.
Qed.

(** A server that accepts a connection, logs the addition it carries and
    executes it. *)
Definition demo_argv : list bytes := [SERVER_PATH; ⟦"127.0.0.1"⟧; ⟦"8080"⟧; ⟦"0"⟧].
Definition demo_sockets : os_listen := {| pton_ret := 1; lsocket_ret := 3; bind_ret := 0; listen_ret := 0 |}.
Definition demo_started (w : replica log) (l : list Z) : server :=
  {| sv_replica := w; sv_id := 0; sv_workers := [NORMAL; CONTROL]; sv_connections := l |}.

Lemma server_invariant_witness :
  server_main demo_argv demo_sockets true true = Ret (demo_started (replica_init demo_log) [])
  /\ rtc server_step (demo_started (replica_init demo_log) []) (demo_started served_2 [])
  /\ db_wf (r_db (sv_replica (demo_started served_2 [])))
  /\ data_size (r_db (sv_replica (demo_started served_2 []))) = 9.
Proof.
  assert (server_main demo_argv demo_sockets true true = Ret (demo_started (replica_init demo_log) [])) as H0
    by by vm_compute.
  assert (rtc server_step (demo_started (replica_init demo_log) []) (demo_started served_2 [])) as Hr.
  { eapply rtc_l; [|eapply rtc_l; [|eapply rtc_l; [|apply rtc_refl]]].
    - apply (sv_accept (Accepted (9, true)) _ (demo_started (replica_init demo_log) [9])). reflexivity.
    - apply (sv_connection 0 (fun _ => true) (fun _ => true) 5 9 demo_input 0 [] [] served_1
        (demo_started (replica_init demo_log) [9])); [reflexivity|by vm_compute].
    - apply (sv_worker dirty_malloc demo_sha1 1 (fun _ => 0) 0 (fun _ => true) (fun _ => net_refused) [] 5 NORMAL
        served_2 (demo_started served_1 [])); [apply dirty_malloc_ok|by left|by vm_compute]. }
  destruct (server_invariant demo_argv demo_sockets true true
    (demo_started (replica_init demo_log) []) (demo_started served_2 []) H0 Hr) as (id & a & _ & _ & _ & _ & _ & Hd & _).
  split; [exact H0|]. split; [exact Hr|]. split; [exact Hd|by vm_compute].
Defined.

(** * The local fault detector *)

Record lfd_args := {
  la_server : server_info;
  la_interval : Z;
  la_rep_manager : server_info;
  la_replica_id : Z
}.

(** The globals [main] and [initialize_local_fault_detector] set before the
    heartbeat thread starts. The strings are copied by their length, without
    regard to the size of their destination. *)
Definition initialize_local_fault_detector (local_ip : bytes) (heartbeat_interval p : Z)
    (rm : server_info) (id : Z) : lfd_args :=
  {| la_server := {| server_ip := ztake 1024 local_ip; port := p |};
     la_interval := heartbeat_interval; la_rep_manager := rm; la_replica_id := id |}.

Definition lfd_main (argv : list bytes) : outcome lfd_args :=
  if zlen argv <? 7 then Exit
  else
    a1 ← arg 1 argv; a2 ← arg 2 argv; a3 ← arg 3 argv;
    a4 ← arg 4 argv; a5 ← arg 5 argv; a6 ← arg 6 argv;
    if (MAX_LENGTH <? zlen a1) || (1024 <? zlen a4) then Undef
    else Ret (initialize_local_fault_detector (overwrite a1 (zeros MAX_LENGTH)) (atoi a3) (atoi a2)
           {| server_ip := overwrite a4 (zeros 1024); port := atoi a5 |} (atoi a6)).

(** One turn of the endless loop: what the server answers, a bound on its
    lines, the stack under the report. *)
Record lfd_round := { lr_answer : list rd_event; lr_lines : nat; lr_junk : bytes }.

Fixpoint lfd_loop (a : lfd_args) (env : nat -> net_step) (l : list lfd_round) (w : lfd) : outcome lfd :=
  match l with
  | [] => Ret w
  | r :: l =>
      w ← heartbeat_signal 0 (la_server a) (la_rep_manager a) (la_replica_id a) env
            (lr_answer r) (lr_lines r) (lr_junk r) w;
      lfd_loop a env l w
  end.

(** * The factory *)

(** What libconfuse reads; the strings handed to the processes are set. *)
Record factory_config := { fc_data : factory_data; fc_ip : option bytes; fc_port : option bytes }.

(** A command: its bytes and the uninitialised message it is read into. *)
Record command_conn := { co_input : list rd_event; co_uninit : factory_message }.

Definition factory_zero : factory := {| fa_net := {| attempts := O; delivered := [] |}; fa_spawned := [] |}.

Section FactoryMain.
Variable spawned_ip_mem : bytes.
Variable env : nat -> net_step.
Variable fork_ok : bool.

Definition serve_command (d : factory_data) (a : command_conn) (w : factory) : outcome factory :=
  '(_, w) ← handle_replication_manager_message d spawned_ip_mem env fork_ok (co_uninit a) (co_input a) w;
  Ret w.

(** The result of [factory_init] is dropped; [accept] may be interrupted by the
    handler of SIGCHLD. *)
Definition factory_main (argc : Z) (parsed : option factory_config) (o : os_listen)
    (l : list (accept_event command_conn)) : outcome factory :=
  if argc <? 1 then Exit
  else
    match parsed with
    | None => Exit
    | Some c =>
        '(_, w) ← factory_init (fc_data c) fork_ok (Some SERVER_PATH) FAULT_DETECTOR_PATH factory_zero;
        _ ← set_up_listener (fc_ip c) (fc_port c) o;
        accept_loop true (serve_command (fc_data c)) l w
    end.
End FactoryMain.

(** ** What the factory starts *)

(** The two argument vectors. *)
Definition server_argv (d : factory_data) : list bytes :=
  [SERVER_PATH; spawned_server_ip d; spawned_server_port d; ztake 9 (fmt_u (u64 (f_replica_id d)))].
Definition lfd_argv (d : factory_data) : list bytes :=
  [FAULT_DETECTOR_PATH; spawned_server_ip d; spawned_server_port d; lfd_heartbeat d;
   replication_manager_ip d; replication_manager_port d; fmt_d (f_replica_id d)].

Section Spawned.
Variable d : factory_data.
Variable mem : bytes.
Variable env : nat -> net_step.
Variable fork_ok : bool.

Lemma send_server_spawned text w r w' : send_server d mem env text w = Ret (r, w') ->
  fa_spawned w' = fa_spawned w.
Proof.
  unfold send_server. intros H. apply bind_Ret_inv in H as (b & _ & H).
  destruct (send_buf _ _ _ _). by injection H as _ <-.
Qed.

Lemma command_spawned m w r w' : handle_rep_man_command d mem env fork_ok m w = Ret (r, w') ->
  fa_spawned w' = fa_spawned w \/ fa_spawned w' = fa_spawned w ++ [server_argv d].
Proof.
  unfold handle_rep_man_command. case_if; [|intros [= _ <-]; by left].
  intros H. apply bind_Ret_inv in H as ([r1 w1] & E & [= _ <-]). revert E.
  case_if; [unfold spawn_server, spawn; case_if; intros [= _ <-]; [by right|by left]|].
  case_if; [unfold send_change_state_message; intros E; left; apply bind_Ret_inv in E as (t & _ & E);
    by eapply send_server_spawned|].
  repeat (case_if; [intros E; left; by eapply send_server_spawned|]).
  intros [= _ <-]. by left.
Qed.

Lemma serve_command_spawned a w w' : serve_command mem env fork_ok d a w = Ret w' ->
  fa_spawned w' = fa_spawned w \/ fa_spawned w' = fa_spawned w ++ [server_argv d].
Proof.
  unfold serve_command, handle_replication_manager_message. intros H.
  apply bind_Ret_inv in H as ([r w1] & E & H). injection H as <-.
  apply bind_Ret_inv in E as ([[[e m] sb] b] & _ & E).
  destruct e; try (left; by injection E as _ <-). by eapply command_spawned.
Qed.
End Spawned.

Lemma fmt_u_width n : 0 <= n < 10 ^ 9 -> zlen (fmt_u n) <= 9.
Proof.
  intros Hn. unfold fmt_u, zlen.
  pose proof (dec_digits_width 9 20 n []) as H. cbn [length] in H.
  change (10 ^ Z.of_nat 9) with (10 ^ 9) in H. lia.
Qed.

Lemma id_text n : 0 <= n < 10 ^ 9 -> ztake 9 (fmt_u (u64 n)) = fmt_d n.
Proof.
  intros Hn. unfold u64. rewrite Z.mod_small by lia. unfold fmt_d. rewrite (proj2 (Z.ltb_ge n 0)) by lia.
  pose proof (fmt_u_width n Hn). unfold ztake, zlen in *. apply take_ge. lia.
Qed.

(** A string copied into a larger zeroed array. *)
Lemma c_string_copied s n : Forall (fun c => not_nul c = true) s -> zlen s < n ->
  c_string (overwrite s (zeros n)) = Ret s.
Proof.
  intros Hs Hn. unfold overwrite, zeros. rewrite drop_replicate. unfold zlen in *.
  destruct (Z.to_nat n - length s)%nat as [|k] eqn:E; [lia|]. by apply c_string_app_nul.
Qed.

Lemma ztake_copied s n m : zlen s <= n -> n <= m ->
  ztake n (overwrite s (zeros m)) = overwrite s (zeros n).
Proof.
  intros Hs Hm. unfold ztake, overwrite, zeros, zlen in *. rewrite take_app_ge, !drop_replicate by lia.
  rewrite take_replicate. do 2 f_equal. lia.
Qed.

(** A configuration whose strings a process can be started with. *)
Record startable (d : factory_data) : Prop := {
  st_id : 0 <= f_replica_id d < 10 ^ 9;
  st_ip : Forall (fun c => not_nul c = true) (spawned_server_ip d);
  st_ip_len : zlen (spawned_server_ip d) < 1024;
  st_rm : Forall (fun c => not_nul c = true) (replication_manager_ip d);
  st_rm_len : zlen (replication_manager_ip d) < 1024
}.

(** C32: the processes of a replica agree on who they are. Whatever commands a
    factory receives, whatever fails on the network and however often [accept] is
    interrupted, all it ever starts is one fault detector, before it listens, and
    then servers; the detector, started with the argument vector it is given,
    watches the address the servers are started on, reports to the replication
    manager of the configuration and under the id of the factory; and every
    server started by it that comes up carries that same id. *)
Theorem spawned_processes argc c o mem env l w :
  startable (fc_data c) -> factory_main mem env true argc (Some c) o l = Ret w ->
  exists servers p,
    fa_spawned w = lfd_argv (fc_data c) :: servers
    /\ lfd_main (lfd_argv (fc_data c)) = Ret p
    /\ c_string (server_ip (la_server p)) = Ret (spawned_server_ip (fc_data c))
    /\ port (la_server p) = atoi (spawned_server_port (fc_data c))
    /\ c_string (server_ip (la_rep_manager p)) = Ret (replication_manager_ip (fc_data c))
    /\ port (la_rep_manager p) = atoi (replication_manager_port (fc_data c))
    /\ la_replica_id p = f_replica_id (fc_data c)
    /\ Forall (fun argv => argv !! 1%nat = Some (spawned_server_ip (fc_data c))
         /\ argv !! 2%nat = Some (spawned_server_port (fc_data c))
         /\ forall o' c0 c1 s, server_main argv o' c0 c1 = Ret s -> sv_id s = f_replica_id (fc_data c)) servers.
Proof.
  intros [Hid Hip Hipl Hrm Hrml] H. unfold factory_main in H. case_if; [done|].
  set (d := fc_data c) in *.
  apply bind_Ret_inv in H as ([r0 w0] & H0 & H). apply bind_Ret_inv in H as (fd & _ & H).
  cbn [factory_init] in H0. apply bind_Ret_inv in H0 as ([r1 w1] & H1 & H0).
  assert (w1 = {| fa_net := fa_net factory_zero; fa_spawned := [lfd_argv d] |} /\ w0 = w1) as [E1 E0].
  { revert H1. unfold spawn_fault_detector. cbv zeta. case_if; [done|]. intros H1. injection H1 as <- <-.
    cbn in H0. by injection H0 as _ <-. }
  assert (exists servers, fa_spawned w = lfd_argv d :: servers /\ Forall (fun a => a = server_argv d) servers)
    as (servers & Es & Hs).
  { eapply (accept_loop_keeps true (serve_command mem env true d)
      (fun w => exists servers, fa_spawned w = lfd_argv d :: servers /\ Forall (fun a => a = server_argv d) servers));
      [| |exact H].
    - intros a s s' (servers & E & Hs) Ha. destruct (serve_command_spawned d mem env true a s s' Ha) as [->| ->].
      + by exists servers.
      + exists (servers ++ [server_argv d]). rewrite E. split; [done|]. apply Forall_app. by split; [|constructor].
    - exists []. rewrite E0, E1. by split. }
  exists servers, {| la_server := {| server_ip := overwrite (spawned_server_ip d) (zeros 1024);
                                port := atoi (spawned_server_port d) |};
                la_interval := atoi (lfd_heartbeat d);
                la_rep_manager := {| server_ip := overwrite (replication_manager_ip d) (zeros 1024);
                                     port := atoi (replication_manager_port d) |};
                la_replica_id := f_replica_id d |}.
  cbn [la_server la_rep_manager la_replica_id server_ip port].
  split; [exact Es|]. split; [|split; [by apply c_string_copied|split; [done|split; [by apply c_string_copied|]]]].
  - unfold lfd_main, lfd_argv, arg. cbn [lookup list_lookup deref]. rewrite !bind_ret_l.
    rewrite (proj2 (Z.ltb_ge _ _)) by (unfold zlen; cbn; lia).
    rewrite (proj2 (Z.ltb_ge MAX_LENGTH _)) by (unfold MAX_LENGTH; lia).
    rewrite (proj2 (Z.ltb_ge 1024 _)) by lia. cbn [orb]. unfold initialize_local_fault_detector.
    rewrite ztake_copied by (unfold MAX_LENGTH; lia). rewrite atoi_fmt_d by int_lia. done.
  - split; [done|]. split; [done|]. eapply Forall_impl; [exact Hs|]. intros a ->.
    split; [done|]. split; [done|]. intros o' c0 c1 s Hm.
    apply server_main_Ret in Hm as (id & Ei & -> & _). injection Ei as <-.
    rewrite id_text by done. apply atoi_fmt_d. int_lia.
Qed.

(** A factory that is interrupted by its detector's end and then starts its
    server. *)
Definition demo_factory_config : factory_config :=
  {| fc_data := {| f_replica_id := 2; spawned_server_ip := ⟦"127.0.0.1"⟧; spawned_server_port := ⟦"8082"⟧;
                   lfd_heartbeat := ⟦"5"⟧; replication_manager_ip := ⟦"10.0.0.7"⟧;
                   replication_manager_port := ⟦"23"⟧ |};
     fc_ip := Some ⟦"127.0.0.1"⟧; fc_port := Some ⟦"8092"⟧ |}.
Definition demo_commands : list (accept_event command_conn) :=
  [Interrupted; Accepted
    {| co_input := [Chunk (⟦"Replica ID: 2"⟧ ++ CRLF ++ ⟦"Factory Req: 0"⟧ ++ CRLF ++ CRLF)];
       co_uninit := {| fm_replica_id := 0; fm_bkp_replica_id_1 := 0; fm_bkp_replica_id_2 := 0; fm_req := 0;
                       fm_mode_rep := 0; fm_checkpoint_freq := 0; fm_server_state := 0;
                       fm_server_arr_0 := SERVER_INFO_INITIALISER;
                       fm_server_arr_1 := SERVER_INFO_INITIALISER |} |}].

Lemma demo_startable : startable (fc_data demo_factory_config).
Proof. constructor; [cbn; lia|by apply (bool_decide_eq_true_1 _)|done|by apply (bool_decide_eq_true_1 _)|done]. Qed.

Lemma spawned_processes_witness : exists w p,
  factory_main [] (fun _ => net_refused) true 2 (Some demo_factory_config) demo_sockets demo_commands = Ret w
  /\ fa_spawned w = [lfd_argv (fc_data demo_factory_config); server_argv (fc_data demo_factory_config)]
  /\ lfd_main (lfd_argv (fc_data demo_factory_config)) = Ret p /\ la_replica_id p = 2.
Proof.
  assert (match factory_main [] (fun _ => net_refused) true 2 (Some demo_factory_config) demo_sockets demo_commands
    with Ret w => fa_spawned w | _ => [] end
    = [lfd_argv (fc_data demo_factory_config); server_argv (fc_data demo_factory_config)]) as Hs by by vm_compute.
  destruct (factory_main [] (fun _ => net_refused) true 2 (Some demo_factory_config) demo_sockets demo_commands)
    as [w| | |] eqn:E; [|discriminate Hs..].
  destruct (spawned_processes 2 demo_factory_config demo_sockets [] (fun _ => net_refused) demo_commands w
    demo_startable E) as (servers & p & _ & Hp & _ & _ & _ & _ & Hid & _).
  exists w, p. split; [reflexivity|]. split; [exact Hs|]. split; [exact Hp|exact Hid].
Defined.
