(* ===== verification/Startup.v ===== *)
(** The start of the system: from the command lines of the replication manager,
    the factories and the fault detectors to a first replica that serves
    clients. *)
From S2P Require Import Prelude CLib Iface Util Request Fifo Control Db Storage Replica Server Worker.
From S2P Require Import Failover RepMgr Daemon Manager Policy Factory Lfd Wire Protocol Orders Session Cluster Service Takeover.
From S2P Require Import Rejoin System Launch.
From S2P Require MsgLog.

(** * The start-up order *)

Definition startup_fields (id : Z) (ip : bytes) (p : Z) : list (bytes * bytes) :=
  factory_head id STARTUP ++ [(⟦"Server IP"⟧, ip); (⟦"Server Port"⟧, fmt_d p)].
#[export] Hint Unfold startup_fields factory_head : wire.

Lemma startup_msg id n :
  startup_text id n = message (startup_fields id (cstr (server_ip (nd_server n))) (port (nd_server n))).
Proof. unfold startup_text. wire_text. Qed.

(** The factory starts its server, whatever the manager's buffer holds behind the
    order; the address in it is not looked at. *)
Lemma factory_starts fd ipmem env uninit input fw junk n :
  is_i32 (f_replica_id fd) -> field_text_ok 1024 (cstr (server_ip (nd_server n))) -> is_i32 (port (nd_server n)) ->
  clean input -> stream input = junk_buf junk (startup_text (f_replica_id fd) n) ->
  handle_replication_manager_message fd ipmem env true uninit input fw
  = Ret (0, {| fa_net := fa_net fw; fa_spawned := fa_spawned fw ++ [server_argv fd] |}).
Proof.
  intros Hid [Hip Hipl] Hport Hcl Hst. destruct (junk_buf_app junk (startup_text (f_replica_id fd) n)) as [rest Hrest].
  rewrite Hrest, startup_msg in Hst. unfold handle_replication_manager_message.
  set (fields := startup_fields _ _ _) in Hst.
  destruct (read_fields_ok parse_rep_manager_kv true fm_abs fm_step fields
    (init_buf_fd input) uninit (NUL :: rest)
    (let '(m, ip0, ip1) := fm_abs uninit in (set_fm_req STARTUP (set_fm_replica_id (f_replica_id fd) m), ip0, ip1)))
    as (m & sb & b & -> & Ha & _).
  - apply parse_rep_manager_implements.
  - unfold fields. fields_ok.
  - by apply init_buf_fd_wf.
  - done.
  - by rewrite init_buf_fd_pending.
  - unfold fields, startup_fields, factory_head, fm_abs. cbn [app fold_fields]. do 2 fm_key. reflexivity.
  - rewrite bind_ret_l. cbv beta iota.
    apply (f_equal (fun x => (fm_replica_id x.1.1, fm_req x.1.1))) in Ha. injection Ha as H1 H2.
    unfold handle_rep_man_command. rewrite H1, Z.eqb_refl, H2. reflexivity.
Qed.

(** * The detector *)

Lemma lfd_main_id d p : 0 <= f_replica_id d < 10 ^ 9 -> lfd_main (lfd_argv d) = Ret p ->
  la_replica_id p = f_replica_id d.
Proof.
  intros Hid. unfold lfd_main, lfd_argv, arg. cbn [lookup list_lookup deref]. rewrite !bind_ret_l.
  case_if; [done|]. case_if; [done|]. intros H. injection H as <-. cbn [la_replica_id]. apply atoi_fmt_d. int_lia.
Qed.

(** A report, however cut, is the message the manager acts on. *)
Lemma report_heard env jm uninit input d id jd st sst : is_i32 id -> is_i32 st -> is_i32 sst ->
  clean input -> stream input = report_buf id jd st sst ->
  handle_fault_detector_message env jm uninit input d
  = handle_state env jm {| rmm_replica_id := id; rmm_state := st; rmm_server_state := sst |} d.
Proof.
  intros Hid Hst Hss Hcl Hs.
  apply (report_reaches_manager net_good env jm jd SERVER_INFO_INITIALISER id st (set_lf_state sst lfd_init)
    (said SERVER_INFO_INITIALISER id jd st (set_lf_state sst lfd_init)) SERVER_INFO_INITIALISER);
    [done..|by repeat split|by apply inform_ok|done|by rewrite Hs].
Qed.

Section Detector.
Variables server rm : server_info.
Variable id : Z.
Variable lenv : nat -> net_step.

(** The first round, before the server runs. *)
Definition missed_once (junk : bytes) : lfd :=
  said rm id junk FAULTED (set_lf_state UNKNOWN_STATE (set_lf_flags 1 1
    (set_lf_net {| attempts := 1; delivered := [] |} (set_lf_counts 1 0 lfd_init)))).

Lemma first_round answer lines junk : connect_ret (lenv 0%nat) <> 0 -> takes lenv 1 ->
  heartbeat_signal 0 server rm id lenv answer lines junk lfd_init = Ret (missed_once junk).
Proof.
  intros Hc Ht. unfold heartbeat_signal. cbv zeta. unfold connect_to_server. cbn [lf_net lfd_init set_lf_counts attempts].
  rewrite (proj2 (Z.eqb_neq _ _) Hc). cbn [negb]. change (-1 <? 0) with true. cbv iota.
  rewrite inform_ok by exact Ht. reflexivity.
Qed.

(** The next one, when it runs: the first thing said is that it runs. *)
Lemma second_round answer lines junk j1 s r : (forall i, (1 < i)%nat -> takes lenv i) ->
  get_response_from_server lines answer (lf_response lfd_init) = Ret (s, r) ->
  exists lf rest, heartbeat_signal 0 server rm id lenv answer lines junk (missed_once j1) = Ret lf
    /\ delivered (lf_net lf)
       = delivered (lf_net (missed_once j1)) ++ (rm, report_buf id junk RUNNING UNKNOWN_STATE) :: rest.
Proof.
  intros Ht Hr. unfold heartbeat_signal. cbv zeta. destruct (Ht 2%nat ltac:(lia)) as (Hc & Hs & _).
  change (attempts (lf_net (set_lf_counts _ _ (missed_once j1)))) with 2%nat. unfold connect_to_server. rewrite Hc. cbn [Z.eqb negb].
  rewrite (proj2 (Z.ltb_ge _ _) Hs).
  set (w := set_lf_net _ (set_lf_counts _ _ _)).
  destruct (contact_spec rm id lenv junk w) as (w2 & -> & D2 & A2 & _ & _ & R2 & _).
  { intros i Hi. apply Ht. cbn in Hi. lia. }
  rewrite bind_ret_l.
  destruct (beat_spec 0 server rm id lenv junk (lenv 2%nat) answer lines w2 s r) as (w3 & -> & D3 & _).
  { intros i Hi. apply Ht. cbn in A2. lia. }
  { by rewrite R2. }
  exists w3. eexists. split; [done|]. rewrite D3, D2. unfold contact_sends.
  change (first_time w =? 1) with true. cbv iota. rewrite <- !app_assoc. cbn [app]. reflexivity.
Qed.
End Detector.

(** * The server *)

(** A server that was just started and then told to lead, and what its normal
    worker makes of it. *)
Definition first_ctl (d : rep_manager) (id : Z) : ctl :=
  {| rep_mode := if mode d =? 0 then PASSIVE_REP else ACTIVE_REP;
     state := if mode d =? 0 then PASSIVE_PREPRIMARY else ACTIVE_RUNNING; prev_state := prev_state ctl_init;
     signal_exit_checkpt_thread := 0; is_chkpt_thrd_running := 0; checkpoint_freq_g := checkpoint_freq d;
     bckup_svr_0 := peer_ctx (-1) (node_peer d (other_replicas id).1);
     bckup_svr_1 := peer_ctx 0 (node_peer d (other_replicas id).2); chk_thread := None |}.
Definition leading (d : rep_manager) (id : Z) : ctl :=
  if mode d =? 0 then promoted (first_ctl d id) else first_ctl d id.

(** The turns of the normal worker this takes. *)
Definition turns (d : rep_manager) : nat := if mode d =? 0 then 1%nat else 0%nat.

Lemma first_spec d id : mode d = 0 \/ mode d = 1 ->
  rep_msg_spec (change_msg (election d id)) ctl_init = Ret (first_ctl d id).
Proof. intros [Hm|Hm]; unfold rep_msg_spec, election, first_ctl; by rewrite Hm. Qed.

Lemma first_order {Q} `{FifoLog Q client_ctx_t} d id rand mb cc cfuel fd input server_id hn status_ptr pid nenv sjunk wfuel
    (w : replica Q) a :
  rm_addr_ok d -> rm_printable d -> mode d = 0 \/ mode d = 1 -> 0 <= id < 3 ->
  fresh w a -> normal_msgs a = [] -> 0 < normal_max a ->
  clean input -> stream input = zero_buf (relayed_text (election d id)) ->
  let hc := execute_msg_ctrl status_ptr pid cc server_id nenv sjunk in
  exists w1 w2 w3, handle_connection server_id rand mb cc cfuel fd input w = Ret (0, w1)
    /\ run hn hc wfuel CONTROL w1 = Ret w2 /\ r_ctl w2 = first_ctl d id
    /\ run_n hn hc wfuel NORMAL (turns d) w2 = Ret w3
    /\ r_ctl w3 = leading d id /\ r_db w3 = r_db w /\ idle w3 /\ lq_rep (r_log w3) a /\ outbox w3 = outbox w.
Proof.
  intros Hok Hpr Hmode Hid [Fk Fp Fd Fl Fc Fm] Hn Hmax Hcl Hst hc.
  destruct (election_printed d id Hok Hpr Hmode Hid) as [_ Hce].
  destruct (change_obeyed server_id rand mb cc cfuel fd input (election d id) w a (first_ctl d id)
    hn status_ptr pid nenv sjunk wfuel Hce Hcl Hst)
    as (w1 & w2 & E1 & E2 & K2 & _ & Hk2 & D2 & P2 & L2 & _ & O2);
    [rewrite Fk; apply ctl_init_ok|by rewrite Fk|rewrite Fk; by apply first_spec|done..|].
  exists w1, w2. unfold leading, turns. destruct Hmode as [Hm|Hm]; rewrite Hm; cbn [Z.eqb].
  - assert (is_preprimary (first_ctl d id) = true) as Hpre.
    { unfold is_preprimary, get_mode, get_state, first_ctl. cbn [rep_mode state]. by rewrite Hm. }
    destruct (run_idle hn hc wfuel w2 a L2) as (q & Hq & E3); [|done|].
    { constructor; [by rewrite K2|by rewrite P2|]. rewrite K2. unfold should_nrl_thrd_sleep, get_mode, get_state, first_ctl.
      cbn [rep_mode state]. by rewrite Hm. }
    rewrite K2, Hpre in E3. exists (set_r_log q (set_r_ctl (promoted (first_ctl d id)) w2)).
    do 3 (split; [done|]). split; [by cbn [run_n]; rewrite E3, bind_ret_l|]. split; [done|]. split; [done|].
    split; [|by split]. constructor; [|by cbn; rewrite P2|by cbn; rewrite D2|by exists a].
    split; [by apply promote_eq|]. right. split; [|done]. cbn. by rewrite Hm.
  - exists w2. do 3 (split; [done|]). split; [done|]. split; [done|]. split; [done|].
    split; [|by split]. constructor; [|by rewrite P2|by rewrite D2|by exists a]. rewrite K2. split; [done|]. left.
    unfold first_ctl. cbn [rep_mode state]. by rewrite Hm.
Qed.

(** * The manager *)

Definition first_leads (id : Z) : policy := {| leader := Some id; up := {[id]} ∪ (∅ ∖ {[id]}); missed := ∅ |}.

Lemma first_policy m id : m = 0 \/ m = 1 -> exists s,
  policy_step m (Down id) start = ([Start id], s) /\ policy_step m (Up id) s = ([Lead id], first_leads id).
Proof.
  intros [-> | ->]; unfold policy_step; [change (0 =? 0) with true|change (1 =? 0) with false]; cbv iota;
    cbn [passive active leader start set_up].
  - eexists. split; [done|]. cbn [passive set_leader set_up up leader missed start].
    rewrite decide_False, decide_True, decide_False by set_solver. done.
  - rewrite decide_False by done. eexists. split; [done|]. cbn [active set_up up leader missed start].
    rewrite decide_False by set_solver. done.
Qed.

Section Manager.
Variable env : nat -> net_step.
Variable d0 : rep_manager.
Hypothesis Henv : reach env.
Hypothesis Hmode : mode d0 = 0 \/ mode d0 = 1.

(** The bytes of a report against the policy. *)
Lemma report_refined junk uninit input jd d s i st sst e os s' : tracks d0 d s -> lock_held d = false -> 0 <= i < 3 ->
  is_i32 st -> is_i32 sst -> clean input -> stream input = report_buf i jd st sst ->
  event_of {| rmm_replica_id := i; rmm_state := st; rmm_server_state := sst |} = e ->
  policy_step (mode d0) e s = (os, s') ->
  exists d', handle_fault_detector_message env junk uninit input d = Ret (0, d')
    /\ tracks d0 d' s' /\ lock_held d' = false
    /\ delivered (rm_net d') = delivered (rm_net d) ++ map (encode junk d0) os.
Proof using Henv Hmode.
  intros Ht Hl Hid Hst Hss Hc Hs <- Ep. rewrite (report_heard env junk uninit input d i jd st sst) by (done || int_lia).
  destruct (report_refines env d0 Henv junk {| rmm_replica_id := i; rmm_state := st; rmm_server_state := sst |}
    d s Ht Hl Hid Hmode) as (d' & E & Ht' & Hl' & Hd').
  rewrite Ep in Ht', Hd'. exists d'. rewrite Hl'. do 3 (split; [done|]). rewrite Hd'. f_equal.
  apply map_ext. intros o. apply encode_ext, Ht.
Qed.

Lemma lead_text junk i : rm_addr_ok d0 -> rm_printable d0 -> 0 <= i < 3 ->
  encode junk d0 (Lead i) = (fac d0 i, zero_buf (order_text i (election d0 i))).
Proof using Hmode.
  intros Hok Hpr Hi. destruct (election_printed d0 i Hok Hpr Hmode Hi) as [Hprint _].
  apply manager_prints_order in Hprint. cbn [encode]. by rewrite Hprint.
Qed.
Variable id : Z.
Hypothesis id_range : 0 <= id < 3.

(** The start-up order of the replica. *)
Definition first_command (junk : bytes) : bytes :=
  junk_buf junk (startup_text id (default zero_node (node d0 !! Z.to_nat id))).

Lemma reported_missing junk uninit input jd : tracks d0 d0 start -> lock_held d0 = false ->
  clean input -> stream input = report_buf id jd FAULTED UNKNOWN_STATE ->
  exists d1 s, handle_fault_detector_message env junk uninit input d0 = Ret (0, d1)
    /\ tracks d0 d1 s /\ policy_step (mode d0) (Up id) s = ([Lead id], first_leads id) /\ lock_held d1 = false
    /\ delivered (rm_net d1) = delivered (rm_net d0) ++ [(fac d0 id, first_command junk)].
Proof using Henv id_range Hmode.
  intros Ht Hl Hc Hs. destruct (first_policy (mode d0) id Hmode) as (s & E1 & E2).
  destruct (report_refined junk uninit input jd d0 start id FAULTED UNKNOWN_STATE _ _ _ Ht Hl id_range
    ltac:(done) ltac:(done) Hc Hs eq_refl E1) as (d1 & E & Ht1 & Hl1 & Hd1). by exists d1, s.
Qed.

Lemma reported_up junk uninit input jd d1 s : tracks d0 d1 s -> lock_held d1 = false ->
  policy_step (mode d0) (Up id) s = ([Lead id], first_leads id) ->
  clean input -> stream input = report_buf id jd RUNNING UNKNOWN_STATE -> rm_printable d0 -> rm_addr_ok d0 ->
  exists d2, handle_fault_detector_message env junk uninit input d1 = Ret (0, d2)
    /\ tracks d0 d2 (first_leads id) /\ lock_held d2 = false
    /\ delivered (rm_net d2) = delivered (rm_net d1) ++ [(fac d0 id, zero_buf (order_text id (election d0 id)))].
Proof using Henv id_range Hmode.
  intros Ht Hl E2 Hc Hs Hpr Hok.
  destruct (report_refined junk uninit input jd d1 s id RUNNING UNKNOWN_STATE _ _ _ Ht Hl id_range
    ltac:(done) ltac:(done) Hc Hs eq_refl E2) as (d2 & E & Ht2 & Hl2 & Hd2).
  exists d2. do 3 (split; [done|]). rewrite Hd2. cbn [map]. by rewrite lead_text.
Qed.
End Manager.

(** * The whole way *)

(** C7: from the command lines to the first replica that serves clients. The
    replication manager was started with a configuration of either mode; the
    factory of a replica was started and has started its fault detector, the
    server is not there yet, and nothing has been reported before. However the
    network cuts the bytes, and whatever the uninitialised buffers and messages
    on the way hold:
    - the detector cannot reach the server and reports it faulted;
    - the manager sends one start-up order, to the factory of the replica;
    - the factory starts one server, with the address of the configuration and
      the id of the factory, and this process comes up with that id;
    - the first thing the detector says when it reaches the server is that it runs;
    - the manager takes the replica for its leader and tells its factory so, and
      the factory tells the server, with the addresses of the other two replicas;
    - the server obeys in the next iteration of its control worker and, in passive
      mode, becomes the primary in the next iteration of its normal worker: it is
      then idle, holds no task and serves clients. *)
Theorem cold_start parsed o now d0 env lenv fenv fd p j1 j2 junk1 junk2 answer lines s r ipmem fork_ok ol sv
    rand mb cc cfuel hn status_ptr pid nenv sjunk wfuel :
  rm_start parsed o now = Ret d0 -> rm_printable d0 -> reach env ->
  0 <= f_replica_id fd < 3 -> lfd_main (lfd_argv fd) = Ret p ->
  connect_ret (lenv 0%nat) <> 0 -> (forall i, (0 < i)%nat -> takes lenv i) ->
  server_main (server_argv fd) ol true true = Ret sv ->
  get_response_from_server lines answer (lf_response lfd_init) = Ret (s, r) ->
  let id := f_replica_id fd in
  let watch := heartbeat_signal 0 (la_server p) (la_rep_manager p) (la_replica_id p) lenv in
  let hc := execute_msg_ctrl status_ptr pid cc (sv_id sv) nenv sjunk in
  let told := zero_buf (order_text id (election d0 id)) in
  let relayed := zero_buf (relayed_text (election d0 id)) in
  exists lf1 missing, watch [] 1%nat j1 lfd_init = Ret lf1
    /\ delivered (lf_net lf1) = [(la_rep_manager p, missing)] /\
  forall uninit1 input1, clean input1 -> stream input1 = missing ->
  exists d1 command, handle_fault_detector_message env junk1 uninit1 input1 d0 = Ret (0, d1)
    /\ delivered (rm_net d1) = [(fac d0 id, command)]
    /\ (forall funinit finput fw, clean finput -> stream finput = command ->
        exists fw', handle_replication_manager_message fd ipmem fenv true funinit finput fw = Ret (0, fw')
          /\ fa_spawned fw' = fa_spawned fw ++ [server_argv fd])
    /\ sv_id sv = id /\
  exists lf2 running more, watch answer lines j2 lf1 = Ret lf2
    /\ delivered (lf_net lf2) = delivered (lf_net lf1) ++ (la_rep_manager p, running) :: more /\
  forall uninit2 input2, clean input2 -> stream input2 = running ->
  exists d2, handle_fault_detector_message env junk2 uninit2 input2 d1 = Ret (0, d2)
    /\ tracks d0 d2 (first_leads id) /\ lock_held d2 = false
    /\ delivered (rm_net d2) = [(fac d0 id, command); (fac d0 id, told)]
    /\ relays fd ipmem fenv fork_ok (order_text id (election d0 id)) relayed /\
  forall conn sinput, clean sinput -> stream sinput = relayed ->
  exists w1 w2 w3, handle_connection (sv_id sv) rand mb cc cfuel conn sinput (sv_replica sv) = Ret (0, w1)
    /\ run hn hc wfuel CONTROL w1 = Ret w2
    /\ run_n hn hc wfuel NORMAL (turns d0) w2 = Ret w3
    /\ r_ctl w3 = leading d0 id /\ idle w3 /\ forall k, tasks_at k (r_db w3) = [].
Proof.
  intros H0 Hpr Henv Hid Hp Hdown Hup Hsv Hresp id watch hc told relayed.
  destruct (start_tracks parsed o now d0 H0) as (Ht & Hl & Hm & Hn). pose proof (tk_addr _ _ _ Ht) as Hok.
  pose proof (lfd_main_id fd p ltac:(lia) Hp) as Hpid. fold id in Hpid.
  exists (missed_once (la_rep_manager p) id j1), (report_buf id j1 FAULTED UNKNOWN_STATE).
  split; [unfold watch; rewrite Hpid; apply first_round; [done|apply Hup; lia]|]. split; [done|].
  intros uninit1 input1 Hc1 Hs1.
  destruct (reported_missing env d0 Henv Hm id Hid junk1 uninit1 input1 j1 Ht Hl Hc1 Hs1)
    as (d1 & st & E1 & Ht1 & Ep & Hl1 & Hd1).
  exists d1, (first_command d0 id junk1). rewrite Hn in Hd1. split; [exact E1|]. split; [exact Hd1|]. split.
  { intros funinit finput fw Hcf Hsf. destruct (node_at_lookup d0 id (ra_nodes d0 Hok) Hid) as (n & _ & En).
    unfold first_command in Hsf. rewrite En in Hsf. cbn [from_option id default] in Hsf.
    destruct (proj1 (Forall_lookup _ _) (rp_nodes d0 Hpr) _ _ En) as [Hf Hpo].
    eexists. split; [by apply (factory_starts fd ipmem fenv funinit finput fw junk1 n); first [int_lia|done]|done]. }
  apply server_main_Ret in Hsv as (idt & Ei & Hsid & _ & _ & Hrep). injection Ei as <-.
  rewrite id_text in Hsid by (fold id; lia). rewrite atoi_fmt_d in Hsid by (fold id; int_lia). fold id in Hsid.
  split; [exact Hsid|].
  destruct (second_round (la_server p) (la_rep_manager p) id lenv answer lines j2 j1 s r) as (lf2 & more & E2 & D2);
    [intros i Hi; apply Hup; lia|exact Hresp|].
  exists lf2, (report_buf id j2 RUNNING UNKNOWN_STATE), more. split; [unfold watch; by rewrite Hpid|]. split; [exact D2|].
  intros uninit2 input2 Hc2 Hs2.
  destruct (reported_up env d0 Henv Hm id Hid junk2 uninit2 input2 j2 d1 st Ht1 Hl1 Ep Hc2 Hs2 Hpr Hok)
    as (d2 & E3 & Ht2 & Hl2 & Hd2).
  rewrite Hd1 in Hd2. exists d2. split; [exact E3|]. split; [exact Ht2|]. split; [exact Hl2|]. split; [exact Hd2|].
  destruct (election_printed d0 id Hok Hpr Hm Hid) as [_ Hce].
  split; [apply relays_change; [done|fold id; int_lia]|]. intros conn sinput Hc3 Hs3.
  assert (fresh (sv_replica sv) (abs_init 50 50)) as Hfresh.
  { rewrite Hrep. constructor; try done; [apply hash_table_init_wf|apply MsgLog.log_rep_init]. }
  destruct (first_order d0 id rand mb cc cfuel conn sinput (sv_id sv) hn status_ptr pid nenv sjunk wfuel (sv_replica sv)
    (abs_init 50 50) Hok Hpr Hm Hid Hfresh eq_refl ltac:(done) Hc3 Hs3) as (w1 & w2 & w3 & F1 & F2 & _ & F3 & K3 & D3 & Hi & _).
  exists w1, w2, w3. do 5 (split; [done|]). intros k. unfold tasks_at, view. rewrite D3, Hrep.
  change (r_db (replica_init _)) with (hash_table_init {| data := []; data_size := 0; allocs := O; file_counter := 0; files := ∅ |}).
  by rewrite bucket_empty.
Qed.

(** Replica 1 is the first; its server comes up after the detector looked once. *)
Definition late_net (i : nat) : net_step :=
  match i with O => {| socket_ret := 5; connect_ret := -1; write_ret := 0 |} | S _ => net_good i end.
Definition demo_detector : lfd_args :=
  answer {| la_server := SERVER_INFO_INITIALISER; la_interval := 0; la_rep_manager := SERVER_INFO_INITIALISER;
            la_replica_id := 0 |} (lfd_main (lfd_argv demo_factory)).
Definition demo_server : server :=
  answer (demo_started (replica_init demo_log) []) (server_main (server_argv demo_factory) demo_sockets true true).
Definition demo_response : Z * message_response :=
  answer (0, lf_response lfd_init) (get_response_from_server 1 [] (lf_response lfd_init)).

Lemma demo_started_printable : rm_printable demo_started_manager.
Proof.
  constructor; [|by vm_compute].
  apply (Forall_map (fun n => (cstr (server_ip (nd_server n)), port (nd_server n)))
    (fun x => field_text_ok 1024 x.1 /\ is_i32 x.2)).
  assert (map (fun n => (cstr (server_ip (nd_server n)), port (nd_server n))) (node demo_started_manager)
    = replicate 3 (⟦"127.0.0.1"⟧, 200)) as -> by (by vm_compute).
  repeat (constructor; [split; [split; [apply (bool_decide_unpack _)|]|]; by vm_compute|]). constructor.
Qed.

Lemma cold_start_witness : exists lf1 missing d1 command lf2 running more d2 w1 w2 w3,
  heartbeat_signal 0 (la_server demo_detector) (la_rep_manager demo_detector) (la_replica_id demo_detector) late_net
    [] 1 [] lfd_init = Ret lf1
  /\ handle_fault_detector_message net_up [] (report 7 7) (one_piece missing) demo_started_manager = Ret (0, d1)
  /\ (exists fw, handle_replication_manager_message demo_factory (server_ip (demo_addr 0)) net_up true dirty_message
       (one_piece command) quiet_factory = Ret (0, fw) /\ fa_spawned fw = [server_argv demo_factory])
  /\ delivered (lf_net lf2) = delivered (lf_net lf1) ++ (la_rep_manager demo_detector, running) :: more
  /\ handle_fault_detector_message net_up [] (report 7 7) (one_piece running) d1 = Ret (0, d2)
  /\ primary_replica_id d2 = 1
  /\ handle_connection 1 0 (fun _ => true) (fun _ => true) 1 9
       (one_piece (zero_buf (relayed_text (election demo_started_manager 1)))) (sv_replica demo_server) = Ret (0, w1)
  /\ run (execute_msg dirty_malloc demo_sha1 1) (execute_msg_ctrl (fun _ => 0) 0 (fun _ => true) 1 net_up []) 9
       CONTROL w1 = Ret w2
  /\ run_n (execute_msg dirty_malloc demo_sha1 1) (execute_msg_ctrl (fun _ => 0) 0 (fun _ => true) 1 net_up []) 9
       NORMAL 1 w2 = Ret w3
  /\ idle w3.
Proof.
  assert (sv_id demo_server = 1) as Hsv by (by vm_compute).
  destruct (cold_start (Some demo_config) demo_listen 1000 demo_started_manager net_up late_net net_up demo_factory
    demo_detector [] [] [] [] [] 1 demo_response.1 demo_response.2 (server_ip (demo_addr 0)) true demo_sockets demo_server
    0 (fun _ => true) (fun _ => true) 1 (execute_msg dirty_malloc demo_sha1 1) (fun _ => 0) 0 net_up [] 9)
    as (lf1 & missing & E1 & _ & H1).
  - exact demo_manager_starts.
  - exact demo_started_printable.
  - exact net_up_reach.
  - split; [apply Z.leb_le|apply Z.ltb_lt]; by vm_compute.
  - by vm_compute.
  - intros H. vm_compute in H. discriminate H.
  - intros [|i] Hi; [lia|]. by repeat split.
  - by vm_compute.
  - by vm_compute.
  - rewrite Hsv in H1. destruct (one_piece_ok missing) as [Hc1 Hs1].
    destruct (H1 (report 7 7) (one_piece missing) Hc1 Hs1) as (d1 & command & E2 & _ & Hf & _ & lf2 & running & more & _ & D2 & H2).
    destruct (one_piece_ok command) as [Hc2 Hs2]. destruct (one_piece_ok running) as [Hc3 Hs3].
    destruct (Hf dirty_message (one_piece command) quiet_factory Hc2 Hs2) as (fw & E3 & S3).
    destruct (H2 (report 7 7) (one_piece running) Hc3 Hs3) as (d2 & E4 & T4 & _ & _ & _ & H3).
    destruct (one_piece_ok (zero_buf (relayed_text (election demo_started_manager 1)))) as [Hc4 Hs4].
    destruct (H3 9 (one_piece (zero_buf (relayed_text (election demo_started_manager 1)))) Hc4 Hs4)
      as (w1 & w2 & w3 & F1 & F2 & F3 & _ & Hi & _).
    exists lf1, missing, d1, command, lf2, running, more, d2, w1, w2, w3. split; [exact E1|]. split; [exact E2|].
    split; [exists fw; split; [exact E3|exact S3]|]. split; [exact D2|]. split; [exact E4|].
    split; [exact (tk_leader _ _ _ T4)|]. split; [exact F1|]. split; [exact F2|]. split; [exact F3|exact Hi].
Defined.
