(* ===== verification/Loss.v ===== *)
(** The loss of all tasks in passive mode: a backup dies and, before it is back,
    the primary. The policy of the manager makes the restarted, empty replica the
    primary and asks it for a checkpoint, which empties the last replica that
    holds the tasks. *)
From S2P Require Import Prelude CLib Iface Util Request Fifo Control Db Storage Replica Server Worker.
From S2P Require Import Failover Agreement RepMgr Daemon Manager Policy Factory Lfd Wire Transfer Protocol Orders Session Cluster.
From S2P Require Import Service Takeover Recovery Rejoin System Handover Launch Startup.
From S2P Require MsgLog.

(** * A table without tasks *)

Definition no_tasks (s : db) : Prop := concat (data s) = [].

Lemma no_tasks_at s k : no_tasks s -> tasks_at k s = [].
Proof.
  unfold no_tasks, tasks_at, view, bucket. intros H.
  assert (forall i, default [] (data s !! i) = []) as Hi; [|by rewrite Hi].
  intros i. destruct (data s !! i) as [l|] eqn:E; [|done]. apply concat_nil_Forall in H.
  rewrite Forall_lookup in H. exact (H i l E).
Qed.

Lemma no_tasks_equiv (s r : db) : s ≡ r -> no_tasks s -> no_tasks r.
Proof.
  unfold no_tasks, equiv, db_equiv. intros Heq H. apply concat_nil_Forall. apply concat_nil_Forall in H.
  induction Heq as [|l k ls ks Hlk _ IH]; [constructor|]. apply Forall_cons_1 in H as [-> H].
  constructor; [by apply Forall2_nil_inv_l in Hlk|by apply IH].
Qed.

(** The checkpoint file of such a table. *)
Definition end_mark : bytes := ⟦"FILE_END"⟧ ++ [LF].

(** Its checkpoint leaves a backup without tasks. *)
Lemma backup_emptied {Q} `{FifoLog Q client_ctx_t} malloc sha1 sfuel hc id num bid rand mb cc fuel fd input (v : replica Q)
    a l wfuel s :
  (forall n, exists d, malloc n = Some d /\ zlen (raw_data d) = MAX_DATA_LEN /\ last (raw_data d) = Some NUL) ->
  is_i32 id -> 0 <= num <= INT_MAX -> db_wf s -> no_tasks s ->
  clean input -> stream input = chkpt_bytes id num end_mark -> zlen (chkpt_bytes id num end_mark) <= Z.of_nat fuel ->
  (forall n, mb n = true) -> cc (payload_name rand bid) = true ->
  backup_with l v a -> zlen l < normal_max a -> (S (length l) < wfuel)%nat ->
  exists v1 v2, handle_connection bid rand mb cc fuel fd input v = Ret (0, v1)
    /\ run (execute_msg malloc sha1 sfuel) hc wfuel NORMAL v1 = Ret v2
    /\ no_tasks (r_db v2) /\ state (r_ctl v2) = PASSIVE_BACKUP /\ lq_rep (r_log v2) (set_msgs NORMAL [] a).
Proof.
  intros Hz Hid Hnum Hs Hno Hcl Hst Hf Hmb Hcc Hv Hroom Hw.
  destruct (backup_synced malloc Hz sha1 sfuel hc (fun _ => 0) s [] id num bid rand mb cc fuel fd input v a l wfuel)
    as (v1 & v2 & E1 & E2 & Heq & K2 & Hv2); try done; try (unfold no_tasks in Hno; by rewrite Hno).
  exists v1, v2. split; [exact E1|]. split; [exact E2|]. split; [by eapply no_tasks_equiv|]. by destruct Hv2.
Qed.

(** * The new primary *)

Section Primary.
Context {Q : Type} `{FifoLog Q client_ctx_t}.
Variable status_ptr : Z -> Z.
Variable pid : Z.
Variable can_create : bytes -> bool.
Variables server_id rand : Z.
Variable mb : Z -> bool.
Variable env : nat -> net_step.
Variable junk : bytes.
Hypothesis Henv : reach env.
Variable hn : client_ctx_t -> replica Q -> outcome (replica Q).
Variables cfuel wfuel : nat.

Let hc : client_ctx_t -> replica Q -> outcome (replica Q) :=
  execute_msg_ctrl status_ptr pid can_create server_id env junk.

(** A server that was just started: it obeys the order to lead and the demand
    for a checkpoint, and sends the end mark alone. *)
Lemma empty_primary_sends d q conn1 in1 conn2 in2 (w : replica Q) a :
  rm_addr_ok d -> rm_printable d -> mode d = 0 -> 0 <= q < 3 ->
  fresh w a -> normal_msgs a = [] -> 0 < normal_max a -> no_tasks (r_db w) ->
  can_create (export_name pid (r_db w)) = true ->
  clean in1 -> stream in1 = zero_buf (relayed_text (election d q)) -> gets MSG_SEND_CHKPT in2 ->
  let bytes := chkpt_bytes server_id (chk_point_num w) end_mark in
  exists w1 w2 w3 w4 w5, handle_connection server_id rand mb can_create cfuel conn1 in1 w = Ret (0, w1)
    /\ run hn hc wfuel CONTROL w1 = Ret w2 /\ run hn hc wfuel NORMAL w2 = Ret w3
    /\ state (r_ctl w3) = PASSIVE_PRIMARY
    /\ handle_connection server_id rand mb can_create cfuel conn2 in2 w3 = Ret (0, w4)
    /\ run hn hc wfuel CONTROL w4 = Ret w5 /\ state (r_ctl w5) = PASSIVE_PRIMARY /\ no_tasks (r_db w5)
    /\ delivered (net_out w5) = delivered (net_out w)
         ++ [(bs_info (peer_ctx (-1) (node_peer d (other_replicas q).1)), bytes);
             (bs_info (peer_ctx 0 (node_peer d (other_replicas q).2)), bytes)].
Proof using Henv.
  intros Hok Hpr Hm Hq Hf Hn Hmax Hno Hcan Hc1 Hs1 [Hc2 Hs2] bytes.
  destruct (first_order d q rand mb can_create cfuel conn1 in1 server_id hn status_ptr pid env junk wfuel w a
    Hok Hpr (or_introl Hm) Hq Hf Hn Hmax Hc1 Hs1) as (w1 & w2 & w3 & E1 & E2 & _ & E3 & K3 & D3 & _ & L3 & O3).
  injection O3 as N3 C3. unfold leading, first_ctl in K3. rewrite Hm in K3. cbn [Z.eqb] in K3.
  unfold turns in E3. rewrite Hm in E3. cbn [Z.eqb run_n] in E3. apply bind_Ret_inv in E3 as (w3' & E3 & Ex).
  injection Ex as ->.
  destruct (chkpt_command status_ptr pid can_create server_id rand mb env junk Henv hn cfuel wfuel conn2 in2 w3 a [])
    as (w4 & w5 & E4 & E5 & _ & D5 & (b0 & b1 & K5) & _ & _ & N5); try done; try apply Hf.
  - by rewrite K3.
  - by rewrite D3.
  - rewrite D3. unfold no_tasks in Hno. rewrite Hno. constructor.
  - rewrite D3. unfold no_tasks in Hno. by rewrite Hno.
  - exists w1, w2, w3, w4, w5. split; [exact E1|]. split; [exact E2|]. split; [exact E3|].
    split; [by rewrite K3|]. split; [exact E4|]. split; [exact E5|]. split; [by rewrite K5, K3|].
    split; [unfold no_tasks in *; by rewrite D5, D3|]. rewrite N5, N3, K3, C3. done.
Qed.
End Primary.

(** * The manager *)

Section Manager.
Variable env : nat -> net_step.
Variables d0 d : rep_manager.
Hypothesis Henv : reach env.
Hypothesis addr_ok : rm_addr_ok d0.
Hypothesis printable : rm_printable d0.
Hypothesis passive_mode : mode d0 = 0.

(** The three reports, and the messages they cause. *)
Lemma manager_double_fault s p junk1 junk2 junk3 uninit i1 i2 i3 j1 j2 j3 :
  tracks d0 d s -> lock_held d = false -> leader s = Some p -> clean i1 -> clean i2 -> clean i3 ->
  stream i1 = report_buf (next p) j1 FAULTED UNKNOWN_STATE -> stream i2 = report_buf p j2 FAULTED UNKNOWN_STATE ->
  stream i3 = report_buf (next p) j3 RUNNING UNKNOWN_STATE ->
  let q := next p in
  let lead := (fac d0 q, zero_buf (order_text q (election d0 q))) in
  exists d1 d2 d3, handle_fault_detector_message env junk1 uninit i1 d = Ret (0, d1)
    /\ handle_fault_detector_message env junk2 uninit i2 d1 = Ret (0, d2)
    /\ handle_fault_detector_message env junk3 uninit i3 d2 = Ret (0, d3)
    /\ primary_replica_id d3 = q
    /\ delivered (rm_net d3) = delivered (rm_net d)
         ++ [(fac d0 q, first_command d0 q junk1); (fac d0 p, first_command d0 p junk2); lead; lead;
             (fac d0 q, zero_buf (factory_req_text q SEND_CHKPT))].
Proof using Henv addr_ok printable passive_mode.
  intros Ht Hl Hs Hc1 Hc2 Hc3 Hi1 Hi2 Hi3 q lead.
  pose proof (po_range s (tk_policy _ _ _ Ht) p Hs) as Hp. pose proof (next_range p) as Hq. fold q in Hq.
  destruct (double_fault s p Hs Hp) as (s1 & s2 & s3 & E1 & E2 & E3 & Hlead). fold q in E1, E2, E3, Hlead.
  rewrite <- passive_mode in E1, E2, E3.
  destruct (report_refined env d0 Henv (or_introl passive_mode) junk1 uninit i1 j1 d s q FAULTED UNKNOWN_STATE
    _ _ _ Ht Hl Hq ltac:(done) ltac:(done) Hc1 Hi1 eq_refl E1) as (d1 & R1 & T1 & L1 & D1).
  destruct (report_refined env d0 Henv (or_introl passive_mode) junk2 uninit i2 j2 d1 s1 p FAULTED UNKNOWN_STATE
    _ _ _ T1 L1 Hp ltac:(done) ltac:(done) Hc2 Hi2 eq_refl E2) as (d2 & R2 & T2 & L2 & D2).
  destruct (report_refined env d0 Henv (or_introl passive_mode) junk3 uninit i3 j3 d2 s2 q RUNNING UNKNOWN_STATE
    _ _ _ T2 L2 Hq ltac:(done) ltac:(done) Hc3 Hi3 eq_refl E3) as (d3 & R3 & T3 & L3 & D3).
  exists d1, d2, d3. do 3 (split; [done|]). split; [by rewrite (tk_leader _ _ _ T3), Hlead|].
  rewrite D3, D2, D1. cbn [map]. rewrite !(lead_text d0 (or_introl passive_mode)) by done.
  rewrite <- !app_assoc. done.
Qed.

(** What the factory of the new primary tells its server. *)
Lemma orders_relayed fq ipmem fenv fork_ok q : 0 <= q < 3 -> f_replica_id fq = q ->
  relays fq ipmem fenv fork_ok (order_text q (election d0 q)) (zero_buf (relayed_text (election d0 q)))
  /\ relays fq ipmem fenv fork_ok (factory_req_text q SEND_CHKPT) (order_buf MSG_SEND_CHKPT).
Proof using addr_ok printable passive_mode.
  intros Hq <-. destruct (election_printed d0 _ addr_ok printable (or_introl passive_mode) Hq) as [_ Hce].
  split; [apply relays_change|apply relays_command]; first [exact Hce | int_lia | constructor].
Qed.

(** The state of the manager after any history. *)
Lemma history_tracks parsed o now l ms : rm_start parsed o now = Ret d0 -> reports l = Ret ms ->
  Forall (fun x => 0 <= rmm_replica_id x.2 < 3) ms -> rm_main env parsed o now l = Ret d -> 0 <= primary_replica_id d ->
  exists s, tracks d0 d s /\ lock_held d = false /\ leader s = Some (primary_replica_id d).
Proof using Henv.
  clear addr_ok printable passive_mode. intros H0 Hr Hms E Hp.
  destruct (start_tracks parsed o now d0 H0) as (Ht & Hl & Hm & _).
  destruct (loop_refines env d0 Henv Hm l ms d0 start Hr Hms Ht Hl) as (d' & E' & Ht' & Hl' & _).
  unfold rm_main in E. rewrite H0, bind_ret_l, E' in E. injection E as ->.
  eexists. split; [exact Ht'|]. split; [done|]. rewrite (tk_leader _ _ _ Ht') in *.
  by destruct (leader _) as [x|]; [|cbn in Hp; lia].
Qed.
End Manager.

(** * The whole way *)

(** C14: two faults close together destroy every task. A manager in passive mode,
    after any history, has the primary [p]; this one is lost while the next
    replica, [q], is being started again; then [q] is up. However the network cuts
    the bytes:
    - the manager handles the three reports to their ends: it orders both servers
      started, takes [q] for the primary and tells its factory so twice, the first
      time before the server is there, and then demands a checkpoint of [q],
      because [q] had missed updates;
    - the factory of [q] makes the last two messages one message each for its server;
    - this server, just started and without tasks, obeys: it becomes the primary
      and sends the same checkpoint to both peers, an end mark alone;
    - and a backup, whatever its table holds and whatever requests are in its
      log, drops these requests in the next iteration of its worker and is left
      without any task. *)
Theorem double_fault_loses_tasks {Q} `{FifoLog Q client_ctx_t} env parsed o now lr ms d0 d junk1 junk2 junk3 j1 j2 j3 uninit
    fq ipmem fenv fork_ok ol sv rand mb can_create cfuel wfuel status_ptr pid nenv sjunk malloc malloc' sha1 sfuel hc'
    bid l (v : replica Q) a i1 i2 i3 :
  reach env -> rm_start parsed o now = Ret d0 -> rm_printable d0 -> mode d0 = 0 -> reports lr = Ret ms ->
  Forall (fun x => 0 <= rmm_replica_id x.2 < 3) ms -> rm_main env parsed o now lr = Ret d -> 0 <= primary_replica_id d ->
  let p := primary_replica_id d in
  let q := next p in
  f_replica_id fq = q -> server_main (server_argv fq) ol true true = Ret sv -> reach nenv ->
  can_create (export_name pid db_init) = true -> can_create (payload_name rand bid) = true -> (forall n, mb n = true) ->
  (forall n, exists g, malloc' n = Some g /\ zlen (raw_data g) = MAX_DATA_LEN /\ last (raw_data g) = Some NUL) ->
  backup_with l v a -> zlen l < normal_max a -> (S (length l) < wfuel)%nat ->
  clean i1 -> clean i2 -> clean i3 -> stream i1 = report_buf q j1 FAULTED UNKNOWN_STATE ->
  stream i2 = report_buf p j2 FAULTED UNKNOWN_STATE -> stream i3 = report_buf q j3 RUNNING UNKNOWN_STATE ->
  let hn := execute_msg malloc sha1 sfuel in
  let hc := execute_msg_ctrl status_ptr pid can_create (sv_id sv) nenv sjunk in
  let lead := order_text q (election d0 q) in
  let relayed := zero_buf (relayed_text (election d0 q)) in
  let peers := other_replicas q in
  exists d1 d2 d3, handle_fault_detector_message env junk1 uninit i1 d = Ret (0, d1)
    /\ handle_fault_detector_message env junk2 uninit i2 d1 = Ret (0, d2)
    /\ handle_fault_detector_message env junk3 uninit i3 d2 = Ret (0, d3)
    /\ primary_replica_id d3 = q
    /\ delivered (rm_net d3) = delivered (rm_net d)
         ++ [(fac d0 q, first_command d0 q junk1); (fac d0 p, first_command d0 p junk2); (fac d0 q, zero_buf lead);
             (fac d0 q, zero_buf lead); (fac d0 q, zero_buf (factory_req_text q SEND_CHKPT))]
    /\ relays fq ipmem fenv fork_ok lead relayed
    /\ relays fq ipmem fenv fork_ok (factory_req_text q SEND_CHKPT) (order_buf MSG_SEND_CHKPT) /\
  forall conn1 in1 conn2 in2, clean in1 -> stream in1 = relayed -> gets MSG_SEND_CHKPT in2 ->
  exists w1 w2 w3 w4 w5 bytes, handle_connection (sv_id sv) rand mb can_create cfuel conn1 in1 (sv_replica sv) = Ret (0, w1)
    /\ run hn hc wfuel CONTROL w1 = Ret w2 /\ run hn hc wfuel NORMAL w2 = Ret w3
    /\ handle_connection (sv_id sv) rand mb can_create cfuel conn2 in2 w3 = Ret (0, w4)
    /\ run hn hc wfuel CONTROL w4 = Ret w5
    /\ state (r_ctl w5) = PASSIVE_PRIMARY /\ (forall k, tasks_at k (r_db w5) = [])
    /\ delivered (net_out w5) = [(bs_info (peer_ctx (-1) (node_peer d0 peers.1)), bytes);
                                 (bs_info (peer_ctx 0 (node_peer d0 peers.2)), bytes)] /\
  forall fuel conn3 in3, clean in3 -> stream in3 = bytes -> zlen bytes <= Z.of_nat fuel ->
  exists v1 v2, handle_connection bid rand mb can_create fuel conn3 in3 v = Ret (0, v1)
    /\ run (execute_msg malloc' sha1 sfuel) hc' wfuel NORMAL v1 = Ret v2
    /\ state (r_ctl v2) = PASSIVE_BACKUP /\ (forall k, tasks_at k (r_db v2) = [])
    /\ lq_rep (r_log v2) (set_msgs NORMAL [] a).
Proof.
  intros Henv H0 Hpr Hm Hr Hms Hmain Hprim p q Hfq Hsv Hnenv Hexp Hpay Hmb Hz Hv Hroom Hw Hc1 Hc2 Hc3 Hs1 Hs2 Hs3
    hn hc lead relayed peers.
  destruct (start_tracks parsed o now d0 H0) as (Ht0 & _). pose proof (tk_addr _ _ _ Ht0) as Hok.
  destruct (history_tracks env d0 d Henv parsed o now lr ms H0 Hr Hms Hmain Hprim) as (s & Ht & Hl & Hlead). fold p in Hlead.
  destruct (manager_double_fault env d0 d Henv Hok Hpr Hm s p junk1 junk2 junk3 uninit i1 i2 i3 j1 j2 j3
    Ht Hl Hlead Hc1 Hc2 Hc3 Hs1 Hs2 Hs3) as (d1 & d2 & d3 & E1 & E2 & E3 & Hp3 & Hd3).
  exists d1, d2, d3. split; [exact E1|]. split; [exact E2|]. split; [exact E3|]. split; [exact Hp3|]. split; [exact Hd3|].
  pose proof (next_range p) as Hq. destruct (orders_relayed d0 Hok Hpr Hm fq ipmem fenv fork_ok q Hq Hfq) as [R1 R2].
  split; [exact R1|]. split; [exact R2|].
  intros conn1 in1 conn2 in2 Hcl1 Hst1 Hg2.
  apply server_main_Ret in Hsv as (idt & Ei & Hsid & _ & _ & Hrep). injection Ei as <-.
  rewrite id_text, atoi_fmt_d, Hfq in Hsid by (rewrite ?Hfq; int_lia).
  destruct (empty_primary_sends status_ptr pid can_create (sv_id sv) rand mb nenv sjunk Hnenv hn cfuel wfuel d0 q
    conn1 in1 conn2 in2 (sv_replica sv) (abs_init 50 50))
    as (w1 & w2 & w3 & w4 & w5 & F1 & F2 & F3 & _ & F4 & F5 & S5 & T5 & N5); try done; try (rewrite Hrep; done).
  { rewrite Hrep. constructor; try done; [apply hash_table_init_wf|apply MsgLog.log_rep_init]. }
  exists w1, w2, w3, w4, w5. eexists. split; [exact F1|]. split; [exact F2|]. split; [exact F3|].
  split; [exact F4|]. split; [exact F5|]. split; [exact S5|]. split; [intros k; by apply no_tasks_at|].
  split; [rewrite N5, Hrep; reflexivity|]. intros fuel conn3 in3 Hcl3 Hst3 Hfuel.
  destruct (backup_emptied malloc' sha1 sfuel hc' (sv_id sv) (chk_point_num (sv_replica sv)) bid rand mb can_create
    fuel conn3 in3 v a l wfuel (r_db (sv_replica sv))) as (v1 & v2 & G1 & G2 & G3 & G4 & G5); try done; try (rewrite Hrep; done).
  { rewrite Hsid. int_lia. }
  { rewrite Hrep. apply hash_table_init_wf. }
  exists v1, v2. split; [exact G1|]. split; [exact G2|]. split; [exact G4|].
  split; [intros k; by apply no_tasks_at|exact G5].
Qed.

(** Replica 0 leads; replica 1 dies and is started again; replica 2 holds three
    tasks and a backlog of two requests. *)
Definition demo_after : rep_manager := answer rm_globals (rm_main net_up (Some demo_config) demo_listen 1000 demo_events).
Definition down_report (i : Z) : bytes := report_buf i [] FAULTED UNKNOWN_STATE.
Definition up_report (i : Z) : bytes := report_buf i [] RUNNING UNKNOWN_STATE.
Definition full_backup (q : log) : demo_replica := set_r_db demo_db (backup_replica q).

Lemma double_fault_loses_tasks_witness : exists q d1 d2 d3 w1 w2 w3 w4 w5 v1 v2 bytes,
  rm_main net_up (Some demo_config) demo_listen 1000 demo_events = Ret demo_after
  /\ handle_fault_detector_message net_up [] (RepMgr.report 7 7) (one_piece (down_report 1)) demo_after = Ret (0, d1)
  /\ handle_fault_detector_message net_up [] (RepMgr.report 7 7) (one_piece (down_report 0)) d1 = Ret (0, d2)
  /\ handle_fault_detector_message net_up [] (RepMgr.report 7 7) (one_piece (up_report 1)) d2 = Ret (0, d3)
  /\ primary_replica_id d3 = 1
  /\ handle_connection 1 5 (fun _ => true) (fun _ => true) 1 9
       (one_piece (zero_buf (relayed_text (election demo_started_manager 1)))) (sv_replica demo_server) = Ret (0, w1)
  /\ run (execute_msg dirty_malloc demo_sha1 1) (execute_msg_ctrl (fun _ => 42) 100 (fun _ => true) 1 net_up []) 9
       CONTROL w1 = Ret w2
  /\ run (execute_msg dirty_malloc demo_sha1 1) (execute_msg_ctrl (fun _ => 42) 100 (fun _ => true) 1 net_up []) 9
       NORMAL w2 = Ret w3
  /\ handle_connection 1 5 (fun _ => true) (fun _ => true) 1 9 (one_piece (order_buf MSG_SEND_CHKPT)) w3 = Ret (0, w4)
  /\ run (execute_msg dirty_malloc demo_sha1 1) (execute_msg_ctrl (fun _ => 42) 100 (fun _ => true) 1 net_up []) 9
       CONTROL w4 = Ret w5
  /\ map snd (delivered (net_out w5)) = [bytes; bytes]
  /\ handle_connection 2 5 (fun _ => true) (fun _ => true) (length bytes) 9 (one_piece bytes) (full_backup q) = Ret (0, v1)
  /\ run (execute_msg demo_malloc demo_sha1 1) (fun _ => Ret) 9 NORMAL v1 = Ret v2
  /\ tasks_at 5 (r_db (full_backup q)) <> [] /\ tasks_at 5 (r_db v2) = [].
Proof.
  destruct (impl_run_spec (map put_normal demo_backlog) demo_log (abs_init 50 50)) as (q & _ & Hq);
    [apply MsgLog.log_rep_init|].
  assert (rm_main net_up (Some demo_config) demo_listen 1000 demo_events = Ret demo_after) as Hmain by (by vm_compute).
  assert (primary_replica_id demo_after = 0) as Hp by (by vm_compute).
  assert (sv_id demo_server = 1) as Hsv by (by vm_compute).
  destruct (one_piece_ok (down_report 1)) as [Hc1 Hs1]. destruct (one_piece_ok (down_report 0)) as [Hc2 Hs2].
  destruct (one_piece_ok (up_report 1)) as [Hc3 Hs3].
  destruct (double_fault_loses_tasks net_up (Some demo_config) demo_listen 1000 demo_events (demo_heard demo_events)
    demo_started_manager demo_after [] [] [] [] [] [] (RepMgr.report 7 7) demo_factory (server_ip (demo_addr 0)) net_up true
    demo_sockets demo_server 5 (fun _ => true) (fun _ => true) 1 9 (fun _ => 42) 100 net_up [] dirty_malloc demo_malloc
    demo_sha1 1 (fun _ => Ret) 2 demo_backlog (full_backup q) (spec_run (map put_normal demo_backlog) (abs_init 50 50)).2
    (one_piece (down_report 1)) (one_piece (down_report 0)) (one_piece (up_report 1)))
    as (d1 & d2 & d3 & E1 & E2 & E3 & P3 & _ & _ & _ & H1).
  - exact net_up_reach.
  - exact demo_manager_starts.
  - exact demo_started_printable.
  - by vm_compute.
  - by vm_compute.
  - apply (bool_decide_unpack _). by vm_compute.
  - exact Hmain.
  - rewrite Hp. done.
  - rewrite Hp. by vm_compute.
  - by vm_compute.
  - exact net_up_reach.
  - reflexivity.
  - reflexivity.
  - done.
  - apply demo_malloc_zero.
  - assert (db_wf demo_db) as Hwf by (apply db_wfb_ok; by vm_compute).
    refine (demo_backup_with demo_db q _ Hwf Hq _ _ _).
    + reflexivity.
    + reflexivity.
    + by split.
  - by vm_compute.
  - by apply Nat.ltb_lt.
  - exact Hc1.
  - exact Hc2.
  - exact Hc3.
  - rewrite Hp. exact Hs1.
  - rewrite Hp. exact Hs2.
  - rewrite Hp. exact Hs3.
  - rewrite Hp in *. rewrite Hsv in H1. destruct (one_piece_ok (zero_buf (relayed_text (election demo_started_manager 1)))) as [Hc4 Hs4].
    destruct (one_piece_ok (order_buf MSG_SEND_CHKPT)) as [Hc5 Hs5].
    destruct (H1 9 (one_piece (zero_buf (relayed_text (election demo_started_manager 1)))) 9
      (one_piece (order_buf MSG_SEND_CHKPT)) Hc4 Hs4 (conj Hc5 Hs5))
      as (w1 & w2 & w3 & w4 & w5 & bytes & F1 & F2 & F3 & F4 & F5 & _ & _ & N5 & H2).
    destruct (one_piece_ok bytes) as [Hc6 Hs6].
    destruct (H2 (length bytes) 9 (one_piece bytes) Hc6 Hs6 (Z.le_refl _)) as (v1 & v2 & G1 & G2 & _ & T & _).
    exists q, d1, d2, d3, w1, w2, w3, w4, w5, v1, v2, bytes. split; [exact Hmain|]. split; [exact E1|]. split; [exact E2|].
    split; [exact E3|]. split; [exact P3|]. split; [exact F1|]. split; [exact F2|]. split; [exact F3|]. split; [exact F4|].
    split; [exact F5|]. split; [exact (f_equal (map snd) N5)|]. split; [exact G1|]. split; [exact G2|].
    split; [intros Hx; vm_compute in Hx; discriminate Hx|exact (T 5)].
Defined.
