(* ===== verification/Threads.v ===== *)
(** The threads of a server one memory access at a time: the workers of
    [src/worker.c], the connection threads of [src/server.c] from the logging of
    the request on, and the checkpoint thread of [src/chkpt.c], over the shared
    state of [Replica].

    The other files take an iteration of a worker or a connection as one step.
    Here a thread is a tree of atomic accesses; a schedule says which thread
    moves next. *)
From S2P Require Import Prelude CLib Iface Util Fifo Control Db Storage Replica Server Worker.

(** * The machine *)

(** What an access does to the table of tasks: nothing, or one of the three
    functions of [src/storage.c] that walk it. *)
Inductive access := Plain | AStorage | AExport | APrint.

#[global] Instance access_eq_dec : EqDecision access.
Proof. solve_decision. Defined.

(** What an access did, for the statements below; no thread reads it. *)
Inductive event :=
  | EPut (t : log_msg_type) (c : client_ctx_t)     (* the log accepted it *)
  | ETake (t : log_msg_type) (c : client_ctx_t)
  | EFree (c : client_ctx_t)                       (* freed while pruning *)
  | EExec (c : client_ctx_t)                       (* given to the storage *)
  | EExport (name : option bytes)
  | EFile (name data : bytes).                     (* a payload *)

(** A thread. [Again n]: back to the head of its [while (1)] with [n] in its
    local variable; [Act]: one access, which can be impossible for now
    ([NoFuel]) or end the process; [Lock] and [Unlock]: [storage_lock]; [Fork]:
    [pthread_create]. *)
Inductive thread (Q : Type) : Type :=
  | Halt
  | Again (n : Z)
  | Act (x : access) (B : Type) (f : replica Q -> outcome (B * replica Q)) (ev : B -> list event)
      (k : B -> thread Q)
  | Lock (k : thread Q)
  | Unlock (k : thread Q)
  | Fork (body : Z -> thread Q) (k : thread Q).
Arguments Halt {Q}.
Arguments Again {Q} n.
Arguments Act {Q} x B f ev k.
Arguments Lock {Q} k.
Arguments Unlock {Q} k.
Arguments Fork {Q} body k.

(** The process: the shared state, the owner of [storage_lock], and for every
    thread the body of its loop and what is left of the current turn. *)
Record process (Q : Type) := {
  mem : replica Q;
  storage_lock : option nat;
  pool : list ((Z -> thread Q) * thread Q)
}.
Arguments mem {Q} _.
Arguments storage_lock {Q} _.
Arguments pool {Q} _.

(** A thread moves, or a connection thread has read the request [c], with the
    payload file it wrote. *)
Inductive choice := Run (i : nat) | Arrive (c : client_ctx_t) (file : option (bytes * bytes)).

Section Machine.
Context {Q : Type}.
(** The connection thread. *)
Variable arrive : client_ctx_t -> option (bytes * bytes) -> thread Q.

Definition moved (i : nat) (body : Z -> thread Q) (t : thread Q) (w : replica Q) (l : option nat)
    (new : list ((Z -> thread Q) * thread Q)) (g : process Q) : process Q :=
  {| mem := w; storage_lock := l; pool := <[i := (body, t)]> (pool g) ++ new |}.

Definition run_thread (i : nat) (body : Z -> thread Q) (t : thread Q) (g : process Q)
  : option (list event * process Q) :=
  match t with
  | Halt => None
  | Again n => Some ([], moved i body (body n) (mem g) (storage_lock g) [] g)
  | Act _ _ f ev k =>
      match f (mem g) with
      | Ret (b, w) => Some (ev b, moved i body (k b) w (storage_lock g) [] g)
      | _ => None
      end
  | Lock k =>
      match storage_lock g with
      | None => Some ([], moved i body k (mem g) (Some i) [] g)
      | Some _ => None
      end
  | Unlock k => Some ([], moved i body k (mem g) None [] g)
  | Fork new k => Some ([], moved i body k (mem g) (storage_lock g) [(new, new 0)] g)
  end.

Definition step (ch : choice) (g : process Q) : option (list event * process Q) :=
  match ch with
  | Run i => '(body, t) ← pool g !! i; run_thread i body t g
  | Arrive c file =>
      Some ([], {| mem := mem g; storage_lock := storage_lock g;
                   pool := pool g ++ [(fun _ => Halt, arrive c file)] |})
  end.

(** The process under a schedule: the events, and the state at the end. *)
Fixpoint schedule (l : list choice) (g : process Q) : option (list event * process Q) :=
  match l with
  | [] => Some ([], g)
  | ch :: l => '(e, g) ← step ch g; '(es, g) ← schedule l g; Some (e ++ es, g)
  end.

Lemma schedule_app l l' g : schedule (l ++ l') g
  = ('(e, g) ← schedule l g; '(e', g) ← schedule l' g; Some (e ++ e', g)).
Proof.
  revert g. induction l as [|ch l IH]; intros g; cbn [schedule app].
  - simpl. destruct (schedule l' g) as [[e' g']|]; done.
  - destruct (step ch g) as [[e g1]|]; [|done]. simpl. rewrite IH.
    destruct (schedule l g1) as [[es g2]|]; [|done]. simpl.
    destruct (schedule l' g2) as [[es' g3]|]; [|done]. simpl. by rewrite app_assoc.
Qed.
End Machine.

(** * The programs *)

Section Programs.
Context {Q : Type} `{FifoLog Q client_ctx_t}.
Variable malloc : nat -> option data_point.
Variable sha1 : bytes -> option bytes.
Variable sfuel : nat.
Variable status_ptr : Z -> Z.
Variable pid : Z.
Variable can_create : bytes -> bool.
Variable server_id : Z.
Variable env : nat -> net_step.
Variable junk : bytes.

(** ** Accesses *)

Definition quiet {B} (b : B) : list event := [].

Definition load {B} (f : replica Q -> B) (k : B -> thread Q) : thread Q :=
  Act Plain B (fun w => Ret (f w, w)) quiet k.
Definition store (f : replica Q -> replica Q) (k : thread Q) : thread Q :=
  Act Plain unit (fun w => Ret (tt, f w)) quiet (fun _ => k).
Definition store_ctl (f : ctl -> ctl) : thread Q -> thread Q :=
  store (fun w => set_r_ctl (f (r_ctl w)) w).
Definition load_ctl {B} (f : ctl -> B) : (B -> thread Q) -> thread Q :=
  load (fun w => f (r_ctl w)).

(** [dbg_requires] and [dbg_ensures]. *)
Definition require (b : bool) (k : thread Q) : thread Q :=
  if b then k else Act Plain Empty_set (fun _ => Exit) quiet (fun b => match b with end).

(** [get_mode() == m && get_state() == s]: the state is read if the mode
    matches. *)
Definition test (m s : Z) (k : bool -> thread Q) : thread Q :=
  load_ctl get_mode (fun m' => if m' =? m then load_ctl get_state (fun s' => k (s' =? s)) else k false).

(** ** The checkpoint thread *)

Definition write_check_point_t (b : bsvr_ctx) (name : bytes) (k : thread Q) : thread Q :=
  load (fun w => (files (r_db w) !! name, chk_point_num w)) (fun p =>
  match p.1 with
  | None => k
  | Some content =>
      Act APrint bytes (fun w => text ← print_state_internal (r_db w); Ret (text, w)) quiet (fun _ =>
      Act Plain unit (fun w =>
        let hd := chkpt_header server_id p.2 (get_file_size (Some content)) in
        let n := net_out w in
        if write_ret (env (attempts n)) <? 0
        then Ret (tt, set_net_out {| attempts := S (attempts n); delivered := delivered n |} w)
        else
          '(bytes, calls) ← copy_loop env (S (length content)) content hd (S (attempts n));
          Ret (tt, set_net_out {| attempts := calls; delivered := delivered n ++ [(bs_info b, bytes)] |} w))
        quiet (fun _ => k))
  end).

Definition send_to_t (which : ctl -> bsvr_ctx) (name : bytes) (k : thread Q) : thread Q :=
  load_ctl which (fun b =>
  if 0 <=? bs_fd b
  then write_check_point_t b name (store (fun w => set_closed (closed w ++ [bs_fd b]) w) k)
  else k).

Definition send_checkpoint_t (k : thread Q) : thread Q :=
  store (fun w => let '(b, n) := open_port env (bckup_svr_0 (r_ctl w)) (net_out w) in
                  set_net_out n (set_r_ctl (set_bckup_servers b (bckup_svr_1 (r_ctl w)) (r_ctl w)) w))
  (store (fun w => let '(b, n) := open_port env (bckup_svr_1 (r_ctl w)) (net_out w) in
                   set_net_out n (set_r_ctl (set_bckup_servers (bckup_svr_0 (r_ctl w)) b (r_ctl w)) w))
  (Lock (Act AExport (option bytes)
    (fun w => '(name, d) ← export_db status_ptr pid can_create (r_db w); Ret (name, set_r_db d w))
    (fun name => [EExport name])
    (fun name => Unlock
      (Act Plain bytes (fun w => n ← match name with Some n => Ret n | None => c_string junk end; Ret (n, w))
        quiet (fun name => send_to_t bckup_svr_0 name (send_to_t bckup_svr_1 name
          (load (fun w => chk_point_num w) (fun n => store (set_chk_point_num (u64 (n + 1))) k))))))))).

(** The body of [send_checkpoint] with its [sleep_count]. The field
    [chk_thread], which the coarse model reads for the thread, is kept up to
    date and not read. *)
Definition checkpoint_body (sleep_count : Z) : thread Q :=
  load_ctl checkpoint_freq_g (fun freq =>
  if sleep_count <? freq then
    load_ctl signal_exit_checkpt_thread (fun s =>
    if s =? 1
    then store_ctl (fun c => upd_thread 0 (is_chkpt_thrd_running c) (chk_thread c) c)
        (store_ctl (fun c => upd_thread (signal_exit_checkpt_thread c) 0 None c) Halt)
    else store_ctl (fun c => upd_thread (signal_exit_checkpt_thread c) (is_chkpt_thrd_running c)
                               (Some (sleep_count + 1)) c)
        (Again (sleep_count + 1)))
  else
    store_ctl (fun c => upd_thread (signal_exit_checkpt_thread c) (is_chkpt_thrd_running c) (Some 0) c)
      (send_checkpoint_t (Again 0))).

Definition start_ckhpt_thread_t (k : thread Q) : thread Q :=
  load_ctl is_chkpt_thrd_running (fun r =>
  if r =? 1 then k
  else Fork checkpoint_body
    (store_ctl (fun c => upd_thread (signal_exit_checkpt_thread c) 1 (Some 0) c) k)).

(** The busy wait is an access that is possible once the signal is taken. *)
Definition stop_chk_pt_thread_t (k : thread Q) : thread Q :=
  store_ctl (fun c => upd_thread 1 (is_chkpt_thrd_running c) (chk_thread c) c)
  (Act Plain unit (fun w => if signal_exit_checkpt_thread (r_ctl w) =? 1 then NoFuel else Ret (tt, w))
    quiet (fun _ => k)).

Definition kill_chkpt_thrd_if_running_t (k : thread Q) : thread Q :=
  load_ctl is_chkpt_thrd_running (fun r => if r =? 1 then stop_chk_pt_thread_t k else k).

(** ** src/state.c *)

Definition set_mode_t (m : Z) (k : thread Q) : thread Q :=
  load_ctl rep_mode (fun m' => require (m' =? UNKNOWN_REP)
    (require ((UNKNOWN_REP <? m) && (m <=? PASSIVE_REP)) (store_ctl (upd_mode m) k))).

Definition set_state_t (s : Z) (k : thread Q) : thread Q :=
  load_ctl rep_mode (fun m0 => require (negb (m0 =? UNKNOWN_REP))
  (load_ctl rep_mode (fun m1 =>
   let rest : thread Q :=
     load_ctl rep_mode (fun m3 =>
     let last : thread Q := store_ctl (upd_state s) k in
     if m3 =? PASSIVE_REP then
       if s =? PASSIVE_PRIMARY then start_ckhpt_thread_t last
       else if s =? PASSIVE_BACKUP then kill_chkpt_thrd_if_running_t last
       else last
     else last) in
   if m1 =? ACTIVE_REP then
     require ((s =? ACTIVE_RUNNING) || (s =? ACTIVE_RECOVER) || (s =? QUIESCE)) rest
   else load_ctl rep_mode (fun m2 =>
     if m2 =? PASSIVE_REP then
       require ((s =? PASSIVE_PRIMARY) || (s =? PASSIVE_BACKUP) || (s =? PASSIVE_PREPRIMARY)) rest
     else rest)))).

(** ** The connection thread, after the request is read *)

Definition close_t (fd : Z) (k : thread Q) : thread Q := store (close_fd fd) k.
Definition reply_t (c : client_ctx_t) (status msg : bytes) (k : thread Q) : thread Q :=
  store (reply c status msg) k.

Definition handle_quiesce_command_t (t : Z) (k : Z -> thread Q) : thread Q :=
  if t =? MSG_QUIESCE_START then
    load_ctl get_state (fun s => store_ctl (upd_prev s) (set_state_t QUIESCE (k 0)))
  else if t =? MSG_QUIESCE_STOP then
    load_ctl prev_state (fun p => set_state_t p
      (load_ctl get_state (fun s => store_ctl (upd_prev s) (k 0))))
  else k (-1).

Definition put_t (c : client_ctx_t) (t : log_msg_type) (k : Z -> thread Q) : thread Q :=
  Act Plain Z (fun w => '(ret, q) ← lq_put (r_log w) c t; Ret (ret, set_r_log q w))
    (fun ret => if ret =? 0 then [EPut t c] else []) k.

Definition enqueue_client_req_t (c : client_ctx_t) (k : Z -> thread Q) : thread Q :=
  test PASSIVE_REP PASSIVE_BACKUP (fun b =>
  let c := set_is_backlog b c in
  let put := put_t c (log_type (msg_type (req c))) k in
  if (msg_type (req c) =? MSG_CHK_PT) && is_backlog c then store set_worker_prune put else put).

Definition dispatch_request_t (c : client_ctx_t) : thread Q :=
  let t := msg_type (req c) in
  if (t =? MSG_QUIESCE_STOP) || (t =? MSG_QUIESCE_START) then
    handle_quiesce_command_t t (fun _ => close_t (cc_fd c) Halt)
  else
    enqueue_client_req_t c (fun ret =>
    if negb (ret =? 0) then close_t (cc_fd c) Halt
    else test ACTIVE_REP ACTIVE_RECOVER (fun b =>
      if b && negb (t =? MSG_HEARTBEAT) && negb (t =? MSG_REP_MGR)
      then store (fun w => set_closed (closed w ++ [cc_fd c]) w) Halt
      else Halt)).

(** The payload file first, if there is one. *)
Definition connection_t (c : client_ctx_t) (file : option (bytes * bytes)) : thread Q :=
  match file with
  | None => dispatch_request_t c
  | Some (name, data) =>
      Act Plain unit (fun w => let d := r_db w in
          Ret (tt, set_r_db (upd_files (file_counter d) (<[name := data]> (files d)) d) w))
        (fun _ => [EFile name data]) (fun _ => dispatch_request_t c)
  end.

(** ** The workers *)

Definition take_t (t : log_msg_type) (k : option client_ctx_t -> thread Q) : thread Q :=
  Act Plain (option client_ctx_t) (fun w => '(o, q) ← lq_take (r_log w) t; Ret (o, set_r_log q w))
    (fun o => match o with Some c => [ETake t c] | None => [] end) k.
Definition count_t (t : log_msg_type) (k : Z -> thread Q) : thread Q :=
  Act Plain Z (fun w => '(n, q) ← lq_count (r_log w) t; Ret (n, set_r_log q w)) quiet k.

Definition storage_t (c : client_ctx_t) (k : Z * client_ctx_t -> thread Q) : thread Q :=
  Act AStorage (Z * client_ctx_t)
    (fun w => '(ret, c, d) ← handle_storage malloc sha1 sfuel c (r_db w); Ret ((ret, c), set_r_db d w))
    (fun _ => [EExec c]) k.

Definition execute_msg_t (c : client_ctx_t) (k : thread Q) : thread Q :=
  let storage : thread Q :=
    storage_t c (fun p =>
    let c := p.2 in
    let done := Unlock (reply_t c ⟦"OK"⟧ ⟦"Success"⟧ (close_t (cc_fd c) k)) in
    let count := if negb (msg_type (req c) =? MSG_HEARTBEAT)
      then load msg_count (fun n => store (set_msg_count (i32 (n + 1))) done) else done in
    if negb (p.1 =? 0) then reply_t c ⟦"FAIL"⟧ ⟦"Check inputs"⟧ count else count) in
  Lock (test PASSIVE_REP PASSIVE_PREPRIMARY (fun pre =>
  if pre && negb (is_backlog c) then set_state_t PASSIVE_PRIMARY storage else storage)).

Definition handle_rep_msg_t (m : rep_mgr_msg_t) (k : thread Q) : thread Q :=
  let rest := kill_chkpt_thrd_if_running_t
    (store_ctl (set_bckup_servers (rm_bckup_svr_0 m) (rm_bckup_svr_1 m))
    (store_ctl (set_checkpoint_freq (rm_checkpoint_freq m))
    (set_state_t (rm_server_state m) k))) in
  load_ctl get_mode (fun md => if md =? UNKNOWN_REP then set_mode_t (rm_rep_mode m) rest else rest).

Definition execute_msg_ctrl_t (c : client_ctx_t) (k : thread Q) : thread Q :=
  let t := msg_type (req c) in
  let done := reply_t c ⟦"OK"⟧ ⟦"Success"⟧ (close_t (cc_fd c) k) in
  if t =? MSG_REP_MGR then handle_rep_msg_t (rep_mgr_msg (req c)) done
  else if t =? MSG_HEARTBEAT then done
  else if t =? MSG_SEND_CHKPT then
    load_ctl prev_state (fun p => if negb (p =? ACTIVE_RECOVER) then send_checkpoint_t done else done)
  else done.

(** The rest of an iteration of [run], after the pruning. *)
Definition run_rest_t (prio : log_msg_type) : thread Q :=
  let normal := bool_decide (prio = NORMAL) in
  let take_normal := load_ctl get_state (fun s =>
    if negb (s =? QUIESCE)
    then take_t NORMAL (fun o => match o with Some c => execute_msg_t c (Again 0) | None => Again 0 end)
    else Again 0) in
  let counted := fun n_count c_count : Z =>
    if (n_count =? 0) && (c_count =? 0) then Again 0
    else
      let normal_part := if negb (n_count =? 0) then take_normal else Again 0 in
      if negb (c_count =? 0) then
        take_t CONTROL (fun o => match o with
          | Some c => execute_msg_ctrl_t c normal_part | None => Again 0 end)
      else normal_part in
  let awake : thread Q :=
    if normal then count_t NORMAL (fun n =>
      test PASSIVE_REP PASSIVE_PREPRIMARY (fun pre =>
      if pre && (n =? 0) then set_state_t PASSIVE_PRIMARY (counted n 0) else counted n 0))
    else count_t CONTROL (fun n => counted 0 n) in
  load is_prune (fun p =>
  if p =? 0 then test PASSIVE_REP PASSIVE_BACKUP (fun b => if b && normal then Again 0 else awake)
  else awake).

(** The loop of [run]; the local variable is 1 while the normal worker is in
    the inner loop that prunes the log. *)
Definition run_body (prio : log_msg_type) (pruning : Z) : thread Q :=
  if bool_decide (prio = NORMAL) then
    if pruning =? 1 then
      take_t NORMAL (fun o => match o with
        | None => run_rest_t prio
        | Some c =>
            if negb (msg_type (req c) =? MSG_CHK_PT)
            then Act Plain unit (fun w => Ret (tt, free_msg c w)) (fun _ => [EFree c]) (fun _ => Again 1)
            else store (set_prune 0) (execute_msg_t c (Again 1))
        end)
    else load is_prune (fun p => if p =? 1 then Again 1 else run_rest_t prio)
  else run_rest_t prio.

(** [start_worker_threads]. *)
Definition workers (w : replica Q) : process Q :=
  {| mem := w; storage_lock := None;
     pool := [(run_body NORMAL, Again 0); (run_body CONTROL, Again 0)] |}.

(** The server under a schedule. *)
Definition server_runs : list choice -> process Q -> option (list event * process Q) :=
  schedule connection_t.
End Programs.
