(* ===== verification/Interleave.v ===== *)
(** What holds of a server under every schedule of its threads. *)
From S2P Require Import Prelude CLib Iface Util Fifo Control Db Storage Replica Server Worker Threads.
From S2P Require MsgLog.

(** * Histories *)

(** The requests the log accepted, those taken from it, and those the normal
    worker has executed or freed, in the order of the events. *)
Definition puts (t : log_msg_type) (es : list event) : list client_ctx_t :=
  omap (fun e => match e with EPut t' c => if decide (t' = t) then Some c else None | _ => None end) es.
Definition takes (t : log_msg_type) (es : list event) : list client_ctx_t :=
  omap (fun e => match e with ETake t' c => if decide (t' = t) then Some c else None | _ => None end) es.
Definition finished (es : list event) : list client_ctx_t :=
  omap (fun e => match e with EExec c | EFree c => Some c | _ => None end) es.

Section History.
Context {Q : Type} `{FifoLog Q client_ctx_t}.
Variable malloc : nat -> option data_point.
Variable sha1 : bytes -> option bytes.
Variable sfuel : nat.
Variable status_ptr : Z -> Z.
Variable pid : Z.
Variable can_create : bytes -> bool.
Variable server_id : Z.
Variable env : nat -> net_step.
Variable junk : bytes.

(** One event after the other on a table that nobody else touches. *)
Definition apply_event (e : event) (d : db) : outcome db :=
  match e with
  | EExec c => '(_, d) ← handle_storage malloc sha1 sfuel c d; Ret d
  | EExport _ => '(_, d) ← export_db status_ptr pid can_create d; Ret d
  | EFile name data => Ret (upd_files (file_counter d) (<[name := data]> (files d)) d)
  | _ => Ret d
  end.
Fixpoint replay (es : list event) (d : db) : outcome db :=
  match es with
  | [] => Ret d
  | e :: es => d ← apply_event e d; replay es d
  end.

Lemma replay_app es es' d : replay (es ++ es') d = (d ← replay es d; replay es' d).
Proof.
  revert d. induction es as [|e es IH]; intros d; simpl; [done|].
  destruct (apply_event e d); [|done..]. apply IH.
Qed.

(** * A discipline for threads *)

(** What the normal worker holds; no other thread takes requests. *)
Inductive role := Other | Idle | Holding (c : client_ctx_t).

Inductive role_step : role -> event -> role -> Prop :=
  | role_take c : role_step Idle (ETake NORMAL c) (Holding c)
  | role_free c : role_step (Holding c) (EFree c) Idle
  | role_exec c : role_step (Holding c) (EExec c) Idle
  | role_put r t c : role_step r (EPut t c) r
  | role_control r c : role_step r (ETake CONTROL c) r
  | role_export r n : role_step r (EExport n) r
  | role_file r n d : role_step r (EFile n d) r.

Definition role_after (r : role) (es : list event) (r' : role) : Prop :=
  match es with
  | [] => r' = r
  | [e] => role_step r e r'
  | _ => False
  end.

Definition held (r : role) : list client_ctx_t := match r with Holding c => [c] | _ => [] end.

(** An access keeps the log a pair of queues and the table what its events
    say. *)
Record act_ok {B} (f : replica Q -> outcome (B * replica Q)) (ev : B -> list event) : Prop := {
  act_log : forall w b w' a, lq_rep (r_log w) a -> f w = Ret (b, w') ->
    exists a', lq_rep (r_log w') a'
      /\ forall t, t <> INVALID_LOG -> msgs t a ++ puts t (ev b) = takes t (ev b) ++ msgs t a';
  act_db : forall w b w', f w = Ret (b, w') -> replay (ev b) (r_db w) = Ret (r_db w')
}.

(** Only the owner of [storage_lock] executes and exports; at the head of its
    loop a thread owns nothing and holds no request. *)
Fixpoint good (owner : bool) (r : role) (t : thread Q) : Prop :=
  match t with
  | Halt | Again _ => owner = false /\ held r = []
  | Act x B f ev k =>
      (x = AStorage \/ x = AExport -> owner = true) /\ act_ok f ev
      /\ forall b, exists r', role_after r (ev b) r' /\ good owner r' (k b)
  | Lock k => owner = false /\ good true r k
  | Unlock k => owner = true /\ good false r k
  | Fork body k => (forall n, good false Other (body n)) /\ good owner r k
  end.

Lemma act_ok_frame {B} (f : replica Q -> outcome (B * replica Q)) ev :
  (forall b, puts NORMAL (ev b) = [] /\ puts CONTROL (ev b) = [] /\ takes NORMAL (ev b) = []
     /\ takes CONTROL (ev b) = []) ->
  (forall w b w', f w = Ret (b, w') -> r_log w' = r_log w /\ replay (ev b) (r_db w) = Ret (r_db w')) ->
  act_ok f ev.
Proof.
  intros Hev Hf. constructor; [|intros; by apply Hf].
  intros w b w' a Ha E. destruct (Hf w b w' E) as [-> _]. exists a. split; [done|].
  destruct (Hev b) as (H1 & H2 & H3 & H4). intros [| |] Ht; [done|..]; by rewrite ?H1, ?H2, ?H3, ?H4, app_nil_r.
Qed.

Lemma act_ok_quiet {B} (f : replica Q -> outcome (B * replica Q)) :
  (forall w b w', f w = Ret (b, w') -> r_log w' = r_log w /\ r_db w' = r_db w) -> act_ok f quiet.
Proof.
  intros Hf. apply act_ok_frame; [done|]. intros w b w' E. destruct (Hf w b w' E) as [H1 H2].
  split; [done|]. cbn [replay quiet]. by rewrite H2.
Qed.

Lemma act_good x B f ev k o r : x = Plain \/ x = APrint -> act_ok f ev ->
  (forall b, exists r', role_after r (ev b) r' /\ good o r' (k b)) -> good o r (Act x B f ev k).
Proof. intros Hx Hf Hk. cbn [good]. split; [by destruct Hx as [->| ->]; intros [?|?]|done]. Qed.

Lemma quiet_good x B (f : replica Q -> outcome (B * replica Q)) k o r : x = Plain \/ x = APrint ->
  (forall w b w', f w = Ret (b, w') -> r_log w' = r_log w /\ r_db w' = r_db w) ->
  (forall b, good o r (k b)) -> good o r (Act x B f quiet k).
Proof. intros Hx Hf Hk. apply act_good; [done|by apply act_ok_quiet|]. intros b. by exists r. Qed.

(** ** The programs follow it *)

Lemma load_good {B} (f : replica Q -> B) k o r : (forall b, good o r (k b)) -> good o r (load f k).
Proof. intros Hk. apply quiet_good; [by left| |done]. by intros w b w' [= <- <-]. Qed.

Lemma load_ctl_good {B} (f : ctl -> B) k o r : (forall b, good o r (k b)) -> good o r (load_ctl f k).
Proof. apply load_good. Qed.

Lemma store_good f k o r : (forall w : replica Q, r_log (f w) = r_log w /\ r_db (f w) = r_db w) ->
  good o r k -> good o r (store f k).
Proof. intros Hf Hk. apply quiet_good; [by left| |done]. by intros w b w' [= <- <-]. Qed.

Lemma store_ctl_good f k o r : good o r k -> good o r (store_ctl f k).
Proof. by apply store_good. Qed.

Lemma require_good b k o r : good o r k -> good o r (require b k).
Proof. intros Hk. unfold require. destruct b; [done|]. by apply quiet_good; [left|..]. Qed.

Lemma reply_good c st m k o r : good o r k -> good o r (reply_t c st m k).
Proof. apply store_good. intros w. unfold reply. by destruct (write_client_responce _ _ _ _). Qed.

Lemma close_good fd k o r : good o r k -> good o r (close_t fd k).
Proof. apply store_good. intros w. unfold close_fd. by case_if. Qed.

Lemma test_good m s k o r : (forall b, good o r (k b)) -> good o r (test m s k).
Proof.
  intros Hk. apply load_ctl_good. intros b. case_if; [|done]. apply load_ctl_good. intros b'. apply Hk.
Qed.

(** Runs the lemmas down a program. *)
Ltac walk := repeat first
  [ progress intros
  | assumption
  | match goal with
    | |- good _ _ (load_ctl _ _) => apply load_ctl_good
    | |- good _ _ (load _ _) => apply load_good
    | |- good _ _ (store_ctl _ _) => apply store_ctl_good
    | |- good _ _ (require _ _) => apply require_good
    | |- good _ _ (reply_t _ _ _ _) => apply reply_good
    | |- good _ _ (close_t _ _) => apply close_good
    | |- good _ _ (test _ _ _) => apply test_good
    | |- good _ _ (store _ _) => apply store_good; [by intros|]
    | |- good _ _ (Again _) => by split
    | |- good _ _ Halt => by split
    | |- good _ _ (if ?b then _ else _) => destruct b
    | |- good _ _ (match ?o with Some _ => _ | None => _ end) => destruct o
    end ].

Lemma send_to_good which name k r : good false r k -> good false r (send_to_t server_id env which name k).
Proof.
  intros Hk. unfold send_to_t, write_check_point_t. walk.
  - apply quiet_good; [by right| |intros; apply quiet_good; [by left| |intros; walk]].
    + intros w x w' E. apply bind_Ret_inv in E as (t & _ & [= <- <-]). done.
    + intros w x w' E. cbv zeta in E. case_if; [by injection E as <- <-|].
      apply bind_Ret_inv in E as ([y calls] & _ & [= <- <-]). done.
Qed.

Lemma export_act_ok : act_ok (fun w : replica Q => '(name, d) ← export_db status_ptr pid can_create (r_db w);
    Ret (name, set_r_db d w)) (fun name => [EExport name]).
Proof.
  apply act_ok_frame; [done|]. intros w b w' E. apply bind_Ret_inv in E as ([name d] & E & [= <- <-]).
  split; [done|]. cbn [replay apply_event]. by rewrite E.
Qed.

Lemma send_checkpoint_good k r : good false r k ->
  good false r (send_checkpoint_t status_ptr pid can_create server_id env junk k).
Proof.
  intros Hk. unfold send_checkpoint_t. do 2 (apply store_good; [done|]). cbn [good].
  split; [done|]. split; [done|]. split; [apply export_act_ok|]. intros name. exists r.
  split; [constructor|]. split; [done|]. split; [by intros [?|?]|]. split.
  - apply act_ok_quiet. intros w b w' E. apply bind_Ret_inv in E as (n & _ & [= <- <-]). done.
  - intros n. exists r. split; [done|]. do 2 apply send_to_good. walk.
Qed.

Lemma checkpoint_body_good n r : held r = [] -> good false r (checkpoint_body status_ptr pid can_create server_id env junk n).
Proof. intros Hr. unfold checkpoint_body. walk. by apply send_checkpoint_good. Qed.

Lemma start_good k o r : good o r k ->
  good o r (start_ckhpt_thread_t status_ptr pid can_create server_id env junk k).
Proof.
  intros Hk. unfold start_ckhpt_thread_t. walk. cbn [good]. split; [intros n; by apply checkpoint_body_good|].
  walk.
Qed.

Lemma kill_good k o r : good o r k -> good o r (kill_chkpt_thrd_if_running_t k).
Proof.
  intros Hk. unfold kill_chkpt_thrd_if_running_t, stop_chk_pt_thread_t. walk.
  apply quiet_good; [by left| |done]. intros w x w' E. case_if; [done|]. by injection E as <- <-.
Qed.

Lemma set_state_good s k o r : good o r k ->
  good o r (set_state_t status_ptr pid can_create server_id env junk s k).
Proof. intros Hk. unfold set_state_t. cbv zeta. walk; first [by apply start_good; walk | apply kill_good; walk | walk]. Qed.

Lemma handle_quiesce_good t k r : (forall n, good false r (k n)) ->
  good false r (handle_quiesce_command_t status_ptr pid can_create server_id env junk t k).
Proof.
  intros Hk. unfold handle_quiesce_command_t. walk; try apply set_state_good; walk; apply Hk.
Qed.

Lemma put_act_ok c t : act_ok (fun w : replica Q => '(ret, q) ← lq_put (r_log w) c t; Ret (ret, set_r_log q w))
  (fun ret => if ret =? 0 then [EPut t c] else []).
Proof.
  constructor.
  - intros w b w' a Ha E. apply bind_Ret_inv in E as ([ret q] & E & [= <- <-]).
    destruct (lq_put_spec (r_log w) a c t Ha) as (q' & E' & Hq). rewrite E in E'.
    injection E' as -> ->. eexists. split; [exact Hq|]. intros t' Ht'. unfold spec_put.
    destruct (limit t a <=? zlen (msgs t a)); cbn [fst snd]; [by rewrite app_nil_r|].
    unfold puts, takes. cbn. destruct (decide (t = t')) as [<-|Hne].
    + by destruct t.
    + rewrite app_nil_r. destruct t, t'; done.
  - intros w b w' E. apply bind_Ret_inv in E as ([ret q] & E & [= <- <-]). by case_if.
Qed.

Lemma enqueue_good c k r : (forall n, good false r (k n)) -> good false r (enqueue_client_req_t c k).
Proof.
  intros Hk. unfold enqueue_client_req_t.
  assert (forall c t, good false r (put_t c t k)) as Hput.
  { intros c' t. apply act_good; [by left|apply put_act_ok|]. intros n. exists r. split; [|apply Hk].
    case_if; [constructor|done]. }
  walk; apply Hput.
Qed.

Lemma dispatch_good c : good false Other (dispatch_request_t status_ptr pid can_create server_id env junk c).
Proof.
  unfold dispatch_request_t. cbv zeta. case_if; [apply handle_quiesce_good; intros; walk|].
  apply enqueue_good. walk.
Qed.

Lemma connection_good c file : good false Other (connection_t status_ptr pid can_create server_id env junk c file).
Proof.
  destruct file as [[name d]|]; [|apply dispatch_good]. apply act_good; [by left| |].
  - apply act_ok_frame; [done|]. by intros w b w' [= <- <-].
  - intros b. exists Other. split; [constructor|apply dispatch_good].
Qed.

Lemma take_act_ok t : t <> INVALID_LOG -> act_ok (fun w : replica Q => '(o, q) ← lq_take (r_log w) t; Ret (o, set_r_log q w))
  (fun o => match o with Some c => [ETake t c] | None => [] end).
Proof.
  intros Ht. constructor.
  - intros w b w' a Ha E. apply bind_Ret_inv in E as ([o q] & E & [= <- <-]).
    destruct (lq_take_spec (r_log w) a t Ha) as (q' & E' & Hq). rewrite E in E'.
    injection E' as -> ->. eexists. split; [exact Hq|]. intros t' Ht'. unfold spec_take.
    destruct (msgs t a) as [|c l] eqn:Em; cbn [fst snd]; [by rewrite app_nil_r|].
    unfold puts, takes. cbn. rewrite app_nil_r. destruct (decide (t = t')) as [<-|Hne].
    + rewrite Em. simpl. f_equal. by destruct t.
    + simpl. by destruct t, t'.
  - intros w b w' E. apply bind_Ret_inv in E as ([o q] & E & [= <- <-]). by destruct o.
Qed.

Lemma count_good t k o r : t <> INVALID_LOG -> (forall n, good o r (k n)) -> good o r (count_t t k).
Proof.
  intros Ht Hk. apply act_good; [by left| |intros b; by exists r]. constructor.
  - intros w b w' a Ha E. apply bind_Ret_inv in E as ([n q] & E & [= <- <-]).
    destruct (lq_count_spec (r_log w) a t Ha Ht) as (q' & E' & Hq). rewrite E in E'.
    injection E' as -> ->. exists a. split; [exact Hq|]. intros t' _. by rewrite app_nil_r.
  - intros w b w' E. apply bind_Ret_inv in E as ([n q] & E & [= <- <-]). done.
Qed.

Lemma storage_act_ok c : act_ok (fun w : replica Q => '(ret, c, d) ← handle_storage malloc sha1 sfuel c (r_db w);
    Ret ((ret, c), set_r_db d w)) (fun _ => [EExec c]).
Proof.
  apply act_ok_frame; [done|]. intros w b w' E. apply bind_Ret_inv in E as ([[ret c'] d] & E & [= <- <-]).
  split; [done|]. cbn [replay apply_event]. by rewrite E.
Qed.

Lemma execute_good c k : good false Idle k ->
  good false (Holding c) (execute_msg_t malloc sha1 sfuel status_ptr pid can_create server_id env junk c k).
Proof.
  intros Hk. unfold execute_msg_t. cbv zeta. cbn [good]. split; [done|].
  match goal with |- context [storage_t malloc sha1 sfuel c ?k'] => set (after := k') end.
  assert (good true (Holding c) (storage_t malloc sha1 sfuel c after)) as Hst.
  { cbn [storage_t good]. split; [done|]. split; [apply storage_act_ok|]. intros [ret c']. exists Idle.
    split; [constructor|]. unfold after. cbn [fst snd].
    assert (good true Idle (Unlock (reply_t c' ⟦"OK"⟧ ⟦"Success"⟧ (close_t (cc_fd c') k)))) as Hd
      by (split; [done|walk]).
    walk; done. }
  walk; by apply set_state_good.
Qed.

Lemma handle_rep_msg_good m k r : good false r k ->
  good false r (handle_rep_msg_t status_ptr pid can_create server_id env junk m k).
Proof.
  intros Hk. unfold handle_rep_msg_t, set_mode_t. cbv zeta. walk;
    apply kill_good; walk; by apply set_state_good.
Qed.

Lemma execute_ctrl_good c k r : good false r k ->
  good false r (execute_msg_ctrl_t status_ptr pid can_create server_id env junk c k).
Proof.
  intros Hk. unfold execute_msg_ctrl_t. cbv zeta. walk;
    first [apply handle_rep_msg_good | apply send_checkpoint_good]; walk.
Qed.

(** The role of a worker between its requests. *)
Definition resting (prio : log_msg_type) : role := if decide (prio = NORMAL) then Idle else Other.

Lemma resting_held prio : held (resting prio) = [].
Proof. unfold resting. by case_decide. Qed.

Lemma run_rest_good prio : prio <> INVALID_LOG ->
  good false (resting prio) (run_rest_t malloc sha1 sfuel status_ptr pid can_create server_id env junk prio).
Proof.
  intros Hp. pose proof (resting_held prio) as Hr. unfold run_rest_t. cbv zeta. apply load_good. intros p.
  match goal with |- context [if p =? 0 then test _ _ ?k else ?t] => set (awake := t) end.
  assert (good false (resting prio) awake) as Ha; [|by walk].
  unfold awake. destruct prio; [done|..]; cbn [bool_decide decide_rel].
  - rewrite bool_decide_true by done.
    apply count_good; [done|]. intros n.
    match goal with |- context [set_state_t _ _ _ _ _ _ PASSIVE_PRIMARY ?k] => set (counted := k) end.
    assert (good false Idle counted) as Hc; [|by walk; try apply set_state_good].
    unfold counted. cbn [Z.eqb negb]. walk. apply act_good; [by left|by apply take_act_ok|].
    intros [c|]; [exists (Holding c)|exists Idle]; (split; [by constructor|]); [by apply execute_good|done].
  - rewrite bool_decide_false by done. apply count_good; [done|]. intros n. cbn [Z.eqb negb andb].
    walk. apply act_good; [by left|by apply take_act_ok|].
    intros [c|]; exists Other; (split; [by constructor|]); [by apply execute_ctrl_good|done].
Qed.

Lemma run_body_good prio n : prio <> INVALID_LOG ->
  good false (resting prio) (run_body malloc sha1 sfuel status_ptr pid can_create server_id env junk prio n).
Proof.
  intros Hp. unfold run_body. case_bool_decide as Hn; [|by apply run_rest_good]. subst prio.
  pose proof (run_rest_good NORMAL Hp) as Hrest. destruct (n =? 1).
  - apply act_good; [by left|by apply take_act_ok|].
    intros [c|]; [exists (Holding c)|exists Idle]; (split; [by constructor|]); [|done].
    destruct (negb (msg_type (req c) =? MSG_CHK_PT)).
    + apply act_good; [by left| |].
      * apply act_ok_frame; [done|]. intros w b w' [= <- <-]. unfold free_msg.
        destruct (close_fd_frame (cc_fd c) w) as (_ & -> & -> & _). done.
      * intros b. exists Idle. split; [constructor|done].
    + apply store_good; [done|]. by apply execute_good.
  - walk.
Qed.
(** * The invariant of the process *)

(** Thread 0 is the normal worker. *)
Definition role_of (i : nat) : role := if decide (i = 0)%nat then Idle else Other.

Record process_ok (a : log_abs client_ctx_t) (d : db) (es : list event) (g : process Q) : Prop := {
  po_log : exists a', lq_rep (r_log (mem g)) a'
    /\ forall t, t <> INVALID_LOG -> msgs t a ++ puts t es = takes t es ++ msgs t a';
  po_db : replay es d = Ret (r_db (mem g));
  po_worker : (0 < length (pool g))%nat;
  po_threads : forall i body t, pool g !! i = Some (body, t) ->
    (forall n, good false (role_of i) (body n))
    /\ exists r, good (bool_decide (storage_lock g = Some i)) r t
         /\ if decide (i = 0)%nat then r <> Other /\ takes NORMAL es = finished es ++ held r else r = Other
}.

Lemma puts_app t es es' : puts t (es ++ es') = puts t es ++ puts t es'.
Proof. apply omap_app. Qed.
Lemma takes_app t es es' : takes t (es ++ es') = takes t es ++ takes t es'.
Proof. apply omap_app. Qed.
Lemma finished_app es es' : finished (es ++ es') = finished es ++ finished es'.
Proof. apply omap_app. Qed.

(** An event of the worker keeps its account; the other threads have none. *)
Lemma role_account r e r' es : role_after r e r' -> r <> Other ->
  takes NORMAL es = finished es ++ held r ->
  r' <> Other /\ takes NORMAL (es ++ e) = finished (es ++ e) ++ held r'.
Proof.
  intros Hr Hn He. rewrite takes_app, finished_app, He. destruct e as [|e [|]]; [|inversion Hr; subst|done].
  { simpl in Hr. subst. by rewrite !app_nil_r. }
  all: split; [done|]; cbn; by rewrite ?app_nil_r.
Qed.

Lemma role_other e r' : role_after Other e r' -> r' = Other /\ takes NORMAL e = [] /\ finished e = [].
Proof. destruct e as [|e [|]]; [by intros ->| |done]. by inversion 1. Qed.

(** The account of a whole process, from that of the thread that moved. *)
Lemma threads_ok a d es e i body t t' w l new (g : process Q) :
  process_ok a d es g -> pool g !! i = Some (body, t) ->
  (exists a', lq_rep (r_log w) a'
     /\ forall t, t <> INVALID_LOG -> msgs t a ++ puts t (es ++ e) = takes t (es ++ e) ++ msgs t a') ->
  replay (es ++ e) d = Ret (r_db w) ->
  (forall j, j <> i -> bool_decide (l = Some j) = bool_decide (storage_lock g = Some j)) ->
  Forall (fun p => (forall n, good false Other (p.1 n)) /\ good false Other p.2) new ->
  (forall j, (length (pool g) <= j)%nat -> l <> Some j) ->
  (forall r, (r = Other <-> i <> 0%nat) -> good (bool_decide (storage_lock g = Some i)) r t ->
     exists r', role_after r e r' /\ good (bool_decide (l = Some i)) r' t') ->
  process_ok a d (es ++ e) (moved i body t' w l new g).
Proof.
  intros [Hlog Hdb Hw Hth] Hi Hlog' Hdb' Hl Hnew Hlen Hstep.
  destruct (Hth i body t Hi) as (Hbody & r & Hr & Hacc).
  destruct (Hstep r) as (r' & Hr' & Hgood); [|exact Hr|].
  { destruct (decide (i = 0)%nat); [|done]. by destruct Hacc as [? _]. }
  constructor; cbn [mem storage_lock pool moved]; [done|done| |].
  { rewrite length_app, length_insert. lia. }
  intros j bj tj Hj. apply lookup_app_Some in Hj as [Hj|[Hlj Hj]].
  - destruct (decide (j = i)) as [->|Hne].
    + rewrite list_lookup_insert_eq in Hj by (by eapply lookup_lt_Some). injection Hj as <- <-.
      split; [done|]. exists r'. split; [done|]. case_decide.
      * destruct Hacc. by eapply role_account.
      * subst r. by apply role_other in Hr' as [-> _].
    + rewrite list_lookup_insert_ne in Hj by done. destruct (Hth j bj tj Hj) as (Hb & rj & Hg & Ha).
      split; [done|]. exists rj. rewrite Hl by done. split; [done|]. case_decide; [|done]. subst j.
      rewrite decide_False in Hacc by done. subst r. apply role_other in Hr' as (_ & H1 & H2).
      destruct Ha as [? Ha]. by rewrite takes_app, finished_app, H1, H2, !app_nil_r.
  - rewrite length_insert in Hlj. rewrite Forall_lookup in Hnew. specialize (Hnew _ _ Hj) as [Hb Ht].
    unfold role_of. rewrite !decide_False by lia. split; [done|]. exists Other.
    rewrite bool_decide_false by (apply Hlen; lia). by rewrite decide_False by lia.
Qed.

(** The owner of the lock is a thread. *)
Definition owner_ok (g : process Q) : Prop :=
  forall j, (length (pool g) <= j)%nat -> storage_lock g <> Some j.

Lemma run_thread_ok a d es e i body t (g g' : process Q) : process_ok a d es g -> owner_ok g ->
  pool g !! i = Some (body, t) -> run_thread i body t g = Some (e, g') ->
  process_ok a d (es ++ e) g' /\ owner_ok g'.
Proof.
  intros Hg Ho Hi E. pose proof (po_log _ _ _ _ Hg) as Hlog. pose proof (po_db _ _ _ _ Hg) as Hdb.
  pose proof (lookup_lt_Some _ _ _ Hi) as Hlt.
  assert (forall l new t' w, (l = storage_lock g \/ l = None \/ l = Some i) -> owner_ok (moved i body t' w l new g)) as Hown.
  { intros l new t' w Hl j Hj. cbn [pool moved storage_lock] in *. rewrite length_app, length_insert in Hj.
    destruct Hl as [->|[->| ->]]; [apply Ho; lia|done|]. intros [= ->]. lia. }
  assert (forall l, (l = storage_lock g \/ l = None \/ l = Some i) ->
    forall j, (length (pool g) <= j)%nat -> l <> Some j) as Hlen.
  { intros l Hl j Hj. apply (Hown l [] t (mem g) Hl j). cbn [pool moved]. by rewrite app_nil_r, length_insert. }
  destruct t as [|n|x B f ev k|k|k|new k]; cbn [run_thread] in E; [done|..].
  - injection E as <- <-. split; [|apply Hown; auto].
    eapply threads_ok; try done; rewrite ?app_nil_r; [done|done|].
    intros r Hri [Ho' Hr]. exists r. split; [done|]. rewrite Ho'.
    destruct (po_threads _ _ _ _ Hg i body _ Hi) as (Hb & _). specialize (Hb n). unfold role_of in Hb.
    case_decide; [|by rewrite (proj2 Hri)]. destruct r; [by destruct (proj1 Hri)|done|done].
  - destruct (f (mem g)) as [[b w]| | |] eqn:Ef; [|done..]. injection E as <- <-.
    destruct (po_threads _ _ _ _ Hg i body _ Hi) as (_ & r0 & (_ & Hact & _) & _).
    split; [|apply Hown; auto]. eapply threads_ok; try done.
    + destruct Hlog as (a1 & Ha1 & Hm). destruct (act_log _ _ Hact _ _ _ _ Ha1 Ef) as (a2 & Ha2 & Hm2).
      exists a2. split; [done|]. intros t Ht.
      by rewrite puts_app, takes_app, app_assoc, Hm, <- !app_assoc, Hm2.
    + rewrite replay_app, Hdb, bind_ret_l. by apply (act_db _ _ Hact).
    + intros r _ (_ & _ & Hr). by apply Hr.
  - destruct (storage_lock g) as [o|] eqn:El; [done|]. injection E as <- <-.
    split; [|apply Hown; auto]. eapply threads_ok; try done; rewrite ?app_nil_r; [done|done| |by apply Hlen; auto|].
    + intros j Hj. rewrite El, !bool_decide_false by congruence. done.
    + intros r _ [_ Hr]. exists r. by rewrite bool_decide_true.
  - injection E as <- <-. split; [|apply Hown; auto].
    destruct (po_threads _ _ _ _ Hg i body _ Hi) as (_ & r0 & [Ho' _] & _). apply bool_decide_eq_true in Ho'.
    eapply threads_ok; try done; rewrite ?app_nil_r; [done|done| |].
    + intros j Hj. rewrite Ho', !bool_decide_false by congruence. done.
    + intros r _ [_ Hr]. by exists r.
  - injection E as <- <-. split; [|apply Hown; auto].
    destruct (po_threads _ _ _ _ Hg i body _ Hi) as (_ & r0 & [Hnew _] & _).
    eapply threads_ok; try done; rewrite ?app_nil_r; [done|done| |].
    + constructor; [split; [exact Hnew|apply Hnew]|constructor].
    + intros r _ [_ Hr]. by exists r.
Qed.

Definition runs := server_runs status_ptr pid can_create server_id env junk.
Definition server_workers (w : replica Q) : process Q :=
  workers malloc sha1 sfuel status_ptr pid can_create server_id env junk w.

Lemma schedule_ok a d sched : forall es g e g', process_ok a d es g -> owner_ok g ->
  runs sched g = Some (e, g') -> process_ok a d (es ++ e) g'.
Proof.
  induction sched as [|ch sched IH]; intros es g e g' Hg Ho E; cbn in E.
  { injection E as <- <-. by rewrite app_nil_r. }
  destruct (step _ ch g) as [[e1 g1]|] eqn:E1; [|done]. cbn in E.
  destruct (runs sched g1) as [[e2 g2]|] eqn:E2; [|done]. injection E as <- <-.
  rewrite app_assoc. assert (process_ok a d (es ++ e1) g1 /\ owner_ok g1) as [Hg1 Ho1]; [|by eapply IH].
  destruct ch as [i|c file]; cbn [step] in E1.
  - destruct (pool g !! i) as [[body t]|] eqn:Ei; [|done]. by eapply run_thread_ok.
  - injection E1 as <- <-. rewrite app_nil_r. split.
    + destruct Hg as [H1 H2 H3 H4]. constructor; cbn [mem storage_lock pool]; [done|done| |].
      { rewrite length_app. lia. }
      intros i body t Hi. apply lookup_app_Some in Hi as [Hi|[Hl Hi]]; [by apply H4|].
      apply list_lookup_singleton_Some in Hi as [Hi [= <- <-]]. unfold role_of. rewrite !decide_False by lia.
      split; [by intros|]. exists Other. rewrite bool_decide_false, decide_False by (apply Ho || idtac; lia).
      split; [apply connection_good|done].
    + intros j Hj. cbn [pool storage_lock] in *. rewrite length_app in Hj. apply Ho. lia.
Qed.

Lemma workers_ok a w : lq_rep (r_log w) a -> process_ok a (r_db w) [] (server_workers w) /\ owner_ok (server_workers w).
Proof.
  intros Ha. split; [|by intros j Hj]. constructor; cbn; [|done|lia|].
  - exists a. split; [done|]. intros t _. by rewrite app_nil_r.
  - intros i body t Hi. destruct i as [|[|i]]; [| |done]; injection Hi as <- <-.
    + split; [intros n; by apply (run_body_good NORMAL n)|]. by exists Idle.
    + split; [intros n; by apply (run_body_good CONTROL n)|]. by exists Other.
Qed.

(** What the next access of a thread does to the table. *)
Definition next_access (t : thread Q) : access := match t with Act x _ _ _ _ => x | _ => Plain end.
End History.

(** C5: what the threads of a server do under every schedule of their accesses,
    with any number of connections that have read any requests. From the start
    of the workers, whatever the scheduler does:
    - the messages of each queue of the log leave it in the order in which they
      were accepted, none is lost and none is taken twice;
    - the normal worker executes or frees exactly the requests it takes, in
      that order, and is never more than one behind;
    - the table and the files are those of the sequential execution of these
      requests, the exports and the payloads, in the order of the events;
    - of two threads never both are about to execute a request or to export the
      table: [storage_lock] excludes one of them. *)
Theorem every_schedule_serializes {Q} `{FifoLog Q client_ctx_t} malloc sha1 sfuel status_ptr pid can_create
    server_id env junk sched (w : replica Q) a es g :
  lq_rep (r_log w) a ->
  runs status_ptr pid can_create server_id env junk sched
    (server_workers malloc sha1 sfuel status_ptr pid can_create server_id env junk w) = Some (es, g) ->
  (exists a', lq_rep (r_log (mem g)) a'
     /\ forall t, t <> INVALID_LOG -> msgs t a ++ puts t es = takes t es ++ msgs t a')
  /\ (exists rest, takes NORMAL es = finished es ++ rest /\ (length rest <= 1)%nat)
  /\ replay malloc sha1 sfuel status_ptr pid can_create es (r_db w) = Ret (r_db (mem g))
  /\ forall i j bi bj ti tj, i <> j -> pool g !! i = Some (bi, ti) -> pool g !! j = Some (bj, tj) ->
     ~ ((next_access ti = AStorage \/ next_access ti = AExport)
        /\ (next_access tj = AStorage \/ next_access tj = AExport)).
Proof.
  intros Ha E. destruct (workers_ok malloc sha1 sfuel status_ptr pid can_create server_id env junk a w Ha) as [Hg Ho].
  pose proof (schedule_ok malloc sha1 sfuel status_ptr pid can_create server_id env junk a _ sched [] _ es g Hg Ho E)
    as [Hlog Hdb Hw Hth].
  split; [exact Hlog|]. split; [|split; [exact Hdb|]].
  - destruct (lookup_lt_is_Some_2 (pool g) 0 Hw) as [[body t] H0].
    destruct (Hth 0%nat body t H0) as (_ & r & _ & Hr). cbn in Hr. destruct Hr as [_ Hr].
    exists (held r). split; [exact Hr|]. destruct r; cbn; lia.
  - assert (forall i b t, pool g !! i = Some (b, t) -> next_access t = AStorage \/ next_access t = AExport ->
      storage_lock g = Some i) as Howner.
    { intros i b t Hi Hx. destruct (Hth i b t Hi) as (_ & r & Hr & _).
      destruct t; cbn in Hx; try by destruct Hx. destruct Hr as [Hown _]. by apply bool_decide_eq_true in Hown. }
    intros i j bi bj ti tj Hij Hi Hj [Hx Hy].
    pose proof (Howner i bi ti Hi Hx). pose proof (Howner j bj tj Hj Hy). congruence.
Qed.

(** A server that gets an addition while its worker is running. *)
Definition demo_schedule : list choice :=
  [Run 0; Arrive (bread_add 3) None; Run 2; Run 0; Run 2; Run 2; Run 0; Run 0; Run 0; Run 0; Run 0; Run 0; Run 0;
   Run 0; Run 0; Run 0; Run 0].
Definition demo_run : option (list event * process (MsgLog.log_mem (V := client_ctx_t))) :=
  runs (fun _ => 0) 0 (fun _ => true) 1 (fun _ => {| socket_ret := 5; connect_ret := 0; write_ret := 8192 |}) []
    demo_schedule
    (server_workers dirty_malloc demo_sha1 1 (fun _ => 0) 0 (fun _ => true) 1
       (fun _ => {| socket_ret := 5; connect_ret := 0; write_ret := 8192 |}) [] (replica_init demo_log)).

Lemma every_schedule_serializes_witness : exists es g, demo_run = Some (es, g)
  /\ finished es = [bread_add 3] /\ puts NORMAL es = [bread_add 3]
  /\ replay dirty_malloc demo_sha1 1 (fun _ => 0) 0 (fun _ => true) es db_init = Ret (r_db (mem g)).
Proof.
  assert (finished (default [] (fst <$> demo_run)) = [bread_add 3]) as Hf by (by vm_compute).
  assert (puts NORMAL (default [] (fst <$> demo_run)) = [bread_add 3]) as Hp by (by vm_compute).
  destruct demo_run as [[es g]|] eqn:E; [|done]. exists es, g. split; [done|]. split; [exact Hf|]. split; [exact Hp|].
  exact (proj1 (proj2 (proj2 (every_schedule_serializes dirty_malloc demo_sha1 1 (fun _ => 0) 0 (fun _ => true) 1
    (fun _ => {| socket_ret := 5; connect_ret := 0; write_ret := 8192 |}) [] demo_schedule (replica_init demo_log)
    (abs_init 50 50) es g (MsgLog.log_rep_init 50 50) E)))).
Defined.
