(* ===== verification/Grain.v ===== *)
(** The coarse steps of [Server], [Worker] and [System] are schedules of the
    threads of [Threads]: a thread that moves alone does what the coarse
    definition says. *)
From S2P Require Import Prelude CLib Iface Util Fifo Control Db Storage Replica Server Worker Threads.
From S2P Require Import Interleave.
From S2P Require MsgLog.

Section Grain.
Context {Q : Type} `{FifoLog Q client_ctx_t}.
Variable malloc : nat -> option data_point.
Variable sha1 : bytes -> option bytes.
Variable sfuel : nat.
Variable status_ptr : Z -> Z.
Variable pid : Z.
Variable can_create : bytes -> bool.
Variable server_id : Z.
Variable env : nat -> net_step.
Variable junk : bytes.

(** What a thread sees of the process: the shared state, the lock, and what is
    left of its own turn. *)
Definition point : Type := replica Q * option nat * thread Q.

Definition at_point (i : nat) (body : Z -> thread Q) (p : point) (g : process Q) : Prop :=
  mem g = p.1.1 /\ storage_lock g = p.1.2 /\ pool g !! i = Some (body, p.2).

(** Some moves of thread [i], and of no other, lead from [p] to [p']; the other
    threads are where they were. *)
Definition alone (i : nat) (body : Z -> thread Q) (p p' : point) : Prop :=
  forall g, at_point i body p g ->
  exists n es g', runs status_ptr pid can_create server_id env junk (replicate n (Run i)) g = Some (es, g')
    /\ at_point i body p' g'
    /\ forall j t, j <> i -> pool g !! j = Some t -> pool g' !! j = Some t.

Lemma alone_refl i body p : alone i body p p.
Proof. intros g Hg. exists 0%nat, [], g. done. Qed.

(** The first move of the thread. *)
Lemma alone_step i body w l t p1 p' :
  (forall g, mem g = w -> storage_lock g = l -> exists e new,
     run_thread i body t g = Some (e, moved i body p1.2 p1.1.1 p1.1.2 new g)) ->
  alone i body p1 p' -> alone i body (w, l, t) p'.
Proof.
  intros Hs Ht g (Hm & Hl & Hi). cbn [fst snd] in *. destruct (Hs g Hm Hl) as (e & new & E).
  pose proof (lookup_lt_Some _ _ _ Hi) as Hlt.
  destruct (Ht (moved i body p1.2 p1.1.1 p1.1.2 new g)) as (n & es & g' & E' & Hp & Ho).
  { split; [done|]. split; [done|]. cbn [pool moved].
    rewrite lookup_app_l by (by rewrite length_insert). by rewrite list_lookup_insert_eq. }
  exists (S n), (e ++ es), g'. split; [|split; [done|]].
  - cbn [replicate]. unfold runs, server_runs. cbn [schedule step]. rewrite Hi. cbn [mbind option_bind].
    rewrite E. unfold runs, server_runs in E'. cbn [mbind option_bind]. by rewrite E'.
  - intros j t0 Hj Hjt. apply Ho; [done|]. cbn [pool moved].
    rewrite lookup_app_l by (rewrite length_insert; by eapply lookup_lt_Some).
    by rewrite list_lookup_insert_ne.
Qed.

Lemma alone_again i body w l n p' : alone i body (w, l, body n) p' -> alone i body (w, l, Again n) p'.
Proof.
  intros H1. eapply alone_step; [|exact H1]. intros g <- <-. exists [], []. done.
Qed.

Lemma alone_act i body w l x B f ev k b w1 p' : f w = Ret (b, w1) ->
  alone i body (w1, l, k b) p' -> alone i body (w, l, Act x B f ev k) p'.
Proof.
  intros E H1. eapply alone_step; [|exact H1]. intros g <- <-. exists (ev b), []. cbn [run_thread]. by rewrite E.
Qed.

Lemma alone_lock i body w k p' : alone i body (w, Some i, k) p' -> alone i body (w, None, Lock k) p'.
Proof.
  intros H1. eapply alone_step; [|exact H1]. intros g <- Hl. exists [], []. cbn [run_thread]. by rewrite Hl.
Qed.

Lemma alone_unlock i body w l k p' : alone i body (w, None, k) p' -> alone i body (w, l, Unlock k) p'.
Proof.
  intros H1. eapply alone_step; [|exact H1]. intros g <- _. exists [], []. done.
Qed.

Lemma alone_fork i body w l new k p' : alone i body (w, l, k) p' -> alone i body (w, l, Fork new k) p'.
Proof.
  intros H1. eapply alone_step; [|exact H1]. intros g <- <-. exists [], [(new, new 0)]. done.
Qed.

Lemma alone_load i body w l {B} (f : replica Q -> B) k p' : alone i body (w, l, k (f w)) p' ->
  alone i body (w, l, load f k) p'.
Proof. by apply alone_act. Qed.

Lemma alone_store i body w l f k p' : alone i body (f w, l, k) p' -> alone i body (w, l, store f k) p'.
Proof. by apply (alone_act i body w l Plain unit (fun w => Ret (tt, f w)) quiet (fun _ => k) tt). Qed.

Lemma alone_test i body w l m s k p' :
  alone i body (w, l, k ((get_mode (r_ctl w) =? m) && (get_state (r_ctl w) =? s))) p' ->
  alone i body (w, l, test m s k) p'.
Proof.
  intros H1. apply alone_load. destruct (get_mode (r_ctl w) =? m); [|done]. by apply alone_load.
Qed.

(** ** The programs, each against its coarse definition *)

Lemma start_alone i body w l k p' :
  alone i body (set_r_ctl (start_ckhpt_thread (r_ctl w)) w, l, k) p' ->
  alone i body (w, l, start_ckhpt_thread_t status_ptr pid can_create server_id env junk k) p'.
Proof.
  intros H1. apply alone_load. unfold start_ckhpt_thread in H1. case_if; [by destruct w|].
  by apply alone_fork, alone_store.
Qed.

(** Without a checkpoint thread nothing is waited for. *)
Lemma set_state_alone i body w l s k c p' : set_state s (r_ctl w) = Ret c ->
  (s = PASSIVE_BACKUP -> is_chkpt_thrd_running (r_ctl w) <> 1) ->
  alone i body (set_r_ctl c w, l, k) p' ->
  alone i body (w, l, set_state_t status_ptr pid can_create server_id env junk s k) p'.
Proof.
  intros E Hrun H1. unfold set_state, c_assert in E. unfold set_state_t. apply alone_load.
  destruct (negb (rep_mode (r_ctl w) =? UNKNOWN_REP)); [|done]. rewrite bind_ret_l in E. cbn [require].
  apply alone_load. cbv zeta.
  match goal with |- context [if _ =? ACTIVE_REP then require _ ?r else _] => set (rest := r) end.
  assert (forall c', (c ← (if rep_mode (r_ctl w) =? PASSIVE_REP then
         if s =? PASSIVE_PRIMARY then Ret (start_ckhpt_thread (r_ctl w))
         else if s =? PASSIVE_BACKUP then kill_chkpt_thrd_if_running (r_ctl w)
         else Ret (r_ctl w)
       else Ret (r_ctl w)); Ret (upd_state s c)) = Ret c' -> c' = c -> alone i body (w, l, rest) p') as Hrest.
  { intros c' Ec ->. unfold rest. apply alone_load. 
    assert (forall w1, set_r_ctl (upd_state s (r_ctl w1)) w1 = set_r_ctl c w ->
      alone i body (w1, l, store_ctl (upd_state s) k) p') as Hlast
      by (intros w1 E1; apply alone_store; by rewrite E1).
    destruct (rep_mode (r_ctl w) =? PASSIVE_REP); [|apply Hlast; by injection Ec as <-].
    destruct (s =? PASSIVE_PRIMARY); [|destruct (s =? PASSIVE_BACKUP) eqn:Eb].
    - apply start_alone, Hlast. by injection Ec as <-.
    - zbool. apply alone_load. unfold kill_chkpt_thrd_if_running in Ec.
      rewrite (proj2 (Z.eqb_neq _ 1)) in * by auto. apply Hlast. by injection Ec as <-.
    - apply Hlast. by injection Ec as <-. }
  destruct (rep_mode (r_ctl w) =? ACTIVE_REP).
  - destruct (s =? ACTIVE_RUNNING), (s =? ACTIVE_RECOVER), (s =? QUIESCE); cbn [negb andb orb require] in *;
      rewrite ?bind_ret_l in E; try done; by apply (Hrest c).
  - apply alone_load. destruct (rep_mode (r_ctl w) =? PASSIVE_REP); [|by apply (Hrest c)].
    destruct (s =? PASSIVE_PRIMARY), (s =? PASSIVE_BACKUP), (s =? PASSIVE_PREPRIMARY);
      cbn [negb andb orb require] in *; rewrite ?bind_ret_l in E; try done; by apply (Hrest c).
Qed.

Lemma execute_alone i body w k c w' p' : execute_msg malloc sha1 sfuel c w = Ret w' ->
  alone i body (w', None, k) p' ->
  alone i body (w, None, execute_msg_t malloc sha1 sfuel status_ptr pid can_create server_id env junk c k) p'.
Proof.
  intros E H1. unfold execute_msg in E. apply bind_Ret_inv in E as (w1 & E1 & E).
  unfold execute_msg_t. cbv zeta. apply alone_lock, alone_test.
  match goal with |- context [set_state_t _ _ _ _ _ _ _ ?s] => set (storage := s) end.
  assert (alone i body (w1, Some i, storage) p') as Hst.
  { apply bind_Ret_inv in E as ([[ret c'] d] & Ed & E). cbv beta iota zeta in E. injection E as <-.
    unfold storage, storage_t. eapply alone_act; [by rewrite Ed|]. cbn [fst snd].
    assert (forall w2, alone i body (close_fd (cc_fd c') (reply c' ⟦"OK"⟧ ⟦"Success"⟧ w2), None, k) p' ->
      alone i body (w2, Some i, Unlock (reply_t c' ⟦"OK"⟧ ⟦"Success"⟧ (close_t (cc_fd c') k))) p') as Hdone
      by (intros w2 H2; by apply alone_unlock, alone_store, alone_store).
    destruct (negb (ret =? 0)); [apply alone_store|];
      (destruct (negb (msg_type (req c') =? MSG_HEARTBEAT)); [apply alone_load, alone_store|]); by apply Hdone. }
  unfold is_preprimary in E1.
  destruct ((get_mode (r_ctl w) =? PASSIVE_REP) && (get_state (r_ctl w) =? PASSIVE_PREPRIMARY)); cbn [andb].
  - destruct (negb (is_backlog c)); [|by injection E1 as <-].
    unfold on_ctl in E1. apply bind_Ret_inv in E1 as (c1 & E1 & [= <-]).
    by eapply set_state_alone; [exact E1|done|].
  - by injection E1 as <-.
Qed.

Lemma put_alone i body w l c t k ret q p' : lq_put (r_log w) c t = Ret (ret, q) ->
  alone i body (set_r_log q w, l, k ret) p' -> alone i body (w, l, put_t c t k) p'.
Proof. intros E H1. eapply alone_act; [by rewrite E|done]. Qed.

Lemma take_alone i body w l t k o q p' : lq_take (r_log w) t = Ret (o, q) ->
  alone i body (set_r_log q w, l, k o) p' -> alone i body (w, l, take_t t k) p'.
Proof. intros E H1. eapply alone_act; [by rewrite E|done]. Qed.

Lemma count_alone i body w l t k n q p' : lq_count (r_log w) t = Ret (n, q) ->
  alone i body (set_r_log q w, l, k n) p' -> alone i body (w, l, count_t t k) p'.
Proof. intros E H1. eapply alone_act; [by rewrite E|done]. Qed.

Lemma quiesce_alone i body w l t k ret c p' : handle_quiesce_command t (r_ctl w) = Ret (ret, c) ->
  is_chkpt_thrd_running (r_ctl w) <> 1 -> alone i body (set_r_ctl c w, l, k ret) p' ->
  alone i body (w, l, handle_quiesce_command_t status_ptr pid can_create server_id env junk t k) p'.
Proof.
  intros E Hrun H1. unfold handle_quiesce_command in E. unfold handle_quiesce_command_t.
  destruct (t =? MSG_QUIESCE_START); [|destruct (t =? MSG_QUIESCE_STOP)].
  - apply bind_Ret_inv in E as (c1 & E & [= <- <-]). unfold put_in_quiesence in E.
    apply alone_load, alone_store. by eapply set_state_alone; [exact E|done|].
  - apply bind_Ret_inv in E as (c1 & E & [= <- <-]). unfold remove_from_quiesence in E.
    apply bind_Ret_inv in E as (c2 & E & [= <-]).
    apply alone_load. eapply set_state_alone; [exact E|done|]. by apply alone_load, alone_store.
  - injection E as <- <-. by destruct w.
Qed.

Lemma dispatch_alone i body w c ret w' : dispatch_request c w = Ret (ret, w') ->
  is_chkpt_thrd_running (r_ctl w) <> 1 ->
  alone i body (w, None, dispatch_request_t status_ptr pid can_create server_id env junk c) (w', None, Halt).
Proof.
  intros E Hrun. unfold dispatch_request in E. unfold dispatch_request_t. cbv zeta in *.
  destruct ((msg_type (req c) =? MSG_QUIESCE_STOP) || (msg_type (req c) =? MSG_QUIESCE_START)).
  - apply bind_Ret_inv in E as ([r k] & E1 & E). eapply quiesce_alone; [exact E1|done|].
    apply alone_store. unfold exit_connection in E.
    destruct (negb (r =? 0)); injection E as <- <-; apply alone_refl.
  - apply bind_Ret_inv in E as ([r w1] & E1 & E). unfold enqueue_client_req in E1. cbv zeta in E1.
    apply bind_Ret_inv in E1 as ([r' q] & E1 & [= <- <-]). unfold enqueue_client_req_t. apply alone_test.
    cbv zeta. set (b := (get_mode (r_ctl w) =? PASSIVE_REP) && (get_state (r_ctl w) =? PASSIVE_BACKUP)) in *.
    change (is_backlog (set_is_backlog b c)) with b in *. change (req (set_is_backlog b c)) with (req c) in *.
    set (c1 := set_is_backlog b c) in *.
    match goal with |- context [put_t c1 _ ?k] => set (after := k) end.
    assert (forall w2, r_ctl w2 = r_ctl w -> lq_put (r_log w2) c1 (log_type (msg_type (req c))) = Ret (r', q) ->
      (if negb (r' =? 0) then exit_connection c (set_r_log q w2)
       else if (get_mode (r_ctl (set_r_log q w2)) =? ACTIVE_REP) && (get_state (r_ctl (set_r_log q w2)) =? ACTIVE_RECOVER)
                && negb (msg_type (req c) =? MSG_HEARTBEAT) && negb (msg_type (req c) =? MSG_REP_MGR)
            then Ret (0, set_closed (closed (set_r_log q w2) ++ [cc_fd c]) (set_r_log q w2))
            else Ret (0, set_r_log q w2)) = Ret (ret, w') ->
      alone i body (w2, None, put_t c1 (log_type (msg_type (req c))) after) (w', None, Halt)) as Hput.
    { intros w2 Hk Ep Er. eapply put_alone; [exact Ep|]. unfold after. unfold exit_connection in Er.
      destruct (negb (r' =? 0)); [injection Er as _ <-; by apply alone_store, alone_refl|].
      apply alone_test. cbv beta. match type of Er with (if ?b then _ else _) = _ => destruct b end;
        injection Er as _ <-; [by apply alone_store, alone_refl|by apply alone_refl]. }
    destruct ((msg_type (req c) =? MSG_CHK_PT) && b); [apply alone_store|];
      (apply Hput; [done|exact E1|exact E]).
Qed.

(** ** Checkpoints and the control worker *)

Lemma write_check_point_alone i body w l b name k r w' p' : write_check_point server_id env b name w = Ret (r, w') ->
  alone i body (w', l, k) p' -> alone i body (w, l, write_check_point_t server_id env b name k) p'.
Proof.
  intros E H1. unfold write_check_point in E. unfold write_check_point_t. apply alone_load. cbn [fst snd].
  destruct (files (r_db w) !! name) as [content|]; [|by injection E as _ <-].
  apply bind_Ret_inv in E as (text & Et & E). eapply alone_act; [by rewrite Et|]. cbv zeta in E.
  destruct (write_ret (env (attempts (net_out w))) <? 0) eqn:Ew.
  - injection E as _ <-. eapply alone_act; [|exact H1]. cbv zeta. by rewrite Ew.
  - apply bind_Ret_inv in E as ([bs calls] & Ec & [= _ <-]). eapply alone_act; [|exact H1].
    cbv zeta. by rewrite Ew, Ec.
Qed.

Lemma send_to_alone i body w l which name k w' p' : send_to server_id env (which (r_ctl w)) name w = Ret w' ->
  alone i body (w', l, k) p' -> alone i body (w, l, send_to_t server_id env which name k) p'.
Proof.
  intros E H1. unfold send_to in E. unfold send_to_t. apply alone_load.
  destruct (0 <=? bs_fd (which (r_ctl w))); [|by injection E as <-].
  apply bind_Ret_inv in E as ([r w1] & Ew & [= <-]).
  eapply write_check_point_alone; [exact Ew|]. by apply alone_store.
Qed.

Lemma send_checkpoint_alone i body w k w' p' :
  send_checkpoint_ondemand status_ptr pid can_create server_id env junk w = Ret w' ->
  alone i body (w', None, k) p' ->
  alone i body (w, None, send_checkpoint_t status_ptr pid can_create server_id env junk k) p'.
Proof.
  intros E H1. unfold send_checkpoint_ondemand in E. cbv zeta in E. unfold send_checkpoint_t.
  do 2 apply alone_store. apply alone_lock.
  apply bind_Ret_inv in E as ([name d] & Ed & E). eapply alone_act; [exact (f_equal _ Ed)|].
  apply alone_unlock. apply bind_Ret_inv in E as (n & En & E). eapply alone_act; [by rewrite En|].
  apply bind_Ret_inv in E as (w1 & E1 & E). eapply send_to_alone; [exact E1|].
  apply bind_Ret_inv in E as (w2 & E2 & [= <-]). eapply send_to_alone; [exact E2|].
  by apply alone_load, alone_store.
Qed.

Lemma handle_rep_msg_alone i body w l m k c p' : handle_rep_msg m (r_ctl w) = Ret c ->
  is_chkpt_thrd_running (r_ctl w) <> 1 -> alone i body (set_r_ctl c w, l, k) p' ->
  alone i body (w, l, handle_rep_msg_t status_ptr pid can_create server_id env junk m k) p'.
Proof.
  intros E Hrun H1. unfold handle_rep_msg in E. unfold handle_rep_msg_t. cbv zeta in *. apply alone_load.
  match goal with |- context [set_mode_t _ ?r] => set (rest := r) end.
  assert (forall w1, r_log w1 = r_log w -> is_chkpt_thrd_running (r_ctl w1) <> 1 -> set_r_ctl c w1 = set_r_ctl c w ->
    (c ← kill_chkpt_thrd_if_running (r_ctl w1);
     set_state (rm_server_state m) (set_checkpoint_freq (rm_checkpoint_freq m)
       (set_bckup_servers (rm_bckup_svr_0 m) (rm_bckup_svr_1 m) c))) = Ret c ->
    alone i body (w1, l, rest) p') as Hrest.
  { intros w1 _ Hr1 Ew E1. unfold rest. apply alone_load. unfold kill_chkpt_thrd_if_running in E1.
    rewrite (proj2 (Z.eqb_neq _ 1) Hr1) in *. rewrite bind_ret_l in E1. do 2 apply alone_store.
    eapply set_state_alone; [exact E1|done|]. exact (eq_ind_r (fun x => alone i body (x, l, k) p') H1 Ew). }
  destruct (get_mode (r_ctl w) =? UNKNOWN_REP); [|by apply Hrest].
  apply bind_Ret_inv in E as (c1 & E1 & E). unfold set_mode, c_assert in E1. unfold set_mode_t. apply alone_load.
  destruct (rep_mode (r_ctl w) =? UNKNOWN_REP); [|done]. rewrite bind_ret_l in E1. cbn [require].
  destruct ((UNKNOWN_REP <? rm_rep_mode m) && (rm_rep_mode m <=? PASSIVE_REP)); [|done].
  injection E1 as <-. cbn [require]. by apply alone_store, Hrest.
Qed.

Lemma execute_ctrl_alone i body w c k w' p' :
  execute_msg_ctrl status_ptr pid can_create server_id env junk c w = Ret w' ->
  is_chkpt_thrd_running (r_ctl w) <> 1 -> alone i body (w', None, k) p' ->
  alone i body (w, None, execute_msg_ctrl_t status_ptr pid can_create server_id env junk c k) p'.
Proof.
  intros E Hrun H1. unfold execute_msg_ctrl in E. cbv zeta in E. apply bind_Ret_inv in E as (w1 & E1 & [= <-]).
  unfold execute_msg_ctrl_t. cbv zeta.
  match goal with |- context [handle_rep_msg_t _ _ _ _ _ _ _ ?d] => set (done := d) end.
  assert (alone i body (w1, None, done) p') as Hd by by apply alone_store, alone_store.
  destruct (msg_type (req c) =? MSG_REP_MGR).
  - unfold on_ctl in E1. apply bind_Ret_inv in E1 as (k1 & E1 & [= <-]).
    by eapply handle_rep_msg_alone.
  - destruct (msg_type (req c) =? MSG_HEARTBEAT); [by injection E1 as <-|].
    destruct (msg_type (req c) =? MSG_SEND_CHKPT); [|by injection E1 as <-].
    apply alone_load. destruct (negb (prev_state (r_ctl w) =? ACTIVE_RECOVER)); [|by injection E1 as <-].
    by eapply send_checkpoint_alone.
Qed.

(** ** An iteration of a worker *)

Definition hn := execute_msg (Q := Q) malloc sha1 sfuel.
Definition hc := execute_msg_ctrl (Q := Q) status_ptr pid can_create server_id env junk.
Definition body_of := run_body (Q := Q) malloc sha1 sfuel status_ptr pid can_create server_id env junk.

(** [run] without the pruning. *)
Definition run_after (prio : log_msg_type) (w : replica Q) : outcome (replica Q) :=
  let normal := bool_decide (prio = NORMAL) in
  if (is_prune w =? 0) && should_nrl_thrd_sleep (r_ctl w) && normal then Ret w
  else
    '(n_count, q) ← (if normal then lq_count (r_log w) NORMAL else Ret (0, r_log w));
    '(c_count, q) ← (if bool_decide (prio = CONTROL) then lq_count q CONTROL else Ret (0, q));
    let w := set_r_log q w in
    w ← (if normal && is_preprimary (r_ctl w) && (n_count =? 0)
         then on_ctl (set_state PASSIVE_PRIMARY) w else Ret w);
    if (n_count =? 0) && (c_count =? 0) then Ret w
    else
      w ← (if negb (c_count =? 0) then
             '(o, q) ← lq_take (r_log w) CONTROL;
             let w := set_r_log q w in
             match o with Some c => hc c w | None => Ret w end
           else Ret w);
      if negb (n_count =? 0) && negb (get_state (r_ctl w) =? QUIESCE) then
        '(o, q) ← lq_take (r_log w) NORMAL;
        let w := set_r_log q w in
        match o with Some c => hn c w | None => Ret w end
      else Ret w.

Lemma run_split fuel prio w : run hn hc fuel prio w
  = (w ← (if bool_decide (prio = NORMAL) && (is_prune w =? 1) then prune_loop hn fuel w else Ret w);
     run_after prio w).
Proof. done. Qed.

Lemma alone_awake i prio w k p' :
  ((is_prune w =? 0) && should_nrl_thrd_sleep (r_ctl w) && bool_decide (prio = NORMAL) = true ->
    alone i (body_of prio) (w, None, Again 0) p') ->
  ((is_prune w =? 0) && should_nrl_thrd_sleep (r_ctl w) && bool_decide (prio = NORMAL) = false ->
    alone i (body_of prio) (w, None, k) p') ->
  alone i (body_of prio) (w, None, load is_prune (fun p =>
    if p =? 0 then test PASSIVE_REP PASSIVE_BACKUP (fun b => if b && bool_decide (prio = NORMAL) then Again 0 else k)
    else k)) p'.
Proof.
  unfold should_nrl_thrd_sleep. intros H1 H2. apply alone_load. destruct (is_prune w =? 0); [|by apply H2].
  apply alone_test. cbn [andb] in *. by destruct (_ && bool_decide _); [apply H1|apply H2].
Qed.

Lemma run_after_normal i w w' : run_after NORMAL w = Ret w' ->
  alone i (body_of NORMAL) (w, None, run_rest_t malloc sha1 sfuel status_ptr pid can_create server_id env junk NORMAL)
    (w', None, Again 0).
Proof.
  intros E. unfold run_after in E. unfold run_rest_t. cbv zeta in *. apply alone_awake; intros Hs;
    rewrite Hs in E; [injection E as <-; apply alone_refl|].
  rewrite !bool_decide_true in * by done. rewrite (bool_decide_false (NORMAL = CONTROL)) in E by done.
  apply bind_Ret_inv in E as ([n q] & En & E). rewrite bind_ret_l in E. cbv beta iota in E.
  eapply count_alone; [exact En|]. apply alone_test.
  match goal with |- context [set_state_t _ _ _ _ _ _ _ ?k] => set (counted := k) end.
  cbn [andb] in E. unfold is_preprimary in E.
  apply bind_Ret_inv in E as (w1 & E1 & E). cbn [Z.eqb negb] in E. rewrite andb_true_r in E.
  assert (alone i (body_of NORMAL) (w1, None, counted) (w', None, Again 0)) as Hc.
  { unfold counted. rewrite andb_true_r. destruct (n =? 0); [injection E as <-; apply alone_refl|].
    cbn [Z.eqb negb andb] in *. rewrite bind_ret_l in E. apply alone_load.
    destruct (negb (get_state (r_ctl w1) =? QUIESCE)); [|injection E as <-; apply alone_refl].
    apply bind_Ret_inv in E as ([o q2] & Eo & E). eapply take_alone; [exact Eo|].
    destruct o as [c|]; [|injection E as <-; apply alone_refl].
    eapply execute_alone; [exact E|apply alone_refl]. }
  match type of E1 with (if ?b then _ else _) = _ => destruct b end; [|by injection E1 as <-].
  unfold on_ctl in E1. apply bind_Ret_inv in E1 as (c1 & E1 & [= <-]). by eapply set_state_alone.
Qed.

Lemma run_after_control i w w' : is_chkpt_thrd_running (r_ctl w) <> 1 -> run_after CONTROL w = Ret w' ->
  alone i (body_of CONTROL) (w, None, run_rest_t malloc sha1 sfuel status_ptr pid can_create server_id env junk CONTROL)
    (w', None, Again 0).
Proof.
  intros Hrun E. unfold run_after in E. unfold run_rest_t. cbv zeta in *. apply alone_awake; intros Hs;
    rewrite Hs in E; [injection E as <-; apply alone_refl|].
  rewrite !(bool_decide_false (CONTROL = NORMAL)) in * by done. rewrite bool_decide_true in E by done.
  rewrite bind_ret_l in E. apply bind_Ret_inv in E as ([n q] & En & E).
  eapply count_alone; [exact En|]. cbv beta iota in E. cbn [andb Z.eqb negb] in *. rewrite bind_ret_l in E.
  destruct (n =? 0); [injection E as <-; apply alone_refl|]. cbn [negb] in *.
  apply bind_Ret_inv in E as (w1 & E & E2). injection E2 as <-.
  apply bind_Ret_inv in E as ([o q2] & Eo & E). eapply take_alone; [exact Eo|].
  destruct o as [c|]; [|injection E as <-; apply alone_refl].
  eapply execute_ctrl_alone; [exact E|done|apply alone_refl].
Qed.

Lemma prune_alone i fuel : forall w w1 w', prune_loop hn fuel w = Ret w1 -> run_after NORMAL w1 = Ret w' ->
  alone i (body_of NORMAL) (w, None, Again 1) (w', None, Again 0).
Proof.
  induction fuel as [|f IH]; intros w w1 w' E Er; [done|]. cbn [prune_loop] in E.
  apply bind_Ret_inv in E as ([o q] & Eo & E). cbv beta iota zeta in E.
  apply alone_again. eapply take_alone; [exact Eo|]. destruct o as [c|]; [|injection E as <-; by apply run_after_normal].
  destruct (negb (msg_type (req c) =? MSG_CHK_PT)).
  - eapply alone_act; [done|]. by eapply IH.
  - apply bind_Ret_inv in E as (w2 & E2 & E). apply alone_store. eapply execute_alone; [exact E2|]. by eapply IH.
Qed.

Lemma run_alone i fuel prio w w' : prio <> INVALID_LOG ->
  (prio = CONTROL -> is_chkpt_thrd_running (r_ctl w) <> 1) -> run hn hc fuel prio w = Ret w' ->
  alone i (body_of prio) (w, None, Again 0) (w', None, Again 0).
Proof.
  intros Hp Hrun E. rewrite run_split in E. apply bind_Ret_inv in E as (w1 & E1 & E). apply alone_again.
  destruct prio; [done|..].
  - apply alone_load. cbn [Z.eqb] in *. rewrite bool_decide_true in E1 by done. cbn [andb] in E1.
    destruct (is_prune w =? 1); [by eapply prune_alone|]. injection E1 as <-. by apply run_after_normal.
  - rewrite bool_decide_false in E1 by done. injection E1 as <-. apply run_after_control; auto.
Qed.

(** ** The checkpoint thread *)

Lemma checkpoint_alone i n w w' : chk_thread (r_ctl w) = Some n ->
  send_checkpoint status_ptr pid can_create server_id env junk w = Ret w' ->
  exists t', (t' = Halt \/ exists n', t' = Again n')
    /\ alone i (checkpoint_body status_ptr pid can_create server_id env junk) (w, None, Again n) (w', None, t').
Proof.
  intros Hn E. unfold send_checkpoint, chk_thread_sleep in E. rewrite Hn in E.
  destruct (n <? checkpoint_freq_g (r_ctl w)) eqn:Ef.
  - destruct (signal_exit_checkpt_thread (r_ctl w) =? 1) eqn:Es; injection E as <-.
    + exists Halt. split; [by left|]. apply alone_again, alone_load. rewrite Ef. apply alone_load. rewrite Es.
      by apply alone_store, alone_store, alone_refl.
    + eexists. split; [by right; eexists|]. apply alone_again, alone_load. rewrite Ef. apply alone_load. rewrite Es.
      apply alone_store, alone_refl.
  - exists (Again 0). split; [by right; eexists|]. apply alone_again, alone_load. rewrite Ef. apply alone_store.
    eapply send_checkpoint_alone; [exact E|apply alone_refl].
Qed.

(** Moves of one thread, from a process whose [storage_lock] is free to one
    where it is free again, that leave the other threads alone. *)
Definition thread_moves (i : nat) (g : process Q) (w' : replica Q) (t' : thread Q -> Prop) : Prop :=
  exists n es g', runs status_ptr pid can_create server_id env junk (replicate n (Run i)) g = Some (es, g')
    /\ mem g' = w' /\ storage_lock g' = None
    /\ (exists body t, pool g' !! i = Some (body, t) /\ t' t)
    /\ forall j t, j <> i -> pool g !! j = Some t -> pool g' !! j = Some t.

Lemma alone_moves i body t t' w' (g : process Q) (P : thread Q -> Prop) :
  storage_lock g = None -> pool g !! i = Some (body, t) ->
  alone i body (mem g, None, t) (w', None, t') -> P t' -> thread_moves i g w' P.
Proof.
  intros Hl Hi Ha Ht. destruct (Ha g ltac:(done)) as (n & es & g' & E & (H1 & H2 & H3) & Ho).
  exists n, es, g'. split; [done|]. split; [done|]. split; [done|]. split; [by exists body, t'|done].
Qed.
End Grain.

(** C12: the coarse steps that the rest of the development reasons with are among
    the executions of the threads. From any process in which nobody owns
    [storage_lock]: if [run] takes the shared state through one iteration of a
    worker that is at the head of its loop, if [send_checkpoint] takes it
    through one turn of the checkpoint thread, or if [dispatch_request] ends a
    connection, then moves of that thread alone lead to the same shared state,
    with the lock free, the thread at the head of its loop or ended, and every
    other thread where it was. (A control command or a connection that has to
    wait for a checkpoint thread to stop is not a move of one thread.) *)
Theorem coarse_steps_are_schedules {Q} `{FifoLog Q client_ctx_t} malloc sha1 sfuel status_ptr pid can_create
    server_id env junk (g : process Q) w' :
  storage_lock g = None ->
  (forall i prio fuel, prio <> INVALID_LOG -> (prio = CONTROL -> is_chkpt_thrd_running (r_ctl (mem g)) <> 1) ->
     pool g !! i = Some (run_body malloc sha1 sfuel status_ptr pid can_create server_id env junk prio, Again 0) ->
     run (execute_msg malloc sha1 sfuel) (execute_msg_ctrl status_ptr pid can_create server_id env junk) fuel prio
       (mem g) = Ret w' ->
     thread_moves status_ptr pid can_create server_id env junk i g w' (fun t => t = Again 0))
  /\ (forall i n, pool g !! i = Some (checkpoint_body status_ptr pid can_create server_id env junk, Again n) ->
     chk_thread (r_ctl (mem g)) = Some n ->
     send_checkpoint status_ptr pid can_create server_id env junk (mem g) = Ret w' ->
     thread_moves status_ptr pid can_create server_id env junk i g w' (fun t => t = Halt \/ exists n', t = Again n'))
  /\ (forall c ret g1, is_chkpt_thrd_running (r_ctl (mem g)) <> 1 ->
     dispatch_request c (mem g) = Ret (ret, w') ->
     runs status_ptr pid can_create server_id env junk [Arrive c None] g = Some ([], g1) ->
     thread_moves status_ptr pid can_create server_id env junk (length (pool g)) g1 w' (fun t => t = Halt)).
Proof.
  intros Hl. split; [|split].
  - intros i prio fuel Hp Hrun Hi E. eapply alone_moves; [done|exact Hi|by eapply run_alone|done].
  - intros i n Hi Hn E. edestruct checkpoint_alone as (t' & Ht & Ha); [exact Hn|exact E|].
    by eapply alone_moves.
  - intros c ret g1 Hrun E E1. injection E1 as <-. eapply alone_moves; [done| |by eapply dispatch_alone|done].
    cbn [pool]. by rewrite lookup_app_r, Nat.sub_diag by lia.
Qed.

(** The normal worker of a server that has logged an addition. *)
Definition demo_env (n : nat) : net_step := {| socket_ret := 5; connect_ret := 0; write_ret := 8192 |}.
Definition demo_ready : replica (MsgLog.log_mem (V := client_ctx_t)) :=
  match dispatch_request (bread_add 3) (replica_init demo_log) with
  | Ret (_, w) => w
  | _ => replica_init demo_log
  end.
Definition demo_ran : outcome (replica (MsgLog.log_mem (V := client_ctx_t))) :=
  run (execute_msg dirty_malloc demo_sha1 1) (execute_msg_ctrl (fun _ => 0) 0 (fun _ => true) 1 demo_env []) 1 NORMAL
    demo_ready.

Lemma coarse_steps_are_schedules_witness : exists w', demo_ran = Ret w'
  /\ map fst (view (r_db w') bread_key) = [⟦"bread"⟧]
  /\ thread_moves (fun _ => 0) 0 (fun _ => true) 1 demo_env [] 0
       (server_workers dirty_malloc demo_sha1 1 (fun _ => 0) 0 (fun _ => true) 1 demo_env [] demo_ready) w'
       (fun t => t = Again 0).
Proof.
  assert (match demo_ran with Ret w => map fst (view (r_db w) bread_key) | _ => [] end = [⟦"bread"⟧]) as Hv
    by (by vm_compute).
  destruct demo_ran as [w'| | |] eqn:E; [|done..]. exists w'. split; [done|]. split; [exact Hv|].
  apply (proj1 (coarse_steps_are_schedules dirty_malloc demo_sha1 1 (fun _ => 0) 0 (fun _ => true) 1 demo_env []
    (server_workers dirty_malloc demo_sha1 1 (fun _ => 0) 0 (fun _ => true) 1 demo_env [] demo_ready) w' eq_refl)
    0%nat NORMAL 1%nat); [done|done|reflexivity|exact E].
Defined.
