(* ===== verification/Races.v ===== *)
(** What the order of the accesses of two threads can change: a quiesce order
    against the worker, a demotion against a promotion, the printed state
    against the storage. *)
From S2P Require Import Prelude CLib Iface Util Fifo Control Db Storage Replica Server Worker Failover Agreement Threads.
From S2P Require Import RepMgr Factory Lfd Wire Protocol Orders Interleave Grain.
From S2P Require MsgLog.

(** * How much a quiesced worker still executes *)

(** The requests executed, checkpoints apart. *)
Definition executed (es : list event) : list client_ctx_t :=
  omap (fun e => match e with
                 | EExec c => if decide (msg_type (req c) = MSG_CHK_PT) then None else Some c
                 | _ => None
                 end) es.

Lemma executed_app es es' : executed (es ++ es') = executed es ++ executed es'.
Proof. apply omap_app. Qed.

Section Quiesced.
Context {Q : Type} `{FifoLog Q client_ctx_t}.
Variable malloc : nat -> option data_point.
Variable sha1 : bytes -> option bytes.
Variable sfuel : nat.
Variable status_ptr : Z -> Z.
Variable pid : Z.
Variable can_create : bytes -> bool.
Variable server_id : Z.
Variable env : nat -> net_step.
Variable junk : bytes.

(** At most [n] requests are executed in what is left of the turn, while the
    shared state satisfies [P] at every access. *)
Fixpoint executes (P : replica Q -> bool) (n : nat) (t : thread Q) : Prop :=
  match t with
  | Halt | Again _ => True
  | Act _ B f ev k => forall w b w', P w = true -> f w = Ret (b, w') ->
      exists m, (length (executed (ev b)) + m <= n)%nat /\ executes P m (k b)
  | Lock k | Unlock k => executes P n k
  | Fork _ k => executes P n k
  end.

Lemma executes_weaken (P P' : replica Q -> bool) t : (forall w, P' w = true -> P w = true) ->
  forall n m, (n <= m)%nat -> executes P n t -> executes P' m t.
Proof.
  intros HP. induction t as [|x|x B f ev k IH|k IH|k IH|body _ k IH]; intros n m Hnm; cbn [executes]; try done;
    [|by apply IH..].
  intros Ht w b w' Hw E. destruct (Ht w b w' (HP w Hw) E) as (m' & Hm & Hk).
  exists m'. split; [lia|]. by eapply IH.
Qed.

Implicit Types P : replica Q -> bool.

Lemma silent P n x B (f : replica Q -> outcome (B * replica Q)) ev k : (forall b, executed (ev b) = []) ->
  (forall w b w', P w = true -> f w = Ret (b, w') -> executes P n (k b)) -> executes P n (Act x B f ev k).
Proof.
  intros He Hk w b w' Hw E. exists n. rewrite He. split; [simpl; lia|]. by eapply Hk.
Qed.

Lemma load_executes P n {B} (f : replica Q -> B) k : (forall w, P w = true -> executes P n (k (f w))) ->
  executes P n (load f k).
Proof. intros Hk. apply silent; [done|]. intros w b w' Hw [= <- <-]. by apply Hk. Qed.

Lemma store_executes P n f k : executes P n k -> executes P n (store f k).
Proof. intros Hk. by apply silent. Qed.

Lemma require_executes P n b k : executes P n k -> executes P n (require b k).
Proof. intros Hk. unfold require. destruct b; [done|]. by apply silent. Qed.

Lemma test_executes P n m s k :
  (forall b, (b = true -> exists w, P w = true /\ get_state (r_ctl w) = s) -> executes P n (k b)) ->
  executes P n (test m s k).
Proof.
  intros Hk. apply load_executes. intros w Hw. case_if; [|by apply Hk]. apply load_executes. intros w' Hw'.
  apply Hk. intros Hs. zbool. by exists w'.
Qed.

Ltac run_down := repeat first
  [ match goal with |- forall _, _ => intro | |- let _ := _ in _ => intro end
  | assumption
  | progress cbv beta
  | match goal with
    | |- executes _ _ (load_ctl _ _) => apply load_executes
    | |- executes _ _ (load _ _) => apply load_executes
    | |- executes _ _ (store_ctl _ _) => apply store_executes
    | |- executes _ _ (store _ _) => apply store_executes
    | |- executes _ _ (reply_t _ _ _ _) => apply store_executes
    | |- executes _ _ (close_t _ _) => apply store_executes
    | |- executes _ _ (require _ _) => apply require_executes
    | |- executes _ _ (test _ _ _) => apply test_executes
    | |- executes _ _ (Act _ _ _ quiet _) => apply silent; [done|]
    | |- executes _ _ (Fork _ _) => cbn [executes]
    | |- executes _ _ (Again _) => exact I
    | |- executes _ _ Halt => exact I
    | |- executes _ _ (if ?b then _ else _) => destruct b
    | |- executes _ _ (match ?o with Some _ => _ | None => _ end) => destruct o
    end ].

Lemma set_state_executes P n s k : executes P n k ->
  executes P n (set_state_t status_ptr pid can_create server_id env junk s k).
Proof.
  intros Hk. unfold set_state_t, start_ckhpt_thread_t, kill_chkpt_thrd_if_running_t, stop_chk_pt_thread_t.
  run_down.
Qed.

(** One request, unless it is a checkpoint. *)
Definition cost (c : client_ctx_t) : nat := if decide (msg_type (req c) = MSG_CHK_PT) then 0 else 1.

Lemma execute_executes P n c k : executes P n k ->
  executes P (cost c + n) (execute_msg_t malloc sha1 sfuel status_ptr pid can_create server_id env junk c k).
Proof.
  intros Hk. unfold execute_msg_t. cbv zeta. cbn [executes].
  match goal with |- context [storage_t malloc sha1 sfuel c ?k'] => set (after := k') end.
  assert (executes P (cost c + n) (storage_t malloc sha1 sfuel c after)) as Hst.
  { intros w b w' _ _. exists n. split.
    - unfold cost, executed. cbn. by case_decide.
    - unfold after. run_down; cbn [executes]; run_down. }
  run_down. by apply set_state_executes.
Qed.

Lemma take_executes P n t k : (forall o, executes P n (k o)) -> executes P n (take_t t k).
Proof. intros Hk. apply silent; [by intros [c|]|]. intros. apply Hk. Qed.

Lemma count_executes P n t k : (forall m, executes P n (k m)) -> executes P n (count_t t k).
Proof. intros Hk. apply silent; [done|]. intros. apply Hk. Qed.

(** An iteration of the normal worker, whatever happens meanwhile. *)
Lemma rest_executes P : executes P 1 (run_rest_t malloc sha1 sfuel status_ptr pid can_create server_id env junk NORMAL).
Proof.
  unfold run_rest_t. cbv zeta. rewrite !bool_decide_true by done.
  match goal with |- context [count_t NORMAL ?k] => set (counted := k) end.
  assert (executes P 1 (count_t NORMAL counted)) as Hc; [|by run_down].
  apply count_executes. intros m. unfold counted.
  match goal with |- context [set_state_t _ _ _ _ _ _ _ ?k] => set (after := k) end.
  assert (executes P 1 after) as Ha; [|by run_down; try apply set_state_executes].
  unfold after. rewrite andb_true_r. cbn [Z.eqb negb]. run_down. apply take_executes. intros [c|]; [|done].
  eapply (executes_weaken P); [done| |exact (execute_executes P 0 c (Again 0) I)]. unfold cost. case_decide; lia.
Qed.

(** While the replica is quiesced and not pruning: none. *)
Definition quiesced (w : replica Q) : bool := (get_state (r_ctl w) =? QUIESCE) && (is_prune w =? 0).

Lemma quiesced_state w : quiesced w = true <-> get_state (r_ctl w) = QUIESCE /\ is_prune w = 0.
Proof. unfold quiesced. by rewrite andb_true_iff, !Z.eqb_eq. Qed.

Lemma rest_quiesced : executes quiesced 0
  (run_rest_t malloc sha1 sfuel status_ptr pid can_create server_id env junk NORMAL).
Proof.
  unfold run_rest_t. cbv zeta. rewrite !bool_decide_true by done.
  match goal with |- context [count_t NORMAL ?k] => set (counted := k) end.
  assert (executes quiesced 0 (count_t NORMAL counted)) as Hc; [|by run_down].
  apply count_executes. intros m. unfold counted. apply test_executes. intros b Hb.
  destruct b; [destruct (Hb eq_refl) as (w & [Hq _]%quiesced_state & Hs); by rewrite Hq in Hs|]. cbn [andb].
  rewrite andb_true_r. destruct (m =? 0); [exact I|]. cbn [Z.eqb negb]. apply load_executes.
  intros w [Hq _]%quiesced_state. by rewrite Hq.
Qed.

Lemma body_executes P n : executes P 1 (run_body malloc sha1 sfuel status_ptr pid can_create server_id env junk NORMAL n).
Proof.
  unfold run_body. rewrite bool_decide_true by done. destruct (n =? 1).
  - apply take_executes. intros [c|]; [|apply rest_executes]. destruct (negb _) eqn:Ec; [by apply silent|].
    apply store_executes. eapply (executes_weaken P); [done| |exact (execute_executes P 0 c (Again 1) I)].
    unfold cost. case_decide; lia.
  - run_down. apply rest_executes.
Qed.

Lemma body_quiesced n :
  executes quiesced 0 (run_body malloc sha1 sfuel status_ptr pid can_create server_id env junk NORMAL n).
Proof.
  unfold run_body. rewrite bool_decide_true by done. destruct (n =? 1).
  - apply take_executes. intros [c|]; [|apply rest_quiesced]. destruct (negb _) eqn:Ec; [by apply silent|].
    apply store_executes. zbool. eapply (executes_weaken quiesced); [done| |exact (execute_executes quiesced 0 c (Again 1) I)].
    unfold cost. by rewrite decide_True.
  - run_down. apply rest_quiesced.
Qed.

(** ** Over a schedule *)

Definition normal_body := run_body (Q := Q) malloc sha1 sfuel status_ptr pid can_create server_id env junk NORMAL.
Definition connect := connection_t (Q := Q) status_ptr pid can_create server_id env junk.

Definition worker_at P (n : nat) (g : process Q) : Prop :=
  exists t, pool g !! 0%nat = Some (normal_body, t) /\ executes P n t.

(** [P] holds of the shared state before every move and at the end. *)
Fixpoint throughout P (l : list choice) (g : process Q) : bool :=
  P (mem g) && match l with
               | [] => true
               | ch :: l => match step connect ch g with Some (_, g') => throughout P l g' | None => true end
               end.

Abbreviation ok := (process_ok malloc sha1 sfuel status_ptr pid can_create).

Lemma step_ok a d es ch e (g g' : process Q) : ok a d es g -> owner_ok g -> step connect ch g = Some (e, g') ->
  ok a d (es ++ e) g' /\ owner_ok g'.
Proof.
  intros Hg Ho E. split.
  - eapply (schedule_ok malloc sha1 sfuel status_ptr pid can_create server_id env junk a d [ch]); [done|done|].
    unfold runs, server_runs. cbn [schedule]. fold connect. rewrite E. cbn. by rewrite app_nil_r.
  - destruct ch as [i|c file]; cbn [step] in E.
    + destruct (pool g !! i) as [[body t]|] eqn:Ei; [|done]. by eapply run_thread_ok.
    + injection E as <- <-. intros j Hj. cbn [pool storage_lock] in *. rewrite length_app in Hj. apply Ho. lia.
Qed.

(** A move of a connection or of another thread executes nothing. *)
Lemma other_step a d es i e body t (g g' : process Q) : ok a d es g -> i <> 0%nat ->
  pool g !! i = Some (body, t) -> run_thread i body t g = Some (e, g') ->
  executed e = [] /\ pool g' !! 0%nat = pool g !! 0%nat.
Proof.
  intros Hg Hi Hp E. destruct (po_threads _ _ _ _ _ _ _ _ _ _ Hg i body t Hp) as (_ & r & Hr & Hacc).
  rewrite decide_False in Hacc by done. subst r. pose proof (po_worker _ _ _ _ _ _ _ _ _ _ Hg) as Hw.
  assert (forall t' w l new, pool (moved i body t' w l new g) !! 0%nat = pool g !! 0%nat) as Hpool.
  { intros. cbn [pool moved]. rewrite lookup_app_l by (by rewrite length_insert). by rewrite list_lookup_insert_ne. }
  destruct t as [|n|x B f ev k|k|k|new k]; cbn [run_thread] in E; try done; try (injection E as <- <-; by split).
  - destruct (f (mem g)) as [[b w]| | |]; [|done..]. injection E as <- <-. split; [|done].
    destruct Hr as (_ & _ & Hr). destruct (Hr b) as (r' & Ha & _).
    destruct (ev b) as [|ev1 [|]]; [done| |done]. by inversion Ha.
  - destruct (storage_lock g); [done|]. by injection E as <- <-.
Qed.

Lemma step_worker P a d es n ch e (g g' : process Q) : ok a d es g -> P (mem g) = true ->
  (forall k, executes P n (normal_body k)) -> worker_at P n g -> step connect ch g = Some (e, g') ->
  exists m, (length (executed e) + m <= n)%nat /\ worker_at P m g'.
Proof.
  intros Hg HP Hbody (t & H0 & Ht) E. pose proof (po_worker _ _ _ _ _ _ _ _ _ _ Hg) as Hw.
  destruct ch as [i|c file]; cbn [step] in E.
  - destruct (pool g !! i) as [[body ti]|] eqn:Ei; [|done]. cbn in E. destruct (decide (i = 0)%nat) as [->|Hi].
    + rewrite H0 in Ei. injection Ei as <- <-.
      assert (forall m t' w l new, executes P m t' -> worker_at P m (moved 0 normal_body t' w l new g)) as Hmoved.
      { intros m t' w l new Ht'. exists t'. split; [|done]. cbn [pool moved].
        rewrite lookup_app_l by (by rewrite length_insert). by rewrite list_lookup_insert_eq. }
      destruct t as [|k|x B f ev k|k|k|new k]; cbn [run_thread] in E; [done|..].
      * injection E as <- <-. exists n. split; [simpl; lia|by apply Hmoved].
      * destruct (f (mem g)) as [[b w]| | |] eqn:Ef; [|done..]. injection E as <- <-.
        destruct (Ht (mem g) b w HP Ef) as (m & Hm & Hk). exists m. split; [done|by apply Hmoved].
      * destruct (storage_lock g); [done|]. injection E as <- <-. exists n. split; [simpl; lia|by apply Hmoved].
      * injection E as <- <-. exists n. split; [simpl; lia|by apply Hmoved].
      * injection E as <- <-. exists n. split; [simpl; lia|by apply Hmoved].
    + destruct (other_step a d es i e body ti g g' Hg Hi Ei E) as [He Hp]. exists n. rewrite He.
      split; [simpl; lia|]. exists t. by rewrite Hp.
  - injection E as <- <-. exists n. split; [simpl; lia|]. exists t. cbn [pool]. by rewrite lookup_app_l.
Qed.

(** At any time the worker is in the middle of at most one request. *)
Lemma reachable_worker a d sched : forall es g e g', ok a d es g -> owner_ok g -> worker_at (fun _ => true) 1 g ->
  schedule connect sched g = Some (e, g') ->
  ok a d (es ++ e) g' /\ owner_ok g' /\ worker_at (fun _ => true) 1 g'.
Proof.
  induction sched as [|ch sched IH]; intros es g e g' Hg Ho Hw E; cbn [schedule] in E.
  { injection E as <- <-. by rewrite app_nil_r. }
  destruct (step connect ch g) as [[e1 g1]|] eqn:E1; [|done]. cbn in E.
  destruct (schedule connect sched g1) as [[e2 g2]|] eqn:E2; [|done]. injection E as <- <-.
  destruct (step_ok a d es ch e1 g g1 Hg Ho E1) as [Hg1 Ho1]. rewrite app_assoc.
  eapply IH; [done|done| |done].
  destruct (step_worker (fun _ => true) a d es 1 ch e1 g g1 Hg eq_refl (body_executes _) Hw E1) as (m & Hm & t & Ht & He).
  exists t. split; [done|]. by eapply executes_weaken; [|idtac|exact He]; [|lia].
Qed.

Lemma quiesced_run a d sched : forall n es g e g', ok a d es g -> owner_ok g -> worker_at quiesced n g ->
  throughout quiesced sched g = true -> schedule connect sched g = Some (e, g') -> (length (executed e) <= n)%nat.
Proof.
  induction sched as [|ch sched IH]; intros n es g e g' Hg Ho Hw Ht E; cbn [schedule throughout] in *.
  { injection E as <- <-. simpl. lia. }
  apply andb_prop in Ht as [HP Ht]. destruct (step connect ch g) as [[e1 g1]|] eqn:E1; [|done]. cbn in E.
  destruct (schedule connect sched g1) as [[e2 g2]|] eqn:E2; [|done]. injection E as <- <-.
  destruct (step_ok a d es ch e1 g g1 Hg Ho E1) as [Hg1 Ho1].
  destruct (step_worker quiesced a d es n ch e1 g g1 Hg HP) as (m & Hm & Hw1); [|done|done|].
  { intros k. eapply (executes_weaken quiesced); [done| |apply body_quiesced]. lia. }
  pose proof (IH m _ _ _ _ Hg1 Ho1 Hw1 Ht E2). rewrite executed_app, length_app. lia.
Qed.

Lemma quiesced_at_head (w : replica Q) a sched1 e1 g1 n sched2 e2 g2 : lq_rep (r_log w) a ->
  schedule connect sched1 (server_workers malloc sha1 sfuel status_ptr pid can_create server_id env junk w) = Some (e1, g1) ->
  snd <$> pool g1 !! 0%nat = Some (Again n) ->
  throughout quiesced sched2 g1 = true -> schedule connect sched2 g1 = Some (e2, g2) -> executed e2 = [].
Proof.
  intros Ha E1 Hn Ht E2.
  destruct (workers_ok malloc sha1 sfuel status_ptr pid can_create server_id env junk a w Ha) as [Hg Ho].
  destruct (reachable_worker a (r_db w) sched1 [] _ e1 g1 Hg Ho) as (Hg1 & Ho1 & t & H0 & _); [by eexists|done|].
  rewrite H0 in Hn. injection Hn as ->. apply length_zero_iff_nil.
  assert (length (executed e2) <= 0)%nat; [|lia].
  eapply quiesced_run; [exact Hg1|exact Ho1| |exact Ht|exact E2]. by exists (Again n).
Qed.
End Quiesced.

(** C22: a quiesce order stops the execution of requests, up to one. From the
    start of the workers let any schedule lead to some process, and from there
    any schedule go on during which the replica stays quiesced and no log is
    pruned. Then at most one request that is not a checkpoint is executed in
    that time, whatever was in the log and whatever arrives. *)
Theorem quiesce_lets_one_through {Q} `{FifoLog Q client_ctx_t} malloc sha1 sfuel status_ptr pid can_create
    server_id env junk (w : replica Q) a sched1 e1 g1 sched2 e2 g2 :
  lq_rep (r_log w) a ->
  runs status_ptr pid can_create server_id env junk sched1
    (server_workers malloc sha1 sfuel status_ptr pid can_create server_id env junk w) = Some (e1, g1) ->
  throughout status_ptr pid can_create server_id env junk quiesced sched2 g1 = true ->
  runs status_ptr pid can_create server_id env junk sched2 g1 = Some (e2, g2) ->
  (length (executed e2) <= 1)%nat.
Proof.
  intros Ha E1 Ht E2.
  destruct (workers_ok malloc sha1 sfuel status_ptr pid can_create server_id env junk a w Ha) as [Hg Ho].
  destruct (reachable_worker malloc sha1 sfuel status_ptr pid can_create server_id env junk a (r_db w) sched1 []
    (server_workers malloc sha1 sfuel status_ptr pid can_create server_id env junk w) e1 g1) as (Hg1 & Ho1 & Hw1);
    [done|done| |exact E1|].
  { by eexists. }
  eapply quiesced_run; [exact Hg1|exact Ho1| |exact Ht|exact E2].
  destruct Hw1 as (t & Ht1 & He). exists t. split; [done|]. by eapply executes_weaken; [|idtac|exact He].
Qed.

(** Two additions in the log of an active replica, and the schedules. *)
Definition two_logged : MsgLog.log_mem (V := client_ctx_t) :=
  match impl_run [Put (bread_add 3) NORMAL; Put (bread_add 4) NORMAL] demo_log with Ret (_, q) => q | _ => demo_log end.
Definition two_abs : log_abs client_ctx_t :=
  (spec_run [Put (bread_add 3) NORMAL; Put (bread_add 4) NORMAL] (abs_init 50 50)).2.

Lemma logged_rep ops q : match impl_run ops demo_log with Ret (_, q) => q | _ => demo_log end = q ->
  lq_rep q (spec_run ops (abs_init 50 50)).2.
Proof.
  intros <-. destruct (impl_run_spec ops demo_log (abs_init 50 50)) as (q' & -> & Hq); [apply MsgLog.log_rep_init|done].
Qed.

Definition demo_runs := runs (Q := MsgLog.log_mem (V := client_ctx_t)) (fun _ => 0) 0 (fun _ => true) 1 demo_env [].
Definition demo_server (w : replica (MsgLog.log_mem (V := client_ctx_t))) : process MsgLog.log_mem :=
  server_workers dirty_malloc demo_sha1 1 (fun _ => 0) 0 (fun _ => true) 1 demo_env [] w.
Definition quiesce_order : client_ctx_t :=
  request_ctx 9 0 (set_msg_type MSG_QUIESCE_START CLIENT_REQUEST_INITIALISER).
(** The worker up to its look at the state, then the order; afterwards the
    worker for a turn and a half. *)
Definition until_quiesced : list choice := replicate 7 (Run 0) ++ [Arrive quiesce_order None] ++ replicate 7 (Run 2).
Definition after_quiesced : list choice := replicate 16 (Run 0).
Definition quiesced_at : option (process (MsgLog.log_mem (V := client_ctx_t))) :=
  snd <$> demo_runs until_quiesced (demo_server (active_replica two_logged)).

Lemma quiesce_lets_one_through_witness : exists g1 e2 g2, quiesced_at = Some g1
  /\ demo_runs after_quiesced g1 = Some (e2, g2) /\ executed e2 = [bread_add 3] /\ (length (executed e2) <= 1)%nat.
Proof.
  assert (match quiesced_at with
          | Some g => throughout (fun _ => 0) 0 (fun _ => true) 1 demo_env [] quiesced after_quiesced g
          | None => false end = true) as Ht by (by vm_compute).
  assert (match quiesced_at with
          | Some g => match demo_runs after_quiesced g with Some (e, _) => executed e | None => [] end
          | None => [] end = [bread_add 3]) as He by (by vm_compute).
  destruct quiesced_at as [g1|] eqn:E1; [|done]. destruct (demo_runs after_quiesced g1) as [[e2 g2]|] eqn:E2; [|done].
  exists g1, e2, g2. split; [done|]. split; [done|]. split; [exact He|].
  unfold quiesced_at in E1.
  destruct (demo_runs until_quiesced (demo_server (active_replica two_logged))) as [[e1 g]|] eqn:E; [|done].
  injection E1 as ->.
  exact (quiesce_lets_one_through dirty_malloc demo_sha1 1 (fun _ => 0) 0 (fun _ => true) 1 demo_env []
    (active_replica two_logged) two_abs until_quiesced e1 g1 after_quiesced e2 g2
    (logged_rep [Put (bread_add 3) NORMAL; Put (bread_add 4) NORMAL] two_logged eq_refl) E Ht E2).
Defined.

(** C21: quiescing a replica. The manager's three orders without contents reach
    the server of the replica as one message each, whatever the factory's
    uninitialised message holds. On the start message an active replica enters
    [QUIESCE] at once, without answering. Its worker takes no new request then:
    an iteration that begins in this state executes nothing and loses nothing of
    the log; and access by access, from any state of the process in which the
    worker is at the head of its loop, under any schedule and with any arrivals,
    no request except a checkpoint is executed as long as the replica stays
    quiesced and no log is pruned. (A request that the worker has already decided
    to take when the order is carried out is still executed.) The stop message
    brings the replica back to the state it was in, with the log as it is then
    and the table as it was. *)
Theorem quiesce_holds_requests {Q} `{FifoLog Q client_ctx_t} i fd_data ipmem server_id rand mb cc fuel fd
    hn hc wfuel malloc sha1 sfuel status_ptr pid nenv junk (w : replica Q) a :
  is_i32 i -> f_replica_id fd_data = i -> ctl_ok (r_ctl w) -> rep_mode (r_ctl w) = ACTIVE_REP ->
  state (r_ctl w) <> UNKNOWN_STATE -> is_prune w = 0 -> lq_rep (r_log w) a ->
  (forall q t env fork_ok uninit fw input, relays_as q t -> Lfd.takes env (attempts (fa_net fw)) ->
     clean input -> stream input = zero_buf (factory_req_text i q) ->
     exists fw', handle_replication_manager_message fd_data ipmem env fork_ok uninit input fw = Ret (0, fw')
       /\ delivered (fa_net fw') = delivered (fa_net fw) ++ [(spawned_server fd_data ipmem, order_buf t)])
  /\ (forall input, clean input -> stream input = order_buf MSG_QUIESCE_START ->
     exists w1, handle_connection server_id rand mb cc fuel fd input w = Ret (0, w1)
       /\ state (r_ctl w1) = QUIESCE /\ sent w1 = sent w
       /\ (forall n, exists q, lq_rep q a /\ run_n hn hc wfuel NORMAL n w1 = Ret (set_r_log q w1))
       /\ forall input' q a', clean input' -> stream input' = order_buf MSG_QUIESCE_STOP -> lq_rep q a' ->
          exists w2, handle_connection server_id rand mb cc fuel fd input' (set_r_log q w1) = Ret (0, w2)
            /\ state (r_ctl w2) = state (r_ctl w) /\ rep_mode (r_ctl w2) = ACTIVE_REP
            /\ lq_rep (r_log w2) a' /\ r_db w2 = r_db w /\ sent w2 = sent w)
  /\ forall sched1 e1 g1 n sched2 e2 g2,
       runs status_ptr pid cc server_id nenv junk sched1
         (server_workers malloc sha1 sfuel status_ptr pid cc server_id nenv junk w) = Some (e1, g1) ->
       snd <$> pool g1 !! 0%nat = Some (Again n) ->
       throughout status_ptr pid cc server_id nenv junk quiesced sched2 g1 = true ->
       runs status_ptr pid cc server_id nenv junk sched2 g1 = Some (e2, g2) -> executed e2 = [].
Proof.
  intros Hi Hid Hk Hm Hs Hp Hr. split; [|split].
  - intros q t env fork_ok uninit fw input Hq Henv Hcl Hst. subst i. by eapply relays_command.
  - intros input Hcl Hst. destruct (quiesce_start_active _ Hk Hm) as [Hstart Hk1].
    destruct (quiesce_received server_id rand mb cc fuel fd input MSG_QUIESCE_START w _ (or_introl eq_refl)
      Hcl Hst Hstart) as (w1 & E1 & K1 & L1 & D1 & P1 & S1).
    exists w1. rewrite K1. split; [done|]. split; [done|]. split; [done|]. split.
    + intros n. apply run_held; [|by rewrite K1..|by rewrite L1].
      constructor; [by rewrite K1|by rewrite P1|rewrite K1].
      unfold should_nrl_thrd_sleep, get_mode. simpl. by rewrite Hm.
    + intros input' q a' Hcl' Hst' Hq.
      destruct (quiesce_received server_id rand mb cc fuel fd input' MSG_QUIESCE_STOP (set_r_log q w1)
        (upd_prev (state (r_ctl w)) (r_ctl w)) (or_intror eq_refl) Hcl' Hst')
        as (w2 & E2 & K2 & L2 & D2 & P2 & S2); [simpl r_ctl; rewrite K1; by apply quiesce_stop_active|].
      exists w2. rewrite K2. do 3 (split; [done|]). split; [by rewrite L2|].
      split; [by rewrite D2|by rewrite S2].
  - intros sched1 e1 g1 n sched2 e2 g2 E1 Hn Ht E2.
    exact (quiesced_at_head malloc sha1 sfuel status_ptr pid cc server_id nenv junk w a
      sched1 e1 g1 n sched2 e2 g2 Hr E1 Hn Ht E2).
Qed.

(** The worker at the head of its loop, the log full, and its next turn. *)
Definition quiesced_turn : list choice := replicate 8 (Run 0).

Lemma quiesced_head_turn : exists e1 g1 n e2 g2,
  demo_runs (Arrive quiesce_order None :: replicate 7 (Run 2)) (demo_server (active_replica two_logged)) = Some (e1, g1)
  /\ snd <$> pool g1 !! 0%nat = Some (Again n)
  /\ throughout (fun _ => 0) 0 (fun _ => true) 1 demo_env [] quiesced quiesced_turn g1 = true
  /\ demo_runs quiesced_turn g1 = Some (e2, g2).
Proof.
  assert (forall o : option (list event * process (MsgLog.log_mem (V := client_ctx_t))), (if o is Some (e, g) then
      match snd <$> pool g !! 0%nat with Some (Again n) => true | _ => false end
      && throughout (fun _ => 0) 0 (fun _ => true) 1 demo_env [] quiesced quiesced_turn g
      && match demo_runs quiesced_turn g with Some _ => true | None => false end else false) = true ->
    exists e1 g1 n e2 g2, o = Some (e1, g1) /\ snd <$> pool g1 !! 0%nat = Some (Again n)
      /\ throughout (fun _ => 0) 0 (fun _ => true) 1 demo_env [] quiesced quiesced_turn g1 = true
      /\ demo_runs quiesced_turn g1 = Some (e2, g2)) as Hall.
  { intros [[e1 g1]|]; [|discriminate]. intros [[Hh Ht]%andb_prop Hr]%andb_prop.
    destruct (snd <$> pool g1 !! 0%nat) as [[|n|x B f ev k|k|k|b k]|] eqn:Ep; try discriminate Hh.
    destruct (demo_runs quiesced_turn g1) as [[e2 g2]|] eqn:E2; [|discriminate Hr].
    exists e1, g1, n, e2, g2. split; [reflexivity|]. split; [exact Ep|]. split; [exact Ht|exact E2]. }
  apply Hall. by vm_compute.
Qed.

Lemma quiesce_holds_requests_witness :
  (exists w1, handle_connection 1 0 (fun _ => true) (fun _ => true) 1 9 [Chunk (order_buf MSG_QUIESCE_START)]
      (active_replica two_logged) = Ret (0, w1)
    /\ (forall n, exists q, run_n (fun _ => Ret) (fun _ => Ret) 1 NORMAL n w1 = Ret (set_r_log q w1))
    /\ exists w2, handle_connection 1 0 (fun _ => true) (fun _ => true) 1 9
         [Chunk (order_buf MSG_QUIESCE_STOP)] (set_r_log demo_log w1) = Ret (0, w2)
       /\ state (r_ctl w2) = state (r_ctl (active_replica two_logged)))
  /\ exists e1 g1 e2 g2,
       demo_runs (Arrive quiesce_order None :: replicate 7 (Run 2)) (demo_server (active_replica two_logged)) = Some (e1, g1)
       /\ demo_runs quiesced_turn g1 = Some (e2, g2) /\ executed e2 = [].
Proof.
  destruct (quiesce_holds_requests 1 demo_factory (server_ip (demo_addr 0)) 1 0 (fun _ => true)
    (fun _ => true) 1 9 (fun _ => Ret) (fun _ => Ret) 1 dirty_malloc demo_sha1 1 (fun _ => 0) 0 demo_env []
    (active_replica two_logged) two_abs) as (_ & Hw & Hg).
  - done.
  - done.
  - apply active_ctl_ok; [by right; left|by left].
  - done.
  - done.
  - done.
  - exact (logged_rep [Put (bread_add 3) NORMAL; Put (bread_add 4) NORMAL] two_logged eq_refl).
  - split.
    + destruct (Hw [Chunk (order_buf MSG_QUIESCE_START)]) as (w1 & E1 & _ & _ & Hheld & Hstop).
      * apply Forall_cons_2; [by vm_compute|apply Forall_nil_2].
      * apply app_nil_r.
      * exists w1. split; [exact E1|]. split.
        -- intros n. destruct (Hheld n) as (q & _ & E). exists q. exact E.
        -- destruct (Hstop [Chunk (order_buf MSG_QUIESCE_STOP)] demo_log (abs_init 50 50)) as (w2 & E2 & S2 & _).
           ++ apply Forall_cons_2; [by vm_compute|apply Forall_nil_2].
           ++ apply app_nil_r.
           ++ apply MsgLog.log_rep_init.
           ++ exists w2. split; [exact E2|exact S2].
    + destruct quiesced_head_turn as (e1 & g1 & n & e2 & g2 & E1 & Ep & Ht & E2).
      exists e1, g1, e2, g2. split; [exact E1|]. split; [exact E2|].
      exact (Hg _ e1 g1 n quiesced_turn e2 g2 E1 Ep Ht E2).
Defined.

(** * Orders that race with a worker *)

Section Orders.
Context {Q : Type} `{FifoLog Q client_ctx_t}.
Variable malloc : nat -> option data_point.
Variable sha1 : bytes -> option bytes.
Variable sfuel : nat.
Variable status_ptr : Z -> Z.
Variable pid : Z.
Variable can_create : bytes -> bool.
Variable server_id : Z.
Variable env : nat -> net_step.
Variable junk : bytes.

Abbreviation alone := (alone status_ptr pid can_create server_id env junk).
Abbreviation runs := (runs status_ptr pid can_create server_id env junk).
Abbreviation body := (body_of malloc sha1 sfuel status_ptr pid can_create server_id env junk).
Abbreviation start := (server_workers malloc sha1 sfuel status_ptr pid can_create server_id env junk).

Lemma runs_app l l' e e' (g g1 g2 : process Q) : runs l g = Some (e, g1) -> runs l' g1 = Some (e', g2) ->
  runs (l ++ l') g = Some (e ++ e', g2).
Proof. unfold runs, server_runs. intros E1 E2. rewrite schedule_app, E1. cbn. by rewrite E2. Qed.

Lemma alone_trans i b p p1 p2 : alone i b p p1 -> alone i b p1 p2 -> alone i b p p2.
Proof.
  intros H1 H2 g Hg. destruct (H1 g Hg) as (n & e & g1 & E & Hg1 & Ho). destruct (H2 g1 Hg1) as (n' & e' & g2 & E' & Hg2 & Ho').
  exists (n + n')%nat, (e ++ e'), g2. split; [rewrite replicate_add; by eapply runs_app|]. split; [done|].
  intros j t Hj Ht. by apply Ho', Ho.
Qed.

(** A thread goes on alone, the others wait. *)
Lemma go_alone i b p p' (g : process Q) : at_point i b p g -> alone i b p p' ->
  exists l e g', runs l g = Some (e, g') /\ at_point i b p' g'
    /\ forall j b' t, j <> i -> pool g !! j = Some (b', t) -> pool g' !! j = Some (b', t).
Proof.
  intros Hp Ha. destruct (Ha g Hp) as (n & e & g' & E & Hp' & Ho). exists (replicate n (Run i)), e, g'.
  split; [done|]. split; [done|]. intros j b' t. apply Ho.
Qed.

Definition order_ctx (fd t : Z) : client_ctx_t := request_ctx fd 0 (set_msg_type t CLIENT_REQUEST_INITIALISER).

(** ** Quiesce against the worker *)

(** The normal worker has found that the replica is not quiesced, and has not
    taken the request yet. *)
Definition about_to_take : thread Q :=
  take_t NORMAL (fun o => match o with
    | Some c => execute_msg_t malloc sha1 sfuel status_ptr pid can_create server_id env junk c (Again 0)
    | None => Again 0
    end).

Lemma worker_decides i (w : replica Q) a c l : lq_rep (r_log w) a -> is_prune w = 0 ->
  rep_mode (r_ctl w) = ACTIVE_REP -> state (r_ctl w) <> QUIESCE -> normal_msgs a = c :: l ->
  exists q, lq_rep q a /\ alone i (body NORMAL) (w, None, Again 0) (set_r_log q w, None, about_to_take).
Proof.
  intros Ha Hp Hm Hs Hn. destruct (lq_count_spec (r_log w) a NORMAL Ha ltac:(done)) as (q & E & Hq).
  exists q. split; [done|]. apply alone_again. unfold body_of, run_body. rewrite bool_decide_true by done.
  change (0 =? 1) with false. cbv iota. apply alone_load. rewrite Hp. change (0 =? 1) with false. cbv iota.
  unfold run_rest_t. cbv zeta. rewrite !bool_decide_true by done.
  apply alone_load. rewrite Hp. change (0 =? 0) with true. cbv iota. apply alone_test.
  unfold get_mode, get_state. rewrite Hm. change (ACTIVE_REP =? PASSIVE_REP) with false. cbn [andb].
  eapply count_alone; [exact E|]. apply alone_test. unfold get_mode. simpl r_ctl. rewrite Hm.
  change (ACTIVE_REP =? PASSIVE_REP) with false. cbn [andb]. simpl msgs. rewrite Hn.
  rewrite zlen_zero. cbn [Z.eqb andb negb]. apply alone_load. unfold get_state. simpl r_ctl.
  rewrite (proj2 (Z.eqb_neq _ _) Hs). cbn [negb]. apply alone_refl.
Qed.

(** ** Promotion against demotion *)

Definition demotes (c : client_ctx_t) : Prop :=
  msg_type (req c) = MSG_REP_MGR /\ rm_server_state (rep_mgr_msg (req c)) = PASSIVE_BACKUP.

(** The control worker is about to store the state [PASSIVE_BACKUP]; it has seen
    no checkpoint thread. *)
Definition about_to_demote (c : client_ctx_t) : thread Q :=
  store_ctl (upd_state PASSIVE_BACKUP)
    (reply_t c ⟦"OK"⟧ ⟦"Success"⟧ (close_t (cc_fd c) (Again 0))).

Lemma control_decides i (w : replica Q) a c : lq_rep (r_log w) a -> ctl_ok (r_ctl w) -> is_prune w = 0 ->
  is_preprimary (r_ctl w) = true -> control_msgs a = [c] -> demotes c ->
  exists q k, lq_rep q (set_msgs CONTROL [] a)
    /\ k = set_checkpoint_freq (rm_checkpoint_freq (rep_mgr_msg (req c)))
             (set_bckup_servers (rm_bckup_svr_0 (rep_mgr_msg (req c))) (rm_bckup_svr_1 (rep_mgr_msg (req c))) (r_ctl w))
    /\ alone i (body CONTROL) (w, None, Again 0) (set_r_ctl k (set_r_log q w), None, about_to_demote c).
Proof.
  intros Ha Hk Hp Hpre Hc [Ht Hst]. unfold is_preprimary, get_mode, get_state in Hpre.
  apply andb_prop in Hpre as [Hm Hs]. apply Z.eqb_eq in Hm, Hs.
  destruct (ok_other _ Hk) as [Hr _]; [intros [_ Hx]; enum_lia|].
  destruct (lq_count_spec (r_log w) a CONTROL Ha ltac:(done)) as (q & E & Hq).
  destruct (lq_take_spec q a CONTROL Hq) as (q2 & E2 & Hq2). unfold spec_take in *. simpl msgs in *. rewrite Hc in *.
  cbn [fst snd] in *. exists q2. eexists. split; [exact Hq2|]. split; [reflexivity|].
  apply alone_again. unfold body_of, run_body. rewrite bool_decide_false by done.
  unfold run_rest_t. cbv zeta. rewrite !bool_decide_false by done.
  apply alone_load. rewrite Hp. change (0 =? 0) with true. cbv iota. apply alone_test. rewrite andb_false_r.
  eapply count_alone; [exact E|]. cbn [zlen length Z.eqb andb negb Z.of_nat].
  change (zlen [c]) with 1. cbn [Z.eqb negb andb]. eapply take_alone; [exact E2|].
  unfold execute_msg_ctrl_t. cbv zeta. rewrite Ht. change (MSG_REP_MGR =? MSG_REP_MGR) with true. cbv iota.
  unfold handle_rep_msg_t. cbv zeta. apply alone_load. unfold get_mode. simpl r_ctl.
  rewrite Hm. change (PASSIVE_REP =? UNKNOWN_REP) with false. cbv iota.
  apply alone_load. simpl r_ctl. rewrite Hr. change (0 =? 1) with false. cbv iota. do 2 apply alone_store.
  unfold set_state_t. cbv zeta. rewrite Hst.
  apply alone_load. simpl r_ctl. simpl rep_mode. rewrite Hm. apply alone_load.
  simpl r_ctl. simpl rep_mode. rewrite Hm. apply alone_load. simpl r_ctl. simpl rep_mode.
  rewrite Hm. apply alone_load. simpl r_ctl. simpl rep_mode. rewrite Hm.
  apply alone_load. simpl r_ctl. simpl is_chkpt_thrd_running. rewrite Hr. apply alone_refl.
Qed.

(** The workers, and a connection that has read its request. *)
Lemma arrived (w : replica Q) c : exists g, runs [Arrive c None] (start w) = Some ([], g)
  /\ at_point 0 (body NORMAL) (w, None, Again 0) g /\ at_point 1 (body CONTROL) (w, None, Again 0) g
  /\ at_point 2 (fun _ => Halt) (w, None, dispatch_request_t status_ptr pid can_create server_id env junk c) g.
Proof. by eexists. Qed.
End Orders.

(** C23: the one request is real. Let an active replica that is not quiesced have a
    request in its log. There is a schedule in which the order to quiesce is
    received and carried out to its end, the replica is quiesced and the request
    has not been executed; and from there one in which the worker, which looked
    at the state before the order came, executes it, the replica being quiesced
    all the time after. *)
Theorem quiesce_race {Q} `{FifoLog Q client_ctx_t} malloc sha1 sfuel status_ptr pid can_create server_id env junk
    (w : replica Q) a c l (fd : Z) r c' d :
  lq_rep (r_log w) a -> ctl_ok (r_ctl w) -> is_prune w = 0 -> rep_mode (r_ctl w) = ACTIVE_REP ->
  state (r_ctl w) <> QUIESCE -> normal_msgs a = c :: l ->
  handle_storage malloc sha1 sfuel c (r_db w) = Ret (r, c', d) ->
  exists l1 e1 g1 l2 e2 g2,
    runs status_ptr pid can_create server_id env junk l1
      (server_workers malloc sha1 sfuel status_ptr pid can_create server_id env junk w) = Some (e1, g1)
    /\ pool g1 !! 2%nat = Some (fun _ => Halt, Halt) /\ quiesced (mem g1) = true /\ r_db (mem g1) = r_db w
    /\ prev_state (r_ctl (mem g1)) = state (r_ctl w)
    /\ runs status_ptr pid can_create server_id env junk l2 g1 = Some (e2, g2)
    /\ quiesced (mem g2) = true /\ r_db (mem g2) = d.
Proof.
  intros Ha Hk Hp Hm Hs Hn Hd. pose (o := order_ctx fd MSG_QUIESCE_START).
  destruct (arrived malloc sha1 sfuel status_ptr pid can_create server_id env junk w o) as (g0 & E0 & P0 & _ & P2).
  destruct (worker_decides malloc sha1 sfuel status_ptr pid can_create server_id env junk 0 w a c l Ha Hp Hm Hs Hn)
    as (q & Hq & Hdec).
  destruct (go_alone status_ptr pid can_create server_id env junk 0 _ _ _ g0 P0 Hdec) as (s1 & e1 & g1 & E1 & P1 & K1).
  destruct (quiesce_start_active _ Hk Hm) as [Hquiesce Hk1].
  assert (exists w1, dispatch_request o (set_r_log q w) = Ret (0, w1)
    /\ r_ctl w1 = upd_state QUIESCE (upd_prev (state (r_ctl w)) (r_ctl w)) /\ r_log w1 = q /\ r_db w1 = r_db w
    /\ is_prune w1 = is_prune w) as (w1 & Ed & Kw & Lw & Dw & Pw).
  { unfold dispatch_request. cbv zeta. change (msg_type (req o)) with MSG_QUIESCE_START.
    cbn [Z.eqb orb]. simpl r_ctl. rewrite Hquiesce, bind_ret_l. eexists. split; [reflexivity|].
    match goal with |- context [close_fd ?f ?x] => destruct (close_fd_frame f x) as (-> & -> & -> & -> & _) end. done. }
  assert (is_chkpt_thrd_running (r_ctl w) = 0) as Hrun.
  { apply (ok_other _ Hk). intros [Hx _]. rewrite Hm in Hx. done. }
  assert (is_chkpt_thrd_running (r_ctl (set_r_log q w)) <> 1) as Hrun1 by (simpl; by rewrite Hrun).
  destruct P1 as (M1 & L1 & T1). destruct P2 as (_ & _ & T2).
  destruct (go_alone status_ptr pid can_create server_id env junk 2 (fun _ => Halt) (set_r_log q w, None,
      dispatch_request_t status_ptr pid can_create server_id env junk o) (w1, None, Halt) g1) as
    (s2 & e2 & g2 & E2 & (M2 & L2 & T2') & K2); [by split; [|split; [|apply K1]]|by eapply dispatch_alone|].
  destruct (lq_take_spec q a NORMAL Hq) as (q2 & Et & Hq2). unfold spec_take in Et, Hq2. simpl msgs in Et, Hq2.
  rewrite Hn in Et, Hq2. cbn [fst snd] in Et, Hq2.
  destruct (execute_msg_eq malloc sha1 sfuel c (set_r_log q2 w1) r c' d) as (w2 & Ex & Kx & Dx & _ & Px & _).
  { simpl. by rewrite Kw. }
  { simpl. by rewrite Dw. }
  destruct (go_alone status_ptr pid can_create server_id env junk 0 (body_of malloc sha1 sfuel status_ptr pid can_create server_id env junk NORMAL)
    (w1, None, about_to_take malloc sha1 sfuel status_ptr pid can_create server_id env junk) (w2, None, Again 0) g2)
    as (s3 & e3 & g3 & E3 & (M3 & _ & _) & _).
  { split; [done|]. split; [done|]. by apply K2. }
  { eapply take_alone; [by rewrite Lw|]. eapply execute_alone; [exact Ex|apply alone_refl]. }
  pose proof (runs_app _ _ _ _ _ _ _ _ _ _ _ _ _ E0 (runs_app _ _ _ _ _ _ _ _ _ _ _ _ _ E1 E2)) as E.
  cbn [fst snd] in M2, M3, T2'.
  eexists _, _, g2, s3, e3, g3. split; [exact E|]. split; [exact T2'|]. rewrite M2, M3.
  split; [apply quiesced_state; split; [by rewrite Kw|by rewrite Pw]|]. split; [done|]. split; [by rewrite Kw|]. split; [exact E3|].
  split; [|done]. assert (is_preprimary (r_ctl w1) = false) as Hnp.
  { rewrite Kw. unfold is_preprimary, get_mode. simpl. by rewrite Hm. }
  cbn [r_ctl is_prune set_r_log] in Kx, Px. apply quiesced_state. split; [|by rewrite Px, Pw].
  unfold get_state. rewrite Kx. unfold exec_ctl. rewrite Hnp, Kw. done.
Qed.

Lemma quiesce_race_witness : exists l1 e1 g1 l2 e2 g2,
  demo_runs l1 (demo_server (active_replica two_logged)) = Some (e1, g1)
  /\ quiesced (mem g1) = true /\ view (r_db (mem g1)) bread_key = []
  /\ demo_runs l2 g1 = Some (e2, g2)
  /\ quiesced (mem g2) = true /\ map fst (view (r_db (mem g2)) bread_key) = [⟦"bread"⟧].
Proof.
  assert (match handle_storage dirty_malloc demo_sha1 1 (bread_add 3) db_init with
          | Ret (_, _, d) => map fst (view d bread_key) | _ => [] end = [⟦"bread"⟧]) as Hv by (by vm_compute).
  destruct (handle_storage dirty_malloc demo_sha1 1 (bread_add 3) db_init) as [[[r c'] d]| | |] eqn:E; [|done..].
  destruct (quiesce_race dirty_malloc demo_sha1 1 (fun _ => 0) 0 (fun _ => true) 1 demo_env []
    (active_replica two_logged) two_abs (bread_add 3) [bread_add 4] 9 r c' d)
    as (l1 & e1 & g1 & l2 & e2 & g2 & E1 & _ & Q1 & D1 & _ & E2 & Q2 & D2).
  - exact (logged_rep [Put (bread_add 3) NORMAL; Put (bread_add 4) NORMAL] two_logged eq_refl).
  - apply active_ctl_ok; [by right; left|by left].
  - done.
  - done.
  - done.
  - done.
  - exact E.
  - exists l1, e1, g1, l2, e2, g2. split; [exact E1|]. split; [exact Q1|]. rewrite D1. split; [by vm_compute|].
    split; [exact E2|]. split; [exact Q2|]. by rewrite D2.
Defined.

(** Both workers decide; the promotion comes first. *)
Lemma demotion_leaves_thread {Q} `{FifoLog Q client_ctx_t} malloc sha1 sfuel status_ptr pid can_create server_id env junk
    (w : replica Q) a c :
  lq_rep (r_log w) a -> ctl_ok (r_ctl w) -> is_prune w = 0 -> is_preprimary (r_ctl w) = true ->
  normal_msgs a = [] -> control_msgs a = [c] -> demotes c ->
  exists l e g, runs status_ptr pid can_create server_id env junk l
      (server_workers malloc sha1 sfuel status_ptr pid can_create server_id env junk w) = Some (e, g)
    /\ map snd (take 2 (pool g)) = [Again 0; Again 0]
    /\ state (r_ctl (mem g)) = PASSIVE_BACKUP /\ is_chkpt_thrd_running (r_ctl (mem g)) = 1
    /\ chk_thread (r_ctl (mem g)) = Some 0 /\ ~ ctl_ok (r_ctl (mem g)).
Proof.
  intros Ha Hk Hp Hpre Hn Hc Hd.
  destruct (control_decides malloc sha1 sfuel status_ptr pid can_create server_id env junk 1 w a c Ha Hk Hp Hpre Hc Hd)
    as (q & k & Hq & Ek & Hdec).
  set (start := server_workers malloc sha1 sfuel status_ptr pid can_create server_id env junk w).
  destruct (go_alone status_ptr pid can_create server_id env junk 1
    (body_of malloc sha1 sfuel status_ptr pid can_create server_id env junk CONTROL) (w, None, Again 0)
    (set_r_ctl k (set_r_log q w), None, about_to_demote c) start)
    as (s1 & e1 & g1 & E1 & (M1 & L1 & T1) & K1); [by split|exact Hdec|].
  assert (pool g1 !! 0%nat = Some (body_of malloc sha1 sfuel status_ptr pid can_create server_id env junk NORMAL, Again 0))
    as T0 by (by apply K1).
  assert (ctl_ok k) as Hk1 by (subst k; destruct Hk as [O1 O2 O3 O4 O5]; by constructor).
  assert (is_preprimary k = true) as Hpre1 by (by subst k).
  assert (should_nrl_thrd_sleep k = false) as Hsl.
  { unfold is_preprimary, should_nrl_thrd_sleep in *. apply andb_prop in Hpre1 as [-> Hx]. apply Z.eqb_eq in Hx.
    by rewrite Hx. }
  destruct (run_idle (hn malloc sha1 sfuel) (hc status_ptr pid can_create server_id env junk) 0
    (set_r_ctl k (set_r_log q w)) (set_msgs CONTROL [] a)) as (q2 & Hq2 & Er); [done|by constructor|done|].
  simpl r_ctl in Er. rewrite Hpre1 in Er.
  match type of Er with _ = Ret ?x => set (w2 := x) in Er end.
  destruct (go_alone status_ptr pid can_create server_id env junk 0
    (body_of malloc sha1 sfuel status_ptr pid can_create server_id env junk NORMAL) (set_r_ctl k (set_r_log q w), None, Again 0) (w2, None, Again 0) g1)
    as (s2 & e2 & g2 & E2 & (M2 & L2 & T2) & K2); [by split; [|split; [|exact T0]]| |].
  { eapply run_alone; [done|done|exact Er]. }
  destruct (go_alone status_ptr pid can_create server_id env junk 1
    (body_of malloc sha1 sfuel status_ptr pid can_create server_id env junk CONTROL) (w2, None, about_to_demote c)
    (close_fd (cc_fd c) (reply c ⟦"OK"⟧ ⟦"Success"⟧ (set_r_ctl (upd_state PASSIVE_BACKUP (r_ctl w2)) w2)), None, Again 0) g2)
    as (s3 & e3 & g3 & E3 & (M3 & L3 & T3) & K3).
  { split; [done|]. split; [done|]. by apply K2. }
  { by apply alone_store, alone_store, alone_store, alone_refl. }
  pose proof (runs_app _ _ _ _ _ _ _ _ _ _ _ _ _ E1 (runs_app _ _ _ _ _ _ _ _ _ _ _ _ _ E2 E3)) as E.
  eexists _, _, g3. split; [exact E|].
  assert (r_ctl (mem g3) = upd_state PASSIVE_BACKUP (promoted k)) as Kg.
  { rewrite M3. cbn [fst snd]. rewrite reply_eq.
    match goal with |- context [close_fd ?f ?x] => destruct (close_fd_frame f x) as (-> & _) end. done. }
  rewrite Kg. split.
  - assert (pool g3 !! 0%nat = Some (body_of malloc sha1 sfuel status_ptr pid can_create server_id env junk NORMAL, Again 0))
      as T0' by (by apply K3).
    destruct (pool g3) as [|p0 [|p1 ps]]; [done|done|]. injection T0' as ->. injection T3 as ->. done.
  - do 3 (split; [done|]). intros Hx. destruct (ok_other _ Hx) as [Hr _]; [by intros [_ ?]|done].
Qed.

(** The normal worker has seen that the replica is to take over and that its
    backlog is empty. *)
Lemma worker_promotes {Q} `{FifoLog Q client_ctx_t} malloc sha1 sfuel status_ptr pid can_create server_id env junk
    i (w : replica Q) a :
  lq_rep (r_log w) a -> is_prune w = 0 -> is_preprimary (r_ctl w) = true -> normal_msgs a = [] ->
  exists q, lq_rep q a /\ alone status_ptr pid can_create server_id env junk i
    (body_of malloc sha1 sfuel status_ptr pid can_create server_id env junk NORMAL) (w, None, Again 0)
    (set_r_log q w, None,
     set_state_t status_ptr pid can_create server_id env junk PASSIVE_PRIMARY (Again 0)).
Proof.
  intros Ha Hp Hpre Hn. unfold is_preprimary, get_mode, get_state in Hpre. apply andb_prop in Hpre as [Hm Hs].
  zbool. destruct (lq_count_spec (r_log w) a NORMAL Ha ltac:(done)) as (q & E & Hq).
  exists q. split; [done|]. apply alone_again. unfold body_of, run_body. rewrite bool_decide_true by done.
  change (0 =? 1) with false. cbv iota. apply alone_load. rewrite Hp. change (0 =? 1) with false. cbv iota.
  unfold run_rest_t. cbv zeta. rewrite !bool_decide_true by done.
  apply alone_load. rewrite Hp. change (0 =? 0) with true. cbv iota. apply alone_test.
  unfold get_mode, get_state. rewrite Hm, Hs. change (PASSIVE_PREPRIMARY =? PASSIVE_BACKUP) with false.
  rewrite andb_false_r. cbn [andb]. eapply count_alone; [exact E|]. apply alone_test.
  unfold get_mode, get_state. simpl r_ctl. rewrite Hm, Hs. simpl msgs. rewrite Hn. apply alone_refl.
Qed.

(** Both workers decide; the demotion comes first. *)
Lemma demotion_undone {Q} `{FifoLog Q client_ctx_t} malloc sha1 sfuel status_ptr pid can_create server_id env junk
    (w : replica Q) a c :
  lq_rep (r_log w) a -> ctl_ok (r_ctl w) -> is_prune w = 0 -> is_preprimary (r_ctl w) = true ->
  normal_msgs a = [] -> control_msgs a = [c] -> demotes c ->
  exists l1 e1 g1 l2 e2 g2, runs status_ptr pid can_create server_id env junk l1
      (server_workers malloc sha1 sfuel status_ptr pid can_create server_id env junk w) = Some (e1, g1)
    /\ snd <$> pool g1 !! 1%nat = Some (Again 0)
    /\ state (r_ctl (mem g1)) = PASSIVE_BACKUP /\ is_chkpt_thrd_running (r_ctl (mem g1)) = 0
    /\ sent (mem g1) = sent w ++ replies c ⟦"OK"⟧ ⟦"Success"⟧ PASSIVE_BACKUP
    /\ runs status_ptr pid can_create server_id env junk l2 g1 = Some (e2, g2)
    /\ map snd (take 2 (pool g2)) = [Again 0; Again 0]
    /\ (exists a', lq_rep (r_log (mem g2)) a' /\ control_msgs a' = [])
    /\ state (r_ctl (mem g2)) = PASSIVE_PRIMARY /\ is_chkpt_thrd_running (r_ctl (mem g2)) = 1
    /\ chk_thread (r_ctl (mem g2)) = Some 0.
Proof.
  intros Ha Hk Hp Hpre Hn Hc Hd. pose proof Hpre as Hpre'. unfold is_preprimary, get_mode, get_state in Hpre'.
  apply andb_prop in Hpre' as [Hm Hs]. zbool. destruct (ok_other _ Hk) as [Hr _]; [intros [_ Hx]; enum_lia|].
  destruct (worker_promotes malloc sha1 sfuel status_ptr pid can_create server_id env junk 0 w a Ha Hp Hpre Hn)
    as (q & Hq & Hprom).
  destruct (control_decides malloc sha1 sfuel status_ptr pid can_create server_id env junk 1 (set_r_log q w) a c
    Hq Hk Hp Hpre Hc Hd) as (q1 & k & Hq1 & Ek & Hdec).
  set (start := server_workers malloc sha1 sfuel status_ptr pid can_create server_id env junk w).
  assert (at_point 0 (body_of malloc sha1 sfuel status_ptr pid can_create server_id env junk NORMAL)
    (w, None, Again 0) start) as H0 by by split.
  destruct (go_alone status_ptr pid can_create server_id env junk 0 _ _ _ start H0 Hprom)
    as (s1 & e1 & g1 & E1 & (M1 & L1 & T1) & K1).
  set (w1 := close_fd (cc_fd c) (reply c ⟦"OK"⟧ ⟦"Success"⟧ (set_r_ctl (upd_state PASSIVE_BACKUP k) (set_r_log q1 w)))).
  assert (r_ctl w1 = upd_state PASSIVE_BACKUP k /\ r_log w1 = q1
    /\ sent w1 = sent w ++ replies c ⟦"OK"⟧ ⟦"Success"⟧ PASSIVE_BACKUP) as (Kw & Lw & Sw).
  { unfold w1. rewrite reply_eq. unfold close_fd. by case_if. }
  destruct (go_alone status_ptr pid can_create server_id env junk 1
    (body_of malloc sha1 sfuel status_ptr pid can_create server_id env junk CONTROL)
    (set_r_log q w, None, Again 0) (w1, None, Again 0) g1) as (s2 & e2 & g2 & E2 & (M2 & L2 & T2) & K2).
  { split; [done|]. split; [done|]. by apply K1. }
  { eapply alone_trans; [exact Hdec|]. by apply alone_store, alone_store, alone_store, alone_refl. }
  destruct (go_alone status_ptr pid can_create server_id env junk 0
    (body_of malloc sha1 sfuel status_ptr pid can_create server_id env junk NORMAL)
    (w1, None, set_state_t status_ptr pid can_create server_id env junk PASSIVE_PRIMARY (Again 0))
    (set_r_ctl (promoted (upd_state PASSIVE_BACKUP k)) w1, None, Again 0) g2)
    as (s3 & e3 & g3 & E3 & (M3 & L3 & T3) & K3).
  { split; [done|]. split; [done|]. by apply K2. }
  { eapply set_state_alone; [|intros [=]|apply alone_refl]. rewrite Kw. subst k. unfold set_state. simpl.
    rewrite Hm. unfold start_ckhpt_thread. simpl. by rewrite Hr. }
  eexists _, _, g2, s3, e3, g3. split; [exact (runs_app _ _ _ _ _ _ _ _ _ _ _ _ _ E1 E2)|].
  rewrite T2, M2, M3. cbn [fst snd]. rewrite Kw, Sw. split; [done|]. split; [done|]. split; [by subst k|].
  split; [done|]. split; [exact E3|]. split; [|split; [exists (set_msgs CONTROL [] a); split; [by simpl; rewrite Lw|done]|by subst k]].
  assert (pool g3 !! 1%nat = Some (body_of malloc sha1 sfuel status_ptr pid can_create server_id env junk CONTROL, Again 0))
    as T1' by (by apply K3).
  destruct (pool g3) as [|p0 [|p1 ps]]; [done|done|]. injection T3 as ->. injection T1' as ->. done.
Qed.

(** C24: a promotion and a demotion at the same time. Let a backup that was told to
    take over have worked off its backlog, and let the order to be a backup again
    wait in its log. There is a schedule in which both workers do their turn to
    the end and the replica is a backup with a checkpoint thread, which
    [ctl_ok] excludes: it goes on to send its own table to the other replicas.
    And there is one in which the order is carried out and answered "OK", the
    replica being a backup without a checkpoint thread, and the worker, which
    looked at the state before, then makes it the primary, with a checkpoint
    thread: the order is taken back and no other one is left in the log. *)
Theorem demotion_race {Q} `{FifoLog Q client_ctx_t} malloc sha1 sfuel status_ptr pid can_create server_id env junk
    (w : replica Q) a c :
  lq_rep (r_log w) a -> ctl_ok (r_ctl w) -> is_prune w = 0 -> is_preprimary (r_ctl w) = true ->
  normal_msgs a = [] -> control_msgs a = [c] -> demotes c ->
  let start := server_workers malloc sha1 sfuel status_ptr pid can_create server_id env junk w in
  let runs := runs status_ptr pid can_create server_id env junk in
  (exists l e g, runs l start = Some (e, g)
    /\ map snd (take 2 (pool g)) = [Again 0; Again 0]
    /\ state (r_ctl (mem g)) = PASSIVE_BACKUP /\ is_chkpt_thrd_running (r_ctl (mem g)) = 1
    /\ chk_thread (r_ctl (mem g)) = Some 0 /\ ~ ctl_ok (r_ctl (mem g)))
  /\ exists l1 e1 g1 l2 e2 g2, runs l1 start = Some (e1, g1)
    /\ snd <$> pool g1 !! 1%nat = Some (Again 0)
    /\ state (r_ctl (mem g1)) = PASSIVE_BACKUP /\ is_chkpt_thrd_running (r_ctl (mem g1)) = 0
    /\ sent (mem g1) = sent w ++ replies c ⟦"OK"⟧ ⟦"Success"⟧ PASSIVE_BACKUP
    /\ runs l2 g1 = Some (e2, g2)
    /\ map snd (take 2 (pool g2)) = [Again 0; Again 0]
    /\ (exists a', lq_rep (r_log (mem g2)) a' /\ control_msgs a' = [])
    /\ state (r_ctl (mem g2)) = PASSIVE_PRIMARY /\ is_chkpt_thrd_running (r_ctl (mem g2)) = 1
    /\ chk_thread (r_ctl (mem g2)) = Some 0.
Proof.
  intros Ha Hk Hp Hpre Hn Hc Hd. cbv zeta. split; [by eapply demotion_leaves_thread|by eapply demotion_undone].
Qed.

(** A replica that was told to take over, and now to be a backup again. *)
Definition backup_order : client_ctx_t :=
  request_ctx 9 0 (set_rep_mgr_msg
    {| rm_rep_mode := PASSIVE_REP; rm_server_state := PASSIVE_BACKUP; rm_checkpoint_freq := 30;
       rm_bckup_svr_0 := BSVR_CTX_ZERO; rm_bckup_svr_1 := BSVR_CTX_ZERO |}
    (set_msg_type MSG_REP_MGR CLIENT_REQUEST_INITIALISER)).
Definition order_logged (c : client_ctx_t) : MsgLog.log_mem (V := client_ctx_t) :=
  match impl_run [Put c CONTROL] demo_log with Ret (_, q) => q | _ => demo_log end.
Definition preprimary_replica : replica (MsgLog.log_mem (V := client_ctx_t)) :=
  set_r_ctl preprimary_ctl (set_r_log (order_logged backup_order) (replica_init demo_log)).

Lemma demotion_race_witness :
  (exists l e g, demo_runs l (demo_server preprimary_replica) = Some (e, g)
    /\ state (r_ctl (mem g)) = PASSIVE_BACKUP /\ is_chkpt_thrd_running (r_ctl (mem g)) = 1)
  /\ exists l1 e1 g1 l2 e2 g2, demo_runs l1 (demo_server preprimary_replica) = Some (e1, g1)
    /\ state (r_ctl (mem g1)) = PASSIVE_BACKUP
    /\ demo_runs l2 g1 = Some (e2, g2) /\ state (r_ctl (mem g2)) = PASSIVE_PRIMARY.
Proof.
  destruct (demotion_race dirty_malloc demo_sha1 1 (fun _ => 0) 0 (fun _ => true) 1 demo_env []
    preprimary_replica (spec_run [Put backup_order CONTROL] (abs_init 50 50)).2 backup_order)
    as [(l & e & g & E & _ & Hs & Hr & _) (l1 & e1 & g1 & l2 & e2 & g2 & E1 & _ & Hs1 & _ & _ & E2 & _ & _ & Hs2 & _)].
  - exact (logged_rep [Put backup_order CONTROL] (order_logged backup_order) eq_refl).
  - apply ctl_reachable_ok. eapply rtc_l; [by eapply (step_rep_msg preprimary_msg)|apply rtc_refl].
  - done.
  - by vm_compute.
  - done.
  - done.
  - done.
  - split.
    + exists l, e, g. split; [exact E|]. split; [exact Hs|exact Hr].
    + exists l1, e1, g1, l2, e2, g2. split; [exact E1|]. split; [exact Hs1|]. split; [exact E2|exact Hs2].
Defined.

(** What an order to run makes of an active replica. *)
Definition ordered_to_run (m : rep_mgr_msg_t) (k : ctl) : ctl :=
  upd_state ACTIVE_RUNNING (set_checkpoint_freq (rm_checkpoint_freq m)
    (set_bckup_servers (rm_bckup_svr_0 m) (rm_bckup_svr_1 m) k)).

Lemma run_order_obeyed m k : rep_mode k = ACTIVE_REP -> is_chkpt_thrd_running k = 0 ->
  rm_server_state m = ACTIVE_RUNNING -> handle_rep_msg m k = Ret (ordered_to_run m k).
Proof.
  intros Hm Hrun Hst. unfold handle_rep_msg, get_mode, kill_chkpt_thrd_if_running. rewrite Hm, Hst.
  cbn [Z.eqb]. change (ACTIVE_REP =? UNKNOWN_REP) with false. cbv iota. rewrite bind_ret_l, Hrun.
  cbn [Z.eqb]. rewrite bind_ret_l. unfold set_state. simpl rep_mode. by rewrite Hm.
Qed.

(** An order that is lost. A recovering replica is quiesced; the replication
    manager ends the quiesce and orders the replica to run, in this order. There
    is a schedule in which both orders are received and carried out, nothing is
    left to do, and the replica is in recovery: the connection thread has read
    the state to go back to before, and stores it after, the control worker
    obeyed. *)
Theorem running_order_lost {Q} `{FifoLog Q client_ctx_t} malloc sha1 sfuel status_ptr pid can_create server_id env junk
    (w : replica Q) a c (fd : Z) :
  lq_rep (r_log w) a -> ctl_ok (r_ctl w) -> rep_mode (r_ctl w) = ACTIVE_REP ->
  state (r_ctl w) = QUIESCE -> prev_state (r_ctl w) = ACTIVE_RECOVER ->
  control_msgs a = [c] -> msg_type (req c) = MSG_REP_MGR ->
  rm_server_state (rep_mgr_msg (req c)) = ACTIVE_RUNNING ->
  exists l e g, runs status_ptr pid can_create server_id env junk (Arrive (order_ctx fd MSG_QUIESCE_STOP) None :: l)
      (server_workers malloc sha1 sfuel status_ptr pid can_create server_id env junk w) = Some (e, g)
    /\ map snd (take 3 (pool g)) = [Again 0; Again 0; Halt]
    /\ (exists a', lq_rep (r_log (mem g)) a' /\ control_msgs a' = [])
    /\ state (r_ctl (mem g)) = ACTIVE_RECOVER.
Proof.
  intros Ha Hk Hm Hs Hprev Hc Ht Hst. pose (o := order_ctx fd MSG_QUIESCE_STOP).
  assert (is_chkpt_thrd_running (r_ctl w) = 0) as Hrun.
  { apply (ok_other _ Hk). intros [Hx _]. rewrite Hm in Hx. done. }
  destruct (arrived malloc sha1 sfuel status_ptr pid can_create server_id env junk w o) as (g0 & E0 & P0 & P1 & P2).
  set (rest := set_state_t (Q := Q) status_ptr pid can_create server_id env junk ACTIVE_RECOVER
    (load_ctl get_state (fun s => store_ctl (upd_prev s) (close_t fd Halt)))).
  destruct (go_alone status_ptr pid can_create server_id env junk 2 (fun _ => Halt) _ (w, None, rest) g0 P2)
    as (s1 & e1 & g1 & E1 & (M1 & L1 & T1) & K1).
  { unfold dispatch_request_t. change (msg_type (req o)) with MSG_QUIESCE_STOP. cbn [Z.eqb orb].
    unfold handle_quiesce_command_t. apply alone_load. rewrite Hprev. apply alone_refl. }
  set (k := ordered_to_run (rep_mgr_msg (req c)) (r_ctl w)).
  assert (handle_rep_msg (rep_mgr_msg (req c)) (r_ctl w) = Ret k) as Hh by by apply run_order_obeyed.
  destruct (run_control (hn malloc sha1 sfuel) (hc status_ptr pid can_create server_id env junk) 0 w a c [] Ha Hc)
    as (q & Hq & Er).
  unfold hc in Er at 2. rewrite (ctrl_rep_msg status_ptr pid can_create server_id env junk c (set_r_log q w) k Ht Hh) in Er.
  match type of Er with _ = Ret ?x => set (w2 := x) in Er end.
  assert (r_ctl w2 = k /\ r_log w2 = q) as [Kw Lw].
  { unfold w2. rewrite reply_eq.
    match goal with |- context [close_fd ?f ?x] => destruct (close_fd_frame f x) as (-> & _ & -> & _) end. done. }
  destruct P0 as (_ & _ & T00). destruct P1 as (_ & _ & T01).
  destruct (go_alone status_ptr pid can_create server_id env junk 1
    (body_of malloc sha1 sfuel status_ptr pid can_create server_id env junk CONTROL) (w, None, Again 0) (w2, None, Again 0) g1)
    as (s2 & e2 & g2 & E2 & (M2 & L2 & T2) & K2).
  { split; [done|]. split; [done|]. by apply K1. }
  { eapply run_alone; [done|intros _; by rewrite Hrun|exact Er]. }
  set (w3 := close_fd fd (set_r_ctl (upd_prev ACTIVE_RECOVER (upd_state ACTIVE_RECOVER k)) w2)).
  destruct (go_alone status_ptr pid can_create server_id env junk 2 (fun _ => Halt) (w2, None, rest) (w3, None, Halt) g2)
    as (s3 & e3 & g3 & E3 & (M3 & L3 & T3) & K3).
  { split; [done|]. split; [done|]. by apply K2. }
  { assert (set_state ACTIVE_RECOVER (r_ctl w2) = Ret (upd_state ACTIVE_RECOVER k)) as Es
      by (by rewrite Kw, set_state_active).
    eapply set_state_alone; [exact Es|intros [=]|by apply alone_load, alone_store, alone_store, alone_refl]. }
  pose proof (runs_app _ _ _ _ _ _ _ _ _ _ _ _ _ E0 (runs_app _ _ _ _ _ _ _ _ _ _ _ _ _ E1
    (runs_app _ _ _ _ _ _ _ _ _ _ _ _ _ E2 E3))) as E.
  eexists _, _, g3. split; [exact E|]. rewrite M3. cbn [fst snd]. unfold w3.
  match goal with |- context [close_fd ?f ?x] => destruct (close_fd_frame f x) as (-> & _ & -> & _) end.
  split; [|split; [|done]].
  - assert (pool g3 !! 0%nat = Some (body_of malloc sha1 sfuel status_ptr pid can_create server_id env junk NORMAL, Again 0))
      as T0 by (apply K3; [done|]; apply K2; [done|]; by apply K1).
    assert (pool g3 !! 1%nat = Some (body_of malloc sha1 sfuel status_ptr pid can_create server_id env junk CONTROL, Again 0))
      as T1' by (by apply K3).
    destruct (pool g3) as [|p0 [|p1 [|p2 ps]]]; try done. injection T0 as ->. injection T1' as ->. injection T3 as ->. done.
  - exists (set_msgs CONTROL [] a). split; [|done]. simpl. by rewrite Lw.
Qed.

Definition run_order : client_ctx_t :=
  request_ctx 9 0 (set_rep_mgr_msg (active_msg ACTIVE_RUNNING) (set_msg_type MSG_REP_MGR CLIENT_REQUEST_INITIALISER)).
Definition recovering_replica : replica (MsgLog.log_mem (V := client_ctx_t)) :=
  set_r_ctl (active_ctl QUIESCE ACTIVE_RECOVER) (set_r_log (order_logged run_order) (replica_init demo_log)).

Lemma running_order_lost_witness : exists l e g,
  demo_runs (Arrive (order_ctx 9 MSG_QUIESCE_STOP) None :: l) (demo_server recovering_replica) = Some (e, g)
  /\ state (r_ctl (mem g)) = ACTIVE_RECOVER.
Proof.
  destruct (running_order_lost dirty_malloc demo_sha1 1 (fun _ => 0) 0 (fun _ => true) 1 demo_env []
    recovering_replica (spec_run [Put run_order CONTROL] (abs_init 50 50)).2 run_order 9)
    as (l & e & g & E & _ & _ & Hs).
  - exact (logged_rep [Put run_order CONTROL] (order_logged run_order) eq_refl).
  - apply active_ctl_ok; [by right; right; right|by right; right; left].
  - done.
  - done.
  - done.
  - done.
  - done.
  - done.
  - exists l, e, g. split; [exact E|exact Hs].
Defined.

(** ** The state is printed without the lock *)

(** A primary asked for a checkpoint while an addition is in its log: the
    normal worker is about to work on the table, which it owns, while the
    control worker is about to walk it for [print_state]. *)
Definition busy_replica : replica (MsgLog.log_mem (V := client_ctx_t)) :=
  set_r_ctl (active_ctl ACTIVE_RUNNING 0)
    (set_r_log (match impl_run [Put (order_ctx 9 MSG_SEND_CHKPT) CONTROL; Put (bread_add 3) NORMAL] demo_log with
                | Ret (_, q) => q | _ => demo_log end) (replica_init demo_log)).
Definition print_schedule : list choice := replicate 19 (Run 1) ++ replicate 10 (Run 0).

Lemma print_races_with_storage :
  match demo_runs print_schedule (demo_server busy_replica) with
  | Some (_, g) => map (fun p => next_access p.2) (pool g) = [AStorage; APrint] /\ storage_lock g = Some 0%nat
  | None => False
  end.
Proof. by vm_compute. Qed.
