(* ===== verification/Modes.v ===== *)
(** What every state of a server satisfies under every schedule of its threads,
    access by access: the mode and the state agree, the mode is set once, a
    checkpoint thread needs the passive mode; and, from the command line on, the
    table, the log and the logged requests are well formed.

    The argument is one of rely and guarantee. A thread knows something about
    the mode that no other thread can make false: only the control worker sets
    the mode, and only as long as it is not known. *)
From S2P Require Import Prelude CLib Iface Util Request Fifo Control Db Storage Replica Server Worker System Daemon Launch Threads.
From S2P Require Import Failover Agreement Interleave Grain Races.
From S2P Require MsgLog.

(** * The control state between two accesses *)

(** A state of the mode, or no state yet. *)
Definition state_ok (m s : Z) : Prop := s = UNKNOWN_STATE \/ state_allowed m s = true.

Record modes_ok (k : ctl) : Prop := {
  mo_mode : rep_mode k = UNKNOWN_REP \/ rep_mode k = ACTIVE_REP \/ rep_mode k = PASSIVE_REP;
  mo_state : state_ok (rep_mode k) (state k);
  mo_prev : state_ok (rep_mode k) (prev_state k);
  mo_flags : (signal_exit_checkpt_thread k = 0 \/ signal_exit_checkpt_thread k = 1)
             /\ (is_chkpt_thrd_running k = 0 \/ is_chkpt_thrd_running k = 1);
  mo_thread : rep_mode k <> PASSIVE_REP ->
              signal_exit_checkpt_thread k = 0 /\ is_chkpt_thrd_running k = 0 /\ chk_thread k = None
}.

Lemma modes_init : modes_ok ctl_init.
Proof. constructor; cbn; auto; by left. Qed.

Lemma state_ok_unknown m s : state_ok UNKNOWN_REP s -> state_ok m s.
Proof. intros [->|Hs]; [by left|done]. Qed.

(** How an access of a thread may change the mode; [ctl]: the thread is the
    control worker. *)
Definition mode_step (ctl : bool) (m m' : Z) : Prop :=
  m' = m \/ (ctl = true /\ m = UNKNOWN_REP).

(** What a thread may know about the mode: no other thread makes it false. *)
Definition stable (ctl : bool) (K : Z -> Prop) : Prop :=
  ctl = true \/ (K UNKNOWN_REP -> forall m, K m).

Lemma stable_set ctl m : m <> UNKNOWN_REP -> stable ctl (eq m).
Proof. intros Hm. right. by intros ->. Qed.

Lemma stable_state ctl s : stable ctl (fun m => state_ok m s).
Proof. right. intros Hs m. by apply state_ok_unknown. Qed.

Lemma stable_True ctl : stable ctl (fun _ => True).
Proof. by right. Qed.

Lemma stable_conj ctl K K' : stable ctl K -> stable ctl K' -> stable ctl (fun m => K m /\ K' m).
Proof. intros [?|H1] [?|H2]; [by left..|]. right. intros [? ?] m. by split; [apply H1|apply H2]. Qed.

(** * Threads that keep the invariant *)

Section Modes.
Context {Q : Type} `{FifoLog Q client_ctx_t}.
Variable malloc : nat -> option data_point.
Variable sha1 : bytes -> option bytes.
Variable sfuel : nat.
Variable status_ptr : Z -> Z.
Variable pid : Z.
Variable can_create : bytes -> bool.
Variable server_id : Z.
Variable env : nat -> net_step.
Variable junk : bytes.

(** An invariant [X] of the table and the log, with requests that satisfy [P]
    in the log. *)
Record data_inv (X : replica Q -> Prop) (P : client_ctx_t -> Prop) : Prop := {
  di_frame : forall w w', r_db w' = r_db w -> r_log w' = r_log w -> X w -> X w';
  di_backlog : forall b c, P c -> P (set_is_backlog b c);
  di_put : forall w c t r q, X w -> P c -> lq_put (r_log w) c t = Ret (r, q) -> X (set_r_log q w);
  di_take : forall w t o q, X w -> t <> INVALID_LOG -> lq_take (r_log w) t = Ret (o, q) ->
    X (set_r_log q w) /\ forall c, o = Some c -> P c;
  di_count : forall w t n q, X w -> t <> INVALID_LOG -> lq_count (r_log w) t = Ret (n, q) -> X (set_r_log q w);
  di_storage : forall w c r c' d, X w -> P c ->
    handle_storage malloc sha1 sfuel c (r_db w) = Ret (r, c', d) -> X (set_r_db d w);
  di_export : forall w name d, X w -> export_db status_ptr pid can_create (r_db w) = Ret (name, d) -> X (set_r_db d w);
  di_file : forall w n f, X w -> X (set_r_db (upd_files n f (r_db w)) w)
}.

Variable X : replica Q -> Prop.
Variable P : client_ctx_t -> Prop.
Hypothesis HX : data_inv X P.

Definition inv (w : replica Q) : Prop := modes_ok (r_ctl w) /\ X w.
Abbreviation mode w := (rep_mode (r_ctl w)).

(** Knowing [K], every access keeps the invariant and guarantees what the
    others rely on; a new thread is a checkpoint thread of a passive server. *)
Fixpoint safe (ctl : bool) (K : Z -> Prop) (t : thread Q) : Prop :=
  match t with
  | Halt | Again _ => True
  | Act _ B f _ k => forall w b w', inv w -> K (mode w) -> f w = Ret (b, w') ->
      inv w' /\ mode_step ctl (mode w) (mode w')
      /\ exists K', stable ctl K' /\ K' (mode w') /\ safe ctl K' (k b)
  | Lock k | Unlock k => safe ctl K k
  | Fork body k => (forall m, K m -> m = PASSIVE_REP)
      /\ (forall n, safe false (eq PASSIVE_REP) (body n)) /\ safe ctl K k
  end.

Lemma safe_weaken ctl (K K' : Z -> Prop) t : (forall m, K' m -> K m) -> safe ctl K t -> safe ctl K' t.
Proof.
  intros HK. induction t as [|n|x B f ev k IH|k IH|k IH|body _ k IH]; cbn [safe]; try done.
  - intros Ht w b w' Hw Hk. by apply Ht; [|apply HK].
  - intros (Hp & Hb & Hk). split; [intros m Hm; by apply Hp, HK|]. split; [done|by apply IH].
Qed.

(** ** Single accesses *)

Implicit Types K : Z -> Prop.

(** A load of something: the rest may use what it says about the mode. *)
Lemma load_learns ctl K {B} (f : replica Q -> B) k :
  (forall w, inv w -> K (mode w) -> exists K', stable ctl K' /\ K' (mode w) /\ safe ctl K' (k (f w))) ->
  safe ctl K (load f k).
Proof. intros Hk w b w' Hw HK [= <- <-]. split; [done|]. split; [by left|]. by apply Hk. Qed.

Lemma load_safe ctl K {B} (f : replica Q -> B) k : stable ctl K -> (forall b, safe ctl K (k b)) -> safe ctl K (load f k).
Proof. intros Hs Hk. apply load_learns. intros w _ Hm. by exists K. Qed.

(** The mode is loaded: nothing changes it if it is known. *)
Lemma load_mode_safe ctl K (k : Z -> thread Q) : stable ctl K ->
  (forall m, K m -> (m = UNKNOWN_REP -> safe ctl K (k m)) /\ (m <> UNKNOWN_REP -> safe ctl (eq m) (k m))) ->
  safe ctl K (load_ctl rep_mode k).
Proof.
  intros Hs Hk. apply load_learns. intros w _ Hm. destruct (Hk _ Hm) as [Hu Hn].
  destruct (decide (mode w = UNKNOWN_REP)) as [E|E].
  - exists K. split; [done|]. split; [done|]. by apply Hu.
  - exists (eq (mode w)). split; [by apply stable_set|]. split; [done|by apply Hn].
Qed.

Lemma store_safe ctl K f k : stable ctl K ->
  (forall w, inv w -> K (mode w) -> inv (f w) /\ mode (f w) = mode w) -> safe ctl K k -> safe ctl K (store f k).
Proof.
  intros Hs Hf Hk w b w' Hw HK [= <- <-]. destruct (Hf w Hw HK) as [Hw' E].
  split; [done|]. split; [by left|]. exists K. by rewrite E.
Qed.

(** A store outside the control state, the table and the log. *)
Lemma store_frame_safe ctl K f k : stable ctl K ->
  (forall w : replica Q, r_ctl (f w) = r_ctl w /\ r_db (f w) = r_db w /\ r_log (f w) = r_log w) ->
  safe ctl K k -> safe ctl K (store f k).
Proof using HX.
  intros Hs Hf Hk. apply store_safe; [done| |done]. intros w [Hm Hx] _. destruct (Hf w) as (E1 & E2 & E3).
  rewrite E1. split; [|done]. split; [by rewrite E1|by apply (di_frame X P HX w)].
Qed.

Lemma store_ctl_safe ctl K f k : stable ctl K ->
  (forall c, modes_ok c -> K (rep_mode c) -> modes_ok (f c) /\ rep_mode (f c) = rep_mode c) ->
  safe ctl K k -> safe ctl K (store_ctl f k).
Proof using HX.
  intros Hs Hf Hk. apply store_safe; [done| |done]. intros w [Hm Hx] HK. destruct (Hf _ Hm HK) as [H1 H2].
  split; [|done]. split; [done|by apply (di_frame X P HX w)].
Qed.

Lemma require_safe ctl K b k : (b = true -> safe ctl K k) -> safe ctl K (require b k).
Proof. intros Hk. unfold require. destruct b; [by apply Hk|]. by intros w []. Qed.

Lemma lock_safe ctl K k : safe ctl K k -> safe ctl K (Lock k).
Proof. done. Qed.
Lemma unlock_safe ctl K k : safe ctl K k -> safe ctl K (Unlock k).
Proof. done. Qed.

Lemma test_safe ctl K m s k : stable ctl K -> (forall b, safe ctl K (k b)) -> safe ctl K (test m s k).
Proof.
  intros Hs Hk. apply load_safe; [done|]. intros m'. case_if; [|by apply Hk]. apply load_safe; [done|].
  intros s'. apply Hk.
Qed.

Lemma reply_safe ctl K c st m k : stable ctl K -> safe ctl K k -> safe ctl K (reply_t c st m k).
Proof using HX. intros Hs. apply store_frame_safe; [done|]. intros w. rewrite reply_eq. done. Qed.

Lemma close_safe ctl K fd k : stable ctl K -> safe ctl K k -> safe ctl K (close_t fd k).
Proof using HX. intros Hs. apply store_frame_safe; [done|]. intros w. unfold close_fd. by case_if. Qed.

(** An access to the table or the log. *)
Lemma data_safe ctl K x B f ev (k : B -> thread Q) : stable ctl K ->
  (forall w b w', inv w -> f w = Ret (b, w') -> r_ctl w' = r_ctl w /\ X w' /\ safe ctl K (k b)) ->
  safe ctl K (Act x B f ev k).
Proof.
  intros Hs Hf w b w' Hw HK E. destruct (Hf w b w' Hw E) as (E1 & Hx & Hk).
  split; [split; [rewrite E1; apply Hw|done]|]. rewrite E1. split; [by left|]. by exists K.
Qed.

Lemma take_safe ctl K t k : stable ctl K -> t <> INVALID_LOG ->
  safe ctl K (k None) -> (forall c, P c -> safe ctl K (k (Some c))) -> safe ctl K (take_t t k).
Proof using HX.
  intros Hs Ht Hn Hc. apply data_safe; [done|]. intros w o w' [_ Hx] E.
  apply bind_Ret_inv in E as ([o' q] & E & [= <- <-]). destruct (di_take X P HX w t o' q Hx Ht E) as [Hx' Hp].
  split; [done|]. split; [done|]. destruct o' as [c|]; [by apply Hc, Hp|done].
Qed.

Lemma count_safe ctl K t k : stable ctl K -> t <> INVALID_LOG -> (forall n, safe ctl K (k n)) -> safe ctl K (count_t t k).
Proof using HX.
  intros Hs Ht Hk. apply data_safe; [done|]. intros w o w' [_ Hx] E.
  apply bind_Ret_inv in E as ([n q] & E & [= <- <-]). split; [done|]. split; [by eapply (di_count X P HX)|done].
Qed.

Lemma put_safe ctl K c t k : stable ctl K -> P c -> (forall n, safe ctl K (k n)) -> safe ctl K (put_t c t k).
Proof using HX.
  intros Hs Hc Hk. apply data_safe; [done|]. intros w o w' [_ Hx] E.
  apply bind_Ret_inv in E as ([n q] & E & [= <- <-]). split; [done|]. split; [by eapply (di_put X P HX)|done].
Qed.

(** The stores that do not touch mode, state and the checkpoint thread. *)
Ltac ctl_frame := let c := fresh in let Hc := fresh in intros c Hc _; split; [|done];
  destruct Hc; by constructor.

Ltac stay := repeat first
  [ progress intros
  | assumption
  | match goal with
    | |- safe _ _ (load_ctl _ _) => apply load_safe; [assumption|]
    | |- safe _ _ (load _ _) => apply load_safe; [assumption|]
    | |- safe _ _ (test _ _ _) => apply test_safe; [assumption|]
    | |- safe _ _ (reply_t _ _ _ _) => apply reply_safe; [assumption|]
    | |- safe _ _ (close_t _ _) => apply close_safe; [assumption|]
    | |- safe _ _ (store_ctl _ _) => apply store_ctl_safe; [assumption|ctl_frame|]
    | |- safe _ _ (store _ _) => apply store_frame_safe; [assumption|by intros|]
    | |- safe _ _ (Again _) => exact I
    | |- safe _ _ Halt => exact I
    | |- safe _ _ (if ?b then _ else _) => destruct b
    | |- safe _ _ (match ?o with Some _ => _ | None => _ end) => destruct o
    end ].

(** ** The checkpoint thread *)

Lemma thread_store_safe ctl K f k : stable ctl K -> (forall m, K m -> m = PASSIVE_REP) ->
  (forall c, modes_ok c -> exists sg r t, f c = upd_thread sg r t c /\ (sg = 0 \/ sg = 1) /\ (r = 0 \/ r = 1)) ->
  safe ctl K k -> safe ctl K (store_ctl f k).
Proof using HX.
  intros Hs Hp Hf Hk. apply store_ctl_safe; [done| |done]. intros c Hc HK. destruct (Hf c Hc) as (sg & r & t & -> & Hsg & Hr).
  split; [|done]. destruct Hc as [H1 H2 H3 H4 H5]. constructor; [done..|by split|]. intros Hn. by destruct (Hn (Hp _ HK)).
Qed.

Lemma flag_signal c : modes_ok c -> signal_exit_checkpt_thread c = 0 \/ signal_exit_checkpt_thread c = 1.
Proof. by intros [_ _ _ [H1 _] _]. Qed.
Lemma flag_running c : modes_ok c -> is_chkpt_thrd_running c = 0 \/ is_chkpt_thrd_running c = 1.
Proof. by intros [_ _ _ [_ H1] _]. Qed.

Lemma set_servers_ok b0 b1 c : modes_ok c -> modes_ok (set_bckup_servers b0 b1 c).
Proof. intros [H1 H2 H3 H4 H5]. by constructor. Qed.

Lemma send_to_safe ctl K which name k : stable ctl K -> safe ctl K k ->
  safe ctl K (send_to_t server_id env which name k).
Proof using HX.
  intros Hs Hk. unfold send_to_t, write_check_point_t. stay.
  apply data_safe; [done|]. intros w t w' [_ Hx] E. apply bind_Ret_inv in E as (t' & _ & [= <- <-]).
  split; [done|]. split; [done|]. apply data_safe; [done|]. clear w Hx. intros w u w' [_ Hx] E. cbv zeta in E.
  assert (r_ctl w' = r_ctl w /\ X w') as [E1 Hx'].
  { revert E. case_if; [intros [= _ <-]; split; [done|by apply (di_frame X P HX w)]|].
    intros E. apply bind_Ret_inv in E as ([y n] & _ & [= _ <-]). split; [done|by apply (di_frame X P HX w)]. }
  split; [done|]. split; [done|]. stay.
Qed.

Lemma send_checkpoint_safe ctl K k : stable ctl K -> safe ctl K k ->
  safe ctl K (send_checkpoint_t status_ptr pid can_create server_id env junk k).
Proof using HX.
  intros Hs Hk. unfold send_checkpoint_t.
  apply store_safe; [done| |apply store_safe; [done| |]].
  1-2: intros w [Hm Hx] _; match goal with |- context [open_port env ?b ?n] => destruct (open_port env b n) end;
    (split; [|done]); (split; [by apply set_servers_ok|by apply (di_frame X P HX w)]).
  apply lock_safe, data_safe; [done|]. intros w name w' [_ Hx] E.
  apply bind_Ret_inv in E as ([nm d] & E & [= <- <-]). split; [done|]. split; [by eapply (di_export X P HX)|].
  apply unlock_safe, data_safe; [done|]. clear w Hx E. intros w n w' [_ Hx] E.
  apply bind_Ret_inv in E as (n' & _ & [= <- <-]). split; [done|]. split; [done|].
  apply send_to_safe; [done|]. apply send_to_safe; [done|]. stay.
Qed.

Lemma checkpoint_safe n : safe false (eq PASSIVE_REP) (checkpoint_body status_ptr pid can_create server_id env junk n).
Proof using HX.
  assert (stable false (eq PASSIVE_REP)) as Hs by by apply stable_set.
  assert (forall m, PASSIVE_REP = m -> m = PASSIVE_REP) as Hp by done.
  unfold checkpoint_body. apply load_safe; [done|]. intros freq. case_if.
  - apply load_safe; [done|]. intros s. case_if.
    + apply thread_store_safe; [done|done| |apply thread_store_safe; [done|done| |done]];
        intros c Hc; eexists _, _, _; (split; [reflexivity|]); auto using flag_running, flag_signal.
    + apply thread_store_safe; [done|done| |done]; intros c Hc; eexists _, _, _; (split; [reflexivity|]);
        auto using flag_running, flag_signal.
  - apply thread_store_safe; [done|done| |by apply send_checkpoint_safe]; intros c Hc; eexists _, _, _;
      (split; [reflexivity|]); auto using flag_running, flag_signal.
Qed.

Lemma start_safe ctl K k : stable ctl K -> (forall m, K m -> m = PASSIVE_REP) -> safe ctl K k ->
  safe ctl K (start_ckhpt_thread_t status_ptr pid can_create server_id env junk k).
Proof using HX.
  intros Hs Hp Hk. unfold start_ckhpt_thread_t. apply load_safe; [done|]. intros r. case_if; [done|].
  cbn [safe]. split; [done|]. split; [apply checkpoint_safe|].
  apply thread_store_safe; [done|done| |done]. intros c Hc. eexists _, _, _. split; [reflexivity|].
  auto using flag_signal.
Qed.

(** A thread that runs makes the mode known. *)
Lemma kill_safe ctl K k : stable ctl K -> safe ctl K k -> safe ctl K (kill_chkpt_thrd_if_running_t k).
Proof using HX.
  intros Hs Hk. unfold kill_chkpt_thrd_if_running_t, stop_chk_pt_thread_t. apply load_learns. intros w [Hm Hx] HK.
  destruct (Z.eqb_spec (is_chkpt_thrd_running (r_ctl w)) 1) as [Hr|_]; [|by exists K].
  assert (mode w = PASSIVE_REP) as Hmode.
  { destruct (decide (mode w = PASSIVE_REP)) as [|Hn]; [done|]. destruct (mo_thread _ Hm Hn) as (_ & E & _). congruence. }
  exists (eq PASSIVE_REP). assert (stable ctl (eq PASSIVE_REP)) as Hs' by by apply stable_set.
  split; [done|]. split; [done|]. apply thread_store_safe; [done|done| |].
  { intros c Hc. eexists _, _, _. split; [reflexivity|]. auto using flag_running. }
  apply data_safe; [done|]. intros w' u w'' [_ Hx'] E. case_if; [done|]. injection E as _ <-.
  split; [done|]. split; [done|]. eapply safe_weaken; [|exact Hk]. intros m <-. by rewrite <- Hmode.
Qed.

(** ** The state and the mode *)

(** [set_state] checks the state against a mode that does not change any more. *)
Lemma set_state_safe ctl K s k : stable ctl K -> safe ctl K k ->
  safe ctl K (set_state_t status_ptr pid can_create server_id env junk s k).
Proof using HX.
  intros Hs Hk. unfold set_state_t. cbv zeta. apply load_mode_safe; [done|]. intros m HK. split.
  { intros ->. by apply require_safe. }
  intros Hn. apply require_safe. intros _. assert (stable ctl (eq m)) as Hm by by apply stable_set.
  assert (safe ctl (eq m) k) as Hk' by (eapply safe_weaken; [|exact Hk]; by intros ? <-).
  match goal with |- safe _ _ (load_ctl _ (fun m1 => if _ then require _ ?r else _)) => set (rest := r) end.
  assert (state_ok m s -> safe ctl (eq m) rest) as Hrest.
  { intros Hok. assert (safe ctl (eq m) (store_ctl (upd_state s) k)) as Hlast.
    { apply store_ctl_safe; [done| |done]. intros c [H1 H2 H3 H4 H5] ->. by split; [constructor|]. }
    apply load_mode_safe; [done|]. intros m3 <-. split; [done|]. intros _.
    destruct (Z.eqb_spec m PASSIVE_REP) as [->|_]; [|done].
    case_if; [by apply start_safe|]. case_if; [by apply kill_safe|done]. }
  apply load_mode_safe; [done|]. intros m1 <-. split; [done|]. intros _. destruct (Z.eqb_spec m ACTIVE_REP) as [->|Ha].
  - apply require_safe. intros Hal. apply Hrest. by right.
  - apply load_mode_safe; [done|]. intros m2 <-. split; [done|]. intros _.
    destruct (Z.eqb_spec m PASSIVE_REP) as [->|Hp].
    + apply require_safe. intros Hal. apply Hrest. by right.
    + apply Hrest. right. unfold state_allowed. by rewrite !(proj2 (Z.eqb_neq _ _)).
Qed.

(** Only the control worker sets the mode. *)
Lemma set_mode_safe K m k : (forall m0, K m0 -> m0 = UNKNOWN_REP) -> safe true (fun _ => True) k ->
  safe true K (set_mode_t m k).
Proof using HX.
  intros HK Hk. unfold set_mode_t. apply load_learns. intros w Hw Hm. exists K. split; [by left|]. split; [done|].
  apply require_safe. intros _. apply require_safe. intros Hrange. clear w Hw Hm.
  intros w u w' [Hm Hx] Hu [= <- <-]. pose proof (HK _ Hu) as E.
  assert (m = ACTIVE_REP \/ m = PASSIVE_REP) as Hm2 by (unfold_enums; zbool; lia).
  split; [|split; [by right|]].
  - split; [|by apply (di_frame X P HX w)]. destruct Hm as [H1 H2 H3 H4 H5]. cbn [r_ctl set_r_ctl].
    rewrite E in *. constructor; cbn [rep_mode upd_mode state prev_state]; [by right|by apply state_ok_unknown..|done|].
    intros _. by apply H5.
  - exists (fun _ => True). split; [by left|]. by split.
Qed.

Lemma handle_rep_msg_safe m k : safe true (fun _ => True) k ->
  safe true (fun _ => True) (handle_rep_msg_t status_ptr pid can_create server_id env junk m k).
Proof using HX.
  intros Hk. assert (stable true (fun _ => True)) as Hs by apply stable_True. unfold handle_rep_msg_t. cbv zeta.
  match goal with |- context [set_mode_t _ ?r] => set (rest := r) end.
  assert (safe true (fun _ => True) rest) as Hrest.
  { apply kill_safe; [done|]. stay. by apply set_state_safe. }
  apply load_learns. intros w _ _. destruct (Z.eqb_spec (get_mode (r_ctl w)) UNKNOWN_REP) as [E|_].
  - exists (eq UNKNOWN_REP). split; [by left|]. split; [by rewrite <- E|]. by apply set_mode_safe.
  - by exists (fun _ => True).
Qed.

(** ** The connection threads *)

Abbreviation any := (fun _ : Z => True).

Lemma quiesce_safe t k : (forall n, safe false any (k n)) ->
  safe false any (handle_quiesce_command_t status_ptr pid can_create server_id env junk t k).
Proof using HX.
  intros Hk. assert (stable false any) as Hs by apply stable_True.
  assert (forall k', safe false any k' ->
    safe false any (load_ctl get_state (fun s => store_ctl (upd_prev s) k'))) as Hprev.
  { intros k' Hk'. apply load_learns. intros w [Hm _] _. exists (fun m => state_ok m (get_state (r_ctl w))).
    assert (stable false (fun m => state_ok m (get_state (r_ctl w)))) as Hst by apply stable_state.
    split; [done|]. split; [apply Hm|]. apply store_ctl_safe; [done| |].
    - intros c [H1 H2 H3 H4 H5] Hok. split; [|done]. by constructor.
    - by eapply safe_weaken; [|exact Hk']. }
  unfold handle_quiesce_command_t. case_if; [apply Hprev, set_state_safe; [done|apply Hk]|].
  case_if; [|apply Hk]. apply load_safe; [done|]. intros p. apply set_state_safe; [done|]. apply Hprev, Hk.
Qed.

Lemma enqueue_safe c k : P c -> (forall n, safe false any (k n)) -> safe false any (enqueue_client_req_t c k).
Proof using HX.
  intros Hc Hk. assert (stable false any) as Hs by apply stable_True. unfold enqueue_client_req_t.
  apply test_safe; [done|]. intros b. cbv zeta.
  assert (P (set_is_backlog b c)) as Hc' by by apply (di_backlog X P HX).
  case_if; [apply store_frame_safe; [done|by intros|]|]; by apply put_safe.
Qed.

Lemma dispatch_safe c : P c -> safe false any (dispatch_request_t status_ptr pid can_create server_id env junk c).
Proof using HX.
  intros Hc. assert (stable false any) as Hs by apply stable_True. unfold dispatch_request_t. cbv zeta.
  case_if; [apply quiesce_safe; stay|]. apply enqueue_safe; [done|]. intros n. stay.
Qed.

Lemma connection_safe c file : P c ->
  safe false any (connection_t status_ptr pid can_create server_id env junk c file).
Proof using HX.
  intros Hc. destruct file as [[name data]|]; [|by apply dispatch_safe].
  apply data_safe; [apply stable_True|]. intros w u w' [_ Hx] [= _ <-]. split; [done|].
  split; [by apply (di_file X P HX)|by apply dispatch_safe].
Qed.

(** ** The workers *)

Lemma execute_safe ctl c k : P c -> safe ctl any k ->
  safe ctl any (execute_msg_t malloc sha1 sfuel status_ptr pid can_create server_id env junk c k).
Proof using HX.
  intros Hc Hk. assert (stable ctl any) as Hs by apply stable_True. unfold execute_msg_t. cbv zeta. apply lock_safe.
  match goal with |- context [storage_t malloc sha1 sfuel c ?k'] => set (after := k') end.
  assert (safe ctl any (storage_t malloc sha1 sfuel c after)) as Hst.
  { apply data_safe; [done|]. intros w p w' [_ Hx] E. apply bind_Ret_inv in E as ([[r c'] d] & E & [= <- <-]).
    split; [done|]. split; [by eapply (di_storage X P HX)|]. unfold after. cbn [fst snd].
    assert (safe ctl any (Unlock (reply_t c' ⟦"OK"⟧ ⟦"Success"⟧ (close_t (cc_fd c') k)))) as Hd by (apply unlock_safe; stay).
    stay. }
  apply test_safe; [done|]. intros b. case_if; [by apply set_state_safe|done].
Qed.

Lemma execute_ctrl_safe c k : safe true any k ->
  safe true any (execute_msg_ctrl_t status_ptr pid can_create server_id env junk c k).
Proof using HX.
  intros Hk. assert (stable true any) as Hs by apply stable_True. unfold execute_msg_ctrl_t. cbv zeta.
  match goal with |- context [handle_rep_msg_t _ _ _ _ _ _ _ ?d] => set (done := d) end.
  assert (safe true any done) as Hd by (unfold done; stay).
  case_if; [by apply handle_rep_msg_safe|]. case_if; [done|]. case_if; [|done].
  apply load_safe; [done|]. intros p. case_if; [by apply send_checkpoint_safe|done].
Qed.

(** The control worker is the one that does not take from the normal queue. *)
Definition is_control (prio : log_msg_type) : bool := bool_decide (prio = CONTROL).

Lemma run_rest_safe prio : prio <> INVALID_LOG ->
  safe (is_control prio) any (run_rest_t malloc sha1 sfuel status_ptr pid can_create server_id env junk prio).
Proof using HX.
  intros Hp. assert (forall ctl, stable ctl any) as Hs by (intros; apply stable_True).
  unfold run_rest_t. cbv zeta. apply load_safe; [done|]. intros p.
  match goal with |- context [if p =? 0 then test _ _ ?k else ?t] => set (awake := t) end.
  assert (safe (is_control prio) any awake) as Ha.
  2:{ case_if; [|done]. apply test_safe; [done|]. intros b. by case_if. }
  unfold awake. destruct prio; [done|..].
  - rewrite bool_decide_true by done. apply count_safe; [done|done|]. intros n.
    match goal with |- context [set_state_t _ _ _ _ _ _ PASSIVE_PRIMARY ?k] => set (counted := k) end.
    assert (safe (is_control NORMAL) any counted) as Hc.
    { unfold counted. cbn [Z.eqb negb]. case_if; [done|]. case_if; [|done].
      apply load_safe; [done|]. intros s. case_if; [|done]. apply take_safe; [done|done|done|].
      intros c Hc. by apply execute_safe. }
    apply test_safe; [done|]. intros b. case_if; [by apply set_state_safe|done].
  - rewrite bool_decide_false by done. apply count_safe; [done|done|]. intros n. cbn [Z.eqb negb andb].
    case_if; [done|]. case_if; [|done]. apply take_safe; [done|done|done|]. intros c _.
    by apply execute_ctrl_safe.
Qed.

Lemma run_body_safe prio n : prio <> INVALID_LOG ->
  safe (is_control prio) any (run_body malloc sha1 sfuel status_ptr pid can_create server_id env junk prio n).
Proof using HX.
  intros Hp. assert (stable false any) as Hs by apply stable_True. pose proof (run_rest_safe prio Hp) as Hrest.
  unfold run_body. case_bool_decide as Hn; [|done]. subst prio. change (is_control NORMAL) with false in *.
  destruct (n =? 1); [|apply load_safe; [done|]; intros p; by case_if].
  apply take_safe; [done|done|done|]. intros c Hc. case_if.
  - apply data_safe; [done|]. intros w u w' [_ Hx] [= _ <-]. unfold free_msg, close_fd.
    split; [by case_if|]. split; [|done]. apply (di_frame X P HX w); [by case_if..|done].
  - apply store_frame_safe; [done|by intros|by apply execute_safe].
Qed.

(** * The process *)

Abbreviation body_of prio := (run_body malloc sha1 sfuel status_ptr pid can_create server_id env junk prio).
Abbreviation connect := (connection_t status_ptr pid can_create server_id env junk).
Abbreviation is_ctl i := (bool_decide (i = 1%nat)).

(** The loops a server runs without being passive. *)
Definition modeless (body : Z -> thread Q) : Prop :=
  body = body_of NORMAL \/ body = body_of CONTROL \/ body = (fun _ => Halt).

(** Thread [i] when the mode is [m]: what it knows at the head of its loop, and
    what it knows now. *)
Definition thread_ok (i : nat) (m : Z) (body : Z -> thread Q) (t : thread Q) : Prop :=
  (exists K, stable (is_ctl i) K /\ K m /\ forall n, safe (is_ctl i) K (body n))
  /\ (exists K, stable (is_ctl i) K /\ K m /\ safe (is_ctl i) K t)
  /\ (modeless body \/ m = PASSIVE_REP).

Record modes_process (g : process Q) : Prop := {
  mp_inv : inv (mem g);
  mp_workers : map fst (take 2 (pool g)) = [body_of NORMAL; body_of CONTROL];
  mp_threads : forall i body t, pool g !! i = Some (body, t) -> thread_ok i (mode (mem g)) body t
}.

(** Another thread moves. *)
Lemma stable_step i j m m' K : i <> j -> mode_step (is_ctl j) m m' -> stable (is_ctl i) K -> K m -> K m'.
Proof.
  intros Hij [->|[Hj ->]] Hs HK; [done|]. apply bool_decide_eq_true in Hj.
  destruct Hs as [Hi|Hs]; [apply bool_decide_eq_true in Hi; lia|by apply Hs].
Qed.

Lemma thread_ok_step i j m m' body t : i <> j -> mode_step (is_ctl j) m m' ->
  thread_ok i m body t -> thread_ok i m' body t.
Proof.
  intros Hij Hm ((K0 & S0 & M0 & H0) & (K & S & M & Ht) & Hb). split; [|split].
  - exists K0. split; [done|]. split; [by eapply stable_step|done].
  - exists K. split; [done|]. split; [by eapply stable_step|done].
  - destruct Hb as [Hb| ->]; [by left|right]. by destruct Hm as [->|[_ ?]].
Qed.

(** A thread has moved. *)
Lemma moved_ok (g : process Q) i body t w l new : modes_process g -> is_Some (pool g !! i) ->
  fst <$> pool g !! i = Some body -> inv w -> mode_step (is_ctl i) (mode (mem g)) (mode w) ->
  (exists K, stable (is_ctl i) K /\ K (mode w) /\ safe (is_ctl i) K t) ->
  Forall (fun p => mode w = PASSIVE_REP /\ p.2 = p.1 0 /\ forall n, safe false (eq PASSIVE_REP) (p.1 n)) new ->
  modes_process (moved i body t w l new g).
Proof using HX.
  intros [Hg Hw Hth] [[body' t0] Hi] Hb Hinv Hm HK Hnew. rewrite Hi in Hb. injection Hb as ->.
  pose proof (f_equal length Hw) as Hlen. rewrite length_map, length_take in Hlen. cbn [length] in Hlen.
  constructor; cbn [mem pool moved]; [done| |].
  - rewrite take_app_le by (rewrite length_insert; lia). rewrite <- Hw, !fmap_take, list_fmap_insert. cbn [fst].
    by rewrite list_insert_id by by rewrite list_lookup_fmap, Hi.
  - intros j bj tj Hj. apply lookup_app_Some in Hj as [Hj|[Hlj Hj]].
    + destruct (decide (j = i)) as [->|Hne].
      * rewrite list_lookup_insert_eq in Hj by (by eapply lookup_lt_Some). injection Hj as <- <-.
        destruct (Hth i body t0 Hi) as ((K0 & S0 & M0 & H0) & _ & Hb). split; [|split; [done|]].
        -- destruct Hm as [->|[Hc Hu]]; [by exists K0|]. apply bool_decide_eq_true in Hc as ->.
           pose proof (f_equal (fun l => l !! 1%nat) Hw) as H1. cbn in H1.
           change (map fst (take 2 (pool g))) with (fst <$> take 2 (pool g)) in H1.
           rewrite list_lookup_fmap, lookup_take_lt, Hi in H1 by lia. injection H1 as ->.
           exists (fun _ => True). split; [apply stable_True|]. split; [done|]. intros n.
           by apply (run_body_safe CONTROL n).
        -- destruct Hb as [Hb|Hb]; [by left|right]. destruct Hm as [->|[_ Hu]]; [done|by rewrite Hb in Hu].
      * rewrite list_lookup_insert_ne in Hj by done. by eapply thread_ok_step, Hth.
    + rewrite length_insert in Hlj. rewrite Forall_lookup in Hnew. destruct (Hnew _ _ Hj) as (Hp & E & Hs).
      cbn [fst snd] in *. unfold thread_ok. rewrite (bool_decide_false (j = 1%nat)) by lia. subst tj. rewrite Hp.
      assert (stable false (eq PASSIVE_REP)) as Hst by by apply stable_set.
      split; [by exists (eq PASSIVE_REP)|]. split; [by exists (eq PASSIVE_REP)|by right].
Qed.

Lemma run_thread_modes (g g' : process Q) i body t e : modes_process g -> pool g !! i = Some (body, t) ->
  run_thread i body t g = Some (e, g') ->
  modes_process g' /\ mode_step (is_ctl i) (mode (mem g)) (mode (mem g')).
Proof using HX.
  intros Hg Hi E. pose proof (mp_inv _ Hg) as Hinv.
  destruct (mp_threads _ Hg i body t Hi) as (H0 & (K & S & M & Ht) & _).
  assert (is_Some (pool g !! i)) as Hsome by by eexists.
  assert (fst <$> pool g !! i = Some body) as Hb by by rewrite Hi.
  assert (mode_step (is_ctl i) (mode (mem g)) (mode (mem g))) as Hrefl by by left.
  destruct t as [|n|x B f ev k|k|k|new k]; cbn [run_thread] in E; [done|..].
  - injection E as <- <-. split; [|done]. apply moved_ok; try done.
    destruct H0 as (K0 & S0 & M0 & H0). by exists K0.
  - destruct (f (mem g)) as [[b w]| | |] eqn:Ef; [|done..]. injection E as <- <-.
    destruct (Ht (mem g) b w Hinv M Ef) as (Hw & Hm & HK). split; [by apply moved_ok|done].
  - destruct (storage_lock g); [done|]. injection E as <- <-. split; [|done]. apply moved_ok; try done. by exists K.
  - injection E as <- <-. split; [|done]. apply moved_ok; try done. by exists K.
  - injection E as <- <-. split; [|done]. destruct Ht as (Hp & Hs & Hk). apply moved_ok; try done; [by exists K|].
    constructor; [|done]. split; [by apply Hp|done].
Qed.

(** The requests that arrive. *)
Definition arrival_ok (ch : choice) : Prop := match ch with Arrive c _ => P c | Run _ => True end.

Lemma schedule_modes sched : forall (g g' : process Q) e, modes_process g -> Forall arrival_ok sched ->
  schedule connect sched g = Some (e, g') ->
  modes_process g' /\ (mode (mem g) <> UNKNOWN_REP -> mode (mem g') = mode (mem g)).
Proof using HX.
  induction sched as [|ch sched IH]; intros g g' e Hg Hs E; cbn [schedule] in E; [by injection E as <- <-|].
  apply Forall_cons_1 in Hs as [Hch Hs].
  destruct (step connect ch g) as [[e1 g1]|] eqn:E1; [|done]. cbn in E.
  destruct (schedule connect sched g1) as [[e2 g2]|] eqn:E2; [|done]. injection E as <- <-.
  assert (modes_process g1 /\ (mode (mem g) <> UNKNOWN_REP -> mode (mem g1) = mode (mem g))) as [Hg1 Hm1].
  { destruct ch as [i|c file]; cbn [step] in E1.
    - destruct (pool g !! i) as [[body t]|] eqn:Ei; [|done]. cbn in E1.
      destruct (run_thread_modes g g1 i body t e1 Hg Ei E1) as [H1 [H2|[_ H2]]]; split; [done..|]. done.
    - injection E1 as <- <-. split; [|done]. destruct Hg as [H1 H2 H3]. constructor; cbn [mem pool]; [done| |].
      + pose proof (f_equal length H2) as Hlen. rewrite length_map, length_take in Hlen. cbn [length] in Hlen.
        by rewrite take_app_le by lia.
      + intros i body t Hi. apply lookup_app_Some in Hi as [Hi|[Hl Hi]]; [by apply H3|].
        apply list_lookup_singleton_Some in Hi as [Hi [= <- <-]].
        pose proof (f_equal length H2) as Hlen. rewrite length_map, length_take in Hlen. cbn [length] in Hlen.
        unfold thread_ok. rewrite bool_decide_false by lia. assert (stable false any) as Hst by apply stable_True.
        split; [by exists any|]. split; [|by left; right; right].
        exists any. split; [done|]. split; [done|by apply connection_safe]. }
  destruct (IH g1 g2 e2 Hg1 Hs E2) as [Hg2 Hm2]. split; [done|]. intros Hn. rewrite Hm2 by (by rewrite Hm1). by apply Hm1.
Qed.

Lemma workers_modes w : inv w ->
  modes_process (server_workers malloc sha1 sfuel status_ptr pid can_create server_id env junk w).
Proof using HX.
  intros Hw. constructor; [done|done|]. intros i body t Hi. unfold thread_ok.
  assert (forall ctl, stable ctl any) as Hst by (intros; apply stable_True).
  destruct i as [|[|i]]; [| |done]; injection Hi as <- <-; cbn [bool_decide decide_rel].
  - rewrite bool_decide_false by done. split; [|split; [by exists any|by left; left]].
    exists any. split; [done|]. split; [done|]. intros n. by apply (run_body_safe NORMAL n).
  - rewrite bool_decide_true by done. split; [|split; [by exists any|by left; right; left]].
    exists any. split; [done|]. split; [done|]. intros n. by apply (run_body_safe CONTROL n).
Qed.
End Modes.

(** * From the command line on *)

Section Data.
Context {Q : Type} `{FifoLog Q client_ctx_t}.
Variables nmax cmax : Z.

(** The invariant of [System] on the table and the log, whatever the control
    state is. *)
Definition data_ok (w : replica Q) : Prop := exists a, replica_ok nmax cmax (set_r_ctl ctl_init w) a.

Lemma data_ok_inv malloc sha1 sfuel status_ptr pid can_create : malloc_ok malloc ->
  data_inv malloc sha1 sfuel status_ptr pid can_create data_ok ctx_ok.
Proof.
  intros Hm. constructor.
  - intros w w' E1 E2 [a Ha]. exists a. by apply (replica_ok_ext _ _ (set_r_ctl ctl_init w)).
  - done.
  - intros w c t r q [a Ha] Hc E. destruct (put_ok nmax cmax c (set_r_ctl ctl_init w) a t q r Ha Hc E) as [a' Ha'].
    by exists a'.
  - intros w t o q [a Ha] Ht E. destruct (lq_take_spec (r_log w) a t (rk_log _ _ _ _ Ha)) as (q' & E' & Hq).
    rewrite E in E'. injection E' as -> ->. destruct (taken_ok _ _ q' t _ a Ha Hq) as [H1 H2].
    split; [by eexists|exact H2].
  - intros w t n q [a Ha] Ht E. destruct (lq_count_spec (r_log w) a t (rk_log _ _ _ _ Ha) Ht) as (q' & E' & Hq).
    rewrite E in E'. injection E' as -> ->. exists a. destruct Ha as [H1 H2 H3 H4 H5 H6 H7 H8]. by constructor.
  - intros w c r c' d [a Ha] Hc E. exists a. apply (replica_ok_db _ _ d (set_r_ctl ctl_init w) a Ha).
    by apply (handle_storage_wf malloc sha1 sfuel c (r_db w) r c' d Hm (rk_db _ _ _ _ Ha) Hc E).
  - intros w name d [a Ha] E. exists a. apply (replica_ok_db _ _ d (set_r_ctl ctl_init w) a Ha).
    eapply export_ok; [exact (rk_db _ _ _ _ Ha)|exact E].
  - intros w n f [a Ha]. exists a. apply (replica_ok_db _ _ _ (set_r_ctl ctl_init w) a Ha).
    by apply upd_files_wf, (rk_db _ _ _ _ Ha).
Qed.

(** What the connection thread has read of some peer when it dispatches a
    request ([handle_connection] up to there). *)
Definition parsed (c : client_ctx_t) : Prop :=
  exists server_id rand malloc_bytes can_create fuel fd input st config n sb b (w w' : replica Q),
    read_fields (parse_kv st) true (init_buf_fd input)
      {| cn_ctx := set_cc_fd fd init_client_ctx; cn_replies := []; cn_config := config |} = Ret (FLDone, n, sb, b)
    /\ read_payload server_id rand malloc_bytes can_create fuel sb (cn_ctx n) w = Ret (c, w').

Lemma parsed_ok c : parsed c -> ctx_ok c.
Proof.
  intros (server_id & rand & mb & cc & fuel & fd & input & st & config & n & sb & b & w & w' & E1 & E2).
  assert (ctx_ok (cn_ctx n)) as Hn.
  { eapply (read_fields_keeps _ true (fun n => ctx_ok (cn_ctx n))); [| |exact E1].
    - intros ? ? ? ? ?. apply parse_kv_keeps.
    - exact (Z.le_refl 0). }
  unfold read_payload in E2. cbv zeta in E2. case_if; [|by injection E2 as <- _].
  by apply bind_Ret_inv in E2 as ([data fd1] & _ & [= <- _]).
Qed.
End Data.

Lemma no_data_inv {Q} `{FifoLog Q client_ctx_t} malloc sha1 sfuel status_ptr pid can_create :
  data_inv malloc sha1 sfuel status_ptr pid can_create (fun _ : replica Q => True) (fun _ => True).
Proof. by constructor. Qed.

Lemma any_arrival sched : Forall (arrival_ok (fun _ => True)) sched.
Proof. apply Forall_true. by intros []. Qed.

(** * The properties *)

(** C18: mode and state under every schedule of the accesses of all threads of a
    server, with any number of connections that have read any requests. In
    every state that is reached, between any two accesses, the mode is unknown,
    active or passive, and the state and the state to go back to from a quiesce
    are ones this mode allows; once the mode is known it never changes; and as
    long as it is not passive the flag, the exit signal and the thread of
    [chkpt.c] are not there and nothing runs but the two workers and the
    connection threads. *)
Theorem mode_invariant {Q} `{FifoLog Q client_ctx_t} malloc sha1 sfuel status_ptr pid can_create server_id env junk
    (w : replica Q) sched1 e1 g1 sched2 e2 g2 :
  modes_ok (r_ctl w) ->
  runs status_ptr pid can_create server_id env junk sched1
    (server_workers malloc sha1 sfuel status_ptr pid can_create server_id env junk w) = Some (e1, g1) ->
  runs status_ptr pid can_create server_id env junk sched2 g1 = Some (e2, g2) ->
  modes_ok (r_ctl (mem g2))
  /\ (rep_mode (r_ctl (mem g1)) <> UNKNOWN_REP -> rep_mode (r_ctl (mem g2)) = rep_mode (r_ctl (mem g1)))
  /\ (rep_mode (r_ctl (mem g2)) <> PASSIVE_REP ->
      Forall (fun p => modeless malloc sha1 sfuel status_ptr pid can_create server_id env junk p.1) (pool g2)).
Proof.
  intros Hw E1 E2. pose proof (no_data_inv (Q := Q) malloc sha1 sfuel status_ptr pid can_create) as HX.
  destruct (schedule_modes _ _ _ _ _ _ server_id env junk _ _ HX sched1 _ g1 e1
    (workers_modes _ _ _ _ _ _ server_id env junk _ _ HX w (conj Hw I)) (any_arrival _) E1) as [Hg1 _].
  destruct (schedule_modes _ _ _ _ _ _ server_id env junk _ _ HX sched2 g1 g2 e2 Hg1 (any_arrival _) E2) as [Hg2 Hm].
  split; [apply (mp_inv _ _ _ _ _ _ _ _ _ _ _ Hg2)|]. split; [exact Hm|]. intros Hn. apply Forall_lookup.
  intros i [body t] Hi. by destruct (mp_threads _ _ _ _ _ _ _ _ _ _ _ Hg2 i body t Hi) as (_ & _ & [Hb|Hb]).
Qed.

(** C10: a server process, from its command line on and access by access. Whatever
    connections arrive and whatever their peers send, however the threads are
    scheduled and whatever [malloc], [fopen], SHA-1 and the network answer: in
    every state that is reached the two workers run with the id of the third
    argument; the mode is unknown, active or passive, and state, saved state and
    checkpoint thread are ones this mode allows; the hash table is well formed
    and its counter is the size of the data it holds; each of the two queues of
    the message log holds at most fifty requests; and every logged request has a
    length that is not negative. *)
Theorem process_invariant argv o c0 c1 s0 malloc sha1 sfuel status_ptr pid can_create env junk sched es g :
  server_main argv o c0 c1 = Ret s0 -> malloc_ok malloc ->
  Forall (arrival_ok (parsed (Q := log))) sched ->
  runs status_ptr pid can_create (sv_id s0) env junk sched
    (server_workers malloc sha1 sfuel status_ptr pid can_create (sv_id s0) env junk (sv_replica s0)) = Some (es, g) ->
  exists id a, argv !! 3%nat = Some id
    /\ map fst (take 2 (pool g))
       = [run_body malloc sha1 sfuel status_ptr pid can_create (atoi id) env junk NORMAL;
          run_body malloc sha1 sfuel status_ptr pid can_create (atoi id) env junk CONTROL]
    /\ modes_ok (r_ctl (mem g))
    /\ db_wf (r_db (mem g))
    /\ lq_rep (r_log (mem g)) a
    /\ zlen (normal_msgs a) <= 50 /\ zlen (control_msgs a) <= 50
    /\ Forall (fun c => req_ok (req c)) (normal_msgs a ++ control_msgs a).
Proof.
  intros H0 Hm Hs E. apply server_main_Ret in H0 as (id & Hid & Eid & _ & _ & E4).
  pose proof (data_ok_inv (Q := log) 50 50 malloc sha1 sfuel status_ptr pid can_create Hm) as HX.
  assert (inv (data_ok 50 50) (sv_replica s0)) as Hinit.
  { rewrite E4. split; [apply modes_init|]. exists (abs_init 50 50).
    by apply replica_init_ok, MsgLog.log_rep_init. }
  destruct (schedule_modes _ _ _ _ _ _ (sv_id s0) env junk _ _ HX sched _ g es
    (workers_modes _ _ _ _ _ _ (sv_id s0) env junk _ _ HX (sv_replica s0) Hinit)) as [[[Hk [a Ha]] Hw _] _]; [|exact E|].
  { eapply Forall_impl; [exact Hs|]. intros [i|c file]; [done|]. apply parsed_ok. }
  destruct Ha as [_ Hd Hl Hc _ _ Hn Hmx]. exists id, a. rewrite <- Eid.
  split; [exact Hid|]. split; [exact Hw|]. split; [exact Hk|]. split; [exact Hd|]. split; [exact Hl|].
  split; [exact Hn|]. split; [exact Hmx|exact Hc].
Qed.

(** ** Runs *)

(** A fresh server with the order to run in its log: the control worker sets the
    mode and the state; then the replica is quiesced. *)
Definition ordered_replica : replica log := set_r_log (order_logged run_order) (replica_init demo_log).
Definition ordered_steps : list choice := replicate 20 (Run 1).
Definition quiesced_steps : list choice := Arrive quiesce_order None :: replicate 7 (Run 2).

Lemma ordered_runs : exists e1 g1 e2 g2, demo_runs ordered_steps (demo_server ordered_replica) = Some (e1, g1)
  /\ rep_mode (r_ctl (mem g1)) = ACTIVE_REP /\ demo_runs quiesced_steps g1 = Some (e2, g2)
  /\ state (r_ctl (mem g2)) = QUIESCE.
Proof.
  assert (forall o : option (list event * process log), (if o is Some (e, g) then (rep_mode (r_ctl (mem g)) =? ACTIVE_REP)
      && (if demo_runs quiesced_steps g is Some (e', g') then state (r_ctl (mem g')) =? QUIESCE else false) else false) = true ->
    exists e1 g1 e2 g2, o = Some (e1, g1) /\ rep_mode (r_ctl (mem g1)) = ACTIVE_REP
      /\ demo_runs quiesced_steps g1 = Some (e2, g2) /\ state (r_ctl (mem g2)) = QUIESCE) as Hall.
  { intros [[e1 g1]|]; [|discriminate]. intros [Hm Hr]%andb_prop.
    destruct (demo_runs quiesced_steps g1) as [[e2 g2]|] eqn:E; [|discriminate Hr].
    exists e1, g1, e2, g2. split; [reflexivity|]. split; [by apply Z.eqb_eq|]. split; [exact E|by apply Z.eqb_eq]. }
  apply Hall. by vm_compute.
Qed.

Lemma mode_invariant_witness : exists e1 g1 e2 g2,
  demo_runs ordered_steps (demo_server ordered_replica) = Some (e1, g1) /\ rep_mode (r_ctl (mem g1)) = ACTIVE_REP
  /\ demo_runs quiesced_steps g1 = Some (e2, g2) /\ state (r_ctl (mem g2)) = QUIESCE
  /\ modes_ok (r_ctl (mem g2)) /\ rep_mode (r_ctl (mem g2)) = ACTIVE_REP
  /\ chk_thread (r_ctl (mem g2)) = None.
Proof.
  destruct ordered_runs as (e1 & g1 & e2 & g2 & E1 & M1 & E2 & S2). exists e1, g1, e2, g2.
  destruct (mode_invariant dirty_malloc demo_sha1 1 (fun _ => 0) 0 (fun _ => true) 1 demo_env [] ordered_replica
    ordered_steps e1 g1 quiesced_steps e2 g2 modes_init E1 E2) as (Hk & Hm & _).
  assert (rep_mode (r_ctl (mem g2)) = ACTIVE_REP) as M2 by (rewrite Hm; rewrite M1; [reflexivity|discriminate]).
  split; [exact E1|]. split; [exact M1|]. split; [exact E2|]. split; [exact S2|]. split; [exact Hk|].
  split; [exact M2|]. apply (mo_thread _ Hk). rewrite M2. discriminate.
Defined.

(** The addition of [System], read from its connection and executed. *)
Definition demo_request : client_ctx_t :=
  match read_fields (parse_kv 0) true (init_buf_fd demo_input)
    {| cn_ctx := set_cc_fd 9 init_client_ctx; cn_replies := []; cn_config := 0 |} with
  | Ret (FLDone, n, _, _) => cn_ctx n
  | _ => init_client_ctx
  end.

Lemma demo_request_parsed : parsed (Q := log) demo_request.
Proof.
  assert (forall (o : outcome (fl_end * conn * sock_buf_read * fl_bufs)),
    match o with Ret (FLDone, n, _, _) => payload_size (req (cn_ctx n)) =? 0 | _ => false end = true ->
    exists n sb b, o = Ret (FLDone, n, sb, b) /\ match o with Ret (FLDone, n, _, _) => cn_ctx n | _ => init_client_ctx end = cn_ctx n
      /\ payload_size (req (cn_ctx n)) = 0) as Hall.
  { intros [[[[[] n] sb] b]| | |]; try discriminate. intros Hn. exists n, sb, b. split; [reflexivity|].
    split; [reflexivity|]. by apply Z.eqb_eq. }
  destruct (Hall (read_fields (parse_kv 0) true (init_buf_fd demo_input)
    {| cn_ctx := set_cc_fd 9 init_client_ctx; cn_replies := []; cn_config := 0 |})) as (n & sb & b & E & Er & Hn).
  { by vm_compute. }
  exists 0, 0, (fun _ => true), (fun _ => true), 5%nat, 9, demo_input, 0, 0, n, sb, b, (replica_init demo_log), (replica_init demo_log).
  split; [exact E|]. unfold demo_request. rewrite Er. unfold read_payload. cbv zeta.
  by rewrite Hn.
Qed.

Definition demo_process : process log :=
  server_workers dirty_malloc demo_sha1 1 (fun _ => 0) 0 (fun _ => true) 0 demo_env [] (replica_init demo_log).
(** Access by access what [served_2] does in three steps. *)
Definition serving : list choice := Arrive demo_request None :: replicate 3 (Run 2) ++ replicate 17 (Run 0).

Lemma serving_runs : exists es g,
  runs (fun _ => 0) 0 (fun _ => true) 0 demo_env [] serving demo_process = Some (es, g) /\ data_size (r_db (mem g)) = 9.
Proof.
  assert (forall o : option (list event * process log),
    (if o is Some (e, g) then data_size (r_db (mem g)) =? 9 else false) = true ->
    exists es g, o = Some (es, g) /\ data_size (r_db (mem g)) = 9) as Hall.
  { intros [[e g]|]; [|discriminate]. intros Hg. exists e, g. split; [reflexivity|by apply Z.eqb_eq]. }
  apply Hall. by vm_compute.
Qed.

Lemma process_invariant_witness : exists es g,
  server_main demo_argv demo_sockets true true = Ret (demo_started (replica_init demo_log) [])
  /\ runs (fun _ => 0) 0 (fun _ => true) 0 demo_env [] serving demo_process = Some (es, g)
  /\ data_size (r_db (mem g)) = 9 /\ db_wf (r_db (mem g)) /\ modes_ok (r_ctl (mem g)).
Proof.
  assert (server_main demo_argv demo_sockets true true = Ret (demo_started (replica_init demo_log) [])) as H0
    by by vm_compute.
  destruct serving_runs as (es & g & E & Hsize). exists es, g.
  assert (Forall (arrival_ok (parsed (Q := log))) serving) as Hs.
  { apply Forall_cons_2; [exact demo_request_parsed|].
    repeat (apply Forall_cons_2; [exact I|]). apply Forall_nil_2. }
  destruct (process_invariant demo_argv demo_sockets true true _ dirty_malloc demo_sha1 1 (fun _ => 0) 0 (fun _ => true)
    demo_env [] serving es g H0 dirty_malloc_ok Hs E) as (id & a & _ & _ & Hk & Hd & _).
  split; [exact H0|]. split; [exact E|]. split; [exact Hsize|]. split; [exact Hd|exact Hk].
Defined.
